(* ===== verification/_CoqProject ===== *)
-Q . S2P
Prelude.v
Words.v
Store.v
CString.v
BlockList.v
Alloc.v
AllocHeap.v
AllocLemmas.v
Coalesce.v
AllocInit.v
AllocProps.v
AllocFindings.v
AllocWitness.v
Gdt.v
Machine.v
Interrupts.v
InterruptProps.v
Paging.v
PagingLemmas.v
InitPaging.v
PageAlloc.v
PagingProps.v
PageTables.v
PagingWitness.v
Process.v
ProcessLemmas.v
SwitchLemmas.v
SwitchProps.v
Queue.v
Timer.v
Kernel.v
CreateLemmas.v
Create.v
CreateProps.v
KernelMain.v
ProcessWitness.v
X86.v
PortIO.v
Wrappers.v
WrapperLemmas.v
WrapperProps.v
SwitchAsm.v
WrapperWitness.v
Print.v
PrintProps.v
Vga.v
VgaProps.v
Bios.v
BiosProps.v
Exfat.v
ExfatDir.v
ExfatLoad.v
ExfatPath.v
ExfatInit.v
Vbe.v
VbeProps.v
ScreenWitness.v
Real16.v
Real16Lemmas.v
BootSector.v
BootSectorProps.v
BootStart.v
BootLoad.v
SectorBoot.v
BootWitness.v
Stage2.v
Stage2Props.v
VgaMachine.v
Stage2Load.v
BootRegions.v
BootPrepare.v
Stage2Boot.v
ExfatWitness.v
SystemBoot.v
Stage2Witness.v
SystemWitness.v
ArmDrivers.v
ArmProps.v
ArmBoot.v
ArmWitness.v
