(* ===== verification/Prelude.v ===== *)
(** * loofOS: a verification library for the kernel and boot loader

    loofOS is a small operating system for 32-bit x86 (with the beginnings of an
    ARM port).  A boot loader (src/boot) loads the kernel from an exFAT volume
    and enables paging; the kernel (src/kernel and src/arch/x86) sets up its
    tables, its heap, its address space and two user processes, and then switches
    between them at every timer interrupt.  This library models the x86 kernel,
    the boot loader from its first sector on, and the ARM port: all of the C files
    and of the assembly.

    ** How the parts interact

    kernel_main calls, in order, the descriptor tables (gdt.c), the heap
    (alloc.c), the interrupt table and the timer (idt.c, timer.c), the interrupt
    controllers (isr.c), paging (paging.c) and processes (process.c).  The
    interrupt table, the page directories and tables, the kernel stacks and the
    process descriptors are objects of the heap, so the layers meet in memory:
    the theorems of the upper layers say which objects they touch and that the
    heap stays in order.  The timer interrupt calls switch_process, which changes
    the page directory in force and therefore what addresses mean.

    The boot sectors (mbr.s from a disk, boot.s from a CD) run in real mode: they
    read the rest of the loader, leave the number of the drive and the size of its
    sectors in memory, where bios.c finds them, and enter protected mode with flat
    segments.  The second stage of the boot loader (stage2.c) prints through the output
    function of the VGA console, mounts the volume and reads files with exfat.c,
    which reads sectors through bios.c into memory, scans memory, maps it,
    and sets a video mode with vbe.c; the firmware behind the BIOS interrupt is an
    interface ([Bios16], [Firmware], [Disk], [MemoryMap], [Vbe]) that concrete machines
    implement in the files of witnesses.

    ** The model

    - Outcomes ([res], this file).  A computation returns, or is undefined (a
      shift the C standard leaves undefined, an access that faults), or does not
      come back.  A loop ([loop]) has a budget of 2^64 iterations, counted in
      binary so that it runs; [loop_total] gives that a loop with a decreasing
      bound returns, [loop_diverges] that one that can never leave does not.  The
      budget is never what ends a loop of this code: its counters have 32 bits,
      and the theorems show the number of iterations.
    - Words (Words.v).  Integers are [Z] with the wrap-around of their C type;
      packed bit-fields are lists of widths and values.
    - Memory (Store.v).  The code is written against the class [Store], a byte
      read and a byte write that may fault; theorems hold on a [Window], a set of
      addresses where accesses succeed.  Two instances: flat memory, and the
      machine below.
    - The machine (Machine.v).  Physical memory, the directory register, the bytes
      sent to ports, and the global variables of the C files.  Virtual addresses
      are translated by the page walk of the processor ([walk]); addresses from
      KERNEL_BASE on are taken to be mapped to the first GiB, which
      [init_paging_ok] and [kernel_window_walk] show of the kernel's directory.

    ** The files, the code they model and what they show

    - CString.v: common/string.c.  memset, memcpy (overlaps included), memcmp.
    - Alloc.v: arch/x86/mm/alloc.c.  BlockList.v is the specification: a heap is a
      list of blocks, an allocation is first fit with halving.  AllocHeap.v says
      what it means for memory to hold such a list; AllocLemmas.v, Coalesce.v and
      AllocInit.v treat the loops; AllocProps.v has the theorems: refinement of
      the specification, exclusive ranges, alignment, initialisation, coalescing,
      and that any sequence of allocations keeps the kernel heap in order.
      AllocFindings.v shows where the code departs from its comments: freeing
      never merges blocks and can damage live data, and a full heap overruns.
      AllocWitness.v has concrete heaps.
    - Gdt.v: core/gdt.c, against the processor's reading of descriptors.
    - Interrupts.v, InterruptProps.v: core/idt.c, core/isr.c, core/panic.c.  The
      gates the processor reads, and the controllers as the state machines of
      their data sheet.
    - Paging.v: mm/paging.c and paging.s.  PagingLemmas.v defines what a directory
      maps and when the frame list is in order ([chain]); InitPaging.v, PageAlloc.v,
      PagingProps.v and PageTables.v show that init_paging sets both up, that
      allocate_page is a map update, what a fresh page table does, and that
      free_page does not free.  PagingWitness.v has concrete address spaces.
    - Process.v: kernel/proc/process.c and process.s.  ProcessLemmas.v has the ring
      of descriptors in memory and its specification, the round robin on lists;
      SwitchLemmas.v and SwitchProps.v show that switch_process implements it,
      that contexts are saved and restored exactly and that no running process
      starves, whichever others are halted; Queue.v treats insertion and the switch
      that finds every process halted.
    - Timer.v: drivers/timer.c, with the counter chip of its data sheet.
    - Kernel.v: kernel/kernel.c; the start-up sequence up to the creation of processes,
      from any memory whose byte after the heap is no free block.  CreateLemmas.v, Create.v and CreateProps.v put the
      parts of create_process together: a new process with its own address space,
      at the end of the queue, and everything else as it was; CreateProps.v also has
      what becomes of a process that has ended.  KernelMain.v has the whole of
      kernel_main, from memory whose words in the place of the page tables are not
      present to the first instruction of the first process.  ProcessWitness.v has concrete machines.
    - X86.v: the processor the assembly runs on: registers, a stack in memory,
      interrupt delivery and return, and a second machine whose stack is a list,
      which the first simulates ([vsteps_sim]).  PortIO.v: arch/x86/core/port.s and
      load_gdt_segments of core/gdt.s, instruction by instruction.  Wrappers.v: the
      interrupt wrappers of core/isr.s and drivers/timer.s and switch_context of
      process.s, with the C handler as a function on the machine.  WrapperLemmas.v
      and WrapperProps.v show that an interrupt whose handler changes nothing is
      not seen by the program it interrupts, that the timer interrupt resumes
      the process the handler chose with the state saved for it, and which
      exceptions return to a stack pointer off by the error code.  SwitchAsm.v
      shows that the instructions of switch_context do what Process.v takes them to
      do.  WrapperWitness.v has a concrete processor.
    - Print.v: boot/x86/print.c, for any output function.  PrintProps.v shows that
      print outputs the rendering of its format string, that numbers read back,
      and that [%s] does not stop.
    - Vga.v: boot/x86/vesa/vga.c, on memory with a CRT controller whose behaviour
      is the interface [Crtc].  VgaProps.v shows that it implements a screen of
      2000 cells with a cursor, and that printed text appears on it.
    - Bios.v, BiosProps.v: boot/x86/bios.c and bios.s, and the packed structures of
      the boot loader as lists of fields.  Sectors are read in order
      and copied to their place; the memory map is stored as far as it fits.
    - Exfat.v: boot/x86/fs/exfat.c and exfat.h.  ExfatDir.v has the abstract
      directory, a list of files, and that the search is the search in it;
      ExfatLoad.v that loading a file follows its chain in the FAT; ExfatPath.v that
      reading a path follows the directories on the disk; ExfatInit.v what mounting
      leaves in memory.  ExfatWitness.v has a disk with a kernel on it.
    - Vbe.v, VbeProps.v: boot/x86/vesa/vbe.c.  The first suitable mode of the list
      is set.  ScreenWitness.v has a recording console, a CRT controller and a display
      adapter.
    - Real16.v: the processor in real mode, as far as the boot sectors use it, with
      segments, address line 20, the stack, and the interrupts of the BIOS;
      Real16Lemmas.v has its memory and stack.  BootSector.v: boot/x86/mbr.s and
      boot.s, with their data.  BootSectorProps.v shows that a string is
      printed and what the test of address line 20 does; BootStart.v and BootLoad.v
      follow the code from the start to the read, and SectorBoot.v goes on to
      protected mode and puts it together: what is read and from where, for
      sectors of 512 bytes times a power of two, what is printed, the segments of the second stage, how
      the sectors stop when they cannot read, and that the test of address line
      20 never finds it disabled.  BootWitness.v has a disk and a CD.
    - Stage2.v, Stage2Props.v: boot/x86/stage2.c with paging.s and kernel_jump.s.
      What the loader's page directory maps, and that the sequence ends before the kernel since it calls the BIOS with paging
      enabled.  [Console] is what the loader relies on when it prints, a way to
      print that keeps a transcript; Stage2Load.v loads the kernel and the driver with
      any console.  BootRegions.v names the memory that the loader uses and
      BootPrepare.v composes the phases, each of which changes some parts only.
      VgaMachine.v shows that the screen of vga.c is such a console, and Stage2Boot.v
      puts all of it together: from any screen, with the kernel on the disk, to the
      page directory and the fault.  SystemBoot.v composes it with the boot sector of
      a disk: from the first sector to the fault.  Stage2Witness.v and SystemWitness.v
      boot from a disk.
    - ArmDrivers.v, ArmProps.v: arch/arm/peripherals, drivers, mm and
      util.s, on any devices.  memzero against memset, the order in which the serial
      ports are programmed, what is sent and what is lost, the flags that are waited
      for, and the timer.  ArmBoot.v: boot/arm/boot.s, util.s and drivers/irq.s, the vectors and
      the way to kernel_main with memory cleared.  ArmWitness.v has a board.

    Prelude.v (this file), Words.v and Store.v carry what the components share:
    the outcome monad and its loops, integer and bit-field lemmas, memory
    windows.

    ** Bounds and assumptions

    The heap theorems take requests below 2^30 bytes (2^28 for the kernel heap)
    and assume that the byte after the last block is not taken for a free block
    ([quiet], [heap_ends]): kernel_heap.end names that byte as part of the heap.  A
    heap lies in one half of the address space ([heap_at]), as the kernel's does:
    across the middle the signed addition of split_block is undefined.
    The theorems on timer switches take user programs that leave the kernel's memory
    alone ([user_run]) and processes that are running or halted ([alive]); a ring 0
    context needs a stack pointer that is not 0.
    The exFAT theorems take sectors of 512 bytes, volumes whose clusters are below
    the sector number 2^23 (beyond, get_heap_lba overflows), ASCII names of at most
    255 characters, and, for files that are not contiguous, clusters whose FAT
    entries are where the code looks for them ([entry_in_place], all of them with
    one sector in a cluster).
    The theorems on the boot sectors take drives whose sectors are a power of two
    of at least 512 bytes (other sizes make the count of sectors loop for good,
    [sector_size_loop_diverges], or are rounded down), a BIOS that starts them with
    the direction flag clear, and data that lies behind the code in the first
    sector and behind it in the part that is read.
    Addresses the linker chooses (the arrays kernel_memory, gdt and tss, the
    interrupt wrappers) are parameters.  Memory is assumed present at every
    physical address.  The wrappers call C code: a handler is assumed to keep the
    calling convention, that is to leave the words its caller pushed alone; a
    selector is pushed as a zero-extended word; and the kernel stack has room for
    what the wrapper pushes.

    ** What is not modelled

    Accessed and dirty bits and the translation cache; the privilege checks of
    the page walk; the checks of a segment register load against its descriptor;
    lgdt, lidt and ltr of the kernel, which change no modelled state; interrupts that
    arrive while the kernel or a boot sector runs, and the double fault wrapper's
    return; the entry into an exception on ARM, which has no code of its own in the
    repository (the vectors branch to C functions), and the kernel_main of that port,
    which is not in the repository; build files and linker scripts. *)

From stdpp Require Export base numbers list option tactics sorting.

#[global] Open Scope Z_scope.

(** [lia] knows division and modulus by constants. *)
Ltac Zify.zify_post_hook ::= Z.div_mod_to_equations.

(** ** Outcomes of C code

    A C computation returns a value, reaches behaviour the C standard leaves
    undefined or a processor fault ([Undef]), or does not come back
    ([Diverge]). *)

Inductive res (A : Type) : Type :=
  | Ok (a : A)
  | Undef
  | Diverge.
Arguments Ok {A} a.
Arguments Undef {A}.
Arguments Diverge {A}.

#[export] Instance res_ret : MRet res := fun _ a => Ok a.
#[export] Instance res_bind : MBind res := fun _ _ f m =>
  match m with
  | Ok a => f a
  | Undef => Undef
  | Diverge => Diverge
  end.

#[export] Instance res_eq_dec {A} `{EqDecision A} : EqDecision (res A).
Proof. solve_decision. Defined.

Lemma bind_ok {A B} (m : res A) (f : A -> res B) a : m = Ok a -> m ≫= f = f a.
Proof. by intros ->. Qed.

Lemma bind_undef {A B} (m : res A) (f : A -> res B) : m = Undef -> m ≫= f = Undef.
Proof. by intros ->. Qed.

Lemma bind_diverge {A B} (m : res A) (f : A -> res B) : m = Diverge -> m ≫= f = Diverge.
Proof. by intros ->. Qed.

Lemma bind_ok_inv {A B} (m : res A) (f : A -> res B) b :
  m ≫= f = Ok b -> exists a, m = Ok a /\ f a = Ok b.
Proof. destruct m; cbn; intros; try discriminate; eauto. Qed.

(** ** Loops

    A C loop is a body that either continues with a new loop state ([inl]) or
    leaves the loop with a result ([inr]).  [loop] runs it with a budget of
    2^64 iterations, which is doubled up in binary so that it computes; a loop
    that is still running then is reported as [Diverge].  No terminating loop
    of the modelled code runs longer: its counters are 32 bits wide. *)

Section Loop.
Context {S R : Type} (body : S -> res (S + R)).

Fixpoint ploop (p : positive) (s : S) : res (S + R) :=
  match p with
  | xH => body s
  | xO q =>
      match ploop q s with
      | Ok (inl s') => ploop q s'
      | o => o
      end
  | xI q =>
      match body s with
      | Ok (inl s') =>
          match ploop q s' with
          | Ok (inl s'') => ploop q s''
          | o => o
          end
      | o => o
      end
  end.

Definition budget : positive := 18446744073709551616%positive.

Definition loop (s : S) : res R :=
  match ploop budget s with
  | Ok (inr r) => Ok r
  | Ok (inl _) => Diverge
  | Undef => Undef
  | Diverge => Diverge
  end.

(** [n] iterations in unary, the reference the proofs use. *)
Fixpoint nloop (n : nat) (s : S) : res (S + R) :=
  match n with
  | O => Ok (inl s)
  | Datatypes.S n =>
      match body s with
      | Ok (inl s') => nloop n s'
      | o => o
      end
  end.

Lemma nloop_add m n s :
  nloop (m + n) s = match nloop m s with Ok (inl s') => nloop n s' | o => o end.
Proof.
  revert s; induction m as [|m IH]; intros s; cbn; [done|].
  destruct (body s) as [[s'|r]| |]; auto.
Qed.

Lemma ploop_nloop p s : ploop p s = nloop (Pos.to_nat p) s.
Proof.
  revert s; induction p as [p IH|p IH|]; intros s; cbn [ploop].
  - rewrite Pos2Nat.inj_xI. cbn [nloop].
    destruct (body s) as [[s'|r]| |]; auto.
    replace (2 * Pos.to_nat p)%nat with (Pos.to_nat p + Pos.to_nat p)%nat by lia.
    rewrite nloop_add, <- !IH.
    destruct (ploop p s') as [[s''|r]| |]; auto.
  - rewrite Pos2Nat.inj_xO.
    replace (2 * Pos.to_nat p)%nat with (Pos.to_nat p + Pos.to_nat p)%nat by lia.
    rewrite nloop_add, <- !IH.
    destruct (ploop p s) as [[s''|r]| |]; auto.
  - change (Pos.to_nat 1) with 1%nat. cbn [nloop].
    by destruct (body s) as [[s'|r]| |].
Qed.

(** Runs that leave the loop after [n] iterations with outcome [o]. *)
Inductive leaves : nat -> S -> res R -> Prop :=
  | leaves_ret s r : body s = Ok (inr r) -> leaves 1 s (Ok r)
  | leaves_undef s : body s = Undef -> leaves 1 s Undef
  | leaves_diverge s : body s = Diverge -> leaves 1 s Diverge
  | leaves_next n s s' o :
      body s = Ok (inl s') -> leaves n s' o -> leaves (Datatypes.S n) s o.

Definition out (o : res R) : res (S + R) :=
  match o with Ok r => Ok (inr r) | Undef => Undef | Diverge => Diverge end.

Lemma leaves_nloop n s o m : leaves n s o -> (n <= m)%nat -> nloop m s = out o.
Proof.
  intros H; revert m; induction H as [s r E|s E|s E|n s s' o E H IH];
    intros m Hm; (destruct m; [lia|]); cbn; rewrite E; cbn; auto.
  apply IH; lia.
Qed.

Lemma leaves_loop n s o :
  leaves n s o -> (Z.of_nat n <= Zpos budget)%Z -> loop s = o.
Proof.
  intros H Hn. unfold loop. rewrite ploop_nloop.
  rewrite (leaves_nloop _ _ _ _ H) by lia.
  by destruct o.
Qed.

(** Total correctness: an invariant, a variant and a postcondition. *)
Lemma loop_total (I : S -> Prop) (V : S -> Z) (Q : R -> Prop) s :
  I s -> (V s < Zpos budget)%Z ->
  (forall t, I t -> (0 <= V t)%Z /\
     exists o, body t = Ok o /\
       match o with inl t' => I t' /\ (V t' < V t)%Z | inr r => Q r end) ->
  exists r, loop s = Ok r /\ Q r.
Proof.
  intros HI HV Hbody.
  assert (forall k t, I t -> (V t <= Z.of_nat k)%Z ->
    exists n r, (n <= Datatypes.S k)%nat /\ leaves n t (Ok r) /\ Q r) as Hall.
  { induction k as [|k IH]; intros t Ht Hk;
      destruct (Hbody t Ht) as [H0 [o [Eo Ho]]]; destruct o as [t'|r].
    - destruct Ho as [Ht' Hlt]. destruct (Hbody t' Ht'); lia.
    - exists 1%nat, r. split; [lia|]. split; [by constructor|done].
    - destruct Ho as [Ht' Hlt].
      destruct (IH t' Ht' ltac:(lia)) as (n & r & Hn & Hl & HQ).
      exists (Datatypes.S n), r. split; [lia|]. split; [|done]. by econstructor.
    - exists 1%nat, r. split; [lia|]. split; [by constructor|done]. }
  destruct (Hbody s HI) as [H0 _].
  destruct (Hall (Z.to_nat (V s)) s HI ltac:(lia)) as (n & r & Hn & Hl & HQ).
  exists r. split; [|done]. eapply leaves_loop; [done|]. lia.
Qed.

(** The same where an iteration may be undefined: then the loop may be. *)
Lemma loop_defined (I : S -> Prop) (V : S -> Z) (Q : R -> Prop) s :
  I s -> (V s < Zpos budget)%Z ->
  (forall t, I t -> (0 <= V t)%Z /\
     match body t with
     | Ok (inl t') => I t' /\ (V t' < V t)%Z | Ok (inr r) => Q r | Undef => True | Diverge => False
     end) ->
  loop s = Undef \/ exists r, loop s = Ok r /\ Q r.
Proof.
  intros HI HV Hbody.
  assert (forall k t, I t -> (V t <= Z.of_nat k)%Z ->
    exists n o, (n <= Datatypes.S k)%nat /\ leaves n t o /\ (o = Undef \/ exists r, o = Ok r /\ Q r)) as Hall.
  { induction k as [|k IH]; intros t Ht Hk; destruct (Hbody t Ht) as [H0 Ho];
      destruct (body t) as [[t'|r]| |] eqn:E; try done.
    - destruct Ho as [Ht' Hlt]. destruct (Hbody t' Ht'); lia.
    - exists 1%nat, (Ok r). split; [lia|]. split; [by constructor|eauto].
    - exists 1%nat, Undef. split; [lia|]. split; [by constructor|by left].
    - destruct Ho as [Ht' Hlt]. destruct (IH t' Ht' ltac:(lia)) as (n & o & Hn & Hl & HQ).
      exists (Datatypes.S n), o. split; [lia|]. split; [by econstructor|done].
    - exists 1%nat, (Ok r). split; [lia|]. split; [by constructor|eauto].
    - exists 1%nat, Undef. split; [lia|]. split; [by constructor|by left]. }
  destruct (Hbody s HI) as [H0 _].
  destruct (Hall (Z.to_nat (V s)) s HI ltac:(lia)) as (n & o & Hn & Hl & HQ).
  rewrite (leaves_loop n s o Hl) by lia. exact HQ.
Qed.

(** A loop whose states never let it leave diverges. *)
Lemma loop_diverges (I : S -> Prop) s :
  I s -> (forall t, I t -> exists t', body t = Ok (inl t') /\ I t') ->
  loop s = Diverge.
Proof.
  intros HI Hbody. unfold loop. rewrite ploop_nloop.
  assert (forall n t, I t -> exists t', nloop n t = Ok (inl t')) as H.
  { induction n as [|n IH]; intros t Ht; cbn; [eauto|].
    destruct (Hbody t Ht) as (t' & -> & Ht'). by apply IH. }
  by destruct (H (Pos.to_nat budget) s HI) as [t' ->].
Qed.
End Loop.

Lemma budget_eq : Zpos budget = 18446744073709551616.
Proof. reflexivity. Qed.
#[global] Opaque budget.

(** A [for (i = 0; i < n; i++)] loop over a state threaded through the body. *)
Definition for_loop {S} (lo hi : Z) (f : Z -> S -> res S) (s : S) : res S :=
  loop (fun '(i, s) =>
    if i <? hi then s' ← f i s; mret (inl (i + 1, s')) else mret (inr s)) (lo, s).

(** ** Automation *)

Create HintDb loof.

Ltac res_step :=
  match goal with
  | H : mret _ = Ok _ |- _ => injection H as H; subst
  | H : Ok _ = Ok _ |- _ => injection H as H; subst
  | H : Undef = Ok _ |- _ => discriminate H
  | H : Diverge = Ok _ |- _ => discriminate H
  | H : _ ≫= _ = Ok _ |- _ =>
      let a := fresh "a" in let E := fresh "E" in
      apply bind_ok_inv in H as (a & E & H)
  end.
Ltac res_inv := repeat res_step; cbn in *; repeat res_step.

(** Reduce the binds of a computation, and nothing else. *)
Ltac bnd := cbn [mbind res_bind mret res_ret].

(** Replace the loop of the goal by its result, with an invariant, a variant and
    a postcondition. *)
Ltac use_loop I V Q :=
  match goal with
  | |- context [loop ?body ?s] =>
      let r := fresh "r" in let E := fresh "Eloop" in let HQ := fresh "HQ" in
      destruct (loop_total body I V Q s) as (r & E & HQ); [| | |rewrite E; bnd]
  end.

(** Decide boolean integer comparisons in the goal by [lia]. *)
Ltac zbool :=
  repeat match goal with
  | |- context [?a <? ?b] =>
      first [ replace (a <? b) with true by lia | replace (a <? b) with false by lia ]
  | |- context [?a <=? ?b] =>
      first [ replace (a <=? b) with true by lia | replace (a <=? b) with false by lia ]
  | |- context [?a =? ?b] =>
      first [ replace (a =? b) with true by lia | replace (a =? b) with false by lia ]
  | |- context [?a >? ?b] =>
      first [ replace (a >? b) with true by lia | replace (a >? b) with false by lia ]
  end.

Lemma for_loop_total {S} (I : Z -> S -> Prop) (lo hi : Z) (f : Z -> S -> res S) s :
  lo <= hi -> hi - lo < 18446744073709551616 -> I lo s ->
  (forall i t, lo <= i < hi -> I i t -> exists t', f i t = Ok t' /\ I (i + 1) t') ->
  exists s', for_loop lo hi f s = Ok s' /\ I hi s'.
Proof.
  intros Hle Hb HI Hf.
  apply (loop_total _ (fun '(i, t) => lo <= i <= hi /\ I i t) (fun '(i, _) => hi - i) (I hi)).
  - split; [lia|done].
  - rewrite budget_eq. lia.
  - intros [i t] [Hi HIt]. split; [lia|].
    destruct (Z.ltb_spec i hi) as [Hlt|Hge].
    + destruct (Hf i t ltac:(lia) HIt) as (t' & E & HI').
      exists (inl (i + 1, t')). rewrite E. cbn. repeat split; auto; lia.
    + exists (inr t). split; [done|]. by replace hi with i by lia.
Qed.
