(* ===== verification/Words.v ===== *)
(** * Machine words and bit-fields

    Integers of the C code are kept as [Z] with the wrap-around of their type
    written out ([u8], [u16], [u32], [i32]).  The two shifts the code performs
    on 32-bit operands are partial: the C standard leaves a shift by the width
    or more, and a signed shift into the sign bit, undefined.

    A packed C structure of bit-fields is a list of (width, value) pairs, first
    field in the least significant bits, which is the layout the x86 ABI gives
    to [__attribute__((packed))] bit-fields; [pack] is the word it occupies and
    [unpack] reads the fields back. *)

From Stdlib Require Ascii String.
From S2P Require Export Prelude.

#[local] Open Scope Z_scope.

Definition u8 (z : Z) : Z := z mod 2 ^ 8.
Definition u16 (z : Z) : Z := z mod 2 ^ 16.
Definition u32 (z : Z) : Z := z mod 2 ^ 32.
Definition i32 (z : Z) : Z := (z + 2 ^ 31) mod 2 ^ 32 - 2 ^ 31.

(** [x >> n] on a [uint32_t]. *)
Definition shr32 (x n : Z) : res Z :=
  if (0 <=? n) && (n <? 32) then Ok (Z.shiftr x n) else Undef.

(** [1 << n] on an [int]: bit 31 is the sign bit. *)
Definition shl1 (n : Z) : res Z :=
  if (0 <=? n) && (n <? 31) then Ok (Z.shiftl 1 n) else Undef.

(** [x << n] on a bit-field, which is promoted to [int]. *)
Definition shl_int (x n : Z) : res Z :=
  if Z.shiftl x n <? 2 ^ 31 then Ok (Z.shiftl x n) else Undef.

(** Arithmetic on [int]: overflow is undefined. *)
Definition to_int (z : Z) : res Z :=
  if (- 2 ^ 31 <=? z) && (z <? 2 ^ 31) then Ok z else Undef.

(** [x << n] on a [uint32_t], and division of one. *)
Definition shl32 (x n : Z) : res Z :=
  if (0 <=? n) && (n <? 32) then Ok (u32 (Z.shiftl x n)) else Undef.
Definition div32 (x y : Z) : res Z := if y =? 0 then Undef else Ok (x / y).

Fixpoint pack (fields : list (Z * Z)) : Z :=
  match fields with
  | [] => 0
  | (w, v) :: rest => Z.lor (Z.land v (Z.ones w)) (Z.shiftl (pack rest) w)
  end.

Fixpoint unpack (widths : list Z) (z : Z) : list Z :=
  match widths with
  | [] => []
  | w :: rest => Z.land z (Z.ones w) :: unpack rest (Z.shiftr z w)
  end.

Definition total_width (widths : list Z) : Z := foldr Z.add 0 widths.

(** ** Word lemmas *)

Lemma u32_range z : 0 <= u32 z < 4294967296.
Proof. unfold u32. apply Z.mod_pos_bound. lia. Qed.

Lemma u32_small z : 0 <= z < 4294967296 -> u32 z = z.
Proof. intros. unfold u32. apply Z.mod_small. lia. Qed.

Lemma u8_range z : 0 <= u8 z < 256.
Proof. unfold u8. apply Z.mod_pos_bound. lia. Qed.

Lemma u8_small z : 0 <= z < 256 -> u8 z = z.
Proof. intros. unfold u8. apply Z.mod_small. lia. Qed.

Lemma u32_add_l a b : u32 (u32 a + b) = u32 (a + b).
Proof. unfold u32. by rewrite Zplus_mod_idemp_l. Qed.

Lemma u32_sub_l a b : u32 (u32 a - b) = u32 (a - b).
Proof. unfold u32. by rewrite Zminus_mod_idemp_l. Qed.

Lemma shl1_ok n : 0 <= n < 31 -> shl1 n = Ok (2 ^ n).
Proof.
  intros H. unfold shl1. zbool. cbn. by rewrite Z.shiftl_mul_pow2, Z.mul_1_l by lia.
Qed.

Lemma shr32_ok x n : 0 <= n < 32 -> shr32 x n = Ok (x / 2 ^ n).
Proof.
  intros H. unfold shr32. zbool. cbn. by rewrite Z.shiftr_div_pow2 by lia.
Qed.

Lemma shl_int_ok x n : 0 <= n -> x * 2 ^ n < 2 ^ 31 -> shl_int x n = Ok (x * 2 ^ n).
Proof. intros. unfold shl_int. rewrite Z.shiftl_mul_pow2 by done. by zbool. Qed.

Lemma to_int_ok z : - 2 ^ 31 <= z < 2 ^ 31 -> to_int z = Ok z.
Proof. intros H. unfold to_int. by replace ((- 2 ^ 31 <=? z) && (z <? 2 ^ 31)) with true by lia. Qed.

(** Arithmetic on [int] that does not overflow. *)
Ltac int_ok :=
  repeat match goal with |- context [to_int ?z] => rewrite (to_int_ok z) by lia; bnd end.

Lemma shl32_ok x n : 0 <= n < 32 -> shl32 x n = Ok (u32 (x * 2 ^ n)).
Proof. intros H. unfold shl32. zbool. cbn [andb]. by rewrite Z.shiftl_mul_pow2 by lia. Qed.

Lemma div32_ok x y : 0 < y -> div32 x y = Ok (x / y).
Proof. intros H. unfold div32. by zbool. Qed.

Lemma i32_small z : - 2 ^ 31 <= z < 2 ^ 31 -> i32 z = z.
Proof. intros H. unfold i32. rewrite Z.mod_small; lia. Qed.

(** The bits from [n] on of a 32-bit word. *)
Lemma page_mask w : 0 <= w < 2 ^ 32 -> Z.land w 4294963200 = w / 4096 * 4096.
Proof.
  intros Hw. change 4294963200 with (Z.shiftl (Z.ones 20) 12).
  apply Z.bits_inj'. intros n Hn.
  replace (w / 4096 * 4096) with (Z.shiftl (Z.shiftr w 12) 12)
    by (rewrite Z.shiftl_mul_pow2, Z.shiftr_div_pow2 by lia; lia).
  rewrite Z.land_spec, !Z.shiftl_spec by lia.
  destruct (Z.lt_ge_cases n 12).
  { rewrite !(Z.testbit_neg_r _ (n - 12)) by lia. apply andb_false_r. }
  rewrite Z.shiftr_spec by lia. replace (n - 12 + 12) with n by lia.
  destruct (Z.lt_ge_cases n 32).
  - rewrite Z.ones_spec_low by lia. apply andb_true_r.
  - rewrite <- (Z.mod_small w (2 ^ 32)) by done. by rewrite Z.mod_pow2_bits_high by lia.
Qed.

Lemma pow2_pos n : 0 <= n -> 0 < 2 ^ n.
Proof. intros. by apply Z.pow_pos_nonneg. Qed.

Lemma pow2_le m n : 0 <= m <= n -> 2 ^ m <= 2 ^ n.
Proof. intros. apply Z.pow_le_mono_r; lia. Qed.

Lemma pow2_lt m n : 0 <= m < n -> 2 ^ m < 2 ^ n.
Proof. intros. apply Z.pow_lt_mono_r; lia. Qed.

Lemma pow2_succ n : 0 <= n -> 2 ^ (n + 1) = 2 * 2 ^ n.
Proof. intros. rewrite Z.pow_add_r by lia. lia. Qed.

(** [7]-bit and [1]-bit fields of a byte. *)
Lemma land_127 z : Z.land z 127 = z mod 128.
Proof. apply (Z.land_ones z 7). lia. Qed.

Lemma land_1 z : Z.land z 1 = z mod 2.
Proof. apply (Z.land_ones z 1). lia. Qed.

Lemma shiftr_1 z : Z.shiftr z 1 = z / 2.
Proof. apply (Z.shiftr_div_pow2 z 1). lia. Qed.

Lemma shiftr_7 z : Z.shiftr z 7 = z / 128.
Proof. apply (Z.shiftr_div_pow2 z 7). lia. Qed.

(** A disjoint [lor] is a sum. *)
Lemma lor_add a b n :
  0 <= n -> 0 <= a < 2 ^ n -> Z.lor a (Z.shiftl b n) = a + 2 ^ n * b.
Proof.
  intros Hn Ha.
  assert (Z.land a (Z.shiftl b n) = 0) as Hd.
  { apply Z.bits_inj'; intros i Hi. rewrite Z.land_spec, Z.bits_0.
    rewrite <- (Z.mod_small a (2 ^ n)) by done.
    destruct (Z.lt_ge_cases i n).
    - rewrite Z.shiftl_spec_low by lia. apply andb_false_r.
    - by rewrite Z.mod_pow2_bits_high by lia. }
  rewrite <- Z.lxor_lor, <- Z.add_nocarry_lxor, Z.shiftl_mul_pow2 by done. lia.
Qed.

Lemma lxor_pow2_ne x k : 0 <= k -> Z.lxor x (2 ^ k) <> x.
Proof.
  intros Hk Hx. pose proof (pow2_pos k Hk).
  apply (f_equal (Z.lxor x)) in Hx.
  rewrite <- Z.lxor_assoc, Z.lxor_nilpotent, Z.lxor_0_l in Hx. lia.
Qed.

(** ** Packed structures *)

Lemma pack_cons w v rest :
  0 <= w -> pack ((w, v) :: rest) = v mod 2 ^ w + 2 ^ w * pack rest.
Proof.
  intros Hw. cbn [pack]. rewrite Z.land_ones by done.
  apply lor_add; [done|]. apply Z.mod_pos_bound, pow2_pos, Hw.
Qed.

Lemma unpack_cons w rest z :
  0 <= w -> unpack (w :: rest) z = z mod 2 ^ w :: unpack rest (z / 2 ^ w).
Proof.
  intros Hw. cbn [unpack]. by rewrite Z.land_ones, Z.shiftr_div_pow2.
Qed.

Lemma total_width_nonneg ws : Forall (Z.le 0) ws -> 0 <= total_width ws.
Proof. unfold total_width. induction 1; cbn; lia. Qed.

Lemma pack_range fields :
  Forall (Z.le 0) fields.*1 -> 0 <= pack fields < 2 ^ total_width fields.*1.
Proof.
  induction fields as [|[w v] rest IH]; intros H.
  - cbn. lia.
  - inversion H as [|? ? Hw Hr]; subst. specialize (IH Hr).
    rewrite pack_cons by done. cbn [fmap list_fmap fst total_width foldr].
    fold (total_width (rest.*1)).
    pose proof (total_width_nonneg _ Hr) as Ht.
    pose proof (pow2_pos w Hw) as Hp.
    pose proof (Z.mod_pos_bound v (2 ^ w) Hp).
    change (foldr Z.add 0 rest.*1) with (total_width rest.*1).
    rewrite Z.pow_add_r by done. nia.
Qed.

(** Reading back a packed structure gives every field truncated to its width. *)
Lemma unpack_pack fields :
  Forall (Z.le 0) fields.*1 ->
  unpack fields.*1 (pack fields) = (fun '(w, v) => v mod 2 ^ w) <$> fields.
Proof.
  induction fields as [|[w v] rest IH]; intros H; [done|].
  inversion H as [|? ? Hw Hr]; subst.
  rewrite !fmap_cons. cbn [fst]. rewrite unpack_cons by done.
  rewrite pack_cons by done.
  pose proof (pow2_pos w Hw) as Hp.
  rewrite (Z.mul_comm (2 ^ w)), Z.mod_add, Z.mod_mod by lia.
  rewrite Z.div_add by lia.
  rewrite (Z.div_small (v mod 2 ^ w)) by (apply Z.mod_pos_bound; lia).
  rewrite Z.add_0_l, IH by done. done.
Qed.

(** Packing what was read gives the word back, truncated to the structure. *)
Lemma pack_unpack ws z :
  Forall (Z.le 0) ws -> pack (zip ws (unpack ws z)) = z mod 2 ^ total_width ws.
Proof.
  revert z; induction ws as [|w ws IH]; intros z H.
  - cbn. by rewrite Z.mod_1_r.
  - inversion H as [|? ? Hw Hr]; subst.
    rewrite unpack_cons by done. cbn [zip_with zip].
    rewrite pack_cons by done.
    pose proof (pow2_pos w Hw) as Hp.
    rewrite Z.mod_mod by lia. rewrite IH by done.
    cbn [total_width foldr]. change (foldr Z.add 0 ws) with (total_width ws).
    pose proof (total_width_nonneg _ Hr). pose proof (pow2_pos (total_width ws)).
    rewrite Z.pow_add_r, Z.rem_mul_r by lia. done.
Qed.

(** ** common/presets.h *)

Definition KERNEL_BASE : Z := 3221225472. (* 0xc0000000 *)

(** ** String literals *)

Definition codes (s : String.string) : list Z := (fun c => Z.of_N (Ascii.N_of_ascii c)) <$> String.list_ascii_of_string s.

(** ** Flags *)

(** The parity flag of a result: an even number of ones in its low byte. *)
Definition parity (w : Z) : bool :=
  negb (foldr xorb false (Z.testbit w <$> [0; 1; 2; 3; 4; 5; 6; 7])).
