(* ===== verification/Store.v ===== *)
(** * Byte-addressed memory: the interface between the code and its memory

    The same C routines run on different memories: the boot loader on flat
    physical memory, the kernel through the page directory in force.  The
    routines are therefore written against the class [Store]: a byte read and
    a byte write that may fault.  What a routine may rely on is the class
    [Window]: on the addresses of a window accesses do not fault and memory is
    a function ([view]) that a write updates at one address ([poke]), everything
    that is not window memory being left alone ([outside]).

    Words are little endian and addresses are 32 bits wide. *)

From S2P Require Export Words.

#[local] Open Scope Z_scope.

Class Store (S : Type) := {
  rd8 : S -> Z -> res Z;
  wr8 : S -> Z -> Z -> res S;
}.

(** [n]-byte little-endian loads and stores. *)
Fixpoint ldn {S} `{Store S} (n : nat) (s : S) (a : Z) : res Z :=
  match n with
  | O => Ok 0
  | Datatypes.S n =>
      b ← rd8 s a;
      r ← ldn n s (u32 (a + 1));
      mret (b + 256 * r)
  end.

Fixpoint stn {S} `{Store S} (n : nat) (s : S) (a v : Z) : res S :=
  match n with
  | O => Ok s
  | Datatypes.S n =>
      s ← wr8 s a (u8 v);
      stn n s (u32 (a + 1)) (v / 256)
  end.

Abbreviation ld16 := (ldn 2).
Abbreviation ld32 := (ldn 4).
Abbreviation st16 := (stn 2).
Abbreviation st32 := (stn 4).

Class Window (S : Type) `{Store S} (win : Z -> Prop) := {
  view : S -> Z -> Z;
  poke : S -> Z -> Z -> S;
  outside : S -> S -> Prop;
  #[global] outside_preorder :: PreOrder outside;
  rd8_win s a : win a -> rd8 s a = Ok (view s a);
  view_range s a : 0 <= view s a < 256;
  wr8_win s a v : win a -> wr8 s a v = Ok (poke s a v);
  view_poke s a v b :
    win a -> win b -> view (poke s a v) b = if decide (a = b) then u8 v else view s b;
  outside_poke s a v : win a -> outside s (poke s a v);
}.

(** ** Views: memory as a function *)

(** The little-endian value of [n] bytes of a view. *)
Fixpoint vld (n : nat) (v : Z -> Z) (a : Z) : Z :=
  match n with
  | O => 0
  | Datatypes.S n => v a + 256 * vld n v (a + 1)
  end.

Abbreviation vld32 := (vld 4).

(** The [n] addresses from [a] on lie in the window and do not wrap. *)
Definition in_win (win : Z -> Prop) (a n : Z) : Prop :=
  0 <= a /\ a + n <= 4294967296 /\ forall b, a <= b < a + n -> win b.

Lemma in_win_sub (win : Z -> Prop) a n b m :
  in_win win a n -> a <= b -> b + m <= a + n -> in_win win b m.
Proof.
  intros (? & ? & Hw) ? ?. split; [lia|]. split; [lia|]. intros; apply Hw; lia.
Qed.

Lemma vld_ext n v v' a :
  (forall b, a <= b < a + Z.of_nat n -> v b = v' b) -> vld n v a = vld n v' a.
Proof.
  revert a; induction n as [|n IH]; intros a H; [done|].
  cbn [vld]. rewrite H by lia. f_equal. f_equal. apply IH. intros. apply H. lia.
Qed.

Lemma vld_offset n f k a : vld n (fun x => f (x - k)) a = vld n f (a - k).
Proof.
  revert a; induction n as [|n IH]; intros a; cbn [vld]; [done|].
  rewrite IH. do 3 f_equal. lia.
Qed.

(** The same bytes at two places. *)
Lemma vld_at n v g a o :
  (forall x, o <= x < o + Z.of_nat n -> v (a + x) = g x) -> vld n v (a + o) = vld n g o.
Proof.
  revert o; induction n as [|n IH]; intros o H; [done|].
  cbn [vld]. rewrite H by lia. f_equal. f_equal. rewrite <- Z.add_assoc. apply IH. intros. apply H. lia.
Qed.

Lemma vld_range n v a :
  (forall b, 0 <= v b < 256) -> 0 <= vld n v a < 2 ^ (8 * Z.of_nat n).
Proof.
  intros Hv. revert a; induction n as [|n IH]; intros a; [cbn; lia|].
  cbn [vld]. specialize (IH (a + 1)). specialize (Hv a).
  replace (8 * Z.of_nat (S n)) with (8 * Z.of_nat n + 8) by lia.
  rewrite Z.pow_add_r by lia. lia.
Qed.

(** ** Loads and stores inside a window *)

Section WindowLemmas.
Context {S : Type} {HS : Store S} {win : Z -> Prop} {HW : Window S win}.
Implicit Types (s : S) (a b : Z).

Lemma in_win_tail a (n : nat) :
  in_win win a (Z.of_nat (Datatypes.S n)) -> in_win win (a + 1) (Z.of_nat n).
Proof. intros Hw. eapply in_win_sub; [done|lia|lia]. Qed.

Lemma in_win_head a (n : nat) : in_win win a (Z.of_nat (Datatypes.S n)) -> win a.
Proof. intros (_ & _ & Hw). apply Hw. lia. Qed.

Lemma ldn_win (n : nat) s a : in_win win a (Z.of_nat n) -> ldn n s a = Ok (vld n (view s) a).
Proof.
  revert a; induction n as [|n IH]; intros a Ha; [done|]. cbn [ldn].
  rewrite rd8_win by eauto using in_win_head. cbn.
  destruct n as [|n]; [done|].
  pose proof (in_win_tail _ _ Ha) as Ht. destruct Ha as (? & ? & _).
  rewrite u32_small by lia. rewrite IH by done. done.
Qed.

(** The bytes of a view after an [n]-byte store of [x] at [a]. *)
Definition vst (n : nat) (v : Z -> Z) (a x : Z) : Z -> Z := fun b =>
  if decide (a <= b < a + Z.of_nat n) then (x / 2 ^ (8 * (b - a))) mod 256 else v b.

Lemma vst_ext n v v' a x b : v b = v' b -> vst n v a x b = vst n v' a x b.
Proof. unfold vst. by intros ->. Qed.

Lemma vst_out n v a x b : b < a \/ a + Z.of_nat n <= b -> vst n v a x b = v b.
Proof. intros Hb. unfold vst. by rewrite decide_False by lia. Qed.

Lemma stn_win (n : nat) s a x :
  in_win win a (Z.of_nat n) ->
  exists s', stn n s a x = Ok s' /\ outside s s' /\
    forall b, win b -> view s' b = vst n (view s) a x b.
Proof.
  revert s a x; induction n as [|n IH]; intros s a x Ha.
  { exists s. split; [done|]. split; [reflexivity|]. intros b Hb.
    rewrite vst_out by lia. done. }
  pose proof (in_win_head _ _ Ha) as Hw.
  cbn [stn]. rewrite wr8_win by done. cbn.
  assert (exists s', stn n (poke s a (u8 x)) (u32 (a + 1)) (x / 256) = Ok s' /\
    outside (poke s a (u8 x)) s' /\
    forall b, win b -> view s' b = vst n (view (poke s a (u8 x))) (a + 1) (x / 256) b)
    as (s' & E & Ho & Hv).
  { destruct n as [|n].
    - eexists. split; [done|]. split; [reflexivity|]. intros b Hb. rewrite vst_out by lia. done.
    - pose proof (in_win_tail _ _ Ha). destruct Ha as (? & ? & _).
      rewrite u32_small by lia. by apply IH. }
  exists s'. split; [done|]. split; [etrans; [by apply outside_poke|done]|].
  intros b Hb. rewrite Hv by done. unfold vst.
  repeat case_decide; try lia.
  - rewrite Z.div_div by lia.
    replace (256 * 2 ^ (8 * (b - (a + 1)))) with (2 ^ (8 * (b - a))); [done|].
    change 256 with (2 ^ 8). rewrite <- Z.pow_add_r by lia. f_equal. lia.
  - rewrite view_poke by done. rewrite decide_True by lia.
    replace (b - a) with 0 by lia. cbn. rewrite Z.div_1_r.
    unfold u8. by rewrite Z.mod_mod by lia.
  - rewrite view_poke by done. by rewrite decide_False by lia.
Qed.
End WindowLemmas.

Lemma vld_shift n x a :
  forall v, (forall b, a <= b < a + Z.of_nat n -> v b = (x / 2 ^ (8 * (b - a))) mod 256) ->
  vld n v a = x mod 2 ^ (8 * Z.of_nat n).
Proof.
  revert x a; induction n as [|n IH]; intros x a v Hv.
  - cbn. by rewrite Z.mod_1_r.
  - cbn [vld]. rewrite Hv by lia. replace (a - a) with 0 by lia.
    rewrite Z.mul_0_r, Z.pow_0_r, Z.div_1_r.
    rewrite (IH (x / 256) (a + 1)).
    + replace (8 * Z.of_nat (S n)) with (8 + 8 * Z.of_nat n) by lia.
      rewrite Z.pow_add_r by lia. rewrite Z.rem_mul_r by lia. done.
    + intros b Hb. rewrite Hv by lia. rewrite Z.div_div by lia.
      replace (2 ^ (8 * (b - a))) with (256 * 2 ^ (8 * (b - (a + 1)))); [done|].
      change 256 with (2 ^ 8). rewrite <- Z.pow_add_r by lia. f_equal. lia.
Qed.

(** A load reads the value last stored there, truncated to its width... *)
Lemma vld_vst_same n v a x : vld n (vst n v a x) a = x mod 2 ^ (8 * Z.of_nat n).
Proof.
  apply vld_shift. intros b Hb. unfold vst. by rewrite decide_True by lia.
Qed.

(** ... and is not affected by a store that does not overlap it. *)
Lemma vld_vst_other m n v a x b :
  b + Z.of_nat m <= a \/ a + Z.of_nat n <= b -> vld m (vst n v a x) b = vld m v b.
Proof.
  intros Hd. apply vld_ext. intros c Hc. by rewrite vst_out by lia.
Qed.

(** ** Flat physical memory, the boot loader's memory *)

Record flat := Flat { flat_byte : Z -> Z }.

#[export] Instance flat_store : Store flat := {
  rd8 m a := Ok (u8 (flat_byte m a));
  wr8 m a v := Ok (Flat (fun b => if b =? a then v else flat_byte m b));
}.

#[export] Program Instance flat_window : Window flat (fun _ => True) := {
  view m a := u8 (flat_byte m a);
  poke m a v := Flat (fun b => if b =? a then v else flat_byte m b);
  outside _ _ := True;
}.
Next Obligation. split; done. Qed.
Next Obligation. done. Qed.
Next Obligation. intros. apply u8_range. Qed.
Next Obligation. done. Qed.
Next Obligation.
  intros m a v b _ _. cbn. destruct (Z.eqb_spec b a); case_decide; congruence.
Qed.
Next Obligation. done. Qed.

(** ** Filling an array of words *)

Lemma fill_words {S} `{HS : Store S} {win} `{HW : !Window S win} (s : S) base n (addr g : Z -> Z) :
  0 <= n -> in_win win base (4 * n) -> (forall i, 0 <= i < n -> addr i = base + 4 * i) ->
  exists s', for_loop 0 n (fun i s => st32 s (addr i) (g i)) s = Ok s' /\ outside s s' /\
    (forall j, 0 <= j < n -> vld32 (view s') (base + 4 * j) = u32 (g j)) /\
    (forall a, win a -> a < base \/ base + 4 * n <= a -> view s' a = view s a).
Proof.
  intros Hn Hw Ha.
  destruct (for_loop_total (fun i t => outside s t /\
    (forall j, 0 <= j < i -> vld32 (view t) (base + 4 * j) = u32 (g j)) /\
    (forall a, win a -> a < base \/ base + 4 * n <= a -> view t a = view s a)) 0 n
    (fun i s => st32 s (addr i) (g i)) s) as (s' & E & Ho & Hv & Hf); [done| | | |by exists s'].
  - destruct Hw as (? & ? & _). lia.
  - split; [reflexivity|]. split; [lia|done].
  - intros i t Hi (Ho & Hv & Hf). rewrite Ha by done.
    assert (in_win win (base + 4 * i) (Z.of_nat 4)) as Hwi
      by (eapply in_win_sub; [exact Hw|lia|lia]).
    destruct (stn_win 4 t _ (g i) Hwi) as (t' & E & Ho' & Hv').
    assert (forall j, 0 <= j <= i -> vld32 (view t') (base + 4 * j)
      = vld32 (vst 4 (view t) (base + 4 * i) (g i)) (base + 4 * j)) as Hx.
    { intros j Hj. apply vld_ext. intros b Hb. apply Hv'. apply Hw. lia. }
    exists t'. split; [done|]. split; [by etrans|]. split.
    + intros j Hj. rewrite Hx by lia. destruct (decide (j = i)) as [->|Hne].
      * by rewrite vld_vst_same.
      * rewrite vld_vst_other by lia. apply Hv. lia.
    + intros a Hwa Hao. rewrite Hv' by done. rewrite vst_out by lia.
      by apply Hf.
Qed.
