(* ===== verification/CString.v ===== *)
(** * common/string.c: memset, memcpy, memcmp

    The three routines on any memory, their lengths [uint32_t]; their specifications hold on a window.
    [memcpy] copies upwards byte by byte, so its result on overlapping ranges is
    determined: when the destination starts inside the source the first bytes
    repeat. *)

From S2P Require Export Store.

#[local] Open Scope Z_scope.

Section CString.
Context {S : Type} {HS : Store S}.

Definition memset (s : S) (b c len : Z) : res (S * Z) :=
  s ← for_loop 0 (u32 len) (fun i s => wr8 s (u32 (b + i)) c) s;
  mret (s, b).

Definition memcpy (s : S) (dst src num : Z) : res (S * Z) :=
  s ← for_loop 0 (u32 num) (fun i s =>
        x ← rd8 s (u32 (src + i));
        wr8 s (u32 (dst + i)) x) s;
  mret (s, dst).

Definition memcmp (s : S) (truth guess len : Z) : res Z :=
  loop (fun i =>
    if i <? u32 len then
      x ← rd8 s (u32 (truth + i));
      y ← rd8 s (u32 (guess + i));
      if negb (x =? y) then mret (inr (x - y)) else mret (inl (i + 1))
    else mret (inr 0)) 0.
End CString.

Section CStringSpec.
Context {S : Type} {HS : Store S} {win : Z -> Prop} {HW : Window S win}.
Implicit Types (s : S).

(** [memset] never faults in a window, fills exactly its range and returns its
    first argument. *)
Theorem memset_spec s b c len :
  0 <= len < 4294967296 -> in_win win b len ->
  exists s', memset s b c len = Ok (s', b) /\ outside s s' /\
    forall x, win x ->
      view s' x = if decide (b <= x < b + len) then u8 c else view s x.
Proof.
  intros Hlen (Hb0 & Hb1 & Hbw). unfold memset. rewrite (u32_small len) by lia.
  destruct (for_loop_total (fun i t => outside s t /\
    forall x, win x -> view t x = if decide (b <= x < b + i) then u8 c else view s x)
    0 len (fun i s => wr8 s (u32 (b + i)) c) s) as (s' & -> & Ho & Hv); try lia.
  - split; [reflexivity|]. intros. by rewrite decide_False by lia.
  - intros i t Hi [Ho Hv]. rewrite u32_small by lia.
    assert (win (b + i)) as Hwi by (apply Hbw; lia).
    rewrite wr8_win by done. eexists; split; [done|].
    split; [etrans; [done|by apply outside_poke]|].
    intros x Hx. rewrite view_poke by done. rewrite Hv by done.
    repeat case_decide; done || lia.
  - exists s'. by split.
Qed.

(** [memcpy] on any two ranges: byte [i] of the destination ends up with the
    byte of the source at [i], or, when the destination starts [d] bytes inside
    the source, with byte [i mod d]. *)
Theorem memcpy_spec s dst src num :
  0 <= num < 4294967296 -> in_win win dst num -> in_win win src num ->
  exists s', memcpy s dst src num = Ok (s', dst) /\ outside s s' /\
    forall x, win x ->
      view s' x =
        if decide (dst <= x < dst + num) then
          if decide (src < dst < src + num)
          then view s (src + (x - dst) mod (dst - src))
          else view s (src + (x - dst))
        else view s x.
Proof.
  intros Hnum (Hd0 & Hd1 & Hdw) (Hs0 & Hs1 & Hsw). unfold memcpy. rewrite (u32_small num) by lia.
  set (from := fun x => if decide (src < dst < src + num)
    then src + (x - dst) mod (dst - src) else src + (x - dst)).
  assert (forall x, dst <= x < dst + num -> src <= from x < src + num) as Hfrom.
  { intros x Hx. unfold from. case_decide; [|lia].
    pose proof (Z.mod_pos_bound (x - dst) (dst - src)). lia. }
  destruct (for_loop_total (fun i t => outside s t /\
    forall x, win x -> view t x =
      if decide (dst <= x < dst + i) then view s (from x) else view s x)
    0 num (fun i s => x ← rd8 s (u32 (src + i)); wr8 s (u32 (dst + i)) x) s)
    as (s' & -> & Ho & Hv); try lia.
  - split; [reflexivity|]. intros. by rewrite decide_False by lia.
  - intros i t Hi [Ho Hv]. rewrite !u32_small by lia.
    assert (win (src + i)) as Hws by (apply Hsw; lia).
    assert (win (dst + i)) as Hwd by (apply Hdw; lia).
    rewrite rd8_win by done. cbn. rewrite wr8_win by done.
    eexists; split; [done|]. split; [etrans; [done|by apply outside_poke]|].
    intros x Hx. rewrite view_poke by done.
    assert (view t (src + i) = view s (from (dst + i))) as Hr.
    { rewrite Hv by done. unfold from. replace (dst + i - dst) with i by lia.
      repeat case_decide; try lia; try done.
      - (* the source byte was already overwritten *)
        rewrite <- (Z.mod_add (src + i - dst) 1 (dst - src)) by lia.
        do 3 f_equal. lia.
      - f_equal. rewrite Z.mod_small by lia. done. }
    rewrite Hr, Hv by done.
    pose proof (view_range s (from (dst + i))).
    repeat case_decide; subst; try lia; try done. by apply u8_small.
  - exists s'. split; [done|]. split; [done|]. intros x Hx. rewrite Hv by done.
    unfold from. repeat case_decide; done.
Qed.

(** Position of the first difference between two ranges. *)
Definition first_diff (v : Z -> Z) (a b i : Z) : Prop :=
  v (a + i) <> v (b + i) /\ forall j, 0 <= j < i -> v (a + j) = v (b + j).

(** [memcmp] returns 0 on equal ranges and otherwise the difference of the
    first two bytes that differ, which has the sign of the lexicographic
    comparison. *)
Theorem memcmp_spec s a b len :
  0 <= len < 4294967296 -> in_win win a len -> in_win win b len ->
  exists r, memcmp s a b len = Ok r /\
    ((r = 0 /\ forall i, 0 <= i < len -> view s (a + i) = view s (b + i)) \/
     (exists i, 0 <= i < len /\ first_diff (view s) a b i /\
                r = view s (a + i) - view s (b + i) /\ r <> 0)).
Proof.
  intros Hlen (Ha0 & Ha1 & Haw) (Hb0 & Hb1 & Hbw). unfold memcmp. rewrite (u32_small len) by lia.
  apply (loop_total _ (fun i => 0 <= i <= len /\
    forall j, 0 <= j < i -> view s (a + j) = view s (b + j)) (fun i => len - i)).
  - split; [lia|]. intros; lia.
  - rewrite budget_eq. lia.
  - intros i [Hi Heq]. split; [lia|]. destruct (Z.ltb_spec i len) as [Hlt|Hge].
    + rewrite !u32_small by lia.
      rewrite !rd8_win by first [apply Haw; lia | apply Hbw; lia]. cbn.
      destruct (Z.eqb_spec (view s (a + i)) (view s (b + i))) as [He|Hne]; cbn.
      * exists (inl (i + 1)). split; [done|]. split; [|lia]. split; [lia|].
        intros j Hj. destruct (decide (j = i)) as [->|]; [done|]. apply Heq; lia.
      * eexists (inr _). split; [done|]. right. exists i.
        split; [lia|]. split; [by split|]. split; [done|lia].
    + exists (inr 0). split; [done|]. left. split; [done|].
      intros j Hj. apply Heq. lia.
Qed.
End CStringSpec.
