(* ===== verification/BlockList.v ===== *)
(** * The abstract heap: a list of blocks

    What arch/x86/mm/alloc.c promises, without memory: a heap is a list of
    blocks, an allocation takes the first free block that is large enough and
    cuts it down by halves.  [alloc_blocks] is that specification; the lemmas
    state what it guarantees to the owners of the blocks: ranges in use never
    overlap, an allocation adds exactly one, and on an aligned heap every block
    is aligned to its size. *)

From S2P Require Export Words.

#[local] Open Scope Z_scope.

Record block := Block { bsize : Z; bused : bool }.

#[export] Instance block_eq_dec : EqDecision block.
Proof. solve_decision. Defined.

Definition blen (b : block) : Z := 2 ^ bsize b.
Definition span (l : list block) : Z := foldr (fun b n => blen b + n) 0 l.
Definition sizes_ok (l : list block) : Prop := Forall (fun b => 3 <= bsize b <= 30) l.

(** The free blocks cut off when a block of size [k] is cut down to size [j]:
    one of each size from [j] to [k - 1]. *)
Definition frees (j k : Z) : list block :=
  (fun i => Block (j + Z.of_nat i) false) <$> seq 0 (Z.to_nat (k - j)).

Definition fits (need : Z) (b : block) : bool := negb (bused b) && (need <=? bsize b).

(** First fit: the offset of the block handed out, and the new heap. *)
Fixpoint alloc_blocks (need : Z) (l : list block) : option (Z * list block) :=
  match l with
  | [] => None
  | b :: l =>
      if fits need b then Some (0, Block need true :: frees need (bsize b) ++ l)
      else '(off, l') ← alloc_blocks need l; Some (blen b + off, b :: l')
  end.

(** Ranges in use, as (offset, size) pairs. *)
Fixpoint used_from (off : Z) (l : list block) : list (Z * Z) :=
  match l with
  | [] => []
  | b :: l =>
      (if bused b then [(off, bsize b)] else []) ++ used_from (off + blen b) l
  end.

(** Every block starts at a multiple of its length. *)
Fixpoint aligned_from (off : Z) (l : list block) : Prop :=
  match l with
  | [] => True
  | b :: l => (blen b | off) /\ aligned_from (off + blen b) l
  end.

(** ** Lemmas *)

Lemma frees_nil j k : k <= j -> frees j k = [].
Proof. intros. unfold frees. by replace (Z.to_nat (k - j)) with 0%nat by lia. Qed.

Lemma frees_cons j k : j < k -> frees j k = Block j false :: frees (j + 1) k.
Proof.
  intros. unfold frees.
  replace (Z.to_nat (k - j)) with (S (Z.to_nat (k - (j + 1)))) by lia.
  cbn [seq fmap list_fmap]. f_equal; [f_equal; lia|].
  rewrite <- fmap_S_seq, <- list_fmap_compose. apply list_fmap_ext.
  intros i x _. cbn. f_equal. lia.
Qed.

(** Induction on the number of halvings. *)
Lemma halving_ind (k : Z) (P : Z -> Prop) :
  P k -> (forall j, j < k -> P (j + 1) -> P j) -> forall j, j <= k -> P j.
Proof.
  intros Hk Hs j Hj. remember (Z.to_nat (k - j)) as n eqn:E.
  revert j Hj E; induction n as [|n IH]; intros j Hj E.
  - by replace j with k by lia.
  - apply Hs; [lia|]. apply IH; lia.
Qed.

Lemma blen_block k u : blen (Block k u) = 2 ^ k.
Proof. done. Qed.

Lemma blen_pos b : 3 <= bsize b <= 30 -> 8 <= blen b <= 1073741824.
Proof.
  intros H. unfold blen. split.
  - change 8 with (2 ^ 3). apply pow2_le. lia.
  - change 1073741824 with (2 ^ 30). apply pow2_le. lia.
Qed.

Lemma span_app l1 l2 : span (l1 ++ l2) = span l1 + span l2.
Proof. unfold span. induction l1 as [|b l1 IH]; cbn; [done|]. lia. Qed.

Lemma span_cons b l : span (b :: l) = blen b + span l.
Proof. done. Qed.

Lemma span_snoc l b : span (l ++ [b]) = span l + blen b.
Proof. rewrite span_app, span_cons. cbn. lia. Qed.

Lemma span_nonneg l : sizes_ok l -> 0 <= span l.
Proof.
  induction 1 as [|b l Hb Hl IH]; cbn; [lia|].
  pose proof (blen_pos b Hb). unfold span in IH. lia.
Qed.

Lemma span_frees j k : 0 <= j -> j <= k -> 2 ^ j + span (frees j k) = 2 ^ k.
Proof.
  intros H0. revert j H0. refine (fun j H0 Hj => _).
  revert H0. pattern j. revert j Hj. apply halving_ind.
  - intros. rewrite frees_nil by lia. cbn. lia.
  - intros j Hj IH H0. rewrite frees_cons by done. rewrite span_cons.
    cbn [blen bsize]. rewrite pow2_succ in IH by lia.
    specialize (IH ltac:(lia)). unfold blen. cbn. lia.
Qed.

Lemma sizes_ok_frees j k : 3 <= j -> k <= 31 -> sizes_ok (frees j k).
Proof.
  intros. apply Forall_fmap, Forall_seq. intros i Hi. cbn. lia.
Qed.

Lemma frees_free j k : Forall (fun b => bused b = false) (frees j k).
Proof. apply Forall_fmap, Forall_seq. done. Qed.

Lemma used_from_app off l1 l2 :
  used_from off (l1 ++ l2) = used_from off l1 ++ used_from (off + span l1) l2.
Proof.
  revert off; induction l1 as [|b l1 IH]; intros off; cbn.
  - by rewrite Z.add_0_r.
  - rewrite IH, app_assoc. do 2 f_equal. unfold span. lia.
Qed.

Lemma used_from_free off l : Forall (fun b => bused b = false) l -> used_from off l = [].
Proof.
  intros H; revert off; induction H as [|b l Hb Hl IH]; intros off; cbn; [done|].
  by rewrite Hb, IH.
Qed.

Lemma used_from_bounds off l o k :
  sizes_ok l -> (o, k) ∈ used_from off l ->
  off <= o /\ 3 <= k <= 30 /\ o + 2 ^ k <= off + span l.
Proof.
  intros Hl; revert off; induction Hl as [|b l Hb Hl IH]; intros off; cbn.
  - intros H. by apply elem_of_nil in H.
  - pose proof (blen_pos b Hb). pose proof (span_nonneg l Hl).
    rewrite elem_of_app. intros [H'|H'].
    + destruct (bused b); [|by apply elem_of_nil in H'].
      apply list_elem_of_singleton in H'. injection H' as -> ->.
      fold (span l). unfold blen in *. lia.
    + specialize (IH _ H'). fold (span l). lia.
Qed.

Lemma aligned_app off l1 l2 :
  aligned_from off (l1 ++ l2) <-> aligned_from off l1 /\ aligned_from (off + span l1) l2.
Proof.
  revert off; induction l1 as [|b l1 IH]; intros off; cbn.
  - rewrite Z.add_0_r. tauto.
  - rewrite IH. fold (span l1).
    replace (off + blen b + span l1) with (off + (blen b + span l1)) by lia. tauto.
Qed.

Lemma pow2_divide j k : 0 <= j <= k -> (2 ^ j | 2 ^ k).
Proof.
  intros. exists (2 ^ (k - j)). rewrite <- Z.pow_add_r by lia. f_equal. lia.
Qed.

(** The pieces of an aligned block are aligned. *)
Lemma aligned_frees off j k :
  0 <= j -> j <= k -> (2 ^ k | off) -> aligned_from (off + 2 ^ j) (frees j k).
Proof.
  intros H0 Hj. revert H0. pattern j. revert j Hj. apply halving_ind.
  - intros. by rewrite frees_nil by lia.
  - intros j Hj IH H0 Hd. rewrite frees_cons by done. cbn. unfold blen. cbn. split.
    + apply Z.divide_add_r; [|done]. etrans; [|done]. apply pow2_divide. lia.
    + specialize (IH ltac:(lia) Hd). rewrite pow2_succ in IH by lia.
      by replace (off + 2 ^ j + 2 ^ j) with (off + 2 * 2 ^ j) by lia.
Qed.

(** [alloc_blocks] replaces one free block by a used one and the halves cut off. *)
Lemma alloc_blocks_inv need l off l' :
  alloc_blocks need l = Some (off, l') ->
  exists l1 b l2, l = l1 ++ b :: l2 /\ fits need b = true /\ off = span l1 /\
    l' = l1 ++ Block need true :: frees need (bsize b) ++ l2 /\
    Forall (fun b => fits need b = false) l1.
Proof.
  revert off l'; induction l as [|b l IH]; intros off l'; cbn; [done|].
  destruct (fits need b) eqn:Hf.
  - intros [= <- <-]. exists [], b, l. done.
  - destruct (alloc_blocks need l) as [[o m]|] eqn:E; cbn; [|done].
    intros [= <- <-]. destruct (IH o m eq_refl) as (l1 & c & l2 & -> & Hc & -> & -> & Hn).
    exists (b :: l1), c, l2. repeat split; auto.
Qed.

Lemma alloc_blocks_none need l :
  alloc_blocks need l = None <-> Forall (fun b => fits need b = false) l.
Proof.
  induction l as [|b l IH]; cbn; [done|].
  rewrite Forall_cons. destruct (fits need b) eqn:Hf.
  - split; [done|]. by intros [].
  - rewrite <- IH. destruct (alloc_blocks need l) as [[o m]|]; cbn; split; try done.
    by intros [].
Qed.

Lemma alloc_blocks_hit need l1 b l2 :
  Forall (fun b => fits need b = false) l1 -> fits need b = true ->
  alloc_blocks need (l1 ++ b :: l2) =
    Some (span l1, l1 ++ Block need true :: frees need (bsize b) ++ l2).
Proof.
  intros Hn Hf. induction Hn as [|c l1 Hc Hn IH]; cbn; [by rewrite Hf|].
  rewrite Hc, IH. done.
Qed.

Lemma fits_spec need b : fits need b = true <-> bused b = false /\ need <= bsize b.
Proof. unfold fits. rewrite andb_true_iff, negb_true_iff, Z.leb_le. done. Qed.

Lemma alloc_blocks_sizes need l off l' :
  3 <= need -> sizes_ok l -> alloc_blocks need l = Some (off, l') ->
  sizes_ok l' /\ span l' = span l /\ 0 <= off /\ off + 2 ^ need <= span l.
Proof.
  intros Hn Hl H.
  apply alloc_blocks_inv in H as (l1 & b & l2 & -> & Hf & -> & -> & _).
  apply fits_spec in Hf as [_ Hf].
  apply Forall_app in Hl as [H1 Hl]. apply Forall_cons in Hl as [Hb H2].
  assert (span (Block need true :: frees need (bsize b)) = blen b) as Hs.
  { rewrite span_cons. unfold blen. cbn. apply span_frees; lia. }
  rewrite !span_app, !span_cons. split; [|split].
  - apply Forall_app. split; [done|]. apply Forall_cons. split; [cbn; lia|].
    apply Forall_app. split; [|done]. apply sizes_ok_frees; lia.
  - rewrite span_app. rewrite span_cons in Hs. lia.
  - split; [by apply span_nonneg|].
    pose proof (span_nonneg _ H2). pose proof (pow2_le need (bsize b)).
    unfold blen. lia.
Qed.

(** Exactly one range in use is added, the others stay where they are. *)
Lemma alloc_blocks_used need l off l' :
  3 <= need -> sizes_ok l -> alloc_blocks need l = Some (off, l') ->
  used_from 0 l' ≡ₚ (off, need) :: used_from 0 l.
Proof.
  intros Hn Hl H.
  apply alloc_blocks_inv in H as (l1 & b & l2 & -> & Hf & -> & -> & _).
  apply fits_spec in Hf as [Hu Hf]. rewrite !used_from_app. cbn.
  rewrite Hu, used_from_app, (used_from_free _ (frees _ _)) by apply frees_free.
  cbn. rewrite <- Permutation_middle. f_equiv. f_equiv. f_equiv.
  apply Forall_app in Hl as [_ Hl]. apply Forall_cons in Hl as [Hb _].
  rewrite <- !Z.add_assoc. f_equal. f_equal. unfold blen at 1. cbn.
  apply span_frees; lia.
Qed.

Lemma alloc_blocks_aligned base need l off l' :
  3 <= need -> sizes_ok l -> aligned_from base l ->
  alloc_blocks need l = Some (off, l') ->
  aligned_from base l' /\ (2 ^ need | base + off).
Proof.
  intros Hn Hl Ha H.
  apply alloc_blocks_inv in H as (l1 & b & l2 & -> & Hf & -> & -> & _).
  apply fits_spec in Hf as [_ Hf].
  apply Forall_app in Hl as [_ Hl]. apply Forall_cons in Hl as [Hb _].
  apply aligned_app in Ha as [H1 [Hd H2]].
  assert (2 ^ need | base + span l1) as Hdn.
  { etrans; [apply (pow2_divide need (bsize b)); lia|]. done. }
  split; [|done]. apply aligned_app. split; [done|]. cbn. split; [done|].
  change (blen (Block need true)) with (2 ^ need). apply aligned_app. split.
  - apply aligned_frees; [lia|lia|done].
  - rewrite <- (Z.add_assoc _ (2 ^ need)), span_frees by lia. done.
Qed.

(** Ranges in use are pairwise disjoint. *)
Definition disjoint_ranges (r1 r2 : Z * Z) : Prop :=
  r1.1 + 2 ^ r1.2 <= r2.1 \/ r2.1 + 2 ^ r2.2 <= r1.1.

Lemma used_disjoint off l : sizes_ok l -> StronglySorted (fun r1 r2 =>
  r1.1 + 2 ^ r1.2 <= r2.1) (used_from off l).
Proof.
  intros Hl; revert off; induction Hl as [|b l Hb Hl IH]; intros off; cbn; [constructor|].
  destruct (bused b); cbn; [|apply IH].
  constructor; [apply IH|]. apply Forall_forall. intros [o k] Hin.
  apply used_from_bounds in Hin; [|done]. cbn. fold (blen b). lia.
Qed.
