(* ===== verification/Alloc.v ===== *)
(** * arch/x86/mm/alloc.c: the linked list allocator

    A heap is a row of blocks whose sizes are powers of two.  Each block starts
    with a one-byte header, seven bits of log2 size and one used bit, and the
    next block starts where it ends.  The operations are translated on any
    [Store], so that they also run on addresses that are not heap memory, as
    the process switch makes them do. *)

From S2P Require Export Store.

#[local] Open Scope Z_scope.

Definition MIN_BLOCK_SIZE : Z := 3.
Definition sizeof_heap_header : Z := 1.

(** [struct heap_header]: [size:7], [used:1]. *)
Record heap_header := { h_size : Z; h_used : Z }.

Definition decode_header (b : Z) : heap_header :=
  {| h_size := Z.land b 127; h_used := Z.shiftr b 7 |}.
Definition encode_header (h : heap_header) : Z :=
  pack [(7, h_size h); (1, h_used h)].

Record heap_spec := { start : Z; end_ : Z }.

Definition kernel_heap : heap_spec :=
  {| start := u32 (KERNEL_BASE + 268435456 - sizeof_heap_header);
     end_ := u32 (KERNEL_BASE + 805306368 - sizeof_heap_header) |}.

(** Get minimum block size for some size, as a log base two. *)
Definition round_block_size (sz : Z) : res Z :=
  block_size ← loop (fun block_size =>
    let block_size := u32 (block_size + 1) in
    r ← shr32 sz block_size;
    if negb (r =? 0) then mret (inl block_size) else mret (inr block_size))
    (MIN_BLOCK_SIZE - 1);
  d ← shl1 block_size;
  mret (if sz >? u32 d then block_size + 1 else block_size).

Section Alloc.
Context {S : Type} {HS : Store S}.

(** Header fields of the block at [a]. *)
Definition get_size (s : S) (a : Z) : res Z :=
  b ← rd8 s a; mret (h_size (decode_header b)).
Definition get_used (s : S) (a : Z) : res Z :=
  b ← rd8 s a; mret (h_used (decode_header b)).
Definition set_size (s : S) (a v : Z) : res S :=
  b ← rd8 s a;
  wr8 s a (encode_header {| h_size := v; h_used := h_used (decode_header b) |}).
Definition set_used (s : S) (a v : Z) : res S :=
  b ← rd8 s a;
  wr8 s a (encode_header {| h_size := h_size (decode_header b); h_used := v |}).

(** Split block *)
Definition split_block (s : S) (block : Z) : res S :=
  (* New size *)
  sz ← get_size s block;
  let new_size := u32 (sz - 1) in
  (* Create new buddy *)
  d ← shl1 new_size;
  sum ← to_int (i32 block + d);
  let new_buddy := u32 sum in
  s ← set_size s new_buddy new_size;
  s ← set_used s new_buddy 0;
  (* Edit old block *)
  set_size s block new_size.

(** Coalesce block: one iteration of its [while (1)], then the loop. *)
Definition coalesce_body (offset : Z) : S * Z -> res (S * Z + S) :=
  fun '(s, buddy_block1) =>
    (* Set buddys *)
    sz1 ← get_size s buddy_block1;
    d ← shl1 sz1;
    let buddy_block2 := u32 (buddy_block1 - offset) in
    let buddy_block2 := Z.lxor buddy_block2 d in
    let buddy_block2 := u32 (buddy_block2 + offset) in
    (* Check if buddy is used *)
    used2 ← get_used s buddy_block2;
    merge ← (if used2 =? 0
             then (sz2 ← get_size s buddy_block2;
                   sz1 ← get_size s buddy_block1;
                   mret (sz2 =? sz1))
             else mret false);
    if merge : bool then
      if buddy_block2 >? buddy_block1 then
        sz ← get_size s buddy_block1;
        s ← set_size s buddy_block1 (sz + 1);
        mret (inl (s, buddy_block1))
      else
        sz ← get_size s buddy_block2;
        s ← set_size s buddy_block2 (sz + 1);
        mret (inl (s, buddy_block2))
    else mret (inr s).

Definition coalesce_block (s : S) (block offset : Z) : res S :=
  loop (coalesce_body offset) (s, block).

(** [while (alloc_addr->size > actual_size) split_block(alloc_addr);] *)
Definition split_loop (s : S) (alloc_addr actual_size : Z) : res S :=
  loop (fun s =>
    sz ← get_size s alloc_addr;
    if sz >? actual_size then s ← split_block s alloc_addr; mret (inl s)
    else mret (inr s)) s.

(** Allocate an object: one block of the search, then the search. *)
Definition allocate_body (alloc_info : heap_spec) (actual_size : Z)
    : S * Z -> res (S * Z + S * Z) :=
  fun '(s, alloc_addr) =>
    if alloc_addr <=? end_ alloc_info then
      u ← get_used s alloc_addr;
      fits ← (if u =? 0 then (k ← get_size s alloc_addr; mret (k >=? actual_size))
              else mret false);
      if fits : bool then
        (* Split to accomodate size *)
        s ← split_loop s alloc_addr actual_size;
        (* Mark as used *)
        s ← set_used s alloc_addr 1;
        (* Return the final split block *)
        mret (inr (s, u32 (alloc_addr + sizeof_heap_header)))
      else
        (* Go to next block *)
        k ← get_size s alloc_addr;
        d ← shl1 k;
        mret (inl (s, u32 (alloc_addr + d)))
    else (* No matches *) mret (inr (s, 0)).

Definition memory_allocate (s : S) (alloc_info : heap_spec) (sz : Z)
    : res (S * Z) :=
  actual_size ← round_block_size (u32 (sz + sizeof_heap_header));
  (* Search for available that fits size *)
  loop (allocate_body alloc_info actual_size) (s, start alloc_info).

(** Free object *)
Definition memory_free (s : S) (alloc_info : heap_spec) (addr : Z) : res S :=
  let free_addr := u32 (addr - sizeof_heap_header) in
  (* Free it *)
  s ← set_used s free_addr 0;
  (* Coalesce the block *)
  coalesce_block s addr (start alloc_info).

(** Initialize a heap given heap_spec *)
Definition init_body (alloc_info : heap_spec) : S * Z * Z * Z -> res (S * Z * Z * Z + S) :=
  fun '(s, block, heap_length, alloc_size) =>
    if (block <? end_ alloc_info) && (heap_length >? 0) then
      '(s, block) ← (if Z.land heap_length 1 =? 1 then
          (* Create new block *)
          s ← set_size s block alloc_size;
          s ← set_used s block 0;
          (* Move to next *)
          d ← shl1 alloc_size;
          mret (s, u32 (block + d))
        else mret (s, block));
      mret (inl (s, block, Z.shiftr heap_length 1, u8 (alloc_size + 1)))
    else mret (inr s).

Definition init_memory (s : S) (alloc_info : heap_spec) : res S :=
  (* Pre truncate heap_length *)
  heap_length ← shr32 (u32 (end_ alloc_info - start alloc_info + 1)) MIN_BLOCK_SIZE;
  (* Fill the entire range with blocks *)
  loop (init_body alloc_info) (s, start alloc_info, heap_length, MIN_BLOCK_SIZE).

Definition kernel_allocate (s : S) (sz : Z) : res (S * Z) :=
  memory_allocate s kernel_heap sz.
Definition kernel_free (s : S) (addr : Z) : res S :=
  memory_free s kernel_heap addr.
Definition init_kernel_heap (s : S) : res S := init_memory s kernel_heap.
End Alloc.
