(* ===== verification/AllocHeap.v ===== *)
(** * Heaps in memory: the representation of block lists

    [tiles v a l e] says that the bytes of the view [v] from [a] to [e] are
    tiled by the blocks of [l]; the lemmas give the effect of the header
    accesses of alloc.c and of its splitting loop on such a tiling. *)

From S2P Require Export Alloc BlockList.

#[local] Open Scope Z_scope.

(** The header byte of a block, and the fields of an arbitrary header byte. *)
Definition hdr (b : block) : Z := bsize b + (if bused b then 128 else 0).
Definition hsize (x : Z) : Z := x mod 128.
Definition hused (x : Z) : bool := 128 <=? x.

Fixpoint tiles (v : Z -> Z) (a : Z) (l : list block) (e : Z) : Prop :=
  match l with
  | [] => a = e
  | b :: l => v a = hdr b /\ tiles v (a + blen b) l e
  end.

(** The addresses of the headers. *)
Fixpoint headers (a : Z) (l : list block) : list Z :=
  match l with
  | [] => []
  | b :: l => a :: headers (a + blen b) l
  end.

(** ** Header bytes *)

Lemma decode_header_size x : h_size (decode_header x) = hsize x.
Proof. unfold decode_header, hsize. cbn. apply land_127. Qed.

Lemma decode_header_used x : 0 <= x < 256 -> h_used (decode_header x) = if hused x then 1 else 0.
Proof.
  intros Hx. unfold decode_header, hused. cbn. rewrite shiftr_7.
  destruct (Z.leb_spec 128 x); lia.
Qed.

Lemma encode_header_eq k u : encode_header {| h_size := k; h_used := u |} = k mod 128 + 128 * (u mod 2).
Proof.
  unfold encode_header. rewrite !pack_cons by lia. cbn [pack h_size h_used]. lia.
Qed.

(** Encoding and decoding a header are inverse on fields that fit. *)
Lemma decode_encode_header h :
  0 <= h_size h < 128 -> 0 <= h_used h < 2 -> decode_header (encode_header h) = h.
Proof.
  destruct h as [k u]. intros Hk Hu. cbn in Hk, Hu. rewrite encode_header_eq.
  unfold decode_header. rewrite land_127, shiftr_7. f_equal; lia.
Qed.

Lemma hsize_hdr b : 3 <= bsize b <= 30 -> hsize (hdr b) = bsize b.
Proof. intros. unfold hsize, hdr. destruct (bused b); lia. Qed.

Lemma hused_hdr b : 3 <= bsize b <= 30 -> hused (hdr b) = bused b.
Proof. intros. unfold hused, hdr. destruct (bused b); lia. Qed.

Lemma hsize_range x : 0 <= hsize x < 128.
Proof. unfold hsize. lia. Qed.

(** ** Tilings *)

Lemma tiles_span v a l e : tiles v a l e -> e = a + span l.
Proof.
  revert a; induction l as [|b l IH]; intros a; cbn; [lia|].
  intros [_ H]. apply IH in H. fold (span l). lia.
Qed.

Lemma tiles_app v a l1 l2 e :
  tiles v a (l1 ++ l2) e <-> tiles v a l1 (a + span l1) /\ tiles v (a + span l1) l2 e.
Proof.
  revert a; induction l1 as [|b l1 IH]; intros a; cbn.
  - rewrite Z.add_0_r. tauto.
  - fold (span l1). rewrite IH.
    replace (a + blen b + span l1) with (a + (blen b + span l1)) by lia. tauto.
Qed.

Lemma headers_app a l1 l2 : headers a (l1 ++ l2) = headers a l1 ++ headers (a + span l1) l2.
Proof.
  revert a; induction l1 as [|b l1 IH]; intros a; cbn.
  - by rewrite Z.add_0_r.
  - rewrite IH. fold (span l1). do 3 f_equal. lia.
Qed.

Lemma headers_range a l x :
  sizes_ok l -> x ∈ headers a l -> a <= x /\ x + 8 <= a + span l.
Proof.
  intros Hl; revert a; induction Hl as [|b l Hb Hl IH]; intros a; cbn.
  - intros H. by apply elem_of_nil in H.
  - pose proof (blen_pos b Hb). pose proof (span_nonneg l Hl). fold (span l).
    rewrite elem_of_cons. intros [->|H']; [lia|]. specialize (IH _ H'). lia.
Qed.

Lemma tiles_frame v v' a l e :
  (forall x, x ∈ headers a l -> v x = v' x) -> tiles v a l e -> tiles v' a l e.
Proof.
  revert a; induction l as [|b l IH]; intros a Hv; cbn; [done|].
  intros [H1 H2]. cbn in Hv. split.
  - rewrite <- Hv; [done|]. apply elem_of_cons. by left.
  - apply IH; [|done]. intros x Hx. apply Hv. apply elem_of_cons. by right.
Qed.

(** A payload byte of a block is not the header of any block. *)
Lemma payload_not_header a l1 b l2 x :
  sizes_ok (l1 ++ b :: l2) ->
  a + span l1 < x < a + span l1 + blen b -> x ∉ headers a (l1 ++ b :: l2).
Proof.
  intros Hl Hx. apply Forall_app in Hl as [H1 Hl]. apply Forall_cons in Hl as [Hb H2].
  rewrite headers_app, elem_of_app. cbn. rewrite elem_of_cons. intros [H|[H|H]].
  - apply headers_range in H; [lia|done].
  - lia.
  - apply headers_range in H; [lia|done].
Qed.

(** ** Header accesses in a window *)

Section Headers.
Context {S : Type} {HS : Store S} {win : Z -> Prop} {HW : Window S win}.
Implicit Types (s : S) (a : Z).

(** [s'] differs from [s] inside the window as [f] says. *)
Definition becomes s s' (f : Z -> Z) : Prop :=
  outside s s' /\ forall b, win b -> view s' b = f b.

Definition vset (v : Z -> Z) (a x : Z) : Z -> Z := fun b => if decide (a = b) then x else v b.

Lemma vset_same v a x : vset v a x a = x.
Proof. unfold vset. by rewrite decide_True. Qed.

Lemma vset_other v a x b : a <> b -> vset v a x b = v b.
Proof. intros Hb. unfold vset. by rewrite decide_False. Qed.

Lemma becomes_trans s s1 s2 f g :
  becomes s s1 f -> becomes s1 s2 g -> outside s s2 /\ forall b, win b -> view s2 b = g b.
Proof. intros [Ho _] [Ho' Hg]. split; [by etrans|done]. Qed.

Lemma get_size_win s a : win a -> get_size s a = Ok (hsize (view s a)).
Proof.
  intros Ha. unfold get_size. rewrite rd8_win by done. bnd.
  f_equal. apply decode_header_size.
Qed.

Lemma get_used_win s a :
  win a -> get_used s a = Ok (if hused (view s a) then 1 else 0).
Proof.
  intros Ha. unfold get_used. rewrite rd8_win by done. bnd.
  f_equal. apply decode_header_used, view_range.
Qed.

Lemma poke_becomes s a x :
  win a -> 0 <= x < 256 -> becomes s (poke s a x) (vset (view s) a x).
Proof.
  intros Ha Hx. split; [by apply outside_poke|]. intros b Hb.
  rewrite view_poke by done. unfold vset. case_decide; [|done]. by apply u8_small.
Qed.

Lemma set_size_win s a k :
  win a -> 0 <= k < 128 ->
  exists s', set_size s a k = Ok s' /\
    becomes s s' (vset (view s) a (k + if hused (view s a) then 128 else 0)).
Proof.
  intros Ha Hk. unfold set_size. rewrite rd8_win by done. bnd.
  rewrite decode_header_used, encode_header_eq by apply view_range.
  rewrite wr8_win by done. eexists; split; [done|].
  replace (k + (if hused (view s a) then 128 else 0))
    with (k mod 128 + 128 * ((if hused (view s a) then 1 else 0) mod 2))
    by (destruct (hused (view s a)); lia).
  apply poke_becomes; [done|]. destruct (hused (view s a)); lia.
Qed.

Lemma set_used_win s a u :
  win a -> (u = 0 \/ u = 1) ->
  exists s', set_used s a u = Ok s' /\
    becomes s s' (vset (view s) a (hsize (view s a) + 128 * u)).
Proof.
  intros Ha Hu. unfold set_used. rewrite rd8_win by done. bnd.
  rewrite decode_header_size, encode_header_eq, wr8_win by done.
  eexists; split; [done|]. pose proof (hsize_range (view s a)).
  replace (hsize (view s a) + 128 * u)
    with (hsize (view s a) mod 128 + 128 * (u mod 2)) by lia.
  apply poke_becomes; [done|]. lia.
Qed.

(** [(int)a + d] where neither crosses the sign, as an address again. *)
Lemma int_add a d :
  0 <= a -> 0 < d -> a + d < 2 ^ 32 -> a + d < 2 ^ 31 \/ 2 ^ 31 <= a ->
  to_int (i32 a + d) = Ok (i32 a + d) /\ u32 (i32 a + d) = a + d.
Proof.
  intros Ha Hd Hs Hc. assert (i32 a = if a <? 2 ^ 31 then a else a - 2 ^ 32) as ->
    by (unfold i32; destruct (Z.ltb_spec a (2 ^ 31)); lia).
  unfold to_int, u32. destruct (Z.ltb_spec a (2 ^ 31)); zbool; (split; [done|lia]).
Qed.

(** Splitting a block of size [k + 1]: two blocks of size [k], the second free. *)
Lemma split_block_win s a k :
  0 <= k <= 30 -> hsize (view s a) = k + 1 -> 0 <= a -> a + 2 ^ k < 4294967296 ->
  a + 2 ^ k < 2 ^ 31 \/ 2 ^ 31 <= a -> win a -> win (a + 2 ^ k) ->
  exists s', split_block s a = Ok s' /\
    becomes s s' (vset (vset (view s) (a + 2 ^ k) k) a
                    (k + if hused (view s a) then 128 else 0)).
Proof.
  intros Hk Hsz Ha0 Ha1 Hs Ha Hb. pose proof (pow2_pos k ltac:(lia)) as Hp.
  unfold split_block. rewrite get_size_win, Hsz by done. bnd.
  replace (k + 1 - 1) with k by lia. rewrite (u32_small k) by lia.
  rewrite shl1_ok by lia. bnd.
  destruct (int_add a (2 ^ k)) as [-> Hsum]; [lia|lia|lia|lia|]. bnd. rewrite Hsum.
  destruct (set_size_win s (a + 2 ^ k) k) as (s1 & -> & H1); [done|lia|]. bnd.
  destruct (set_used_win s1 (a + 2 ^ k) 0) as (s2 & -> & H2); [done|by left|]. bnd.
  destruct (set_size_win s2 a k) as (s3 & -> & H3); [done|lia|].
  exists s3. split; [done|]. destruct H1 as [Ho1 H1], H2 as [Ho2 H2], H3 as [Ho3 H3].
  split; [by repeat (etrans; [eassumption|])|].
  intros b Hwb. rewrite H3 by done. unfold vset in *.
  rewrite (H2 a Ha), (H2 b Hwb), (H1 a Ha), (H1 b Hwb), (H1 (a + 2 ^ k) Hb).
  rewrite (decide_True (P := a + 2 ^ k = a + 2 ^ k)) by done.
  rewrite !(decide_False (P := a + 2 ^ k = a)) by lia.
  repeat case_decide; try done; try lia.
  unfold hsize. destruct (hused _); lia.
Qed.
End Headers.

(** Allocation only adds headers. *)
Lemma alloc_headers need l off l' a x :
  3 <= need -> sizes_ok l -> alloc_blocks need l = Some (off, l') ->
  x ∈ headers a l -> x ∈ headers a l'.
Proof.
  intros Hn Hok Hb. apply alloc_blocks_inv in Hb as (l1 & b & l2 & -> & Hf & -> & -> & _).
  apply fits_spec in Hf as [Hu Hf]. apply Forall_app in Hok as [_ Hok].
  apply Forall_cons in Hok as [Hb _].
  assert (blen (Block need true) + span (frees need (bsize b)) = blen b) as Hs
    by (unfold blen at 1; cbn [bsize]; apply span_frees; lia).
  rewrite !headers_app. cbn [headers]. rewrite headers_app, <- !Z.add_assoc, Hs.
  rewrite !elem_of_app, !elem_of_cons, !elem_of_app. tauto.
Qed.
