(* ===== verification/AllocLemmas.v ===== *)
(** * Lemmas on the loops of alloc.c

    The size rounding loop, the splitting loop and the search loop, each against
    its counterpart on block lists. *)

From S2P Require Export AllocHeap.

#[local] Open Scope Z_scope.

(** ** round_block_size *)

(** The size computed: the least exponent, from 3 on, whose power is greater
    than the request. *)
Definition needed (sz : Z) : Z := Z.max 3 (Z.log2 sz + 1).

Lemma needed_spec sz : 0 <= sz -> 3 <= needed sz /\ sz < 2 ^ needed sz /\
  (forall b, 3 <= b -> sz < 2 ^ b -> needed sz <= b).
Proof.
  intros Hsz. unfold needed. split; [lia|].
  destruct (decide (sz = 0)) as [->|Hne].
  { cbn. split; [lia|]. intros. lia. }
  pose proof (Z.log2_spec sz ltac:(lia)) as [Hl Hu].
  pose proof (Z.log2_nonneg sz). split.
  - eapply Z.lt_le_trans; [exact Hu|]. apply pow2_le. lia.
  - intros b Hb Hlt. apply Z.log2_lt_pow2 in Hlt; lia.
Qed.

Lemma needed_le sz k : 0 <= sz < 2 ^ k -> 3 <= k -> needed sz <= k.
Proof. intros. destruct (needed_spec sz ltac:(lia)) as (_ & _ & Hmin). apply Hmin; lia. Qed.

Lemma div_pow2_zero sz b : 0 <= sz -> 0 <= b -> sz / 2 ^ b = 0 <-> sz < 2 ^ b.
Proof.
  intros. pose proof (pow2_pos b ltac:(lia)). split.
  - intros Hd. apply Z.div_small_iff in Hd; lia.
  - intros. apply Z.div_small. lia.
Qed.

Lemma round_block_size_ok sz :
  0 <= sz < 2 ^ 30 -> round_block_size sz = Ok (needed sz).
Proof.
  intros Hsz. destruct (needed_spec sz ltac:(lia)) as (H3 & Hlt & Hmin).
  assert (needed sz <= 30) as H30 by (apply Hmin; lia).
  unfold round_block_size.
  use_loop (fun bs => 2 <= bs < needed sz) (fun bs => needed sz - bs)
    (fun r => r = needed sz).
  - unfold MIN_BLOCK_SIZE. lia.
  - rewrite budget_eq. unfold MIN_BLOCK_SIZE. lia.
  - intros bs Hbs. split; [lia|]. cbn zeta. rewrite u32_small by lia.
    rewrite shr32_ok by lia. bnd. destruct (Z.eqb_spec (sz / 2 ^ (bs + 1)) 0) as [H0|H0].
    + eexists; split; [done|]. apply div_pow2_zero in H0; [|lia|lia].
      cbn. specialize (Hmin (bs + 1)). lia.
    + eexists; split; [done|]. cbn.
      rewrite div_pow2_zero in H0 by lia.
      destruct (decide (bs + 1 = needed sz)) as [He|]; [by rewrite He in H0|lia].
  - subst r. rewrite shl1_ok by lia. bnd.
    rewrite u32_small by (split; [pose proof (pow2_pos (needed sz)); lia|];
      apply Z.le_lt_trans with (2 ^ 30); [apply pow2_le|]; lia).
    destruct (Z.gtb_spec sz (2 ^ needed sz)); [lia|done].
Qed.

(** From 2^30 on the loop or the final comparison shifts too far. *)
Lemma round_block_size_undef sz :
  2 ^ 30 <= sz < 2 ^ 32 -> round_block_size sz = Undef.
Proof.
  intros Hsz. unfold round_block_size.
  match goal with |- context [loop ?b _] => set (body := b) end.
  set (top := if decide (sz < 2 ^ 31) then 31 else 32).
  assert (forall bs, bs <= top - 1 -> 2 <= bs ->
    leaves body (Z.to_nat (top - bs)) bs (if decide (sz < 2 ^ 31) then Ok 31 else Undef)) as H.
  { apply (halving_ind (top - 1) (fun bs => 2 <= bs -> leaves body _ bs _)).
    - intros _. replace (Z.to_nat (top - (top - 1))) with 1%nat by lia.
      unfold top. case_decide; constructor; unfold body; [|reflexivity].
      change (u32 (31 - 1 + 1)) with 31. rewrite shr32_ok by lia. bnd.
      by rewrite (proj2 (div_pow2_zero sz 31 ltac:(lia) ltac:(lia))).
    - intros bs Hlt IH H2. assert (bs <= 30) by (unfold top in *; case_decide; lia).
      replace (Z.to_nat (top - bs)) with (S (Z.to_nat (top - (bs + 1)))) by lia.
      eapply leaves_next; [|apply IH; lia].
      unfold body. rewrite u32_small by lia. rewrite shr32_ok by lia. bnd.
      destruct (Z.eqb_spec (sz / 2 ^ (bs + 1)) 0) as [H0|]; [|done].
      apply div_pow2_zero in H0; [|lia|lia]. exfalso.
      assert (bs + 1 <= 30 \/ bs = 30) as [|Heq] by lia.
      + pose proof (pow2_le (bs + 1) 30). lia.
      + subst bs. unfold top in *. case_decide; lia. }
  specialize (H (MIN_BLOCK_SIZE - 1)). unfold MIN_BLOCK_SIZE in *.
  erewrite leaves_loop; [|apply H; unfold top; case_decide; lia|
    rewrite budget_eq; unfold top; case_decide; lia].
  case_decide; reflexivity.
Qed.

(** ** The loops on a tiling *)

(** The test of the search loop, on the header byte it reads. *)
Definition fits_byte (need x : Z) : bool := negb (hused x) && (need <=? hsize x).

Lemma fits_byte_hdr need b : 3 <= bsize b <= 30 -> fits_byte need (hdr b) = fits need b.
Proof. intros. unfold fits_byte, fits. by rewrite hused_hdr, hsize_hdr. Qed.

Lemma fits_byte_test need x :
  (if (if hused x then 1 else 0) =? 0 then mret (hsize x >=? need) else mret false)
    = Ok (fits_byte need x).
Proof.
  unfold fits_byte. destruct (hused x); cbn; [done|]. by rewrite Z.geb_leb.
Qed.

Section Loops.
Context {S : Type} {HS : Store S} {win : Z -> Prop} {HW : Window S win}.
Implicit Types (s : S) (a : Z).

(** The block of size [i] at [a], first of the blocks of a block of size [k],
    cut in two: the list of headers, and the bytes that are no header. *)
Lemma halved_tiles s s' a i k :
  4 <= i <= k -> k <= 30 -> in_win win a (2 ^ k) ->
  (forall b, win b -> view s' b = vset (vset (view s) (a + 2 ^ (i - 1)) (i - 1)) a (i - 1) b) ->
  tiles (view s) a (Block i false :: frees i k) (a + 2 ^ k) ->
  tiles (view s') a (Block (i - 1) false :: frees (i - 1) k) (a + 2 ^ k).
Proof.
  intros Hi Hk (Ha0 & Ha1 & Haw) Hs' [_ Htail].
  pose proof (pow2_le i k ltac:(lia)). pose proof (pow2_pos (i - 1) ltac:(lia)).
  assert (2 ^ i = 2 ^ (i - 1) + 2 ^ (i - 1)) as Hpow
    by (replace i with (i - 1 + 1) at 1 by lia; rewrite pow2_succ by lia; lia).
  assert (sizes_ok (frees i k)) as Hok by (apply sizes_ok_frees; lia).
  rewrite (frees_cons (i - 1) k) by lia. replace (i - 1 + 1) with i by lia.
  change (blen (Block i false)) with (2 ^ i) in Htail.
  cbn [tiles]. change (blen (Block (i - 1) false)) with (2 ^ (i - 1)).
  rewrite !Hs' by (apply Haw; lia). unfold vset.
  rewrite decide_True, (decide_False (P := a = _)), decide_True by (done || lia).
  split; [unfold hdr; cbn; lia|]. split; [unfold hdr; cbn; lia|].
  replace (a + 2 ^ (i - 1) + 2 ^ (i - 1)) with (a + 2 ^ i) by lia.
  eapply tiles_frame; [|exact Htail]. intros x Hx. apply headers_range in Hx; [|done].
  pose proof (span_frees i k ltac:(lia) ltac:(lia)).
  rewrite Hs' by (apply Haw; lia). by rewrite !vset_other by lia.
Qed.

Lemma halved_headers a i k b :
  4 <= i <= k -> b ∉ headers a (Block (i - 1) false :: frees (i - 1) k) ->
  b <> a /\ b <> a + 2 ^ (i - 1) /\ b ∉ headers a (Block i false :: frees i k).
Proof.
  intros Hi. rewrite (frees_cons (i - 1) k) by lia. replace (i - 1 + 1) with i by lia.
  assert (2 ^ i = 2 ^ (i - 1) + 2 ^ (i - 1)) as Hpow
    by (replace i with (i - 1 + 1) at 1 by lia; rewrite pow2_succ by lia; lia).
  cbn [headers]. change (blen (Block (i - 1) false)) with (2 ^ (i - 1)).
  change (blen (Block i false)) with (2 ^ i). rewrite !not_elem_of_cons.
  intros (H1 & H2 & H3). split; [done|]. split; [done|]. split; [done|].
  by replace (a + 2 ^ i) with (a + 2 ^ (i - 1) + 2 ^ (i - 1)) by lia.
Qed.

(** Halving the free block of size [k] at [a] down to size [j]. *)
Lemma split_loop_win s a j k :
  3 <= j <= k -> k <= 30 -> in_win win a (2 ^ k) -> a + 2 ^ k <= 2 ^ 31 \/ 2 ^ 31 <= a -> view s a = k ->
  exists s', split_loop s a j = Ok s' /\ outside s s' /\
    tiles (view s') a (Block j false :: frees j k) (a + 2 ^ k) /\
    forall b, win b -> b ∉ headers a (Block j false :: frees j k) -> view s' b = view s b.
Proof.
  intros Hj Hk Hin Hs Hv. pose proof Hin as (Ha0 & Ha1 & Haw). pose proof (pow2_pos k ltac:(lia)).
  set (shape := fun i => Block i false :: frees i k).
  apply (loop_total _ (fun t => exists i, j <= i <= k /\ outside s t /\
      tiles (view t) a (shape i) (a + 2 ^ k) /\
      forall b, win b -> b ∉ headers a (shape i) -> view t b = view s b)
    (fun t => hsize (view t a))).
  - exists k. split; [lia|]. split; [reflexivity|]. unfold shape.
    rewrite frees_nil by lia. split; [|done]. cbn. rewrite Hv.
    split; [|done]. unfold hdr. cbn. lia.
  - rewrite budget_eq. unfold hsize. lia.
  - intros t (i & Hi & Ho & Ht & Hf). split; [apply hsize_range|].
    assert (win a) as Hwa by (apply Haw; lia). pose proof Ht as [Hva _].
    assert (hsize (view t a) = i) as Hsz by (rewrite Hva; apply hsize_hdr; cbn; lia).
    rewrite get_size_win, Hsz by done. bnd.
    destruct (Z.gtb_spec i j) as [Hgt|Hle]; last first.
    { eexists; split; [done|]. cbn beta iota. by replace j with i by lia. }
    pose proof (pow2_lt (i - 1) k ltac:(lia)). pose proof (pow2_pos (i - 1) ltac:(lia)).
    destruct (split_block_win t a (i - 1)) as (t' & -> & [Ho' Ht']);
      [lia|lia|lia|lia|lia|done|apply Haw; lia|].
    assert (hused (view t a) = false) as Hu by (rewrite Hva, hused_hdr by (cbn; lia); done).
    rewrite Hu, Z.add_0_r in Ht'.
    bnd. eexists; split; [done|]. cbn beta iota. split.
    + exists (i - 1). split; [lia|]. split; [by etrans|]. split.
      * by apply (halved_tiles t); [lia|..].
      * intros b Hb Hnb. apply halved_headers in Hnb as (N1 & N2 & N3); [|lia].
        rewrite Ht' by done. rewrite !vset_other by congruence. by apply Hf.
    + rewrite Ht' by done. rewrite vset_same. unfold hsize. lia.
Qed.

(** Taking the free block [b] at [a] for a request of size [need]. *)
Lemma take_block_win s a need b l e :
  3 <= need -> sizes_ok (b :: l) -> fits need b = true ->
  in_win win a (e - a) -> e <= 2 ^ 31 \/ 2 ^ 31 <= a -> tiles (view s) a (b :: l) e ->
  exists s', (s ← split_loop s a need; set_used s a 1) = Ok s' /\ outside s s' /\
    tiles (view s') a (Block need true :: frees need (bsize b) ++ l) e /\
    forall x, win x ->
      x ∉ headers a (Block need true :: frees need (bsize b) ++ l) -> view s' x = view s x.
Proof.
  intros Hn Hok Hf Hw Hs Ht.
  apply Forall_cons in Hok as [Hb Hl]. apply fits_spec in Hf as [Hu Hle].
  pose proof (tiles_span _ _ _ _ Ht) as He. rewrite span_cons in He.
  pose proof (span_nonneg l Hl). pose proof (blen_pos b Hb).
  destruct Ht as [Hva Hrest].
  assert (view s a = bsize b) as Hv by (rewrite Hva; unfold hdr; rewrite Hu; lia).
  destruct (split_loop_win s a need (bsize b)) as (s1 & -> & Ho1 & Ht1 & Hf1);
    [lia|lia|eapply in_win_sub; [done|lia|unfold blen in *; lia]|unfold blen in *; lia|done|]. bnd.
  assert (win a) as Hwa by (apply Hw; lia).
  destruct (set_used_win s1 a 1) as (s2 & -> & Ho2 & Hv2); [done|by right|].
  exists s2. split; [done|]. split; [by etrans|].
  destruct Ht1 as [Hva1 Ht1]. rewrite Hva1, hsize_hdr in Hv2 by (cbn; lia).
  cbn [bsize] in Hv2.
  change (blen (Block need false)) with (2 ^ need) in Ht1.
  pose proof (span_frees need (bsize b) ltac:(lia) Hle) as Hsf.
  assert (sizes_ok (frees need (bsize b))) as Hfo by (apply sizes_ok_frees; lia).
  pose proof (pow2_pos need ltac:(lia)).
  pose proof (span_nonneg _ Hfo).
  assert (forall x, win x -> x ∉ headers a (Block need true :: frees need (bsize b) ++ l) ->
    view s2 x = view s x) as Hframe.
  { intros x Hx Hnx. cbn [headers] in Hnx.
    change (blen (Block need true)) with (2 ^ need) in Hnx.
    rewrite headers_app, not_elem_of_cons, not_elem_of_app in Hnx.
    destruct Hnx as (Hne & Hn1 & _).
    rewrite Hv2 by done. rewrite vset_other by congruence.
    apply Hf1; [done|]. cbn [headers].
    change (blen (Block need false)) with (2 ^ need). rewrite not_elem_of_cons. done. }
  split; [|exact Hframe].
  cbn [tiles]. change (blen (Block need true)) with (2 ^ need). split.
  { rewrite Hv2 by done. rewrite vset_same. unfold hdr. cbn. lia. }
  apply tiles_app. split.
  - rewrite <- Z.add_assoc, Hsf. eapply tiles_frame; [|exact Ht1].
    intros x Hx. apply headers_range in Hx; [|done].
    rewrite Hv2 by (apply Hw; unfold blen in *; lia). by rewrite vset_other by lia.
  - rewrite <- Z.add_assoc, Hsf. eapply tiles_frame; [|exact Hrest].
    intros x Hx. apply headers_range in Hx; [|done].
    assert (win x) as Hwx by (apply Hw; unfold blen in *; lia).
    rewrite Hv2 by done. rewrite vset_other by lia.
    symmetry. apply Hf1; [done|]. intros Hin.
    apply headers_range in Hin; [|by constructor; [cbn; lia|]].
    rewrite span_cons in Hin. unfold blen in Hin at 1. cbn in Hin. lia.
Qed.

(** A heap in memory: its blocks end at [e], at most one past the last byte of
    its specification, and everything it spans is window memory.  It lies in one half
    of the address space: split_block computes with signed addresses. *)
Definition heap_at (h : heap_spec) s (l : list block) (e : Z) : Prop :=
  tiles (view s) (start h) l e /\ sizes_ok l /\
  in_win win (start h) (end_ h + 1 - start h) /\
  e <= end_ h + 1 < 4294967296 /\
  (end_ h <? 2 ^ 31) || (2 ^ 31 <=? start h) = true.

(** What follows the last block does not look like a block to the search:
    either nothing is searched, or the byte there is not a header the request
    fits, and it leads past the end. *)
Definition quiet (h : heap_spec) s (e need : Z) : Prop :=
  e = end_ h + 1 \/
  (fits_byte need (view s e) = false /\
   hsize (view s e) <= 30 /\ end_ h < e + 2 ^ hsize (view s e) < 4294967296).

(** What an allocation of size [need] from [l] in [s] leaves. *)
Definition allocated (h : heap_spec) s (l : list block) (e need : Z) (r : S * Z) : Prop :=
  match alloc_blocks need l with
  | Some (off, l') =>
      r.2 = start h + off + 1 /\ heap_at h r.1 l' e /\ outside s r.1 /\
      forall b, win b -> b ∉ headers (start h) l' -> view r.1 b = view s b
  | None => r.2 = 0 /\ r.1 = s
  end.

(** The search at a block the request fits. *)
Lemma allocate_hit h s l1 b l2 e need :
  heap_at h s (l1 ++ b :: l2) e -> 3 <= need ->
  Forall (fun b => fits need b = false) l1 -> fits need b = true ->
  exists r, allocate_body h need (s, start h + span l1) = Ok (inr r) /\
    allocated h s (l1 ++ b :: l2) e need r.
Proof.
  intros (Ht & Hok & Hw & He) Hn3 Hn Hf. pose proof Hw as (Hs0 & Hs1 & Hww).
  pose proof (tiles_span _ _ _ _ Ht) as Hes. apply tiles_app in Ht as [Ht1 Ht2].
  destruct (alloc_blocks_sizes need (l1 ++ b :: l2) _ _ Hn3 Hok
    (alloc_blocks_hit _ _ _ _ Hn Hf)) as (Hok' & _).
  apply Forall_app in Hok as [Hok1 Hok2].
  pose proof Hok2 as Hok2'. apply Forall_cons in Hok2' as [Hb Hok3].
  pose proof (blen_pos b Hb). pose proof (span_nonneg l2 Hok3). pose proof (span_nonneg l1 Hok1).
  rewrite span_app, span_cons in Hes.
  assert (win (start h + span l1)) as Hwa by (apply Hww; lia).
  unfold allocate_body. zbool. rewrite get_used_win, get_size_win by done. bnd.
  rewrite fits_byte_test. bnd. pose proof Ht2 as [Hvb _].
  rewrite Hvb, fits_byte_hdr, Hf by done.
  destruct (take_block_win s (start h + span l1) need b l2 e)
    as (s' & E & Ho & Ht' & Hfr); try done; [eapply in_win_sub; [done|lia|lia]|lia|].
  apply bind_ok_inv in E as (s1 & -> & E). bnd. rewrite E. bnd.
  unfold sizeof_heap_header. rewrite u32_small by lia. eexists; split; [done|].
  unfold allocated. rewrite alloc_blocks_hit by done. cbn [fst snd].
  assert (forall x, win x ->
    x ∉ headers (start h) (l1 ++ Block need true :: frees need (bsize b) ++ l2) ->
    view s' x = view s x) as Hfr'.
  { intros x Hx Hnx. apply Hfr; [done|].
    rewrite headers_app, not_elem_of_app in Hnx. tauto. }
  split; [lia|]. split; [|split; [done|exact Hfr']].
  split; [|done]. apply tiles_app. split; [|done].
  eapply tiles_frame; [|exact Ht1]. intros x Hx.
  apply headers_range in Hx; [|done]. symmetry.
  apply Hfr; [apply Hww; lia|]. intros Hin.
  apply Forall_app in Hok' as [_ Hok']. apply headers_range in Hin; [lia|done].
Qed.

(** The search at a block the request does not fit, or past the last one. *)
Lemma allocate_miss h s l1 b l2 e need :
  heap_at h s (l1 ++ b :: l2) e -> fits need b = false ->
  allocate_body h need (s, start h + span l1)
    = Ok (inl (s, start h + span (l1 ++ [b]))).
Proof.
  intros (Ht & Hok & Hw & He) Hf. pose proof Hw as (Hs0 & Hs1 & Hww).
  pose proof (tiles_span _ _ _ _ Ht) as Hes. apply tiles_app in Ht as [Ht1 [Hvb _]].
  apply Forall_app in Hok as [Hok1 Hok2]. apply Forall_cons in Hok2 as [Hb Hok3].
  pose proof (blen_pos b Hb). pose proof (span_nonneg l2 Hok3). pose proof (span_nonneg l1 Hok1).
  rewrite span_app, span_cons in Hes.
  assert (win (start h + span l1)) as Hwa by (apply Hww; lia).
  unfold allocate_body. zbool. rewrite get_used_win, get_size_win by done. bnd.
  rewrite fits_byte_test. bnd. rewrite Hvb, fits_byte_hdr, Hf by done.
  rewrite hsize_hdr, shl1_ok by lia. bnd. fold (blen b). rewrite u32_small by lia.
  by rewrite span_snoc, Z.add_assoc.
Qed.

Lemma allocate_end h s e need :
  0 <= start h -> in_win win (start h) (end_ h + 1 - start h) -> start h <= e ->
  quiet h s e need -> e <= end_ h ->
  exists a, allocate_body h need (s, e) = Ok (inl (s, a)) /\ end_ h < a < 4294967296.
Proof.
  intros H0 (_ & _ & Hww) Hse Hq He. destruct Hq as [|(Hq & H30 & Hq1)]; [lia|].
  assert (win e) as Hwe by (apply Hww; lia).
  pose proof (hsize_range (view s e)).
  unfold allocate_body. zbool. rewrite get_used_win, get_size_win by done. bnd.
  rewrite fits_byte_test. bnd. rewrite Hq, shl1_ok by lia. bnd.
  rewrite u32_small by lia. by eexists.
Qed.

(** The search is first fit on the list of blocks. *)
Lemma memory_allocate_win h s sz l e :
  heap_at h s l e -> 0 <= sz -> sz + 1 < 2 ^ 30 -> quiet h s e (needed (sz + 1)) ->
  exists r, memory_allocate s h sz = Ok r /\ allocated h s l e (needed (sz + 1)) r.
Proof.
  intros Hh Hsz0 Hsz1 Hq. pose proof Hh as (Ht & Hok & Hw & He).
  unfold memory_allocate, sizeof_heap_header.
  rewrite u32_small, round_block_size_ok by lia. bnd.
  set (need := needed (sz + 1)) in *.
  assert (3 <= need) as Hn3 by (unfold need, needed; lia).
  pose proof Hw as (Hs0 & Hs1 & Hww).
  pose proof (tiles_span _ _ _ _ Ht) as Hes. pose proof (span_nonneg l Hok).
  apply (loop_total _ (fun '(t, a) => t = s /\
      ((exists l1 l2, l = l1 ++ l2 /\ a = start h + span l1 /\
         Forall (fun b => fits need b = false) l1) \/
       (end_ h < a /\ alloc_blocks need l = None)))
    (fun '(t, a) => Z.max 0 (end_ h + 1 - a))).
  - split; [done|]. left. exists [], l. cbn. split; [done|]. split; [lia|constructor].
  - rewrite budget_eq. lia.
  - intros [t a] (-> & Hinv). split; [lia|].
    destruct Hinv as [(l1 & l2 & -> & -> & Hn)|[Hgt Hnone]]; last first.
    { exists (inr (s, 0)). unfold allocate_body. zbool. split; [done|].
      unfold allocated. by rewrite Hnone. }
    destruct l2 as [|b l2].
    + rewrite app_nil_r in *. subst e.
      apply alloc_blocks_none in Hn as Hnone.
      destruct (decide (start h + span l1 <= end_ h)) as [Hle|Hgt].
      * destruct (allocate_end h s (start h + span l1) need) as (a & -> & Ha);
          [done|done|lia|done|done|].
        eexists; split; [done|]. split; [|lia]. split; [done|]. right. by split; [lia|].
      * exists (inr (s, 0)). unfold allocate_body. zbool. split; [done|].
        unfold allocated. by rewrite Hnone.
    + destruct (fits need b) eqn:Hf.
      * destruct (allocate_hit h s l1 b l2 e need) as (r & -> & Hr); try done. eauto.
      * rewrite (allocate_miss h s l1 b l2 e need) by done.
        eexists; split; [done|].
        apply Forall_app in Hok as [Hok1 Hok2]. apply Forall_cons in Hok2 as [Hb Hok3].
        pose proof (blen_pos b Hb). pose proof (span_nonneg l2 Hok3).
        pose proof (span_snoc l1 b).
        assert (span (l1 ++ b :: l2) = span l1 + (blen b + span l2))
          by (rewrite span_app, span_cons; lia).
        split; [|lia]. split; [done|]. left.
        exists (l1 ++ [b]), l2. rewrite <- app_assoc. split; [done|].
        split; [done|]. apply Forall_app. split; [done|]. by constructor.
Qed.
End Loops.
