(* ===== verification/Coalesce.v ===== *)
(** * Coalescing: coalesce_block of alloc.c

    [coalesce_block], called on the header of a free block of an aligned heap,
    merges it with its buddy as long as the buddy is a free block of the same
    size.  The lemmas find the buddy among the blocks of the list. *)

From S2P Require Export AllocLemmas.

#[local] Open Scope Z_scope.

(** ** Buddies in an aligned list *)

(** The block that covers an offset. *)
Lemma covering_block l x :
  sizes_ok l -> 0 <= x < span l ->
  exists l1 c l2, l = l1 ++ c :: l2 /\ span l1 <= x < span l1 + blen c.
Proof.
  intros Hl; revert x; induction Hl as [|b l Hb Hl IH]; intros x Hx; [cbn in Hx; lia|].
  rewrite span_cons in Hx. destruct (decide (x < blen b)).
  - exists [], b, l. split; [done|]. cbn. lia.
  - destruct (IH (x - blen b)) as (l1 & c & l2 & -> & Hc); [lia|].
    exists (b :: l1), c, l2. split; [done|]. rewrite span_cons. lia.
Qed.

Lemma divide_between d x y : 0 < d -> (d | x) -> (d | y) -> x <= y < x + d -> y = x.
Proof.
  intros Hd [p ->] [q ->] [H1 H2]. apply Z.mul_le_mono_pos_r in H1; [|done].
  assert (q < p + 1); [|by replace q with p by lia].
  apply (Z.mul_lt_mono_pos_r d); [done|]. lia.
Qed.

Lemma divide_next d x y : 0 < d -> (d | x) -> (d | y) -> x < y -> x + d <= y.
Proof.
  intros Hd [p ->] [q ->] H. apply Z.mul_lt_mono_pos_r in H; [|done].
  replace (p * d + d) with ((p + 1) * d) by lia. apply Z.mul_le_mono_nonneg_r; lia.
Qed.

(** The offset of a buddy on the left is the offset of a block. *)
Lemma left_buddy_block l k :
  sizes_ok l -> aligned_from 0 l -> 0 <= k ->
  2 ^ k <= span l -> (2 ^ (k + 1) | span l - 2 ^ k) ->
  exists l1 c l2, l = l1 ++ c :: l2 /\ span l1 = span l - 2 ^ k.
Proof.
  intros Hl Ha Hk Hs Hd. pose proof (pow2_pos k Hk) as Hp.
  destruct (covering_block l (span l - 2 ^ k)) as (l1 & c & l2 & -> & Hc); [done|lia|].
  exists l1, c, l2. split; [done|].
  apply aligned_app in Ha as [_ [Hdc _]]. cbn in Hdc.
  apply Forall_app in Hl as [_ Hl]. apply Forall_cons in Hl as [Hb Hl2].
  pose proof (span_nonneg l2 Hl2).
  rewrite span_app, span_cons in *. unfold blen in *.
  destruct (decide (bsize c <= k)) as [Hle|Hgt].
  - symmetry. apply (divide_between (2 ^ bsize c)); [lia|done| |lia].
    etrans; [|exact Hd]. apply pow2_divide. lia.
  - exfalso.
    assert (2 ^ (k + 1) | span l1 + 2 ^ bsize c) as Hd2.
    { apply Z.divide_add_r; [etrans; [|exact Hdc]|]; apply pow2_divide; lia. }
    pose proof (divide_next (2 ^ (k + 1)) _ _ ltac:(lia) Hd Hd2 ltac:(lia)) as Hn.
    rewrite pow2_succ in Hn by lia. lia.
Qed.

Lemma span_zero l : sizes_ok l -> span l = 0 -> l = [].
Proof.
  intros Hl. destruct Hl as [|b l Hb Hl]; [done|]. rewrite span_cons.
  pose proof (blen_pos b Hb). pose proof (span_nonneg l Hl). lia.
Qed.

(** Flipping bit [k] of a multiple of [2 ^ k]. *)
Lemma lxor_bit_even x k :
  0 <= k -> (2 ^ (k + 1) | x) -> Z.lxor x (2 ^ k) = x + 2 ^ k.
Proof.
  intros Hk [q ->]. pose proof (pow2_pos k Hk). symmetry.
  apply Z.add_nocarry_lxor. apply Z.bits_inj'. intros i Hi.
  rewrite Z.land_spec, Z.bits_0, Z.pow2_bits_eqb by lia.
  destruct (Z.eqb_spec k i) as [->|]; [|apply andb_false_r].
  by rewrite Z.mul_pow2_bits_low by lia.
Qed.

Lemma lxor_bit_odd x k :
  0 <= k -> (2 ^ (k + 1) | x - 2 ^ k) -> Z.lxor x (2 ^ k) = x - 2 ^ k.
Proof.
  intros Hk Hd. apply lxor_bit_even in Hd; [|done].
  replace (x - 2 ^ k + 2 ^ k) with x in Hd by lia.
  rewrite <- Hd at 1. by rewrite Z.lxor_assoc, Z.lxor_nilpotent, Z.lxor_0_r.
Qed.

Lemma divide_parity x k :
  0 <= k -> (2 ^ k | x) -> (2 ^ (k + 1) | x) \/ (2 ^ (k + 1) | x - 2 ^ k).
Proof.
  intros Hk [q ->]. rewrite pow2_succ by done.
  destruct (Z.Even_or_Odd q) as [[m ->]|[m ->]]; [left|right]; exists m; lia.
Qed.

Lemma odd_multiple_ge x k : 0 <= k -> 0 <= x -> (2 ^ (k + 1) | x - 2 ^ k) -> 2 ^ k <= x.
Proof.
  intros Hk Hx [q Hq]. pose proof (pow2_pos k Hk). rewrite pow2_succ in Hq by done.
  destruct (Z.lt_ge_cases q 0) as [Hn|Hn].
  - assert (q * (2 * 2 ^ k) <= -1 * (2 * 2 ^ k)) by (apply Z.mul_le_mono_nonneg_r; lia). lia.
  - assert (0 <= q * (2 * 2 ^ k)) by (apply Z.mul_nonneg_nonneg; lia). lia.
Qed.

(** ** Merging in a list *)

Lemma used_from_merge l1 l2 k :
  0 <= k ->
  used_from 0 (l1 ++ Block k false :: Block k false :: l2)
    = used_from 0 (l1 ++ Block (k + 1) false :: l2).
Proof.
  intros Hk. rewrite !used_from_app. cbn. f_equal. f_equal.
  unfold blen. cbn. rewrite pow2_succ by done. lia.
Qed.

Lemma span_merge l1 l2 k :
  0 <= k ->
  span (l1 ++ Block k false :: Block k false :: l2) = span (l1 ++ Block (k + 1) false :: l2).
Proof.
  intros Hk. rewrite !span_app, !span_cons. unfold blen. cbn.
  rewrite pow2_succ by done. lia.
Qed.

Lemma aligned_merge l1 l2 k :
  0 <= k -> (2 ^ (k + 1) | span l1) ->
  aligned_from 0 (l1 ++ Block k false :: Block k false :: l2) ->
  aligned_from 0 (l1 ++ Block (k + 1) false :: l2).
Proof.
  intros Hk Hd. rewrite !aligned_app. intros [H1 (H2 & H3 & H4)].
  split; [done|]. cbn [aligned_from]. rewrite !blen_block, Z.add_0_l in *.
  split; [done|]. rewrite pow2_succ by done.
  by replace (span l1 + 2 * 2 ^ k) with (span l1 + 2 ^ k + 2 ^ k) by lia.
Qed.

Lemma headers_merge a l1 l2 k x :
  0 <= k -> x ∈ headers a (l1 ++ Block (k + 1) false :: l2) ->
  x ∈ headers a (l1 ++ Block k false :: Block k false :: l2).
Proof.
  intros Hk. rewrite !headers_app, !elem_of_app. cbn. rewrite !elem_of_cons.
  unfold blen. cbn. rewrite pow2_succ by done.
  replace (a + span l1 + 2 * 2 ^ k) with (a + span l1 + 2 ^ k + 2 ^ k) by lia. tauto.
Qed.

Section CoalesceWin.
Context {S : Type} {HS : Store S} {win : Z -> Prop} {HW : Window S win}.
Implicit Types (s : S) (a : Z).

(** Raising the size byte of the left one of two free buddies merges them. *)
Lemma merge_win h s l1 l2 k e :
  heap_at h s (l1 ++ Block k false :: Block k false :: l2) e -> 3 <= k < 30 ->
  (2 ^ (k + 1) | span l1) ->
  aligned_from 0 (l1 ++ Block k false :: Block k false :: l2) ->
  exists s', set_size s (start h + span l1) (k + 1) = Ok s' /\ outside s s' /\
    heap_at h s' (l1 ++ Block (k + 1) false :: l2) e /\
    aligned_from 0 (l1 ++ Block (k + 1) false :: l2) /\
    forall b, win b ->
      b ∉ headers (start h) (l1 ++ Block k false :: Block k false :: l2) ->
      view s' b = view s b.
Proof.
  intros (Ht & Hok & Hw & He) Hk Hd Ha.
  pose proof (tiles_span _ _ _ _ Ht) as Hes.
  apply tiles_app in Ht as [Ht1 (Hv1 & Hv2 & Ht2)].
  apply Forall_app in Hok as [Hok1 Hok2].
  apply Forall_cons in Hok2 as [Hb1 Hok2]. apply Forall_cons in Hok2 as [Hb2 Hok2].
  pose proof (span_nonneg l1 Hok1). pose proof (span_nonneg l2 Hok2).
  rewrite span_app, !span_cons in Hes. unfold blen in Hes, Ht2. cbn in Hes, Ht2.
  pose proof (pow2_pos k ltac:(lia)).
  pose proof Hw as (_ & _ & Hww).
  assert (win (start h + span l1)) as Hwa by (apply Hww; lia).
  destruct (set_size_win s (start h + span l1) (k + 1)) as (s' & -> & Ho & Hv); [done|lia|].
  exists s'. split; [done|]. split; [done|].
  rewrite Hv1, hused_hdr in Hv by (cbn; lia). cbn [bused] in Hv.
  split; [|split; [by apply aligned_merge; [lia|..]|]].
  - split; [|split; [|done]].
    + apply tiles_app. split; [|cbn [tiles]; split].
      * eapply tiles_frame; [|exact Ht1]. intros x Hx. apply headers_range in Hx; [|done].
        rewrite Hv by (apply Hww; lia). by rewrite vset_other by lia.
      * rewrite Hv by done. apply vset_same.
      * unfold blen. cbn. rewrite pow2_succ by lia.
        replace (start h + span l1 + 2 * 2 ^ k)
          with (start h + span l1 + 2 ^ k + 2 ^ k) by lia.
        eapply tiles_frame; [|exact Ht2]. intros x Hx. apply headers_range in Hx; [|done].
        rewrite Hv by (apply Hww; lia). by rewrite vset_other by lia.
    + apply Forall_app. split; [done|]. constructor; [cbn; lia|done].
  - intros b Hb Hnb. rewrite Hv by done. unfold vset. rewrite decide_False; [done|].
    intros <-. apply Hnb. rewrite headers_app, elem_of_app. right. cbn.
    apply elem_of_cons. by left.
Qed.

(** The byte after the last block is readable and never taken for a buddy. *)
Definition end_inert s (e : Z) : Prop :=
  win e /\ (hused (view s e) = true \/ hsize (view s e) < 3).

(** Can the free block of size [k] between [l1] and [l2] be merged? *)
Definition mergeable (l1 : list block) (k : Z) (l2 : list block) : Prop :=
  ((2 ^ (k + 1) | span l1) /\ exists m, l2 = Block k false :: m) \/
  ((2 ^ (k + 1) | span l1 - 2 ^ k) /\ exists m, l1 = m ++ [Block k false]).

(** The test of the loop, on the header byte it reads at the buddy. *)
Lemma coalesce_test x k :
  (if (if hused x then 1 else 0) =? 0 then mret (hsize x =? k) else mret false)
    = Ok (negb (hused x) && (hsize x =? k)).
Proof. by destruct (hused x). Qed.

(** The bytes at the two possible places of the buddy. *)
Lemma right_buddy_byte h s l1 k l2 e :
  heap_at h s (l1 ++ Block k false :: l2) e -> end_inert s e ->
  let b := start h + span l1 + 2 ^ k in
  win b /\
  (negb (hused (view s b)) && (hsize (view s b) =? k) = true <->
   exists m, l2 = Block k false :: m).
Proof.
  intros (Ht & Hok & Hw & He) [Hwe Hin] b. pose proof Hw as (Hs0 & _ & Hww).
  pose proof (tiles_span _ _ _ _ Ht) as Hes. apply tiles_app in Ht as [_ [_ Ht]].
  rewrite blen_block in Ht. fold b in Ht.
  apply Forall_app in Hok as [Hok1 Hok2]. apply Forall_cons in Hok2 as [Hk Hok2].
  cbn in Hk. pose proof (span_nonneg l1 Hok1).
  rewrite span_app, span_cons, blen_block in Hes.
  destruct l2 as [|c l2].
  - cbn in Ht, Hes. replace b with e by done. split; [done|]. split; [|by intros [m ?]].
    rewrite andb_true_iff, negb_true_iff, Z.eqb_eq. intros [? ?]. destruct Hin; [congruence|lia].
  - apply Forall_cons in Hok2 as [Hc Hok2]. pose proof (blen_pos c Hc).
    pose proof (span_nonneg l2 Hok2). pose proof (pow2_pos k ltac:(lia)).
    rewrite span_cons in Hes. destruct Ht as [-> _].
    split; [apply Hww; lia|]. rewrite hused_hdr, hsize_hdr by done.
    rewrite andb_true_iff, negb_true_iff, Z.eqb_eq. destruct c as [ck cu]. cbn. split.
    + intros [-> ->]. by exists l2.
    + by intros [m [= -> ->]].
Qed.

Lemma left_buddy_byte h s l1 k l2 e :
  heap_at h s (l1 ++ Block k false :: l2) e ->
  aligned_from 0 (l1 ++ Block k false :: l2) ->
  2 ^ k <= span l1 -> (2 ^ (k + 1) | span l1 - 2 ^ k) ->
  let b := start h + span l1 - 2 ^ k in
  win b /\
  (negb (hused (view s b)) && (hsize (view s b) =? k) = true <->
   exists m, l1 = m ++ [Block k false]).
Proof.
  intros (Ht & Hok & Hw & He) Ha Hle Hd b. pose proof Hw as (Hs0 & _ & Hww).
  pose proof (tiles_span _ _ _ _ Ht) as Hes. apply tiles_app in Ht as [Ht _].
  apply Forall_app in Hok as [Hok1 Hok2]. apply Forall_cons in Hok2 as [Hk Hok2].
  cbn in Hk. pose proof (span_nonneg l2 Hok2). pose proof (pow2_pos k ltac:(lia)).
  rewrite span_app, span_cons, blen_block in Hes.
  apply aligned_app in Ha as [Ha _].
  split; [apply Hww; unfold b; lia|]. split.
  - destruct (left_buddy_block l1 k) as (m1 & c & m2 & -> & Hm); [done|done|lia|done|done|].
    apply tiles_app in Ht as [_ [Hvc _]].
    replace (start h + span m1) with b in Hvc by (unfold b; lia).
    apply Forall_app in Hok1 as [_ Hok1]. apply Forall_cons in Hok1 as [Hc Hok1].
    rewrite Hvc, hused_hdr, hsize_hdr, andb_true_iff, negb_true_iff, Z.eqb_eq by done.
    destruct c as [ck cu]. cbn. intros [-> ->].
    rewrite span_app, span_cons, blen_block in Hm.
    rewrite (span_zero m2) by (done || lia). by exists m1.
  - intros [m ->]. apply tiles_app in Ht as [_ [Hvc _]].
    replace (start h + span m) with b in Hvc
      by (unfold b; rewrite span_snoc, blen_block; lia).
    rewrite Hvc, hused_hdr, hsize_hdr by done. cbn. lia.
Qed.

(** What holds all through a coalescing that started from [l] in [s]. *)
Definition coalesced (h : heap_spec) s (l : list block) (e : Z) s' (l' : list block) : Prop :=
  heap_at h s' l' e /\ aligned_from 0 l' /\ outside s s' /\
  used_from 0 l' = used_from 0 l /\ span l' = span l /\
  (forall x, x ∈ headers (start h) l' -> x ∈ headers (start h) l) /\
  (forall b, win b -> b ∉ headers (start h) l -> view s' b = view s b).

Lemma coalesced_merge h s l e t l1 k l2 :
  coalesced h s l e t (l1 ++ Block k false :: Block k false :: l2) ->
  3 <= k < 30 -> (2 ^ (k + 1) | span l1) ->
  exists t', set_size t (start h + span l1) (k + 1) = Ok t' /\
    coalesced h s l e t' (l1 ++ Block (k + 1) false :: l2) /\
    hsize (view t' (start h + span l1)) = k + 1.
Proof.
  intros (Hh & Ha & Ho & Hu & Hs & Hsub & Hfr) Hk Hd.
  destruct (merge_win h t l1 l2 k e) as (t' & -> & Ho' & Hh' & Ha' & Hfr'); try done.
  exists t'. split; [done|]. split.
  - split; [done|]. split; [done|]. split; [by etrans|].
    rewrite <- used_from_merge, <- span_merge by lia. split; [done|]. split; [done|].
    split.
    + intros x Hx. apply Hsub. apply headers_merge in Hx; [done|lia].
    + intros b Hb Hnb. rewrite Hfr'; auto.
  - destruct Hh' as (Ht & _). apply tiles_app in Ht as [_ [Hv _]].
    rewrite Hv, hsize_hdr; cbn; lia.
Qed.

Lemma coalesced_end h s l e t l' :
  coalesced h s l e t l' -> end_inert s e -> sizes_ok l -> e = start h + span l ->
  end_inert t e.
Proof.
  intros (_ & _ & _ & _ & _ & _ & Hfr) [Hwe Hin] Hok He. split; [done|].
  rewrite Hfr; [done|done|]. intros Hx. apply headers_range in Hx; [lia|done].
Qed.

(** The body of the loop, once the buddy is known to be at [b]. *)
Lemma coalesce_body_at h t a k b :
  win a -> win b -> hsize (view t a) = k -> 0 <= k <= 30 ->
  start h <= a < 4294967296 -> 0 <= start h -> 0 <= b < 4294967296 ->
  start h + Z.lxor (a - start h) (2 ^ k) = b -> a <> b ->
  coalesce_body (start h) (t, a) =
    if negb (hused (view t b)) && (hsize (view t b) =? k)
    then t' ← set_size t (Z.min a b) (k + 1); mret (inl (t', Z.min a b))
    else mret (inr t).
Proof.
  intros Ha Hb Hk Hk30 Hsa Hs0 Hb0 Heq Hne. unfold coalesce_body.
  rewrite get_size_win, Hk by done. bnd. rewrite shl1_ok by lia. bnd.
  rewrite (u32_small (a - start h)), (Z.add_comm _ (start h)), Heq, u32_small by lia.
  rewrite get_used_win by done. bnd. rewrite (get_size_win t b) by done. bnd.
  rewrite coalesce_test. bnd.
  destruct (negb (hused (view t b)) && (hsize (view t b) =? k)) eqn:E; [|done].
  apply andb_true_iff in E as [_ E]. apply Z.eqb_eq in E.
  rewrite E.
  destruct (Z.gtb_spec b a); [rewrite Z.min_l by lia|rewrite Z.min_r by lia]; done.
Qed.

(** ** One iteration *)

Section Step.
Context (h : heap_spec) (s t : S) (l l1 l2 : list block) (e k : Z).
Context (Hc : coalesced h s l e t (l1 ++ Block k false :: l2)) (Hin : end_inert s e)
  (Hokl : sizes_ok l) (Hel : e = start h + span l) (Hmax : span l <= 2 ^ 30).

(** The iteration leaves with the block's buddy not free, or merges. *)
Definition step_outcome : Prop :=
  (~ mergeable l1 k l2 /\
   coalesce_body (start h) (t, start h + span l1) = Ok (inr t)) \/
  (exists t' l1' l2',
     coalesce_body (start h) (t, start h + span l1) = Ok (inl (t', start h + span l1')) /\
     coalesced h s l e t' (l1' ++ Block (k + 1) false :: l2') /\ k < 30).

(** What the header at hand says, and what is around it. *)
Lemma step_sizes :
  3 <= k <= 30 /\ sizes_ok l1 /\ sizes_ok l2 /\ span l1 + 2 ^ k + span l2 = span l.
Proof.
  pose proof Hc as ((_ & Hok & _) & _ & _ & _ & Hsp & _).
  apply Forall_app in Hok as [Hok1 Hok2]. apply Forall_cons in Hok2 as [Hk Hok2].
  rewrite span_app, span_cons, blen_block in Hsp. cbn in Hk. by split_and!; [lia|lia| | |lia].
Qed.

Lemma step_header :
  hsize (view t (start h + span l1)) = k /\ win (start h + span l1) /\ (2 ^ k | span l1).
Proof.
  pose proof Hc as ((Ht & _ & Hw & He) & Ha & _). pose proof Hw as (_ & _ & Hww).
  destruct step_sizes as (Hk & Hok1 & Hok2 & Hs). pose proof (pow2_pos k ltac:(lia)).
  pose proof (span_nonneg l1 Hok1). pose proof (span_nonneg l2 Hok2).
  apply tiles_app in Ht as [_ [Hva _]]. apply aligned_app in Ha as [_ [Hdk _]].
  rewrite Z.add_0_l, blen_block in Hdk. split; [rewrite Hva, hsize_hdr; cbn; lia|].
  split; [apply Hww; lia|done].
Qed.

(** The block is the left one of its pair: the buddy is the block after it. *)
Lemma step_right : (2 ^ (k + 1) | span l1) -> step_outcome.
Proof.
  intros Hd. destruct step_sizes as (Hk & Hok1 & Hok2 & Hs). destruct step_header as (Hsz & Hwa & Hdk).
  pose proof Hc as (Hh & Ha & _). pose proof Hh as (_ & _ & (Hs0 & _) & He).
  pose proof (pow2_pos k ltac:(lia)) as Hp. pose proof (span_nonneg l1 Hok1). pose proof (span_nonneg l2 Hok2).
  destruct (right_buddy_byte h t l1 k l2 e Hh (coalesced_end _ _ _ _ _ _ Hc Hin Hokl Hel)) as [Hwb Htest].
  unfold step_outcome.
  rewrite (coalesce_body_at h t _ k (start h + span l1 + 2 ^ k)); try done; try lia;
    [|replace (start h + span l1 - start h) with (span l1) by lia;
      rewrite lxor_bit_even by (done || lia); lia].
  destruct (negb _ && _) eqn:E.
  - right. destruct (proj1 Htest eq_refl) as [m ->]. rewrite span_cons, blen_block in Hs.
    apply Forall_cons in Hok2 as [_ Hok2]. pose proof (span_nonneg m Hok2).
    assert (k < 30) as Hk30 by (apply (Z.pow_lt_mono_r_iff 2); lia).
    rewrite Z.min_l by lia.
    destruct (coalesced_merge h s l e t l1 k m) as (t' & -> & Hc' & _); [done|lia|done|].
    by exists t', l1, m.
  - left. split; [|done]. intros [[_ Hm]|[Hd2 _]]; [apply Htest in Hm; congruence|].
    apply (Z.divide_sub_r _ _ _ Hd) in Hd2.
    replace (span l1 - (span l1 - 2 ^ k)) with (2 ^ k) in Hd2 by lia.
    apply Z.divide_pos_le in Hd2; [|done]. rewrite pow2_succ in Hd2; lia.
Qed.

(** The block is the right one of its pair: the buddy is the block before it. *)
Lemma step_left : (2 ^ (k + 1) | span l1 - 2 ^ k) -> step_outcome.
Proof.
  intros Hd. destruct step_sizes as (Hk & Hok1 & Hok2 & Hs). destruct step_header as (Hsz & Hwa & Hdk).
  pose proof Hc as (Hh & Ha & _). pose proof Hh as (_ & _ & (Hs0 & _) & He).
  pose proof (pow2_pos k ltac:(lia)) as Hp. pose proof (span_nonneg l1 Hok1). pose proof (span_nonneg l2 Hok2).
  assert (2 ^ k <= span l1) as Hle by (apply odd_multiple_ge; done || lia).
  destruct (left_buddy_byte h t l1 k l2 e Hh Ha Hle Hd) as [Hwb Htest]. unfold step_outcome.
  rewrite (coalesce_body_at h t _ k (start h + span l1 - 2 ^ k)); try done; try lia;
    [|replace (start h + span l1 - start h) with (span l1) by lia;
      rewrite lxor_bit_odd by (done || lia); lia].
  destruct (negb _ && _) eqn:E.
  - right. destruct (proj1 Htest eq_refl) as [m Hm]. pose proof Hc as Hc'. rewrite Hm in *.
    rewrite span_snoc, blen_block in *.
    apply Forall_app in Hok1 as [Hok1 _]. pose proof (span_nonneg m Hok1).
    assert (k < 30) as Hk30 by (apply (Z.pow_lt_mono_r_iff 2); lia).
    rewrite Z.min_r by lia. rewrite <- app_assoc in Hc'.
    replace (start h + (span m + 2 ^ k) - 2 ^ k) with (start h + span m) by lia.
    replace (span m + 2 ^ k - 2 ^ k) with (span m) in Hd by lia.
    destruct (coalesced_merge h s l e t m k l2) as (t' & -> & Hc2 & _); [done|lia|done|].
    by exists t', m, l2.
  - left. split; [|done]. intros [[Hd2 _]|[_ Hm]]; [|apply Htest in Hm; congruence].
    apply (Z.divide_sub_r _ _ _ Hd2) in Hd.
    replace (span l1 - (span l1 - 2 ^ k)) with (2 ^ k) in Hd by lia.
    apply Z.divide_pos_le in Hd; [|done]. rewrite pow2_succ in Hd; lia.
Qed.

(** One iteration either leaves with the block's buddy not free, or merges. *)
Lemma coalesce_step : step_outcome.
Proof.
  destruct step_sizes as (Hk & _). destruct step_header as (_ & _ & Hdk).
  destruct (divide_parity (span l1) k ltac:(lia) Hdk); [by apply step_right|by apply step_left].
Qed.
End Step.

(** Called on the header of a free block, [coalesce_block] terminates, merges
    that block as far as its buddies are free, and keeps the heap in order. *)
Lemma coalesce_block_win h s l1 k l2 e :
  let l := l1 ++ Block k false :: l2 in
  heap_at h s l e -> aligned_from 0 l -> span l <= 2 ^ 30 -> end_inert s e ->
  exists s', coalesce_block s (start h + span l1) (start h) = Ok s' /\
    exists l1' k' l2', coalesced h s l e s' (l1' ++ Block k' false :: l2') /\
      ~ mergeable l1' k' l2' /\ k <= k'.
Proof.
  intros l Hh Ha Hmax Hin. pose proof Hh as (Ht & Hok & _ & _).
  pose proof (tiles_span _ _ _ _ Ht) as Hes.
  assert (3 <= k <= 30) as Hk.
  { apply Forall_app in Hok as [_ Hok]. by apply Forall_cons in Hok as [Hk _]. }
  apply (loop_total _
    (fun '(t, a) => exists l1' k' l2', a = start h + span l1' /\ k <= k' <= 30 /\
       coalesced h s l e t (l1' ++ Block k' false :: l2'))
    (fun '(t, a) => 30 - hsize (view t a))
    (fun s' => exists l1' k' l2', coalesced h s l e s' (l1' ++ Block k' false :: l2') /\
      ~ mergeable l1' k' l2' /\ k <= k')).
  - exists l1, k, l2. split; [done|]. split; [lia|]. split; [done|]. split; [done|].
    split; [reflexivity|]. done.
  - rewrite budget_eq. pose proof (hsize_range (view s (start h + span l1))). lia.
  - assert (forall t l1' k' l2', coalesced h s l e t (l1' ++ Block k' false :: l2') ->
      3 <= k' <= 30 -> hsize (view t (start h + span l1')) = k') as Hsz.
    { intros t l1' k' l2' (Hh' & _) Hk'. destruct Hh' as (Ht' & _).
      apply tiles_app in Ht' as [_ [Hv _]]. rewrite Hv, hsize_hdr; done. }
    intros [t a] (l1' & k' & l2' & -> & Hk' & Hc).
    rewrite (Hsz _ _ _ _ Hc) by lia. split; [lia|].
    destruct (coalesce_step h s t l l1' l2' e k') as [[Hm ->]|(t' & m1 & m2 & -> & Hc' & Hlt)];
      try done.
    + eexists; split; [done|]. exists l1', k', l2'. split; [done|]. split; [done|lia].
    + eexists; split; [done|]. cbn beta iota. rewrite (Hsz _ _ _ _ Hc') by lia.
      split; [|lia]. exists m1, (k' + 1), m2. split; [done|]. split; [lia|done].
Qed.
End CoalesceWin.
