(* ===== verification/AllocInit.v ===== *)
(** * memory_free and init_memory of alloc.c

    [memory_free] clears the used bit of the block's header and then coalesces
    from the data pointer, not from the header: what it does depends on the first
    data byte.  [init_memory] lays out one free block per set bit of the heap
    length. *)

From S2P Require Export Coalesce.

#[local] Open Scope Z_scope.

(** The blocks [init_memory] lays out for a heap of [p] units of [2 ^ k] bytes:
    least significant bit first. *)
Fixpoint init_blocks (k : Z) (p : positive) : list block :=
  match p with
  | xH => [Block k false]
  | xO p => init_blocks (k + 1) p
  | xI p => Block k false :: init_blocks (k + 1) p
  end.

Lemma init_blocks_free k p : Forall (fun b => bused b = false) (init_blocks k p).
Proof. revert k; induction p; intros k; cbn; repeat constructor; auto. Qed.

Lemma init_blocks_span k p : 0 <= k -> span (init_blocks k p) = 2 ^ k * Zpos p.
Proof.
  revert k; induction p as [p IH|p IH|]; intros k Hk; cbn [init_blocks].
  - rewrite span_cons, blen_block, IH, pow2_succ by lia. lia.
  - rewrite IH, pow2_succ by lia. lia.
  - rewrite span_cons, blen_block. cbn. lia.
Qed.

Lemma init_blocks_sizes k p :
  3 <= k -> 2 ^ k * Zpos p < 2 ^ 31 -> sizes_ok (init_blocks k p).
Proof.
  revert k; induction p as [p IH|p IH|]; intros k Hk Hp; cbn [init_blocks].
  - assert (k <= 30) as Hk30.
    { apply Z.lt_succ_r, (Z.pow_lt_mono_r_iff 2); [lia|lia|]. pose proof (pow2_pos k); nia. }
    constructor; [cbn; lia|]. apply IH; [lia|]. rewrite pow2_succ by lia.
    pose proof (pow2_pos k); lia.
  - apply IH; [lia|]. rewrite pow2_succ by lia. lia.
  - assert (k <= 30) as Hk30.
    { apply Z.lt_succ_r, (Z.pow_lt_mono_r_iff 2); [lia|lia|]. lia. }
    repeat constructor; cbn; lia.
Qed.

Section Init.
Context {S : Type} {HS : Store S} {win : Z -> Prop} {HW : Window S win}.
Implicit Types (s : S) (a : Z).

(** Writing a fresh free header. *)
Lemma fresh_header s a k :
  win a -> 0 <= k < 128 ->
  exists s', (s ← set_size s a k; set_used s a 0) = Ok s' /\ becomes s s' (vset (view s) a k).
Proof.
  intros Ha Hk.
  destruct (set_size_win s a k) as (s1 & -> & Ho1 & Hv1); [done|lia|]. bnd.
  destruct (set_used_win s1 a 0) as (s2 & -> & Ho2 & Hv2); [done|by left|].
  exists s2. split; [done|]. split; [by etrans|]. intros b Hb.
  unfold vset in *. rewrite Hv2, (Hv1 a), (Hv1 b) by done. rewrite (decide_True (P := a = a)) by done.
  repeat case_decide; try done. unfold hsize. destruct (hused _); lia.
Qed.

Lemma init_skip h s blk n k :
  blk < end_ h -> 0 < n -> n mod 2 = 0 ->
  init_body h (s, blk, n, k) = Ok (inl (s, blk, n / 2, u8 (k + 1))).
Proof.
  intros Hblk Hn Hm. unfold init_body.
  rewrite (proj2 (Z.ltb_lt _ _) Hblk), (proj2 (Z.gtb_lt _ _) Hn). cbn [andb].
  rewrite land_1, shiftr_1.
  rewrite Hm. reflexivity.
Qed.

Lemma init_put h s blk n k :
  blk < end_ h -> 0 < n -> n mod 2 = 1 -> 3 <= k <= 30 -> win blk ->
  0 <= blk -> blk + 2 ^ k < 4294967296 ->
  exists s', init_body h (s, blk, n, k) = Ok (inl (s', blk + 2 ^ k, n / 2, u8 (k + 1))) /\
    becomes s s' (vset (view s) blk k).
Proof.
  intros Hblk Hn Hm Hk Hw H0 H1. unfold init_body.
  rewrite (proj2 (Z.ltb_lt _ _) Hblk), (proj2 (Z.gtb_lt _ _) Hn). cbn [andb].
  rewrite land_1, shiftr_1.
  rewrite Hm. change (1 =? 1) with true.
  destruct (fresh_header s blk k) as (s' & E & Hb); [done|lia|].
  apply bind_ok_inv in E as (s1 & -> & E). bnd. rewrite E. bnd.
  pose proof (pow2_pos k ltac:(lia)).
  rewrite shl1_ok by lia. bnd. rewrite u32_small by lia. by exists s'.
Qed.

(** The initialisation loop from any point on. *)
Lemma init_leaves h p s blk k :
  3 <= k -> 0 <= blk -> blk + 2 ^ k * Zpos p <= end_ h + 1 < 4294967296 ->
  2 ^ k * Zpos p < 2 ^ 31 -> (forall x, blk <= x <= end_ h -> win x) ->
  exists n s', (n <= Datatypes.S (Pos.size_nat p))%nat /\
    leaves (init_body h) n (s, blk, Zpos p, k) (Ok s') /\ outside s s' /\
    tiles (view s') blk (init_blocks k p) (blk + 2 ^ k * Zpos p) /\
    forall x, win x -> x ∉ headers blk (init_blocks k p) -> view s' x = view s x.
Proof.
  revert s blk k; induction p as [p IH|p IH|]; intros s blk k Hk Hb He Hlen Hw;
    pose proof (pow2_le 3 k ltac:(lia)) as Hk8; change (2 ^ 3) with 8 in Hk8;
    pose proof (init_blocks_sizes k _ Hk Hlen) as Hok; cbn [init_blocks] in *.
  - apply Forall_cons in Hok as [Hk30 Hok]. cbn in Hk30.
    destruct (init_put h s blk (Zpos p~1) k) as (s1 & E & Ho1 & Hv1); try lia.
    { apply Hw. lia. }
    rewrite u8_small in E by lia. replace (Zpos p~1 / 2) with (Zpos p) in E by lia.
    destruct (IH s1 (blk + 2 ^ k) (k + 1)) as (n & s' & Hn & Hl & Ho & Ht & Hf);
      try (rewrite ?pow2_succ by lia); try lia.
    { intros; apply Hw; lia. }
    rewrite pow2_succ in Ht by lia.
    assert (forall x, win x -> x ∉ blk :: headers (blk + 2 ^ k) (init_blocks (k + 1) p) ->
      view s' x = view s x) as Hfr.
    { intros x Hx Hnx. apply not_elem_of_cons in Hnx as [Hne Hnx].
      rewrite Hf, Hv1 by done. by rewrite vset_other by congruence. }
    exists (Datatypes.S n), s'. split; [cbn; lia|].
    split; [by eapply leaves_next|]. split; [by etrans|].
    split; [|exact Hfr]. cbn [tiles]. rewrite blen_block. split.
    + assert (win blk) as Hwb by (apply Hw; lia).
      rewrite Hf, Hv1; [|done|done|intros Hin; apply headers_range in Hin; [lia|done]].
      rewrite vset_same. unfold hdr. cbn. lia.
    + by replace (blk + 2 ^ k * Zpos p~1) with (blk + 2 ^ k + 2 * 2 ^ k * Zpos p) by lia.
  - pose proof (init_skip h s blk (Zpos p~0) k ltac:(lia) ltac:(lia) ltac:(lia)) as E.
    assert (k <= 30) as Hk30.
    { apply Z.lt_succ_r, (Z.pow_lt_mono_r_iff 2); lia. }
    rewrite u8_small in E by lia. replace (Zpos p~0 / 2) with (Zpos p) in E by lia.
    destruct (IH s blk (k + 1)) as (n & s' & Hn & Hl & Ho & Ht & Hf);
      try (rewrite ?pow2_succ by lia); try lia; [done|].
    rewrite pow2_succ in Ht by lia.
    exists (Datatypes.S n), s'. split; [cbn; lia|].
    split; [by eapply leaves_next|]. split; [done|]. split; [|done].
    by replace (blk + 2 ^ k * Zpos p~0) with (blk + 2 * 2 ^ k * Zpos p) by lia.
  - apply Forall_cons in Hok as [Hk30 _]. cbn in Hk30.
    destruct (init_put h s blk 1 k) as (s1 & E & Ho1 & Hv1); try lia.
    { apply Hw. lia. }
    rewrite u8_small in E by lia. change (1 / 2) with 0 in E.
    exists 2%nat, s1. split; [cbn; lia|]. split.
    { eapply leaves_next; [exact E|]. constructor. unfold init_body.
      change (0 >? 0) with false. by rewrite andb_false_r. }
    split; [done|]. cbn. split.
    + split; [|unfold blen; cbn; lia].
      rewrite Hv1 by (apply Hw; lia). rewrite vset_same.
      unfold hdr. cbn. lia.
    + intros x Hx Hnx. rewrite Hv1 by done. unfold vset.
      rewrite decide_False; [done|]. intros <-. apply Hnx. by apply list_elem_of_singleton.
Qed.

Lemma init_memory_win h s :
  0 <= start h -> 8 <= end_ h + 1 - start h < 2 ^ 31 -> end_ h + 1 < 4294967296 ->
  (end_ h <? 2 ^ 31) || (2 ^ 31 <=? start h) = true -> in_win win (start h) (end_ h + 1 - start h) ->
  let p := Z.to_pos ((end_ h + 1 - start h) / 8) in
  exists s', init_memory s h = Ok s' /\ outside s s' /\
    heap_at h s' (init_blocks 3 p) (start h + 8 * Zpos p) /\
    forall x, win x -> x ∉ headers (start h) (init_blocks 3 p) -> view s' x = view s x.
Proof.
  intros Hs Hlen He H1s Hw p. pose proof Hw as (_ & _ & Hww).
  assert (Zpos p = (end_ h + 1 - start h) / 8) as Hp by (apply Z2Pos.id; lia).
  destruct (init_leaves h p s (start h) 3) as (n & s' & Hn & Hl & Ho & Ht & Hf);
    try lia; [intros; apply Hww; lia|].
  exists s'. split; [|split; [done|split; [|done]]].
  - unfold init_memory. rewrite u32_small, shr32_ok by (unfold MIN_BLOCK_SIZE; lia). bnd.
    replace ((end_ h - start h + 1) / 2 ^ MIN_BLOCK_SIZE) with (Zpos p)
      by (rewrite Hp; f_equal; lia).
    eapply leaves_loop; [exact Hl|]. rewrite budget_eq.
    assert (Pos.size_nat p <= Pos.to_nat p)%nat by (clear; induction p; cbn; lia).
    lia.
  - split; [done|]. split; [apply init_blocks_sizes; lia|]. split; [done|lia].
Qed.

(** [memory_free] when the data byte does not name a mergeable "buddy". *)
Lemma memory_free_win h s l1 b l2 e :
  heap_at h s (l1 ++ b :: l2) e ->
  let p := start h + span l1 + 1 in
  let k := hsize (view s p) in
  let q := start h + Z.lxor (span l1 + 1) (2 ^ k) in
  k <= 30 -> win q -> q < 4294967296 ->
  (hused (view s q) = true \/ hsize (view s q) <> k) ->
  exists s', memory_free s h p = Ok s' /\
    heap_at h s' (l1 ++ Block (bsize b) false :: l2) e /\
    becomes s s' (vset (view s) (p - 1) (bsize b)).
Proof.
  intros (Ht & Hok & Hw & He) p k q Hk Hwq Hq Hmiss. pose proof Hw as (Hs0 & _ & Hww).
  pose proof (tiles_span _ _ _ _ Ht) as Hes. apply tiles_app in Ht as [Ht1 [Hvb Ht2]].
  apply Forall_app in Hok as [Hok1 Hok2]. apply Forall_cons in Hok2 as [Hb Hok2].
  pose proof (span_nonneg l1 Hok1). pose proof (span_nonneg l2 Hok2). pose proof (blen_pos b Hb).
  rewrite span_app, span_cons in Hes.
  assert (win (start h + span l1)) as Hwa by (apply Hww; lia).
  assert (win p) as Hwp by (apply Hww; lia).
  unfold memory_free, sizeof_heap_header. rewrite u32_small by lia.
  replace (p - 1) with (start h + span l1) by lia.
  destruct (set_used_win s (start h + span l1) 0) as (s1 & -> & Ho1 & Hv1); [done|by left|].
  bnd. rewrite Hvb, hsize_hdr, Z.mul_0_r, Z.add_0_r in Hv1 by done.
  assert (view s1 p = view s p) as Hvp.
  { rewrite Hv1 by done. by rewrite vset_other by lia. }
  assert (0 <= k) by apply hsize_range. pose proof (pow2_pos k ltac:(lia)).
  assert (0 <= Z.lxor (span l1 + 1) (2 ^ k)) by (apply Z.lxor_nonneg; lia).
  assert (q <> p) as Hqp.
  { pose proof (lxor_pow2_ne (span l1 + 1) k). lia. }
  exists s1. split; [|split].
  - apply (leaves_loop _ 1); [|rewrite budget_eq; lia]. constructor.
    rewrite (coalesce_body_at h s1 p k q); try done; try lia.
    + assert (negb (hused (view s1 q)) && (hsize (view s1 q) =? k) = false) as ->; [|done].
      rewrite Hv1 by done. unfold vset. case_decide as Hd.
      * (* the "buddy" is the header itself: only when the exponent is 0 *)
        assert (k <> bsize b) as Hkb.
        { intros ->. assert (Z.lxor (span l1 + 1) (2 ^ bsize b) = span l1) as Hx by lia.
          apply (f_equal (fun z => Z.testbit z 0)) in Hx.
          rewrite Z.lxor_spec, Z.pow2_bits_eqb in Hx by lia.
          replace (bsize b =? 0) with false in Hx by lia.
          rewrite xorb_false_r, Z.bit0_odd, Z.bit0_odd, Z.add_1_r, Z.odd_succ in Hx.
          rewrite <- Z.negb_odd in Hx. by destruct (Z.odd (span l1)). }
        unfold hsize, hused. rewrite Z.mod_small by lia.
        destruct (Z.eqb_spec (bsize b) k); [congruence|]. apply andb_false_r.
      * destruct Hmiss as [->|Hne]; [done|].
        destruct (Z.eqb_spec (hsize (view s q)) k); [done|]. apply andb_false_r.
    + by rewrite Hvp.
    + replace (p - start h) with (span l1 + 1) by lia. done.
  - split; [|split; [|done]].
    + apply tiles_app. split; [|cbn [tiles]; split].
      * eapply tiles_frame; [|exact Ht1]. intros x Hx. apply headers_range in Hx; [|done].
        rewrite Hv1 by (apply Hww; lia). by rewrite vset_other by lia.
      * rewrite Hv1 by done. rewrite vset_same. unfold hdr. cbn. lia.
      * rewrite blen_block. fold (blen b). eapply tiles_frame; [|exact Ht2].
        intros x Hx. apply headers_range in Hx; [|done].
        rewrite Hv1 by (apply Hww; lia). by rewrite vset_other by lia.
    + apply Forall_app. split; [done|]. constructor; done.
  - split; done.
Qed.
End Init.
