(* ===== verification/AllocProps.v ===== *)
(** * Properties of the allocator

    What alloc.c guarantees to the rest of the kernel, and where it does not do
    what its comments say. *)

From S2P Require Export AllocInit.

#[local] Open Scope Z_scope.

(** A range in use is a used block of the list. *)
Lemma used_from_split base l o k :
  (o, k) ∈ used_from base l <-> exists l1 l2, l = l1 ++ Block k true :: l2 /\ o = base + span l1.
Proof.
  split.
  - revert base; induction l as [|b l IH]; intros base; cbn.
    { intros H. by apply elem_of_nil in H. }
    rewrite elem_of_app. intros [H|H].
    + destruct b as [bk bu]. cbn in H. destruct bu; [|by apply elem_of_nil in H].
      apply list_elem_of_singleton in H as [= -> ->]. exists [], l. split; [done|]. cbn. lia.
    + destruct (IH _ H) as (l1 & l2 & -> & ->). exists (b :: l1), l2.
      split; [done|]. rewrite span_cons. lia.
  - intros (l1 & l2 & -> & ->). rewrite used_from_app, elem_of_app. right. cbn.
    apply elem_of_cons. by left.
Qed.

Section Props.
Context {S : Type} {HS : Store S} {win : Z -> Prop} {HW : Window S win}.
Implicit Types (s : S).

(** The bytes of a range in use are those of its block. *)
Lemma used_bytes_kept h s s' l l' e o k x :
  heap_at h s l e -> heap_at h s' l' e ->
  (o, k) ∈ used_from 0 l -> (o, k) ∈ used_from 0 l' ->
  (forall b, win b -> b ∉ headers (start h) l' -> view s' b = view s b) ->
  start h + o <= x < start h + o + 2 ^ k -> view s' x = view s x.
Proof.
  intros (Ht & Hok & Hw & He) (Ht' & Hok' & _ & _) Hin Hin' Hfr Hx.
  apply used_from_split in Hin as (l1 & l2 & -> & Ho).
  apply used_from_split in Hin' as (m1 & m2 & -> & Ho').
  rewrite Z.add_0_l in Ho, Ho'. subst o.
  pose proof (tiles_span _ _ _ _ Ht) as Hes. pose proof Hw as (_ & _ & Hww).
  apply tiles_app in Ht as [_ [Hv _]]. apply tiles_app in Ht' as [_ [Hv' _]].
  destruct (decide (x = start h + span l1)) as [->|Hne].
  - by rewrite Hv, Ho', Hv'.
  - assert (x ∉ headers (start h) (m1 ++ Block k true :: m2)) as Hnx.
    { apply payload_not_header; [done|]. rewrite blen_block. lia. }
    apply Forall_app in Hok as [Hok1 Hok2]. apply Forall_cons in Hok2 as [_ Hok2].
    pose proof (span_nonneg l1 Hok1). pose proof (span_nonneg l2 Hok2).
    rewrite span_app, span_cons, blen_block in Hes.
    apply Hfr; [apply Hww; lia|done].
Qed.

(** C8. memory_allocate is first fit with splitting: on any heap laid out as a
    list of blocks it terminates without fault, and it returns exactly the
    block, and leaves exactly the blocks, that the list specification
    [alloc_blocks] gives; when no block fits it returns 0 and changes nothing. *)
Theorem memory_allocate_first_fit h s sz l e :
  heap_at h s l e -> 0 <= sz -> sz + 1 < 2 ^ 30 -> quiet h s e (needed (sz + 1)) ->
  exists s' p, memory_allocate s h sz = Ok (s', p) /\
    match alloc_blocks (needed (sz + 1)) l with
    | Some (off, l') =>
        p = start h + off + sizeof_heap_header /\ heap_at h s' l' e /\ outside s s'
    | None => p = 0 /\ s' = s
    end.
Proof.
  intros Hh H0 H1 Hq.
  destruct (memory_allocate_win h s sz l e Hh H0 H1 Hq) as ([s' p] & E & Ha).
  exists s', p. split; [done|]. unfold allocated in Ha.
  destruct (alloc_blocks _ _) as [[off l']|]; cbn in Ha; [|done].
  by destruct Ha as (? & ? & ? & _).
Qed.

(** C13. A successful allocation is exclusive: the range handed out (header
    included) is large enough and inside the heap, it becomes the one new range
    in use, no two ranges in use overlap, and no byte of a range that was in
    use before has changed. *)
Theorem memory_allocate_exclusive h s sz l e s' p :
  heap_at h s l e -> 0 <= sz -> sz + 1 < 2 ^ 30 -> quiet h s e (needed (sz + 1)) ->
  memory_allocate s h sz = Ok (s', p) -> p <> 0 ->
  let need := needed (sz + 1) in
  exists l', heap_at h s' l' e /\
    used_from 0 l' ≡ₚ (p - 1 - start h, need) :: used_from 0 l /\
    StronglySorted (fun r1 r2 => r1.1 + 2 ^ r1.2 <= r2.1) (used_from 0 l') /\
    start h <= p - 1 /\ p + sz < p - 1 + 2 ^ need <= e /\
    forall o k x, (o, k) ∈ used_from 0 l ->
      start h + o <= x < start h + o + 2 ^ k -> view s' x = view s x.
Proof.
  intros Hh H0 H1 Hq E Hp need.
  destruct (memory_allocate_win h s sz l e Hh H0 H1 Hq) as (r & E' & Ha).
  rewrite E in E'. injection E' as <-. unfold allocated in Ha. fold need in Ha.
  destruct (alloc_blocks need l) as [[off l']|] eqn:Hal; cbn in Ha; [|by destruct Ha].
  destruct Ha as (Hpo & Hh' & _ & Hfr).
  pose proof Hh as (Ht & Hok & _). pose proof Hh' as (Ht' & Hok' & _).
  destruct (needed_spec (sz + 1)) as (Hn3 & Hlt & _); [lia|].
  pose proof (alloc_blocks_used _ _ _ _ Hn3 Hok Hal) as Hperm.
  destruct (alloc_blocks_sizes _ _ _ _ Hn3 Hok Hal) as (_ & Hsp & Ho0 & Ho1).
  pose proof (tiles_span _ _ _ _ Ht) as Hes. fold need in Hlt, Hn3, Hperm, Ho1.
  exists l'. split; [done|]. split; [by replace (p - 1 - start h) with off by lia|].
  split; [by apply used_disjoint|]. split; [lia|]. split; [lia|].
  intros o k x Hin Hx. eapply used_bytes_kept; [exact Hh|exact Hh'|exact Hin| |done|done].
  rewrite Hperm. by apply elem_of_cons; right.
Qed.

(** The kernel heap in order: aligned blocks, tiled up to the address the
    specification calls the last byte. *)
Definition kernel_heap_at s (l : list block) : Prop :=
  heap_at kernel_heap s l (end_ kernel_heap) /\ aligned_from 0 l.

Lemma kernel_quiet s need :
  fits_byte need (view s (end_ kernel_heap)) = false ->
  hsize (view s (end_ kernel_heap)) <= 28 ->
  quiet kernel_heap s (end_ kernel_heap) need.
Proof.
  intros Hf H28. right. pose proof (hsize_range (view s (end_ kernel_heap))).
  pose proof (pow2_le (hsize (view s (end_ kernel_heap))) 28 ltac:(lia)).
  pose proof (pow2_pos (hsize (view s (end_ kernel_heap))) ltac:(lia)).
  change (end_ kernel_heap) with 4026531839 in *. repeat split; try done; lia.
Qed.

(** C27. When the byte at the end of the kernel heap does not look like a block that
    fits the request, kernel_allocate returns 0 or the address of an object in the
    heap that is aligned to the rounded size of the request; in particular a 4096-byte request is
    page aligned, which paging.c and process.c rely on when they turn the
    result into the physical address of a page directory or table. *)
Theorem kernel_allocate_aligned s sz l s' p :
  kernel_heap_at s l -> 0 <= sz -> sz + 1 < 2 ^ 28 ->
  fits_byte (needed (sz + 1)) (view s (end_ kernel_heap)) = false ->
  hsize (view s (end_ kernel_heap)) <= 28 ->
  kernel_allocate s sz = Ok (s', p) -> p <> 0 ->
  (2 ^ needed (sz + 1) | p) /\ KERNEL_BASE + 268435456 <= p /\
  p + sz < KERNEL_BASE + 805306368.
Proof.
  intros [Hh Ha] H0 H1 Hf H28 E Hp. unfold kernel_allocate in E.
  pose proof (kernel_quiet s _ Hf H28) as Hq.
  destruct (memory_allocate_win _ s sz l _ Hh H0 ltac:(lia) Hq) as (r & E' & Hal).
  rewrite E in E'. injection E' as <-. unfold allocated in Hal.
  destruct (needed_spec (sz + 1)) as (Hn3 & Hlt & Hmin); [lia|].
  assert (needed (sz + 1) <= 28) as Hn28 by (apply Hmin; lia).
  set (need := needed (sz + 1)) in *.
  destruct (alloc_blocks need l) as [[off l']|] eqn:Hb; cbn [fst snd] in Hal; [|by destruct Hal].
  destruct Hal as (-> & _). pose proof Hh as (Ht & Hok & _).
  destruct (alloc_blocks_aligned 0 _ _ _ _ Hn3 Hok Ha Hb) as [_ Hd].
  destruct (alloc_blocks_sizes _ _ _ _ Hn3 Hok Hb) as (_ & _ & Ho0 & Ho1).
  apply tiles_span in Ht.
  change (end_ kernel_heap) with 4026531839 in *. change (start kernel_heap) with 3489660927 in *.
  unfold KERNEL_BASE. split; [|lia].
  replace (3489660927 + off + 1) with (13 * 2 ^ 28 + off) by lia.
  apply Z.divide_add_r; [|done]. apply Z.divide_mul_r, pow2_divide. lia.
Qed.

(** What kernel_allocate promises of the address it returns for a request. *)
Definition object_ok (sz p : Z) : Prop :=
  p <> 0 -> (2 ^ needed (sz + 1) | p) /\ KERNEL_BASE + 268435456 <= p /\
    sz < 2 ^ needed (sz + 1) - 1 /\ p - 1 + 2 ^ needed (sz + 1) < KERNEL_BASE + 805306368.

(** The ranges of the objects handed out for a list of requests, by offset and size:
    0 is no object. *)
Fixpoint objects (szs ps : list Z) : list (Z * Z) :=
  match szs, ps with
  | sz :: szs, p :: ps =>
      (if p =? 0 then [] else [(p - 1 - start kernel_heap, needed (sz + 1))]) ++ objects szs ps
  | _, _ => []
  end.

(** A request the byte after the heap cannot be mistaken for an answer to. *)
Definition request_ok (v sz : Z) : Prop :=
  0 <= sz /\ sz + 1 < 2 ^ 28 /\ fits_byte (needed (sz + 1)) v = false.

(** The specification of a call, and of a sequence of calls: what is returned, and the
    blocks of the heap afterwards. *)
Definition alloc_one (sz : Z) (l : list block) : Z * list block :=
  match alloc_blocks (needed (sz + 1)) l with
  | Some (off, l') => (start kernel_heap + off + 1, l')
  | None => (0, l)
  end.

Fixpoint alloc_seq (szs : list Z) (l : list block) : list Z * list block :=
  match szs with
  | [] => ([], l)
  | sz :: szs => let r := alloc_seq szs (alloc_one sz l).2 in ((alloc_one sz l).1 :: r.1, r.2)
  end.

(** One call of kernel_allocate, served or not. *)
Lemma kernel_allocate_step s l sz :
  kernel_heap_at s l -> hsize (view s (end_ kernel_heap)) <= 28 ->
  request_ok (view s (end_ kernel_heap)) sz ->
  let p := (alloc_one sz l).1 in let l' := (alloc_one sz l).2 in
  exists s', kernel_allocate s sz = Ok (s', p) /\ kernel_heap_at s' l' /\
    view s' (end_ kernel_heap) = view s (end_ kernel_heap) /\
    used_from 0 l' ≡ₚ objects [sz] [p] ++ used_from 0 l /\ object_ok sz p.
Proof.
  intros [Hh Ha] H28 (H0 & H1 & Hf). pose proof (kernel_quiet s _ Hf H28) as Hq.
  destruct (memory_allocate_win _ s sz l _ Hh H0 ltac:(lia) Hq) as ([s' p] & E & Hal).
  unfold allocated, alloc_one in *. destruct (needed_spec (sz + 1)) as (Hn3 & Hlt & Hmin); [lia|].
  assert (needed (sz + 1) <= 28) as Hn28 by (apply Hmin; lia).
  exists s'. destruct (alloc_blocks (needed (sz + 1)) l) as [[off l']|] eqn:Hb; cbn [fst snd] in *.
  - destruct Hal as (-> & Hh' & _ & Hfr). pose proof Hh as (Ht & Hok & Hw & _).
    pose proof Hh' as (Ht' & Hok' & _). pose proof Hw as (_ & _ & Hww).
    destruct (alloc_blocks_aligned 0 _ _ _ _ Hn3 Hok Ha Hb) as [Ha' Hd].
    destruct (alloc_blocks_sizes _ _ _ _ Hn3 Hok Hb) as (_ & Hsp & Ho0 & Ho1).
    apply tiles_span in Ht, Ht'.
    assert (end_ kernel_heap = 4026531839 /\ start kernel_heap = 3489660927) as [Ee Es] by done.
    split; [exact E|]. split; [by split|]. split.
    { apply Hfr; [apply Hww; lia|]. intros Hx. apply headers_range in Hx; [lia|done]. }
    assert (start kernel_heap + off + 1 <> 0) as Hnz by lia.
    split.
    + cbn [objects]. destruct (Z.eqb_spec (start kernel_heap + off + 1) 0); [done|]. cbn [app].
      replace (start kernel_heap + off + 1 - 1 - start kernel_heap) with off by lia.
      by apply alloc_blocks_used.
    + intros _. unfold KERNEL_BASE. split; [|lia].
      replace (start kernel_heap + off + 1) with (13 * 2 ^ 28 + off) by lia.
      apply Z.divide_add_r; [|done]. apply Z.divide_mul_r, pow2_divide. lia.
  - destruct Hal as [-> ->]. by split_and!.
Qed.

(** A sequence of calls. *)
Fixpoint allocate_all (szs : list Z) (s : S) : res (S * list Z) :=
  match szs with
  | [] => mret (s, [])
  | sz :: szs =>
      '(s, p) ← kernel_allocate s sz;
      '(s, ps) ← allocate_all szs s;
      mret (s, p :: ps)
  end.

Lemma allocate_all_ok s l szs :
  kernel_heap_at s l -> hsize (view s (end_ kernel_heap)) <= 28 ->
  Forall (request_ok (view s (end_ kernel_heap))) szs ->
  let ps := (alloc_seq szs l).1 in let l' := (alloc_seq szs l).2 in
  exists s', allocate_all szs s = Ok (s', ps) /\ kernel_heap_at s' l' /\
    used_from 0 l' ≡ₚ objects szs ps ++ used_from 0 l /\ Forall2 object_ok szs ps.
Proof.
  intros Hh H28 Hszs. revert s l Hh H28 Hszs. induction szs as [|sz szs IH]; intros s l Hh H28 Hszs.
  { exists s. split; [done|]. split; [done|]. split; [done|constructor]. }
  apply Forall_cons in Hszs as [Hsz Hszs].
  destruct (kernel_allocate_step s l sz Hh H28 Hsz) as (s1 & E1 & Hh1 & Hv & Hu1 & Hp).
  destruct (IH s1 _ Hh1) as (s' & E & Hh' & Hu & Hps); [by rewrite Hv|by rewrite Hv|].
  exists s'. cbn [allocate_all alloc_seq fst snd]. rewrite (bind_ok _ _ _ E1). cbv beta iota.
  rewrite (bind_ok _ _ _ E). cbv beta iota. split; [done|]. split; [done|]. split; [|by constructor].
  rewrite Hu, Hu1. cbn [objects]. rewrite app_nil_r, !app_assoc. by rewrite (Permutation_app_comm (objects szs _)).
Qed.

(** init_kernel_heap makes the kernel heap one free block of 2^29 bytes,
    whatever memory held before, and writes nothing but its header. *)
Theorem init_kernel_heap_ok s :
  in_win win (start kernel_heap) (end_ kernel_heap + 1 - start kernel_heap) ->
  exists s', init_kernel_heap s = Ok s' /\ outside s s' /\
    kernel_heap_at s' [Block 29 false] /\
    forall x, win x -> x <> start kernel_heap -> view s' x = view s x.
Proof.
  intros Hw.
  assert (start kernel_heap = 3489660927 /\ end_ kernel_heap = 4026531839) as [Es Ee]
    by (split; reflexivity).
  destruct (init_memory_win kernel_heap s) as (s' & E & Ho & Hh & Hf);
    [rewrite Es; lia|rewrite Es, Ee; lia|rewrite Ee; lia|by vm_compute|exact Hw|].
  exists s'. split; [done|]. split; [done|]. split.
  - split; [exact Hh|]. cbn. split; [|done]. apply Z.divide_0_r.
  - intros x Hx Hne. apply Hf; [done|].
    change (init_blocks 3 _) with [Block 29 false]. cbn.
    intros Hin. apply list_elem_of_singleton in Hin. exact (Hne Hin).
Qed.

(** C33. The kernel heap stays in order: after init_kernel_heap, on memory that held
    anything, and any sequence of calls of kernel_allocate, the calls return what first
    fit on the list of blocks gives, 0 only where none fits; the heap is then that
    list, a row of aligned blocks that fill it, and the ranges in use are exactly
    those of the objects handed out, no two of which overlap; each object is large
    enough for its request, aligned to its rounded size and inside the heap.  The
    requests are below 2^28, and the byte at the end of the heap must not look like a
    block that fits one of them. *)
Theorem kernel_allocations_in_order s szs :
  in_win win (start kernel_heap) (end_ kernel_heap + 1 - start kernel_heap) ->
  hsize (view s (end_ kernel_heap)) <= 28 ->
  Forall (request_ok (view s (end_ kernel_heap))) szs ->
  let ps := (alloc_seq szs [Block 29 false]).1 in let l := (alloc_seq szs [Block 29 false]).2 in
  exists s1 s', init_kernel_heap s = Ok s1 /\ allocate_all szs s1 = Ok (s', ps) /\
    kernel_heap_at s' l /\ used_from 0 l ≡ₚ objects szs ps /\
    StronglySorted (fun r1 r2 => r1.1 + 2 ^ r1.2 <= r2.1) (used_from 0 l) /\
    Forall2 object_ok szs ps.
Proof.
  intros Hw H28 Hszs. destruct (init_kernel_heap_ok s Hw) as (s1 & E1 & _ & Hh1 & V).
  assert (view s1 (end_ kernel_heap) = view s (end_ kernel_heap)) as Hv
    by (apply V; [destruct Hw as (_ & _ & Hww); apply Hww; by vm_compute|by vm_compute]).
  destruct (allocate_all_ok s1 _ szs Hh1) as (s' & E & Hh & Hu & Hps); [by rewrite Hv|by rewrite Hv|].
  exists s1, s'. split; [done|]. split; [done|]. split; [done|].
  split; [by rewrite Hu, app_nil_r|]. split; [|done]. apply used_disjoint, Hh.
Qed.

(** init_memory covers any heap of at least 8 bytes with free blocks, one
    per set bit of its length in 8-byte units, up to the last whole unit, and
    it terminates. *)
Theorem init_memory_blocks h s :
  0 <= start h -> 8 <= end_ h + 1 - start h < 2 ^ 31 -> end_ h + 1 < 4294967296 ->
  (end_ h <? 2 ^ 31) || (2 ^ 31 <=? start h) = true -> in_win win (start h) (end_ h + 1 - start h) ->
  let units := (end_ h + 1 - start h) / 8 in
  exists s' l, init_memory s h = Ok s' /\ heap_at h s' l (start h + 8 * units) /\
    l = init_blocks MIN_BLOCK_SIZE (Z.to_pos units) /\
    Forall (fun b => bused b = false) l /\ span l = 8 * units /\
    forall x, win x -> x ∉ headers (start h) l -> view s' x = view s x.
Proof.
  intros H0 H1 H2 H3 Hw units.
  destruct (init_memory_win h s H0 H1 H2 H3 Hw) as (s' & E & _ & Hh & Hf).
  rewrite Z2Pos.id in Hh by lia. exists s', (init_blocks 3 (Z.to_pos units)).
  split; [done|]. split; [done|]. split; [done|].
  split; [apply init_blocks_free|]. split; [|done].
  rewrite init_blocks_span, Z2Pos.id by (unfold units; lia). done.
Qed.

(** C26. coalesce_block, on the header of a free block of an aligned heap of at
    most 1 GiB, terminates and merges that block with its buddies as far as
    they are free: the result is an aligned heap with the same ranges in use,
    the block ends up with no free buddy of its size, and only header bytes
    are written. *)
Theorem coalesce_block_merges h s l1 k l2 e :
  let l := l1 ++ Block k false :: l2 in
  heap_at h s l e -> aligned_from 0 l -> span l <= 2 ^ 30 -> end_inert s e ->
  exists s' l1' k' l2', coalesce_block s (start h + span l1) (start h) = Ok s' /\
    let l' := l1' ++ Block k' false :: l2' in
    heap_at h s' l' e /\ aligned_from 0 l' /\ used_from 0 l' = used_from 0 l /\
    k <= k' /\ ~ mergeable l1' k' l2' /\
    forall b, win b -> b ∉ headers (start h) l -> view s' b = view s b.
Proof.
  intros l Hh Ha Hmax Hin.
  destruct (coalesce_block_win h s l1 k l2 e Hh Ha Hmax Hin)
    as (s' & E & l1' & k' & l2' & (Hh' & Ha' & _ & Hu & _ & _ & Hf) & Hm & Hle).
  by exists s', l1', k', l2'.
Qed.

(** memory_free never merges a freed block: it clears the used bit of the
    block and writes nothing else, whenever the byte it mistakes for a buddy
    header (it coalesces from the data pointer) is not free with the size of
    the first data byte. *)
Theorem memory_free_clears h s l1 k l2 e :
  let p := start h + span l1 + sizeof_heap_header in
  let x := hsize (view s p) in
  let q := start h + Z.lxor (span l1 + 1) (2 ^ x) in
  heap_at h s (l1 ++ Block k true :: l2) e ->
  x <= 30 -> win q -> q < 4294967296 ->
  hused (view s q) = true \/ hsize (view s q) <> x ->
  exists s', memory_free s h p = Ok s' /\ heap_at h s' (l1 ++ Block k false :: l2) e /\
    forall b, win b -> b <> p - 1 -> view s' b = view s b.
Proof.
  intros p x q Hh Hx Hwq Hq Hm.
  destruct (memory_free_win h s l1 _ l2 e Hh Hx Hwq Hq Hm) as (s' & E & Hh' & _ & Hv).
  exists s'. split; [done|]. split; [done|]. intros b Hb Hne.
  rewrite Hv by done. unfold vset, p, sizeof_heap_header in *. by rewrite decide_False by lia.
Qed.
End Props.

(** round_block_size returns the least exponent, from MIN_BLOCK_SIZE on,
    whose power of two is strictly greater than the size, and a size from 2^30
    on takes a shift out of range. *)
Theorem round_block_size_spec sz :
  0 <= sz < 2 ^ 32 ->
  if sz <? 2 ^ 30 then
    exists r, round_block_size sz = Ok r /\ MIN_BLOCK_SIZE <= r <= 30 /\ sz < 2 ^ r /\
      forall r', MIN_BLOCK_SIZE <= r' -> sz < 2 ^ r' -> r <= r'
  else round_block_size sz = Undef.
Proof.
  intros Hsz. destruct (Z.ltb_spec sz (2 ^ 30)).
  - destruct (needed_spec sz) as (H3 & Hlt & Hmin); [lia|].
    exists (needed sz). split; [apply round_block_size_ok; lia|].
    split; [unfold MIN_BLOCK_SIZE; split; [lia|apply Hmin; lia]|]. by split.
  - apply round_block_size_undef; lia.
Qed.
