(* ===== verification/AllocFindings.v ===== *)
(** * The allocator against its comments

    Freeing coalesces from the wrong address, so it never restores a block, and
    it can rewrite the data of an object still in use; the last byte of the
    kernel heap is named one too far, so a full heap can hand out memory outside
    of it.  For contrast, coalescing from the header undoes an allocation. *)

From S2P Require Export AllocProps.

#[local] Open Scope Z_scope.

(** Flipping bit [k] above a small remainder. *)
Lemma lxor_bit_above x r k :
  0 <= k -> 0 <= r < 2 ^ k -> (2 ^ (k + 1) | x) -> Z.lxor (x + r) (2 ^ k) = x + r + 2 ^ k.
Proof.
  intros Hk Hr [q ->]. symmetry. apply Z.add_nocarry_lxor. apply Z.bits_inj'. intros i Hi.
  rewrite Z.land_spec, Z.bits_0, Z.pow2_bits_eqb by lia.
  destruct (Z.eqb_spec k i) as [<-|]; [|apply andb_false_r]. rewrite andb_true_r.
  rewrite Z.testbit_odd, Z.shiftr_div_pow2, pow2_succ by lia.
  replace (q * (2 * 2 ^ k) + r) with (r + (q * 2) * 2 ^ k) by lia.
  rewrite Z.div_add, Z.div_small by lia. rewrite Z.add_0_l, Z.odd_mul. apply andb_false_r.
Qed.

Lemma lxor_bit_back x r k :
  0 <= k -> 0 <= r < 2 ^ k -> (2 ^ (k + 1) | x) -> Z.lxor (x + r + 2 ^ k) (2 ^ k) = x + r.
Proof.
  intros Hk Hr Hx. rewrite <- (lxor_bit_above x r k) by done.
  by rewrite Z.lxor_assoc, Z.lxor_nilpotent, Z.lxor_0_r.
Qed.

Section Findings.
Context {S : Type} {HS : Store S} {win : Z -> Prop} {HW : Window S win}.
Implicit Types (s : S).

(** C39. Freeing an object can change the data of another object that is in
    use: if two buddies of size [k] are in use and the first data byte of both
    is [k], freeing the second turns the first byte of the first into [k + 1]. *)
Theorem memory_free_corrupts h s l1 k l2 e :
  let p := start h + span l1 + sizeof_heap_header in
  let q := p + 2 ^ k in
  let r := start h + Z.lxor (span l1 + 1) (2 ^ (k + 1)) in
  heap_at h s (l1 ++ Block k true :: Block k true :: l2) e -> k < 30 ->
  (2 ^ (k + 1) | span l1) ->
  view s p = k -> view s q = k ->
  win r -> r < 4294967296 -> (hused (view s r) = true \/ hsize (view s r) <> k + 1) ->
  r <> q - 1 ->
  exists s', memory_free s h q = Ok s' /\ view s p = k /\ view s' p = k + 1 /\
    view s' (p - 1) = hdr (Block k true).
Proof.
  intros p q r (Ht & Hok & Hw & He) Hk Hd Hp Hq Hwr Hr Hmiss Hrq.
  pose proof Hw as (Hs0 & _ & Hww).
  pose proof (tiles_span _ _ _ _ Ht) as Hes.
  apply tiles_app in Ht as [_ (Hv1 & Hv2 & _)]. rewrite blen_block in Hv2.
  apply Forall_app in Hok as [Hok1 Hok2]. apply Forall_cons in Hok2 as [Hk3 Hok2].
  apply Forall_cons in Hok2 as [_ Hok2]. cbn in Hk3.
  pose proof (span_nonneg l1 Hok1). pose proof (span_nonneg l2 Hok2).
  rewrite span_app, !span_cons, !blen_block in Hes.
  pose proof (pow2_le 3 k ltac:(lia)) as H8. change (2 ^ 3) with 8 in H8.
  assert (p = start h + span l1 + 1) as Ep by done.
  assert (q = start h + span l1 + 2 ^ k + 1) as Eq by (unfold q; lia).
  assert (win p /\ win q /\ win (q - 1)) as (Hwp & Hwq & Hwq1) by (repeat split; apply Hww; lia).
  unfold memory_free, sizeof_heap_header. rewrite (u32_small (q - 1)) by lia.
  destruct (set_used_win s (q - 1) 0) as (s1 & -> & Ho1 & Hb1); [done|by left|]. bnd.
  assert (forall x, win x -> x <> q - 1 -> view s1 x = view s x) as Hs1.
  { intros x Hx Hne. rewrite Hb1 by done. by rewrite vset_other by lia. }
  clear Hb1.
  assert (forall x, 0 <= x < 128 -> hsize x = x /\ hused x = false) as Hsmall
    by (unfold hsize, hused; lia).
  destruct (Hsmall k ltac:(lia)) as [Hkk Hku].
  destruct (set_size_win s1 p (k + 1)) as (s2 & E2 & Ho2 & Hb2); [done|lia|].
  rewrite Hs1, Hp, Hku, Z.add_0_r in Hb2 by (done || lia).
  exists s2. split; [|split; [done|]].
  - apply (leaves_loop _ 2); [|rewrite budget_eq; lia].
    apply leaves_next with (s2, p); [|constructor].
    + rewrite (coalesce_body_at h s1 q k p); try lia; try done.
      * rewrite Hs1, Hp, Hku, Hkk, Z.eqb_refl by (done || lia). cbn [negb andb].
        rewrite Z.min_r by lia. by rewrite E2.
      * by rewrite Hs1, Hq by (done || lia).
      * replace (q - start h) with (span l1 + 1 + 2 ^ k) by lia.
        rewrite lxor_bit_back by (done || lia). lia.
    + pose proof (lxor_pow2_ne (span l1 + 1) (k + 1)) as Hrp.
      assert (0 <= Z.lxor (span l1 + 1) (2 ^ (k + 1))).
      { pose proof (pow2_pos (k + 1)). apply Z.lxor_nonneg. lia. }
      destruct (Hsmall (k + 1) ltac:(lia)) as [Hks _].
      assert (forall x, win x -> x <> p -> view s2 x = view s1 x) as Hs2.
      { intros x Hx Hne. rewrite Hb2 by done. by rewrite vset_other by lia. }
      rewrite (coalesce_body_at h s2 p (k + 1) r); try lia; try done.
      * rewrite Hs2, Hs1 by (done || lia).
        destruct Hmiss as [->|Hne]; [done|].
        destruct (Z.eqb_spec (hsize (view s r)) (k + 1)); [done|]. by rewrite andb_false_r.
      * by rewrite Hb2, vset_same by done.
      * by replace (p - start h) with (span l1 + 1) by lia.
  - split; rewrite Hb2 by (done || apply Hww; lia); unfold vset.
    + by rewrite decide_True.
    + rewrite decide_False by lia. rewrite Hs1 by (done || lia || (apply Hww; lia)).
      rewrite <- Hv1. f_equal. lia.
Qed.

(** The search runs through blocks the request does not fit. *)
Lemma allocate_scan h s l1 l2 e need n o :
  heap_at h s (l1 ++ l2) e -> Forall (fun b => fits need b = false) l1 ->
  leaves (allocate_body h need) n (s, start h + span l1) o ->
  leaves (allocate_body h need) (length l1 + n) (s, start h) o.
Proof.
  revert l2 n; induction l1 as [|b l1 IH] using rev_ind; intros l2 n Hh Hf Hl.
  { cbn in *. by rewrite Z.add_0_r in Hl. }
  apply Forall_app in Hf as [Hf Hb]. apply Forall_cons in Hb as [Hb _].
  rewrite <- app_assoc in Hh. rewrite length_app, <- Nat.add_assoc. cbn [length Nat.add].
  eapply IH; [exact Hh|done|]. eapply leaves_next; [|exact Hl].
  by apply (allocate_miss h s l1 b l2 e need).
Qed.

(** A full kernel heap can hand out memory that is not heap: the blocks
    end at [end_ kernel_heap], which the search still takes for a block, and
    if the byte there reads as a free header of the size asked for, the object
    returned starts past the end of the heap. *)
Theorem kernel_allocate_overruns s sz l :
  kernel_heap_at s l -> 0 <= sz -> sz + 1 < 2 ^ 30 -> Z.of_nat (length l) < 2 ^ 29 ->
  alloc_blocks (needed (sz + 1)) l = None ->
  view s (end_ kernel_heap) = needed (sz + 1) ->
  exists s', kernel_allocate s sz = Ok (s', end_ kernel_heap + 1) /\
    hused (view s' (end_ kernel_heap)) = true.
Proof.
  intros [Hh _] H0 H1 Hlen Hnone Hv. set (need := needed (sz + 1)) in *.
  destruct (needed_spec (sz + 1)) as (Hn3 & _ & Hmin); [lia|]. fold need in Hn3.
  assert (need <= 30) as Hn30 by (apply Hmin; lia).
  pose proof Hh as (Ht & Hok & Hw & He). pose proof Hw as (Hs0 & _ & Hww).
  pose proof (tiles_span _ _ _ _ Ht) as Hes. pose proof (span_nonneg l Hok).
  assert (win (end_ kernel_heap)) as Hwe by (apply Hww; lia).
  assert (hsize need = need /\ hused need = false) as [Hks Hku] by (unfold hsize, hused; lia).
  destruct (set_used_win s (end_ kernel_heap) 1) as (s' & E & _ & Hv'); [done|by right|].
  rewrite Hv, Hks in Hv'. exists s'. split.
  - unfold kernel_allocate, memory_allocate, sizeof_heap_header.
    rewrite u32_small, round_block_size_ok by lia. bnd. fold need.
    apply (leaves_loop _ (length l + 1)); [|rewrite budget_eq; lia].
    apply alloc_blocks_none in Hnone.
    eapply (allocate_scan _ _ l []); [rewrite app_nil_r; exact Hh|exact Hnone|].
    rewrite <- Hes. constructor. unfold allocate_body. zbool.
    rewrite get_used_win, get_size_win by done. bnd.
    rewrite fits_byte_test. bnd. rewrite Hv. unfold fits_byte. rewrite Hks, Hku. zbool. cbn [negb andb].
    assert (split_loop s (end_ kernel_heap) need = Ok s) as ->.
    { apply (leaves_loop _ 1); [|rewrite budget_eq; lia]. constructor.
      rewrite get_size_win, Hv, Hks by done. bnd. by rewrite Z.gtb_ltb, Z.ltb_irrefl. }
    bnd. rewrite E. bnd. unfold sizeof_heap_header. rewrite u32_small by lia. done.
  - rewrite Hv' by done. rewrite vset_same. unfold hused. lia.
Qed.

(** Merging undoes splitting. *)
Lemma coalesce_undoes_split h s j k e :
  let l := Block j false :: frees j k in
  heap_at h s l e -> 3 <= j <= k -> k <= 30 -> aligned_from 0 l -> end_inert s e ->
  exists s', coalesce_block s (start h) (start h) = Ok s' /\ heap_at h s' [Block k false] e.
Proof.
  intros l Hh Hj Hk Ha Hin. pose proof Hh as (Ht & Hok & _).
  pose proof (tiles_span _ _ _ _ Ht) as Hes.
  apply (loop_total _ (fun '(t, a) => a = start h /\ exists i, j <= i <= k /\
      coalesced h s l e t (Block i false :: frees i k))
    (fun '(t, a) => 30 - hsize (view t a)) (fun s' => heap_at h s' [Block k false] e)).
  - split; [done|]. exists j. split; [lia|]. split; [done|]. split; [done|].
    split; [reflexivity|]. done.
  - rewrite budget_eq. pose proof (hsize_range (view s (start h))). lia.
  - intros [t a] (-> & i & Hi & Hc).
    pose proof (coalesced_end _ _ _ _ _ _ Hc Hin Hok Hes) as Hin'.
    pose proof Hc as (Hh' & Ha' & _ & _ & Hsp & _). pose proof Hh' as (Ht' & Hok' & Hw & He).
    pose proof Hw as (Hs0 & _ & Hww). pose proof (tiles_span _ _ _ _ Ht') as Hes'.
    pose proof Ht' as [Hva _]. apply Forall_cons in Hok' as [_ Hok'].
    rewrite span_cons, blen_block in Hes'. pose proof (span_nonneg _ Hok').
    pose proof (pow2_pos i ltac:(lia)).
    assert (hsize (view t (start h)) = i) as Hsz by (rewrite Hva, hsize_hdr; cbn; lia).
    rewrite Hsz. split; [lia|].
    assert (win (start h)) as Hwa by (apply Hww; lia).
    destruct (right_buddy_byte h t [] i (frees i k) e Hh' Hin') as [Hwb Htest].
    change (span []) with 0 in *. rewrite Z.add_0_r in *.
    rewrite (coalesce_body_at h t (start h) i (start h + 2 ^ i)); try done; try lia;
      [|replace (start h - start h) with 0 by lia; by rewrite Z.lxor_0_l].
    destruct (decide (i = k)) as [->|Hne].
    + rewrite frees_nil in * by lia. eexists; split.
      * destruct (negb _ && _) eqn:E; [|done]. by destruct (proj1 Htest eq_refl).
      * done.
    + rewrite frees_cons in * by lia.
      rewrite (proj2 Htest) by eauto. rewrite Z.min_l by lia.
      destruct (coalesced_merge h s l e t [] i (frees (i + 1) k)) as (t' & E & Hc' & Hsz');
        [exact Hc|lia|apply Z.divide_0_r|].
      change (span []) with 0 in *. rewrite Z.add_0_r in *. rewrite E. bnd.
      eexists; split; [done|]. cbn beta iota. rewrite Hsz'. split; [|lia].
      split; [done|]. exists (i + 1). split; [lia|done].
Qed.

(** A fresh kernel heap after one allocation. *)
Lemma fresh_allocation s sz :
  kernel_heap_at s [Block 29 false] -> 0 <= sz -> sz + 1 < 2 ^ 29 ->
  exists s', kernel_allocate s sz = Ok (s', start kernel_heap + 1) /\
    kernel_heap_at s' (Block (needed (sz + 1)) true :: frees (needed (sz + 1)) 29) /\
    forall b, win b ->
      b ∉ headers (start kernel_heap)
            (Block (needed (sz + 1)) true :: frees (needed (sz + 1)) 29) ->
      view s' b = view s b.
Proof.
  intros [Hh Ha] H0 H1. set (need := needed (sz + 1)).
  destruct (needed_spec (sz + 1)) as (Hn3 & _ & Hmin); [lia|]. fold need in Hn3, Hmin.
  assert (need <= 29) as Hn29 by (apply Hmin; lia).
  assert (alloc_blocks need [Block 29 false]
    = Some (0, Block need true :: frees need 29)) as Hal.
  { pose proof (alloc_blocks_hit need [] (Block 29 false) []) as Hx. cbn [app] in Hx.
    rewrite app_nil_r in Hx. apply Hx; [done|]. by apply fits_spec. }
  pose proof Hh as (Ht & Hok & Hw & He). pose proof Hw as (Hs0 & _ & Hww).
  destruct (allocate_hit kernel_heap s [] (Block 29 false) [] _ need Hh Hn3)
    as ([s' p] & E & Hr); [done|by apply fits_spec|].
  unfold allocated in Hr. cbn [app] in Hr. rewrite Hal in Hr. cbn [fst snd] in Hr.
  destruct Hr as (-> & Hh' & _ & Hfr). rewrite Z.add_0_r in *.
  exists s'. split; [|split; [split; [done|]|done]].
  - unfold kernel_allocate, memory_allocate, sizeof_heap_header.
    rewrite u32_small, round_block_size_ok by lia. bnd. fold need.
    apply (leaves_loop _ 1); [|rewrite budget_eq; lia]. constructor.
    change (span []) with 0 in E. by rewrite Z.add_0_r in E.
  - apply (alloc_blocks_aligned 0 need _ _ _ Hn3 Hok Ha Hal).
Qed.

(** Allocating and freeing is not the identity on the heap: after one
    allocation and its release no object is in use, yet the heap stays cut up
    and a request for the whole of it, which the fresh heap serves, fails. *)
Theorem kernel_free_fragments s sz :
  kernel_heap_at s [Block 29 false] -> 0 <= sz -> sz + 1 < 2 ^ 28 ->
  view s (start kernel_heap + 1) = 0 ->
  hused (view s (end_ kernel_heap)) = false -> hsize (view s (end_ kernel_heap)) <= 28 ->
  let p := start kernel_heap + 1 in
  exists s1 s2 l, kernel_allocate s sz = Ok (s1, p) /\ kernel_free s1 p = Ok s2 /\
    kernel_heap_at s2 l /\ used_from 0 l = [] /\
    kernel_allocate s2 (2 ^ 28) = Ok (s2, 0) /\
    exists s', kernel_allocate s (2 ^ 28) = Ok (s', p).
Proof.
  intros Hk H0 H1 Hpay Hu H28 p. set (need := needed (sz + 1)).
  destruct (needed_spec (sz + 1)) as (Hn3 & _ & Hmin); [lia|]. fold need in Hn3, Hmin.
  assert (need <= 28) as Hn28 by (apply Hmin; lia).
  pose proof Hk as [(Ht0 & _) _]. pose proof (tiles_span _ _ _ _ Ht0) as Hes.
  rewrite span_cons, blen_block in Hes. change (span []) with 0 in Hes.
  destruct (fresh_allocation s sz Hk H0 ltac:(lia)) as (s1 & E1 & [Hh1 Ha1] & Hf1).
  fold need in Hh1, Ha1, Hf1. pose proof Hh1 as (Ht1 & Hok1 & Hw1 & He1).
  pose proof Hw1 as (Hs0 & _ & Hww). pose proof (pow2_le 3 need ltac:(lia)) as H8.
  assert (win p) as Hwp by (apply Hww; unfold p; lia).
  assert (view s1 p = 0) as Hpay1.
  { rewrite Hf1; [done|done|]. apply (payload_not_header _ [] (Block need true)); [done|].
    change (span []) with 0. rewrite blen_block. unfold p. lia. }
  pose proof (memory_free_win kernel_heap s1 [] (Block need true) (frees need 29)
    (end_ kernel_heap) Hh1) as Hfree. cbv zeta in Hfree.
  change (span []) with 0 in Hfree. rewrite !Z.add_0_r in Hfree. fold p in Hfree.
  rewrite Hpay1 in Hfree. change (hsize 0) with 0 in Hfree.
  change (Z.lxor (0 + 1) (2 ^ 0)) with 0 in Hfree. rewrite Z.add_0_r in Hfree.
  destruct Hfree as (s2 & E2 & Hh2 & _ & Hv2); [lia|apply Hww; lia|lia| |].
  { left. destruct Ht1 as [-> _]. rewrite hused_hdr; [done|cbn; lia]. }
  replace (p - 1) with (start kernel_heap) in Hv2 by (unfold p; lia).
  change (heap_at kernel_heap s2 (Block need false :: frees need 29) (end_ kernel_heap))
    in Hh2.
  exists s1, s2, (Block need false :: frees need 29). split; [done|]. split; [done|].
  assert (aligned_from 0 (Block need false :: frees need 29)) as Ha2 by exact Ha1.
  split; [done|]. split; [apply (used_from_free 0 (_ :: _)); constructor;
    [done|apply frees_free]|].
  assert (view s2 (end_ kernel_heap) = view s (end_ kernel_heap)) as Hend.
  { assert (win (end_ kernel_heap)) as Hwe by (apply Hww; lia).
    rewrite Hv2 by done. rewrite vset_other by lia.
    apply Hf1; [done|]. intros Hin. apply headers_range in Hin; [|done].
    rewrite <- (tiles_span _ _ _ _ Ht1) in Hin. lia. }
  assert (needed (2 ^ 28 + 1) = 29) as H29 by reflexivity.
  split.
  - destruct (memory_allocate_win kernel_heap s2 (2 ^ 28) _ _ Hh2) as ([s3 p3] & E3 & Hr);
      [lia|lia| |].
    { rewrite H29. apply kernel_quiet; rewrite Hend; [|done]. unfold fits_byte.
      rewrite Hu. lia. }
    unfold allocated in Hr. rewrite H29 in Hr.
    rewrite (proj2 (alloc_blocks_none 29 (Block need false :: frees need 29))) in Hr.
    + destruct Hr as [Hr1 Hr2]. cbn in Hr1, Hr2. subst. exact E3.
    + constructor; [unfold fits; cbn; lia|]. apply Forall_fmap, Forall_seq.
      intros i Hi. unfold fits. cbn. lia.
  - destruct (fresh_allocation s (2 ^ 28) Hk) as (s' & E' & _); [lia|lia|]. eauto.
Qed.

(** Coalescing from the header is the inverse of an allocation: on a fresh
    kernel heap, clearing the used bit of the object's header and coalescing
    from that header gives back the single free block. *)
Theorem coalesce_undoes_allocate s sz :
  kernel_heap_at s [Block 29 false] -> 0 <= sz -> sz + 1 < 2 ^ 29 ->
  end_inert s (end_ kernel_heap) ->
  exists s1 s2 s3, kernel_allocate s sz = Ok (s1, start kernel_heap + 1) /\
    set_used s1 (start kernel_heap) 0 = Ok s2 /\
    coalesce_block s2 (start kernel_heap) (start kernel_heap) = Ok s3 /\
    kernel_heap_at s3 [Block 29 false].
Proof.
  intros Hk H0 H1 [Hwe Hin]. set (need := needed (sz + 1)).
  destruct (needed_spec (sz + 1)) as (Hn3 & _ & Hmin); [lia|]. fold need in Hn3, Hmin.
  assert (need <= 29) as Hn29 by (apply Hmin; lia).
  destruct (fresh_allocation s sz Hk H0 H1) as (s1 & E1 & [Hh1 Ha1] & Hf1).
  fold need in Hh1, Ha1, Hf1. pose proof Hh1 as (Ht1 & Hok1 & Hw1 & He1).
  pose proof (tiles_span _ _ _ _ Ht1) as Hes. pose proof Hw1 as (Hs0 & _ & Hww).
  pose proof Hok1 as Hok. apply Forall_cons in Hok as [_ Hok].
  rewrite span_cons, blen_block in Hes. pose proof (span_nonneg _ Hok).
  pose proof (pow2_pos need ltac:(lia)).
  assert (win (start kernel_heap)) as Hwa by (apply Hww; lia).
  destruct (set_used_win s1 (start kernel_heap) 0) as (s2 & E2 & _ & Hv2); [done|by left|].
  destruct Ht1 as [Hva Ht1]. rewrite Hva, hsize_hdr in Hv2 by (cbn; lia). cbn [bsize] in Hv2.
  assert (forall x, win x -> x <> start kernel_heap -> view s2 x = view s1 x) as Hv.
  { intros x Hx Hne. rewrite Hv2 by done. by rewrite vset_other by lia. }
  assert (heap_at kernel_heap s2 (Block need false :: frees need 29) (end_ kernel_heap)) as Hh2.
  { split; [|split; [|done]].
    - cbn [tiles]. rewrite blen_block in *. split.
      + rewrite Hv2 by done. rewrite vset_same. unfold hdr. cbn. lia.
      + eapply tiles_frame; [|exact Ht1]. intros x Hx. apply headers_range in Hx; [|done].
        rewrite Hv; [done|apply Hww; lia|lia].
    - constructor; [cbn; lia|done]. }
  destruct (coalesce_undoes_split kernel_heap s2 need 29 (end_ kernel_heap))
    as (s3 & E3 & Hh3); [done|lia|lia|exact Ha1| |].
  - split; [done|]. rewrite Hv by (done || lia). rewrite Hf1; [done|done|].
    intros Hx. apply headers_range in Hx; [|done]. rewrite span_cons, blen_block in Hx. lia.
  - exists s1, s2, s3. split; [done|]. split; [done|]. split; [done|]. split; [done|].
    cbn. split; [apply Z.divide_0_r|done].
Qed.
End Findings.
