(* ===== verification/AllocWitness.v ===== *)
(** * Concrete heaps on which the allocator theorems apply

    Flat memories holding a fresh kernel heap, a kernel heap in use, and small
    64-byte heaps; each lemma applies one theorem of the allocator to one of
    them. *)

From S2P Require Export AllocFindings.

#[local] Open Scope Z_scope.

Lemma flat_in_win a n : 0 <= a -> a + n <= 4294967296 -> in_win (fun _ => True) a n.
Proof. intros. by split. Qed.

(** A fresh kernel heap: the header 29 at its start, zeros elsewhere. *)
Definition fresh_memory : flat := Flat (fun a => if a =? 3489660927 then 29 else 0).

Lemma fresh_kernel_heap : kernel_heap_at fresh_memory [Block 29 false].
Proof.
  split; [|by cbn; split; [apply Z.divide_0_r|]]. split; [by vm_compute|].
  split; [by repeat constructor; cbn; lia|]. split; [by apply flat_in_win|by vm_compute].
Qed.

(** A kernel heap that is one block in use, followed by the byte 3. *)
Definition full_memory : flat :=
  Flat (fun a => if a =? 3489660927 then 157 else if a =? 4026531839 then 3 else 0).

Lemma full_kernel_heap : kernel_heap_at full_memory [Block 29 true].
Proof.
  split; [|by cbn; split; [apply Z.divide_0_r|]]. split; [by vm_compute|].
  split; [by repeat constructor; cbn; lia|]. split; [by apply flat_in_win|by vm_compute].
Qed.

(** A 64-byte heap at 4095 with the given first two header bytes and first data
    bytes. *)
Definition small_heap : heap_spec := {| start := 4095; end_ := 4158 |}.
Definition small_memory (h1 d1 h2 d2 : Z) : flat :=
  Flat (fun a => if a =? 4095 then h1 else if a =? 4096 then d1 else
                 if a =? 4103 then h2 else if a =? 4104 then d2 else
                 if a =? 4111 then 4 else if a =? 4127 then 5 else 0).
Definition small_blocks (u1 u2 : bool) : list block :=
  [Block 3 u1; Block 3 u2; Block 4 false; Block 5 false].

Lemma small_heap_at (u1 u2 : bool) (d1 d2 : Z) :
  heap_at small_heap
    (small_memory (if u1 then 131 else 3) d1 (if u2 then 131 else 3) d2) (small_blocks u1 u2) 4159.
Proof.
  split; [by destruct u1, u2|]. split; [by repeat constructor; cbn; lia|].
  split; [by apply flat_in_win|by vm_compute].
Qed.

Lemma memory_allocate_first_fit_witness :
  exists s' p, memory_allocate fresh_memory kernel_heap 4 = Ok (s', p) /\
    match alloc_blocks (needed (4 + 1)) [Block 29 false] with
    | Some (off, l') =>
        p = start kernel_heap + off + sizeof_heap_header /\
        heap_at kernel_heap s' l' (end_ kernel_heap) /\ outside fresh_memory s'
    | None => p = 0 /\ s' = fresh_memory
    end.
Proof.
  apply (memory_allocate_first_fit kernel_heap fresh_memory 4);
    [apply fresh_kernel_heap|lia|lia|].
  apply kernel_quiet; [reflexivity|by vm_compute].
Defined.

Lemma memory_allocate_exclusive_witness :
  exists s' p, memory_allocate (small_memory 131 7 3 0) small_heap 4 = Ok (s', p) /\ p <> 0 /\
    exists l', heap_at small_heap s' l' 4159 /\
      used_from 0 l' ≡ₚ (p - 1 - start small_heap, needed (4 + 1))
        :: used_from 0 (small_blocks true false) /\
      StronglySorted (fun r1 r2 => r1.1 + 2 ^ r1.2 <= r2.1) (used_from 0 l') /\
      start small_heap <= p - 1 /\ p + 4 < p - 1 + 2 ^ needed (4 + 1) <= 4159 /\
      forall o k x, (o, k) ∈ used_from 0 (small_blocks true false) ->
        start small_heap + o <= x < start small_heap + o + 2 ^ k ->
        view s' x = view (small_memory 131 7 3 0) x.
Proof.
  destruct (memory_allocate (small_memory 131 7 3 0) small_heap 4) as [[s' p]| |] eqn:E;
    [|by vm_compute in E|by vm_compute in E].
  assert (p = 4104) as -> by (vm_compute in E; congruence).
  exists s', 4104. split; [done|]. split; [discriminate|].
  apply (memory_allocate_exclusive small_heap _ 4 _ _ _ 4104 (small_heap_at true false 7 0));
    [lia|lia|by left|exact E|discriminate].
Defined.

Lemma kernel_allocate_aligned_witness :
  exists s' p, kernel_allocate fresh_memory 4096 = Ok (s', p) /\ p <> 0 /\
    (2 ^ needed (4096 + 1) | p) /\ KERNEL_BASE + 268435456 <= p /\
    p + 4096 < KERNEL_BASE + 805306368.
Proof.
  destruct (kernel_allocate fresh_memory 4096) as [[s' p]| |] eqn:E;
    [|by vm_compute in E|by vm_compute in E].
  assert (p = 3489660928) as -> by (vm_compute in E; congruence).
  exists s', 3489660928. split; [done|]. split; [discriminate|].
  apply (kernel_allocate_aligned fresh_memory 4096 [Block 29 false] s');
    [apply fresh_kernel_heap|lia|lia|reflexivity|by vm_compute|exact E|discriminate].
Defined.

Lemma init_kernel_heap_ok_witness :
  exists s', init_kernel_heap (Flat (fun a => a)) = Ok s' /\
    outside (Flat (fun a => a)) s' /\ kernel_heap_at s' [Block 29 false] /\
    forall x, True -> x <> start kernel_heap -> view s' x = view (Flat (fun a => a)) x.
Proof. apply init_kernel_heap_ok. by apply flat_in_win. Defined.

(** Four requests, the last of which is too large for what is left. *)
Lemma kernel_allocations_in_order_witness :
  let ps := [3489660928; 3489669120; 3758096384; 0] in
  let l := (alloc_seq [4; 4096; 200000000; 200000000] [Block 29 false]).2 in
  exists s1 s', init_kernel_heap (Flat (fun _ => 0)) = Ok s1 /\
    allocate_all [4; 4096; 200000000; 200000000] s1 = Ok (s', ps) /\
    kernel_heap_at s' l /\ used_from 0 l ≡ₚ objects [4; 4096; 200000000; 200000000] ps /\
    StronglySorted (fun r1 r2 => r1.1 + 2 ^ r1.2 <= r2.1) (used_from 0 l) /\
    Forall2 object_ok [4; 4096; 200000000; 200000000] ps.
Proof.
  apply (kernel_allocations_in_order (Flat (fun _ => 0)) [4; 4096; 200000000; 200000000]);
    [by apply flat_in_win|by vm_compute|].
  repeat (apply Forall_cons; split; [split_and!; by vm_compute|]). constructor.
Defined.

Lemma init_memory_blocks_witness :
  let h := {| start := 100; end_ := 188 |} in
  exists s' l, init_memory (Flat (fun a => a)) h = Ok s' /\ heap_at h s' l (100 + 8 * 11) /\
    l = init_blocks MIN_BLOCK_SIZE 11 /\
    Forall (fun b => bused b = false) l /\ span l = 8 * 11 /\
    forall x, True -> x ∉ headers 100 l -> view s' x = view (Flat (fun a => a)) x.
Proof.
  apply (init_memory_blocks {| start := 100; end_ := 188 |} (Flat (fun a => a)));
    [by vm_compute|by vm_compute|by vm_compute|by vm_compute|by apply flat_in_win].
Defined.

Lemma coalesce_block_merges_witness :
  exists s' l1' k' l2',
    coalesce_block (small_memory 3 0 3 0) (4095 + 8) 4095 = Ok s' /\
    let l' := l1' ++ Block k' false :: l2' in
    heap_at small_heap s' l' 4159 /\ aligned_from 0 l' /\ used_from 0 l' = [] /\
    3 <= k' /\ ~ mergeable l1' k' l2' /\
    forall b, True -> b ∉ headers 4095 (small_blocks false false) ->
      view s' b = view (small_memory 3 0 3 0) b.
Proof.
  apply (coalesce_block_merges small_heap (small_memory 3 0 3 0) [Block 3 false] 3
    [Block 4 false; Block 5 false] 4159).
  - apply (small_heap_at false false 0 0).
  - cbn. repeat split; [apply Z.divide_0_r|by exists 1|by exists 1|by exists 1].
  - by vm_compute.
  - split; [done|]. right. by vm_compute.
Defined.

Lemma memory_free_clears_witness :
  exists s', memory_free (small_memory 131 7 3 0) small_heap 4096 = Ok s' /\
    heap_at small_heap s' (small_blocks false false) 4159 /\
    forall b, True -> b <> 4096 - 1 -> view s' b = view (small_memory 131 7 3 0) b.
Proof.
  apply (memory_free_clears small_heap (small_memory 131 7 3 0) [] 3
    [Block 3 false; Block 4 false; Block 5 false] 4159).
  - apply (small_heap_at true false 7 0).
  - by vm_compute.
  - done.
  - by vm_compute.
  - right. by vm_compute.
Defined.

Lemma round_block_size_spec_witness :
  exists r, round_block_size 4096 = Ok r /\ MIN_BLOCK_SIZE <= r <= 30 /\ 4096 < 2 ^ r /\
    forall r', MIN_BLOCK_SIZE <= r' -> 4096 < 2 ^ r' -> r <= r'.
Proof. apply (round_block_size_spec 4096). lia. Defined.

Lemma memory_free_corrupts_witness :
  exists s', memory_free (small_memory 131 3 131 3) small_heap 4104 = Ok s' /\
    view (small_memory 131 3 131 3) 4096 = 3 /\ view s' 4096 = 4 /\
    view s' 4095 = hdr (Block 3 true).
Proof.
  apply (memory_free_corrupts small_heap (small_memory 131 3 131 3) [] 3
    [Block 4 false; Block 5 false] 4159).
  - apply (small_heap_at true true 3 3).
  - lia.
  - apply Z.divide_0_r.
  - reflexivity.
  - reflexivity.
  - done.
  - by vm_compute.
  - right. by vm_compute.
  - by vm_compute.
Defined.

Lemma kernel_allocate_overruns_witness :
  exists s', kernel_allocate full_memory 4 = Ok (s', end_ kernel_heap + 1) /\
    hused (view s' (end_ kernel_heap)) = true.
Proof.
  apply (kernel_allocate_overruns full_memory 4 [Block 29 true]);
    [apply full_kernel_heap|lia|lia|by vm_compute|reflexivity|reflexivity].
Defined.

Lemma kernel_free_fragments_witness :
  let p := start kernel_heap + 1 in
  exists s1 s2 l, kernel_allocate fresh_memory 4 = Ok (s1, p) /\ kernel_free s1 p = Ok s2 /\
    kernel_heap_at s2 l /\ used_from 0 l = [] /\
    kernel_allocate s2 (2 ^ 28) = Ok (s2, 0) /\
    exists s', kernel_allocate fresh_memory (2 ^ 28) = Ok (s', p).
Proof.
  apply (kernel_free_fragments fresh_memory 4);
    [apply fresh_kernel_heap|lia|lia|reflexivity|reflexivity|by vm_compute].
Defined.

Lemma coalesce_undoes_allocate_witness :
  exists s1 s2 s3, kernel_allocate fresh_memory 4096 = Ok (s1, start kernel_heap + 1) /\
    set_used s1 (start kernel_heap) 0 = Ok s2 /\
    coalesce_block s2 (start kernel_heap) (start kernel_heap) = Ok s3 /\
    kernel_heap_at s3 [Block 29 false].
Proof.
  apply (coalesce_undoes_allocate fresh_memory 4096);
    [apply fresh_kernel_heap|lia|lia|split; [done|right; by vm_compute]].
Defined.
