(* ===== verification/Gdt.v ===== *)
(** * arch/x86/core/gdt.c: segment descriptors and the task state segment

    The descriptor table is a list of 256 descriptors, the task state segment a
    list of fields with the widths of the C structure.  The addresses the linker
    gives to [gdt] and [tss] are parameters.  What the processor reads in a
    descriptor (base, limit, type, privilege) is written down separately, from
    the layout of the Intel manual, and the theorems compare the two. *)

From S2P Require Export Words.

#[local] Open Scope Z_scope.

Definition GDT_LIMIT : nat := 256.

Record gdt_segment_desc := {
  limit1 : Z; base1 : Z; seg_a : Z; seg_rw : Z; seg_dc : Z; seg_e : Z; seg_s : Z; seg_dpl : Z;
  seg_p : Z; limit2 : Z; seg_zero : Z; seg_l : Z; seg_db : Z; seg_g : Z; base2 : Z }.

(** The 64 bits of a descriptor. *)
Definition encode_desc (d : gdt_segment_desc) : Z :=
  pack [(16, limit1 d); (24, base1 d); (1, seg_a d); (1, seg_rw d); (1, seg_dc d); (1, seg_e d);
        (1, seg_s d); (2, seg_dpl d); (1, seg_p d); (4, limit2 d); (1, seg_zero d); (1, seg_l d);
        (1, seg_db d); (1, seg_g d); (8, base2 d)].

Definition null_desc : gdt_segment_desc :=
  {| limit1 := 0; base1 := 0; seg_a := 0; seg_rw := 0; seg_dc := 0; seg_e := 0; seg_s := 0;
     seg_dpl := 0; seg_p := 0; limit2 := 0; seg_zero := 0; seg_l := 0; seg_db := 0; seg_g := 0;
     base2 := 0 |}.

(** [struct gdtr_desc] *)
Record gdtr_desc := { gdtr_size : Z; gdtr_offset : Z }.

(** The widths in bytes of the fields of [tss], in order: link, zero1, esp0, ss0,
    zero2, esp1, ss1, zero3, esp2, ss2, zero4, cr3, eip, eflags, eax, ecx, edx,
    ebx, esp, ebp, esi, edi, es, zero5, cs, zero6, ss, zero7, ds, zero8, fs,
    zero9, gs, zero10, ldtr, zero11, iopb, ssp. *)
Definition tss_layout : list Z :=
  [2; 2; 4; 2; 2; 4; 2; 2; 4; 2; 2] ++ [4; 4; 4; 4; 4; 4; 4; 4; 4; 4; 4] ++
  [2; 2; 2; 2; 2; 2; 2; 2; 2; 2; 2; 2] ++ [2; 4; 2; 4].

Definition tss_esp0 : nat := 2.
Definition tss_ss0 : nat := 3.
Definition tss_iopb : nat := 36.

Definition sizeof_tss : Z := foldr Z.add 0 tss_layout.
Definition tss_offset (i : nat) : Z := foldr Z.add 0 (take i tss_layout).

Record gdt_state := {
  gdt : list gdt_segment_desc;
  gdtr : gdtr_desc;
  tss : list Z }.

(** The static initialisers. *)
Definition gdt_boot : gdt_state :=
  {| gdt := replicate GDT_LIMIT null_desc;
     gdtr := {| gdtr_size := 0; gdtr_offset := 0 |};
     tss := replicate (length tss_layout) 0 |}.

Definition kernel_code : gdt_segment_desc :=
  {| limit1 := 65535; base1 := 0; seg_a := 0; seg_rw := 1; seg_dc := 0; seg_e := 1; seg_s := 1;
     seg_dpl := 0; seg_p := 1; limit2 := 15; seg_zero := 0; seg_l := 0; seg_db := 1; seg_g := 1;
     base2 := 0 |}.
Definition kernel_data : gdt_segment_desc :=
  {| limit1 := 65535; base1 := 0; seg_a := 0; seg_rw := 1; seg_dc := 0; seg_e := 0; seg_s := 1;
     seg_dpl := 0; seg_p := 1; limit2 := 15; seg_zero := 0; seg_l := 0; seg_db := 1; seg_g := 1;
     base2 := 0 |}.
Definition user_code : gdt_segment_desc :=
  {| limit1 := 65535; base1 := 0; seg_a := 0; seg_rw := 1; seg_dc := 0; seg_e := 1; seg_s := 1;
     seg_dpl := 3; seg_p := 1; limit2 := 15; seg_zero := 0; seg_l := 0; seg_db := 1; seg_g := 1;
     base2 := 0 |}.
Definition user_data : gdt_segment_desc :=
  {| limit1 := 65535; base1 := 0; seg_a := 0; seg_rw := 1; seg_dc := 0; seg_e := 0; seg_s := 1;
     seg_dpl := 3; seg_p := 1; limit2 := 15; seg_zero := 0; seg_l := 0; seg_db := 1; seg_g := 1;
     base2 := 0 |}.
Definition tss_desc (tss_addr : Z) : gdt_segment_desc :=
  {| limit1 := sizeof_tss - 1; base1 := Z.land tss_addr 16777215; seg_a := 1; seg_rw := 0;
     seg_dc := 0; seg_e := 1; seg_s := 0; seg_dpl := 0; seg_p := 1; limit2 := 0; seg_zero := 0;
     seg_l := 0; seg_db := 1; seg_g := 0; base2 := Z.shiftr tss_addr 24 |}.

(** Initialize GDT structures *)
Definition init_gdt (gdt_addr tss_addr : Z) (st : gdt_state) : gdt_state :=
  let gdt_len := 8 * Z.of_nat GDT_LIMIT in
  let gdtr := {| gdtr_size := u16 (gdt_len - 1); gdtr_offset := u32 gdt_addr |} in
  let g := <[0%nat := null_desc]> (gdt st) in
  let g := <[1%nat := kernel_code]> g in
  let g := <[2%nat := kernel_data]> g in
  let g := <[3%nat := user_code]> g in
  let g := <[4%nat := user_data]> g in
  (* Set TSS block *)
  let t := <[tss_ss0 := 16]> (tss st) in
  let t := <[tss_esp0 := u32 (3489660928 - 4)]> t in
  let t := <[tss_iopb := u16 sizeof_tss]> t in
  let g := <[5%nat := tss_desc tss_addr]> g in
  {| gdt := g; gdtr := gdtr; tss := t |}.

(** Set tss stack *)
Definition set_tss_stack (esp0 : Z) (st : gdt_state) : gdt_state :=
  {| gdt := gdt st; gdtr := gdtr st; tss := <[tss_esp0 := esp0]> (tss st) |}.

(** ** What the processor reads *)

(** Fields of a 64-bit descriptor (Intel SDM vol. 3, 3.4.5). *)
Definition hw_limit (w : Z) : Z :=
  Z.lor (Z.land w 65535) (Z.shiftl (Z.land (Z.shiftr w 48) 15) 16).
Definition hw_base (w : Z) : Z :=
  Z.lor (Z.land (Z.shiftr w 16) 16777215) (Z.shiftl (Z.land (Z.shiftr w 56) 255) 24).
Definition hw_type (w : Z) : Z := Z.land (Z.shiftr w 40) 15.
Definition hw_s (w : Z) : bool := Z.testbit w 44.
Definition hw_dpl (w : Z) : Z := Z.land (Z.shiftr w 45) 3.
Definition hw_present (w : Z) : bool := Z.testbit w 47.
Definition hw_granular (w : Z) : bool := Z.testbit w 55.

(** The descriptor a selector names. *)
Definition selected (st : gdt_state) (sel : Z) : option Z :=
  encode_desc <$> gdt st !! Z.to_nat (sel / 8).

(** A present segment of all 4 GiB with the given type and privilege. *)
Definition flat_segment (w type dpl : Z) : Prop :=
  hw_base w = 0 /\ hw_limit w = 1048575 /\ hw_granular w = true /\ hw_s w = true /\
  hw_present w = true /\ hw_type w = type /\ hw_dpl w = dpl.

Lemma hw_base_encode d :
  hw_base (encode_desc d) = base1 d mod 2 ^ 24 + 2 ^ 24 * (base2 d mod 2 ^ 8).
Proof.
  unfold hw_base. change 16777215 with (Z.ones 24). change 255 with (Z.ones 8).
  rewrite lor_add, !Z.land_ones, !Z.shiftr_div_pow2 by
    (rewrite ?Z.land_ones by lia; try apply Z.mod_pos_bound; lia).
  unfold encode_desc. rewrite !pack_cons by lia. cbn [pack]. lia.
Qed.

Lemma hw_limit_encode d :
  hw_limit (encode_desc d) = limit1 d mod 2 ^ 16 + 2 ^ 16 * (limit2 d mod 2 ^ 4).
Proof.
  unfold hw_limit. change 65535 with (Z.ones 16). change 15 with (Z.ones 4).
  rewrite lor_add, !Z.land_ones, !Z.shiftr_div_pow2 by
    (rewrite ?Z.land_ones by lia; try apply Z.mod_pos_bound; lia).
  unfold encode_desc. rewrite !pack_cons by lia. cbn [pack]. lia.
Qed.

(** C34. After init_gdt the selectors the kernel uses name what they are used for:
    0x08 and 0x10 flat ring 0 code and data, 0x18|3 and 0x20|3 flat ring 3 code
    and data, 0x28 an available 32-bit TSS whose base is the address of [tss],
    for every address, and whose limit covers it; the table register covers all
    256 descriptors; and the fields written in the TSS lie where the processor
    looks for the ring 0 stack and the I/O map base. *)
Theorem init_gdt_selectors gdt_addr tss_addr st :
  length (gdt st) = GDT_LIMIT -> length (tss st) = length tss_layout -> 0 <= tss_addr < 2 ^ 32 ->
  let st' := init_gdt gdt_addr tss_addr st in
  (exists w, selected st' 8 = Some w /\ flat_segment w 10 0) /\
  (exists w, selected st' 16 = Some w /\ flat_segment w 2 0) /\
  (exists w, selected st' (Z.lor 24 3) = Some w /\ flat_segment w 10 3) /\
  (exists w, selected st' (Z.lor 32 3) = Some w /\ flat_segment w 2 3) /\
  (exists w, selected st' 40 = Some w /\ hw_base w = tss_addr /\ hw_limit w = sizeof_tss - 1 /\
     hw_type w = 9 /\ hw_s w = false /\ hw_present w = true /\ hw_dpl w = 0) /\
  gdtr_size (gdtr st') = 8 * Z.of_nat GDT_LIMIT - 1 /\
  tss st' !! tss_esp0 = Some (KERNEL_BASE + 268435456 - 4) /\ tss_offset tss_esp0 = 4 /\
  tss st' !! tss_ss0 = Some 16 /\ tss_offset tss_ss0 = 8 /\
  tss st' !! tss_iopb = Some sizeof_tss /\ tss_offset tss_iopb = 102.
Proof.
  intros Hg Ht Ha st'. unfold GDT_LIMIT in Hg. change (length tss_layout) with 38%nat in Ht.
  assert (forall i j (x : gdt_segment_desc) l, i <> j -> <[i:=x]> l !! j = l !! j) as Hne
    by (intros; by apply list_lookup_insert_ne).
  assert (forall (i : nat) (x : gdt_segment_desc) l, (i < length l)%nat -> <[i:=x]> l !! i = Some x)
    as Heq by (intros; by apply list_lookup_insert_eq).
  unfold selected, st', init_gdt. cbn [gdt gdtr tss gdtr_size].
  repeat apply conj.
  1-5: match goal with |- context [Z.to_nat ?z] =>
         let n := eval vm_compute in (Z.to_nat z) in change (Z.to_nat z) with n end;
       rewrite ?Hne by lia; rewrite Heq by (rewrite ?length_insert, Hg; lia);
       eexists; split; [reflexivity|].
  1-4: repeat apply conj; by vm_compute.
  - rewrite hw_base_encode, hw_limit_encode. cbn [base1 base2 limit1 limit2 tss_desc].
    change 16777215 with (Z.ones 24). rewrite Z.land_ones, Z.shiftr_div_pow2 by lia.
    split; [lia|]. split; [by vm_compute|].
    unfold hw_type, hw_s, hw_present, hw_dpl, encode_desc.
    assert (forall b1 b2 : Z, pack [(16, sizeof_tss - 1); (24, b1); (1, 1); (1, 0); (1, 0); (1, 1);
      (1, 0); (2, 0); (1, 1); (4, 0); (1, 0); (1, 0); (1, 1); (1, 0); (8, b2)]
      = 107 + 2 ^ 16 * (b1 mod 2 ^ 24) + 2 ^ 40 * (137 + 2 ^ 8 * (64 + 2 ^ 8 * (b2 mod 2 ^ 8)))) as Hp.
    { intros. rewrite !pack_cons by lia. cbn [pack]. change (sizeof_tss - 1) with 107. lia. }
    cbn [limit1 base1 seg_a seg_rw seg_dc seg_e seg_s seg_dpl seg_p limit2 seg_zero seg_l seg_db
         seg_g base2 tss_desc].
    rewrite Hp. change 15 with (Z.ones 4). change 3 with (Z.ones 2).
    rewrite !Z.land_ones, !Z.shiftr_div_pow2, !Z.testbit_eqb by lia.
    repeat apply conj; lia.
  - done.
  - rewrite list_lookup_insert_ne, list_lookup_insert_eq by
      (rewrite ?length_insert, ?Ht; unfold tss_esp0, tss_iopb; lia). done.
  - done.
  - rewrite !list_lookup_insert_ne, list_lookup_insert_eq by
      (rewrite ?length_insert, ?Ht; unfold tss_ss0, tss_esp0, tss_iopb; lia). done.
  - done.
  - rewrite list_lookup_insert_eq by
      (rewrite ?length_insert, ?Ht; unfold tss_esp0, tss_iopb; lia). done.
  - done.
Qed.

Lemma init_gdt_selectors_witness :
  let st' := init_gdt 3222274048 3222278144 gdt_boot in
  (exists w, selected st' 8 = Some w /\ flat_segment w 10 0) /\
  (exists w, selected st' 16 = Some w /\ flat_segment w 2 0) /\
  (exists w, selected st' (Z.lor 24 3) = Some w /\ flat_segment w 10 3) /\
  (exists w, selected st' (Z.lor 32 3) = Some w /\ flat_segment w 2 3) /\
  (exists w, selected st' 40 = Some w /\ hw_base w = 3222278144 /\ hw_limit w = sizeof_tss - 1 /\
     hw_type w = 9 /\ hw_s w = false /\ hw_present w = true /\ hw_dpl w = 0) /\
  gdtr_size (gdtr st') = 8 * Z.of_nat GDT_LIMIT - 1 /\
  tss st' !! tss_esp0 = Some (KERNEL_BASE + 268435456 - 4) /\ tss_offset tss_esp0 = 4 /\
  tss st' !! tss_ss0 = Some 16 /\ tss_offset tss_ss0 = 8 /\
  tss st' !! tss_iopb = Some sizeof_tss /\ tss_offset tss_iopb = 102.
Proof.
  apply (init_gdt_selectors 3222274048 3222278144 gdt_boot); [reflexivity|reflexivity|lia].
Defined.
