(* ===== verification/Machine.v ===== *)
(** * The machine the x86 kernel runs on

    The state of the kernel: physical memory, the page directory register, the
    bytes sent to I/O ports, and the global variables of the kernel's C files.

    An access to virtual memory goes through the page directory in force
    ([walk], 32-bit paging with 4 MiB pages, as the Intel manual gives it for a
    supervisor access with CR0.WP clear).  Addresses from [KERNEL_BASE] on are
    taken to be mapped to the first GiB of physical memory: the boot directory,
    the kernel's own and every process directory map them so, which is proved in
    the file on paging ([kernel_window_walk]).  An address that is not mapped
    faults. *)

From S2P Require Export Store Gdt.

#[local] Open Scope Z_scope.

(** [struct idtr_desc] *)
Record idtr_desc := { idtr_size : Z; idtr_offset : Z }.

Record machine := Machine {
  phys : Z -> Z;                (* physical memory, one byte per address *)
  cr3 : Z;                      (* physical address of the page directory *)
  ports : list (Z * Z);         (* (port, byte) pairs sent so far, oldest first *)
  interrupts : bool;            (* the interrupt flag *)
  gdt_st : gdt_state;           (* core/gdt.c: gdt, gdtr, tss *)
  idt : Z;                      (* core/idt.c: the table's address *)
  idtr : idtr_desc;             (* core/idt.c *)
  page_freelist : Z;            (* mm/paging.c *)
  current_process : Z;          (* proc/process.c *)
  switching_enabled : Z         (* drivers/timer.c *)
}.

Definition set_phys f m := Machine f (cr3 m) (ports m) (interrupts m) (gdt_st m) (idt m) (idtr m)
  (page_freelist m) (current_process m) (switching_enabled m).
Definition set_cr3 c m := Machine (phys m) c (ports m) (interrupts m) (gdt_st m) (idt m) (idtr m)
  (page_freelist m) (current_process m) (switching_enabled m).
Definition set_ports p m := Machine (phys m) (cr3 m) p (interrupts m) (gdt_st m) (idt m) (idtr m)
  (page_freelist m) (current_process m) (switching_enabled m).
Definition set_interrupts b m := Machine (phys m) (cr3 m) (ports m) b (gdt_st m) (idt m) (idtr m)
  (page_freelist m) (current_process m) (switching_enabled m).
Definition set_gdt g m := Machine (phys m) (cr3 m) (ports m) (interrupts m) g (idt m) (idtr m)
  (page_freelist m) (current_process m) (switching_enabled m).
Definition set_idt i r m := Machine (phys m) (cr3 m) (ports m) (interrupts m) (gdt_st m) i r
  (page_freelist m) (current_process m) (switching_enabled m).
Definition set_freelist f m := Machine (phys m) (cr3 m) (ports m) (interrupts m) (gdt_st m) (idt m)
  (idtr m) f (current_process m) (switching_enabled m).
Definition set_current p m := Machine (phys m) (cr3 m) (ports m) (interrupts m) (gdt_st m) (idt m)
  (idtr m) (page_freelist m) p (switching_enabled m).
Definition set_switching b m := Machine (phys m) (cr3 m) (ports m) (interrupts m) (gdt_st m) (idt m)
  (idtr m) (page_freelist m) (current_process m) b.

(** ** Address translation *)

(** A 32-bit word of physical memory. *)
Definition pread32 (f : Z -> Z) (a : Z) : Z := vld32 (fun b => u8 (f b)) a.

(** The physical address the page walk finds for a supervisor access.  Address
    bits above 31 of a 4 MiB entry, zero in every entry the kernel writes, are
    left out. *)
Definition walk (f : Z -> Z) (dir va : Z) : option Z :=
  let pde := pread32 f (Z.land dir 4294963200 + 4 * Z.shiftr va 22) in
  if negb (Z.testbit pde 0) then None
  else if Z.testbit pde 7 then
    Some (Z.shiftl (Z.shiftr pde 22) 22 + Z.land va 4194303)
  else
    let pte := pread32 f (Z.shiftl (Z.shiftr pde 12) 12 + 4 * Z.land (Z.shiftr va 12) 1023) in
    if negb (Z.testbit pte 0) then None
    else Some (Z.shiftl (Z.shiftr pte 12) 12 + Z.land va 4095).

Definition translate (m : machine) (va : Z) : option Z :=
  if KERNEL_BASE <=? va then Some (va - KERNEL_BASE) else walk (phys m) (cr3 m) va.

Definition pset (f : Z -> Z) (a v : Z) : Z -> Z := fun b => if b =? a then v else f b.

#[export] Instance machine_store : Store machine := {
  rd8 m va :=
    match translate m va with
    | Some pa => Ok (u8 (phys m pa))
    | None => Undef
    end;
  wr8 m va v :=
    match translate m va with
    | Some pa => Ok (set_phys (pset (phys m) pa v) m)
    | None => Undef
    end;
}.

(** ** The kernel window *)

Definition kernel_window (va : Z) : Prop := KERNEL_BASE <= va < 4294967296.

(** Everything but the memory of the kernel window is the same. *)
Definition same_outside (m m' : machine) : Prop :=
  (forall pa, 1073741824 <= pa -> phys m' pa = phys m pa) /\
  m' = set_phys (phys m') m.

Lemma set_phys_id m : set_phys (phys m) m = m.
Proof. by destruct m. Qed.

Lemma same_outside_trans m1 m2 m3 :
  same_outside m1 m2 -> same_outside m2 m3 -> same_outside m1 m3.
Proof.
  intros [H1 E1] [H2 E2]. split.
  - intros pa Hpa. by rewrite H2, H1.
  - rewrite E2 at 1. rewrite E1 at 1. done.
Qed.

#[export] Program Instance machine_window : Window machine kernel_window := {
  view m va := u8 (phys m (va - KERNEL_BASE));
  poke m va v := set_phys (pset (phys m) (va - KERNEL_BASE) v) m;
  outside := same_outside;
}.
Next Obligation.
  split.
  - intros m. split; [done|]. by rewrite set_phys_id.
  - intros m1 m2 m3. apply same_outside_trans.
Qed.
Next Obligation.
  intros m a [Ha _]. cbn. unfold translate. by rewrite (proj2 (Z.leb_le _ _) Ha).
Qed.
Next Obligation. intros. apply u8_range. Qed.
Next Obligation.
  intros m a v [Ha _]. cbn. unfold translate. by rewrite (proj2 (Z.leb_le _ _) Ha).
Qed.
Next Obligation.
  intros m a v b Ha Hb. cbn. unfold pset.
  destruct (Z.eqb_spec (b - KERNEL_BASE) (a - KERNEL_BASE)); case_decide; done || lia.
Qed.
Next Obligation.
  intros m a v [Ha Hb]. split; [|done]. intros pa Hpa. cbn. unfold pset.
  destruct (Z.eqb_spec pa (a - KERNEL_BASE)); [|done]. unfold KERNEL_BASE in *. lia.
Qed.

Lemma kernel_in_win a n : KERNEL_BASE <= a -> a + n <= 4294967296 -> in_win kernel_window a n.
Proof.
  unfold KERNEL_BASE. intros. split; [lia|]. split; [lia|].
  intros b Hb. unfold kernel_window, KERNEL_BASE. lia.
Qed.

(** A word of the kernel window is the physical word below it. *)
Lemma view_pread32 m a : vld32 (view m) a = pread32 (phys m) (a - KERNEL_BASE).
Proof. unfold pread32. by rewrite <- vld_offset. Qed.

(** ** core/port.s: output to a port

    The port number is the low half of the address passed. *)
Definition outportb (port v : Z) (m : machine) : machine :=
  set_ports (ports m ++ [(u16 port, u8 v)]) m.
