(* ===== verification/Interrupts.v ===== *)
(** * arch/x86/core: registers, the interrupt table, the interrupt controllers

    registers.h and isr.h as records, idt.c and isr.c as operations of the
    machine, panic.c as the computation that never returns.  The table lives in
    memory obtained from the kernel heap, so a gate is eight bytes stored through
    the pointer [idt].  The addresses of the assembly wrappers of the handlers
    are given by the linker and are a parameter.

    The two 8259 interrupt controllers are described as the state machines their
    data sheet gives; what init_pic does is what they make of the bytes it sends. *)

From S2P Require Export Machine Alloc.

#[local] Open Scope Z_scope.

(** ** registers.h, isr.h *)

Record gen_register_set := {
  g_edi : Z; g_esi : Z; g_ebp : Z; g_ebx : Z; g_edx : Z; g_ecx : Z; g_eax : Z; g_esp : Z }.
Record seg_register_set := { s_ds : Z; s_es : Z; s_fs : Z; s_gs : Z }.
Record interrupt_frame := { f_eip : Z; f_cs : Z; f_eflags : Z; f_esp : Z; f_ss : Z }.

Definition PIC_EOI : Z := 32.
Definition PIC_COMMAND1 : Z := KERNEL_BASE + 32.
Definition PIC_DATA1 : Z := KERNEL_BASE + 33.
Definition PIC_COMMAND2 : Z := KERNEL_BASE + 160.
Definition PIC_DATA2 : Z := KERNEL_BASE + 161.

Definition enable_interrupts (m : machine) : machine := set_interrupts true m.

(** ** idt.h, idt.c *)

Definition IDT_LIMIT : Z := 256.
Definition IDT_PROT_INTR : Z := 14.
Definition IRQ_OFFSET : Z := 32.

(** The 64 bits of [struct idt_desc]. *)
Definition encode_gate (offset1 selector unused type s dpl present offset2 : Z) : Z :=
  pack [(16, offset1); (16, selector); (8, unused); (4, type); (1, s); (2, dpl); (1, present);
        (16, offset2)].

Definition init_idt (m : machine) : res machine :=
  let idt_len := 8 * IDT_LIMIT in
  '(m, p) ← kernel_allocate m idt_len;
  mret (set_idt p {| idtr_size := u16 (idt_len - 1); idtr_offset := p |} m).

Definition set_id (m : machine) (idt_pos offset selector type dpl present : Z) : res machine :=
  stn 8 m (u32 (idt m + 8 * u8 idt_pos))
    (encode_gate (Z.land offset 65535) selector 0 type 0 dpl present
       (Z.land (Z.shiftr offset 16) 65535)).

(** ** panic.c: [while (1) {}] *)
Definition kernel_panic (m : machine) : res machine :=
  loop (fun m : machine => mret (inl m)) m.

(** ** isr.c *)

(** Initialize the PIC *)
Definition init_pic (m : machine) : machine :=
  (* ICW1 *)
  let m := outportb PIC_COMMAND1 17 m in
  let m := outportb PIC_COMMAND2 17 m in
  (* ICW2 *)
  let m := outportb PIC_DATA1 IRQ_OFFSET m in
  let m := outportb PIC_DATA2 IRQ_OFFSET m in
  (* ICW3 *)
  let m := outportb PIC_DATA1 4 m in
  let m := outportb PIC_DATA2 2 m in
  (* ICW4 *)
  let m := outportb PIC_DATA1 1 m in
  let m := outportb PIC_DATA2 1 m in
  (* Clear masks on all lines *)
  let m := outportb PIC_DATA1 0 m in
  outportb PIC_DATA2 0 m.

(** The assembly entry points whose addresses the C code takes. *)
Inductive handler :=
  | divbyzero_handler_wrapper | debug_handler_wrapper | nonmask_handler_wrapper
  | breakpoint_handler_wrapper | overflow_handler_wrapper | boundrange_handler_wrapper
  | invalop_handler_wrapper | nodevice_handler_wrapper | doublefault_handler_wrapper
  | invaltss_handler_wrapper | nosegment_handler_wrapper | stackseg_handler_wrapper
  | genprotection_handler_wrapper | pagefault_handler_wrapper | timer_handler_wrapper.

(** Every handler of isr.c panics with its message and the saved context. *)
Definition exception_handler (h : handler) (seg_regs : seg_register_set)
    (gen_regs : gen_register_set) (ecode : Z) (frame : interrupt_frame) (m : machine)
    : res machine := kernel_panic m.

(** The calls of init_exceptions, in order. *)
Definition exception_table : list (Z * handler) :=
  [(0, divbyzero_handler_wrapper); (1, debug_handler_wrapper); (2, nonmask_handler_wrapper);
   (3, breakpoint_handler_wrapper); (4, overflow_handler_wrapper);
   (5, boundrange_handler_wrapper); (6, invalop_handler_wrapper); (7, nodevice_handler_wrapper);
   (8, doublefault_handler_wrapper); (10, invaltss_handler_wrapper);
   (11, nosegment_handler_wrapper); (12, stackseg_handler_wrapper);
   (13, genprotection_handler_wrapper); (39, divbyzero_handler_wrapper)].

Section Handlers.
Context (addr_of : handler -> Z).

Fixpoint set_ids (m : machine) (l : list (Z * handler)) : res machine :=
  match l with
  | [] => Ok m
  | (pos, h) :: l => m ← set_id m pos (addr_of h) 8 IDT_PROT_INTR 0 1; set_ids m l
  end.

(** Enable and add exceptions *)
Definition init_exceptions (m : machine) : res machine := set_ids m exception_table.
End Handlers.

(** ** What the processor reads in a gate (Intel SDM vol. 3, 6.11) *)

Record gate := {
  gate_offset : Z; gate_selector : Z; gate_type : Z; gate_system : bool; gate_dpl : Z;
  gate_present : bool }.

Definition decode_gate (w : Z) : gate :=
  {| gate_offset := Z.land w 65535 + 65536 * (w / 2 ^ 48 mod 65536);
     gate_selector := w / 2 ^ 16 mod 65536;
     gate_type := w / 2 ^ 40 mod 16;
     gate_system := negb (Z.testbit w 44);
     gate_dpl := w / 2 ^ 45 mod 4;
     gate_present := Z.testbit w 47 |}.

(** The gate at a position of the table. *)
Definition gate_at (m : machine) (pos : Z) : gate := decode_gate (vld 8 (view m) (idt m + 8 * pos)).

(** A present ring 0 32-bit interrupt gate to the kernel code segment. *)
Definition interrupt_gate (h : Z) : gate :=
  {| gate_offset := h; gate_selector := 8; gate_type := IDT_PROT_INTR; gate_system := true;
     gate_dpl := 0; gate_present := true |}.

Lemma decode_encode_gate h sel type dpl present :
  0 <= h < 2 ^ 32 -> 0 <= sel < 65536 -> 0 <= type < 16 -> 0 <= dpl < 4 -> 0 <= present < 2 ->
  decode_gate (encode_gate (Z.land h 65535) sel 0 type 0 dpl present
    (Z.land (Z.shiftr h 16) 65535) mod 2 ^ 64)
  = {| gate_offset := h; gate_selector := sel; gate_type := type; gate_system := true;
       gate_dpl := dpl; gate_present := (present =? 1) |}.
Proof.
  intros Hh Hs Ht Hd Hp. change 65535 with (Z.ones 16).
  rewrite !Z.land_ones, Z.shiftr_div_pow2 by lia.
  assert (encode_gate (h mod 2 ^ 16) sel 0 type 0 dpl present ((h / 2 ^ 16) mod 2 ^ 16)
    = h mod 65536 + 65536 * (sel + 65536 * (256 * (type + 16 * (2 * (dpl + 4 *
        (present + 2 * (h / 65536 mod 65536)))))))) as ->.
  { unfold encode_gate. rewrite !pack_cons by lia. cbn [pack]. lia. }
  unfold decode_gate. change 65535 with (Z.ones 16).
  rewrite Z.land_ones, !Z.testbit_eqb by lia.
  f_equal; lia.
Qed.

Section GateSpec.
Implicit Types (m : machine).

Lemma set_id_win m pos h sel type dpl present :
  0 <= pos < 256 -> KERNEL_BASE <= idt m -> idt m + 2048 <= 4294967296 ->
  exists m', set_id m pos h sel type dpl present = Ok m' /\ same_outside m m' /\ idt m' = idt m /\
    forall a, kernel_window a -> view m' a =
      vst 8 (view m) (idt m + 8 * pos)
        (encode_gate (Z.land h 65535) sel 0 type 0 dpl present (Z.land (Z.shiftr h 16) 65535)) a.
Proof.
  intros Hpos Hb He. unfold set_id. rewrite (u8_small pos) by lia.
  unfold KERNEL_BASE in Hb. rewrite u32_small by lia.
  destruct (stn_win (win := kernel_window) 8 m (idt m + 8 * pos)
    (encode_gate (Z.land h 65535) sel 0 type 0 dpl present (Z.land (Z.shiftr h 16) 65535)))
    as (m' & -> & Ho & Hv).
  { apply kernel_in_win; unfold KERNEL_BASE; lia. }
  exists m'. split; [done|]. split; [exact Ho|]. split; [|exact Hv].
  destruct Ho as [_ ->]. done.
Qed.

(** The gates of the table after one is set. *)
Lemma set_id_gates m pos h sel type dpl present :
  0 <= pos < 256 -> KERNEL_BASE <= idt m -> idt m + 2048 <= 4294967296 ->
  0 <= h < 2 ^ 32 -> 0 <= sel < 65536 -> 0 <= type < 16 -> 0 <= dpl < 4 -> 0 <= present < 2 ->
  exists m', set_id m pos h sel type dpl present = Ok m' /\ same_outside m m' /\ idt m' = idt m /\
    gate_at m' pos = {| gate_offset := h; gate_selector := sel; gate_type := type;
      gate_system := true; gate_dpl := dpl; gate_present := (present =? 1) |} /\
    (forall pos', 0 <= pos' < 256 -> pos' <> pos -> gate_at m' pos' = gate_at m pos') /\
    (forall a, kernel_window a -> a < idt m \/ idt m + 2048 <= a -> view m' a = view m a).
Proof.
  intros Hpos Hb He Hh Hs Ht Hd Hp.
  destruct (set_id_win m pos h sel type dpl present Hpos Hb He) as (m' & E & Ho & Hi & Hv).
  exists m'. split; [done|]. split; [done|]. split; [done|].
  unfold KERNEL_BASE in Hb.
  assert (forall a, idt m <= a < idt m + 2048 -> kernel_window a) as Hw
    by (intros; unfold kernel_window, KERNEL_BASE; lia).
  split; [|split].
  - unfold gate_at. rewrite Hi. erewrite vld_ext; [|intros b Hb'; apply Hv, Hw; lia].
    rewrite vld_vst_same. by apply decode_encode_gate.
  - intros pos' Hpos' Hne. unfold gate_at. rewrite Hi.
    erewrite vld_ext; [|intros b Hb'; apply Hv, Hw; lia].
    rewrite vld_vst_other by lia. done.
  - intros a Ha Hout. rewrite Hv by done. by rewrite vst_out by lia.
Qed.

Lemma set_ids_gates addr_of l m :
  (forall h, 0 <= addr_of h < 2 ^ 32) -> Forall (fun '(pos, _) => 0 <= pos < 256) l ->
  NoDup l.*1 -> KERNEL_BASE <= idt m -> idt m + 2048 <= 4294967296 ->
  exists m', set_ids addr_of m l = Ok m' /\ same_outside m m' /\ idt m' = idt m /\
    (forall pos h, (pos, h) ∈ l -> gate_at m' pos = interrupt_gate (addr_of h)) /\
    (forall pos, 0 <= pos < 256 -> pos ∉ l.*1 -> gate_at m' pos = gate_at m pos) /\
    (forall a, kernel_window a -> a < idt m \/ idt m + 2048 <= a -> view m' a = view m a).
Proof.
  intros Ha. revert m; induction l as [|[pos h] l IH]; intros m Hl Hnd Hb He.
  { exists m. split; [done|]. split; [split; [done|by rewrite set_phys_id]|]. split; [done|].
    split; [|done]. intros pos h H. by apply elem_of_nil in H. }
  apply Forall_cons in Hl as [Hp Hl]. cbn [fmap list_fmap fst] in Hnd.
  apply NoDup_cons in Hnd as [Hnin Hnd].
  destruct (set_id_gates m pos (addr_of h) 8 IDT_PROT_INTR 0 1)
    as (m1 & E & Ho & Hi & Hg & Hf & Hout); try done.
  destruct (IH m1 Hl Hnd) as (m' & E' & Ho' & Hi' & Hin & Hout' & Hf');
    [by rewrite Hi|by rewrite Hi|].
  exists m'. cbn [set_ids]. rewrite E. bnd. split; [done|].
  split; [by apply (same_outside_trans m m1)|]. split; [by rewrite Hi'|]. split; [|split].
  - intros pos' h' H. apply elem_of_cons in H as [[= -> ->]|H]; [|by apply Hin].
    by rewrite Hout'.
  - intros pos' Hp' Hni. cbn [fmap list_fmap fst] in Hni.
    apply not_elem_of_cons in Hni as [Hne Hni]. rewrite Hout' by done. by apply Hf.
  - intros a Haw Hax. rewrite Hf' by (rewrite ?Hi; done). by apply Hout.
Qed.
End GateSpec.

(** ** The 8259A interrupt controllers *)

(** How far an initialisation sequence has got. *)
Inductive pic_phase := PicReady | PicICW2 | PicICW3 | PicICW4.

Record pic := {
  pic_phase_of : pic_phase; pic_vector : Z; pic_cascade : Z; pic_8086 : bool; pic_mask : Z;
  pic_eois : nat }.

(** A byte written to the command port: bit 4 starts an initialisation, otherwise
    0x20 is an end of interrupt. *)
Definition pic_command (v : Z) (p : pic) : pic :=
  if Z.testbit v 4 then
    {| pic_phase_of := PicICW2; pic_vector := pic_vector p; pic_cascade := pic_cascade p;
       pic_8086 := false; pic_mask := 0; pic_eois := 0 |}
  else if v =? 32 then
    {| pic_phase_of := pic_phase_of p; pic_vector := pic_vector p; pic_cascade := pic_cascade p;
       pic_8086 := pic_8086 p; pic_mask := pic_mask p; pic_eois := S (pic_eois p) |}
  else p.

(** A byte written to the data port: the next initialisation word, or the mask. *)
Definition pic_data (v : Z) (p : pic) : pic :=
  match pic_phase_of p with
  | PicICW2 => {| pic_phase_of := PicICW3; pic_vector := Z.land v 248;
      pic_cascade := pic_cascade p; pic_8086 := pic_8086 p; pic_mask := pic_mask p;
      pic_eois := pic_eois p |}
  | PicICW3 => {| pic_phase_of := PicICW4; pic_vector := pic_vector p; pic_cascade := v;
      pic_8086 := pic_8086 p; pic_mask := pic_mask p; pic_eois := pic_eois p |}
  | PicICW4 => {| pic_phase_of := PicReady; pic_vector := pic_vector p;
      pic_cascade := pic_cascade p; pic_8086 := Z.testbit v 0; pic_mask := pic_mask p;
      pic_eois := pic_eois p |}
  | PicReady => {| pic_phase_of := PicReady; pic_vector := pic_vector p;
      pic_cascade := pic_cascade p; pic_8086 := pic_8086 p; pic_mask := v;
      pic_eois := pic_eois p |}
  end.

(** Master and slave on the bus. *)
Definition pics_write (st : pic * pic) (w : Z * Z) : pic * pic :=
  let '(port, v) := w in let '(master, slave) := st in
  if port =? 32 then (pic_command v master, slave)
  else if port =? 33 then (pic_data v master, slave)
  else if port =? 160 then (master, pic_command v slave)
  else if port =? 161 then (master, pic_data v slave)
  else st.

Definition pics_run (st : pic * pic) (writes : list (Z * Z)) : pic * pic :=
  foldl pics_write st writes.

(** The vector an interrupt request line raises. *)
Definition irq_vector (st : pic * pic) (irq : Z) : Z :=
  if irq <? 8 then pic_vector st.1 + irq else pic_vector st.2 + (irq - 8).

Definition pic_operational (vector cascade : Z) : pic :=
  {| pic_phase_of := PicReady; pic_vector := vector; pic_cascade := cascade; pic_8086 := true;
     pic_mask := 0; pic_eois := 0 |}.

(** The bytes an operation of the machine sends. *)
Definition sends (m m' : machine) (writes : list (Z * Z)) : Prop := ports m' = ports m ++ writes.
