(* ===== verification/InterruptProps.v ===== *)
(** * Properties of the interrupt set-up

    The table init_idt obtains from the kernel heap and the gates the calls of
    set_id put there, together with the heap they are part of. *)

From S2P Require Export AllocProps Interrupts.

#[local] Open Scope Z_scope.

(** The byte after the last block of the kernel heap is no block a request of the
    given size could be served from, nor does it lead the search astray. *)
Definition heap_ends {S} `{Store S} {win} `{!Window S win} (s : S) (need : Z) : Prop :=
  fits_byte need (view s (end_ kernel_heap)) = false /\
  hsize (view s (end_ kernel_heap)) <= 28.

(** Bytes of a block in use may be written without disturbing the heap. *)
Lemma heap_payload {S} `{Store S} {win} `{!Window S win} (s s' : S) h l1 b l2 e a n :
  heap_at h s (l1 ++ b :: l2) e ->
  start h + span l1 < a -> a + n <= start h + span l1 + blen b ->
  (forall x, win x -> x < a \/ a + n <= x -> view s' x = view s x) ->
  heap_at h s' (l1 ++ b :: l2) e.
Proof.
  intros (Ht & Hok & Hw & He) Ha Hn Hv. split; [|done].
  eapply tiles_frame; [|exact Ht]. intros x Hx. symmetry.
  pose proof (headers_range _ _ _ Hok Hx) as Hr. apply tiles_span in Ht.
  apply Hv; [apply Hw; lia|].
  destruct (decide (a <= x < a + n)) as [Hin|]; [|lia]. exfalso.
  eapply payload_not_header; [exact Hok| |exact Hx]. lia.
Qed.

(** kernel_allocate on a heap where a block fits. *)
Lemma kernel_allocate_hit {S} `{Store S} {win} `{!Window S win} (s : S) sz l off l' :
  kernel_heap_at s l -> 0 <= sz -> sz + 1 < 2 ^ 28 -> heap_ends s (needed (sz + 1)) ->
  alloc_blocks (needed (sz + 1)) l = Some (off, l') ->
  let p := KERNEL_BASE + 268435456 + off in
  exists s', kernel_allocate s sz = Ok (s', p) /\ outside s s' /\ kernel_heap_at s' l' /\
    (2 ^ needed (sz + 1) | p) /\ 0 <= off /\ p - 1 + 2 ^ needed (sz + 1) < KERNEL_BASE + 805306368 /\
    (forall x, win x -> x ∉ headers (start kernel_heap) l' -> view s' x = view s x) /\
    exists l1 l2, l' = l1 ++ Block (needed (sz + 1)) true :: l2 /\ off = span l1.
Proof.
  intros [Hh Ha] H0 H1 [Hf H28] Hb p.
  pose proof (kernel_quiet s _ Hf H28) as Hq.
  destruct (memory_allocate_win _ s sz l _ Hh H0 ltac:(lia) Hq) as ([s' r] & E & Hal).
  unfold allocated in Hal. rewrite Hb in Hal. cbn [fst snd] in Hal.
  destruct Hal as (-> & Hh' & Ho & Hv). pose proof Hh as (Ht & Hok & _).
  destruct (needed_spec (sz + 1)) as (Hn3 & _ & Hmin); [lia|].
  assert (needed (sz + 1) <= 28) as Hn28 by (apply Hmin; lia).
  destruct (alloc_blocks_aligned 0 _ _ _ _ Hn3 Hok Ha Hb) as [Ha' Hd].
  destruct (alloc_blocks_sizes _ _ _ _ Hn3 Hok Hb) as (_ & _ & Ho0 & Ho1).
  apply tiles_span in Ht.
  change (end_ kernel_heap) with 4026531839 in *. change (start kernel_heap) with 3489660927 in *.
  unfold p, KERNEL_BASE. exists s'.
  replace (3221225472 + 268435456 + off) with (3489660927 + off + 1) by lia.
  split; [exact E|]. split; [done|]. split; [by split|]. split.
  { replace (3489660927 + off + 1) with (13 * 2 ^ 28 + off) by lia.
    apply Z.divide_add_r; [|done]. apply Z.divide_mul_r, pow2_divide. lia. }
  split; [done|]. split; [lia|]. split; [done|].
  apply alloc_blocks_inv in Hb as (l1 & b & l2 & _ & _ & -> & -> & _).
  by exists l1, (frees (needed (sz + 1)) (bsize b) ++ l2).
Qed.

(** C29. On a kernel heap with room for it, init_idt allocates a page aligned
    table of 256 gates and describes it to the processor (limit 2047), and
    init_exceptions, called next, installs for each exception of its list a
    present ring 0 interrupt gate to the handler's address through the kernel
    code segment and does not disturb the heap.  Every other gate is what the memory
    the table was put in held before, for nothing clears it; and memory other than
    the table and the headers of the heap is as it was.
    The list also installs the divide error handler at vector 39. *)
Theorem init_exceptions_gates addr_of m l off l' :
  (forall h, 0 <= addr_of h < 2 ^ 32) ->
  kernel_heap_at m l -> heap_ends m 12 -> alloc_blocks 12 l = Some (off, l') ->
  exists m1 m2, init_idt m = Ok m1 /\ init_exceptions addr_of m1 = Ok m2 /\
    let table := KERNEL_BASE + 268435456 + off in
    (4096 | table) /\ idt m2 = table /\
    idtr m1 = {| idtr_size := 8 * IDT_LIMIT - 1; idtr_offset := table |} /\
    kernel_heap_at m2 l' /\
    (forall pos h, (pos, h) ∈ exception_table -> gate_at m2 pos = interrupt_gate (addr_of h)) /\
    (forall pos, 0 <= pos < 256 -> pos ∉ exception_table.*1 ->
       gate_at m2 pos = decode_gate (vld 8 (view m) (table + 8 * pos))) /\
    (forall x, kernel_window x -> x ∉ headers (start kernel_heap) l' ->
       x < table \/ table + 2048 <= x -> view m2 x = view m x).
Proof.
  intros Ha Hk He Hb.
  destruct (kernel_allocate_hit m 2048 l off l' Hk ltac:(lia) ltac:(lia) He Hb)
    as (m1 & E & _ & [Hh1 Ha1] & Hd & Ho & Htop & Hv & l1 & l2 & -> & ->).
  change (2 ^ needed (2048 + 1)) with 4096 in *. change (needed (2048 + 1)) with 12 in *.
  set (table := KERNEL_BASE + 268435456 + span l1) in *.
  set (mi := set_idt table {| idtr_size := 8 * IDT_LIMIT - 1; idtr_offset := table |} m1).
  unfold KERNEL_BASE in *.
  destruct (set_ids_gates addr_of exception_table mi Ha)
    as (m2 & E2 & _ & Hi & Hin & Hout & Hf).
  { by repeat constructor. }
  { by apply (bool_decide_unpack (NoDup exception_table.*1)); vm_compute. }
  { cbn. unfold KERNEL_BASE. lia. }
  { cbn. unfold KERNEL_BASE. lia. }
  exists mi, m2. split.
  { unfold init_idt. change (8 * IDT_LIMIT) with 2048. by rewrite E. }
  split; [exact E2|]. split; [done|]. split; [by rewrite Hi|]. split; [done|].
  assert (start kernel_heap = 3489660927) as Hs by done. split; [|split; [done|split]].
  - split; [|done]. apply (heap_payload m1 m2 _ _ _ _ _ table 2048 Hh1).
    + unfold table. lia.
    + rewrite blen_block. unfold table. lia.
    + intros x Hx Hxt. by apply Hf.
  - intros pos Hpos Hn. rewrite Hout by done. unfold gate_at. f_equal. apply vld_ext.
    change (idt mi) with table. intros b Hr. apply Hv; [unfold kernel_window, KERNEL_BASE, table in *; lia|].
    destruct Hh1 as (_ & Hok & _). apply payload_not_header; [done|]. rewrite blen_block. unfold table in *. lia.
  - intros x Hx Hnh Hxt. rewrite Hf by done. by apply Hv.
Qed.

(** init_pic takes both controllers, from any state they are in, through
    their whole initialisation: vector base 0x20, slave on line 2, 8086 mode and
    no line masked; and it gives them the same vector base, so that a line of
    the slave raises the vector of a line of the master (IRQ 8 that of the
    timer). *)
Theorem init_pic_operational m :
  exists writes, sends m (init_pic m) writes /\
    forall st, pics_run st writes =
      (pic_operational IRQ_OFFSET 4, pic_operational IRQ_OFFSET 2) /\
    forall irq, 0 <= irq < 8 ->
      irq_vector (pics_run st writes) (irq + 8) = irq_vector (pics_run st writes) irq /\
      irq_vector (pics_run st writes) irq = IRQ_OFFSET + irq.
Proof.
  assert (forall irq, 0 <= irq < 8 ->
    let st := (pic_operational IRQ_OFFSET 4, pic_operational IRQ_OFFSET 2) in
    irq_vector st (irq + 8) = irq_vector st irq /\ irq_vector st irq = IRQ_OFFSET + irq) as Hv.
  { intros irq Hirq. unfold irq_vector. zbool. cbn [pic_vector pic_operational fst snd]. lia. }
  eexists. split.
  { unfold sends, init_pic, outportb. cbn [ports set_ports]. rewrite <- !app_assoc.
    reflexivity. }
  intros [[] []]. match goal with |- pics_run ?st ?w = ?r /\ _ =>
    assert (pics_run st w = r) as -> by reflexivity end. by split.
Qed.

(** ** A machine on which they apply *)

(** A machine with the given physical memory, directory and globals. *)
Definition boot_machine (f : Z -> Z) (dir : Z) : machine :=
  {| phys := f; cr3 := dir; ports := []; interrupts := false; gdt_st := gdt_boot; idt := 0;
     idtr := {| idtr_size := 0; idtr_offset := 0 |}; page_freelist := 0; current_process := 0;
     switching_enabled := 0 |}.

(** A fresh kernel heap: the header 29 at its start, zeros elsewhere. *)
Definition fresh_machine : machine :=
  boot_machine (fun a => if a =? 268435455 then 29 else 0) 0.

Lemma fresh_machine_heap : kernel_heap_at fresh_machine [Block 29 false].
Proof.
  split; [|by cbn; split; [apply Z.divide_0_r|]]. split; [by vm_compute|].
  split; [by repeat constructor; cbn; lia|]. split; [by apply kernel_in_win|by vm_compute].
Qed.

Lemma init_exceptions_gates_witness :
  exists m1 m2, init_idt fresh_machine = Ok m1 /\
    init_exceptions (fun _ => 3222274048) m1 = Ok m2 /\
    let table := KERNEL_BASE + 268435456 + 0 in
    (4096 | table) /\ idt m2 = table /\
    idtr m1 = {| idtr_size := 8 * IDT_LIMIT - 1; idtr_offset := table |} /\
    kernel_heap_at m2 (Block 12 true :: frees 12 29) /\
    (forall pos h, (pos, h) ∈ exception_table -> gate_at m2 pos = interrupt_gate 3222274048) /\
    (forall pos, 0 <= pos < 256 -> pos ∉ exception_table.*1 ->
       gate_at m2 pos = decode_gate (vld 8 (view fresh_machine) (table + 8 * pos))) /\
    (forall x, kernel_window x -> x ∉ headers (start kernel_heap) (Block 12 true :: frees 12 29) ->
       x < table \/ table + 2048 <= x -> view m2 x = view fresh_machine x).
Proof.
  apply (init_exceptions_gates (fun _ => 3222274048) fresh_machine [Block 29 false] 0).
  - lia.
  - apply fresh_machine_heap.
  - by split; vm_compute.
  - reflexivity.
Defined.
