(* ===== verification/Paging.v ===== *)
(** * arch/x86/mm/paging.c: page directories and the frame list

    Directory and table entries are records with the widths of the packed
    structures of paging.h.  The frames for users are the physical memory from
    [PAGE_OFFSET] on; a free frame holds the address of the next one, and the
    list is kept in the virtual addresses the kernel's own directory gives the
    frames, so that it is only usable while that directory is in force.  The
    address of the array [kernel_memory] is given by the linker. *)

From S2P Require Export Interrupts.

#[local] Open Scope Z_scope.

Definition PAGE_SIZE_4K : Z := 4096.
Definition PAGE_LENGTH_4M : Z := 1024.
Definition PAGE_OFFSET : Z := 1073741824.

(** A field of a word. *)
Definition field (w off width : Z) : Z := Z.land (Z.shiftr w off) (Z.ones width).

(** Page directory entry for 4 MiB *)
Record pde_4mib := {
  m_present : Z; m_rw : Z; m_us : Z; m_pwt : Z; m_pcd : Z; m_a : Z; m_d : Z; m_ps : Z; m_g : Z;
  m_ignored : Z; m_pat : Z; m_highaddr : Z; m_lowaddr : Z }.

Definition encode_pde_4mib (e : pde_4mib) : Z :=
  pack [(1, m_present e); (1, m_rw e); (1, m_us e); (1, m_pwt e); (1, m_pcd e); (1, m_a e);
        (1, m_d e); (1, m_ps e); (1, m_g e); (3, m_ignored e); (1, m_pat e); (9, m_highaddr e);
        (10, m_lowaddr e)].

(** Page directory entry for a table of 4 KiB pages *)
Record pde_4kib := {
  d_present : Z; d_rw : Z; d_us : Z; d_pwt : Z; d_pcd : Z; d_a : Z; d_ignored : Z; d_ps : Z;
  d_ignored2 : Z; d_addr : Z }.

Definition encode_pde_4kib (e : pde_4kib) : Z :=
  pack [(1, d_present e); (1, d_rw e); (1, d_us e); (1, d_pwt e); (1, d_pcd e); (1, d_a e);
        (1, d_ignored e); (1, d_ps e); (4, d_ignored2 e); (20, d_addr e)].
Definition decode_pde_4kib (w : Z) : pde_4kib :=
  {| d_present := field w 0 1; d_rw := field w 1 1; d_us := field w 2 1; d_pwt := field w 3 1;
     d_pcd := field w 4 1; d_a := field w 5 1; d_ignored := field w 6 1; d_ps := field w 7 1;
     d_ignored2 := field w 8 4; d_addr := field w 12 20 |}.

(** Page table entry *)
Record pte_4kib := {
  t_present : Z; t_rw : Z; t_us : Z; t_pwt : Z; t_pcd : Z; t_a : Z; t_d : Z; t_pat : Z; t_g : Z;
  t_ignored : Z; t_addr : Z }.

Definition encode_pte_4kib (e : pte_4kib) : Z :=
  pack [(1, t_present e); (1, t_rw e); (1, t_us e); (1, t_pwt e); (1, t_pcd e); (1, t_a e);
        (1, t_d e); (1, t_pat e); (1, t_g e); (3, t_ignored e); (20, t_addr e)].
Definition decode_pte_4kib (w : Z) : pte_4kib :=
  {| t_present := field w 0 1; t_rw := field w 1 1; t_us := field w 2 1; t_pwt := field w 3 1;
     t_pcd := field w 4 1; t_a := field w 5 1; t_d := field w 6 1; t_pat := field w 7 1;
     t_g := field w 8 1; t_ignored := field w 9 3; t_addr := field w 12 20 |}.

Definition empty_4mib : pde_4mib :=
  {| m_present := 0; m_rw := 0; m_us := 0; m_pwt := 0; m_pcd := 0; m_a := 0; m_d := 0; m_ps := 0;
     m_g := 0; m_ignored := 0; m_pat := 0; m_highaddr := 0; m_lowaddr := 0 |}.
(** Entry [i] of the user part of [kernel_memory]. *)
Definition shifted_4mib (i : Z) : pde_4mib :=
  {| m_present := 1; m_rw := 1; m_us := 0; m_pwt := 0; m_pcd := 0; m_a := 0; m_d := 0; m_ps := 1;
     m_g := 0; m_ignored := 0; m_pat := 0; m_highaddr := 0;
     m_lowaddr := i + PAGE_LENGTH_4M / 4 |}.
(** Entry [i] of its kernel part. *)
Definition low_4mib (i : Z) : pde_4mib :=
  {| m_present := 1; m_rw := 1; m_us := 0; m_pwt := 0; m_pcd := 0; m_a := 0; m_d := 0; m_ps := 1;
     m_g := 1; m_ignored := 0; m_pat := 0; m_highaddr := 0; m_lowaddr := i |}.

Definition user_pde (table : Z) : pde_4kib :=
  {| d_present := 1; d_rw := 1; d_us := 1; d_pwt := 0; d_pcd := 0; d_a := 0; d_ignored := 0;
     d_ps := 0; d_ignored2 := 0; d_addr := Z.shiftr (u32 (table - KERNEL_BASE)) 12 |}.
Definition user_pte (page : Z) : pte_4kib :=
  {| t_present := 1; t_rw := 1; t_us := 1; t_pwt := 0; t_pcd := 0; t_a := 0; t_d := 0;
     t_pat := 0; t_g := 0; t_ignored := 0; t_addr := Z.shiftr page 12 |}.
Definition empty_pte : pte_4kib :=
  {| t_present := 0; t_rw := 0; t_us := 0; t_pwt := 0; t_pcd := 0; t_a := 0; t_d := 0;
     t_pat := 0; t_g := 0; t_ignored := 0; t_addr := 0 |}.

(** paging.s: the directory is put in force (CR4 and CR0 already allow it). *)
Definition enable_paging (page_dir : Z) (m : machine) : machine := set_cr3 (u32 page_dir) m.

(** Setup freelist stack below high memory: one iteration. *)
Definition freelist_body : Z * machine -> res (Z * machine + machine) :=
  fun '(i, m) =>
    if i <? KERNEL_BASE then
      let m := set_freelist i m in
      m ← st32 m (page_freelist m) (u32 (i + PAGE_SIZE_4K));
      mret (inl (u32 (i + PAGE_SIZE_4K), m))
    else mret (inr m).

Section Paging.
Context (kernel_memory : Z) (addr_of : handler -> Z).

Definition entry_addr (i : Z) : Z := u32 (kernel_memory + 4 * i).

(** Initialize 32 bit paging *)
Definition init_paging (m : machine) : res machine :=
  (* Zero out the page directory for the time being *)
  m ← for_loop 0 PAGE_LENGTH_4M
        (fun i m => st32 m (entry_addr i) (encode_pde_4mib empty_4mib)) m;
  (* Shift actually useable physical memory back to fill the hole of the kernel *)
  m ← for_loop 0 (3 * PAGE_LENGTH_4M / 4)
        (fun i m => st32 m (entry_addr i) (encode_pde_4mib (shifted_4mib i))) m;
  (* Swap low and high memory for the kernel addr *)
  m ← for_loop 0 (PAGE_LENGTH_4M / 4)
        (fun i m => st32 m (entry_addr (i + 3 * PAGE_LENGTH_4M / 4))
                      (encode_pde_4mib (low_4mib i))) m;
  (* Setup page faults *)
  m ← set_id m 14 (addr_of pagefault_handler_wrapper) 8 IDT_PROT_INTR 0 1;
  (* Enable paging *)
  let m := enable_paging (u32 (kernel_memory - KERNEL_BASE)) m in
  (* Setup freelist stack below high memory *)
  m ← loop freelist_body (0, m);
  mret (set_freelist 0 m).
End Paging.

(** Page fault handler *)
Definition pagefault_handler (seg_regs : seg_register_set) (gen_regs : gen_register_set)
    (eid : Z) (frame : interrupt_frame) (m : machine) : res machine := kernel_panic m.

(** The part of allocate_page after the page table is found: pop a frame and
    enter it, unless the entry is taken. *)
Definition set_page (page_table table_index : Z) (m : machine) : res machine :=
  let slot := u32 (page_table + 4 * table_index) in
  (* Check if page already exists *)
  w ← ld32 m slot;
  if negb (t_present (decode_pte_4kib w) =? 0) then mret m
  else
    (* Get available page physical addr *)
    let available_page := u32 (page_freelist m + PAGE_OFFSET) in
    (* Pop stack *)
    next ← ld32 m (page_freelist m);
    let m := set_freelist next m in
    (* Set page *)
    st32 m slot (encode_pte_4kib (user_pte available_page)).

(** Allocate a page *)
Definition allocate_page (page_dir addr : Z) (m : machine) : res machine :=
  (* Deny allocation into kernel space *)
  if (KERNEL_BASE <=? page_freelist m) || (KERNEL_BASE <=? addr) then mret m
  else
    let dir_index := Z.shiftr addr 22 in
    let table_index := Z.land (Z.shiftr addr 12) 1023 in
    let entry := u32 (page_dir + 4 * dir_index) in
    w ← ld32 m entry;
    let d := decode_pde_4kib w in
    (* Check if the table exists, if not, make one *)
    if negb (d_present d =? 0) then
      if negb (d_ps d =? 0) then mret m
      else
        table ← shl_int (d_addr d) 12;
        set_page (u32 (table + KERNEL_BASE)) table_index m
    else
      '(m, page_table) ← kernel_allocate m (4 * 1024);
      m ← st32 m entry (encode_pde_4kib (user_pde page_table));
      set_page page_table table_index m.

(** Free a page *)
Definition free_page (page_dir addr : Z) (m : machine) : res machine :=
  let dir_index := Z.shiftr addr 22 in
  let table_index := Z.land (Z.shiftr addr 12) 1023 in
  w ← ld32 m (u32 (page_dir + 4 * dir_index));
  let d := decode_pde_4kib w in
  (* Check if the table exists *)
  if negb (d_present d =? 0) then
    table ← shl_int (d_addr d) 12;
    let page_table := u32 (table - KERNEL_BASE) in
    let slot := u32 (page_table + 4 * table_index) in
    (* Check if the page exists *)
    w ← ld32 m slot;
    let t := decode_pte_4kib w in
    if negb (t_present t =? 0) then
      (* Push page back on stack *)
      frame ← shl_int (t_addr t) 12;
      let freed_page := u32 (frame - PAGE_OFFSET) in
      m ← st32 m freed_page (page_freelist m);
      let m := set_freelist freed_page m in
      (* Erase the page from the table *)
      st32 m slot (encode_pte_4kib empty_pte)
    else mret m
  else mret m.

(** ** Entries as words *)

Lemma field_mod w off width :
  0 <= off -> 0 <= width -> field w off width = w / 2 ^ off mod 2 ^ width.
Proof. intros. unfold field. by rewrite Z.land_ones, Z.shiftr_div_pow2. Qed.

(** The record of a word is the record that was packed in it, and back. *)
Definition fits_pde (e : pde_4kib) : Prop :=
  0 <= d_present e < 2 /\ 0 <= d_rw e < 2 /\ 0 <= d_us e < 2 /\ 0 <= d_pwt e < 2 /\
  0 <= d_pcd e < 2 /\ 0 <= d_a e < 2 /\ 0 <= d_ignored e < 2 /\ 0 <= d_ps e < 2 /\
  0 <= d_ignored2 e < 16 /\ 0 <= d_addr e < 2 ^ 20.
Definition fits_pte (e : pte_4kib) : Prop :=
  0 <= t_present e < 2 /\ 0 <= t_rw e < 2 /\ 0 <= t_us e < 2 /\ 0 <= t_pwt e < 2 /\
  0 <= t_pcd e < 2 /\ 0 <= t_a e < 2 /\ 0 <= t_d e < 2 /\ 0 <= t_pat e < 2 /\ 0 <= t_g e < 2 /\
  0 <= t_ignored e < 8 /\ 0 <= t_addr e < 2 ^ 20.

Lemma encode_pde_sum e :
  encode_pde_4kib e = d_present e mod 2 + 2 * (d_rw e mod 2 + 2 * (d_us e mod 2 + 2 * (d_pwt e mod 2
    + 2 * (d_pcd e mod 2 + 2 * (d_a e mod 2 + 2 * (d_ignored e mod 2 + 2 * (d_ps e mod 2 + 2 *
    (d_ignored2 e mod 16 + 16 * (d_addr e mod 2 ^ 20))))))))).
Proof. unfold encode_pde_4kib. rewrite !pack_cons by lia. cbn [pack]. lia. Qed.

Lemma encode_pte_sum e :
  encode_pte_4kib e = t_present e mod 2 + 2 * (t_rw e mod 2 + 2 * (t_us e mod 2 + 2 * (t_pwt e mod 2
    + 2 * (t_pcd e mod 2 + 2 * (t_a e mod 2 + 2 * (t_d e mod 2 + 2 * (t_pat e mod 2 + 2 *
    (t_g e mod 2 + 2 * (t_ignored e mod 8 + 8 * (t_addr e mod 2 ^ 20)))))))))).
Proof. unfold encode_pte_4kib. rewrite !pack_cons by lia. cbn [pack]. lia. Qed.

Lemma encode_shifted i : 0 <= i < 768 -> encode_pde_4mib (shifted_4mib i) = 131 + 2 ^ 22 * (i + 256).
Proof.
  intros. unfold encode_pde_4mib, shifted_4mib. rewrite !pack_cons by lia.
  cbn [pack m_present m_rw m_us m_pwt m_pcd m_a m_d m_ps m_g m_ignored m_pat m_highaddr m_lowaddr].
  change (PAGE_LENGTH_4M / 4) with 256. lia.
Qed.

Lemma encode_low i : 0 <= i < 256 -> encode_pde_4mib (low_4mib i) = 387 + 2 ^ 22 * i.
Proof.
  intros. unfold encode_pde_4mib, low_4mib. rewrite !pack_cons by lia.
  cbn [pack m_present m_rw m_us m_pwt m_pcd m_a m_d m_ps m_g m_ignored m_pat m_highaddr m_lowaddr].
  lia.
Qed.

Lemma encode_user_pde table :
  KERNEL_BASE <= table < 2 ^ 32 -> (4096 | table) ->
  encode_pde_4kib (user_pde table) = table - KERNEL_BASE + 7.
Proof.
  intros Ht [k Hk]. unfold KERNEL_BASE in *. rewrite encode_pde_sum. unfold user_pde, KERNEL_BASE.
  cbn [d_present d_rw d_us d_pwt d_pcd d_a d_ignored d_ps d_ignored2 d_addr].
  rewrite u32_small, Z.shiftr_div_pow2 by lia. lia.
Qed.

Lemma encode_user_pte page :
  0 <= page < 2 ^ 32 -> (4096 | page) -> encode_pte_4kib (user_pte page) = page + 7.
Proof.
  intros Ht [k Hk]. rewrite encode_pte_sum. unfold user_pte.
  cbn [t_present t_rw t_us t_pwt t_pcd t_a t_d t_pat t_g t_ignored t_addr].
  rewrite Z.shiftr_div_pow2 by lia. lia.
Qed.

(** ** The page walk *)

Lemma walk_4mib f dir va w :
  0 <= dir < 2 ^ 32 -> (4096 | dir) -> 0 <= va < 2 ^ 32 ->
  pread32 f (dir + 4 * (va / 2 ^ 22)) = w -> w mod 2 = 1 -> w / 128 mod 2 = 1 ->
  walk f dir va = Some (w / 2 ^ 22 * 2 ^ 22 + va mod 2 ^ 22).
Proof.
  intros Hd [k Hk] Hva Hw H0 H7. unfold walk. rewrite page_mask by done.
  replace (dir / 4096 * 4096) with dir by lia. rewrite (Z.shiftr_div_pow2 va) by lia.
  rewrite Hw, !Z.testbit_eqb by lia.
  replace (w / 2 ^ 0) with w by (by rewrite Z.pow_0_r, Z.div_1_r). rewrite H0.
  change (2 ^ 7) with 128. rewrite H7. cbn [Z.eqb Pos.eqb negb].
  rewrite Z.shiftl_mul_pow2, Z.shiftr_div_pow2 by lia. change 4194303 with (Z.ones 22).
  by rewrite Z.land_ones by lia.
Qed.

Lemma walk_4kib f dir va w x :
  0 <= dir < 2 ^ 32 -> (4096 | dir) -> 0 <= va < 2 ^ 32 ->
  pread32 f (dir + 4 * (va / 2 ^ 22)) = w -> w mod 2 = 1 -> w / 128 mod 2 = 0 ->
  pread32 f (w / 4096 * 4096 + 4 * (va / 4096 mod 1024)) = x ->
  walk f dir va = if x mod 2 =? 1 then Some (x / 4096 * 4096 + va mod 4096) else None.
Proof.
  intros Hd [k Hk] Hva Hw H0 H7 Hx. unfold walk. rewrite page_mask by done.
  replace (dir / 4096 * 4096) with dir by lia. rewrite (Z.shiftr_div_pow2 va 22) by lia.
  rewrite Hw, !Z.testbit_eqb by lia.
  replace (w / 2 ^ 0) with w by (by rewrite Z.pow_0_r, Z.div_1_r). rewrite H0.
  change (2 ^ 7) with 128. rewrite H7. cbn [Z.eqb Pos.eqb negb].
  rewrite !Z.shiftl_mul_pow2, !Z.shiftr_div_pow2 by lia. change 1023 with (Z.ones 10).
  rewrite Z.land_ones by lia. change (2 ^ 12) with 4096. change (2 ^ 10) with 1024.
  rewrite Hx. replace (x / 2 ^ 0) with x by (by rewrite Z.pow_0_r, Z.div_1_r).
  change 4095 with (Z.ones 12). rewrite Z.land_ones by lia.
  by destruct (x mod 2 =? 1).
Qed.

Lemma walk_absent f dir va w :
  0 <= dir < 2 ^ 32 -> (4096 | dir) -> 0 <= va < 2 ^ 32 ->
  pread32 f (dir + 4 * (va / 2 ^ 22)) = w -> w mod 2 = 0 -> walk f dir va = None.
Proof.
  intros Hd [k Hk] Hva Hw H0. unfold walk. rewrite page_mask by done.
  replace (dir / 4096 * 4096) with dir by lia. rewrite (Z.shiftr_div_pow2 va 22) by lia.
  rewrite Hw, Z.testbit_eqb by lia.
  replace (w / 2 ^ 0) with w by (by rewrite Z.pow_0_r, Z.div_1_r). by rewrite H0.
Qed.
