(* ===== verification/PagingLemmas.v ===== *)
(** * The address spaces of the kernel

    What directories map ([shifted_map], [kernel_part]), loads and stores through
    the kernel's own directory, and the list of free frames. *)

From S2P Require Export Paging InterruptProps.

#[local] Open Scope Z_scope.

(** The user part of the kernel's own directory: 3 GiB mapped one GiB up. *)
Definition shifted_map (f : Z -> Z) (dir : Z) : Prop :=
  0 <= dir /\ dir + 4096 <= PAGE_OFFSET /\ (4096 | dir) /\
  forall i, 0 <= i < 768 -> pread32 f (dir + 4 * i) = 131 + 2 ^ 22 * (i + 256).

(** The kernel part of every directory. *)
Definition kernel_part (f : Z -> Z) (dir : Z) : Prop :=
  0 <= dir < 2 ^ 32 /\ (4096 | dir) /\
  forall i, 0 <= i < 256 -> pread32 f (dir + 4 * (i + 768)) = 387 + 2 ^ 22 * i.

Lemma pread32_ext f f' a :
  (forall b, a <= b < a + 4 -> f b = f' b) -> pread32 f a = pread32 f' a.
Proof. intros H. apply vld_ext. intros b Hb. by rewrite H by lia. Qed.

Lemma pread32_range f a : 0 <= pread32 f a < 2 ^ 32.
Proof. apply (vld_range 4). intros. apply u8_range. Qed.

Lemma shifted_walk f dir va :
  shifted_map f dir -> 0 <= va < KERNEL_BASE -> walk f dir va = Some (va + PAGE_OFFSET).
Proof.
  unfold KERNEL_BASE, PAGE_OFFSET. intros (H0 & H1 & Hd & He) Hva. unfold PAGE_OFFSET in H1.
  rewrite (walk_4mib f dir va (131 + 2 ^ 22 * (va / 2 ^ 22 + 256))); [f_equal|..];
    try done; try lia.
  apply He. lia.
Qed.

(** Entries 768 to 1023 map the kernel window as [translate] does. *)
Lemma kernel_window_walk f dir va :
  kernel_part f dir -> kernel_window va -> walk f dir va = Some (va - KERNEL_BASE).
Proof.
  unfold kernel_window, KERNEL_BASE. intros (H0 & Hd & He) Hva.
  rewrite (walk_4mib f dir va (387 + 2 ^ 22 * (va / 2 ^ 22 - 768))); [f_equal|..];
    try done; try lia.
  rewrite <- He by lia. f_equal. lia.
Qed.

Lemma shifted_map_ext f f' dir :
  (forall b, dir <= b < dir + 4096 -> f' b = f b) -> shifted_map f dir -> shifted_map f' dir.
Proof.
  intros H (? & ? & ? & He). split; [done|]. split; [done|]. split; [done|].
  intros i Hi. rewrite <- He by done. apply pread32_ext. intros. apply H. lia.
Qed.

Lemma kernel_part_ext f f' dir :
  (forall b, dir <= b < dir + 4096 -> f' b = f b) -> kernel_part f dir -> kernel_part f' dir.
Proof.
  intros H (? & ? & He). split; [done|]. split; [done|].
  intros i Hi. rewrite <- He by done. apply pread32_ext. intros. apply H. lia.
Qed.

(** ** Accesses to user addresses through the kernel's directory *)

Definition in_kernel (m : machine) : Prop := shifted_map (phys m) (cr3 m).

Lemma translate_user m va :
  in_kernel m -> 0 <= va < KERNEL_BASE -> translate m va = Some (va + PAGE_OFFSET).
Proof. intros Hk Hva. unfold translate. zbool. by apply shifted_walk. Qed.

Lemma ld_user n m a :
  in_kernel m -> 0 <= a -> a + Z.of_nat n <= KERNEL_BASE ->
  ldn n m a = Ok (vld n (fun b => u8 (phys m b)) (a + PAGE_OFFSET)).
Proof.
  intros Hk. revert a; induction n as [|n IH]; intros a H0 H1; [done|]. cbn [ldn vld].
  unfold rd8. cbn [machine_store]. rewrite translate_user by (done || lia). bnd.
  unfold KERNEL_BASE in H1. rewrite u32_small by lia.
  rewrite IH by (unfold KERNEL_BASE; lia). bnd. do 4 f_equal. lia.
Qed.

Lemma in_kernel_high m m' :
  in_kernel m -> cr3 m' = cr3 m -> (forall b, b < PAGE_OFFSET -> phys m' b = phys m b) ->
  in_kernel m'.
Proof.
  unfold in_kernel. intros Hk -> Hf. eapply shifted_map_ext; [|exact Hk].
  destruct Hk as (? & ? & _). intros. apply Hf. lia.
Qed.

Lemma st_user n m a v :
  in_kernel m -> 0 <= a -> a + Z.of_nat n <= KERNEL_BASE ->
  exists m', stn n m a v = Ok m' /\ m' = set_phys (phys m') m /\
    forall b, phys m' b = vst n (phys m) (a + PAGE_OFFSET) v b.
Proof.
  revert m a v; induction n as [|n IH]; intros m a v Hk H0 H1.
  { exists m. split; [done|]. split; [by rewrite set_phys_id|]. intros b. by rewrite vst_out by lia. }
  cbn [stn]. unfold wr8. cbn [machine_store]. rewrite translate_user by (done || lia). bnd.
  set (m1 := set_phys (pset (phys m) (a + PAGE_OFFSET) (u8 v)) m).
  assert (forall b, phys m1 b = if decide (b = a + PAGE_OFFSET) then u8 v else phys m b) as Hm1.
  { intros b. cbn. unfold pset. destruct (Z.eqb_spec b (a + PAGE_OFFSET)); by case_decide. }
  assert (u32 (a + 1) = a + 1) as -> by (apply u32_small; unfold KERNEL_BASE in H1; lia).
  destruct (IH m1 (a + 1) (v / 256)) as (m' & -> & Ho & Hv); [|lia|lia|].
  { apply (in_kernel_high m); [done|done|]. intros b Hb. rewrite Hm1.
    by rewrite decide_False by lia. }
  exists m'. split; [done|]. split; [by rewrite Ho|]. intros b. rewrite Hv. unfold vst.
  rewrite Hm1. repeat case_decide; try lia; try done.
  - rewrite Z.div_div by lia.
    replace (256 * 2 ^ (8 * (b - (a + 1 + PAGE_OFFSET)))) with (2 ^ (8 * (b - (a + PAGE_OFFSET))));
      [done|].
    change 256 with (2 ^ 8). rewrite <- Z.pow_add_r by lia. f_equal. lia.
  - replace (b - (a + PAGE_OFFSET)) with 0 by lia. cbn. by rewrite Z.div_1_r.
Qed.

(** ** The list of free frames *)

(** The frames on the list that starts with [p]: page addresses below the kernel
    window, each holding the next; an address in the window ends it. *)
Fixpoint chain (f : Z -> Z) (p : Z) (l : list Z) : Prop :=
  match l with
  | [] => KERNEL_BASE <= p < 2 ^ 32
  | a :: l =>
      p = a /\ 0 <= a /\ a + 4096 <= KERNEL_BASE /\ (4096 | a) /\
      chain f (pread32 f (a + PAGE_OFFSET)) l
  end.

Definition free_frames (m : machine) (l : list Z) : Prop :=
  chain (phys m) (page_freelist m) l /\ NoDup l.

Lemma chain_ext f f' p l :
  (forall b, PAGE_OFFSET <= b -> f' b = f b) -> chain f p l -> chain f' p l.
Proof.
  intros H. revert p; induction l as [|a l IH]; intros p; cbn [chain]; [done|].
  intros (-> & H0 & H1 & Hd & Hc). split; [done|]. split; [done|]. split; [done|]. split; [done|].
  rewrite (pread32_ext f' f) by (intros; apply H; lia). by apply IH.
Qed.

(** The frames from number [k] on, [n] of them. *)
Definition frames (k n : Z) : list Z := Z.mul 4096 <$> seqZ k n.

Lemma frames_nodup k n : NoDup (frames k n).
Proof. apply NoDup_fmap_2; [intros x y; lia|apply NoDup_seqZ]. Qed.

Lemma chain_frames f n k :
  0 <= k -> k + Z.of_nat n = 786432 ->
  (forall i, k <= i < 786432 -> pread32 f (4096 * i + PAGE_OFFSET) = 4096 * (i + 1)) ->
  chain f (4096 * k) (frames k (Z.of_nat n)).
Proof.
  revert k; induction n as [|n IH]; intros k Hk Hn Hf.
  - change (frames k (Z.of_nat 0)) with (@nil Z). cbn [chain]. unfold KERNEL_BASE. lia.
  - unfold frames. rewrite seqZ_cons by lia. cbn [fmap list_fmap chain].
    unfold KERNEL_BASE. split; [done|]. split; [lia|]. split; [lia|]. split; [by exists k; lia|].
    rewrite Hf by lia. replace (Z.pred (Z.of_nat (S n))) with (Z.of_nat n) by lia.
    apply (IH (Z.succ k)); [lia|lia|]. intros. apply Hf. lia.
Qed.

Lemma chain_all_frames f n :
  n = 786432 -> (forall i, 0 <= i < 786432 -> pread32 f (4096 * i + PAGE_OFFSET) = 4096 * (i + 1)) ->
  chain f 0 (frames 0 n).
Proof.
  intros Hn Hf. rewrite <- (Z2Nat.id n) by lia.
  apply (chain_frames f (Z.to_nat n) 0); [lia|rewrite Z2Nat.id; lia|done].
Qed.
