(* ===== verification/InitPaging.v ===== *)
(** * init_paging: the kernel directory and the list of all frames *)

From S2P Require Export PagingLemmas.

#[local] Open Scope Z_scope.

Lemma pread32_vst_same f f' a v :
  (forall b, f' b = vst 4 f a v b) -> pread32 f' a = u32 v.
Proof.
  intros H. unfold pread32. erewrite vld_ext; [apply (vld_vst_same 4 f a v)|].
  intros b Hb. rewrite H. unfold vst. rewrite decide_True by lia. apply u8_small.
  apply Z.mod_pos_bound. lia.
Qed.

Lemma pread32_vst_other f f' a v b :
  (forall b, f' b = vst 4 f a v b) -> b + 4 <= a \/ a + 4 <= b -> pread32 f' b = pread32 f b.
Proof.
  intros H Hb. apply pread32_ext. intros c Hc. rewrite H. by rewrite vst_out by lia.
Qed.

(** Linking the frames. *)
Lemma freelist_loop m :
  in_kernel m ->
  exists m', loop freelist_body (0, m) = Ok m' /\
    m' = set_phys (phys m') (set_freelist (page_freelist m') m) /\
    (forall b, b < PAGE_OFFSET -> phys m' b = phys m b) /\
    forall i, 0 <= i < 786432 -> pread32 (phys m') (4096 * i + PAGE_OFFSET) = 4096 * (i + 1).
Proof.
  intros Hk.
  apply (loop_total _ (fun '(i, t) => exists k, i = 4096 * k /\ 0 <= k <= 786432 /\
      t = set_phys (phys t) (set_freelist (page_freelist t) m) /\
      (forall b, b < PAGE_OFFSET -> phys t b = phys m b) /\
      forall j, 0 <= j < k -> pread32 (phys t) (4096 * j + PAGE_OFFSET) = 4096 * (j + 1))
    (fun '(i, _) => 3221225472 - i)).
  - exists 0. split; [done|]. split; [lia|]. split; [by destruct m|]. split; [done|lia].
  - rewrite budget_eq. lia.
  - intros [i t] (k & -> & Hk0 & Et & Hlow & Hlink). split; [lia|]. cbn [freelist_body].
    unfold PAGE_SIZE_4K. destruct (Z.ltb_spec (4096 * k) KERNEL_BASE) as [Hlt|Hge];
      unfold KERNEL_BASE in *.
    + rewrite u32_small by lia. set (t1 := set_freelist (4096 * k) t).
      destruct (st_user 4 t1 (4096 * k) (4096 * k + 4096)) as (t' & E & Eo & Hv);
        [|lia|unfold KERNEL_BASE; lia|].
      { apply (in_kernel_high m); [done| |done]. unfold t1. by rewrite Et. }
      change (page_freelist t1) with (4096 * k). rewrite E. bnd.
      eexists; split; [done|]. cbn beta iota. split; [|lia]. exists (k + 1). split; [lia|]. split; [lia|].
      assert (forall b, phys t' b = vst 4 (phys t) (4096 * k + PAGE_OFFSET) (4096 * k + 4096) b)
        as Hv' by exact Hv.
      split; [|split].
      * rewrite Eo. unfold t1. rewrite Et. done.
      * intros b Hb. rewrite Hv'. rewrite vst_out by lia. by apply Hlow.
      * intros j Hj. destruct (decide (j = k)) as [->|Hne].
        -- rewrite (pread32_vst_same _ _ _ _ Hv'), u32_small by lia. lia.
        -- rewrite (pread32_vst_other _ _ _ _ _ Hv') by lia. apply Hlink. lia.
    + assert (k = 786432) as -> by lia. eexists; split; [done|]. by split.
Qed.

Section InitPaging.
Context (kernel_memory : Z) (addr_of : handler -> Z).
Context (Hmem : KERNEL_BASE <= kernel_memory) (Htop : kernel_memory + 4096 <= start kernel_heap)
  (Hal : (4096 | kernel_memory)).

Lemma entry_addr_ok i : 0 <= i < 1024 -> entry_addr kernel_memory i = kernel_memory + 4 * i.
Proof.
  change (start kernel_heap) with 3489660927 in Htop. intros. unfold entry_addr, KERNEL_BASE in *.
  apply u32_small. lia.
Qed.

(** The three loops over the directory. *)
Lemma fill_directory m :
  exists ma mb m1,
    for_loop 0 PAGE_LENGTH_4M
        (fun i m => st32 m (entry_addr kernel_memory i) (encode_pde_4mib empty_4mib)) m = Ok ma /\
    for_loop 0 (3 * PAGE_LENGTH_4M / 4)
        (fun i m => st32 m (entry_addr kernel_memory i) (encode_pde_4mib (shifted_4mib i))) ma
      = Ok mb /\
    for_loop 0 (PAGE_LENGTH_4M / 4)
        (fun i m => st32 m (entry_addr kernel_memory (i + 3 * PAGE_LENGTH_4M / 4))
                      (encode_pde_4mib (low_4mib i))) mb = Ok m1 /\
    same_outside m m1 /\ shifted_map (phys m1) (kernel_memory - KERNEL_BASE) /\
    kernel_part (phys m1) (kernel_memory - KERNEL_BASE) /\
    (forall a, kernel_window a -> a < kernel_memory \/ kernel_memory + 4096 <= a ->
       view m1 a = view m a).
Proof.
  change (3 * PAGE_LENGTH_4M / 4) with 768. change (PAGE_LENGTH_4M / 4) with 256.
  change PAGE_LENGTH_4M with 1024.
  change (start kernel_heap) with 3489660927 in Htop.
  assert (forall i, (i + 3 * 1024 / 4) = i + 768) as Hi by lia.
  destruct (fill_words (win := kernel_window) m kernel_memory 1024 (entry_addr kernel_memory)
    (fun _ => encode_pde_4mib empty_4mib)) as (m1 & E1 & O1 & _ & F1);
    [lia|apply kernel_in_win; lia|apply entry_addr_ok|].
  destruct (fill_words (win := kernel_window) m1 kernel_memory 768 (entry_addr kernel_memory)
    (fun i => encode_pde_4mib (shifted_4mib i))) as (m2 & E2 & O2 & W2 & F2);
    [lia|apply kernel_in_win; lia|intros; apply entry_addr_ok; lia|].
  destruct (fill_words (win := kernel_window) m2 (kernel_memory + 3072) 256
    (fun i => entry_addr kernel_memory (i + 3 * 1024 / 4))
    (fun i => encode_pde_4mib (low_4mib i))) as (m3 & E3 & O3 & W3 & F3);
    [lia|apply kernel_in_win; lia| |].
  { intros i Hlt. rewrite Hi, entry_addr_ok by lia. lia. }
  unfold KERNEL_BASE, PAGE_OFFSET in *.
  exists m1, m2, m3. split; [exact E1|]. split; [exact E2|]. split; [exact E3|].
  split; [|split; [|split]].
  - apply (same_outside_trans m m1); [done|]. by apply (same_outside_trans m1 m2).
  - split; [lia|]. split; [unfold PAGE_OFFSET; lia|].
    split; [apply Z.divide_sub_r; [done|by exists 786432]|].
    intros i Hlt. replace (kernel_memory - 3221225472 + 4 * i)
      with (kernel_memory + 4 * i - KERNEL_BASE) by (unfold KERNEL_BASE; lia).
    rewrite <- view_pread32.
    erewrite vld_ext; [rewrite W2 by done|intros; apply F3; [unfold kernel_window, KERNEL_BASE|]; lia].
    rewrite encode_shifted by done. apply u32_small. lia.
  - split; [lia|]. split; [apply Z.divide_sub_r; [done|by exists 786432]|].
    intros i Hlt. replace (kernel_memory - 3221225472 + 4 * (i + 768))
      with (kernel_memory + 3072 + 4 * i - KERNEL_BASE) by (unfold KERNEL_BASE; lia).
    rewrite <- view_pread32, W3, encode_low by done. apply u32_small. lia.
  - intros a Ha Hout. rewrite F3, F2, F1 by (done || lia). done.
Qed.

Lemma init_paging_win m :
  (forall h, 0 <= addr_of h < 2 ^ 32) -> KERNEL_BASE <= idt m -> idt m + 2048 <= 4294967296 ->
  idt m + 2048 <= kernel_memory \/ kernel_memory + 4096 <= idt m ->
  exists m', init_paging kernel_memory addr_of m = Ok m' /\
    m' = set_phys (phys m') (set_cr3 (kernel_memory - KERNEL_BASE) (set_freelist 0 m)) /\
    in_kernel m' /\ kernel_part (phys m') (cr3 m') /\ free_frames m' (frames 0 786432) /\
    gate_at m' 14 = interrupt_gate (addr_of pagefault_handler_wrapper) /\
    (forall pos, 0 <= pos < 256 -> pos <> 14 -> gate_at m' pos = gate_at m pos) /\
    (forall a, kernel_window a -> a < kernel_memory \/ kernel_memory + 4096 <= a ->
       a < idt m \/ idt m + 2048 <= a -> view m' a = view m a).
Proof.
  intros Hh Hi0 Hi1 Hdis.
  destruct (fill_directory m) as (ma & mb & m1 & Ea & Eb & E1 & O1 & S1 & K1 & F1).
  assert (idt m1 = idt m) as Ei by (destruct O1 as [_ ->]; done).
  destruct (set_id_gates m1 14 (addr_of pagefault_handler_wrapper) 8 IDT_PROT_INTR 0 1)
    as (m2 & E2 & O2 & I2 & G2 & N2 & F2); rewrite ?Ei; try done.
  change (start kernel_heap) with 3489660927 in Htop. unfold KERNEL_BASE, PAGE_OFFSET in *.
  assert (forall b, kernel_memory - 3221225472 <= b < kernel_memory - 3221225472 + 4096 ->
    u8 (phys m2 b) = u8 (phys m1 b)) as Hb.
  { intros b Hb. replace b with (b + 3221225472 - 3221225472) by lia.
    apply (F2 (b + 3221225472)); unfold kernel_window, KERNEL_BASE; rewrite ?Ei; lia. }
  assert (shifted_map (phys m2) (kernel_memory - 3221225472)) as S2.
  { destruct S1 as (? & ? & ? & He). split; [done|]. split; [done|]. split; [done|].
    intros i Hlt. rewrite <- He by done. apply vld_ext. intros b Hr. apply Hb. lia. }
  assert (kernel_part (phys m2) (kernel_memory - 3221225472)) as K2.
  { destruct K1 as (? & ? & He). split; [done|]. split; [done|].
    intros i Hlt. rewrite <- He by done. apply vld_ext. intros b Hr. apply Hb. lia. }
  set (m3 := enable_paging (u32 (kernel_memory - KERNEL_BASE)) m2).
  assert (cr3 m3 = kernel_memory - 3221225472) as C3.
  { unfold m3, KERNEL_BASE. cbn. rewrite !u32_small; [done|lia|rewrite u32_small; lia]. }
  destruct (freelist_loop m3) as (m4 & E4 & Eq4 & L4 & P4).
  { unfold in_kernel. by rewrite C3. }
  assert (cr3 m4 = kernel_memory - 3221225472) as C4 by (rewrite Eq4; exact C3).
  assert (forall b, b < 1073741824 -> phys m4 b = phys m2 b) as L by exact L4.
  assert (forall pos, 0 <= pos < 256 -> gate_at (set_freelist 0 m4) pos = gate_at m2 pos) as Hgate.
  { intros pos Hpos. unfold gate_at. cbn [idt set_freelist].
    assert (idt m4 = idt m2) as -> by (rewrite Eq4; done).
    f_equal. apply vld_ext. intros b Hr. cbn. rewrite L; [done|].
    rewrite I2, Ei in Hr. unfold KERNEL_BASE. lia. }
  exists (set_freelist 0 m4).
  split; [|split; [|split; [|split; [|split; [|split; [|split]]]]]].
  - unfold init_paging. rewrite (bind_ok _ _ _ Ea), (bind_ok _ _ _ Eb), (bind_ok _ _ _ E1),
      (bind_ok _ _ _ E2). exact (bind_ok _ _ _ E4).
  - rewrite Eq4. destruct O2 as [_ Q2], O1 as [_ Q1].
    assert (m3 = set_phys (phys m2) (set_cr3 (kernel_memory - 3221225472) m)) as ->.
    { change (u32 (u32 (kernel_memory - KERNEL_BASE)) = kernel_memory - 3221225472) in C3.
      unfold m3, enable_paging.
      rewrite C3, Q2, Q1. done. }
    done.
  - apply (shifted_map_ext (phys m2)); cbn [cr3 phys set_freelist]; rewrite C4; [|done].
    intros b Hr. apply L. lia.
  - apply (kernel_part_ext (phys m2)); cbn [cr3 phys set_freelist]; rewrite C4; [|done].
    intros b Hr. apply L. lia.
  - split; [|apply frames_nodup]. apply (chain_all_frames (phys m4) 786432); [lia|].
    intros i Hlt. apply P4. lia.
  - refine (eq_trans _ G2). by apply Hgate.
  - intros pos Hpos Hne. rewrite Hgate, N2 by done. unfold gate_at. rewrite Ei. f_equal.
    apply vld_ext. intros b Hr. apply F1; unfold kernel_window, KERNEL_BASE; lia.
  - intros a Ha Hk Hi. rewrite <- F1, <- F2 by (rewrite ?Ei; done). cbn. rewrite L; [done|].
    destruct Ha as [? ?]. unfold KERNEL_BASE in *. lia.
Qed.
End InitPaging.
