(* ===== verification/PageAlloc.v ===== *)
(** * allocate_page: lemmas

    The page walk after a store to a page table, and the three ways through
    allocate_page. *)

From S2P Require Export InitPaging.

#[local] Open Scope Z_scope.

(** A page directory in the kernel window, by its virtual address. *)
Definition is_directory (dir : Z) : Prop :=
  KERNEL_BASE <= dir /\ dir + 4096 <= KERNEL_BASE + PAGE_OFFSET /\ (4096 | dir).

(** The physical address of the page table entry [i] of a directory points to. *)
Definition user_table (m : machine) (dir i : Z) : option Z :=
  let w := vld32 (view m) (dir + 4 * i) in
  if (w mod 2 =? 1) && (w / 128 mod 2 =? 0) then Some (w / 4096 * 4096) else None.

(** What a page table entry maps an address to. *)
Definition entry_maps (x va : Z) : option Z :=
  if x mod 2 =? 1 then Some (x / 4096 * 4096 + va mod 4096) else None.

Lemma pread32_view m a : pread32 (phys m) a = vld32 (view m) (a + KERNEL_BASE).
Proof. rewrite view_pread32. f_equal. lia. Qed.

Lemma walk_user_table m dir va t :
  is_directory dir -> 0 <= va < 2 ^ 32 -> user_table m dir (va / 2 ^ 22) = Some t ->
  walk (phys m) (dir - KERNEL_BASE) va =
    entry_maps (pread32 (phys m) (t + 4 * (va / 4096 mod 1024))) va.
Proof.
  unfold is_directory, user_table, KERNEL_BASE, PAGE_OFFSET. intros (H0 & H1 & Hd) Hva.
  set (w := vld32 _ _). destruct (Z.eqb_spec (w mod 2) 1) as [Hp|]; [|done].
  destruct (Z.eqb_spec (w / 128 mod 2) 0) as [H7|]; [|done]. intros [= <-].
  erewrite (walk_4kib _ _ _ w); [done|lia| |done| |done|done|done].
  - apply Z.divide_sub_r; [done|by exists 786432].
  - rewrite pread32_view. unfold w, KERNEL_BASE. f_equal. lia.
Qed.

(** A walk depends on one directory entry and, for a page table, one entry of it. *)
Lemma walk_same m m' dir va :
  is_directory dir -> 0 <= va < 2 ^ 32 ->
  vld32 (view m') (dir + 4 * (va / 2 ^ 22)) = vld32 (view m) (dir + 4 * (va / 2 ^ 22)) ->
  (forall t, user_table m dir (va / 2 ^ 22) = Some t ->
     pread32 (phys m') (t + 4 * (va / 4096 mod 1024)) =
     pread32 (phys m) (t + 4 * (va / 4096 mod 1024))) ->
  walk (phys m') (dir - KERNEL_BASE) va = walk (phys m) (dir - KERNEL_BASE) va.
Proof.
  intros Hdir Hva He Ht.
  assert (user_table m' dir (va / 2 ^ 22) = user_table m dir (va / 2 ^ 22)) as Hu
    by (unfold user_table; by rewrite He).
  destruct (user_table m dir (va / 2 ^ 22)) as [t|] eqn:Em.
  { by rewrite !(walk_user_table _ _ _ t), Ht. }
  unfold user_table in Em. set (w := vld32 (view m) _) in *.
  destruct Hdir as (H0 & H1 & Hd). unfold KERNEL_BASE, PAGE_OFFSET in *.
  assert (0 <= dir - 3221225472 < 2 ^ 32) as H2 by lia.
  assert (4096 | dir - 3221225472) as H3 by (apply Z.divide_sub_r; [done|by exists 786432]).
  assert (forall mm, pread32 (phys mm) (dir - 3221225472 + 4 * (va / 2 ^ 22)) =
    vld32 (view mm) (dir + 4 * (va / 2 ^ 22))) as Hr.
  { intros mm. rewrite pread32_view. f_equal. unfold KERNEL_BASE. lia. }
  destruct (decide (w mod 2 = 0)) as [Hz|Hz].
  { rewrite (walk_absent _ _ va w), (walk_absent _ _ va w); try done; by rewrite Hr, ?He. }
  destruct (Z.eqb_spec (w mod 2) 1); [|lia].
  destruct (Z.eqb_spec (w / 128 mod 2) 0); [done|].
  rewrite (walk_4mib _ _ va w), (walk_4mib _ _ va w); try done; try lia; by rewrite Hr, ?He.
Qed.

(** ** The tail of allocate_page *)

(** [m'] differs from [m] in the [n] bytes of the kernel window at [a] and in
    the head of the frame list at most. *)
Definition only_writes (m m' : machine) (a n : Z) : Prop :=
  m' = set_phys (phys m') (set_freelist (page_freelist m') m) /\
  (forall pa, PAGE_OFFSET <= pa -> phys m' pa = phys m pa) /\
  (forall x, kernel_window x -> x < a \/ a + n <= x -> view m' x = view m x).

Lemma only_writes_pread m m' a n x :
  only_writes m m' a n -> 0 <= x -> x + 4 + KERNEL_BASE <= a \/ a + n <= x + KERNEL_BASE ->
  pread32 (phys m') x = pread32 (phys m) x.
Proof.
  intros (_ & Hh & Hv) Hx Hd. apply vld_ext. intros b Hb.
  destruct (Z.le_gt_cases PAGE_OFFSET b) as [Hp|Hp]; [by rewrite Hh|].
  specialize (Hv (b + KERNEL_BASE)). cbn in Hv.
  replace (b + KERNEL_BASE - KERNEL_BASE) with b in Hv by lia.
  unfold KERNEL_BASE, PAGE_OFFSET in *. apply Hv; [unfold kernel_window, KERNEL_BASE|]; lia.
Qed.

Lemma only_writes_in_kernel m m' a n :
  only_writes m m' a n -> in_kernel m ->
  cr3 m + KERNEL_BASE + 4096 <= a \/ a + n <= cr3 m + KERNEL_BASE -> in_kernel m'.
Proof.
  intros Hw (H0 & H1 & Hd & He) Ha. unfold in_kernel.
  assert (cr3 m' = cr3 m) as -> by (destruct Hw as [-> _]; done).
  split; [done|]. split; [done|]. split; [done|]. intros i Hi. rewrite <- He by done.
  eapply only_writes_pread; [exact Hw|lia|lia].
Qed.

Lemma t_present_mod w : t_present (decode_pte_4kib w) = w mod 2.
Proof. cbn [t_present decode_pte_4kib]. rewrite field_mod by lia. by rewrite Z.div_1_r. Qed.

(** The entry is taken: nothing happens. *)
Lemma set_page_taken m pt ti :
  KERNEL_BASE <= pt -> pt + 4096 <= KERNEL_BASE + PAGE_OFFSET -> 0 <= ti < 1024 ->
  vld32 (view m) (pt + 4 * ti) mod 2 = 1 -> set_page pt ti m = Ok m.
Proof.
  unfold KERNEL_BASE, PAGE_OFFSET. intros H0 H1 Hi Hx. unfold set_page.
  assert (in_win kernel_window (pt + 4 * ti) (Z.of_nat 4)) as Hw
    by (apply kernel_in_win; unfold KERNEL_BASE; lia).
  rewrite (u32_small (pt + 4 * ti)), (ldn_win 4 m (pt + 4 * ti) Hw) by lia.
  bnd. by rewrite t_present_mod, Hx.
Qed.

(** The entry is free: the first frame of the list is entered. *)
Lemma set_page_free m pt ti a l :
  in_kernel m -> free_frames m (a :: l) -> is_directory pt -> 0 <= ti < 1024 ->
  vld32 (view m) (pt + 4 * ti) mod 2 = 0 ->
  exists m', set_page pt ti m = Ok m' /\ only_writes m m' (pt + 4 * ti) 4 /\
    free_frames m' l /\ pread32 (phys m') (pt - KERNEL_BASE + 4 * ti) = a + PAGE_OFFSET + 7.
Proof.
  intros Hk [Hc Hn] (H0 & H1 & Hd) Hi Hx. cbn [chain] in Hc.
  destruct Hc as (Ha & Ha0 & Ha1 & Had & Hc). apply NoDup_cons in Hn as [_ Hn].
  unfold KERNEL_BASE, PAGE_OFFSET in *.
  assert (in_win kernel_window (pt + 4 * ti) (Z.of_nat 4)) as Hw
    by (apply kernel_in_win; unfold KERNEL_BASE; lia).
  unfold set_page. rewrite u32_small, (ldn_win 4 m (pt + 4 * ti) Hw) by lia.
  bnd. rewrite t_present_mod, Hx. cbn [Z.eqb negb].
  rewrite Ha, (ld_user 4) by (done || unfold KERNEL_BASE; lia). bnd.
  fold (pread32 (phys m) (a + PAGE_OFFSET)). unfold PAGE_OFFSET.
  rewrite (u32_small (a + 1073741824)) by lia.
  rewrite encode_user_pte by
    first [lia | apply Z.divide_add_r; [done|by exists 262144]].
  set (m1 := set_freelist (pread32 (phys m) (a + 1073741824)) m).
  destruct (stn_win (win := kernel_window) 4 m1 (pt + 4 * ti) (a + 1073741824 + 7) Hw)
    as (m' & E & [Ho1 Ho2] & Hv).
  assert (only_writes m m' (pt + 4 * ti) 4) as How.
  { split; [|split].
    - rewrite Ho2. done.
    - intros pa Hpa. by apply Ho1.
    - intros x Hxw Hxo. rewrite Hv by done. by rewrite vst_out by lia. }
  exists m'. split; [exact E|]. split; [done|]. split; [split; [|done]|].
  - assert (page_freelist m' = pread32 (phys m) (a + 1073741824)) as -> by (rewrite Ho2; done).
    eapply chain_ext; [|exact Hc]. apply How.
  - rewrite pread32_view. unfold KERNEL_BASE.
    replace (pt - 3221225472 + 4 * ti + 3221225472) with (pt + 4 * ti) by lia.
    erewrite vld_ext; [rewrite vld_vst_same|intros b Hb; apply Hv, Hw; lia].
    apply Z.mod_small. lia.
Qed.

(** ** The paths to it *)

Lemma allocate_page_entry (m : machine) dir va :
  is_directory dir -> 0 <= va < KERNEL_BASE ->
  ld32 m (u32 (dir + 4 * Z.shiftr va 22)) = Ok (vld32 (view m) (dir + 4 * (va / 2 ^ 22))).
Proof.
  intros (H0 & H1 & Hd) Hva. unfold KERNEL_BASE, PAGE_OFFSET in *.
  rewrite Z.shiftr_div_pow2, u32_small by lia. apply (ldn_win (win := kernel_window)).
  apply kernel_in_win; unfold KERNEL_BASE; lia.
Qed.

Lemma table_index_eq va : Z.land (Z.shiftr va 12) 1023 = va / 4096 mod 1024.
Proof.
  change 1023 with (Z.ones 10). by rewrite Z.land_ones, Z.shiftr_div_pow2 by lia.
Qed.

Lemma allocate_page_present m dir va a l t :
  free_frames m (a :: l) -> is_directory dir -> 0 <= va < KERNEL_BASE ->
  user_table m dir (va / 2 ^ 22) = Some t -> t + 4096 <= PAGE_OFFSET ->
  allocate_page dir va m = set_page (t + KERNEL_BASE) (va / 4096 mod 1024) m.
Proof.
  intros [Hc _] Hdir Hva Ht H30. cbn [chain] in Hc. destruct Hc as (Ha & Ha0 & Ha1 & _).
  unfold allocate_page. rewrite Ha. replace (KERNEL_BASE <=? a) with false by lia.
  replace (KERNEL_BASE <=? va) with false by lia. cbn [orb].
  rewrite allocate_page_entry, table_index_eq by done. bnd.
  unfold user_table in Ht. set (w := vld32 _ _) in *.
  pose proof (vld_range 4 (view m) (dir + 4 * (va / 2 ^ 22)) (view_range m)) as Hwr. fold w in Hwr.
  destruct (Z.eqb_spec (w mod 2) 1) as [Hp|]; [|done].
  destruct (Z.eqb_spec (w / 128 mod 2) 0) as [H7|]; [|done]. injection Ht as Ht.
  cbn [d_present d_ps d_addr decode_pde_4kib]. rewrite !field_mod by lia.
  change (2 ^ 0) with 1. rewrite Z.div_1_r. change (2 ^ 1) with 2. rewrite Hp.
  change (2 ^ 7) with 128. rewrite H7. cbn [Z.eqb negb].
  unfold PAGE_OFFSET, KERNEL_BASE in *. change (2 ^ 12) with 4096.
  change (2 ^ (8 * Z.of_nat 4)) with 4294967296 in Hwr.
  rewrite (Z.mod_small (w / 4096)) by lia. rewrite shl_int_ok by lia. bnd.
  change (2 ^ 12) with 4096. rewrite Ht, u32_small by lia. done.
Qed.
