(* ===== verification/PagingProps.v ===== *)
(** * Properties of paging

    init_paging establishes the kernel's address space; allocate_page is a map
    update of the directory it is given; free_page never undoes it. *)

From S2P Require Export PageAlloc.

#[local] Open Scope Z_scope.

(** C19. init_paging, from any memory, terminates with the kernel directory in
    force: user addresses go one GiB up, the kernel window goes to the first GiB
    as every access to kernel data assumes, the 786432 user frames are all on the
    free list in order and only once, vector 14 has its interrupt gate, and of
    the kernel window only the directory and the interrupt table are written. *)
Theorem init_paging_ok kernel_memory addr_of m :
  KERNEL_BASE <= kernel_memory -> kernel_memory + 4096 <= start kernel_heap ->
  (4096 | kernel_memory) ->
  (forall h, 0 <= addr_of h < 2 ^ 32) -> KERNEL_BASE <= idt m -> idt m + 2048 <= 4294967296 ->
  idt m + 2048 <= kernel_memory \/ kernel_memory + 4096 <= idt m ->
  exists m', init_paging kernel_memory addr_of m = Ok m' /\
    cr3 m' = kernel_memory - KERNEL_BASE /\
    (forall va, 0 <= va < KERNEL_BASE -> walk (phys m') (cr3 m') va = Some (va + PAGE_OFFSET)) /\
    (forall va, kernel_window va -> walk (phys m') (cr3 m') va = Some (va - KERNEL_BASE)) /\
    free_frames m' (frames 0 786432) /\
    gate_at m' 14 = interrupt_gate (addr_of pagefault_handler_wrapper) /\
    (forall a, kernel_window a -> a < kernel_memory \/ kernel_memory + 4096 <= a ->
       a < idt m \/ idt m + 2048 <= a -> view m' a = view m a).
Proof.
  intros H0 H1 Hd Ha Hi0 Hi1 Hdis.
  destruct (init_paging_win kernel_memory addr_of H0 H1 Hd m Ha Hi0 Hi1 Hdis)
    as (m' & E & Em & Hk & Hp & Hf & Hg & _ & Hv).
  exists m'. split; [done|]. split; [by rewrite Em|].
  split; [intros va; by apply shifted_walk|]. split; [intros va; by apply kernel_window_walk|].
  by split.
Qed.

(** A field and what lies above it. *)
Lemma field_above w a b : 0 < a -> 0 < b -> (w / a mod b) mod b + b * (w / (a * b)) = w / a.
Proof.
  intros. rewrite Z.mod_mod, <- Z.div_div by lia. pose proof (Z.div_mod (w / a) b). lia.
Qed.

(** Compute the powers of two of the goal. *)
Ltac lit_pow :=
  repeat match goal with
  | |- context [2 ^ ?k] => let c := eval vm_compute in (2 ^ k) in change (2 ^ k) with c
  end.

Ltac merge_field w a b :=
  let c := eval vm_compute in (a * b) in
  let H := fresh in
  pose proof (field_above w a b ltac:(lia) ltac:(lia)) as H;
  change (a * b) with c in H; rewrite H; clear H.

Lemma encode_decode_pde w : 0 <= w < 2 ^ 32 -> encode_pde_4kib (decode_pde_4kib w) = w.
Proof.
  intros Hw. rewrite encode_pde_sum. unfold decode_pde_4kib.
  cbn [d_present d_rw d_us d_pwt d_pcd d_a d_ignored d_ps d_ignored2 d_addr].
  rewrite !field_mod by lia. lit_pow. rewrite (Z.mod_mod _ 1048576), (Z.mod_small (w / 4096)) by lia.
  merge_field w 256 16. merge_field w 128 2. merge_field w 64 2. merge_field w 32 2.
  merge_field w 16 2. merge_field w 8 2. merge_field w 4 2. merge_field w 2 2. merge_field w 1 2.
  apply Z.div_1_r.
Qed.

Lemma encode_decode_pte w : 0 <= w < 2 ^ 32 -> encode_pte_4kib (decode_pte_4kib w) = w.
Proof.
  intros Hw. rewrite encode_pte_sum. unfold decode_pte_4kib.
  cbn [t_present t_rw t_us t_pwt t_pcd t_a t_d t_pat t_g t_ignored t_addr].
  rewrite !field_mod by lia. lit_pow. rewrite (Z.mod_mod _ 1048576), (Z.mod_small (w / 4096)) by lia.
  merge_field w 512 8. merge_field w 256 2. merge_field w 128 2. merge_field w 64 2.
  merge_field w 32 2. merge_field w 16 2. merge_field w 8 2. merge_field w 4 2.
  merge_field w 2 2. merge_field w 1 2. apply Z.div_1_r.
Qed.

(** The directory and table entries of paging.h and their words determine
    each other: every entry whose fields fit their widths is read back, and every
    32-bit word is the encoding of the entry it decodes to. *)
Theorem page_entries_roundtrip :
  (forall e, fits_pde e -> decode_pde_4kib (encode_pde_4kib e) = e) /\
  (forall e, fits_pte e -> decode_pte_4kib (encode_pte_4kib e) = e) /\
  (forall w, 0 <= w < 2 ^ 32 -> encode_pde_4kib (decode_pde_4kib w) = w /\
     encode_pte_4kib (decode_pte_4kib w) = w).
Proof.
  split; [|split].
  - intros [e0 e1 e2 e3 e4 e5 e6 e7 e8 e9] H. unfold fits_pde in H. cbn in H. rewrite encode_pde_sum. unfold decode_pde_4kib.
    rewrite !field_mod by lia. cbn [d_present d_rw d_us d_pwt d_pcd d_a d_ignored d_ps d_ignored2 d_addr].
    f_equal; lia.
  - intros [e0 e1 e2 e3 e4 e5 e6 e7 e8 e9 e10] H. unfold fits_pte in H. cbn in H. rewrite encode_pte_sum. unfold decode_pte_4kib.
    rewrite !field_mod by lia.
    cbn [t_present t_rw t_us t_pwt t_pcd t_a t_d t_pat t_g t_ignored t_addr]. f_equal; lia.
  - intros w Hw. by rewrite encode_decode_pde, encode_decode_pte.
Qed.

(** The page of an address. *)
Lemma same_page va va' :
  va' / 4096 = va / 4096 ->
  va' / 2 ^ 22 = va / 2 ^ 22 /\ va' / 4096 mod 1024 = va / 4096 mod 1024.
Proof. intros. lia. Qed.

Lemma entry_maps_frame a va :
  0 <= a -> (4096 | a) -> entry_maps (a + PAGE_OFFSET + 7) va = Some (a + PAGE_OFFSET + va mod 4096).
Proof.
  intros H0 [k ->]. unfold entry_maps, PAGE_OFFSET.
  replace ((k * 4096 + 1073741824 + 7) mod 2) with 1 by lia. cbn [Z.eqb Pos.eqb].
  f_equal. lia.
Qed.

Lemma user_table_range m dir i t :
  user_table m dir i = Some t -> 0 <= t /\ (4096 | t).
Proof.
  unfold user_table. pose proof (vld_range 4 (view m) (dir + 4 * i) (view_range m)) as [H _].
  generalize dependent (vld32 (view m) (dir + 4 * i)). intros w H.
  destruct (_ && _); intros [= <-]. split; [lia|]. by eexists.
Qed.

(** Entering a frame in a page table only one directory entry points to. *)
Lemma walk_update m m' dir va a t :
  is_directory dir -> 0 <= va < 2 ^ 32 -> user_table m dir (va / 2 ^ 22) = Some t ->
  t + 4096 <= PAGE_OFFSET -> t <> dir - KERNEL_BASE ->
  (forall i, 0 <= i < 1024 -> i <> va / 2 ^ 22 -> user_table m dir i <> Some t) ->
  only_writes m m' (t + KERNEL_BASE + 4 * (va / 4096 mod 1024)) 4 ->
  pread32 (phys m') (t + 4 * (va / 4096 mod 1024)) = a + PAGE_OFFSET + 7 ->
  0 <= a -> (4096 | a) ->
  forall va', 0 <= va' < 2 ^ 32 ->
    walk (phys m') (dir - KERNEL_BASE) va' =
      if va' / 4096 =? va / 4096 then Some (a + PAGE_OFFSET + va' mod 4096)
      else walk (phys m) (dir - KERNEL_BASE) va'.
Proof.
  intros Hdir Hva Ht H30 Hnd Hpriv How Hx Ha0 Had va' Hva'.
  pose proof (user_table_range _ _ _ _ Ht) as [Ht0 [kt Hkt]].
  pose proof Hdir as (Hd0 & Hd1 & [kd Hkd]).
  assert (KERNEL_BASE = 3221225472 /\ PAGE_OFFSET = 1073741824) as [HKB HPO] by done.
  assert (forall i, 0 <= i < 1024 -> vld32 (view m') (dir + 4 * i) = vld32 (view m) (dir + 4 * i))
    as Hent.
  { intros i Hi. apply vld_ext. intros b Hb. apply How; unfold kernel_window; lia. }
  destruct (Z.eqb_spec (va' / 4096) (va / 4096)) as [He|Hne].
  - destruct (same_page _ _ He) as [He1 He2].
    rewrite (walk_user_table m' dir va' t), He2, Hx by
      (try done; unfold user_table in *; rewrite He1, Hent by lia; done).
    by apply entry_maps_frame.
  - apply walk_same; [done|done|apply Hent; lia|].
    intros t' Ht'. pose proof (user_table_range _ _ _ _ Ht') as [Ht'0 [kt' Hkt']].
    eapply only_writes_pread; [exact How|lia|].
    destruct (decide (va' / 2 ^ 22 = va / 2 ^ 22)) as [He|Hne'].
    + rewrite He in Ht'. rewrite Ht in Ht'. injection Ht' as <-. lia.
    + assert (t' <> t) by (intros ->; eapply Hpriv; [|exact Hne'|exact Ht']; lia). lia.
Qed.

(** C9. allocate_page, called under the kernel's directory for an unmapped user
    page of a directory whose page table exists, is a map update: it takes the
    first free frame off the list, afterwards the page is mapped to that frame,
    and every other address of the directory translates as before.  No user
    memory is written. *)
Theorem allocate_page_maps m dir va a l t :
  in_kernel m -> free_frames m (a :: l) -> is_directory dir -> 0 <= va < KERNEL_BASE ->
  user_table m dir (va / 2 ^ 22) = Some t ->
  t + 4096 <= PAGE_OFFSET -> t <> dir - KERNEL_BASE -> t <> cr3 m ->
  walk (phys m) (dir - KERNEL_BASE) va = None ->
  (forall i, 0 <= i < 1024 -> i <> va / 2 ^ 22 -> user_table m dir i <> Some t) ->
  exists m', allocate_page dir va m = Ok m' /\ in_kernel m' /\ free_frames m' l /\
    (forall pa, PAGE_OFFSET <= pa -> phys m' pa = phys m pa) /\
    forall va', 0 <= va' < 2 ^ 32 ->
      walk (phys m') (dir - KERNEL_BASE) va' =
        if va' / 4096 =? va / 4096 then Some (a + PAGE_OFFSET + va' mod 4096)
        else walk (phys m) (dir - KERNEL_BASE) va'.
Proof.
  intros Hk Hf Hdir Hva Ht H30 Hnd Hnc Hn Hpriv.
  pose proof (user_table_range _ _ _ _ Ht) as [Ht0 [kt Hkt]].
  pose proof Hf as [Hc _]. cbn [chain] in Hc. destruct Hc as (_ & Ha0 & Ha1 & Had & _).
  pose proof Hk as (Hc0 & Hc1 & [kc Hkc] & _).
  assert (KERNEL_BASE = 3221225472 /\ PAGE_OFFSET = 1073741824) as [HKB HPO] by done.
  set (ti := va / 4096 mod 1024) in *.
  assert (0 <= ti < 1024) as Hti by lia.
  rewrite (walk_user_table m dir va t) in Hn by (done || lia).
  fold ti in Hn.
  destruct (set_page_free m (t + KERNEL_BASE) ti a l Hk Hf) as (m' & E & How & Hf' & Hx).
  { split; [lia|]. split; [lia|]. exists (kt + 786432). lia. }
  { done. }
  { replace (t + KERNEL_BASE + 4 * ti) with (t + 4 * ti + KERNEL_BASE) by lia.
    rewrite <- pread32_view. unfold entry_maps in Hn. destruct (Z.eqb_spec
      (pread32 (phys m) (t + 4 * ti) mod 2) 1); [done|]. lia. }
  exists m'. rewrite (allocate_page_present m dir va a l t Hf Hdir) by (done || lia).
  split; [exact E|]. split; [eapply only_writes_in_kernel; [done|done|lia]|].
  split; [done|]. split; [apply How|].
  apply (walk_update m m' dir va a t); try done; [lia|].
  by replace (t + KERNEL_BASE - KERNEL_BASE + 4 * ti) with (t + 4 * ti) in Hx by lia.
Qed.

(** allocate_page refuses, without touching anything, when the list of free
    frames is empty, for an address of the kernel window, for a page inside a
    4 MiB mapping, and for a page that is already mapped. *)
Theorem allocate_page_refuses m dir va l :
  free_frames m l -> is_directory dir -> 0 <= va < 2 ^ 32 ->
  l = [] \/ KERNEL_BASE <= va \/
  (let w := vld32 (view m) (dir + 4 * (va / 2 ^ 22)) in w mod 2 = 1 /\ w / 128 mod 2 = 1) \/
  (exists t, user_table m dir (va / 2 ^ 22) = Some t /\ t + 4096 <= PAGE_OFFSET /\
     walk (phys m) (dir - KERNEL_BASE) va <> None) ->
  allocate_page dir va m = Ok m.
Proof.
  intros Hf Hdir Hva Hcase.
  destruct (decide (l = [])) as [->|Hl].
  { destruct Hf as [Hc _]. cbn [chain] in Hc. unfold allocate_page.
    by replace (KERNEL_BASE <=? page_freelist m) with true by lia. }
  destruct (Z.le_gt_cases KERNEL_BASE va) as [Hk|Hk].
  { unfold allocate_page. replace (KERNEL_BASE <=? va) with true by lia.
    by rewrite orb_true_r. }
  destruct l as [|a l]; [done|].
  destruct Hcase as [|[|[[Hp H7]|(t & Ht & H30 & Hw)]]]; [done|lia| |].
  - destruct Hf as [Hc _]. cbn [chain] in Hc. destruct Hc as (Ha & Ha0 & Ha1 & _).
    unfold allocate_page. rewrite Ha. replace (KERNEL_BASE <=? a) with false by lia.
    replace (KERNEL_BASE <=? va) with false by lia. cbn [orb].
    rewrite allocate_page_entry by (done || lia). bnd.
    cbn [d_present d_ps decode_pde_4kib]. rewrite !field_mod by lia.
    change (2 ^ 0) with 1. rewrite Z.div_1_r. change (2 ^ 1) with 2. rewrite Hp.
    change (2 ^ 7) with 128. by rewrite H7.
  - rewrite (allocate_page_present m dir va a l t) by (done || lia).
    rewrite (walk_user_table m dir va t) in Hw by done. unfold entry_maps in Hw.
    pose proof (user_table_range _ _ _ _ Ht) as [Ht0 _].
    apply set_page_taken; [lia|lia|lia|].
    replace (t + KERNEL_BASE + 4 * (va / 4096 mod 1024))
      with (t + 4 * (va / 4096 mod 1024) + KERNEL_BASE) by lia.
    rewrite <- pread32_view. destruct (Z.eqb_spec
      (pread32 (phys m) (t + 4 * (va / 4096 mod 1024)) mod 2) 1); done.
Qed.
