(* ===== verification/PageTables.v ===== *)
(** * allocate_page with a new page table, and free_page

    A page table taken from the kernel heap is entered in the directory as it
    is; what its memory held before is what it maps. *)

From S2P Require Export PagingProps.

#[local] Open Scope Z_scope.

(** The [2^k]-byte block whose data starts at the address [p] is in use. *)
Definition live (l : list BlockList.block) (p k : Z) : Prop := (p - 1 - start kernel_heap, k) ∈ used_from 0 l.

(** Objects in use are apart from the block of the next allocation, and hold no
    header. *)
Lemma live_apart l need off l' p k :
  3 <= need -> sizes_ok l -> alloc_blocks need l = Some (off, l') -> live l p k ->
  let o := p - 1 - start kernel_heap in
  (o + 2 ^ k <= off \/ off + 2 ^ need <= o) /\ live l' p k.
Proof.
  intros Hn Hok Hb Hl o.
  pose proof (alloc_blocks_used _ _ _ _ Hn Hok Hb) as Hperm. split.
  - apply alloc_blocks_inv in Hb as (l1 & b & l2 & -> & Hf & -> & _ & _).
    apply fits_spec in Hf as [Hu Hf]. unfold live in Hl. fold o in Hl.
    rewrite used_from_app in Hl. cbn [used_from] in Hl. rewrite Hu in Hl. cbn [app] in Hl.
    apply Forall_app in Hok as [H1 H2]. apply Forall_cons in H2 as [Hbs H2].
    apply elem_of_app in Hl as [Hl|Hl]; apply used_from_bounds in Hl as (Ha & _ & Hc); try done.
    + left. lia.
    + right. pose proof (pow2_le need (bsize b) ltac:(lia)). unfold blen in Ha. lia.
  - unfold live. rewrite Hperm. apply elem_of_cons. by right.
Qed.

(** The data of an object in use. *)
Lemma live_heap_payload {S} `{Store S} {win} `{!Window S win} (s s' : S) l p k a n :
  kernel_heap_at s l -> live l p k -> p <= a -> a + n <= p - 1 + 2 ^ k ->
  (forall x, win x -> x < a \/ a + n <= x -> view s' x = view s x) ->
  kernel_heap_at s' l.
Proof.
  intros [Hh Ha] Hl H0 H1 Hv. split; [|done].
  apply used_from_split in Hl as (l1 & l2 & -> & Ho).
  eapply (heap_payload s s' _ l1 _ l2 _ a n Hh); [lia|rewrite blen_block; lia|done].
Qed.

Lemma live_no_header l p k x :
  sizes_ok l -> live l p k -> p <= x < p - 1 + 2 ^ k -> x ∉ headers (start kernel_heap) l.
Proof.
  intros Hok Hl Hx. apply used_from_split in Hl as (l1 & l2 & -> & Ho).
  apply payload_not_header; [done|]. rewrite blen_block. lia.
Qed.

(** Two objects in use do not overlap. *)
Lemma used_apart l p k q j :
  sizes_ok l -> live l p k -> live l q j -> p <> q \/ k <> j ->
  p + 2 ^ k <= q \/ q + 2 ^ j <= p.
Proof.
  unfold live. intros Hok Hp Hq Hne.
  pose proof (used_disjoint 0 l Hok) as Hs. revert Hp Hq. induction Hs as [|r rs Hs IH Hr].
  { intros H. by apply elem_of_nil in H. }
  rewrite Forall_forall in Hr. rewrite !elem_of_cons.
  intros [Hp|Hp] [Hq|Hq].
  - rewrite <- Hp in Hq. injection Hq as E1 E2. lia.
  - specialize (Hr _ Hq). rewrite <- Hp in Hr. cbn in Hr. lia.
  - specialize (Hr _ Hp). rewrite <- Hq in Hr. cbn in Hr. lia.
  - by apply IH.
Qed.

Lemma live_below l p k : sizes_ok l -> live l p k -> start kernel_heap < p.
Proof. intros Hok Hl. apply used_from_bounds in Hl; [lia|done]. Qed.

Lemma live_bounds {S} `{Store S} {win} `{!Window S win} (s : S) l p k :
  kernel_heap_at s l -> live l p k -> start kernel_heap < p /\ p - 1 + 2 ^ k <= 4026531839.
Proof.
  intros [(Ht & Hok & _) _] Hl. apply tiles_span in Ht.
  change (end_ kernel_heap) with 4026531839 in Ht.
  apply used_from_bounds in Hl; [lia|done].
Qed.

(** The kernel's directory is only read. *)
Lemma in_kernel_view m m' :
  in_kernel m -> cr3 m' = cr3 m ->
  (forall x, cr3 m + KERNEL_BASE <= x < cr3 m + KERNEL_BASE + 4096 -> view m' x = view m x) ->
  in_kernel m'.
Proof.
  intros (H0 & H1 & Hd & He) Hc Hv. unfold in_kernel. rewrite Hc.
  split; [done|]. split; [done|]. split; [done|]. intros i Hi. rewrite <- He by done.
  rewrite !pread32_view. apply vld_ext. intros b Hb. apply Hv. lia.
Qed.

(** A machine on whose kernel heap a page table can be allocated for the entry of
    [va] in the directory [dir], itself an object of the heap, as are the page
    tables it has. *)
Record new_table_ready (m : machine) (hl hl' : list BlockList.block) (off dir va : Z) : Prop := {
  nt_heap : kernel_heap_at m hl;
  nt_ends : heap_ends m 13;
  nt_fit : alloc_blocks 13 hl = Some (off, hl');
  nt_dir : is_directory dir;
  nt_live : live hl dir 13;
  nt_va : 0 <= va < KERNEL_BASE;
  nt_none : vld32 (view m) (dir + 4 * (va / 2 ^ 22)) mod 2 = 0;
  nt_tables : forall i t, 0 <= i < 1024 -> user_table m dir i = Some t ->
    live hl (t + KERNEL_BASE) 13 /\ t + KERNEL_BASE <> dir;
  nt_kernel : in_kernel m /\ cr3 m + KERNEL_BASE + 4096 <= start kernel_heap }.
#[global] Arguments nt_heap {_ _ _ _ _ _} _.
#[global] Arguments nt_ends {_ _ _ _ _ _} _.
#[global] Arguments nt_fit {_ _ _ _ _ _} _.
#[global] Arguments nt_dir {_ _ _ _ _ _} _.
#[global] Arguments nt_live {_ _ _ _ _ _} _.
#[global] Arguments nt_va {_ _ _ _ _ _} _.
#[global] Arguments nt_none {_ _ _ _ _ _} _.
#[global] Arguments nt_tables {_ _ _ _ _ _} _.
#[global] Arguments nt_kernel {_ _ _ _ _ _} _.

(** The page table kernel_allocate gives: an object apart from the directory. *)
Lemma table_taken m hl hl' off dir va :
  new_table_ready m hl hl' off dir va ->
  let p := KERNEL_BASE + 268435456 + off in
  exists ma, kernel_allocate m 4096 = Ok (ma, p) /\ same_outside m ma /\ kernel_heap_at ma hl' /\
    is_directory p /\ live hl' p 13 /\ live hl' dir 13 /\ (dir + 4096 <= p \/ p + 4096 <= dir) /\
    forall x, kernel_window x -> x ∉ headers (start kernel_heap) hl' -> view ma x = view m x.
Proof.
  intros [Hh He Hb Hdir Hl Hva Hz Htab _] p. pose proof Hh as [(_ & Hok & _) _].
  assert (KERNEL_BASE = 3221225472 /\ PAGE_OFFSET = 1073741824 /\
    start kernel_heap = 3489660927) as (HKB & HPO & Hst) by done.
  destruct (kernel_allocate_hit m 4096 hl off hl' Hh ltac:(lia) ltac:(lia) He Hb)
    as (ma & E & Ho & Hh' & Hp & Ho0 & Htop & Hf & l1 & l2 & Hl' & Hoff).
  change (2 ^ needed (4096 + 1)) with 8192 in *. change (needed (4096 + 1)) with 13 in *. fold p in E, Hp, Htop.
  destruct (live_apart hl 13 off hl' dir 13 ltac:(lia) Hok Hb Hl) as [Hap Hl2].
  change (2 ^ 13) with 8192 in Hap. exists ma. split_and!; try done.
  - split; [lia|]. split; [lia|]. etrans; [|exact Hp]. by exists 2.
  - apply used_from_split. exists l1, l2. split; [done|]. lia.
  - lia.
Qed.

(** A store to an object of the heap leaves the kernel's directory. *)
Lemma in_kernel_stored m m1 hl' dir x :
  in_kernel m -> cr3 m + KERNEL_BASE + 4096 <= start kernel_heap -> cr3 m1 = cr3 m ->
  sizes_ok hl' -> start kernel_heap < dir ->
  (forall y, kernel_window y -> y ∉ headers (start kernel_heap) hl' ->
     y < dir + x \/ dir + x + 4 <= y -> view m1 y = view m y) -> 0 <= x -> in_kernel m1.
Proof.
  intros Hk Hc E Hok Hd Hf Hx. apply (in_kernel_view m); [done|done|].
  destruct Hk as (Hc0 & Hc1 & _). unfold KERNEL_BASE in *. change (start kernel_heap) with 3489660927 in *.
  intros y Hy. apply Hf; [unfold kernel_window, KERNEL_BASE; lia| |lia].
  intros Hin. apply headers_range in Hin; [lia|done].
Qed.

(** The state in which allocate_page looks at its new page table. *)
Lemma new_table_installed m hl hl' off dir va a l :
  new_table_ready m hl hl' off dir va -> free_frames m (a :: l) ->
  let p := KERNEL_BASE + 268435456 + off in
  exists m1, allocate_page dir va m = set_page p (va / 4096 mod 1024) m1 /\
    same_outside m m1 /\ kernel_heap_at m1 hl' /\ is_directory p /\ live hl' p 13 /\
    in_kernel m1 /\ free_frames m1 (a :: l) /\
    (forall i, 0 <= i < 1024 -> vld32 (view m1) (dir + 4 * i) =
       if i =? va / 2 ^ 22 then p - KERNEL_BASE + 7 else vld32 (view m) (dir + 4 * i)) /\
    (forall x, p <= x < p + 4096 -> view m1 x = view m x) /\
    (forall q x, live hl q 13 -> q <> dir -> q <= x < q + 4096 -> view m1 x = view m x) /\
    (forall x, kernel_window x -> x ∉ headers (start kernel_heap) hl' ->
       x < dir + 4 * (va / 2 ^ 22) \/ dir + 4 * (va / 2 ^ 22) + 4 <= x -> view m1 x = view m x).
Proof.
  intros Hr [Hch Hnd] p.
  destruct (table_taken m hl hl' off dir va Hr) as (ma & E & Ho & Hh' & Hp & Hlp & Hl2 & Hap & Hf).
  fold p in E, Hp, Hlp, Hap. pose proof Hr as [Hh _ Hb Hdir Hl Hva Hz _ [Hk Hc]].
  pose proof Hh as [(_ & Hok & _) _]. pose proof Hh' as [(_ & Hok' & _) _].
  assert (KERNEL_BASE = 3221225472 /\ PAGE_OFFSET = 1073741824 /\
    start kernel_heap = 3489660927) as (HKB & HPO & Hst) by done.
  pose proof Hdir as (Hd0 & Hd1 & [kd Hkd]). pose proof Hp as (Hp0 & Hp1 & Hp2).
  set (entry := dir + 4 * (va / 2 ^ 22)).
  assert (in_win kernel_window entry (Z.of_nat 4)) as Hw by (apply kernel_in_win; lia).
  destruct (stn_win 4 ma entry (p - KERNEL_BASE + 7) Hw) as (m1 & E1 & Ho1 & Hv1).
  assert (forall x, kernel_window x -> x ∉ headers (start kernel_heap) hl' ->
    x < entry \/ entry + 4 <= x -> view m1 x = view m x) as Hfr
    by (intros x Hx Hnh Hxo; rewrite Hv1, (vst_out 4) by done; by apply Hf).
  assert (forall q x, live hl' q 13 -> q <= x < q + 4096 -> x ∉ headers (start kernel_heap) hl') as Hnh
    by (intros q x Hq Hx; apply (live_no_header hl' q 13); [done|done|change (2 ^ 13) with 8192; lia]).
  pose proof (same_outside_trans m ma m1 Ho Ho1) as [Hs1 Hs2].
  exists m1. split_and!; try done.
  - cbn [chain] in Hch. destruct Hch as (Hpa & Ha0 & Ha1 & _).
    unfold allocate_page. rewrite Hpa. replace (KERNEL_BASE <=? a) with false by lia.
    replace (KERNEL_BASE <=? va) with false by lia. cbn [orb].
    rewrite allocate_page_entry, table_index_eq by done. bnd.
    cbn [d_present decode_pde_4kib]. rewrite field_mod by lia. change (2 ^ 0) with 1.
    rewrite Z.div_1_r. change (2 ^ 1) with 2. rewrite Hz. cbn [Z.eqb negb].
    change (4 * 1024) with 4096. rewrite E. bnd.
    rewrite encode_user_pde, Z.shiftr_div_pow2 by (done || lia).
    fold entry. rewrite (u32_small entry) by lia. by rewrite E1.
  - eapply (live_heap_payload ma m1 hl' dir 13 entry 4 Hh' Hl2); [lia|change (2 ^ 13) with 8192; lia|].
    intros x Hx Hxo. by rewrite Hv1, (vst_out 4) by done.
  - apply (in_kernel_stored m m1 hl' dir (4 * (va / 2 ^ 22))); try done; [by rewrite Hs2| |lia].
    by apply live_below in Hl2.
  - split; [|done]. eapply chain_ext; [exact Hs1|]. rewrite Hs2. exact Hch.
  - intros i Hi. destruct (Z.eqb_spec i (va / 2 ^ 22)) as [->|Hne].
    + fold entry. erewrite vld_ext; [rewrite vld_vst_same|intros b Hbr; apply Hv1, Hw; lia].
      apply Z.mod_small. lia.
    + apply vld_ext. intros b Hbr. apply Hfr; [unfold kernel_window; lia|apply (Hnh dir); [done|lia]|lia].
  - intros x Hx. apply Hfr; [unfold kernel_window; lia|by apply (Hnh p)|lia].
  - intros q x Hq Hne Hx. destruct (live_bounds m hl q 13 Hh Hq) as [Hq0 Hq1].
    destruct (live_apart hl 13 off hl' q 13 ltac:(lia) Hok Hb Hq) as [_ Hq'].
    destruct (used_apart hl q 13 dir 13 Hok Hq Hl (or_introl Hne)) as [Hapq|Hapq];
      change (2 ^ 13) with 8192 in *; (apply Hfr; [unfold kernel_window; lia|by apply (Hnh q)|lia]).
Qed.

(** What the memory of a page table maps an address to. *)
Definition old_table (m : machine) (p va : Z) : option Z :=
  entry_maps (vld32 (view m) (p + 4 * (va / 4096 mod 1024))) va.

(** The address space once the table is entered in the directory. *)
Lemma walk_installed m hl hl' off dir va m1 :
  new_table_ready m hl hl' off dir va ->
  let p := KERNEL_BASE + 268435456 + off in
  is_directory p -> live hl' p 13 -> sizes_ok hl' ->
  (forall i, 0 <= i < 1024 -> vld32 (view m1) (dir + 4 * i) =
     if i =? va / 2 ^ 22 then p - KERNEL_BASE + 7 else vld32 (view m) (dir + 4 * i)) ->
  (forall x, p <= x < p + 4096 -> view m1 x = view m x) ->
  (forall q x, live hl q 13 -> q <> dir -> q <= x < q + 4096 -> view m1 x = view m x) ->
  user_table m1 dir (va / 2 ^ 22) = Some (p - KERNEL_BASE) /\
  (forall i, 0 <= i < 1024 -> i <> va / 2 ^ 22 -> user_table m1 dir i <> Some (p - KERNEL_BASE)) /\
  forall va', 0 <= va' < 2 ^ 32 -> walk (phys m1) (dir - KERNEL_BASE) va' =
    if va' / 2 ^ 22 =? va / 2 ^ 22 then old_table m p va' else walk (phys m) (dir - KERNEL_BASE) va'.
Proof.
  intros [Hh He Hb Hdir Hl Hva Hz Htab _] p Hp Hlp Hok' Hent Hpv Hqv.
  assert (p = KERNEL_BASE + 268435456 + off) as Hpe by done.
  assert (KERNEL_BASE = 3221225472 /\ PAGE_OFFSET = 1073741824) as [HKB HPO] by done.
  pose proof Hp as (Hp0 & Hp1 & [kp Hkp]). pose proof Hh as [(_ & Hok & _) _].
  assert (user_table m1 dir (va / 2 ^ 22) = Some (p - KERNEL_BASE)) as Hu.
  { unfold user_table. rewrite Hent, Z.eqb_refl by lia.
    replace ((p - KERNEL_BASE + 7) mod 2) with 1 by lia.
    replace ((p - KERNEL_BASE + 7) / 128 mod 2) with 0 by lia. cbn [Z.eqb Pos.eqb andb].
    f_equal. lia. }
  assert (forall i, 0 <= i < 1024 -> i <> va / 2 ^ 22 -> user_table m1 dir i = user_table m dir i)
    as Hsame.
  { intros i Hi Hne. unfold user_table. rewrite Hent by done.
    by destruct (Z.eqb_spec i (va / 2 ^ 22)). }
  split; [exact Hu|]. split.
  { intros i Hi Hne Heq. rewrite Hsame in Heq by done. apply Htab in Heq as [Heq _]; [|done].
    destruct (live_apart hl 13 off hl' _ 13 ltac:(lia) Hok Hb Heq) as [Hap _].
    change (2 ^ 13) with 8192 in Hap. change (start kernel_heap) with 3489660927 in Hap. lia. }
  intros va' Hva'. destruct (Z.eqb_spec (va' / 2 ^ 22) (va / 2 ^ 22)) as [Heq|Hne].
  - rewrite (walk_user_table m1 dir va' (p - KERNEL_BASE)) by (rewrite ?Heq; done).
    unfold old_table. f_equal. rewrite pread32_view.
    replace (p - KERNEL_BASE + 4 * (va' / 4096 mod 1024) + KERNEL_BASE)
      with (p + 4 * (va' / 4096 mod 1024)) by lia.
    apply vld_ext. intros b Hbr. apply Hpv. lia.
  - apply walk_same; [done|done| |].
    + rewrite Hent by lia. by destruct (Z.eqb_spec (va' / 2 ^ 22) (va / 2 ^ 22)).
    + intros t Ht. destruct (Htab (va' / 2 ^ 22) t ltac:(lia) Ht) as [Hlt Htd].
      rewrite !pread32_view. apply vld_ext. intros b Hbr. apply (Hqv (t + KERNEL_BASE)); [done|done|].
      lia.
Qed.

(** Everything allocate_page does with a page table whose memory says nothing
    about the page. *)
Lemma allocate_page_fresh m hl hl' off dir va a l :
  new_table_ready m hl hl' off dir va -> free_frames m (a :: l) ->
  let p := KERNEL_BASE + 268435456 + off in
  let entry := dir + 4 * (va / 2 ^ 22) in
  let slot := p + 4 * (va / 4096 mod 1024) in
  vld32 (view m) slot mod 2 = 0 ->
  exists m', allocate_page dir va m = Ok m' /\ in_kernel m' /\ kernel_heap_at m' hl' /\
    is_directory p /\ live hl' p 13 /\ free_frames m' l /\
    m' = set_phys (phys m') (set_freelist (page_freelist m') m) /\
    (forall pa, PAGE_OFFSET <= pa -> phys m' pa = phys m pa) /\
    vld32 (view m') entry = p - KERNEL_BASE + 7 /\
    vld32 (view m') slot = a + PAGE_OFFSET + 7 /\
    forall x, kernel_window x -> x ∉ headers (start kernel_heap) hl' ->
      x < entry \/ entry + 4 <= x -> x < slot \/ slot + 4 <= x -> view m' x = view m x.
Proof.
  intros Hr Hf p entry slot Hold.
  destruct (new_table_installed m hl hl' off dir va a l Hr Hf)
    as (m1 & E & Hso & Hh1 & Hp & Hlp & Hk1 & Hf1 & Hent & Hpv & Hqv & Hfr).
  fold p in E, Hp, Hlp, Hpv, Hent. fold entry in Hfr.
  pose proof (nt_va Hr) as Hva. pose proof (nt_dir Hr) as Hdir.
  pose proof Hr as [[(_ & Hok & _) _] _ Hb _ Hl _ _ _ [_ Hc]].
  assert (KERNEL_BASE = 3221225472 /\ PAGE_OFFSET = 1073741824) as [HKB HPO] by done.
  pose proof Hp as (Hp0 & Hp1 & [kp Hkp]). pose proof Hdir as (Hd0 & Hd1 & _).
  destruct (live_apart hl 13 off hl' dir 13 ltac:(lia) Hok Hb Hl) as [Hap _].
  change (2 ^ 13) with 8192 in Hap. change (start kernel_heap) with 3489660927 in Hap.
  assert (p = KERNEL_BASE + 268435456 + off) as Hpe by done.
  set (ti := va / 4096 mod 1024) in *. assert (0 <= ti < 1024) as Hti by lia.
  assert (vld32 (view m1) slot = vld32 (view m) slot) as Hslot
    by (apply vld_ext; intros; apply Hpv; unfold slot in *; lia).
  destruct (set_page_free m1 p ti a l Hk1 Hf1 Hp Hti) as (m' & E' & How & Hf' & Hx);
    [by rewrite <- Hold, <- Hslot|].
  fold slot in How. pose proof How as (Heq & Hhigh & Hv). destruct Hso as [Hhigh1 Heq1].
  exists m'. rewrite E. split; [exact E'|]. split.
  { eapply only_writes_in_kernel; [exact How|done|]. rewrite Heq1. cbn [cr3 set_phys].
    left. pose proof (live_bounds m1 hl' p 13 Hh1 Hlp) as [Hb0 _]. unfold slot. lia. }
  split.
  { apply (live_heap_payload m1 m' hl' p 13 slot 4 Hh1 Hlp); [unfold slot; lia|unfold slot; lia|done]. }
  split; [done|]. split; [done|]. split; [done|]. split; [|split; [|split; [|split]]].
  - rewrite Heq, Heq1. done.
  - intros pa Hpa. rewrite Hhigh, Hhigh1; [done|rewrite <- HPO; done|done].
  - pose proof (Hent (va / 2 ^ 22) ltac:(lia)) as He. rewrite Z.eqb_refl in He. rewrite <- He.
    apply vld_ext. intros x Hxr. apply Hv; [unfold kernel_window; lia|unfold slot; lia].
  - rewrite <- Hx, pread32_view. f_equal. unfold slot. lia.
  - intros x Hxw Hnh Hxe Hxs. rewrite Hv, Hfr by done. done.
Qed.

(** C25. allocate_page for a page without a page table takes a table from the
    kernel heap, where it stays an object in use, and enters it in the directory
    without clearing it.  So the 4 MiB around the page then translate as the
    memory of the table happened to say; the page itself gets the first free
    frame if that memory said nothing about it, and otherwise keeps what it said
    and no frame is taken.  All other addresses translate as before. *)
Theorem allocate_page_new_table m hl hl' off dir va a l :
  new_table_ready m hl hl' off dir va -> free_frames m (a :: l) ->
  let p := KERNEL_BASE + 268435456 + off in
  exists m', allocate_page dir va m = Ok m' /\ in_kernel m' /\
    kernel_heap_at m' hl' /\ live hl' p 13 /\
    free_frames m' (if old_table m p va is Some _ then a :: l else l) /\
    forall va', 0 <= va' < 2 ^ 32 -> walk (phys m') (dir - KERNEL_BASE) va' =
      if va' / 2 ^ 22 =? va / 2 ^ 22 then
        match old_table m p va with
        | None => if va' / 4096 =? va / 4096 then Some (a + PAGE_OFFSET + va' mod 4096)
                  else old_table m p va'
        | Some _ => old_table m p va'
        end
      else walk (phys m) (dir - KERNEL_BASE) va'.
Proof.
  intros Hr Hf p.
  destruct (new_table_installed m hl hl' off dir va a l Hr Hf)
    as (m1 & E & Hso & Hh1 & Hp & Hlp & Hk1 & Hf1 & Hent & Hpv & Hqv & _).
  pose proof Hh1 as [(_ & Hok' & _) _].
  destruct (walk_installed m hl hl' off dir va m1 Hr Hp Hlp Hok' Hent Hpv Hqv)
    as (Hu & Hpriv & Hwalk).
  fold p in E, Hp, Hlp, Hpv, Hu, Hpriv, Hwalk.
  pose proof (nt_va Hr) as Hva. pose proof (nt_dir Hr) as Hdir.
  pose proof (nt_kernel Hr) as [_ Hc].
  assert (KERNEL_BASE = 3221225472 /\ PAGE_OFFSET = 1073741824) as [HKB HPO] by done.
  pose proof Hp as (Hp0 & Hp1 & [kp Hkp]). set (ti := va / 4096 mod 1024) in *.
  assert (0 <= ti < 1024) as Hti by lia.
  assert (vld32 (view m1) (p + 4 * ti) = vld32 (view m) (p + 4 * ti)) as Hslot
    by (apply vld_ext; intros; apply Hpv; lia).
  destruct (old_table m p va) as [f|] eqn:Hold; unfold old_table, entry_maps in Hold;
    fold ti in Hold; destruct (Z.eqb_spec (vld32 (view m) (p + 4 * ti) mod 2) 1); try done.
  - exists m1. rewrite E, set_page_taken by (done || lia).
    by repeat (split; [done|]).
  - destruct (set_page_free m1 p ti a l Hk1 Hf1 Hp Hti) as (m' & E' & How & Hf' & Hx); [lia|].
    exists m'. rewrite E. split; [exact E'|]. split.
    { eapply only_writes_in_kernel; [exact How|done|]. destruct Hso as [_ ->]. cbn.
      left. pose proof (live_bounds m1 hl' p 13 Hh1 Hlp) as [Hb _]. lia. }
    split.
    { apply (live_heap_payload m1 m' hl' p 13 (p + 4 * ti) 4 Hh1 Hlp); [lia|lia|apply How]. }
    split; [done|]. split; [done|]. intros va' Hva'.
    rewrite (walk_update m1 m' dir va a (p - KERNEL_BASE)); try done; try lia.
    + rewrite Hwalk by done. destruct (Z.eqb_spec (va' / 4096) (va / 4096)) as [Hs|Hs]; [|done].
      apply same_page in Hs as [-> _]. by rewrite Z.eqb_refl.
    + destruct Hr as [[(_ & Hok & _) _] _ Hb _ Hl _ _ _ _].
      destruct (live_apart hl 13 off hl' dir 13 ltac:(lia) Hok Hb Hl) as [Hap _].
      change (2 ^ 13) with 8192 in Hap. change (start kernel_heap) with 3489660927 in Hap.
      assert (p = KERNEL_BASE + 268435456 + off) by done. lia.
    + by replace (p - KERNEL_BASE + KERNEL_BASE + 4 * (va / 4096 mod 1024)) with (p + 4 * ti)
        by (unfold ti; lia).
    + cbn [chain free_frames] in Hf. by destruct Hf as [(_ & ? & _) _].
    + by destruct Hf as [(_ & _ & _ & ? & _) _].
Qed.

(** free_page does not free: it looks for the page table 1 GiB too high (it
    subtracts KERNEL_BASE where allocate_page adds it), so under the kernel's
    directory it reads a user frame instead of the table.  When the word there
    has its low bit clear nothing at all happens: a mapped page stays mapped and
    its frame is not returned to the list. *)
Theorem free_page_misses m dir va t :
  in_kernel m -> is_directory dir -> 0 <= va < KERNEL_BASE ->
  user_table m dir (va / 2 ^ 22) = Some t -> t + 4096 <= PAGE_OFFSET ->
  pread32 (phys m) (t + 2 * PAGE_OFFSET + 4 * (va / 4096 mod 1024)) mod 2 = 0 ->
  free_page dir va m = Ok m.
Proof.
  intros Hk Hdir Hva Ht H30 Hx.
  assert (KERNEL_BASE = 3221225472 /\ PAGE_OFFSET = 1073741824) as [HKB HPO] by done.
  pose proof (user_table_range _ _ _ _ Ht) as [Ht0 [kt Hkt]].
  set (ti := va / 4096 mod 1024) in *. assert (0 <= ti < 1024) as Hti by lia.
  unfold free_page. rewrite allocate_page_entry, table_index_eq by done. bnd. fold ti.
  unfold user_table in Ht. set (w := vld32 _ _) in *.
  pose proof (vld_range 4 (view m) (dir + 4 * (va / 2 ^ 22)) (view_range m)) as Hwr. fold w in Hwr.
  destruct (Z.eqb_spec (w mod 2) 1) as [Hp|]; [|done].
  destruct (Z.eqb_spec (w / 128 mod 2) 0) as [H7|]; [|done]. injection Ht as Ht.
  cbn [d_present d_addr decode_pde_4kib]. rewrite !field_mod by lia.
  change (2 ^ 0) with 1. rewrite Z.div_1_r. change (2 ^ 1) with 2. rewrite Hp.
  cbn [Z.eqb Pos.eqb negb]. change (2 ^ 12) with 4096.
  change (2 ^ (8 * Z.of_nat 4)) with 4294967296 in Hwr.
  rewrite (Z.mod_small (w / 4096)) by lia. rewrite shl_int_ok by lia. bnd.
  change (2 ^ 12) with 4096. rewrite Ht.
  assert (u32 (t - KERNEL_BASE) = t + PAGE_OFFSET) as ->.
  { unfold u32. symmetry. apply (Z.mod_unique _ _ (-1)); lia. }
  rewrite (u32_small (t + PAGE_OFFSET + 4 * ti)) by lia.
  rewrite (ld_user 4) by (done || lia). bnd.
  rewrite t_present_mod.
  replace (t + PAGE_OFFSET + 4 * ti + PAGE_OFFSET) with (t + 2 * PAGE_OFFSET + 4 * ti) by lia.
  fold (pread32 (phys m) (t + 2 * PAGE_OFFSET + 4 * ti)). by rewrite Hx.
Qed.
