(* ===== verification/PagingWitness.v ===== *)
(** * Concrete machines on which the paging theorems apply *)

From S2P Require Export PageTables.

#[local] Open Scope Z_scope.

(** The memory that holds a given word at every multiple of four. *)
Definition image (word : Z -> Z) : Z -> Z := fun a =>
  (word (a / 4 * 4) / 2 ^ (8 * (a mod 4))) mod 256.

Lemma pread32_image word a :
  a mod 4 = 0 -> 0 <= word a < 2 ^ 32 -> pread32 (image word) a = word a.
Proof.
  intros Ha Hw. transitivity (word a mod 2 ^ (8 * Z.of_nat 4)); [|by apply Z.mod_small].
  apply vld_shift. intros b Hb. unfold image.
  replace (b / 4 * 4) with a by lia. replace (b mod 4) with (b - a) by lia.
  apply u8_small. apply Z.mod_pos_bound. lia.
Qed.

(** A kernel directory at 1 MiB, one free user frame, the rest as given. *)
Definition sample_word (rest : Z -> Z) (a : Z) : Z :=
  if (1048576 <=? a) && (a <? 1052672) then
    let i := (a - 1048576) / 4 in
    if i <? 768 then 131 + 2 ^ 22 * (i + 256) else 387 + 2 ^ 22 * (i - 768)
  else if a =? PAGE_OFFSET then KERNEL_BASE
  else rest a.

Definition sample_machine (rest : Z -> Z) : machine :=
  boot_machine (image (sample_word rest)) 1048576.

Definition words (rest : Z -> Z) : Prop := forall a, 0 <= rest a < 2 ^ 32.

Lemma sample_read rest a :
  words rest -> a mod 4 = 0 -> pread32 (phys (sample_machine rest)) a = sample_word rest a.
Proof.
  intros Hp Ha. apply pread32_image; [done|]. unfold sample_word, KERNEL_BASE. specialize (Hp a).
  repeat case_match; lia.
Qed.

Lemma sample_in_kernel rest : words rest -> in_kernel (sample_machine rest).
Proof.
  intros Hp. split; [by cbn|]. split; [by cbn|]. split; [by exists 256|].
  intros i Hi. cbn [cr3 sample_machine boot_machine]. rewrite sample_read by (done || lia).
  unfold sample_word. zbool. cbn [andb]. replace ((1048576 + 4 * i - 1048576) / 4) with i by lia.
  by zbool.
Qed.

Lemma sample_frames rest : words rest -> free_frames (sample_machine rest) [0].
Proof.
  intros Hp. split; [|apply NoDup_singleton]. cbn [chain]. split; [done|]. split; [done|].
  split; [by unfold KERNEL_BASE|]. split; [apply Z.divide_0_r|].
  rewrite sample_read by done. by vm_compute.
Qed.

Lemma init_paging_ok_witness :
  exists m', init_paging 3222274048 (fun _ => 3222274048) (set_idt 3222278144
      {| idtr_size := 2047; idtr_offset := 3222278144 |} fresh_machine) = Ok m' /\
    cr3 m' = 1048576 /\
    (forall va, 0 <= va < KERNEL_BASE -> walk (phys m') (cr3 m') va = Some (va + PAGE_OFFSET)) /\
    (forall va, kernel_window va -> walk (phys m') (cr3 m') va = Some (va - KERNEL_BASE)) /\
    free_frames m' (frames 0 786432) /\
    gate_at m' 14 = interrupt_gate 3222274048 /\
    (forall a, kernel_window a -> a < 3222274048 \/ 3222274048 + 4096 <= a ->
       a < 3222278144 \/ 3222278144 + 2048 <= a -> view m' a = view fresh_machine a).
Proof.
  apply (init_paging_ok 3222274048 (fun _ => 3222274048) (set_idt 3222278144
    {| idtr_size := 2047; idtr_offset := 3222278144 |} fresh_machine));
    cbn [idt set_idt]; try (by vm_compute); try lia.
  by exists 786688.
Defined.

(** A directory at 2 MiB whose entry 0 points to an empty table at 2 MiB + 4 KiB. *)
Definition table_word (a : Z) : Z := if a =? 2097152 then 2101255 else 0.
Definition table_machine : machine := sample_machine table_word.
Lemma table_words : words table_word.
Proof. intros a. unfold table_word. case_match; lia. Qed.
Definition sample_dir : Z := KERNEL_BASE + 2097152.

Lemma sample_directory : is_directory sample_dir.
Proof. split; [by unfold sample_dir, KERNEL_BASE|]. split; [by vm_compute|by exists 786944]. Qed.

Lemma table_machine_table i :
  0 <= i < 1024 -> user_table table_machine sample_dir i = if i =? 0 then Some 2101248 else None.
Proof.
  intros Hi. unfold user_table, table_machine, sample_dir.
  rewrite view_pread32, sample_read by (apply table_words || (unfold KERNEL_BASE; lia)).
  unfold sample_word, table_word, KERNEL_BASE, PAGE_OFFSET.
  destruct (Z.eqb_spec i 0) as [->|Hne]; [done|]. by zbool.
Qed.

Lemma table_machine_unmapped :
  walk (phys table_machine) (sample_dir - KERNEL_BASE) 4096 = None.
Proof. by vm_compute. Qed.

Lemma allocate_page_maps_witness :
  exists m', allocate_page sample_dir 4096 table_machine = Ok m' /\ in_kernel m' /\
    free_frames m' [] /\ (forall pa, PAGE_OFFSET <= pa -> phys m' pa = phys table_machine pa) /\
    forall va', 0 <= va' < 2 ^ 32 ->
      walk (phys m') (sample_dir - KERNEL_BASE) va' =
        if va' / 4096 =? 4096 / 4096 then Some (0 + PAGE_OFFSET + va' mod 4096)
        else walk (phys table_machine) (sample_dir - KERNEL_BASE) va'.
Proof.
  apply (allocate_page_maps table_machine sample_dir 4096 0 [] 2101248).
  - apply sample_in_kernel, table_words.
  - apply sample_frames, table_words.
  - apply sample_directory.
  - by vm_compute.
  - by vm_compute.
  - by vm_compute.
  - by vm_compute.
  - by vm_compute.
  - apply table_machine_unmapped.
  - intros i Hi Hne. rewrite table_machine_table by done.
    change (4096 / 2 ^ 22) with 0 in Hne. by destruct (Z.eqb_spec i 0).
Defined.

Lemma allocate_page_refuses_witness :
  allocate_page sample_dir (KERNEL_BASE + 4096) table_machine = Ok table_machine.
Proof.
  apply (allocate_page_refuses table_machine sample_dir (KERNEL_BASE + 4096) [0]).
  - apply sample_frames, table_words.
  - apply sample_directory.
  - by vm_compute.
  - right. left. by vm_compute.
Defined.

Lemma free_page_misses_witness : free_page sample_dir 4096 table_machine = Ok table_machine.
Proof.
  apply (free_page_misses table_machine sample_dir 4096 2101248).
  - apply sample_in_kernel, table_words.
  - apply sample_directory.
  - by vm_compute.
  - by vm_compute.
  - by vm_compute.
  - by vm_compute.
Defined.

(** A kernel heap whose first block holds an empty directory and the rest of
    which is free. *)
Definition heap_word (a : Z) : Z :=
  let d := a - 268435452 in
  let k := Z.log2 d in
  if a =? 268435452 then 141 * 2 ^ 24
  else if (13 <=? k) && (k <? 29) && (d =? 2 ^ k) then k * 2 ^ 24 else 0.
Definition heap_machine : machine := sample_machine heap_word.
Definition heap_dir : Z := KERNEL_BASE + 268435456.

Lemma heap_words : words heap_word.
Proof. intros a. unfold heap_word. repeat case_match; lia. Qed.

Lemma heap_machine_entry i :
  0 <= i < 1024 -> vld32 (view heap_machine) (heap_dir + 4 * i) = 0.
Proof.
  intros Hi. unfold heap_machine, heap_dir.
  rewrite view_pread32, sample_read by (apply heap_words || (unfold KERNEL_BASE; lia)).
  unfold sample_word, heap_word, KERNEL_BASE, PAGE_OFFSET. zbool. cbn [andb].
  set (d := 3221225472 + 268435456 + 4 * i - 3221225472 - 268435452).
  destruct (Z.leb_spec 13 (Z.log2 d)) as [Hk|]; [|done].
  assert (2 ^ 13 <= d) as Hd by (apply Z.log2_le_pow2; unfold d in *; lia).
  unfold d in Hd. lia.
Qed.

Lemma heap_machine_heap : kernel_heap_at heap_machine (Block 13 true :: frees 13 29).
Proof.
  split; [|split; [apply Z.divide_0_r|]; apply (aligned_frees 0 13 29); [lia|lia|apply Z.divide_0_r]].
  split; [by vm_compute|]. split; [by repeat constructor; cbn; lia|].
  split; [by apply kernel_in_win|by vm_compute].
Qed.

Lemma allocate_page_new_table_witness :
  let p := KERNEL_BASE + 268435456 + 8192 in
  exists m', allocate_page heap_dir 0 heap_machine = Ok m' /\ in_kernel m' /\
    kernel_heap_at m' (Block 13 true :: Block 13 true :: frees 14 29) /\
    live (Block 13 true :: Block 13 true :: frees 14 29) p 13 /\
    free_frames m' (if old_table heap_machine p 0 is Some _ then [0] else []) /\
    forall va', 0 <= va' < 2 ^ 32 -> walk (phys m') (heap_dir - KERNEL_BASE) va' =
      if va' / 2 ^ 22 =? 0 / 2 ^ 22 then
        match old_table heap_machine p 0 with
        | None => if va' / 4096 =? 0 / 4096 then Some (0 + PAGE_OFFSET + va' mod 4096)
                  else old_table heap_machine p va'
        | Some _ => old_table heap_machine p va'
        end
      else walk (phys heap_machine) (heap_dir - KERNEL_BASE) va'.
Proof.
  apply (allocate_page_new_table heap_machine (Block 13 true :: frees 13 29)
    (Block 13 true :: Block 13 true :: frees 14 29) 8192 heap_dir 0 0 []);
    [|apply sample_frames, heap_words].
  constructor.
  - apply heap_machine_heap.
  - by vm_compute.
  - by vm_compute.
  - split; [by vm_compute|]. split; [by vm_compute|by exists 851968].
  - unfold live. cbn. apply elem_of_cons. by left.
  - by vm_compute.
  - by vm_compute.
  - intros i t Hi Ht. unfold user_table in Ht. rewrite heap_machine_entry in Ht by done. done.
  - split; [apply sample_in_kernel, heap_words|by vm_compute].
Defined.
