(* ===== verification/Process.v ===== *)
(** * kernel/proc/process.c and process.s: processes and the context switch

    A process descriptor is 85 bytes of the kernel heap, read and written through
    the pointers the C code follows, so that the queue is a ring of pointers in
    memory.  switch_context leaves the kernel: its result is the machine and the
    [context] the processor goes on with; a switch_process that returns to its
    caller has no context. *)

From S2P Require Export Paging.

#[local] Open Scope Z_scope.

Definition RING_KERNEL : Z := 0.
Definition PROCESS_RUNNING : Z := 0.
Definition PROCESS_HALTED : Z := 1.

(** ** [struct process_desc]: offsets of its fields *)

Definition o_frame : Z := 0.
Definition o_gen_regs : Z := 20.
Definition o_seg_regs : Z := 52.
Definition o_esp0 : Z := 68.
Definition o_page_directory : Z := 72.
Definition o_prev : Z := 76.
Definition o_next : Z := 80.
Definition o_state : Z := 84.
Definition sizeof_process_desc : Z := 85.

(** Offsets within the frame and the general registers. *)
Definition o_eip : Z := 0.
Definition o_cs : Z := 4.
Definition o_eflags : Z := 8.
Definition o_esp : Z := 12.
Definition o_ss : Z := 16.
Definition o_g_ebp : Z := 8.
Definition o_g_esp : Z := 28.

Section Fields.
Context {S : Type} {HS : Store S}.

(** [n] consecutive words. *)
Fixpoint ldws (n : nat) (s : S) (a : Z) : res (list Z) :=
  match n with
  | O => mret []
  | Datatypes.S n => w ← ld32 s a; l ← ldws n s (u32 (a + 4)); mret (w :: l)
  end.
Fixpoint stws (s : S) (a : Z) (l : list Z) : res S :=
  match l with
  | [] => mret s
  | w :: l => s ← st32 s a w; stws s (u32 (a + 4)) l
  end.
End Fields.

Definition words_of_frame (f : interrupt_frame) : list Z :=
  [f_eip f; f_cs f; f_eflags f; f_esp f; f_ss f].
Definition frame_of_words (l : list Z) : interrupt_frame :=
  {| f_eip := nth 0 l 0; f_cs := nth 1 l 0; f_eflags := nth 2 l 0; f_esp := nth 3 l 0;
     f_ss := nth 4 l 0 |}.
Definition words_of_gen (g : gen_register_set) : list Z :=
  [g_edi g; g_esi g; g_ebp g; g_ebx g; g_edx g; g_ecx g; g_eax g; g_esp g].
Definition gen_of_words (l : list Z) : gen_register_set :=
  {| g_edi := nth 0 l 0; g_esi := nth 1 l 0; g_ebp := nth 2 l 0; g_ebx := nth 3 l 0;
     g_edx := nth 4 l 0; g_ecx := nth 5 l 0; g_eax := nth 6 l 0; g_esp := nth 7 l 0 |}.
Definition words_of_seg (s : seg_register_set) : list Z := [s_ds s; s_es s; s_fs s; s_gs s].
Definition seg_of_words (l : list Z) : seg_register_set :=
  {| s_ds := nth 0 l 0; s_es := nth 1 l 0; s_fs := nth 2 l 0; s_gs := nth 3 l 0 |}.

(** ** process.s *)

(** Where execution goes on: at the frame popped, or, when the saved stack
    pointer is not zero, at the one found on that stack. *)
Inductive resume :=
  | FromFrame (f : interrupt_frame)
  | FromStack (esp : Z).

Record context := {
  ctx_seg : seg_register_set;
  ctx_gen : gen_register_set;
  ctx_resume : resume }.

Definition switch_context (seg_regs : seg_register_set) (gen_regs : gen_register_set)
    (frame : interrupt_frame) (page_directory : Z) (m : machine) : machine * context :=
  (* Notify of finished interrupt *)
  let m := set_ports (ports m ++ [(32, 32)]) m in
  (* Change page directory *)
  let m := set_cr3 (u32 page_directory) m in
  (* Pop segments and general registers, sti, iret *)
  (set_interrupts true m,
   {| ctx_seg := seg_regs; ctx_gen := gen_regs;
      ctx_resume := if g_esp gen_regs =? 0 then FromFrame frame else FromStack (g_esp gen_regs) |}).

(** ** process.c *)

(** [current_process->field] *)
Definition get_current (off : Z) (m : machine) : res Z := ld32 m (u32 (current_process m + off)).
Definition put_current (off v : Z) (m : machine) : res machine :=
  st32 m (u32 (current_process m + off)) v.

(** Init processes *)
Definition init_processes (m : machine) : machine := set_current 0 m.

(** The two calls that end force_enter_userland and switch_process. *)
Definition enter_current (m : machine) : res (machine * context) :=
  esp0 ← get_current o_esp0 m;
  let m := set_gdt (set_tss_stack esp0 (gdt_st m)) m in
  seg ← ldws 4 m (u32 (current_process m + o_seg_regs));
  gen ← ldws 8 m (u32 (current_process m + o_gen_regs));
  frame ← ldws 5 m (u32 (current_process m + o_frame));
  pd ← get_current o_page_directory m;
  mret (switch_context (seg_of_words seg) (gen_of_words gen) (frame_of_words frame)
          (u32 (pd - KERNEL_BASE)) m).

(** Force enter userland *)
Definition force_enter_userland (m : machine) : res (machine * context) := enter_current m.

(** The first branch of switch_process: freeze registers, or delete the process. *)
Definition leave_current (seg_regs : seg_register_set) (gen_regs : gen_register_set)
    (frame : interrupt_frame) (m : machine) : res machine :=
  state ← rd8 m (u32 (current_process m + o_state));
  if state =? PROCESS_RUNNING then
    m ← stws m (u32 (current_process m + o_frame)) (words_of_frame frame);
    m ← stws m (u32 (current_process m + o_seg_regs)) (words_of_seg seg_regs);
    stws m (u32 (current_process m + o_gen_regs)) (words_of_gen gen_regs)
  else if state =? 2 then
    (* On state ended, delete process *)
    esp ← get_current (o_frame + o_esp) m;
    m ← kernel_free m esp;
    m ← kernel_free m (current_process m);
    (* Clear current_process *)
    next ← get_current o_next m;
    if current_process m =? next then mret (set_current 0 m)
    else
      prev ← get_current o_prev m;
      m ← st32 m (u32 (prev + o_next)) next;
      next ← get_current o_next m;
      prev ← get_current o_prev m;
      st32 m (u32 (next + o_prev)) prev
  else mret m.

(** Update stack, depending on the interrupted privilege level. *)
Definition note_stack (priv_level : Z) (m : machine) : res machine :=
  if priv_level =? RING_KERNEL then
    m ← put_current (o_frame + o_ss) 16 m;
    esp ← get_current (o_gen_regs + o_g_esp) m;
    put_current (o_frame + o_esp) esp m
  else put_current (o_gen_regs + o_g_esp) 0 m.

(** Skip all halted processes: one iteration of the loop. *)
Definition advance_body (m : machine) : res (machine + machine) :=
  next ← get_current o_next m;
  let m := set_current next m in
  state ← rd8 m (u32 (current_process m + o_state));
  if state =? PROCESS_HALTED then mret (inl m) else mret (inr m).

(** Switch context *)
Definition switch_process (seg_regs : seg_register_set) (gen_regs : gen_register_set)
    (frame : interrupt_frame) (m : machine) : res (machine * option context) :=
  (* No process is no switch *)
  if current_process m =? 0 then mret (m, None)
  else
    next ← get_current o_next m;
    if next =? current_process m then mret (m, None)
    else
      (* Get priv level of interrupted thread *)
      let priv_level := u8 (Z.land (f_cs frame) 3) in
      m ← leave_current seg_regs gen_regs frame m;
      m ← note_stack priv_level m;
      (* Update current process *)
      m ← loop advance_body m;
      (* Set TSS and switch *)
      '(m, ctx) ← enter_current m;
      mret (m, Some ctx).

(** The stores of create_process to the fields of the new process, in order. *)
Definition initial_stores (eip : Z) : list (Z * Z) :=
  let code_segment := Z.lor 24 3 in
  let data_segment := Z.lor 32 3 in
  [(o_frame + o_eip, eip); (o_frame + o_cs, code_segment); (o_frame + o_eflags, Z.shiftl 1 9);
   (o_frame + o_esp, KERNEL_BASE - 4); (o_frame + o_ss, data_segment);
   (o_seg_regs, data_segment); (o_seg_regs + 4, data_segment); (o_seg_regs + 8, data_segment);
   (o_seg_regs + 12, data_segment);
   (o_gen_regs, 0); (o_gen_regs + 4, 0); (o_gen_regs + o_g_ebp, KERNEL_BASE - 4);
   (o_gen_regs + 12, 0); (o_gen_regs + 16, 0); (o_gen_regs + 20, 0); (o_gen_regs + 24, 0);
   (o_gen_regs + o_g_esp, 0)].

Fixpoint store_fields (p : Z) (l : list (Z * Z)) (m : machine) : res machine :=
  match l with
  | [] => mret m
  | (off, v) :: l => m ← st32 m (u32 (p + off)) v; store_fields p l m
  end.

(** The first instructions of a process: a jump to itself. *)
Definition first_code : list Z := [233; 251; 255; 255; 255].

Fixpoint store_bytes (a : Z) (l : list Z) (m : machine) : res machine :=
  match l with
  | [] => mret m
  | b :: l => m ← wr8 m a b; store_bytes (a + 1) l m
  end.

(** Insert process into process queue *)
Definition enqueue (new_process : Z) (m : machine) : res machine :=
  if current_process m =? 0 then
    let m := set_current new_process m in
    m ← put_current o_next new_process m;
    put_current o_prev new_process m
  else
    m ← st32 m (u32 (new_process + o_next)) (current_process m);
    prev ← get_current o_prev m;
    m ← st32 m (u32 (new_process + o_prev)) prev;
    prev ← get_current o_prev m;
    m ← st32 m (u32 (prev + o_next)) new_process;
    put_current o_prev new_process m.

Section Create.
Context (kernel_memory : Z).

(** Create a process *)
Definition create_process (eip : Z) (m : machine) : res machine :=
  '(m, new_process) ← kernel_allocate m sizeof_process_desc;
  m ← store_fields new_process (initial_stores eip) m;
  (* Get new kernel stack *)
  '(m, stack) ← kernel_allocate m 4096;
  m ← st32 m (u32 (new_process + o_esp0)) (u32 (stack + 4092));
  (* Set the page directory *)
  '(m, page_directory) ← kernel_allocate m (4 * 1024);
  m ← st32 m (u32 (new_process + o_page_directory)) page_directory;
  (* Copy kernel space to user space *)
  m ← for_loop 0 256 (fun i m =>
        pd ← ld32 m (u32 (new_process + o_page_directory));
        w ← ld32 m (entry_addr kernel_memory (i + 768));
        st32 m (u32 (pd + 4 * (i + 768))) w) m;
  (* Allocate stack page *)
  pd ← ld32 m (u32 (new_process + o_page_directory));
  m ← allocate_page pd (KERNEL_BASE - PAGE_SIZE_4K) m;
  (* Allocate first page *)
  pd ← ld32 m (u32 (new_process + o_page_directory));
  m ← allocate_page pd 0 m;
  pd ← ld32 m (u32 (new_process + o_page_directory));
  let m := enable_paging (u32 (pd - KERNEL_BASE)) m in
  m ← store_bytes 0 first_code m;
  let m := enable_paging (u32 (kernel_memory - KERNEL_BASE)) m in
  (* Set state of process as running *)
  m ← wr8 m (u32 (new_process + o_state)) 0;
  enqueue new_process m.
End Create.

(** End a process *)
Definition update_process (state : Z) (m : machine) : res machine :=
  wr8 m (u32 (current_process m + o_state)) state.
