(* ===== verification/ProcessLemmas.v ===== *)
(** * The process queue

    The ring of descriptors in memory, the abstract round robin on lists
    ([schedule]), and the accesses of process.c to descriptors. *)

From S2P Require Export Process.

#[local] Open Scope Z_scope.

(** ** Arrays of words *)

Fixpoint vldws (n : nat) (v : Z -> Z) (a : Z) : list Z :=
  match n with
  | O => []
  | S n => vld32 v a :: vldws n v (a + 4)
  end.

Lemma vldws_length n v a : length (vldws n v a) = n.
Proof. revert a; induction n as [|n IH]; intros a; cbn; [done|]. by rewrite IH. Qed.

Lemma vldws_lookup n v a (k : nat) :
  (k < n)%nat -> vldws n v a !! k = Some (vld32 v (a + 4 * Z.of_nat k)).
Proof.
  revert a k; induction n as [|n IH]; intros a k Hk; [lia|]. destruct k as [|k]; cbn [vldws].
  - cbn [lookup list_lookup]. do 2 f_equal. lia.
  - change ((vld32 v a :: vldws n v (a + 4)) !! S k) with (vldws n v (a + 4) !! k).
    rewrite IH by lia. do 2 f_equal. lia.
Qed.

Lemma vldws_ext n v v' a :
  (forall b, a <= b < a + 4 * Z.of_nat n -> v b = v' b) -> vldws n v a = vldws n v' a.
Proof.
  revert a; induction n as [|n IH]; intros a H; [done|]. cbn [vldws]. f_equal.
  - apply vld_ext. intros b Hb. apply H. lia.
  - apply IH. intros b Hb. apply H. lia.
Qed.

(** Storing one word of an array. *)
Lemma vldws_vst n v a (k : nat) x :
  (k < n)%nat -> vldws n (vst 4 v (a + 4 * Z.of_nat k) x) a = <[k := u32 x]> (vldws n v a).
Proof.
  intros Hk. apply list_eq. intros i.
  destruct (decide (i < n)%nat) as [Hi|Hi].
  - rewrite vldws_lookup by done. destruct (decide (i = k)) as [->|Hne].
    + rewrite list_lookup_insert_eq by (by rewrite vldws_length). by rewrite vld_vst_same.
    + rewrite list_lookup_insert_ne, vldws_lookup by done. f_equal. apply vld_vst_other. lia.
  - rewrite !lookup_ge_None_2; [done|rewrite length_insert|]; rewrite vldws_length; lia.
Qed.

Section Arrays.
Context {S : Type} {HS : Store S} {win : Z -> Prop} {HW : Window S win}.
Implicit Types (s : S).

Lemma ldws_win n s a : in_win win a (4 * Z.of_nat n) -> ldws n s a = Ok (vldws n (view s) a).
Proof.
  revert a; induction n as [|n IH]; intros a Hw; [done|]. cbn [ldws vldws].
  rewrite (ldn_win 4) by (eapply in_win_sub; [exact Hw|lia|lia]). bnd.
  destruct n as [|n]; [done|]. pose proof Hw as (? & ? & _). rewrite u32_small by lia.
  rewrite IH by (eapply in_win_sub; [exact Hw|lia|lia]). done.
Qed.

Lemma stws_win s a l :
  in_win win a (4 * Z.of_nat (length l)) ->
  exists s', stws s a l = Ok s' /\ outside s s' /\
    vldws (length l) (view s') a = u32 <$> l /\
    (forall b, win b -> b < a \/ a + 4 * Z.of_nat (length l) <= b -> view s' b = view s b).
Proof.
  revert s a; induction l as [|w l IH]; intros s a Hw; cbn [length] in Hw.
  { exists s. by split. }
  destruct (stn_win 4 s a w) as (s1 & E1 & O1 & V1);
    [eapply in_win_sub; [exact Hw|lia|lia]|].
  cbn [stws length vldws fmap list_fmap]. rewrite E1. bnd. pose proof Hw as (H0 & H1 & Hb).
  assert (exists s', stws s1 (u32 (a + 4)) l = Ok s' /\ outside s1 s' /\
    vldws (length l) (view s') (a + 4) = u32 <$> l /\
    forall b, win b -> b < a + 4 \/ a + 4 + 4 * Z.of_nat (length l) <= b -> view s' b = view s1 b)
    as (s' & E' & O' & V' & F').
  { destruct l as [|w' l]; [exists s1; by split|]. cbn [length] in *. rewrite u32_small by lia.
    apply IH. eapply in_win_sub; [exact Hw|lia|cbn [length]; lia]. }
  exists s'. split; [exact E'|]. split; [by etrans|]. split.
  - f_equal; [|exact V'].
    rewrite (vld_ext 4 (view s') (vst 4 (view s) a w)), vld_vst_same; [done|].
    intros b Hbr. rewrite F' by (first [apply Hb; lia | lia]). apply V1, Hb. lia.
  - intros b Hbw Hbo. rewrite F', V1 by (done || lia). by rewrite vst_out by lia.
Qed.
End Arrays.

(** ** Descriptors *)

Definition fld (m : machine) (p off : Z) : Z := vld32 (view m) (p + off).
Definition pstate (m : machine) (p : Z) : Z := view m (p + o_state).

(** What a descriptor holds of an interrupted execution. *)
Record saved_context := {
  sv_seg : seg_register_set; sv_gen : gen_register_set; sv_frame : interrupt_frame }.

Definition saved (m : machine) (p : Z) : saved_context :=
  {| sv_seg := seg_of_words (vldws 4 (view m) (p + o_seg_regs));
     sv_gen := gen_of_words (vldws 8 (view m) (p + o_gen_regs));
     sv_frame := frame_of_words (vldws 5 (view m) (p + o_frame)) |}.

Definition context_of (c : saved_context) : context :=
  {| ctx_seg := sv_seg c; ctx_gen := sv_gen c;
     ctx_resume := if g_esp (sv_gen c) =? 0 then FromFrame (sv_frame c)
                   else FromStack (g_esp (sv_gen c)) |}.

Definition desc_ok (p : Z) : Prop :=
  KERNEL_BASE <= p /\ p + sizeof_process_desc <= 4294967296.

Definition descs_apart (p q : Z) : Prop :=
  p + sizeof_process_desc <= q \/ q + sizeof_process_desc <= p.

Lemma desc_win p off n :
  desc_ok p -> 0 <= off -> off + n <= sizeof_process_desc -> in_win kernel_window (p + off) n.
Proof. intros [H0 H1] Ho Hn. apply kernel_in_win; lia. Qed.

(** The memory of the descriptor [p] after its first 68 bytes is untouched, as is
    everything else. *)
Definition regs_only (m m' : machine) (p : Z) : Prop :=
  same_outside m m' /\
  forall b, kernel_window b -> b < p \/ p + o_esp0 <= b -> view m' b = view m b.

Lemma regs_only_refl m p : regs_only m m p.
Proof. split; [|done]. split; [done|]. by rewrite set_phys_id. Qed.

Lemma regs_only_trans m1 m2 m3 p : regs_only m1 m2 p -> regs_only m2 m3 p -> regs_only m1 m3 p.
Proof.
  intros [O1 V1] [O2 V2]. split; [by apply (same_outside_trans m1 m2)|].
  intros b Hb Ho. by rewrite V2, V1.
Qed.

Lemma regs_only_current m m' p : regs_only m m' p -> current_process m' = current_process m.
Proof. by intros [[_ ->] _]. Qed.

(** Fields beyond the registers, and other descriptors. *)
Lemma regs_only_fld m m' p off :
  regs_only m m' p -> desc_ok p -> o_esp0 <= off -> off + 4 <= sizeof_process_desc ->
  fld m' p off = fld m p off.
Proof.
  intros [_ Hv] Hp H0 H1. destruct (desc_win p off 4 Hp) as (_ & _ & Hw);
    [unfold o_esp0 in H0; lia|done|].
  apply vld_ext. intros b Hb. apply Hv; [apply Hw; lia|lia].
Qed.

Lemma regs_only_state m m' p : regs_only m m' p -> desc_ok p -> pstate m' p = pstate m p.
Proof.
  intros [_ Hv] Hp. destruct (desc_win p o_state 1 Hp) as (_ & _ & Hw); [done|done|].
  apply Hv; [apply Hw; lia|]. unfold o_state, o_esp0. lia.
Qed.

Lemma regs_only_other m m' p q b :
  regs_only m m' p -> desc_ok q -> descs_apart p q -> q <= b < q + sizeof_process_desc ->
  view m' b = view m b.
Proof.
  intros [_ Hv] [H0 H1] Ha Hb. unfold descs_apart, sizeof_process_desc in *.
  apply Hv; [unfold kernel_window; lia|]. unfold o_esp0. lia.
Qed.

(** ** The ring *)

(** Consecutive elements are linked both ways. *)
Fixpoint linked (m : machine) (l : list Z) : Prop :=
  match l with
  | p :: ((q :: _) as l') => fld m p o_next = q /\ fld m q o_prev = p /\ linked m l'
  | _ => True
  end.

(** The descriptors of [l] form the queue, in this order. *)
Definition ring (m : machine) (l : list Z) : Prop :=
  Forall desc_ok l /\ NoDup l /\
  (forall p q, p ∈ l -> q ∈ l -> p <> q -> descs_apart p q) /\
  match l with [] => False | p :: _ => linked m (l ++ [p]) end.

Lemma linked_cons m p q l :
  linked m (p :: q :: l) <-> fld m p o_next = q /\ fld m q o_prev = p /\ linked m (q :: l).
Proof. done. Qed.

Lemma linked_app m l1 x l2 :
  linked m (l1 ++ x :: l2) <-> linked m (l1 ++ [x]) /\ linked m (x :: l2).
Proof.
  induction l1 as [|a l1 IH]; [cbn; tauto|].
  destruct l1 as [|b l1].
  - cbn [app]. rewrite !linked_cons. cbn. tauto.
  - cbn [app] in *. rewrite !linked_cons, IH. tauto.
Qed.

Lemma ring_rotate m l1 x l2 : ring m (l1 ++ x :: l2) -> ring m (x :: l2 ++ l1).
Proof.
  intros (Hd & Hn & Ha & Hl).
  assert (l1 ++ x :: l2 ≡ₚ x :: l2 ++ l1) as Hp
    by (rewrite Permutation_app_comm; done).
  split; [by rewrite <- Hp|]. split; [by rewrite <- Hp|]. split.
  { intros p q. rewrite <- Hp. apply Ha. }
  destruct l1 as [|a l1]; [by rewrite app_nil_r|]. cbn [app] in Hl.
  rewrite <- app_assoc in Hl. cbn [app] in Hl.
  change (a :: l1 ++ x :: l2 ++ [a]) with ((a :: l1) ++ x :: l2 ++ [a]) in Hl.
  apply linked_app in Hl as [H1 H2].
  change ((x :: l2 ++ a :: l1) ++ [x]) with (x :: (l2 ++ a :: l1) ++ [x]).
  rewrite <- app_assoc. change (x :: l2 ++ (a :: l1) ++ [x]) with ((x :: l2) ++ a :: l1 ++ [x]).
  apply linked_app. split; [exact H2|exact H1].
Qed.

Lemma linked_ext m m' l :
  Forall desc_ok l ->
  (forall p off, p ∈ l -> off = o_next \/ off = o_prev -> fld m' p off = fld m p off) ->
  linked m l -> linked m' l.
Proof.
  intros Hd Hf. induction l as [|p l IH]; [done|]. destruct l as [|q l]; [done|].
  rewrite !linked_cons. intros (Hn & Hp & Hl). apply Forall_cons in Hd as [_ Hd].
  rewrite !Hf by (try (by left); try (by right); rewrite ?elem_of_cons; tauto).
  split; [done|]. split; [done|]. apply IH; [done| |done].
  intros r off Hr. apply Hf. apply elem_of_cons. by right.
Qed.

Lemma ring_ext m m' l :
  (forall p off, p ∈ l -> off = o_next \/ off = o_prev -> fld m' p off = fld m p off) ->
  ring m l -> ring m' l.
Proof.
  intros Hf (Hd & Hn & Ha & Hl). split; [done|]. split; [done|]. split; [done|].
  destruct l as [|p l]; [done|]. eapply linked_ext; [| |exact Hl].
  - apply Forall_app. split; [done|]. apply Forall_cons in Hd as [? _]. by apply Forall_singleton.
  - intros q off Hq. apply Hf. rewrite elem_of_app, list_elem_of_singleton in Hq.
    destruct Hq as [Hq|Hq]; [done|]. subst q. by left.
Qed.

(** Descriptors are few. *)
Lemma ring_length m l : ring m l -> Z.of_nat (length l) <= 4294967296.
Proof.
  intros (Hd & Hn & _). assert (l ⊆+ seqZ 0 4294967296) as Hs.
  { apply NoDup_submseteq; [done|]. intros x Hx. rewrite Forall_forall in Hd.
    destruct (Hd _ Hx) as [H0 H1]. unfold KERNEL_BASE, sizeof_process_desc in *.
    apply elem_of_seqZ. lia. }
  apply submseteq_length in Hs. rewrite length_seqZ in Hs. lia.
Qed.

(** ** Round robin on lists *)

Fixpoint rotate_to (f : Z -> bool) (skipped l : list Z) : option (list Z) :=
  match l with
  | [] => None
  | q :: l => if f q then Some (q :: l ++ skipped) else rotate_to f (skipped ++ [q]) l
  end.

Definition runnable (st : Z -> Z) (p : Z) : bool := negb (st p =? PROCESS_HALTED).

(** The queue after a switch: from the process after the head on, the head last,
    the first one that is not halted; [None] when all are halted. *)
Definition schedule (st : Z -> Z) (l : list Z) : option (list Z) :=
  match l with
  | [] => None
  | p :: ps => rotate_to (runnable st) [] (ps ++ [p])
  end.

Lemma rotate_to_spec f s l r :
  rotate_to f s l = Some r ->
  exists a q b, l = a ++ q :: b /\ r = q :: b ++ s ++ a /\ f q = true /\
    Forall (fun x => f x = false) a.
Proof.
  revert s; induction l as [|x l IH]; intros s; cbn; [done|].
  destruct (f x) eqn:Hx.
  - intros [= <-]. exists [], x, l. rewrite app_nil_r. by split.
  - intros H. apply IH in H as (a & q & b & -> & -> & Hq & Ha).
    exists (x :: a), q, b. rewrite <- app_assoc. cbn. split; [done|]. split; [done|].
    split; [done|]. by constructor.
Qed.

Lemma rotate_to_none f s l : rotate_to f s l = None <-> Forall (fun x => f x = false) l.
Proof.
  revert s; induction l as [|x l IH]; intros s; cbn; [done|]. rewrite Forall_cons.
  destruct (f x) eqn:Hx; [split; [done|by intros []]|]. rewrite IH. tauto.
Qed.

Lemma rotate_to_ext f g s l :
  (forall x, x ∈ l -> f x = g x) -> rotate_to f s l = rotate_to g s l.
Proof.
  revert s; induction l as [|x l IH]; intros s H; cbn; [done|].
  rewrite (H x) by (by left). destruct (g x); [done|]. apply IH. intros y Hy. apply H. by right.
Qed.

Lemma schedule_perm st l r : schedule st l = Some r -> r ≡ₚ l.
Proof.
  destruct l as [|p ps]; cbn [schedule]; [done|]. intros H.
  apply rotate_to_spec in H as (a & q & b & Ha & -> & _). cbn [app].
  rewrite <- (Permutation_app_comm ps [p]), Ha. symmetry. rewrite Permutation_app_comm. done.
Qed.

Lemma schedule_elem st l q r : schedule st l = Some (q :: r) -> q ∈ l.
Proof. intros H. apply schedule_perm in H. rewrite <- H. by left. Qed.

(** A running head is always found again. *)
Lemma schedule_running st p ps :
  st p = PROCESS_RUNNING -> exists q r, schedule st (p :: ps) = Some (q :: r).
Proof.
  intros Hp. cbn [schedule]. destruct (rotate_to (runnable st) [] (ps ++ [p])) as [r|] eqn:E.
  - pose proof E as E'. apply rotate_to_spec in E' as (a & q & b & _ & -> & _). by eexists _, _.
  - apply rotate_to_none, Forall_app in E as [_ E]. apply Forall_cons in E as [E _].
    unfold runnable in E. by rewrite Hp in E.
Qed.

Lemma schedule_next st p x ps :
  st x <> PROCESS_HALTED -> schedule st (p :: x :: ps) = Some (x :: ps ++ [p]).
Proof.
  intros Hx. cbn [schedule app rotate_to]. unfold runnable.
  destruct (Z.eqb_spec (st x) PROCESS_HALTED); [done|]. cbn. by rewrite app_nil_r.
Qed.
