(* ===== verification/SwitchLemmas.v ===== *)
(** * switch_process: the steps

    What saving the registers, noting the stack, advancing in the ring and
    entering the next process do to the descriptors. *)

From S2P Require Export ProcessLemmas.

#[local] Open Scope Z_scope.

(** ** Accesses to a descriptor *)

Lemma desc_addr p off n :
  desc_ok p -> 0 <= off -> 0 < n -> off + n <= sizeof_process_desc -> u32 (p + off) = p + off.
Proof.
  intros [H0 H1] Ho Hn Hs. unfold KERNEL_BASE, sizeof_process_desc in *. apply u32_small. lia.
Qed.

Lemma get_current_win (m : machine) off :
  desc_ok (current_process m) -> 0 <= off -> off + 4 <= sizeof_process_desc ->
  get_current off m = Ok (fld m (current_process m) off).
Proof.
  intros Hd H0 H1. unfold get_current. rewrite (desc_addr _ _ 4) by (done || lia).
  apply (ldn_win (win := kernel_window) 4). by apply desc_win.
Qed.

Lemma get_state_win (m : machine) p : desc_ok p -> rd8 m (u32 (p + o_state)) = Ok (pstate m p).
Proof.
  intros Hd. rewrite (desc_addr _ _ 1) by done.
  destruct (desc_win p o_state 1 Hd) as (_ & _ & Hw); [done|done|].
  apply (rd8_win (win := kernel_window)). apply Hw. lia.
Qed.

Lemma ldws_desc (m : machine) p off n :
  desc_ok p -> 0 <= off -> (0 < n)%nat -> off + 4 * Z.of_nat n <= sizeof_process_desc ->
  ldws n m (u32 (p + off)) = Ok (vldws n (view m) (p + off)).
Proof.
  intros Hd H0 Hn H1. rewrite (desc_addr _ _ 4) by (done || lia).
  apply (ldws_win (win := kernel_window)). by apply desc_win.
Qed.

(** A word stored in the register part of the current descriptor. *)
Lemma put_current_win (m : machine) off v :
  desc_ok (current_process m) -> 0 <= off -> off + 4 <= o_esp0 ->
  exists m', put_current off v m = Ok m' /\ regs_only m m' (current_process m) /\
    forall b, kernel_window b -> view m' b = vst 4 (view m) (current_process m + off) v b.
Proof.
  intros Hd H0 H1. unfold o_esp0, put_current in *.
  assert (off + 4 <= sizeof_process_desc) by (unfold sizeof_process_desc; lia).
  rewrite (desc_addr _ _ 4) by (done || lia).
  destruct (stn_win (win := kernel_window) 4 m (current_process m + off) v) as (m' & E & O & V);
    [by apply desc_win|].
  exists m'. split; [exact E|]. split; [|done]. split; [exact O|].
  intros b Hb Hbo. rewrite V by done. unfold vst. unfold o_esp0 in Hbo.
  by rewrite decide_False by lia.
Qed.

(** A row of words stored there. *)
Lemma stws_desc (m : machine) p off l :
  desc_ok p -> 0 <= off -> (0 < length l)%nat -> off + 4 * Z.of_nat (length l) <= o_esp0 ->
  Forall (fun w => 0 <= w < 2 ^ 32) l ->
  exists m', stws m (u32 (p + off)) l = Ok m' /\ regs_only m m' p /\
    vldws (length l) (view m') (p + off) = l /\
    forall a n, p <= a -> a + 4 * Z.of_nat n <= p + o_esp0 ->
      a + 4 * Z.of_nat n <= p + off \/ p + off + 4 * Z.of_nat (length l) <= a ->
      vldws n (view m') a = vldws n (view m) a.
Proof.
  intros Hd H0 Hl H1 Hw. unfold o_esp0 in *.
  assert (off + 4 * Z.of_nat (length l) <= sizeof_process_desc)
    by (unfold sizeof_process_desc; lia).
  rewrite (desc_addr _ _ 4) by (done || lia).
  destruct (stws_win (win := kernel_window) m (p + off) l) as (m' & E & O & V & F);
    [by apply desc_win|].
  destruct Hd as [Hd0 Hd1]. unfold KERNEL_BASE, sizeof_process_desc in *.
  exists m'. split; [exact E|]. split; [split; [exact O|]|split].
  - intros b Hb Hbo. unfold o_esp0 in Hbo. apply F; [done|lia].
  - rewrite V. clear V F E. induction Hw as [|w l Hw1 Hw IH]; [done|].
    cbn [fmap list_fmap]. rewrite u32_small by lia. f_equal.
    destruct l as [|w' l]; [done|]. apply IH; cbn [length] in *; lia.
  - intros a n Ha Hn Hdis. apply vldws_ext. intros b Hb.
    apply F; [unfold kernel_window, KERNEL_BASE|]; lia.
Qed.

(** ** Saving the interrupted context *)

Definition word_ok (w : Z) : Prop := 0 <= w < 2 ^ 32.
Definition regs_ok (seg : seg_register_set) (gen : gen_register_set) (frame : interrupt_frame)
    : Prop :=
  Forall word_ok (words_of_seg seg) /\ Forall word_ok (words_of_gen gen) /\
  Forall word_ok (words_of_frame frame).

Lemma seg_words s : seg_of_words (words_of_seg s) = s.
Proof. by destruct s. Qed.
Lemma gen_words g : gen_of_words (words_of_gen g) = g.
Proof. by destruct g. Qed.
Lemma frame_words f : frame_of_words (words_of_frame f) = f.
Proof. by destruct f. Qed.

Lemma leave_running m seg gen frame :
  let p := current_process m in
  desc_ok p -> pstate m p = PROCESS_RUNNING -> regs_ok seg gen frame ->
  exists m', leave_current seg gen frame m = Ok m' /\ regs_only m m' p /\
    saved m' p = {| sv_seg := seg; sv_gen := gen; sv_frame := frame |}.
Proof.
  intros p Hd Hs (Hseg & Hgen & Hfr). unfold leave_current. fold p.
  rewrite get_state_win by done. bnd. rewrite Hs. cbn [Z.eqb PROCESS_RUNNING].
  destruct (stws_desc m p o_frame (words_of_frame frame)) as (m1 & E1 & R1 & V1 & _);
    [done|done|cbn; lia|done|done|].
  rewrite E1. bnd. pose proof (regs_only_current _ _ _ R1) as C1. rewrite C1. fold p.
  destruct (stws_desc m1 p o_seg_regs (words_of_seg seg)) as (m2 & E2 & R2 & V2 & F2);
    [done|done|cbn; lia|done|done|].
  rewrite E2. bnd. pose proof (regs_only_current _ _ _ R2) as C2. rewrite C2, C1. fold p.
  destruct (stws_desc m2 p o_gen_regs (words_of_gen gen)) as (m3 & E3 & R3 & V3 & F3);
    [done|done|cbn; lia|done|done|].
  exists m3. split; [exact E3|].
  split; [eapply regs_only_trans; [exact R1|]; eapply regs_only_trans; [exact R2|exact R3]|].
  cbn [length words_of_frame words_of_seg words_of_gen] in *.
  unfold o_frame, o_seg_regs, o_gen_regs, o_esp0 in *.
  unfold saved, o_frame, o_seg_regs, o_gen_regs. rewrite V3.
  rewrite (F3 (p + 52) 4%nat), V2 by lia.
  rewrite (F3 (p + 0) 5%nat), (F2 (p + 0) 5%nat), V1 by lia.
  by destruct seg, gen, frame.
Qed.

(** What the saved context becomes: the kernel stack is noted for a context
    interrupted in ring 0, and marked unused for one interrupted in ring 3. *)
Definition noted (priv_level : Z) (c : saved_context) : saved_context :=
  if priv_level =? RING_KERNEL then
    {| sv_seg := sv_seg c; sv_gen := sv_gen c;
       sv_frame := {| f_eip := f_eip (sv_frame c); f_cs := f_cs (sv_frame c);
         f_eflags := f_eflags (sv_frame c); f_esp := g_esp (sv_gen c); f_ss := 16 |} |}
  else
    {| sv_seg := sv_seg c;
       sv_gen := let g := sv_gen c in
         {| g_edi := g_edi g; g_esi := g_esi g; g_ebp := g_ebp g; g_ebx := g_ebx g;
            g_edx := g_edx g; g_ecx := g_ecx g; g_eax := g_eax g; g_esp := 0 |};
       sv_frame := sv_frame c |}.

(** The saved context as a function of the first 17 words of the descriptor. *)
Definition context_words (w : list Z) : saved_context :=
  {| sv_seg := seg_of_words (drop 13 w); sv_gen := gen_of_words (take 8 (drop 5 w));
     sv_frame := frame_of_words (take 5 w) |}.

Lemma vldws_app n k v a :
  vldws (n + k) v a = vldws n v a ++ vldws k v (a + 4 * Z.of_nat n).
Proof.
  revert a; induction n as [|n IH]; intros a; cbn [Nat.add vldws app].
  - f_equal. lia.
  - f_equal. rewrite IH. do 2 f_equal. lia.
Qed.

Lemma saved_words m p : saved m p = context_words (vldws 17 (view m) p).
Proof.
  rewrite (vldws_app 5 12), (vldws_app 8 4). unfold context_words.
  rewrite (drop_app_length' _ _ 5), (take_app_length' _ _ 5), (take_app_length' _ _ 8)
    by (by rewrite vldws_length).
  change 13%nat with (5 + 8)%nat at 1. rewrite <- drop_drop.
  rewrite (drop_app_length' _ _ 5), (drop_app_length' _ _ 8) by (by rewrite vldws_length).
  unfold saved, o_frame, o_seg_regs, o_gen_regs. f_equal; do 2 f_equal; lia.
Qed.

Lemma vldws_put (m m' : machine) p (k : nat) v :
  desc_ok p -> (k < 17)%nat ->
  (forall b, kernel_window b -> view m' b = vst 4 (view m) (p + 4 * Z.of_nat k) v b) ->
  vldws 17 (view m') p = <[k := u32 v]> (vldws 17 (view m) p).
Proof.
  intros [H0 H1] Hk Hv. unfold KERNEL_BASE, sizeof_process_desc in *.
  rewrite <- vldws_vst by done. apply vldws_ext. intros b Hb. apply Hv.
  unfold kernel_window, KERNEL_BASE. lia.
Qed.

Lemma fld_word m p (k : nat) :
  (k < 17)%nat -> vldws 17 (view m) p !! k = Some (fld m p (4 * Z.of_nat k)).
Proof. intros. by rewrite vldws_lookup. Qed.

Lemma fld_range m p off : 0 <= fld m p off < 2 ^ 32.
Proof. apply (vld_range 4), view_range. Qed.

Lemma noted_kernel w x :
  length w = 17%nat -> w !! 12%nat = Some x ->
  context_words (<[3%nat := x]> (<[4%nat := 16]> w)) = noted RING_KERNEL (context_words w).
Proof.
  intros Hl Hx. do 17 (destruct w as [|? w]; [discriminate|]).
  destruct w; [|discriminate]. injection Hx as ->. reflexivity.
Qed.

Lemma noted_user w priv_level :
  length w = 17%nat -> priv_level <> RING_KERNEL ->
  context_words (<[12%nat := 0]> w) = noted priv_level (context_words w).
Proof.
  intros Hl Hp. unfold noted. destruct (Z.eqb_spec priv_level RING_KERNEL); [done|].
  do 17 (destruct w as [|? w]; [discriminate|]). destruct w; [reflexivity|discriminate].
Qed.

Lemma note_stack_win priv_level m :
  let p := current_process m in
  desc_ok p ->
  exists m', note_stack priv_level m = Ok m' /\ regs_only m m' p /\
    saved m' p = noted priv_level (saved m p).
Proof.
  intros p Hd. unfold note_stack. rewrite !saved_words.
  destruct (Z.eqb_spec priv_level RING_KERNEL) as [->|Hne].
  - destruct (put_current_win m (o_frame + o_ss) 16 Hd) as (m1 & E1 & R1 & V1); [done|done|].
    rewrite E1. bnd. pose proof (regs_only_current _ _ _ R1) as C1. fold p in C1, R1, V1.
    rewrite get_current_win by (rewrite ?C1; done). bnd. rewrite C1.
    destruct (put_current_win m1 (o_frame + o_esp) (fld m1 p (o_gen_regs + o_g_esp)))
      as (m2 & E2 & R2 & V2); [by rewrite C1|done|done|].
    rewrite C1 in R2, V2. exists m2. split; [exact E2|]. split; [by eapply regs_only_trans|].
    rewrite saved_words, (vldws_put m1 m2 p 3 _ Hd ltac:(lia) V2).
    pose proof (fld_word m1 p 12 ltac:(lia)) as H12.
    rewrite (vldws_put m m1 p 4 _ Hd ltac:(lia) V1) in *.
    rewrite u32_small by apply fld_range. change (u32 16) with 16 in *.
    apply noted_kernel; [by rewrite vldws_length|].
    by rewrite list_lookup_insert_ne in H12.
  - destruct (put_current_win m (o_gen_regs + o_g_esp) 0 Hd) as (m1 & E1 & R1 & V1); [done|done|].
    exists m1. split; [exact E1|]. split; [done|].
    rewrite saved_words, (vldws_put m m1 p 12 _ Hd ltac:(lia) V1).
    apply noted_user; [by rewrite vldws_length|done].
Qed.

(** ** Going on with another process *)

Lemma advance_step m q :
  desc_ok (current_process m) -> desc_ok q -> fld m (current_process m) o_next = q ->
  advance_body m = Ok (if pstate m q =? PROCESS_HALTED then inl (set_current q m)
                       else inr (set_current q m)).
Proof.
  intros Hd Hq Hn. unfold advance_body. rewrite get_current_win by done. bnd. rewrite Hn.
  rewrite get_state_win by done. bnd. change (pstate (set_current q m) _) with (pstate m q).
  by destruct (_ =? _).
Qed.

Lemma advance_leaves m s l q r :
  Forall desc_ok (current_process m :: l) -> linked m (current_process m :: l) ->
  rotate_to (runnable (pstate m)) s l = Some (q :: r) ->
  exists n, (n <= length l)%nat /\ leaves advance_body n m (Ok (set_current q m)).
Proof.
  revert m s; induction l as [|x l IH]; intros m s Hd Hl Hr; [done|].
  apply Forall_cons in Hd as [Hp Hd]. pose proof Hd as Hd'. apply Forall_cons in Hd' as [Hx _].
  apply linked_cons in Hl as (Hn & _ & Hl). cbn [rotate_to] in Hr.
  pose proof (advance_step m x Hp Hx Hn) as Hs. unfold runnable at 1 in Hr.
  destruct (pstate m x =? PROCESS_HALTED); cbn [negb] in Hr.
  - destruct (IH (set_current x m) (s ++ [x]) Hd) as (n & Hle & Hv);
      [by apply (linked_ext m)|exact Hr|].
    exists (S n). cbn [length]. split; [lia|]. eapply leaves_next; [exact Hs|exact Hv].
  - injection Hr as -> _. exists 1%nat. cbn [length]. split; [lia|]. by apply leaves_ret.
Qed.

Lemma ring_linked m p ps :
  ring m (p :: ps) -> Forall desc_ok (p :: ps ++ [p]) /\ linked m (p :: ps ++ [p]).
Proof.
  intros (Hd & _ & _ & Hl). split; [|exact Hl].
  apply Forall_cons in Hd as [Hp Hd]. apply Forall_cons. split; [done|].
  apply Forall_app. split; [done|]. by apply Forall_singleton.
Qed.

(** The loop finds the process the round robin gives... *)
Lemma advance_schedules m p ps q r :
  ring m (p :: ps) -> current_process m = p -> schedule (pstate m) (p :: ps) = Some (q :: r) ->
  loop advance_body m = Ok (set_current q m) /\ ring m (q :: r).
Proof.
  intros Hr Hc Hs. cbn [schedule] in Hs. pose proof (ring_length _ _ Hr) as Hlen.
  destruct (ring_linked _ _ _ Hr) as [Hd Hl]. rewrite <- Hc in Hd, Hl, Hs.
  destruct (advance_leaves m [] _ q r Hd Hl Hs) as (n & Hn & Hv). split.
  - eapply leaves_loop; [exact Hv|]. rewrite length_app in Hn. cbn [length] in *.
    rewrite budget_eq. lia.
  - apply rotate_to_spec in Hs as (a & q' & b & Ha & [= -> ->] & _). rewrite Hc in Ha.
    apply ring_rotate. rewrite <- Ha. destruct ps as [|x ps]; [exact Hr|].
    exact (ring_rotate m [p] x ps Hr).
Qed.

(** ... and goes round for ever when there is none. *)
Lemma advance_diverges m p ps :
  ring m (p :: ps) -> current_process m = p -> schedule (pstate m) (p :: ps) = None ->
  loop advance_body m = Diverge.
Proof.
  intros Hr Hc Hs. cbn [schedule] in Hs. apply rotate_to_none in Hs.
  apply (loop_diverges _ (fun t => exists c l, ring t (c :: l) /\ current_process t = c /\
    Forall (fun x => runnable (pstate t) x = false) (l ++ [c]))); [by exists p, ps|].
  intros t (c & l & Hrt & <- & Hh). pose proof (ring_linked _ _ _ Hrt) as [Hd Hl].
  destruct l as [|x l]; cbn [app] in *.
  - apply Forall_cons in Hh as [Hx _]. apply Forall_cons in Hd as [Hp Hd].
    apply Forall_cons in Hd as [Hq _]. apply linked_cons in Hl as (Hn & _).
    exists (set_current (current_process t) t). split.
    + rewrite (advance_step t (current_process t)) by done. unfold runnable in Hx.
      by destruct (pstate t (current_process t) =? PROCESS_HALTED).
    + exists (current_process t), []. split; [by apply (ring_ext t)|]. split; [done|]. by apply Forall_singleton.
  - apply Forall_cons in Hh as [Hx Hh]. apply Forall_cons in Hd as [Hp Hd].
    apply Forall_cons in Hd as [Hq _]. apply linked_cons in Hl as (Hn & _).
    exists (set_current x t). split.
    + rewrite (advance_step t x) by done. unfold runnable in Hx.
      by destruct (pstate t x =? PROCESS_HALTED).
    + exists x, (l ++ [current_process t]).
      split; [apply (ring_ext t); [done|exact (ring_rotate t [current_process t] x l Hrt)]|].
      split; [done|]. apply Forall_app. split; [done|]. by apply Forall_singleton.
Qed.

(** The machine in which the process [p] runs on. *)
Definition entered (m : machine) (p : Z) : machine :=
  set_interrupts true (set_cr3 (u32 (fld m p o_page_directory - KERNEL_BASE))
    (set_ports (ports m ++ [(32, 32)]) (set_gdt (set_tss_stack (fld m p o_esp0) (gdt_st m)) m))).

Lemma u32_u32 x : u32 (u32 x) = u32 x.
Proof. apply u32_small, u32_range. Qed.

Lemma enter_current_win m :
  let p := current_process m in
  desc_ok p -> enter_current m = Ok (entered m p, context_of (saved m p)).
Proof.
  intros p Hd. unfold enter_current. rewrite get_current_win by done. bnd.
  set (m1 := set_gdt _ m). change (current_process m1) with p.
  rewrite (ldws_desc m1 p o_seg_regs 4) by (done || lia). bnd.
  rewrite (ldws_desc m1 p o_gen_regs 8) by (done || lia). bnd.
  rewrite (ldws_desc m1 p o_frame 5) by (done || lia). bnd.
  rewrite (get_current_win m1) by done. bnd. unfold switch_context.
  rewrite u32_u32. reflexivity.
Qed.

(** Descriptors depend on physical memory only. *)
Lemma saved_same m m' p : phys m' = phys m -> saved m' p = saved m p.
Proof. intros H. unfold saved, view. cbn [machine_window]. by rewrite H. Qed.
Lemma fld_same m m' p off : phys m' = phys m -> fld m' p off = fld m p off.
Proof. intros H. unfold fld, view. cbn [machine_window]. by rewrite H. Qed.
Lemma pstate_same m m' p : phys m' = phys m -> pstate m' p = pstate m p.
Proof. intros H. unfold pstate, view. cbn [machine_window]. by rewrite H. Qed.
Lemma ring_same m m' l : phys m' = phys m -> ring m l -> ring m' l.
Proof. intros H. apply ring_ext. intros. by apply fld_same. Qed.
