(* ===== verification/SwitchProps.v ===== *)
(** * Properties of the context switch

    switch_process implements the round robin on lists, saves and restores
    contexts exactly, gives every running process its turn, and does not come
    back when every process is halted. *)

From S2P Require Export SwitchLemmas.

#[local] Open Scope Z_scope.

(** The privilege level switch_process finds in a frame. *)
Definition level_of (frame : interrupt_frame) : Z := u8 (Z.land (f_cs frame) 3).

(** What changes only the saved registers of one process of the ring. *)
Lemma regs_only_ring m m2 p ps :
  ring m (p :: ps) -> regs_only m m2 p ->
  (forall r, r ∈ ps -> saved m2 r = saved m r) /\
  (forall r, r ∈ p :: ps -> pstate m2 r = pstate m r) /\
  (forall r off, r ∈ p :: ps -> o_esp0 <= off -> off + 4 <= sizeof_process_desc -> fld m2 r off = fld m r off) /\
  ring m2 (p :: ps).
Proof.
  intros Hr R. pose proof Hr as (Hd & Hnd & Hap & _). apply Forall_cons in Hd as [Hp Hps].
  apply NoDup_cons in Hnd as [Hpx _]. rewrite Forall_forall in Hps.
  assert (forall r b, r ∈ ps -> r <= b < r + sizeof_process_desc -> view m2 b = view m b) as Hother.
  { intros r b Hin Hb. eapply (regs_only_other m m2 p r); [done|by apply Hps| |done].
    apply Hap; [by left|by right|]. intros ->. done. }
  assert (forall r off, r ∈ p :: ps -> o_esp0 <= off -> off + 4 <= sizeof_process_desc -> fld m2 r off = fld m r off) as Hfld.
  { intros r off Hin H0 H1. apply elem_of_cons in Hin as [->|Hin]; [by apply regs_only_fld|].
    apply vld_ext. intros b Hb. apply (Hother r); [done|]. unfold o_esp0 in H0. lia. }
  split; [|split; [|split; [done|]]].
  - intros r Hin. rewrite !saved_words. f_equal. apply vldws_ext. intros b Hb. apply (Hother r); [done|].
    unfold sizeof_process_desc. lia.
  - intros r Hin. apply elem_of_cons in Hin as [->|Hin]; [by apply regs_only_state|].
    apply (Hother r); [done|]. unfold o_state, sizeof_process_desc. lia.
  - apply (ring_ext m); [|done]. intros r off Hin [-> | ->]; by apply Hfld.
Qed.

(** The context the descriptor of the process that is left holds: the interrupted
    one, if the process was running, and otherwise the one it held. *)
Definition left_behind (m : machine) (p : Z) (seg : seg_register_set) (gen : gen_register_set)
    (frame : interrupt_frame) : saved_context :=
  if pstate m p =? PROCESS_RUNNING then {| sv_seg := seg; sv_gen := gen; sv_frame := frame |}
  else saved m p.

(** Leaving the current process stores its registers, and nothing else. *)
Lemma leave_and_note seg gen frame m p f :
  current_process m = p -> desc_ok p -> pstate m p <> 2 -> regs_ok seg gen frame ->
  exists m2, (m1 ← leave_current seg gen frame m; m2 ← note_stack (level_of frame) m1; f m2) = f m2 :> res (machine * option context) /\
    regs_only m m2 p /\ current_process m2 = p /\
    saved m2 p = noted (level_of frame) (left_behind m p seg gen frame).
Proof.
  intros Hc Hp Hst Hregs.
  assert (exists m1, leave_current seg gen frame m = Ok m1 /\ regs_only m m1 p /\
    saved m1 p = left_behind m p seg gen frame) as (m1 & E1 & R1 & S1).
  { unfold left_behind. destruct (Z.eqb_spec (pstate m p) PROCESS_RUNNING) as [Hrun|Hne].
    - destruct (leave_running m seg gen frame) as (m1 & H); rewrite ?Hc in *; try done. by exists m1.
    - exists m. split; [|split; [apply regs_only_refl|done]].
      unfold leave_current. rewrite Hc, get_state_win by done. bnd.
      by destruct (Z.eqb_spec (pstate m p) PROCESS_RUNNING), (Z.eqb_spec (pstate m p) 2). }
  pose proof (regs_only_current _ _ _ R1) as C1. rewrite Hc in C1.
  destruct (note_stack_win (level_of frame) m1) as (m2 & E2 & R2 & S2); [by rewrite C1|].
  rewrite C1 in R2, S2. rewrite S1 in S2. pose proof (regs_only_current _ _ _ R2) as C2. rewrite C1 in C2.
  exists m2. rewrite (bind_ok _ _ _ E1), (bind_ok _ _ _ E2). split; [done|]. split; [by eapply regs_only_trans|done].
Qed.

(** A switch away from a process that has not ended. *)
Lemma switch_live m p ps q qs seg gen frame :
  ring m (p :: ps) -> ps <> [] -> current_process m = p -> pstate m p <> 2 ->
  regs_ok seg gen frame -> schedule (pstate m) (p :: ps) = Some (q :: qs) ->
  exists m', switch_process seg gen frame m = Ok (m', Some (context_of (saved m' q))) /\
    current_process m' = q /\ ring m' (q :: qs) /\
    saved m' p = noted (level_of frame) (left_behind m p seg gen frame) /\
    (forall r, r ∈ ps -> saved m' r = saved m r) /\
    (forall r, r ∈ p :: ps -> pstate m' r = pstate m r /\
       fld m' r o_esp0 = fld m r o_esp0 /\ fld m' r o_page_directory = fld m r o_page_directory) /\
    cr3 m' = u32 (fld m q o_page_directory - KERNEL_BASE) /\
    gdt_st m' = set_tss_stack (fld m q o_esp0) (gdt_st m) /\
    ports m' = ports m ++ [(32, 32)] /\ interrupts m' = true.
Proof.
  intros Hr Hne Hc Hst Hregs Hs. pose proof Hr as (Hd & Hnd & Hap & Hl).
  pose proof Hd as Hd'. apply Forall_cons in Hd' as [Hp _]. destruct ps as [|x ps]; [done|].
  cbn [app] in Hl. apply linked_cons in Hl as (Hn & _). apply NoDup_cons in Hnd as [Hpx _].
  assert (p <> 0 /\ x <> p) as [Hp0 Hxp].
  { destruct Hp as [Hp _]. unfold KERNEL_BASE in Hp. split; [lia|]. intros ->. apply Hpx. by left. }
  unfold switch_process. rewrite Hc. destruct (Z.eqb_spec p 0); [done|].
  assert (get_current o_next m = Ok x) as En.
  { rewrite get_current_win by (rewrite ?Hc; done). by rewrite Hc, Hn. }
  rewrite (bind_ok _ _ _ En). cbv beta.
  destruct (Z.eqb_spec x p); [done|]. fold (level_of frame).
  match goal with |- context [leave_current _ _ _ _ ≫= fun m1 => note_stack _ _ ≫= ?f] =>
    destruct (leave_and_note seg gen frame m p f Hc Hp Hst Hregs) as (m2 & -> & R & C2 & S2) end.
  destruct (regs_only_ring m m2 p (x :: ps) Hr R) as (Hsv & Hst2 & Hfld & Hr2).
  assert (schedule (pstate m2) (p :: x :: ps) = Some (q :: qs)) as Hs2.
  { rewrite <- Hs. apply rotate_to_ext. intros r Hin. unfold runnable. rewrite Hst2; [done|].
    rewrite elem_of_app, list_elem_of_singleton in Hin. rewrite elem_of_cons. tauto. }
  destruct (advance_schedules m2 p (x :: ps) q qs Hr2 C2 Hs2) as [E3 Hr3].
  rewrite (bind_ok _ _ _ E3). cbv beta.
  assert (q ∈ p :: x :: ps) as Hq by (eapply schedule_elem; exact Hs).
  assert (desc_ok q) as Hqd by (by rewrite Forall_forall in Hd; apply Hd).
  pose proof (enter_current_win (set_current q m2) Hqd) as E4. rewrite (bind_ok _ _ _ E4). cbv beta iota.
  set (m3 := entered (set_current q m2) q).
  assert (phys m3 = phys m2) as P3 by done. assert (phys (set_current q m2) = phys m2) as P2 by done.
  exists m3. split; [by rewrite (saved_same m2 m3), (saved_same m2 (set_current q m2))|].
  split; [done|]. split; [by apply (ring_same m2)|]. rewrite (saved_same m2 m3) by done. split; [exact S2|]. split; [|split; [|split; [|split; [|split]]]].
  - intros r Hin. rewrite (saved_same m2 m3) by done. by apply Hsv.
  - intros r Hin. rewrite (pstate_same m2 m3), !(fld_same m2 m3) by done.
    split; [by apply Hst2|]. split; by apply Hfld.
  - change (cr3 m3) with (u32 (fld (set_current q m2) q o_page_directory - KERNEL_BASE)).
    by rewrite (fld_same m2), Hfld.
  - change (gdt_st m3) with (set_tss_stack (fld (set_current q m2) q o_esp0) (gdt_st m2)).
    rewrite (fld_same m2), Hfld by done. destruct R as [[_ ->] _]. done.
  - change (ports m3) with (ports m2 ++ [(32, 32)]). destruct R as [[_ ->] _]. done.
  - done.
Qed.

Lemma switch_running m p ps q qs seg gen frame :
  ring m (p :: ps) -> ps <> [] -> current_process m = p -> pstate m p = PROCESS_RUNNING ->
  regs_ok seg gen frame -> schedule (pstate m) (p :: ps) = Some (q :: qs) ->
  exists m', switch_process seg gen frame m = Ok (m', Some (context_of (saved m' q))) /\
    current_process m' = q /\ ring m' (q :: qs) /\
    saved m' p = noted (level_of frame) {| sv_seg := seg; sv_gen := gen; sv_frame := frame |} /\
    (forall r, r ∈ ps -> saved m' r = saved m r) /\
    (forall r, r ∈ p :: ps -> pstate m' r = pstate m r /\
       fld m' r o_esp0 = fld m r o_esp0 /\ fld m' r o_page_directory = fld m r o_page_directory) /\
    cr3 m' = u32 (fld m q o_page_directory - KERNEL_BASE) /\
    gdt_st m' = set_tss_stack (fld m q o_esp0) (gdt_st m) /\
    ports m' = ports m ++ [(32, 32)] /\ interrupts m' = true.
Proof.
  intros Hr Hne Hc Hst Hregs Hs.
  destruct (switch_live m p ps q qs seg gen frame Hr Hne Hc) as (m' & H); try done; [by rewrite Hst|].
  exists m'. unfold left_behind in H. by rewrite Hst in H.
Qed.

(** C3. switch_process refines the round robin: called by the timer for the
    running head of a ring of processes it resumes the next process that is not
    halted, leaves the ring rotated to it, saves the interrupted context in the
    head's descriptor, touches no other descriptor, loads the directory and the
    kernel stack of the process it resumes and signals one end of interrupt. *)
Theorem switch_process_round_robin m p ps seg gen frame :
  ring m (p :: ps) -> ps <> [] -> current_process m = p -> pstate m p = PROCESS_RUNNING ->
  regs_ok seg gen frame ->
  exists m' q qs, schedule (pstate m) (p :: ps) = Some (q :: qs) /\
    switch_process seg gen frame m = Ok (m', Some (context_of (saved m' q))) /\
    current_process m' = q /\ ring m' (q :: qs) /\
    saved m' p = noted (level_of frame) {| sv_seg := seg; sv_gen := gen; sv_frame := frame |} /\
    (forall r, r ∈ ps -> saved m' r = saved m r) /\
    (forall r, r ∈ p :: ps -> pstate m' r = pstate m r) /\
    cr3 m' = u32 (fld m q o_page_directory - KERNEL_BASE) /\
    tss (gdt_st m') = <[tss_esp0 := fld m q o_esp0]> (tss (gdt_st m)) /\
    ports m' = ports m ++ [(32, 32)].
Proof.
  intros Hr Hne Hc Hst Hregs. destruct (schedule_running (pstate m) p ps Hst) as (q & qs & Hs).
  destruct (switch_running m p ps q qs seg gen frame Hr Hne Hc Hst Hregs Hs)
    as (m' & E & Hc' & Hr' & Hsv & Hoth & Hf & H3 & Hg & Hports & _).
  exists m', q, qs. split; [done|]. split; [done|]. split; [done|]. split; [done|].
  split; [done|]. split; [done|]. split; [intros r Hin; by apply Hf|]. split; [done|].
  by rewrite Hg.
Qed.

(** What the processor goes on with for a context that was saved: in ring 3 the
    frame itself with every register as it was; in ring 0 the interrupted
    stack. *)
Definition continues (ctx : context) (seg : seg_register_set) (gen : gen_register_set)
    (frame : interrupt_frame) : Prop :=
  ctx_seg ctx = seg /\
  (g_edi (ctx_gen ctx) = g_edi gen /\ g_esi (ctx_gen ctx) = g_esi gen /\
   g_ebp (ctx_gen ctx) = g_ebp gen /\ g_ebx (ctx_gen ctx) = g_ebx gen /\
   g_edx (ctx_gen ctx) = g_edx gen /\ g_ecx (ctx_gen ctx) = g_ecx gen /\
   g_eax (ctx_gen ctx) = g_eax gen) /\
  ctx_resume ctx = if level_of frame =? RING_KERNEL then FromStack (g_esp gen) else FromFrame frame.

Lemma continues_noted seg gen frame :
  (level_of frame = RING_KERNEL -> g_esp gen <> 0) ->
  continues (context_of (noted (level_of frame)
    {| sv_seg := seg; sv_gen := gen; sv_frame := frame |})) seg gen frame.
Proof.
  intros Hg. unfold noted, continues. destruct (Z.eqb_spec (level_of frame) RING_KERNEL) as [Hl|]; cbn; [|done].
  by destruct (Z.eqb_spec (g_esp gen) 0); [destruct (Hg Hl)|].
Qed.

(** The user programs run between two switches: they leave the kernel window
    and the kernel's variables alone. *)
Definition user_run (m m' : machine) : Prop :=
  (forall a, kernel_window a -> view m' a = view m a) /\
  current_process m' = current_process m.

Lemma user_run_fld m m' p off :
  user_run m m' -> desc_ok p -> 0 <= off -> off + 4 <= sizeof_process_desc ->
  fld m' p off = fld m p off.
Proof.
  intros [Hv _] Hd H0 H1. destruct (desc_win p off 4 Hd H0 H1) as (_ & _ & Hw).
  apply vld_ext. intros b Hb. apply Hv, Hw. lia.
Qed.

Lemma user_run_state m m' p : user_run m m' -> desc_ok p -> pstate m' p = pstate m p.
Proof.
  intros [Hv _] Hd. destruct (desc_win p o_state 1 Hd) as (_ & _ & Hw); [done|done|].
  apply Hv, Hw. lia.
Qed.

Lemma user_run_saved m m' p : user_run m m' -> desc_ok p -> saved m' p = saved m p.
Proof.
  intros [Hv _] [H0 H1]. unfold KERNEL_BASE, sizeof_process_desc in *. rewrite !saved_words.
  f_equal. apply vldws_ext. intros b Hb. apply Hv. unfold kernel_window, KERNEL_BASE. lia.
Qed.

Lemma user_run_ring m m' l : user_run m m' -> ring m l -> ring m' l.
Proof.
  intros Hu Hr. pose proof Hr as (Hd & _). rewrite Forall_forall in Hd.
  apply (ring_ext m); [|done]. intros p off Hp [-> | ->]; apply (user_run_fld m m'); try done; by apply Hd.
Qed.

(** [n] timer switches with user programs running in between. *)
Inductive switched : nat -> machine -> machine -> Prop :=
  | switched_O m : switched 0 m m
  | switched_S n m m0 m1 m2 seg gen frame ctx :
      user_run m m0 -> regs_ok seg gen frame ->
      switch_process seg gen frame m0 = Ok (m1, Some ctx) ->
      switched n m1 m2 -> switched (S n) m m2.

Lemma switched_snoc n m m' :
  switched (S n) m m' -> exists m1 m2 seg gen frame ctx, switched n m m1 /\ user_run m1 m2 /\
    regs_ok seg gen frame /\ switch_process seg gen frame m2 = Ok (m', Some ctx).
Proof.
  revert m; induction n as [|n IH]; intros m Hsw;
    inversion Hsw as [|? ? m0 m1 ? seg gen frame ctx Hu Hregs E Hsw']; subst.
  - inversion Hsw'; subst. exists m, m0, seg, gen, frame, ctx. split; [constructor|done].
  - destruct (IH m1 Hsw') as (m2 & m3 & seg' & gen' & frame' & ctx' & Hsw2 & H).
    exists m2, m3, seg', gen', frame', ctx'. split; [by econstructor|exact H].
Qed.

(** ** Turns

    The processes come in the order of the ring, the current one last; those that
    are halted are passed over. *)

(** The turns the processes of a list take: one each, but for the halted ones. *)
Fixpoint turns (st : Z -> Z) (l : list Z) : nat :=
  match l with
  | [] => 0
  | p :: l => if runnable st p then S (turns st l) else turns st l
  end.

Lemma turns_app st l1 l2 : turns st (l1 ++ l2) = (turns st l1 + turns st l2)%nat.
Proof. induction l1 as [|p l1 IH]; cbn; [done|]. destruct (runnable st p); by rewrite IH. Qed.

Lemma turns_zero st l : turns st l = 0%nat -> Forall (fun x => runnable st x = false) l.
Proof.
  induction l as [|x l IH]; [done|]. cbn. destruct (runnable st x) eqn:Hx; [done|].
  constructor; [done|by apply IH].
Qed.

Lemma turns_ext st st' l : (forall p, p ∈ l -> st p = st' p) -> turns st l = turns st' l.
Proof.
  induction l as [|p l IH]; intros H; cbn; [done|]. unfold runnable. rewrite H by (by left).
  rewrite IH; [done|]. intros q Hq. apply H. by right.
Qed.

(** Nobody has ended. *)
Definition alive (m : machine) (l : list Z) : Prop :=
  Forall (fun p => pstate m p = PROCESS_RUNNING \/ pstate m p = PROCESS_HALTED) l.

Lemma running_runnable m p : pstate m p = PROCESS_RUNNING -> runnable (pstate m) p = true.
Proof. intros Hp. unfold runnable. by rewrite Hp. Qed.

Lemma rotate_to_found f s l q a b :
  l = a ++ q :: b -> f q = true -> Forall (fun x => f x = false) a ->
  rotate_to f s l = Some (q :: b ++ s ++ a).
Proof.
  intros -> Hq Ha. revert s; induction Ha as [|x a Hx Ha IH]; intros s; cbn.
  - by rewrite Hq, app_nil_r.
  - rewrite Hx, IH. by rewrite <- app_assoc.
Qed.

(** The first of a list that is not halted. *)
Lemma first_runnable st l :
  turns st l <> 0%nat ->
  exists a x b, l = a ++ x :: b /\ runnable st x = true /\ Forall (fun x => runnable st x = false) a /\
    turns st l = S (turns st b).
Proof.
  induction l as [|p l IH]; cbn; [done|]. destruct (runnable st p) eqn:Hp; intros Hl.
  - exists [], p, l. by split_and!.
  - destruct (IH Hl) as (a & x & b & -> & Hx & Ha & Hb). exists (p :: a), x, b.
    split; [done|]. split; [done|]. split; [by constructor|done].
Qed.

(** [p] is current, and the others, at least one, are behind it in the order [ps]. *)
Definition waiting (m : machine) (p : Z) (ps : list Z) : Prop :=
  ring m (p :: ps) /\ ps <> [] /\ current_process m = p /\ alive m (p :: ps).

(** One switch: it succeeds, as long as somebody can run, and goes to the first
    that can. *)
Lemma turn m p ps a x b seg gen frame :
  waiting m p ps -> ps ++ [p] = a ++ x :: b -> runnable (pstate m) x = true ->
  Forall (fun x => runnable (pstate m) x = false) a -> regs_ok seg gen frame ->
  exists m', switch_process seg gen frame m = Ok (m', Some (context_of (saved m' x))) /\
    waiting m' x (b ++ a) /\
    cr3 m' = u32 (fld m x o_page_directory - KERNEL_BASE) /\
    saved m' p = noted (level_of frame) (left_behind m p seg gen frame) /\
    (forall r, r ∈ ps -> saved m' r = saved m r) /\
    forall r, r ∈ p :: ps -> pstate m' r = pstate m r /\
      fld m' r o_page_directory = fld m r o_page_directory.
Proof.
  intros (Hr & Hne & Hc & Hal) Hl Hx Ha Hregs.
  assert (schedule (pstate m) (p :: ps) = Some (x :: b ++ a)) as Hs
    by (cbn [schedule]; by apply (rotate_to_found _ []) with (b := b)).
  destruct (switch_live m p ps x (b ++ a) seg gen frame Hr Hne Hc) as
    (m' & E & C & R & Sv & Hoth & F & D & _); try done.
  { unfold alive in Hal. by apply Forall_cons in Hal as [[-> | ->] _]. }
  exists m'. split; [done|]. split; [|split; [done|split; [done|split; [done|]]]].
  - split; [done|]. split; [|split; [done|]].
    + pose proof (schedule_perm _ _ _ Hs) as Hp. apply Permutation_length in Hp.
      destruct ps; [done|]. intros E0. rewrite E0 in Hp. cbn in Hp. lia.
    + unfold alive in *. apply Forall_forall. intros r Hin. rewrite (schedule_perm _ _ _ Hs) in Hin.
      destruct (F r Hin) as [-> _]. by rewrite Forall_forall in Hal; apply Hal.
  - intros r Hin. by destruct (F r Hin) as (-> & _ & ->).
Qed.

Lemma user_run_waiting m m' p ps : user_run m m' -> waiting m p ps -> waiting m' p ps.
Proof.
  intros Hu (Hr & Hne & Hc & Hal). split; [by apply (user_run_ring m)|]. split; [done|].
  split; [destruct Hu as [_ ->]; done|]. pose proof Hr as (Hd & _). rewrite Forall_forall in Hd.
  unfold alive in *. rewrite Forall_forall in *. intros r Hin.
  rewrite (user_run_state m m' r Hu) by (by apply Hd). by apply Hal.
Qed.

(** The same of a user run and the switch after it. *)
Lemma turn_run m m0 p ps a x b seg gen frame :
  waiting m p ps -> user_run m m0 -> ps ++ [p] = a ++ x :: b -> runnable (pstate m) x = true ->
  Forall (fun x => runnable (pstate m) x = false) a -> regs_ok seg gen frame ->
  exists m1, switch_process seg gen frame m0 = Ok (m1, Some (context_of (saved m1 x))) /\
    waiting m1 x (b ++ a) /\
    cr3 m1 = u32 (fld m x o_page_directory - KERNEL_BASE) /\
    (forall r, r ∈ ps -> saved m1 r = saved m r) /\
    forall r, r ∈ p :: ps -> pstate m1 r = pstate m r /\
      fld m1 r o_page_directory = fld m r o_page_directory.
Proof.
  intros Hw Hu Hl Hx Ha Hregs. pose proof (user_run_waiting m m0 p ps Hu Hw) as Hw0.
  pose proof Hw as ((Hd & _) & _). rewrite Forall_forall in Hd.
  assert (forall r, r ∈ p :: ps -> pstate m0 r = pstate m r) as Hst
    by (intros r Hr; apply (user_run_state m m0 r Hu), Hd, Hr).
  assert (forall r, r ∈ a ++ x :: b -> r ∈ p :: ps) as Hin.
  { intros r. rewrite <- Hl, elem_of_app, list_elem_of_singleton, elem_of_cons. tauto. }
  assert (x ∈ p :: ps) as Hxin by (apply Hin, elem_of_app; right; by left).
  destruct (turn m0 p ps a x b seg gen frame Hw0 Hl) as (m1 & E & W & D & _ & Sv & F); try done.
  - unfold runnable in *. by rewrite Hst.
  - rewrite Forall_forall in *. intros r Hr. unfold runnable in *. rewrite Hst; [by apply Ha|].
    apply Hin. apply elem_of_app. by left.
  - exists m1. split; [done|]. split; [done|].
    rewrite D, (user_run_fld m m0 x) by (done || by apply Hd). split; [done|]. split.
    + intros r Hr. rewrite Sv by done. apply (user_run_saved m m0 r Hu), Hd. by right.
    + intros r Hr. destruct (F r Hr) as [-> ->]. rewrite Hst by done.
      split; [done|]. apply (user_run_fld m m0); [done|by apply Hd|done|done].
Qed.

(** After as many switches as there are turns before [q], it is the turn of [q];
    meanwhile nothing was stored in its descriptor, unless it was current. *)
Lemma switched_toward n m m' p ps l1 q l2 :
  switched n m m' -> waiting m p ps -> ps ++ [p] = l1 ++ q :: l2 ->
  pstate m q = PROCESS_RUNNING -> turns (pstate m) l1 = n ->
  exists y ys a b, waiting m' y ys /\ ys ++ [y] = a ++ q :: b /\
    Forall (fun x => runnable (pstate m') x = false) a /\ b ++ a = l2 ++ l1 /\
    pstate m' q = PROCESS_RUNNING /\ fld m' q o_page_directory = fld m q o_page_directory /\
    (p <> q -> saved m' q = saved m q /\ y <> q).
Proof.
  intros Hsw. revert p ps l1 l2.
  induction Hsw as [m|n m m0 m1 m2 seg gen frame ctx Hu Hregs E Hsw IH]; intros p ps l1 l2 Hw Hl Hq Hn.
  { exists p, ps, l1, l2. split_and!; try done. by apply turns_zero. }
  destruct (first_runnable (pstate m) l1) as (a & x & b & -> & Hx & Ha & Hb); [by rewrite Hn|].
  assert (ps ++ [p] = a ++ x :: (b ++ q :: l2)) as Hl' by (by rewrite Hl, <- app_assoc).
  destruct (turn_run m m0 p ps a x _ seg gen frame Hw Hu Hl' Hx Ha Hregs)
    as (m1' & E1 & W1 & _ & Sv & F). rewrite E1 in E. injection E as -> _.
  assert (forall r, r ∈ (a ++ x :: b) ++ q :: l2 -> r ∈ p :: ps) as Hin.
  { intros r. rewrite <- Hl, elem_of_app, list_elem_of_singleton, elem_of_cons. tauto. }
  assert (q ∈ p :: ps) as Hqin by (apply Hin, elem_of_app; right; by left).
  pose proof W1 as ((_ & Hnd & _) & _).
  assert (x <> q) as Hxq.
  { intros ->. apply NoDup_cons in Hnd as [Hnq _]. apply Hnq.
    rewrite !elem_of_app, elem_of_cons. tauto. }
  destruct (IH x ((b ++ q :: l2) ++ a) b (l2 ++ a ++ [x])) as
    (y & ys & a' & b' & W & Hys & Ha' & Hba & Hq' & Hd & Hs); try done.
  - by rewrite <- !app_assoc.
  - by rewrite (proj1 (F q Hqin)).
  - rewrite <- (turns_ext (pstate m)); [lia|]. intros r Hr. symmetry. apply F, Hin.
    rewrite elem_of_app. left. rewrite elem_of_app. right. by right.
  - exists y, ys, a', b'. split; [done|]. split; [done|]. split; [done|]. split.
    { rewrite Hba, <- !app_assoc. done. }
    split; [done|]. split; [by rewrite Hd, (proj2 (F q Hqin))|]. intros Hpq.
    destruct (Hs Hxq) as [-> ?]. split; [|done]. apply Sv. by apply elem_of_cons in Hqin as [|].
Qed.

(** However long they go on, the ring keeps its processes and their states. *)
Lemma switched_waiting n m m' p ps :
  switched n m m' -> waiting m p ps -> turns (pstate m) (ps ++ [p]) <> 0%nat ->
  exists y ys, waiting m' y ys /\ turns (pstate m') (ys ++ [y]) <> 0%nat.
Proof.
  intros Hsw. revert p ps.
  induction Hsw as [m|n m m0 m1 m2 seg gen frame ctx Hu Hregs E Hsw IH]; intros p ps Hw Ht; [by exists p, ps|].
  destruct (first_runnable (pstate m) (ps ++ [p]) Ht) as (a & x & b & Hl & Hx & Ha & _).
  destruct (turn_run m m0 p ps a x b seg gen frame Hw Hu Hl Hx Ha Hregs) as (m1' & E1 & W1 & _ & _ & F).
  rewrite E1 in E. injection E as -> _.
  apply (IH x (b ++ a) W1). rewrite turns_app. cbn [turns].
  assert (x ∈ p :: ps) as Hin.
  { assert (x ∈ ps ++ [p]) as Hin by (rewrite Hl, elem_of_app; right; by left).
    rewrite elem_of_app, list_elem_of_singleton in Hin. rewrite elem_of_cons. tauto. }
  unfold runnable at 1. rewrite (proj1 (F x Hin)). unfold runnable in Hx. rewrite Hx. lia.
Qed.

(** The processor goes on with [p] as it was interrupted, in its address space. *)
Definition resumed (m m' : machine) (p : Z) (ctx : context) (seg : seg_register_set)
    (gen : gen_register_set) (frame : interrupt_frame) : Prop :=
  current_process m' = p /\ continues ctx seg gen frame /\
  cr3 m' = u32 (fld m p o_page_directory - KERNEL_BASE).

(** C16. No running process starves, in any ring of at least two processes that are
    running or halted: with [l1] before it in the order of the ring, from the process
    behind the current one to the current one itself, a running process is current
    after one timer switch for each process of [l1] that is not halted and one for
    itself, whatever the interrupted contexts are, as long as user programs leave the
    kernel's memory alone; and no number of switches leads to one that fails. *)
Theorem round_robin_fair m p ps l1 q l2 :
  waiting m p ps -> ps ++ [p] = l1 ++ q :: l2 -> pstate m q = PROCESS_RUNNING ->
  (forall m', switched (S (turns (pstate m) l1)) m m' -> current_process m' = q /\ ring m' (q :: l2 ++ l1)) /\
  (forall k m' m'' seg gen frame, switched k m m' -> user_run m' m'' -> regs_ok seg gen frame ->
     exists m1 ctx, switch_process seg gen frame m'' = Ok (m1, Some ctx)).
Proof.
  intros Hw Hl Hq. split.
  - intros m' Hsw. apply switched_snoc in Hsw as (m1 & m2 & seg & gen & frame & ctx & Hsw & Hu & Hregs & E).
    destruct (switched_toward _ m m1 p ps l1 q l2 Hsw Hw Hl Hq eq_refl)
      as (y & ys & a & b & W & Hys & Ha & <- & Hq1 & _).
    destruct (turn_run m1 m2 y ys a q b seg gen frame W Hu Hys (running_runnable _ _ Hq1) Ha Hregs)
      as (m3 & E3 & (Hr & _ & Hc & _) & _).
    rewrite E3 in E. injection E as -> _. by split.
  - intros k m' m'' seg gen frame Hsw Hu Hregs.
    destruct (switched_waiting k m m' p ps Hsw Hw) as (y & ys & W & Ht).
    { rewrite Hl, turns_app. cbn [turns]. rewrite (running_runnable _ _ Hq). lia. }
    destruct (first_runnable _ _ Ht) as (a & x & b & Hys & Hx & Ha & _).
    destruct (turn_run m' m'' y ys a x b seg gen frame W Hu Hys Hx Ha Hregs) as (m1 & E & _). by eexists _, _.
Qed.

(** C17. A process resumes exactly where it was interrupted: in a ring of at least
    two processes that are running or halted, when the timer switches away from a
    running process and user programs and switches follow, the switch in which its
    turn comes again, after one for every other process that is not halted, goes on
    with the registers it was interrupted with, from the interrupted frame in ring 3 and
    from the interrupted stack in ring 0, under its own page directory.  When all
    others are halted the first switch itself does. *)
Theorem switch_process_resumes m p ps seg gen frame :
  waiting m p ps -> pstate m p = PROCESS_RUNNING -> regs_ok seg gen frame ->
  (level_of frame = RING_KERNEL -> g_esp gen <> 0) ->
  exists m1 ctx1, switch_process seg gen frame m = Ok (m1, Some ctx1) /\
    match turns (pstate m) ps with
    | O => resumed m m1 p ctx1 seg gen frame
    | S k => forall m2 m3 seg' gen' frame',
        switched k m1 m2 -> user_run m2 m3 -> regs_ok seg' gen' frame' ->
        exists m4 ctx4, switch_process seg' gen' frame' m3 = Ok (m4, Some ctx4) /\
          resumed m m4 p ctx4 seg gen frame
    end.
Proof.
  intros Hw Hp Hregs Hg. pose proof Hw as ((_ & Hnd & _) & _). apply NoDup_cons in Hnd as [Hnp _].
  assert (left_behind m p seg gen frame = {| sv_seg := seg; sv_gen := gen; sv_frame := frame |}) as Hleft
    by (unfold left_behind; by rewrite Hp).
  destruct (turns (pstate m) ps) as [|k] eqn:Ht.
  - assert (Forall (fun x => runnable (pstate m) x = false) ps) as Ha by (by apply turns_zero).
    destruct (turn m p ps ps p [] seg gen frame Hw eq_refl (running_runnable _ _ Hp) Ha Hregs)
      as (m1 & E & (_ & _ & C & _) & D & Sv & _).
    exists m1, (context_of (saved m1 p)). split; [done|]. split; [done|]. split; [|done].
    rewrite Sv, Hleft. by apply continues_noted.
  - destruct (first_runnable (pstate m) ps) as (a & x & b & Hps & Hx & Ha & Hb); [by rewrite Ht|].
    assert (ps ++ [p] = a ++ x :: (b ++ [p])) as Hl by (by rewrite Hps, <- app_assoc).
    destruct (turn m p ps a x _ seg gen frame Hw Hl Hx Ha Hregs) as (m1 & E & W & _ & Sv & _ & F).
    exists m1, (context_of (saved m1 x)). split; [done|]. intros m2 m3 seg' gen' frame' Hsw Hu Hregs'.
    assert (x <> p) as Hxp by (intros ->; apply Hnp; rewrite Hps, elem_of_app; right; by left).
    destruct (F p ltac:(by left)) as [Fp Dp].
    destruct (switched_toward k m1 m2 x _ b p (a ++ [x]) Hsw W) as
      (y & ys & a' & b' & W2 & Hys & Ha' & _ & Hp2 & D2 & Hs2); [by rewrite <- !app_assoc|by rewrite Fp| |].
    { rewrite <- (turns_ext (pstate m)); [lia|]. intros r Hr. symmetry. apply F.
      rewrite Hps. right. rewrite elem_of_app. right. by right. }
    destruct (turn_run m2 m3 y ys a' p b' seg' gen' frame' W2 Hu Hys (running_runnable _ _ Hp2) Ha' Hregs')
      as (m4 & E4 & (_ & _ & C4 & _) & D4 & S4 & _).
    destruct (Hs2 Hxp) as [Hsaved Hyp].
    assert (p ∈ ys) as Hin.
    { assert (p ∈ ys ++ [y]) as Hin by (rewrite Hys, elem_of_app; right; by left).
      rewrite elem_of_app, list_elem_of_singleton in Hin. by destruct Hin as [|<-]. }
    exists m4, (context_of (saved m4 p)). split; [done|]. split; [done|]. split.
    + rewrite S4, Hsaved, Sv, Hleft by done. by apply continues_noted.
    + by rewrite D4, D2, Dp.
Qed.
