(* ===== verification/Queue.v ===== *)
(** * The process queue: insertion, and the switches that do not switch *)

From S2P Require Export SwitchProps.

#[local] Open Scope Z_scope.

(** A word stored in a field of a descriptor. *)
Lemma put_fld (m : machine) q off v :
  desc_ok q -> 0 <= off -> off + 4 <= sizeof_process_desc ->
  exists m', st32 m (u32 (q + off)) v = Ok m' /\ same_outside m m' /\
    fld m' q off = u32 v /\
    (forall off', 0 <= off' -> off' + 4 <= sizeof_process_desc ->
       off' + 4 <= off \/ off + 4 <= off' -> fld m' q off' = fld m q off') /\
    (forall b, kernel_window b -> b < q + off \/ q + off + 4 <= b -> view m' b = view m b).
Proof.
  intros Hd H0 H1. rewrite (desc_addr _ _ 4) by (done || lia).
  destruct (stn_win (win := kernel_window) 4 m (q + off) v) as (m' & E & O & V);
    [by apply desc_win|].
  exists m'. split; [exact E|]. split; [exact O|].
  assert (forall off', 0 <= off' -> off' + 4 <= sizeof_process_desc ->
    fld m' q off' = vld32 (vst 4 (view m) (q + off) v) (q + off')) as Hf.
  { intros off' Ha Hb. destruct (desc_win q off' 4 Hd Ha Hb) as (_ & _ & Hw).
    apply vld_ext. intros b Hbr. apply V, Hw. lia. }
  split; [rewrite Hf by done; by rewrite vld_vst_same|]. split.
  - intros off' Ha Hb Hdis. rewrite Hf by done. apply vld_vst_other. lia.
  - intros b Hb Hbo. rewrite V by done. by rewrite vst_out by lia.
Qed.

(** The links a queue insertion may change. *)
Lemma linked_keep m m' l :
  (forall l1 x y l2, l = (l1 ++ x :: y :: l2) ->
     fld m' x o_next = fld m x o_next /\ fld m' y o_prev = fld m y o_prev) ->
  linked m l -> linked m' l.
Proof.
  induction l as [|a l IH]; intros Hk; [done|]. destruct l as [|b l]; [done|].
  rewrite !linked_cons. intros (Hn & Hp & Hl).
  destruct (Hk [] a b l eq_refl) as [-> ->]. split; [done|]. split; [done|].
  apply IH; [|done]. intros l1 x y l2 E. apply (Hk (a :: l1) x y l2). by rewrite E.
Qed.

(** A new descriptor: apart from those of the queue. *)
Definition fresh_desc (l : list Z) (n : Z) : Prop :=
  desc_ok n /\ (n ∉ l) /\ forall p, p ∈ l -> descs_apart p n.

Lemma fld_apart (m m' : machine) q off n r off' :
  (forall b, kernel_window b -> b < q + off \/ q + off + n <= b -> view m' b = view m b) ->
  desc_ok r -> descs_apart q r -> 0 <= off -> off + n <= sizeof_process_desc ->
  0 <= off' -> off' + 4 <= sizeof_process_desc -> fld m' r off' = fld m r off'.
Proof.
  intros Hv Hd Ha H0 H1 H2 H3. destruct (desc_win r off' 4 Hd H2 H3) as (_ & _ & Hw).
  apply vld_ext. intros b Hb. apply Hv; [apply Hw; lia|]. unfold descs_apart in Ha. lia.
Qed.

(** Insertion into the empty queue. *)
Lemma enqueue_first m n :
  desc_ok n -> current_process m = 0 ->
  exists m', enqueue n m = Ok m' /\ current_process m' = n /\ ring m' [n] /\
    same_outside (set_current n m) m' /\
    forall b, kernel_window b -> b < n + o_prev \/ n + o_state <= b -> view m' b = view m b.
Proof.
  intros Hd Hc. unfold enqueue. rewrite Hc. cbn [Z.eqb].
  destruct (put_fld (set_current n m) n o_next n Hd) as (m1 & E1 & S1 & N1 & _ & V1); [done|done|].
  unfold put_current at 1. change (current_process (set_current n m)) with n.
  rewrite (bind_ok _ _ _ E1). cbv beta.
  assert (current_process m1 = n) as C1 by (by destruct S1 as [_ ->]).
  destruct (put_fld m1 n o_prev n Hd) as (m2 & E2 & S2 & P2 & F2 & V2); [done|done|].
  unfold put_current. rewrite C1. exists m2. split; [exact E2|].
  assert (u32 n = n) as Hn.
  { destruct Hd. unfold KERNEL_BASE, sizeof_process_desc in *. apply u32_small. lia. }
  split; [by destruct S2 as [_ ->]|]. split; [|split; [by apply (same_outside_trans _ m1)|]].
  2:{ intros b Hb Hbn. rewrite V2, V1 by (done || (unfold o_next, o_prev, o_state in *; lia)). done. }
  split; [by apply Forall_singleton|].
  split; [apply NoDup_singleton|]. split.
  { intros p q Hp Hq. apply list_elem_of_singleton in Hp, Hq. congruence. }
  cbn [app]. rewrite linked_cons, (F2 o_next), N1, P2, Hn; [done|done|done|].
  unfold o_next, o_prev. lia.
Qed.

(** The part of a descriptor that is not links: context, stack, directory, state. *)
Definition content_kept (m m' : machine) (r : Z) : Prop :=
  forall b, r <= b < r + o_prev \/ b = r + o_state -> view m' b = view m b.

Lemma content_kept_trans m1 m2 m3 r :
  content_kept m1 m2 r -> content_kept m2 m3 r -> content_kept m1 m3 r.
Proof. intros H1 H2 b Hb. by rewrite H2, H1. Qed.

(** Only links of the descriptors [D] are written. *)
Definition links_only (m m' : machine) (D : list Z) : Prop :=
  forall b, kernel_window b -> (forall r, r ∈ D -> b < r + o_prev \/ r + o_state <= b) ->
    view m' b = view m b.

Lemma links_only_trans m1 m2 m3 D :
  links_only m1 m2 D -> links_only m2 m3 D -> links_only m1 m3 D.
Proof. intros H1 H2 b Hb Hd. by rewrite H2, H1. Qed.

(** Storing one link, among descriptors that lie apart. *)
Lemma put_link (m : machine) (D : list Z) q off v :
  Forall desc_ok D -> (forall r s, r ∈ D -> s ∈ D -> r <> s -> descs_apart r s) -> q ∈ D ->
  off = o_next \/ off = o_prev ->
  exists m', st32 m (u32 (q + off)) v = Ok m' /\ same_outside m m' /\
    (forall r off', r ∈ D -> off' = o_next \/ off' = o_prev ->
       fld m' r off' = if decide (r = q /\ off' = off) then u32 v else fld m r off') /\
    (forall r, r ∈ D -> content_kept m m' r) /\ links_only m m' D.
Proof.
  intros HD Hap Hq Hoff. rewrite Forall_forall in HD.
  assert (0 <= off /\ off + 4 <= o_state /\ o_prev <= off) as (H0 & H1 & H2)
    by (unfold o_next, o_prev, o_state in *; lia).
  destruct (put_fld m q off v) as (m' & E & O & N & F & V);
    [by apply HD|done|unfold o_state, sizeof_process_desc in *; lia|].
  exists m'. split; [done|]. split; [done|]. split.
  - intros r off' Hr Hoff'.
    assert (0 <= off' /\ off' + 4 <= sizeof_process_desc) as [H3 H4]
      by (unfold o_next, o_prev, sizeof_process_desc in *; lia).
    destruct (decide (r = q)) as [->|Hne].
    + destruct (decide (off' = off)) as [->|Hno].
      * by rewrite decide_True.
      * rewrite decide_False by tauto. apply F; [done|done|].
        unfold o_next, o_prev in *. lia.
    + rewrite decide_False by tauto.
      apply (fld_apart m m' q off 4); try done; [by apply HD|by apply Hap|].
      unfold o_state, sizeof_process_desc in *. lia.
  - split; [|intros b Hb Hbd; apply V; [done|];
      specialize (Hbd q Hq); unfold o_next, o_prev, o_state in *; lia].
    intros r Hr b Hb. destruct (HD _ Hr) as [Hr0 Hr1]. unfold sizeof_process_desc, o_state in *.
    apply V; [unfold kernel_window; unfold o_prev in *; lia|].
    destruct (decide (r = q)) as [->|Hne]; [unfold o_prev in *; lia|].
    pose proof (Hap r q Hr Hq Hne) as Ha. unfold descs_apart, sizeof_process_desc in Ha.
    unfold o_prev in *. lia.
Qed.

(** Of two neighbours the first is not the last and the second not the first. *)
Lemma adjacent_inner (l : list Z) p ps l0 z l1 x y l2 :
  NoDup l -> l = p :: ps -> l = l0 ++ [z] -> l0 ++ [z] = l1 ++ x :: y :: l2 -> x <> z /\ y <> p.
Proof.
  intros Hnd Hp Hz E. split.
  - destruct (exists_last (l := y :: l2)) as (l3 & w & Hw); [done|].
    rewrite Hw, app_comm_cons, app_assoc in E. apply app_inj_tail in E as [-> _].
    intros ->. rewrite Hz in Hnd. apply NoDup_app in Hnd as (_ & Hd & _).
    apply (Hd z); [|by left]. rewrite elem_of_app. right. by left.
  - assert (y ∈ ps) as Hy.
    { rewrite <- Hz, Hp in E. destruct l1 as [|a l1]; injection E as _ ->; [by left|].
      rewrite elem_of_app. right. right. by left. }
    intros ->. rewrite Hp in Hnd. by apply NoDup_cons in Hnd as [? _].
Qed.

(** Descriptors that can be written one by one. *)
Definition descs_ok (D : list Z) : Prop :=
  NoDup D /\ Forall desc_ok D /\ forall r s, r ∈ D -> s ∈ D -> r <> s -> descs_apart r s.

Lemma descs_ok_snoc D n :
  descs_ok D -> fresh_desc D n -> descs_ok (D ++ [n]).
Proof.
  intros (Hnd & Hd & Hap) (Hnok & Hni & Hna). split; [|split].
  - apply NoDup_app. split; [done|]. split; [|apply NoDup_singleton].
    intros x Hx Hxn. apply list_elem_of_singleton in Hxn as ->. by apply Hni.
  - apply Forall_app. split; [done|by apply Forall_singleton].
  - intros r s Hr Hs Hne. rewrite elem_of_app, list_elem_of_singleton in Hr, Hs.
    destruct Hr as [Hr|Hr], Hs as [Hs|Hs].
    + by apply Hap.
    + subst s. by apply Hna.
    + subst r. specialize (Hna _ Hs). unfold descs_apart in *. lia.
    + congruence.
Qed.

Lemma descs_ok_small D r : descs_ok D -> r ∈ D -> u32 r = r.
Proof.
  intros (_ & Hd & _) Hr. rewrite Forall_forall in Hd. destruct (Hd _ Hr).
  unfold KERNEL_BASE, sizeof_process_desc in *. apply u32_small. lia.
Qed.

(** The four stores of the insertion of [n] between [z] and [p]. *)
Lemma enqueue_links m D p z n :
  descs_ok D -> n ∈ D -> p ∈ D -> z ∈ D -> n <> p -> n <> z -> p <> 0 -> current_process m = p -> fld m p o_prev = z ->
  exists m', enqueue n m = Ok m' /\ current_process m' = p /\
    (forall r, r ∈ D -> fld m' r o_next = if decide (r = z) then n else if decide (r = n) then p else fld m r o_next) /\
    (forall r, r ∈ D -> fld m' r o_prev = if decide (r = p) then n else if decide (r = n) then z else fld m r o_prev) /\
    (forall r, r ∈ D -> content_kept m m' r) /\ same_outside m m' /\ links_only m m' D.
Proof.
  intros HD HnD HpD HzD Hnp Hnz Hp0 Hc Hpz. pose proof HD as (_ & HDok & HDap).
  assert (o_next <> o_prev) as Hon by done.
  destruct (put_link m D n o_next p HDok HDap HnD ltac:(by left)) as (m1 & E1 & S1 & F1 & K1 & L1).
  destruct (put_link m1 D n o_prev z HDok HDap HnD ltac:(by right)) as (m2 & E2 & S2 & F2 & K2 & L2).
  destruct (put_link m2 D z o_next n HDok HDap HzD ltac:(by left)) as (m3 & E3 & S3 & F3 & K3 & L3).
  destruct (put_link m3 D p o_prev n HDok HDap HpD ltac:(by right)) as (m4 & E4 & S4 & F4 & K4 & L4).
  rewrite (descs_ok_small D p HD HpD) in F1. rewrite (descs_ok_small D z HD HzD) in F2.
  rewrite (descs_ok_small D n HD HnD) in F3, F4.
  assert (current_process m1 = p) as C1 by (by destruct S1 as [_ ->]).
  assert (current_process m2 = p) as C2 by (by destruct S2 as [_ ->]).
  assert (current_process m3 = p) as C3 by (by destruct S3 as [_ ->]).
  assert (current_process m4 = p) as C4 by (by destruct S4 as [_ ->]).
  assert (get_current o_prev m1 = Ok z /\ get_current o_prev m2 = Ok z) as [G1 G2].
  { rewrite Forall_forall in HDok. split; rewrite get_current_win by (rewrite ?C1, ?C2; auto; done);
      rewrite ?C1, ?C2, ?F2, ?F1 by (done || by right);
      rewrite !decide_False by (intros [? ?]; congruence); by rewrite Hpz. }
  exists m4. split.
  { unfold enqueue. rewrite Hc. destruct (Z.eqb_spec p 0); [done|].
    rewrite (bind_ok _ _ _ E1). cbv beta. rewrite (bind_ok _ _ _ G1). cbv beta.
    rewrite (bind_ok _ _ _ E2). cbv beta. rewrite (bind_ok _ _ _ G2). cbv beta.
    rewrite (bind_ok _ _ _ E3). cbv beta. unfold put_current. rewrite C3. exact E4. }
  split; [exact C4|]. split; [|split; [|split; [|split]]].
  - intros r Hr. rewrite F4, F3, F2, F1 by (done || by left). repeat case_decide; intuition congruence.
  - intros r Hr. rewrite F4, F3, F2, F1 by (done || by right). repeat case_decide; intuition congruence.
  - intros r Hr. eapply content_kept_trans; [by apply K1|]. eapply content_kept_trans; [by apply K2|].
    eapply content_kept_trans; [by apply K3|by apply K4].
  - eauto using same_outside_trans.
  - eauto using links_only_trans.
Qed.

(** A ring whose end [z] is linked to [n], and [n] to the first descriptor. *)
Lemma linked_snoc m m' p ps l0 z n :
  NoDup (p :: ps) -> n ∉ p :: ps -> p :: ps = l0 ++ [z] -> linked m (l0 ++ [z]) ->
  (forall r, r ∈ p :: ps ++ [n] -> fld m' r o_next = if decide (r = z) then n else if decide (r = n) then p else fld m r o_next) ->
  (forall r, r ∈ p :: ps ++ [n] -> fld m' r o_prev = if decide (r = p) then n else if decide (r = n) then z else fld m r o_prev) ->
  linked m' ((p :: ps ++ [n]) ++ [p]).
Proof.
  intros Hnd Hni Hz Hl0 Fn Fp.
  assert (forall r, r ∈ p :: ps \/ r = n -> r ∈ p :: ps ++ [n]) as HD
    by (intros r Hr; by rewrite app_comm_cons, elem_of_app, list_elem_of_singleton).
  assert (z ∈ p :: ps) as Hzin by (rewrite Hz, elem_of_app; right; by left).
  assert (p ∈ p :: ps) as Hpin by (by left).
  rewrite app_comm_cons, Hz, <- !app_assoc. cbn [app]. apply linked_app. split.
  - apply (linked_keep m); [|exact Hl0]. intros l1 x y l2 E.
    assert (x ∈ p :: ps /\ y ∈ p :: ps) as [Hx Hy].
    { rewrite Hz, E, !elem_of_app. split; right; [by left|by right; left]. }
    destruct (adjacent_inner (p :: ps) p ps l0 z l1 x y l2 Hnd eq_refl Hz E) as [Hxz Hyp].
    rewrite Fn, Fp by auto.
    rewrite (decide_False (P := x = n)), (decide_False (P := y = n)) by (intros ->; done).
    by rewrite !decide_False by done.
  - rewrite !linked_cons, !Fn, !Fp by auto. cbn [linked].
    rewrite !(decide_False (P := n = z)), !(decide_False (P := n = p)) by (intros ->; done).
    by rewrite !decide_True by done.
Qed.

(** Insertion before the current process, which is the end of the ring. *)
Lemma enqueue_ring m p ps n :
  ring m (p :: ps) -> current_process m = p -> fresh_desc (p :: ps) n ->
  exists m', enqueue n m = Ok m' /\ current_process m' = p /\ ring m' (p :: ps ++ [n]) /\
    (forall r, r ∈ p :: ps ++ [n] -> content_kept m m' r) /\
    same_outside m m' /\ links_only m m' (p :: ps ++ [n]).
Proof.
  intros (Hd & Hnd & Hap & Hl) Hc Hf. pose proof Hf as (_ & Hni & _).
  destruct (exists_last (l := p :: ps)) as (l0 & z & Hz); [done|].
  assert (z ∈ p :: ps) as Hzin by (rewrite Hz, elem_of_app; right; by left).
  assert (linked m (l0 ++ [z]) /\ fld m p o_prev = z) as [Hl0 Hpz].
  { rewrite Hz, <- app_assoc in Hl. cbn [app] in Hl.
    apply linked_app in Hl as [H0 Hl]. rewrite linked_cons in Hl. by destruct Hl as (_ & ? & _). }
  pose proof (descs_ok_snoc (p :: ps) n ltac:(done) Hf) as HD. cbn [app] in HD.
  assert (p <> 0) as Hp0.
  { apply Forall_cons in Hd as [[Hp _] _]. unfold KERNEL_BASE in Hp. lia. }
  destruct (enqueue_links m _ p z n HD) as (m' & E & C & Fn & Fp & K & S & Lo); try done.
  - rewrite app_comm_cons, elem_of_app. right. by left.
  - by left.
  - rewrite app_comm_cons, elem_of_app. by left.
  - intros ->. apply Hni. by left.
  - intros ->. by apply Hni.
  - exists m'. do 2 (split; [done|]). split; [|done]. destruct HD as (HD1 & HD2 & HD3).
    split; [done|]. split; [done|]. split; [done|]. by apply (linked_snoc m m' p ps l0 z n).
Qed.

(** The queue insertion at the end of create_process: into the empty queue the
    new process becomes the ring and the current process; otherwise it becomes
    the last of the round, the current process stays, and no descriptor loses its
    context, stack, directory or state. *)
Theorem enqueue_inserts m n :
  desc_ok n ->
  (current_process m = 0 ->
     exists m', enqueue n m = Ok m' /\ current_process m' = n /\ ring m' [n]) /\
  (forall p ps, ring m (p :: ps) -> current_process m = p -> fresh_desc (p :: ps) n ->
     exists m', enqueue n m = Ok m' /\ current_process m' = p /\ ring m' (p :: ps ++ [n]) /\
       forall r, r ∈ p :: ps ++ [n] -> content_kept m m' r).
Proof.
  intros Hd. split.
  - intros Hc. destruct (enqueue_first m n Hd Hc) as (m' & ? & ? & ? & _). by exists m'.
  - intros p ps Hr Hc Hf. destruct (enqueue_ring m p ps n Hr Hc Hf) as (m' & ? & ? & ? & ? & _).
    by exists m'.
Qed.

(** The first steps of switch_process for a ring of at least two. *)
Lemma switch_process_enter m p x ps seg gen frame :
  ring m (p :: x :: ps) -> current_process m = p ->
  switch_process seg gen frame m =
    (m ← leave_current seg gen frame m; m ← note_stack (level_of frame) m;
     m ← loop advance_body m; '(m, ctx) ← enter_current m; mret (m, Some ctx)).
Proof.
  intros (Hd & Hnd & _ & Hl) Hc. apply Forall_cons in Hd as [Hp Hd].
  cbn [app] in Hl. rewrite linked_cons in Hl. destruct Hl as (Hn & _).
  apply NoDup_cons in Hnd as [Hpx _]. unfold switch_process. rewrite Hc.
  destruct (Z.eqb_spec p 0) as [->|].
  { destruct Hp as [Hp _]. unfold KERNEL_BASE in Hp. lia. }
  assert (get_current o_next m = Ok x) as En
    by (rewrite get_current_win by (rewrite ?Hc; done); by rewrite Hc, Hn).
  rewrite (bind_ok _ _ _ En). cbv beta. destruct (Z.eqb_spec x p) as [->|]; [|done].
  exfalso. apply Hpx. by left.
Qed.

(** C38. When every process is halted switch_process does not come back: its
    search goes round the ring for ever, with interrupts off and the interrupt
    not acknowledged. *)
Theorem switch_process_hangs m p x ps seg gen frame :
  ring m (p :: x :: ps) -> current_process m = p ->
  Forall (fun q => pstate m q = PROCESS_HALTED) (p :: x :: ps) ->
  switch_process seg gen frame m = Diverge.
Proof.
  intros Hr Hc Hh. rewrite (switch_process_enter m p x ps) by done.
  pose proof Hr as (Hd & Hnd & Hap & _). pose proof Hd as Hd'.
  apply Forall_cons in Hd' as [Hp Hps]. pose proof Hh as Hh'. apply Forall_cons in Hh' as [Hhp _].
  assert (leave_current seg gen frame m = Ok m) as E1.
  { unfold leave_current. rewrite Hc, get_state_win by done. bnd. by rewrite Hhp. }
  rewrite (bind_ok _ _ _ E1). cbv beta.
  destruct (note_stack_win (level_of frame) m) as (m2 & E2 & R2 & _); [by rewrite Hc|].
  rewrite (bind_ok _ _ _ E2). cbv beta. rewrite Hc in R2.
  assert (forall r, r ∈ p :: x :: ps -> pstate m2 r = pstate m r /\
    (forall off, off = o_next \/ off = o_prev -> fld m2 r off = fld m r off)) as Hsame.
  { intros r Hin. apply elem_of_cons in Hin as [->|Hin].
    - split; [by apply regs_only_state|]. intros off [-> | ->]; by apply regs_only_fld.
    - rewrite Forall_forall in Hps.
      assert (forall b, r <= b < r + sizeof_process_desc -> view m2 b = view m b) as Hv.
      { intros b Hb. eapply (regs_only_other m m2 p r); [done|by apply Hps| |done].
        apply Hap; [by left|by right|]. intros ->. by apply NoDup_cons in Hnd as [? _]. }
      split; [apply Hv; unfold o_state, sizeof_process_desc; lia|].
      intros off Hoff. apply vld_ext. intros b Hb. apply Hv.
      unfold sizeof_process_desc, o_next, o_prev in *. lia. }
  rewrite (advance_diverges m2 p (x :: ps)); [done| | |].
  - apply (ring_ext m); [|done]. intros r off Hin. by apply Hsame.
  - by rewrite (regs_only_current _ _ _ R2).
  - apply rotate_to_none. apply Forall_forall. intros r Hin. unfold runnable.
    assert (r ∈ p :: x :: ps) as Hin'.
    { rewrite elem_of_app, list_elem_of_singleton in Hin. rewrite elem_of_cons. tauto. }
    rewrite Forall_forall in Hh. destruct (Hsame r Hin') as [-> _]. by rewrite Hh.
Qed.
