(* ===== verification/Timer.v ===== *)
(** * arch/x86/drivers/timer.c: the timer and its interrupt

    The counter chip is described as its data sheet does, for channel 0; what
    init_timer programs is what the chip makes of the bytes sent. *)

From S2P Require Export Queue.

#[local] Open Scope Z_scope.

Definition TIMER_CHANNEL0 : Z := KERNEL_BASE + 64.
Definition TIMER_MODE : Z := KERNEL_BASE + 67.
Definition TIMER_FREQ : Z := 1193182.
Definition TIMER_INT_FREQ : Z := 1000.

Section Timer.
Context (addr_of : handler -> Z).

(** Initialize the timer interrupt *)
Definition init_timer (m : machine) : res machine :=
  (* Zero out vars *)
  let m := set_switching 0 m in
  (* Divider for the interrupts *)
  let divider := u16 (TIMER_FREQ / TIMER_INT_FREQ) in
  (* Add IRQ0 *)
  m ← set_id m IRQ_OFFSET (addr_of timer_handler_wrapper) 8 IDT_PROT_INTR 0 1;
  (* Set mode register *)
  let m := outportb TIMER_MODE 52 m in
  (* Low byte, high byte *)
  let m := outportb TIMER_CHANNEL0 (u8 (Z.land divider 255)) m in
  let m := outportb TIMER_CHANNEL0 (u8 (Z.land (Z.shiftr divider 8) 255)) m in
  mret m.
End Timer.

(** Enable switching *)
Definition enable_switching (m : machine) : machine := set_switching 1 m.

(** Timer handler.  A switch that leaves the kernel leaves the handler too. *)
Definition timer_handler (seg_regs : seg_register_set) (gen_regs : gen_register_set)
    (frame : interrupt_frame) (m : machine) : res (machine * option context) :=
  (* Switch context if enabled *)
  r ← (if negb (switching_enabled m =? 0) then switch_process seg_regs gen_regs frame m
       else mret (m, None));
  match r with
  | (m, Some ctx) => mret (m, Some ctx)
  | (m, None) => (* Send EOI *) mret (outportb PIC_COMMAND1 PIC_EOI m, None)
  end.

(** ** The 8254 counter, channel 0 *)

(** Programmed mode, reload value as far as it is written, bytes still due. *)
Record counter := { c_mode : Z; c_reload : Z; c_due : nat }.

(** A control word for channel 0 that asks for both bytes, and the two bytes. *)
Definition counter_write (c : counter) (w : Z * Z) : counter :=
  let '(port, v) := w in
  if (port =? 67) && (Z.shiftr v 6 =? 0) && (Z.land (Z.shiftr v 4) 3 =? 3) then
    {| c_mode := Z.land (Z.shiftr v 1) 7; c_reload := 0; c_due := 2 |}
  else if port =? 64 then
    match c_due c with
    | 2%nat => {| c_mode := c_mode c; c_reload := v; c_due := 1 |}
    | 1%nat => {| c_mode := c_mode c; c_reload := c_reload c + 256 * v; c_due := 0 |}
    | _ => c
    end
  else c.

(** init_timer installs the timer gate at the vector of IRQ 0 and, from any
    state of the counter, programs channel 0 as a rate generator whose frequency
    is the input clock divided by 1193: between 1000 and 1001 interrupts a
    second.  Switching starts disabled. *)
Theorem init_timer_programs addr_of m :
  (forall h, 0 <= addr_of h < 2 ^ 32) -> KERNEL_BASE <= idt m -> idt m + 2048 <= 4294967296 ->
  exists m' writes, init_timer addr_of m = Ok m' /\ sends m m' writes /\
    switching_enabled m' = 0 /\ gate_at m' IRQ_OFFSET = interrupt_gate (addr_of timer_handler_wrapper) /\
    (forall pos, 0 <= pos < 256 -> pos <> IRQ_OFFSET -> gate_at m' pos = gate_at m pos) /\
    forall c, let c' := foldl counter_write c writes in
      c_due c' = 0%nat /\ c_mode c' = 2 /\
      c_reload c' * TIMER_INT_FREQ <= TIMER_FREQ < c_reload c' * (TIMER_INT_FREQ + 1).
Proof.
  intros Ha H0 H1.
  destruct (set_id_gates (set_switching 0 m) IRQ_OFFSET (addr_of timer_handler_wrapper) 8
    IDT_PROT_INTR 0 1) as (m1 & E & [_ O] & I & G & F & _); try done.
  eexists _, [(67, 52); (64, 169); (64, 4)]. split.
  { unfold init_timer. rewrite (bind_ok _ _ _ E). reflexivity. }
  split.
  { unfold sends, outportb. cbn [ports set_ports]. rewrite O. cbn [ports set_phys set_switching].
    by rewrite <- !app_assoc. }
  split; [unfold outportb; cbn; rewrite O; done|]. split; [exact G|]. split; [exact F|].
  intros [mode reload due]. by vm_compute.
Qed.

(** A timer interrupt that does not switch only acknowledges. *)
Definition no_switch (m : machine) : Prop :=
  switching_enabled m = 0 \/ current_process m = 0 \/
  (exists p, ring m [p] /\ current_process m = p).

Lemma timer_handler_idle m seg gen frame :
  no_switch m -> timer_handler seg gen frame m = Ok (outportb PIC_COMMAND1 PIC_EOI m, None).
Proof.
  intros Hcase. unfold timer_handler.
  destruct (Z.eqb_spec (switching_enabled m) 0) as [|Hs]; [done|]. cbn [negb].
  assert (switch_process seg gen frame m = Ok (m, None)) as E; [|by rewrite (bind_ok _ _ _ E)].
  unfold switch_process. destruct (Z.eqb_spec (current_process m) 0) as [|Hc]; [done|].
  destruct Hcase as [|[|(p & Hr & Hp)]]; [done|done|].
  destruct Hr as (Hd & _ & _ & Hl). apply Forall_cons in Hd as [Hd _].
  cbn [app] in Hl. rewrite linked_cons in Hl. destruct Hl as (Hn & _).
  assert (get_current o_next m = Ok p) as En
    by (rewrite get_current_win by (rewrite ?Hp; done); by rewrite Hp, Hn).
  rewrite (bind_ok _ _ _ En). cbv beta. by rewrite Hp, Z.eqb_refl.
Qed.

(** Every timer interrupt is acknowledged exactly once: by the handler when it
    returns to the interrupted program, by the context switch when it does not.
    It returns, having touched nothing else, while switching is disabled and
    while there are fewer than two processes. *)
Theorem timer_handler_acknowledges m seg gen frame :
  regs_ok seg gen frame ->
  (switching_enabled m = 0 \/ current_process m = 0 \/
     (exists p, ring m [p] /\ current_process m = p) ->
   timer_handler seg gen frame m = Ok (outportb PIC_COMMAND1 PIC_EOI m, None) /\
   ports (outportb PIC_COMMAND1 PIC_EOI m) = ports m ++ [(32, 32)]) /\
  (forall p x ps, ring m (p :: x :: ps) -> current_process m = p ->
     pstate m p = PROCESS_RUNNING -> switching_enabled m <> 0 ->
     exists m' ctx, timer_handler seg gen frame m = Ok (m', Some ctx) /\
       ports m' = ports m ++ [(32, 32)]).
Proof.
  intros Hregs. split.
  - intros Hcase. split; [by apply timer_handler_idle|done].
  - intros p x ps Hr Hc Hst Hs. unfold timer_handler.
    destruct (Z.eqb_spec (switching_enabled m) 0) as [|_]; [done|]. cbn [negb].
    destruct (schedule_running (pstate m) p (x :: ps) Hst) as (q & qs & Hsch).
    destruct (switch_running m p (x :: ps) q qs seg gen frame Hr)
      as (m' & E & _ & _ & _ & _ & _ & _ & _ & Hports & _); try done.
    exists m', (context_of (saved m' q)). by rewrite (bind_ok _ _ _ E).
Qed.
