(* ===== verification/Kernel.v ===== *)
(** * kernel/kernel.c: the order in which the kernel starts

    kernel_main in two parts: what happens up to the point where interrupts are
    enabled ([kernel_init]), and the rest.  Loading the table registers (load_gdt,
    load_idt) has no effect on the modelled state.  The addresses the linker
    gives to the tables and to the handlers are parameters. *)

From S2P Require Export Timer PagingProps.

#[local] Open Scope Z_scope.

Section Kernel.
Context (kernel_memory gdt_addr tss_addr : Z) (addr_of : handler -> Z).

Definition kernel_init (m : machine) : res machine :=
  (* Load and init the gdt *)
  let m := set_gdt (init_gdt gdt_addr tss_addr (gdt_st m)) m in
  (* Setup the kernel heap *)
  m ← init_kernel_heap m;
  (* Allocate test values *)
  '(m, test1) ← kernel_allocate m 4;
  '(m, test2) ← kernel_allocate m 4;
  m ← st32 m test1 287454020;
  m ← st32 m test2 2882400018;
  (* Load the interrupt descriptor table *)
  m ← init_idt m;
  (* Initialize the timer (IRQ0) *)
  m ← init_timer addr_of m;
  (* Initialize PIC *)
  let m := init_pic m in
  (* Setup paging *)
  m ← init_paging kernel_memory addr_of m;
  (* Initialize processes *)
  mret (init_processes m).

Definition kernel_main (m : machine) : res (machine * context) :=
  m ← kernel_init m;
  let m := enable_interrupts m in
  m ← create_process kernel_memory 0 m;
  m ← create_process kernel_memory 0 m;
  (* Enable switching *)
  let m := enable_switching m in
  (* Force enter into user *)
  force_enter_userland m.
End Kernel.

(** ** The heap while the kernel starts *)

(** Its blocks: two test values and the interrupt table. *)
Definition boot_blocks : list BlockList.block :=
  [Block 3 true; Block 3 true; Block 4 false; Block 5 false; Block 6 false; Block 7 false;
   Block 8 false; Block 9 false; Block 10 false; Block 11 false; Block 12 true] ++ frees 13 29.

(** Where init_idt puts the table. *)
Definition boot_idt : Z := KERNEL_BASE + 268435456 + 4096.

Lemma heap_ends_same (s s' : machine) need :
  view s' (end_ kernel_heap) = view s (end_ kernel_heap) -> heap_ends s need -> heap_ends s' need.
Proof. unfold heap_ends. by intros ->. Qed.

Lemma heap_ends_more (s : machine) j k : j <= k -> heap_ends s j -> heap_ends s k.
Proof.
  intros Hjk [Hf H28]. split; [|done]. unfold fits_byte in *.
  destruct (hused _); [done|]. cbn in *. lia.
Qed.

Lemma end_not_header (s : machine) l :
  kernel_heap_at s l -> end_ kernel_heap ∉ headers (start kernel_heap) l.
Proof.
  intros [(Ht & Hok & _) _] Hin. apply headers_range in Hin; [|done].
  apply tiles_span in Ht. lia.
Qed.

Lemma end_in_window : kernel_window (end_ kernel_heap).
Proof. by vm_compute. Qed.

(** A four byte value stored in a block of eight. *)
Lemma store_test (m : machine) l1 l2 p v :
  kernel_heap_at m (l1 ++ Block 3 true :: l2) -> p = start kernel_heap + span l1 + 1 ->
  exists m', st32 m p v = Ok m' /\ same_outside m m' /\
    kernel_heap_at m' (l1 ++ Block 3 true :: l2) /\
    forall a, kernel_window a -> a < p \/ p + 4 <= a -> view m' a = view m a.
Proof.
  intros [Hh Ha] ->. pose proof Hh as (Ht & Hok & Hw & _). apply tiles_span in Ht.
  pose proof Hok as Hok'. apply Forall_app in Hok' as [H1 H2].
  apply Forall_cons in H2 as [_ H2]. pose proof (span_nonneg l1 H1). pose proof (span_nonneg l2 H2).
  rewrite span_app, span_cons, blen_block in Ht. change (2 ^ 3) with 8 in Ht.
  change (end_ kernel_heap) with 4026531839 in *. change (start kernel_heap) with 3489660927 in *.
  destruct (stn_win (win := kernel_window) 4 m (3489660927 + span l1 + 1) v) as (m' & E & O & V);
    [apply kernel_in_win; unfold KERNEL_BASE; lia|].
  assert (forall a, kernel_window a -> a < 3489660927 + span l1 + 1 \/
    3489660927 + span l1 + 1 + 4 <= a -> view m' a = view m a) as Hf.
  { intros a Haw Hao. rewrite V by done. by rewrite vst_out by lia. }
  exists m'. split; [exact E|]. split; [exact O|]. split; [|exact Hf]. split; [|done].
  apply (heap_payload m m' _ _ _ _ _ (3489660927 + span l1 + 1) 4 Hh).
  - change (start kernel_heap) with 3489660927. lia.
  - change (start kernel_heap) with 3489660927. rewrite blen_block. change (2 ^ 3) with 8. lia.
  - exact Hf.
Qed.

(** No header lies where the interrupt table will be. *)
Definition table_clear (l : list BlockList.block) : Prop :=
  forall x, boot_idt <= x < boot_idt + 2048 -> x ∉ headers (start kernel_heap) l.

Lemma table_clear_split l1 b l2 :
  sizes_ok (l1 ++ b :: l2) -> start kernel_heap + span l1 < boot_idt ->
  boot_idt + 2048 <= start kernel_heap + span l1 + blen b -> table_clear (l1 ++ b :: l2).
Proof. intros Hok H0 H1 x Hx. apply payload_not_header; [done|lia]. Qed.

Lemma boot_table_clear : sizes_ok boot_blocks -> table_clear boot_blocks.
Proof.
  intros Hok. apply (table_clear_split [Block 3 true; Block 3 true; Block 4 false; Block 5 false;
      Block 6 false; Block 7 false; Block 8 false; Block 9 false; Block 10 false; Block 11 false]
      (Block 12 true) (frees 13 29)); [exact Hok|by vm_compute|by vm_compute].
Qed.

Section Boot.
Context (m0 : machine).
Implicit Types (m : machine).

(** The state of the start-up while only the heap has been worked on. *)
Record heap_phase m (l : list BlockList.block) : Prop := {
  hp_heap : kernel_heap_at m l;
  hp_outside : same_outside m0 m;
  hp_ends : heap_ends m 3;
  hp_view : forall x, kernel_window x -> boot_idt <= x -> x ∉ headers (start kernel_heap) l ->
    view m x = view m0 x }.

Lemma table_in_window x : boot_idt <= x < boot_idt + 2048 -> kernel_window x.
Proof. unfold boot_idt, kernel_window, KERNEL_BASE. lia. Qed.

(** An allocation. *)
Lemma phase_allocate m l sz off l' :
  heap_phase m l -> 0 <= sz -> sz + 1 < 2 ^ 28 -> 3 <= needed (sz + 1) ->
  alloc_blocks (needed (sz + 1)) l = Some (off, l') ->
  exists m', kernel_allocate m sz = Ok (m', KERNEL_BASE + 268435456 + off) /\ heap_phase m' l'.
Proof.
  intros [Hh Ho He Hv] H0 H1 H3 Hb.
  destruct (kernel_allocate_hit m sz l off l' Hh H0 H1 (heap_ends_more _ 3 _ H3 He) Hb)
    as (m' & E & O & Hh' & _ & _ & _ & Hf & _).
  exists m'. split; [exact E|]. split; [done|by apply (same_outside_trans m0 m)| |].
  - apply (heap_ends_same m); [|done].
    apply Hf; [apply end_in_window|by apply (end_not_header m')].
  - intros x Hx Hb' Hnh. rewrite Hf, Hv; [done|done|done| |done|done].
    intros Hin. apply Hnh. pose proof Hh as [(_ & Hok & _) _].
    by apply (alloc_headers (needed (sz + 1)) l off l').
Qed.

(** A test value. *)
Lemma phase_store m l1 l2 p v :
  heap_phase m (l1 ++ Block 3 true :: l2) -> p = start kernel_heap + span l1 + 1 ->
  p + 4 <= boot_idt -> start kernel_heap <= p ->
  exists m', st32 m p v = Ok m' /\ heap_phase m' (l1 ++ Block 3 true :: l2).
Proof.
  intros [Hh Ho He Ht] Hp Hlt Hge.
  destruct (store_test m l1 l2 p v Hh Hp) as (m' & E & O & Hh' & Hf).
  exists m'. split; [exact E|]. split; [done|by apply (same_outside_trans m0 m)| |].
  - apply (heap_ends_same m); [|done]. apply Hf; [apply end_in_window|].
    right. apply Z.le_trans with boot_idt; [done|by vm_compute].
  - intros x Hx Hb Hnh. rewrite Hf, Ht; [done..|right; lia].
Qed.

(** The heap is set up. *)
Lemma phase_start : heap_ends m0 3 -> exists m, init_kernel_heap m0 = Ok m /\ heap_phase m [Block 29 false].
Proof.
  intros He.
  assert (start kernel_heap = 3489660927 /\ end_ kernel_heap = 4026531839) as [Es Ee] by done.
  destruct (init_memory_win (win := kernel_window) kernel_heap m0) as (m & E & O & Hh & Hf);
    [rewrite Es; lia|rewrite Es, Ee; lia|rewrite Ee; lia|by vm_compute|rewrite Es, Ee; by apply kernel_in_win|].
  change (init_blocks 3 _) with [Block 29 false] in Hh, Hf.
  assert (forall x, kernel_window x -> start kernel_heap < x -> view m x = view m0 x) as Hf'.
  { intros x Hx Hgt. apply Hf; [done|]. cbn [headers]. intros Hin.
    apply list_elem_of_singleton in Hin. lia. }
  exists m. split; [exact E|]. split.
  - split; [exact Hh|]. split; [apply Z.divide_0_r|done].
  - exact O.
  - apply (heap_ends_same m0); [|done]. apply Hf'; [apply end_in_window|]. rewrite Es, Ee. lia.
  - intros x Hx Hb _. apply Hf'; [done|]. rewrite Es. unfold boot_idt, KERNEL_BASE in Hb. lia.
Qed.

(** From init_kernel_heap to init_idt. *)
Lemma heap_steps :
  heap_ends m0 3 ->
  exists m1 m2 m3 m4 m5 m6 p1 p2,
    init_kernel_heap m0 = Ok m1 /\ kernel_allocate m1 4 = Ok (m2, p1) /\
    kernel_allocate m2 4 = Ok (m3, p2) /\ st32 m3 p1 287454020 = Ok m4 /\
    st32 m4 p2 2882400018 = Ok m5 /\ init_idt m5 = Ok m6 /\
    idt m6 = boot_idt /\ kernel_heap_at m6 boot_blocks /\
    m6 = set_phys (phys m6) (set_idt boot_idt {| idtr_size := 2047; idtr_offset := boot_idt |} m0) /\
    forall x, kernel_window x -> boot_idt <= x -> x ∉ headers (start kernel_heap) boot_blocks ->
      view m6 x = view m0 x.
Proof.
  intros He.
  destruct (phase_start He) as (m1 & E1 & H1).
  destruct (phase_allocate m1 _ 4 0 (Block 3 true :: frees 3 29) H1)
    as (m2 & E2 & H2); [lia|lia|by vm_compute|reflexivity|].
  destruct (phase_allocate m2 _ 4 8 (Block 3 true :: Block 3 true :: frees 4 29) H2)
    as (m3 & E3 & H3); [lia|lia|by vm_compute|reflexivity|].
  destruct (phase_store m3 [] (Block 3 true :: frees 4 29) (KERNEL_BASE + 268435456 + 0) 287454020)
    as (m4 & E4 & H4); [exact H3|by vm_compute|by vm_compute|by vm_compute|].
  destruct (phase_store m4 [Block 3 true] (frees 4 29) (KERNEL_BASE + 268435456 + 8) 2882400018)
    as (m5 & E5 & H5); [exact H4|by vm_compute|by vm_compute|by vm_compute|].
  destruct (phase_allocate m5 _ 2048 4096 boot_blocks H5)
    as (m6 & E6 & [Hh Ho _ Ht]); [lia|lia|by vm_compute|reflexivity|].
  eexists m1, m2, m3, m4, m5, _, _, _.
  split; [exact E1|]. split; [exact E2|]. split; [exact E3|]. split; [exact E4|].
  split; [exact E5|]. split.
  { unfold init_idt. change (8 * IDT_LIMIT) with 2048. rewrite (bind_ok _ _ _ E6). reflexivity. }
  split; [done|]. split; [exact Hh|]. split; [|exact Ht].
  destruct Ho as [_ Ho]. rewrite Ho. done.
Qed.
End Boot.

(** Writes to the interrupt table and below the heap do not disturb the heap. *)
Lemma boot_heap_kept (m m' : machine) :
  kernel_heap_at m boot_blocks ->
  (forall a, kernel_window a -> start kernel_heap <= a ->
     a < boot_idt \/ boot_idt + 2048 <= a -> view m' a = view m a) ->
  kernel_heap_at m' boot_blocks.
Proof.
  intros [(Ht & Hok & Hw & He) Ha] Hv. split; [|done]. split; [|done].
  eapply tiles_frame; [|exact Ht]. intros x Hx. symmetry.
  pose proof (headers_range _ _ _ Hok Hx) as [H0 H1]. pose proof (tiles_span _ _ _ _ Ht) as Hs.
  apply Hv; [apply Hw; lia|done|].
  destruct (decide (boot_idt <= x < boot_idt + 2048)) as [Hin|]; [|lia]. exfalso.
  exact (boot_table_clear Hok x Hin Hx).
Qed.

Lemma init_timer_win addr_of m :
  (forall h, 0 <= addr_of h < 2 ^ 32) -> KERNEL_BASE <= idt m -> idt m + 2048 <= 4294967296 ->
  exists m', init_timer addr_of m = Ok m' /\
    m' = set_phys (phys m') (set_ports (ports m') (set_switching 0 m)) /\
    gate_at m' IRQ_OFFSET = interrupt_gate (addr_of timer_handler_wrapper) /\
    (forall pos, 0 <= pos < 256 -> pos <> IRQ_OFFSET -> gate_at m' pos = gate_at m pos) /\
    forall a, kernel_window a -> a < idt m \/ idt m + 2048 <= a -> view m' a = view m a.
Proof.
  intros Ha H0 H1.
  destruct (set_id_gates (set_switching 0 m) IRQ_OFFSET (addr_of timer_handler_wrapper) 8
    IDT_PROT_INTR 0 1) as (m1 & E & [_ O] & I & G & F & V); try done.
  eexists. split; [unfold init_timer; rewrite (bind_ok _ _ _ E); reflexivity|].
  split; [rewrite O; done|]. split; [exact G|]. split; [exact F|exact V].
Qed.

(** Everything before the interrupts are enabled, with the memory above the table
    that stays as it is. *)
Lemma kernel_init_runs kernel_memory gdt_addr tss_addr addr_of m :
  KERNEL_BASE <= kernel_memory -> kernel_memory + 4096 <= start kernel_heap ->
  (4096 | kernel_memory) -> (forall h, 0 <= addr_of h < 2 ^ 32) -> heap_ends m 3 ->
  exists m', kernel_init kernel_memory gdt_addr tss_addr addr_of m = Ok m' /\
    kernel_heap_at m' boot_blocks /\ idt m' = boot_idt /\
    gate_at m' IRQ_OFFSET = interrupt_gate (addr_of timer_handler_wrapper) /\
    gate_at m' 14 = interrupt_gate (addr_of pagefault_handler_wrapper) /\
    (forall pos, 0 <= pos < 256 -> pos <> 14 -> pos <> IRQ_OFFSET ->
       gate_at m' pos = decode_gate (vld 8 (view m) (boot_idt + 8 * pos))) /\
    in_kernel m' /\ kernel_part (phys m') (cr3 m') /\ free_frames m' (frames 0 786432) /\
    gdt_st m' = init_gdt gdt_addr tss_addr (gdt_st m) /\
    current_process m' = 0 /\ switching_enabled m' = 0 /\ interrupts m' = interrupts m /\
    heap_ends m' 3 /\ cr3 m' = kernel_memory - KERNEL_BASE /\
    forall x, kernel_window x -> boot_idt + 2048 <= x ->
      x ∉ headers (start kernel_heap) boot_blocks -> view m' x = view m x.
Proof.
  intros Hm0 Hm1 Hd Ha He.
  set (mg := set_gdt (init_gdt gdt_addr tss_addr (gdt_st m)) m).
  destruct (heap_steps mg) as (m1 & m2 & m3 & m4 & m5 & m6 & p1 & p2 & E1 & E2 & E3 & E4 & E5 & E6 &
    I6 & H6 & Eq6 & T6); [exact He|].
  destruct (init_timer_win addr_of m6) as (m7 & E7 & Eq7 & G7 & N7 & V7);
    [done|by rewrite I6; vm_compute|by rewrite I6; vm_compute|].
  assert (idt m7 = boot_idt) as I7 by (rewrite Eq7; exact I6).
  set (m8 := init_pic m7).
  assert (idt m8 = boot_idt) as I8 by exact I7.
  destruct (init_paging_win kernel_memory addr_of Hm0 Hm1 Hd m8 Ha)
    as (m9 & E9 & Eq9 & K9 & P9 & F9 & G9 & N9 & V9);
    [by rewrite I8; vm_compute|by rewrite I8; vm_compute|right; rewrite I8|].
  { apply Z.le_trans with (start kernel_heap); [exact Hm1|by vm_compute]. }
  assert (idt m9 = boot_idt) as I9 by (rewrite Eq9; exact I8).
  assert (forall pos, gate_at m8 pos = gate_at m7 pos) as G8 by done.
  assert (forall x, kernel_window x -> boot_idt + 2048 <= x ->
    x ∉ headers (start kernel_heap) boot_blocks -> view m9 x = view m x) as Vm.
  { intros x Hx Hb Hnh. assert (start kernel_heap <= boot_idt) as Hsb by by vm_compute.
    transitivity (view m7 x); [apply (V9 x Hx); [right; lia|right; rewrite I8; exact Hb]|].
    transitivity (view m6 x); [apply V7; [done|right; rewrite I6; exact Hb]|].
    apply T6; [done|lia|done]. }
  exists (init_processes m9). split.
  { unfold kernel_init. fold mg. rewrite (bind_ok _ _ _ E1). cbv beta.
    rewrite (bind_ok _ _ _ E2). cbv beta iota. rewrite (bind_ok _ _ _ E3). cbv beta iota.
    rewrite (bind_ok _ _ _ E4). cbv beta. rewrite (bind_ok _ _ _ E5). cbv beta.
    rewrite (bind_ok _ _ _ E6). cbv beta. rewrite (bind_ok _ _ _ E7). cbv beta zeta.
    exact (bind_ok _ _ _ E9). }
  split.
  { apply (boot_heap_kept m7).
    - apply (boot_heap_kept m6); [exact H6|]. intros a Haw _ Hao. apply V7; [done|by rewrite I6].
    - intros a Haw Has Hao. apply (V9 a Haw); [right|by rewrite I8].
      by apply Z.le_trans with (start kernel_heap). }
  split; [exact I9|]. split.
  { refine (eq_trans _ G7). refine (eq_trans (N9 IRQ_OFFSET _ _) _); done. }
  split; [exact G9|]. split.
  { intros pos Hpos H14 H32. transitivity (gate_at m6 pos).
    - refine (eq_trans (N9 pos Hpos H14) _). by apply N7.
    - unfold gate_at. rewrite I6. f_equal. apply vld_ext. intros b Hb. pose proof H6 as [(_ & Hok & _) _].
      apply T6; [apply table_in_window; lia|lia|apply (boot_table_clear Hok); lia]. }
  split; [exact K9|]. split; [exact P9|]. split; [exact F9|].
  split; [|split; [done|split; [|split; [|split]]]]; cbn [gdt_st switching_enabled interrupts init_processes set_current].
  - rewrite Eq9. unfold m8. rewrite Eq7, Eq6. done.
  - rewrite Eq9. unfold m8. rewrite Eq7. done.
  - rewrite Eq9. unfold m8. rewrite Eq7, Eq6. done.
  - apply (heap_ends_same m); [|done]. apply Vm; [apply end_in_window|by vm_compute|].
    by apply (end_not_header m6).
  - split; [by rewrite Eq9|]. exact Vm.
Qed.

(** The kernel starts: from any memory whose byte after the heap is no free
    block, everything up to the enabling of interrupts succeeds, whatever else
    memory holds.  The heap then holds the two test values and the interrupt
    table, the timer and page fault gates are installed, the kernel's address
    space is in force with every user frame free, there is no process and
    switching is off.  Every other gate is whatever the memory of the table held
    before: init_exceptions is never called. *)
Theorem kernel_init_ok kernel_memory gdt_addr tss_addr addr_of m :
  KERNEL_BASE <= kernel_memory -> kernel_memory + 4096 <= start kernel_heap ->
  (4096 | kernel_memory) -> (forall h, 0 <= addr_of h < 2 ^ 32) -> heap_ends m 3 ->
  exists m', kernel_init kernel_memory gdt_addr tss_addr addr_of m = Ok m' /\
    kernel_heap_at m' boot_blocks /\ idt m' = boot_idt /\
    gate_at m' IRQ_OFFSET = interrupt_gate (addr_of timer_handler_wrapper) /\
    gate_at m' 14 = interrupt_gate (addr_of pagefault_handler_wrapper) /\
    (forall pos, 0 <= pos < 256 -> pos <> 14 -> pos <> IRQ_OFFSET ->
       gate_at m' pos = decode_gate (vld 8 (view m) (boot_idt + 8 * pos))) /\
    in_kernel m' /\ kernel_part (phys m') (cr3 m') /\ free_frames m' (frames 0 786432) /\
    gdt_st m' = init_gdt gdt_addr tss_addr (gdt_st m) /\
    current_process m' = 0 /\ switching_enabled m' = 0 /\ interrupts m' = interrupts m.
Proof.
  intros H0 H1 H2 H3 H4.
  destruct (kernel_init_runs kernel_memory gdt_addr tss_addr addr_of m H0 H1 H2 H3 H4)
    as (m' & E & Hh & Hi & Ht & Hp & Hg & Hk & Hkp & Hf & Hgdt & Hc & Hs & Hint & _).
  exists m'. by repeat (split; [assumption|]).
Qed.
