(* ===== verification/CreateLemmas.v ===== *)
(** * create_process: lemmas

    A sequence of allocations, the fields of the new descriptor, and the copy of
    the kernel's part of the directory. *)

From S2P Require Export Queue PageTables Kernel.

#[local] Open Scope Z_scope.

(** ** Sequences of allocations *)

(** Allocations of the given exponents, one after the other: the offsets, and the
    list of blocks afterwards. *)
Fixpoint alloc_all (needs : list Z) (l : list BlockList.block) : option (list Z * list BlockList.block) :=
  match needs with
  | [] => Some ([], l)
  | need :: needs =>
      '(off, l) ← alloc_blocks need l;
      '(offs, l) ← alloc_all needs l;
      Some (off :: offs, l)
  end.

Lemma alloc_all_cons need needs l off offs l' :
  alloc_all (need :: needs) l = Some (off :: offs, l') ->
  exists l1, alloc_blocks need l = Some (off, l1) /\ alloc_all needs l1 = Some (offs, l').
Proof.
  cbn [alloc_all]. destruct (alloc_blocks need l) as [[o l1]|]; [|done]. cbn [mbind option_bind].
  destruct (alloc_all needs l1) as [[os l2]|] eqn:E; [|done]. cbn. intros [= <- <- <-].
  by exists l1.
Qed.

(** The address of the data of an allocation. *)
Definition data (off : Z) : Z := KERNEL_BASE + 268435456 + off.

(** One allocation of the sequence. *)
Lemma allocate_step (m : machine) l sz need off l' :
  kernel_heap_at m l -> heap_ends m need -> needed (sz + 1) = need -> 0 <= sz -> sz + 1 < 2 ^ 28 ->
  3 <= need -> alloc_blocks need l = Some (off, l') ->
  exists m', kernel_allocate m sz = Ok (m', data off) /\ same_outside m m' /\
    kernel_heap_at m' l' /\ live l' (data off) need /\ (2 ^ need | data off) /\
    view m' (end_ kernel_heap) = view m (end_ kernel_heap) /\
    forall x, kernel_window x -> x ∉ headers (start kernel_heap) l' -> view m' x = view m x.
Proof.
  intros Hh He <- H0 H1 Hn Hb.
  destruct (kernel_allocate_hit m sz l off l' Hh H0 H1 He Hb)
    as (m' & E & O & Hh' & Hd & _ & _ & Hf & l1 & l2 & Hl & Ho).
  exists m'. split; [exact E|]. split; [exact O|]. split; [exact Hh'|]. split.
  { apply used_from_split. exists l1, l2. split; [done|].
    change (start kernel_heap) with 3489660927. unfold data, KERNEL_BASE. lia. }
  split; [exact Hd|]. split; [|exact Hf].
  apply Hf; [apply end_in_window|by apply (end_not_header m')].
Qed.

(** The payload of an object. *)
Definition payload (p k x : Z) : Prop := p <= x < p - 1 + 2 ^ k.

Lemma payload_window (m : machine) l p k x :
  kernel_heap_at m l -> live l p k -> payload p k x -> kernel_window x /\ x < end_ kernel_heap.
Proof.
  intros Hh Hl [H0 H1]. destruct (live_bounds m l p k Hh Hl) as [H2 H3].
  change (start kernel_heap) with 3489660927 in H2. change (end_ kernel_heap) with 4026531839.
  unfold kernel_window, KERNEL_BASE. lia.
Qed.

(** Storing a word in an object. *)
Lemma store_step (m : machine) l p k a v :
  kernel_heap_at m l -> live l p k -> p <= a -> a + 4 <= p - 1 + 2 ^ k ->
  exists m', st32 m (u32 a) v = Ok m' /\ same_outside m m' /\ kernel_heap_at m' l /\
    vld32 (view m') a = u32 v /\
    forall x, kernel_window x -> x < a \/ a + 4 <= x -> view m' x = view m x.
Proof.
  intros Hh Hl H0 H1. destruct (live_bounds m l p k Hh Hl) as [H2 H3].
  change (start kernel_heap) with 3489660927 in H2. rewrite u32_small by lia.
  destruct (stn_win (win := kernel_window) 4 m a v) as (m' & E & O & V);
    [apply kernel_in_win; unfold KERNEL_BASE; lia|].
  assert (forall x, kernel_window x -> x < a \/ a + 4 <= x -> view m' x = view m x) as Hf.
  { intros x Hx Hxo. rewrite V by done. by rewrite vst_out by lia. }
  exists m'. split; [exact E|]. split; [exact O|]. split; [|split; [|exact Hf]].
  - by apply (live_heap_payload m m' l p k a 4).
  - rewrite (vld_ext 4 _ (vst 4 (view m) a v)), vld_vst_same; [done|].
    intros b Hb. apply V. unfold kernel_window, KERNEL_BASE. lia.
Qed.

(** ** The fields of the new descriptor *)

(** The value of a field after stores. *)
Definition field_after (fs : list (Z * Z)) (off d : Z) : Z :=
  foldl (fun d '(o, v) => if decide (o = off) then u32 v else d) d fs.

Lemma store_fields_ok (p : Z) fs (m : machine) n :
  desc_ok p -> n <= sizeof_process_desc ->
  Forall (fun f => 0 <= f.1 /\ f.1 + 4 <= n /\ f.1 mod 4 = 0) fs ->
  exists m', store_fields p fs m = Ok m' /\ same_outside m m' /\
    (forall off, 0 <= off -> off + 4 <= sizeof_process_desc -> off mod 4 = 0 ->
       fld m' p off = field_after fs off (fld m p off)) /\
    forall x, kernel_window x -> x < p \/ p + n <= x -> view m' x = view m x.
Proof.
  intros Hd Hn Hfs. revert m; induction Hfs as [|[o v] fs (H0 & H1 & H2) Hfs IH]; intros m.
  { exists m. split; [done|]. split; [split; [done|by rewrite set_phys_id]|]. by split. }
  cbn [fst] in *. cbn [store_fields].
  destruct (put_fld m p o v Hd) as (m1 & E1 & O1 & N1 & F1 & V1); [done|lia|].
  destruct (IH m1) as (m' & E' & O' & F' & V').
  rewrite (bind_ok _ _ _ E1). exists m'. split; [exact E'|].
  split; [by apply (same_outside_trans m m1)|]. split.
  - intros off Ho0 Ho1 Ho2. rewrite F' by done. unfold field_after. cbn [foldl]. f_equal.
    case_decide as Heq; [by subst|]. apply F1; [done|done|]. lia.
  - intros x Hx Hxo. rewrite V', V1 by (done || lia). done.
Qed.

Lemma vldws_fld n (m : machine) p off :
  vldws n (view m) (p + off) = (fun i => fld m p (off + 4 * i)) <$> seqZ 0 (Z.of_nat n).
Proof.
  apply list_eq. intros i. destruct (decide (i < n)%nat) as [Hi|Hi].
  - rewrite vldws_lookup by done. rewrite list_lookup_fmap, lookup_seqZ_lt by lia.
    cbn [fmap option_fmap option_map]. unfold fld. do 2 f_equal. lia.
  - rewrite !lookup_ge_None_2; [done|rewrite length_fmap, length_seqZ|rewrite vldws_length]; lia.
Qed.

(** The context a process starts with: at [eip] in user mode with interrupts on,
    on a stack that ends one word below the kernel. *)
Definition initial_context (eip : Z) : saved_context :=
  {| sv_seg := {| s_ds := 35; s_es := 35; s_fs := 35; s_gs := 35 |};
     sv_gen := {| g_edi := 0; g_esi := 0; g_ebp := KERNEL_BASE - 4; g_ebx := 0; g_edx := 0;
                  g_ecx := 0; g_eax := 0; g_esp := 0 |};
     sv_frame := {| f_eip := u32 eip; f_cs := 27; f_eflags := 512; f_esp := KERNEL_BASE - 4;
                    f_ss := 35 |} |}.

Lemma store_initial (m : machine) p eip :
  desc_ok p ->
  exists m', store_fields p (initial_stores eip) m = Ok m' /\ same_outside m m' /\
    saved m' p = initial_context eip /\
    forall x, kernel_window x -> x < p \/ p + o_esp0 <= x -> view m' x = view m x.
Proof.
  intros Hd.
  destruct (store_fields_ok p (initial_stores eip) m o_esp0 Hd) as (m' & E & O & F & V).
  { by vm_compute. }
  { unfold initial_stores. repeat (constructor; [by vm_compute|]). constructor. }
  exists m'. split; [exact E|]. split; [exact O|]. split; [|exact V].
  assert (forall off k, 0 <= off -> off + 4 * Z.of_nat k <= 68 -> off mod 4 = 0 ->
    vldws k (view m') (p + off) =
      (fun i => field_after (initial_stores eip) (off + 4 * i) (fld m p (off + 4 * i))) <$>
        seqZ 0 (Z.of_nat k)) as Hw.
  { intros off k H0 H1 H2. rewrite vldws_fld. apply list_fmap_ext. intros i x Hx.
    apply lookup_seqZ in Hx as [-> Hi]. apply F; [lia| |lia]. unfold sizeof_process_desc. lia. }
  unfold saved. rewrite !Hw by by vm_compute. reflexivity.
Qed.

(** ** The directory *)

(** The copy of the kernel's part of [kernel_memory] into the directory [dir] of
    the process [p]. *)
Lemma copy_kernel_ok (kernel_memory : Z) (m : machine) p dir :
  KERNEL_BASE <= kernel_memory -> kernel_memory + 4096 <= dir ->
  dir + 4096 <= KERNEL_BASE + PAGE_OFFSET -> desc_ok p ->
  p + sizeof_process_desc <= dir \/ dir + 4096 <= p -> fld m p o_page_directory = dir ->
  exists m', for_loop 0 256 (fun i m =>
        pd ← ld32 m (u32 (p + o_page_directory));
        w ← ld32 m (entry_addr kernel_memory (i + 768));
        st32 m (u32 (pd + 4 * (i + 768))) w) m = Ok m' /\ same_outside m m' /\
    (forall i, 0 <= i < 256 -> vld32 (view m') (dir + 4 * (i + 768)) =
       vld32 (view m) (kernel_memory + 4 * (i + 768))) /\
    forall x, kernel_window x -> x < dir + 3072 \/ dir + 4096 <= x -> view m' x = view m x.
Proof.
  unfold KERNEL_BASE, PAGE_OFFSET. intros Hk Hkd Hd Hp Hap Hpd.
  destruct (for_loop_total (fun i t => same_outside m t /\
      (forall j, 0 <= j < i -> vld32 (view t) (dir + 4 * (j + 768)) =
         vld32 (view m) (kernel_memory + 4 * (j + 768))) /\
      (forall x, kernel_window x -> x < dir + 3072 \/ dir + 4096 <= x -> view t x = view m x))
    0 256 (fun i m =>
        pd ← ld32 m (u32 (p + o_page_directory));
        w ← ld32 m (entry_addr kernel_memory (i + 768));
        st32 m (u32 (pd + 4 * (i + 768))) w) m) as (m' & E & O & Hc & Hv); [lia|lia| | |].
  - split; [split; [done|by rewrite set_phys_id]|]. split; [lia|done].
  - intros i t Hi (O & Hc & Hv).
    assert (sizeof_process_desc = 85 /\ o_page_directory = 72) as [Es Eo] by done.
    pose proof Hp as [Hp0 Hp1]. rewrite Es in *. unfold KERNEL_BASE in Hp0.
    assert (in_win kernel_window (p + 72) 4) as Hwp by (apply kernel_in_win; unfold KERNEL_BASE; lia).
    assert (vld32 (view t) (p + 72) = dir) as Hdt.
    { rewrite <- Hpd. unfold fld. rewrite Eo. apply vld_ext. intros b Hb.
      apply Hv; [unfold kernel_window, KERNEL_BASE|]; lia. }
    rewrite Eo, (u32_small (p + 72)) by lia. rewrite (ldn_win 4 t _ Hwp), Hdt. bnd.
    unfold entry_addr. rewrite (u32_small (kernel_memory + 4 * (i + 768))) by lia.
    assert (in_win kernel_window (kernel_memory + 4 * (i + 768)) 4) as Hwk
      by (apply kernel_in_win; unfold KERNEL_BASE; lia).
    rewrite (ldn_win 4 t _ Hwk). bnd. rewrite u32_small by lia.
    destruct (stn_win (win := kernel_window) 4 t (dir + 4 * (i + 768))
      (vld32 (view t) (kernel_memory + 4 * (i + 768)))) as (t' & E & O' & V);
      [apply kernel_in_win; unfold KERNEL_BASE; lia|].
    exists t'. split; [exact E|]. split; [by apply (same_outside_trans m t)|]. split.
    + intros j Hj.
      rewrite (vld_ext 4 _ (vst 4 (view t) (dir + 4 * (i + 768))
        (vld32 (view t) (kernel_memory + 4 * (i + 768)))))
        by (intros b Hb; apply V; unfold kernel_window, KERNEL_BASE; lia).
      destruct (decide (j = i)) as [->|Hne].
      * rewrite vld_vst_same, Z.mod_small by (apply (vld_range 4), view_range).
        apply vld_ext. intros b Hb. apply Hv; [unfold kernel_window, KERNEL_BASE|]; lia.
      * rewrite vld_vst_other by lia. apply Hc. lia.
    + intros x Hx Hxo. rewrite V by done. rewrite vst_out by lia. by apply Hv.
  - exists m'. split; [exact E|]. split; [exact O|]. by split.
Qed.

(** What create_process relies on: the kernel's directory in force, with its
    kernel part, and a heap that can serve the five allocations. *)
Record create_ready (m : machine) (hl : list BlockList.block) (offs : list Z)
    (hl' : list BlockList.block) : Prop := {
  cr_heap : kernel_heap_at m hl;
  cr_ends : heap_ends m 7;
  cr_alloc : alloc_all [7; 13; 13; 13; 13] hl = Some (offs, hl');
  cr_kernel : in_kernel m;
  cr_part : kernel_part (phys m) (cr3 m);
  cr_below : cr3 m + KERNEL_BASE + 4096 <= start kernel_heap }.
#[global] Arguments cr_heap {_ _ _ _} _.
#[global] Arguments cr_ends {_ _ _ _} _.
#[global] Arguments cr_alloc {_ _ _ _} _.
#[global] Arguments cr_kernel {_ _ _ _} _.
#[global] Arguments cr_part {_ _ _ _} _.
#[global] Arguments cr_below {_ _ _ _} _.

(** The address space and the descriptor of a new process, before its pages. *)
Record new_space (m m' : machine) (eip : Z) (hl l : list BlockList.block) (p st dir : Z) : Prop := {
  ns_outside : same_outside m m';
  ns_heap : kernel_heap_at m' l;
  ns_ends : heap_ends m' 7;
  ns_old : forall q k, live hl q k -> live l q k;
  ns_headers : forall x, x ∈ headers (start kernel_heap) hl -> x ∈ headers (start kernel_heap) l;
  ns_desc : live l p 7;
  ns_stack : live l st 13;
  ns_dir : live l dir 13;
  ns_isdir : is_directory dir;
  ns_saved : saved m' p = initial_context eip;
  ns_esp0 : fld m' p o_esp0 = st + 4092;
  ns_page_directory : fld m' p o_page_directory = dir;
  ns_part : forall i, 0 <= i < 256 -> vld32 (view m') (dir + 4 * (i + 768)) = 387 + 2 ^ 22 * i;
  ns_view : forall x, kernel_window x -> x ∉ headers (start kernel_heap) l -> ~ payload p 7 x ->
    ~ dir + 3072 <= x < dir + 4096 -> view m' x = view m x }.
#[global] Arguments ns_outside {_ _ _ _ _ _ _ _} _.
#[global] Arguments ns_heap {_ _ _ _ _ _ _ _} _.
#[global] Arguments ns_ends {_ _ _ _ _ _ _ _} _.
#[global] Arguments ns_old {_ _ _ _ _ _ _ _} _.
#[global] Arguments ns_headers {_ _ _ _ _ _ _ _} _.
#[global] Arguments ns_desc {_ _ _ _ _ _ _ _} _.
#[global] Arguments ns_stack {_ _ _ _ _ _ _ _} _.
#[global] Arguments ns_dir {_ _ _ _ _ _ _ _} _.
#[global] Arguments ns_isdir {_ _ _ _ _ _ _ _} _.
#[global] Arguments ns_saved {_ _ _ _ _ _ _ _} _.
#[global] Arguments ns_esp0 {_ _ _ _ _ _ _ _} _.
#[global] Arguments ns_page_directory {_ _ _ _ _ _ _ _} _.
#[global] Arguments ns_part {_ _ _ _ _ _ _ _} _.
#[global] Arguments ns_view {_ _ _ _ _ _ _ _} _.

Lemma live_more need l off l' p k :
  3 <= need -> sizes_ok l -> alloc_blocks need l = Some (off, l') -> live l p k -> live l' p k.
Proof. intros Hn Hok Hb Hl. by apply (live_apart l need off l' p k Hn Hok Hb). Qed.

Lemma live_desc (m : machine) l p : kernel_heap_at m l -> live l p 7 -> desc_ok p.
Proof.
  intros Hh Hl. destruct (live_bounds m l p 7 Hh Hl) as [H0 H1].
  change (start kernel_heap) with 3489660927 in H0. change (2 ^ 7) with 128 in H1.
  unfold desc_ok, sizeof_process_desc, KERNEL_BASE. lia.
Qed.

Lemma saved_ext (m m' : machine) p :
  (forall x, p <= x < p + o_esp0 -> view m' x = view m x) -> saved m' p = saved m p.
Proof.
  unfold o_esp0. intros Hv.
  assert (forall n off, 0 <= off -> off + 4 * Z.of_nat n <= 68 ->
    vldws n (view m') (p + off) = vldws n (view m) (p + off)) as Hw.
  { intros n off H0 H1. apply vldws_ext. intros b Hb. apply Hv. lia. }
  unfold saved. by rewrite !Hw by by vm_compute.
Qed.

Lemma ends_more (m m' : machine) j k :
  heap_ends m j -> j <= k -> view m' (end_ kernel_heap) = view m (end_ kernel_heap) -> heap_ends m' k.
Proof. intros He Hjk Hv. apply (heap_ends_same m); [done|]. by apply (heap_ends_more m j). Qed.

Lemma live_end (m : machine) l p k x :
  kernel_heap_at m l -> live l p k -> x <= p - 1 + 2 ^ k -> x <= end_ kernel_heap.
Proof.
  intros Hh Hl Hx. destruct (live_bounds m l p k Hh Hl) as [_ H].
  change (end_ kernel_heap) with 4026531839. lia.
Qed.

(** The heap has grown to [l], and of the memory that is not headers only the
    object [p] has been written. *)
Record grown (m m' : machine) (l : list BlockList.block) (p : Z) : Prop := {
  gr_outside : same_outside m m';
  gr_heap : kernel_heap_at m' l;
  gr_end : view m' (end_ kernel_heap) = view m (end_ kernel_heap);
  gr_view : forall x, kernel_window x -> x ∉ headers (start kernel_heap) l -> ~ payload p 7 x ->
    view m' x = view m x }.
#[global] Arguments gr_outside {_ _ _ _} _.
#[global] Arguments gr_heap {_ _ _ _} _.
#[global] Arguments gr_end {_ _ _ _} _.
#[global] Arguments gr_view {_ _ _ _} _.

Lemma grown_refl (m : machine) l p : kernel_heap_at m l -> grown m m l p.
Proof. intros Hh. split; [split; [done|by rewrite set_phys_id]|done..]. Qed.

Lemma grown_allocate (m m1 : machine) l p sz need off l' :
  grown m m1 l p -> heap_ends m 7 -> needed (sz + 1) = need -> 0 <= sz -> sz + 1 < 2 ^ 28 ->
  7 <= need -> alloc_blocks need l = Some (off, l') ->
  exists m2, kernel_allocate m1 sz = Ok (m2, data off) /\ grown m m2 l' p /\
    live l' (data off) need /\ (2 ^ need | data off) /\
    forall x, kernel_window x -> x ∉ headers (start kernel_heap) l' -> view m2 x = view m1 x.
Proof.
  intros [Ho Hh Hn Hv] He Hneed H0 H1 H7 Hb. pose proof Hh as [(_ & Hok & _) _].
  destruct (allocate_step m1 l sz need off l' Hh) as (m2 & E & O & H & L & D & N & V);
    [by apply (ends_more m m1 7)|done|done|done|lia|done|].
  exists m2. split; [exact E|]. split; [|by split]. split; [by apply (same_outside_trans m m1)|done|congruence|].
  intros x Hx Hnh Hp. rewrite V, Hv; [done|done| |done|done|done].
  intros Hin. apply Hnh. eapply (alloc_headers need l off l'); [lia|done..].
Qed.

Lemma grown_written (m m1 m2 : machine) l p a n :
  grown m m1 l p -> live l p 7 -> p <= a -> a + n <= p - 1 + 2 ^ 7 -> same_outside m1 m2 ->
  (forall x, kernel_window x -> x < a \/ a + n <= x -> view m2 x = view m1 x) ->
  grown m m2 l p.
Proof.
  intros [Ho Hh Hn Hv] Hl Ha Han O V. destruct (live_bounds m1 l p 7 Hh Hl) as [_ Hb].
  split; [by apply (same_outside_trans m m1)|by apply (live_heap_payload m1 m2 l p 7 a n)| |].
  - rewrite V; [exact Hn|apply end_in_window|]. change (end_ kernel_heap) with 4026531839. lia.
  - intros x Hx Hnh Hp. rewrite V, Hv; [done..|]. unfold payload in Hp. lia.
Qed.

Lemma grown_store (m m1 : machine) l p off v :
  grown m m1 l p -> live l p 7 -> 0 <= off -> off + 4 <= 127 ->
  exists m2, st32 m1 (u32 (p + off)) v = Ok m2 /\ grown m m2 l p /\ fld m2 p off = u32 v /\
    forall x, kernel_window x -> x < p + off \/ p + off + 4 <= x -> view m2 x = view m1 x.
Proof.
  intros Hg Hl H0 H1. pose proof (gr_heap Hg) as Hh.
  destruct (store_step m1 l p 7 (p + off) v Hh Hl) as (m2 & E & O & H & S & V);
    [lia|change (2 ^ 7) with 128; lia|].
  exists m2. split; [exact E|]. split; [|by split].
  apply (grown_written m m1 m2 l p (p + off) 4); [done|done|lia|change (2 ^ 7) with 128; lia|done|done].
Qed.

(** The bytes of an object survive a step that writes headers only. *)
Lemma live_kept (m1 m2 : machine) l p k :
  kernel_heap_at m2 l -> live l p k ->
  (forall x, kernel_window x -> x ∉ headers (start kernel_heap) l -> view m2 x = view m1 x) ->
  forall x, payload p k x -> view m2 x = view m1 x.
Proof.
  intros Hh Hl Hv x Hx. pose proof Hh as [(_ & Hok & _) _]. apply Hv.
  - by apply (payload_window m2 l p k x).
  - by apply (live_no_header l p k x).
Qed.

Lemma fld_kept (m1 m2 : machine) p off :
  (forall x, payload p 7 x -> view m2 x = view m1 x) -> 0 <= off -> off + 4 <= 127 ->
  fld m2 p off = fld m1 p off.
Proof.
  intros Hv H0 H1. apply vld_ext. intros x Hx. apply Hv. unfold payload.
  change (2 ^ 7) with 128. lia.
Qed.

Lemma saved_kept (m1 m2 : machine) p :
  (forall x, payload p 7 x -> view m2 x = view m1 x) -> saved m2 p = saved m1 p.
Proof.
  intros Hv. apply saved_ext. unfold o_esp0. intros x Hx. apply Hv. unfold payload.
  change (2 ^ 7) with 128. lia.
Qed.

(** The descriptor is allocated and filled. *)
Lemma descriptor_built m eip hl o1 l1 :
  kernel_heap_at m hl -> heap_ends m 7 -> alloc_blocks 7 hl = Some (o1, l1) ->
  exists m1 m2, kernel_allocate m sizeof_process_desc = Ok (m1, data o1) /\
    store_fields (data o1) (initial_stores eip) m1 = Ok m2 /\
    grown m m2 l1 (data o1) /\ live l1 (data o1) 7 /\ saved m2 (data o1) = initial_context eip.
Proof.
  intros Hh He B1.
  destruct (grown_allocate m m hl (data o1) sizeof_process_desc 7 o1 l1)
    as (m1 & E1 & G1 & L1 & _); [by apply grown_refl|done|by vm_compute..|done|].
  destruct (store_initial m1 (data o1) eip) as (m2 & E2 & O2 & S2 & V2);
    [by apply (live_desc m1 l1); [apply G1|]|].
  exists m1, m2. split; [exact E1|]. split; [exact E2|]. split; [|by split].
  apply (grown_written m m1 m2 l1 (data o1) (data o1) o_esp0);
    [done|done|lia|unfold o_esp0; change (2 ^ 7) with 128; lia|done|done].
Qed.

(** The stack and the directory are allocated. *)
Lemma objects_built m m2 eip l1 p o2 o3 o4 o5 hl' :
  grown m m2 l1 p -> heap_ends m 7 -> live l1 p 7 -> saved m2 p = initial_context eip ->
  alloc_all [13; 13; 13; 13] l1 = Some ([o2; o3; o4; o5], hl') ->
  exists m3 m4 m5 m6 l2 l, alloc_blocks 13 l1 = Some (o2, l2) /\ alloc_blocks 13 l2 = Some (o3, l) /\
    kernel_allocate m2 4096 = Ok (m3, data o2) /\
    st32 m3 (u32 (p + o_esp0)) (u32 (data o2 + 4092)) = Ok m4 /\
    kernel_allocate m4 (4 * 1024) = Ok (m5, data o3) /\
    st32 m5 (u32 (p + o_page_directory)) (data o3) = Ok m6 /\
    alloc_all [13; 13] l = Some ([o4; o5], hl') /\ grown m m6 l p /\
    live l p 7 /\ live l (data o2) 13 /\ live l (data o3) 13 /\ (8192 | data o3) /\
    (p + 128 <= data o3 \/ data o3 + 8192 <= p) /\ saved m6 p = initial_context eip /\ fld m6 p o_esp0 = data o2 + 4092 /\
    fld m6 p o_page_directory = data o3.
Proof.
  intros G2 He L1 S2 Hal. assert (o_esp0 = 68 /\ o_page_directory = 72) as [Ees Epd] by done.
  apply alloc_all_cons in Hal as (l2 & B2 & Hal). apply alloc_all_cons in Hal as (l3 & B3 & Hal).
  pose proof (gr_heap G2) as [(_ & Hok1 & _) _].
  destruct (grown_allocate m m2 l1 p 4096 13 o2 l2 G2 He) as (m3 & E3 & G3 & L3 & _ & V3);
    [by vm_compute..|done|].
  pose proof (gr_heap G3) as H3. pose proof H3 as [(_ & Hok2 & _) _].
  pose proof (live_more 13 l1 o2 l2 _ 7 ltac:(lia) Hok1 B2 L1) as L1'.
  destruct (grown_store m m3 l2 p o_esp0 (u32 (data o2 + 4092)) G3 L1')
    as (m4 & E4 & G4 & S4 & V4); [lia|lia|].
  destruct (grown_allocate m m4 l2 p (4 * 1024) 13 o3 l3 G4 He) as (m5 & E5 & G5 & L5 & D5 & V5);
    [by vm_compute..|done|].
  pose proof (gr_heap G5) as H5.
  pose proof (live_more 13 l2 o3 l3 _ 7 ltac:(lia) Hok2 B3 L1') as L1''.
  pose proof (live_more 13 l2 o3 l3 _ 13 ltac:(lia) Hok2 B3 L3) as L3'.
  destruct (grown_store m m5 l3 p o_page_directory (data o3) G5 L1'')
    as (m6 & E6 & G6 & S6 & V6); [lia|lia|].
  pose proof (live_kept m2 m3 l2 p 7 H3 L1' V3) as K3.
  pose proof (live_kept m4 m5 l3 p 7 H5 L1'' V5) as K5.
  destruct (live_bounds m5 l3 _ 13 H5 L3') as [Hb0 Hb1]. change (2 ^ 13) with 8192 in Hb1.
  change (start kernel_heap) with 3489660927 in Hb0.
  destruct (live_bounds m5 l3 _ 13 H5 L5) as [Hc0 Hc1]. change (2 ^ 13) with 8192 in Hc1.
  change (start kernel_heap) with 3489660927 in Hc0.
  assert (forall x, payload p 7 x -> kernel_window x) as Hpw
    by (intros x Hx; by apply (payload_window m5 l3 p 7 x)).
  destruct (live_apart l2 13 o3 l3 p 7 ltac:(lia) Hok2 B3 L1') as [Hap _].
  change (2 ^ 7) with 128 in Hap. change (2 ^ 13) with 8192 in Hap.
  change (start kernel_heap) with 3489660927 in Hap.
  exists m3, m4, m5, m6, l2, l3. repeat (split; [done|]).
  split; [unfold data, KERNEL_BASE in *; lia|].
  assert (saved m6 p = saved m2 p /\ fld m6 p o_esp0 = fld m4 p o_esp0) as [-> ->].
  { split.
    - transitivity (saved m5 p); [|transitivity (saved m4 p); [by apply saved_kept|
        transitivity (saved m3 p); [|by apply saved_kept]]].
      + apply saved_ext. intros x Hx. apply V6; [apply Hpw; unfold payload; change (2 ^ 7) with 128|]; lia.
      + apply saved_ext. intros x Hx. apply V4; [apply Hpw; unfold payload; change (2 ^ 7) with 128|]; lia.
    - transitivity (fld m5 p o_esp0); [|by apply fld_kept; [|lia..]].
      apply vld_ext. intros x Hx. apply V6; [apply Hpw; unfold payload; change (2 ^ 7) with 128|]; lia. }
  split; [done|]. rewrite S4, S6, (u32_small (data o3)) by lia.
  rewrite (u32_small (data o2 + 4092)), u32_small by lia. done.
Qed.

(** The address space of a new process, before its pages. *)
Lemma space_built kernel_memory m eip hl o1 o2 o3 o4 o5 hl' :
  create_ready m hl [o1; o2; o3; o4; o5] hl' -> cr3 m = kernel_memory - KERNEL_BASE ->
  exists m1 m2 m3 m4 m5 m6 m7 l,
    kernel_allocate m sizeof_process_desc = Ok (m1, data o1) /\
    store_fields (data o1) (initial_stores eip) m1 = Ok m2 /\
    kernel_allocate m2 4096 = Ok (m3, data o2) /\
    st32 m3 (u32 (data o1 + o_esp0)) (u32 (data o2 + 4092)) = Ok m4 /\
    kernel_allocate m4 (4 * 1024) = Ok (m5, data o3) /\
    st32 m5 (u32 (data o1 + o_page_directory)) (data o3) = Ok m6 /\
    for_loop 0 256 (fun i m =>
        pd ← ld32 m (u32 (data o1 + o_page_directory));
        w ← ld32 m (entry_addr kernel_memory (i + 768));
        st32 m (u32 (pd + 4 * (i + 768))) w) m6 = Ok m7 /\
    alloc_all [13; 13] l = Some ([o4; o5], hl') /\
    new_space m m7 eip hl l (data o1) (data o2) (data o3).
Proof.
  intros [Hh He Hal Hk Hpart Hbelow] Hcr.
  apply alloc_all_cons in Hal as (l1 & B1 & Hal). pose proof Hh as [(_ & Hok & _) _].
  destruct (descriptor_built m eip hl o1 l1 Hh He B1) as (m1 & m2 & E1 & E2 & G2 & L1 & S2).
  destruct (objects_built m m2 eip l1 (data o1) o2 o3 o4 o5 hl' G2 He L1 S2 Hal)
    as (m3 & m4 & m5 & m6 & l2 & l & B2 & B3 & E3 & E4 & E5 & E6 & Hal' & G6 & Lp & Ls & Ld & Dd &
        Hap & S6 & F6 & P6).
  pose proof (gr_heap G2) as [(_ & Hok1 & _) _].
  pose proof (gr_heap G6) as H6. pose proof H6 as [(_ & Hok3 & _) _].
  assert (sizes_ok l2) as Hok2 by (apply (alloc_blocks_sizes 13 l1 o2 l2); [lia|done|done]).
  destruct (live_bounds m6 l _ 13 H6 Ld) as [Hd0 Hd1]. change (2 ^ 13) with 8192 in Hd1.
  change (start kernel_heap) with 3489660927 in Hd0, Hbelow.
  destruct (copy_kernel_ok kernel_memory m6 (data o1) (data o3))
    as (m7 & E7 & O7 & C7 & V7);
    [destruct Hpart; lia|lia|unfold KERNEL_BASE, PAGE_OFFSET; lia|by apply (live_desc m6 l)| |done|].
  { unfold sizeof_process_desc. lia. }
  pose proof (live_below l (data o1) 7 Hok3 Lp) as Hlow.
  change (start kernel_heap) with 3489660927 in Hlow.
  assert (forall x, payload (data o1) 7 x -> view m7 x = view m6 x) as K7.
  { intros x Hx. pose proof (payload_window m6 l _ _ x H6 Lp Hx) as [Hxw _].
    unfold payload in Hx. change (2 ^ 7) with 128 in Hx. apply V7; [done|lia]. }
  exists m1, m2, m3, m4, m5, m6, m7, l. repeat (split; [done|]). split.
  - by apply (same_outside_trans m m6), O7; apply G6.
  - apply (live_heap_payload m6 m7 l (data o3) 13 (data o3 + 3072) 1024 H6 Ld); [lia|lia|].
    intros x Hx Hxo. apply V7; [done|lia].
  - apply (ends_more m m7 7); [done|lia|]. rewrite V7; [apply G6|apply end_in_window|].
    change (end_ kernel_heap) with 4026531839. lia.
  - intros q k Hq. eapply (live_more 13 l2), (live_more 13 l1), (live_more 7 hl); (lia || done).
  - intros x Hx. eapply (alloc_headers 13 l2), (alloc_headers 13 l1), (alloc_headers 7 hl); (lia || done).
  - done.
  - done.
  - done.
  - split; [unfold KERNEL_BASE; lia|]. split; [unfold KERNEL_BASE, PAGE_OFFSET; lia|].
    etrans; [|exact Dd]. by exists 2.
  - by rewrite (saved_kept m6).
  - by rewrite (fld_kept m6).
  - by rewrite (fld_kept m6).
  - intros i Hi. rewrite C7 by done. destruct Hpart as (Hp0 & _ & Hp). rewrite <- Hp by done.
    rewrite pread32_view. unfold KERNEL_BASE in *.
    replace (cr3 m + 4 * (i + 768) + 3221225472) with (kernel_memory + 4 * (i + 768)) by lia.
    apply vld_ext. intros x Hx. apply G6; [unfold kernel_window, KERNEL_BASE; lia| |unfold payload; lia].
    intros Hin. apply headers_range in Hin; [|done].
    change (start kernel_heap) with 3489660927 in Hin. lia.
  - intros x Hx Hnh Hp Hd. rewrite V7 by (done || lia). by apply G6.
Qed.

(** ** The two pages *)

(** [n] entries from [a] on that are not present. *)
Definition absent (m : machine) (a n : Z) : Prop :=
  forall i, 0 <= i < n -> vld32 (view m) (a + 4 * i) mod 2 = 0.

Lemma absent_ext (m m' : machine) a n :
  (forall x, a <= x < a + 4 * n -> view m' x = view m x) -> absent m a n -> absent m' a n.
Proof.
  intros Hv Ha i Hi. rewrite <- (Ha i Hi). f_equal. apply vld_ext. intros x Hx. apply Hv. lia.
Qed.

Lemma user_table_absent m dir i : vld32 (view m) (dir + 4 * i) mod 2 = 0 -> user_table m dir i = None.
Proof. unfold user_table. by intros ->. Qed.

Lemma user_table_big m dir i k :
  0 <= k -> vld32 (view m) (dir + 4 * i) = 387 + 2 ^ 22 * k -> user_table m dir i = None.
Proof.
  unfold user_table. intros Hk ->. replace ((387 + 2 ^ 22 * k) / 128 mod 2) with 1 by lia.
  by rewrite andb_false_r.
Qed.

(** The directory words and the table words after the pages of a process are
    allocated from the frames [a] and [b]; everything else is as before. *)
Record with_pages (m m' : machine) (hl' : list BlockList.block) (dir t1 t0 a b : Z) : Prop := {
  wp_state : m' = set_phys (phys m') (set_freelist (page_freelist m') m);
  wp_high : forall pa, PAGE_OFFSET <= pa -> phys m' pa = phys m pa;
  wp_dir1 : vld32 (view m') (dir + 4 * 767) = t1 - KERNEL_BASE + 7;
  wp_dir0 : vld32 (view m') dir = t0 - KERNEL_BASE + 7;
  wp_slot1 : vld32 (view m') (t1 + 4 * 1023) = a + PAGE_OFFSET + 7;
  wp_slot0 : vld32 (view m') t0 = b + PAGE_OFFSET + 7;
  wp_view : forall x, kernel_window x -> x ∉ headers (start kernel_heap) hl' ->
    ~ dir <= x < dir + 4 -> ~ dir + 4 * 767 <= x < dir + 4 * 767 + 4 ->
    ~ t0 <= x < t0 + 4 -> ~ t1 + 4 * 1023 <= x < t1 + 4 * 1023 + 4 -> view m' x = view m x }.
#[global] Arguments wp_state {_ _ _ _ _ _ _ _} _.
#[global] Arguments wp_high {_ _ _ _ _ _ _ _} _.
#[global] Arguments wp_dir1 {_ _ _ _ _ _ _ _} _.
#[global] Arguments wp_dir0 {_ _ _ _ _ _ _ _} _.
#[global] Arguments wp_slot1 {_ _ _ _ _ _ _ _} _.
#[global] Arguments wp_slot0 {_ _ _ _ _ _ _ _} _.
#[global] Arguments wp_view {_ _ _ _ _ _ _ _} _.

(** What is known once the stack page is there. *)
Record stack_page (m m8 : machine) (l hl1 : list BlockList.block) (o4 dir a : Z) (fl : list Z) : Prop := {
  sp_kernel : in_kernel m8;
  sp_heap : kernel_heap_at m8 hl1;
  sp_isdir : is_directory (data o4);
  sp_live : live hl1 (data o4) 13;
  sp_frames : free_frames m8 fl;
  sp_state : m8 = set_phys (phys m8) (set_freelist (page_freelist m8) m);
  sp_high : forall pa, PAGE_OFFSET <= pa -> phys m8 pa = phys m pa;
  sp_dir : vld32 (view m8) (dir + 4 * 767) = data o4 - KERNEL_BASE + 7;
  sp_slot : vld32 (view m8) (data o4 + 4 * 1023) = a + PAGE_OFFSET + 7;
  sp_view : forall x, kernel_window x -> x ∉ headers (start kernel_heap) hl1 ->
    ~ dir + 4 * 767 <= x < dir + 4 * 767 + 4 ->
    ~ data o4 + 4 * 1023 <= x < data o4 + 4 * 1023 + 4 -> view m8 x = view m x }.
#[global] Arguments sp_kernel {_ _ _ _ _ _ _ _} _.
#[global] Arguments sp_heap {_ _ _ _ _ _ _ _} _.
#[global] Arguments sp_isdir {_ _ _ _ _ _ _ _} _.
#[global] Arguments sp_live {_ _ _ _ _ _ _ _} _.
#[global] Arguments sp_frames {_ _ _ _ _ _ _ _} _.
#[global] Arguments sp_state {_ _ _ _ _ _ _ _} _.
#[global] Arguments sp_high {_ _ _ _ _ _ _ _} _.
#[global] Arguments sp_dir {_ _ _ _ _ _ _ _} _.
#[global] Arguments sp_slot {_ _ _ _ _ _ _ _} _.
#[global] Arguments sp_view {_ _ _ _ _ _ _ _} _.

(** The first page, for the stack. *)
Lemma stack_page_built m l hl1 o4 dir a fl :
  kernel_heap_at m l -> heap_ends m 13 -> alloc_blocks 13 l = Some (o4, hl1) ->
  is_directory dir -> live l dir 13 -> in_kernel m ->
  cr3 m + KERNEL_BASE + 4096 <= start kernel_heap -> free_frames m (a :: fl) ->
  absent m dir 768 -> (forall i, 768 <= i < 1024 -> user_table m dir i = None) ->
  vld32 (view m) (data o4 + 4 * 1023) mod 2 = 0 ->
  exists m', allocate_page dir (KERNEL_BASE - PAGE_SIZE_4K) m = Ok m' /\
    stack_page m m' l hl1 o4 dir a fl.
Proof.
  intros Hh He Hb Hdir Hl Hk Hc Hf Habs Htab Hslot.
  assert (KERNEL_BASE - PAGE_SIZE_4K = 3221221376) as Hva by done.
  destruct (allocate_page_fresh m l hl1 o4 dir (KERNEL_BASE - PAGE_SIZE_4K) a fl)
    as (m' & E & K & H & D & L & F & St & Hi & Di & Sl & V); [|done|exact Hslot|].
  2:{ exists m'. split; [exact E|]. split; try done. intros x Hx Hnh Hx1 Hx2.
      change ((KERNEL_BASE - PAGE_SIZE_4K) / 2 ^ 22) with 767 in V.
      change ((KERNEL_BASE - PAGE_SIZE_4K) / 4096 mod 1024) with 1023 in V.
      apply V; [done|done|lia|unfold data in Hx2; lia]. }
  split; try done.
  - rewrite Hva. apply (Habs 767). lia.
  - intros i t Hi Ht. destruct (decide (i < 768)).
    + rewrite user_table_absent in Ht by (apply Habs; lia). done.
    + rewrite Htab in Ht by lia. done.
Qed.

Lemma user_table_entry m dir i t :
  is_directory t -> vld32 (view m) (dir + 4 * i) = t - KERNEL_BASE + 7 ->
  user_table m dir i = Some (t - KERNEL_BASE).
Proof.
  intros (H0 & H1 & [k Hk]) Hw. unfold user_table. rewrite Hw. unfold KERNEL_BASE in *.
  replace ((t - 3221225472 + 7) mod 2) with 1 by lia.
  replace ((t - 3221225472 + 7) / 128 mod 2) with 0 by lia. cbn [Z.eqb Pos.eqb andb].
  f_equal. lia.
Qed.

(** An object in use stays one, and is apart from the one allocated. *)
Lemma live_allocate need l off l' q k :
  3 <= need -> sizes_ok l -> alloc_blocks need l = Some (off, l') -> live l q k ->
  live l' q k /\ (q + 2 ^ k <= data off \/ data off + 2 ^ need <= q).
Proof.
  intros Hn Hok Hb Hl. destruct (live_apart l need off l' q k Hn Hok Hb Hl) as [Hap Hl'].
  split; [done|]. change (start kernel_heap) with 3489660927 in Hap. unfold data, KERNEL_BASE. lia.
Qed.

(** The kernel heap spans 512 MiB, whatever its blocks. *)
Lemma heap_span (m : machine) l : kernel_heap_at m l -> sizes_ok l /\ span l = 536870912.
Proof.
  intros [(Ht & Hok & _) _]. split; [done|]. apply tiles_span in Ht.
  change (end_ kernel_heap) with 4026531839 in Ht. change (start kernel_heap) with 3489660927 in Ht.
  lia.
Qed.

(** The object allocated lies in the kernel window, and its bytes were no headers. *)
Lemma data_bytes need l off l' x :
  sizes_ok l -> span l = 536870912 -> 3 <= need -> alloc_blocks need l = Some (off, l') ->
  payload (data off) need x ->
  kernel_window x /\ x < end_ kernel_heap /\ x ∉ headers (start kernel_heap) l'.
Proof.
  intros Hok Hs Hn Hb [Hx0 Hx1].
  destruct (alloc_blocks_sizes _ _ _ _ Hn Hok Hb) as (Hok' & _ & H0 & H1).
  change (end_ kernel_heap) with 4026531839 in *. change (start kernel_heap) with 3489660927 in *.
  unfold data, kernel_window, KERNEL_BASE in *. split; [lia|]. split; [lia|].
  apply alloc_blocks_inv in Hb as (l1 & b & l2 & -> & _ & -> & -> & _).
  apply payload_not_header; [done|]. rewrite blen_block. lia.
Qed.

(** The directory and the next table after the stack page. *)
Lemma stack_page_objects m m8 l hl1 hl' o4 o5 dir a fl :
  kernel_heap_at m l -> alloc_blocks 13 l = Some (o4, hl1) -> alloc_blocks 13 hl1 = Some (o5, hl') ->
  is_directory dir -> live l dir 13 -> stack_page m m8 l hl1 o4 dir a fl ->
  live hl1 dir 13 /\ (dir + 8192 <= data o4 \/ data o4 + 8192 <= dir) /\
  live hl' dir 13 /\ (dir + 8192 <= data o5 \/ data o5 + 8192 <= dir) /\
  live hl' (data o4) 13 /\ (data o4 + 8192 <= data o5 \/ data o5 + 8192 <= data o4) /\
  (forall x, dir <= x < dir + 4096 -> ~ dir + 4 * 767 <= x < dir + 4 * 767 + 4 -> view m8 x = view m x) /\
  (forall x, data o5 <= x < data o5 + 4096 -> view m8 x = view m x) /\
  view m8 (end_ kernel_heap) = view m (end_ kernel_heap).
Proof.
  intros Hh B4 B5 Hdir Hl [_ H8 D4 L4 _ _ _ _ _ V8].
  pose proof Hh as [(_ & Hok & _) _]. pose proof H8 as [(_ & Hok1 & _) _].
  pose proof Hdir as (Hd0 & Hd1 & _).
  destruct (live_allocate 13 l o4 hl1 dir 13 ltac:(lia) Hok B4 Hl) as [Hl1 Hap4].
  destruct (live_allocate 13 hl1 o5 hl' dir 13 ltac:(lia) Hok1 B5 Hl1) as [Hl2 Hap5].
  destruct (live_allocate 13 hl1 o5 hl' (data o4) 13 ltac:(lia) Hok1 B5 L4) as [L4' Hap45].
  destruct (live_bounds m8 hl1 dir 13 H8 Hl1) as [Hb0 Hb1].
  destruct (live_bounds m8 hl1 (data o4) 13 H8 L4) as [Hb2 Hb3].
  change (2 ^ 13) with 8192 in *. unfold KERNEL_BASE, PAGE_OFFSET in Hd0, Hd1.
  split; [done|]. split; [done|]. split; [done|]. split; [done|]. split; [done|].
  split; [done|]. split; [|split].
  - intros x Hx Hx7. apply V8; [unfold kernel_window, KERNEL_BASE; lia| |done|lia].
    apply (live_no_header hl1 dir 13); [done|done|change (2 ^ 13) with 8192; lia].
  - intros x Hx. destruct (heap_span m8 hl1 H8) as [_ Hs1].
    destruct (data_bytes 13 hl1 o5 hl' x Hok1 Hs1 ltac:(lia) B5) as (W & _ & N);
      [unfold payload; change (2 ^ 13) with 8192; lia|].
    apply V8; [done| |lia|lia]. intros Hin. apply N. by apply (alloc_headers 13 hl1 o5).
  - apply V8; [apply end_in_window|by apply (end_not_header m8)|..];
      change (end_ kernel_heap) with 4026531839; lia.
Qed.

Lemma first_page_ready m m8 l hl1 hl' o4 o5 dir a fl :
  kernel_heap_at m l -> heap_ends m 13 -> alloc_blocks 13 l = Some (o4, hl1) ->
  alloc_blocks 13 hl1 = Some (o5, hl') -> is_directory dir -> live l dir 13 ->
  cr3 m + KERNEL_BASE + 4096 <= start kernel_heap -> absent m dir 768 ->
  (forall i, 768 <= i < 1024 -> user_table m dir i = None) ->
  stack_page m m8 l hl1 o4 dir a fl -> new_table_ready m8 hl1 hl' o5 dir 0.
Proof.
  intros Hh He B4 B5 Hdir Hl Hc Habs Htab Hsp.
  destruct (stack_page_objects m m8 l hl1 hl' o4 o5 dir a fl Hh B4 B5 Hdir Hl Hsp)
    as (Hl1 & Hap4 & _ & _ & _ & _ & Vd & _ & Ve).
  assert (cr3 m8 = cr3 m) as C8 by (rewrite (sp_state Hsp); done).
  split; try done; try apply Hsp.
  - by apply (ends_more m m8 13).
  - change (0 / 2 ^ 22) with 0. etrans; [|exact (Habs 0 ltac:(lia))]. f_equal.
    apply vld_ext. intros x Hx. apply Vd; lia.
  - intros i t Hi Ht. destruct (decide (i = 767)) as [->|Hne].
    + rewrite (user_table_entry m8 dir 767 (data o4)) in Ht by apply Hsp. injection Ht as <-.
      replace (data o4 - KERNEL_BASE + KERNEL_BASE) with (data o4) by lia.
      split; [apply Hsp|]. lia.
    + assert (user_table m8 dir i = user_table m dir i) as Hsame.
      { unfold user_table. erewrite vld_ext; [done|]. intros x Hx. apply Vd; lia. }
      rewrite Hsame in Ht. destruct (decide (i < 768)).
      * rewrite user_table_absent in Ht by (apply Habs; lia). done.
      * rewrite Htab in Ht by lia. done.
  - split; [apply Hsp|]. by rewrite C8.
Qed.

(** A descriptor is not touched by the stack page. *)
Lemma stack_page_desc m m8 l hl1 o4 dir a fl :
  sizes_ok l -> alloc_blocks 13 l = Some (o4, hl1) -> live l dir 13 ->
  stack_page m m8 l hl1 o4 dir a fl ->
  forall q, live l q 7 -> forall x, payload q 7 x -> view m8 x = view m x.
Proof.
  intros Hok B4 Hl Hsp q Hq x Hx. pose proof (sp_heap Hsp) as H8.
  pose proof H8 as [(_ & Hok1 & _) _].
  destruct (live_allocate 13 l o4 hl1 q 7 ltac:(lia) Hok B4 Hq) as [Hq1 Hap].
  destruct (used_apart l q 7 dir 13 Hok Hq Hl) as [Hd|Hd]; [by right| |];
    unfold payload in Hx; change (2 ^ 7) with 128 in *; change (2 ^ 13) with 8192 in *;
    (apply (sp_view Hsp);
      [apply (payload_window m8 hl1 q 7 x H8 Hq1); unfold payload; change (2 ^ 7) with 128; lia
      |apply (live_no_header hl1 q 7); [done|done|change (2 ^ 7) with 128; lia]|lia|lia]).
Qed.

(** Both pages: the stack below the kernel and the page at 0. *)
Lemma pages_built m l hl' o4 o5 dir a b fl :
  kernel_heap_at m l -> heap_ends m 13 -> alloc_all [13; 13] l = Some ([o4; o5], hl') ->
  is_directory dir -> live l dir 13 -> in_kernel m ->
  cr3 m + KERNEL_BASE + 4096 <= start kernel_heap -> free_frames m (a :: b :: fl) ->
  absent m dir 768 -> (forall i, 768 <= i < 1024 -> user_table m dir i = None) ->
  vld32 (view m) (data o4 + 4 * 1023) mod 2 = 0 -> vld32 (view m) (data o5) mod 2 = 0 ->
  exists m8 m9, allocate_page dir (KERNEL_BASE - PAGE_SIZE_4K) m = Ok m8 /\
    allocate_page dir 0 m8 = Ok m9 /\ in_kernel m9 /\ kernel_heap_at m9 hl' /\
    free_frames m9 fl /\ is_directory (data o4) /\ is_directory (data o5) /\
    live hl' (data o4) 13 /\ live hl' (data o5) 13 /\ data o4 <> dir /\ data o5 <> dir /\
    data o4 <> data o5 /\ (forall q k, live l q k -> live hl' q k) /\
    (forall x, x ∈ headers (start kernel_heap) l -> x ∈ headers (start kernel_heap) hl') /\
    (forall q, live l q 7 -> forall x, payload q 7 x -> view m8 x = view m x) /\
    with_pages m m9 hl' dir (data o4) (data o5) a b.
Proof.
  intros Hh He Hal Hdir Hl Hk Hc Hf Habs Htab Hs4 Hs5.
  apply alloc_all_cons in Hal as (hl1 & B4 & Hal). apply alloc_all_cons in Hal as (l5 & B5 & Hal).
  injection Hal as ->.
  destruct (stack_page_built m l hl1 o4 dir a (b :: fl) Hh He B4 Hdir Hl Hk Hc Hf Habs Htab Hs4)
    as (m8 & E8 & Hsp).
  destruct (stack_page_objects m m8 l hl1 hl' o4 o5 dir a (b :: fl) Hh B4 B5 Hdir Hl Hsp)
    as (Hl1 & Hap4 & Hl2 & Hap5 & L4' & Hap45 & Vd & V5 & Ve).
  destruct (allocate_page_fresh m8 hl1 hl' o5 dir 0 b fl) as
    (m9 & E9 & K9 & H9 & D5 & L5 & F9 & St9 & Hi9 & Di9 & Sl9 & V9);
    [by apply (first_page_ready m m8 l hl1 hl' o4 o5 dir a (b :: fl))|apply Hsp| |].
  { change (0 / 4096 mod 1024) with 0. change (4 * 0) with 0. rewrite Z.add_0_r. etrans; [|exact Hs5].
    f_equal. apply vld_ext. intros x Hx. apply V5. lia. }
  fold (data o5) in *. change (0 / 4096 mod 1024) with 0 in *. change (0 / 2 ^ 22) with 0 in *.
  change (4 * 0) with 0 in *. rewrite !Z.add_0_r in *.
  exists m8, m9. split; [done|]. split; [done|]. split; [done|]. split; [done|]. split; [done|].
  split; [apply Hsp|]. split; [done|]. split; [done|]. split; [done|].
  pose proof (sp_isdir Hsp) as D4. pose proof H9 as [(_ & Hok' & _) _].
  pose proof Hh as [(_ & Hok & _) _]. pose proof (sp_heap Hsp) as H8.
  pose proof H8 as [(_ & Hok1 & _) _].
  split; [lia|]. split; [lia|]. split; [lia|]. split.
  { intros q k Hq. eapply (live_more 13 hl1), (live_more 13 l); (lia || done). }
  split; [intros x Hx; eapply (alloc_headers 13 hl1), (alloc_headers 13 l); (lia || done)|].
  split; [by apply (stack_page_desc m m8 l hl1 o4 dir a (b :: fl))|].
  assert (forall q x, live hl' q 13 -> q <= x < q + 4096 -> is_directory q ->
    kernel_window x /\ x ∉ headers (start kernel_heap) hl') as W.
  { intros q x Hq Hx (Hq0 & Hq1 & _). unfold KERNEL_BASE, PAGE_OFFSET in Hq0, Hq1.
    split; [unfold kernel_window, KERNEL_BASE; lia|].
    apply (live_no_header hl' q 13); [done|done|change (2 ^ 13) with 8192; lia]. }
  split; [| | |done| |done|].
  - rewrite St9 at 1. rewrite (sp_state Hsp) at 1. done.
  - intros pa Hpa. rewrite Hi9 by done. by apply Hsp.
  - rewrite <- (sp_dir Hsp). apply vld_ext. intros x Hx.
    destruct (W dir x Hl2) as [W1 W2]; [lia|done|]. apply V9; [done|done|lia|lia].
  - rewrite <- (sp_slot Hsp). apply vld_ext. intros x Hx.
    destruct (W (data o4) x L4') as [W1 W2]; [lia|done|]. apply V9; [done|done|lia|lia].
  - intros x Hx Hnh H1 H2 H3 H4. rewrite V9 by (done || lia). apply Hsp; [done| |done|done].
    intros Hin. apply Hnh. apply (alloc_headers 13 hl1 o5); [lia|done..].
Qed.
