(* ===== verification/Create.v ===== *)
(** * create_process: what a new process is

    From a kernel in order create_process makes a process with its own address
    space, stack and first instructions, and leaves a kernel in order. *)

From S2P Require Export CreateLemmas.

#[local] Open Scope Z_scope.

(** ** Writing the first instructions *)

(** The directory [dir] maps the first page, through the table [t], to the frame
    at the physical address [f]. *)
Definition first_page (m : machine) (dir t f : Z) : Prop :=
  is_directory dir /\ is_directory t /\ PAGE_OFFSET <= f /\ f + 4096 <= 2 ^ 32 /\ (4096 | f) /\
  vld32 (view m) dir = t - KERNEL_BASE + 7 /\ vld32 (view m) t = f + 7.

Lemma first_page_walk m dir t f va :
  first_page m dir t f -> 0 <= va < 4096 -> walk (phys m) (dir - KERNEL_BASE) va = Some (f + va).
Proof.
  intros (Hdir & Ht & Hf0 & Hf1 & [kf Hkf] & Hd & Hw) Hva. pose proof Ht as (Ht0 & Ht1 & _).
  unfold KERNEL_BASE, PAGE_OFFSET in Ht0, Ht1, Hf0.
  rewrite (walk_user_table m dir va (t - KERNEL_BASE)); [|done|lia|].
  - replace (va / 4096 mod 1024) with 0 by lia. rewrite pread32_view.
    replace (t - KERNEL_BASE + 4 * 0 + KERNEL_BASE) with t by lia. rewrite Hw. unfold entry_maps.
    replace ((f + 7) mod 2) with 1 by lia. cbn [Z.eqb Pos.eqb]. f_equal. lia.
  - replace (va / 2 ^ 22) with 0 by lia. apply user_table_entry; [done|].
    by rewrite Z.mul_0_r, Z.add_0_r.
Qed.

Lemma first_page_high (m : machine) dir t f g :
  first_page m dir t f -> (forall pa, pa < PAGE_OFFSET -> g pa = phys m pa) ->
  first_page (set_phys g m) dir t f.
Proof.
  intros (Hdir & Ht & Hf & Hf1 & Hk & Hd & Hw) Hg. repeat (split; [done|]).
  destruct Hdir as (Hd0 & Hd1 & _), Ht as (Ht0 & Ht1 & _).
  split; [rewrite <- Hd|rewrite <- Hw]; apply vld_ext; intros x Hx; cbn; rewrite Hg; try done;
    unfold KERNEL_BASE, PAGE_OFFSET in *; lia.
Qed.

(** Bytes stored in the first page of the address space in force. *)
Lemma store_bytes_first dir t f l : forall (m : machine) k,
  first_page m dir t f -> cr3 m = dir - KERNEL_BASE -> 0 <= k -> k + Z.of_nat (length l) <= 4096 ->
  exists m', store_bytes k l m = Ok m' /\ m' = set_phys (phys m') m /\
    (forall i, (i < length l)%nat -> phys m' (f + k + Z.of_nat i) = nth i l 0) /\
    forall pa, pa < f + k \/ f + k + Z.of_nat (length l) <= pa -> phys m' pa = phys m pa.
Proof.
  induction l as [|c l IH]; intros m k Hf Hc Hk Hl; cbn [length] in Hl.
  { exists m. split; [done|]. split; [by rewrite set_phys_id|]. split; [intros i Hi; cbn in Hi; lia|done]. }
  pose proof Hf as (_ & _ & Hf0 & _). unfold PAGE_OFFSET in Hf0.
  set (m1 := set_phys (pset (phys m) (f + k) c) m).
  assert (wr8 m k c = Ok m1) as E1.
  { cbn. unfold translate. replace (KERNEL_BASE <=? k) with false by (unfold KERNEL_BASE; lia).
    by rewrite Hc, (first_page_walk m dir t f) by (done || lia). }
  destruct (IH m1 (k + 1)) as (m' & E' & St & Hin & Hout); [|done|lia|lia|].
  { apply first_page_high; [done|]. intros pa Hpa. unfold pset, PAGE_OFFSET in *.
    destruct (Z.eqb_spec pa (f + k)); [lia|done]. }
  exists m'. cbn [store_bytes]. rewrite (bind_ok _ _ _ E1). split; [exact E'|].
  split; [rewrite St; done|]. cbn [length]. split.
  - intros [|i] Hi; cbn [nth].
    + rewrite Hout by lia. cbn. unfold pset. rewrite Z.add_0_r. by rewrite Z.eqb_refl.
    + rewrite <- Hin by lia. f_equal. lia.
  - intros pa Hpa. rewrite Hout by lia. cbn. unfold pset. destruct (Z.eqb_spec pa (f + k)); [lia|done].
Qed.

(** ** The queue *)

(** The processes are objects of the heap, in a ring that starts with the current
    one. *)
Definition queue (m : machine) (hl : list BlockList.block) (ps : list Z) : Prop :=
  match ps with
  | [] => current_process m = 0
  | p :: _ => current_process m = p /\ ring m ps
  end /\ forall p, p ∈ ps -> live hl p 7.

(** Insertion at the end, for both kinds of queue. *)
Lemma enqueue_queue m hl hl' ps n :
  queue m hl ps -> (forall p, p ∈ ps -> live hl' p 7) -> live hl' n 7 -> kernel_heap_at m hl' ->
  n ∉ ps ->
  exists m', enqueue n m = Ok m' /\ queue m' hl' (ps ++ [n]) /\
    m' = set_phys (phys m') (set_current (current_process m') m) /\
    (forall pa, PAGE_OFFSET <= pa -> phys m' pa = phys m pa) /\ links_only m m' (ps ++ [n]).
Proof.
  intros [Hq _] Hl Hn Hh Hni. pose proof (live_desc m hl' n Hh Hn) as Hd.
  assert (forall p, p ∈ ps ++ [n] -> live hl' p 7) as Hl'.
  { intros p Hp. apply elem_of_app in Hp as [Hp|Hp]; [by apply Hl|].
    by apply list_elem_of_singleton in Hp as ->. }
  destruct ps as [|p ps].
  - destruct (enqueue_first m n Hd Hq) as (m' & E & C & R & [Hi St] & V).
    exists m'. split; [exact E|]. split; [split; [by split|done]|]. split; [rewrite C; exact St|].
    split; [exact Hi|]. intros b Hb Hbd. apply V; [done|]. apply Hbd. by left.
  - destruct Hq as [Hc Hr].
    assert (fresh_desc (p :: ps) n) as Hf.
    { split; [done|]. split; [done|]. intros q Hq. pose proof Hh as [(_ & Hok & _) _].
      destruct (used_apart hl' q 7 n 7 Hok (Hl q Hq) Hn) as [Ha|Ha]; [left; by intros ->|..];
        change (2 ^ 7) with 128 in Ha; unfold descs_apart, sizeof_process_desc; lia. }
    destruct (enqueue_ring m p ps n Hr Hc Hf) as (m' & E & C & R & _ & [Hi St] & V).
    exists m'. split; [exact E|]. split; [split; [by split|done]|].
    split; [rewrite C, <- Hc; rewrite St at 1; by destruct m|]. by split.
Qed.

(** Writes to other frames do not disturb the frame list. *)
Lemma chain_frames_ext f f' p l :
  (forall a x, a ∈ l -> a + PAGE_OFFSET <= x < a + PAGE_OFFSET + 4 -> f' x = f x) ->
  chain f p l -> chain f' p l.
Proof.
  revert p; induction l as [|a l IH]; intros p H; cbn [chain]; [done|].
  intros (-> & H0 & H1 & Hd & Hc). do 4 (split; [done|]).
  rewrite (pread32_ext f' f) by (intros b Hb; apply (H a); [by left|lia]).
  apply IH; [|done]. intros a' x Ha' Hx. apply (H a'); [by right|done].
Qed.

Lemma chain_aligned f p l a : chain f p l -> a ∈ l -> 0 <= a /\ a + 4096 <= KERNEL_BASE /\ (4096 | a).
Proof.
  revert p; induction l as [|c l IH]; intros p; cbn [chain]; [by intros _ H; apply elem_of_nil in H|].
  intros (-> & H0 & H1 & Hd & Hc). rewrite elem_of_cons. intros [->|Hin]; [done|]. by eapply IH.
Qed.

(** A queue depends on its descriptors only. *)
Lemma queue_ext (m m' : machine) hl hl' ps :
  current_process m' = current_process m -> (forall p, p ∈ ps -> live hl' p 7) ->
  (forall p x, p ∈ ps -> payload p 7 x -> view m' x = view m x) ->
  queue m hl ps -> queue m' hl' ps.
Proof.
  intros Hc Hl Hv [Hq _]. split; [|done]. destruct ps as [|p ps]; [congruence|].
  destruct Hq as [Hcp Hr]. split; [congruence|]. apply (ring_ext m); [|done].
  intros q off Hq Hoff. apply fld_kept; [intros x; by apply Hv|..];
    unfold o_next, o_prev in Hoff; lia.
Qed.

Section Start.
Context (kernel_memory : Z) (m : machine) (hl : list BlockList.block) (ps fl : list Z) (p dir t b : Z).
Context (Hh : kernel_heap_at m hl) (Hk : in_kernel m)
  (Hcr : cr3 m = kernel_memory - KERNEL_BASE)
  (Hbelow : kernel_memory + 4096 <= start kernel_heap)
  (Hp : live hl p 7) (Hni : p ∉ ps) (Hq : queue m hl ps)
  (Hpage : first_page m dir t (b + PAGE_OFFSET)).

(** The last part of create_process: code, state, queue. *)
Lemma process_started :
  exists m1 m2 m3,
    store_bytes 0 first_code (enable_paging (u32 (dir - KERNEL_BASE)) m) = Ok m1 /\
    wr8 (enable_paging (u32 (kernel_memory - KERNEL_BASE)) m1) (u32 (p + o_state)) 0 = Ok m2 /\
    enqueue p m2 = Ok m3 /\ queue m3 hl (ps ++ [p]) /\ pstate m3 p = 0 /\
    m3 = set_phys (phys m3) (set_current (current_process m3) m) /\
    (forall i, (i < 5)%nat -> phys m3 (b + PAGE_OFFSET + Z.of_nat i) = nth i first_code 0) /\
    (forall pa, PAGE_OFFSET <= pa -> pa < b + PAGE_OFFSET \/ b + PAGE_OFFSET + 5 <= pa ->
       phys m3 pa = phys m pa) /\
    forall x, kernel_window x -> x <> p + o_state ->
      (forall r, r ∈ ps ++ [p] -> x < r + o_prev \/ r + o_state <= x) -> view m3 x = view m x.
Proof.
  pose proof Hpage as ((Hd0 & Hd1 & _) & _ & Hb0 & _).
  destruct Hk as (Hk0 & Hk1 & _). unfold KERNEL_BASE, PAGE_OFFSET in Hd0, Hd1, Hb0, Hk1.
  destruct (live_bounds m hl p 7 Hh Hp) as [Hp0 Hp1]. change (2 ^ 7) with 128 in Hp1.
  change (start kernel_heap) with 3489660927 in Hp0, Hbelow.
  assert (o_state = 84 /\ KERNEL_BASE = 3221225472 /\ PAGE_OFFSET = 1073741824) as (Es & EK & EP) by done.
  unfold enable_paging at 1. rewrite !u32_small by (rewrite ?u32_small; lia).
  destruct (store_bytes_first dir t (b + PAGE_OFFSET) first_code (set_cr3 (dir - KERNEL_BASE) m) 0)
    as (m1 & E1 & S1 & I1 & O1); [done|done|lia|cbn; lia|].
  rewrite Z.add_0_r in I1, O1. change (length first_code) with 5%nat in *.
  change (phys (set_cr3 (dir - KERNEL_BASE) m)) with (phys m) in O1.
  assert (enable_paging (kernel_memory - KERNEL_BASE) m1 = set_phys (phys m1) m) as Ema.
  { unfold enable_paging. rewrite u32_small by lia. rewrite <- Hcr, S1. by destruct m. }
  set (ma := set_phys (phys m1) m).
  assert (forall x, kernel_window x -> view ma x = view m x) as Va.
  { intros x [Hx0 Hx1]. cbn. rewrite O1 by lia. done. }
  assert (kernel_window (p + o_state)) as Hw by (unfold kernel_window; lia).
  pose proof (wr8_win ma (p + o_state) 0 Hw) as E2. set (m2 := poke ma (p + o_state) 0) in *.
  assert (forall x, kernel_window x -> view m2 x = if decide (p + o_state = x) then 0 else view m x) as V2.
  { intros x Hx. unfold m2. rewrite view_poke by done. by rewrite Va. }
  pose proof Hh as [(_ & Hok & _) _].
  assert (kernel_heap_at m2 hl) as H2.
  { apply (live_heap_payload m m2 hl p 7 (p + o_state) 1 Hh Hp); [lia|change (2 ^ 7) with 128; lia|].
    intros x Hx Hxo. rewrite V2 by done. by rewrite decide_False by lia. }
  assert (queue m2 hl ps) as Q2.
  { apply (queue_ext m m2 hl); [done|apply Hq| |done]. intros q x Hqi Hx.
    destruct Hq as [_ Hl]. rewrite V2 by (by apply (payload_window m hl q 7 x Hh (Hl q Hqi))).
    destruct (used_apart hl q 7 p 7 Hok (Hl q Hqi) Hp) as [Ha|Ha]; [left; by intros ->|..];
      unfold payload in Hx; change (2 ^ 7) with 128 in *; by rewrite decide_False by lia. }
  destruct (enqueue_queue m2 hl hl ps p Q2) as (m3 & E3 & Q3 & S3 & Hi3 & V3);
    [apply Hq|done|done|done|].
  exists m1, m2, m3. split; [exact E1|].
  split; [rewrite Ema; exact E2|]. split; [exact E3|]. split; [exact Q3|].
  assert (forall pa, PAGE_OFFSET <= pa -> phys m3 pa = phys m1 pa) as Hi.
  { intros pa Hpa. rewrite Hi3 by done. cbn. unfold pset.
    destruct (Z.eqb_spec pa (p + o_state - KERNEL_BASE)); [lia|done]. }
  split; [|split; [|split; [|split]]].
  - unfold pstate. rewrite V3, V2; [by rewrite decide_True|done|done|].
    intros r Hr. destruct (decide (r = p)) as [->|Hne]; [lia|].
    apply elem_of_app in Hr as [Hr|Hr]; [|by apply list_elem_of_singleton in Hr].
    destruct Hq as [_ Hl]. destruct (used_apart hl r 7 p 7 Hok (Hl r Hr) Hp) as [Ha|Ha]; [by left|..];
      change (2 ^ 7) with 128 in Ha; unfold o_prev; lia.
  - rewrite S3. done.
  - intros i Hi5. rewrite Hi by lia. apply I1. done.
  - intros pa Hpa Hpo. rewrite Hi by done. apply O1. lia.
  - intros x Hx Hne Hr. rewrite V3 by done. rewrite V2 by done. by rewrite decide_False by congruence.
Qed.
End Start.

(** ** The address space *)

(** A directory with one page at 0, through the table [t0], and one page below
    the kernel, through [t1]. *)
Record two_pages (m : machine) (dir t1 t0 a b : Z) : Prop := {
  tp_dir : is_directory dir; tp_t1 : is_directory t1; tp_t0 : is_directory t0;
  tp_a : 0 <= a /\ a + 4096 <= KERNEL_BASE /\ (4096 | a);
  tp_b : 0 <= b /\ b + 4096 <= KERNEL_BASE /\ (4096 | b);
  tp_words : forall i, 0 < i < 767 -> vld32 (view m) (dir + 4 * i) mod 2 = 0;
  tp_word0 : vld32 (view m) dir = t0 - KERNEL_BASE + 7;
  tp_word1 : vld32 (view m) (dir + 4 * 767) = t1 - KERNEL_BASE + 7;
  tp_slots1 : forall i, 0 <= i < 1023 -> vld32 (view m) (t1 + 4 * i) mod 2 = 0;
  tp_slot1 : vld32 (view m) (t1 + 4 * 1023) = a + PAGE_OFFSET + 7;
  tp_slots0 : forall i, 0 < i < 1024 -> vld32 (view m) (t0 + 4 * i) mod 2 = 0;
  tp_slot0 : vld32 (view m) t0 = b + PAGE_OFFSET + 7 }.
#[global] Arguments tp_dir {_ _ _ _ _ _} _.
#[global] Arguments tp_t1 {_ _ _ _ _ _} _.
#[global] Arguments tp_t0 {_ _ _ _ _ _} _.
#[global] Arguments tp_a {_ _ _ _ _ _} _.
#[global] Arguments tp_b {_ _ _ _ _ _} _.
#[global] Arguments tp_words {_ _ _ _ _ _} _.
#[global] Arguments tp_word0 {_ _ _ _ _ _} _.
#[global] Arguments tp_word1 {_ _ _ _ _ _} _.
#[global] Arguments tp_slots1 {_ _ _ _ _ _} _.
#[global] Arguments tp_slot1 {_ _ _ _ _ _} _.
#[global] Arguments tp_slots0 {_ _ _ _ _ _} _.
#[global] Arguments tp_slot0 {_ _ _ _ _ _} _.

(** What a process can reach below the kernel: its first page and its stack. *)
Definition user_space (a b va : Z) : option Z :=
  if va <? 4096 then Some (b + PAGE_OFFSET + va)
  else if KERNEL_BASE - 4096 <=? va then Some (a + PAGE_OFFSET + va mod 4096)
  else None.

Lemma walk_table m dir t i va :
  is_directory dir -> is_directory t -> 0 <= va < KERNEL_BASE -> va / 2 ^ 22 = i ->
  vld32 (view m) (dir + 4 * i) = t - KERNEL_BASE + 7 ->
  walk (phys m) (dir - KERNEL_BASE) va =
    entry_maps (vld32 (view m) (t + 4 * (va / 4096 mod 1024))) va.
Proof.
  intros Hdir Ht Hva <- Hw. assert (KERNEL_BASE = 3221225472) as EK by done.
  rewrite (walk_user_table m dir va (t - KERNEL_BASE)); [|done|lia|by apply user_table_entry].
  rewrite pread32_view. do 2 f_equal. lia.
Qed.

Lemma entry_maps_absent x va : x mod 2 = 0 -> entry_maps x va = None.
Proof. unfold entry_maps. by intros ->. Qed.

Lemma stack_entry_maps f va : (4096 | f) -> entry_maps (f + 7) va = Some (f + va mod 4096).
Proof.
  intros [k Hk]. unfold entry_maps. replace ((f + 7) mod 2) with 1 by lia.
  cbn [Z.eqb Pos.eqb]. f_equal. lia.
Qed.

Lemma two_pages_walk m dir t1 t0 a b va :
  two_pages m dir t1 t0 a b -> 0 <= va < KERNEL_BASE ->
  walk (phys m) (dir - KERNEL_BASE) va = user_space a b va.
Proof.
  intros [Hdir Ht1 Ht0 (Ha0 & Ha1 & Ha) (Hb0 & Hb1 & Hb) Hws Hw0 Hw1 Hs1 H1 Hs0 H0] Hva.
  assert (KERNEL_BASE = 3221225472 /\ PAGE_OFFSET = 1073741824) as [EK EP] by done.
  assert (forall f, (4096 | f) -> (4096 | f + PAGE_OFFSET)) as Hdiv.
  { intros f Hf. apply Z.divide_add_r; [done|]. by exists 262144. }
  unfold user_space. set (i := va / 2 ^ 22). set (j := va / 4096 mod 1024).
  destruct (decide (i = 0)) as [Hi|Hi].
  - rewrite (walk_table m dir t0 0 va) by (done || (by rewrite Z.mul_0_r, Z.add_0_r)). fold j.
    replace (KERNEL_BASE - 4096 <=? va) with false by lia.
    destruct (Z.ltb_spec va 4096).
    + replace j with 0 by lia. rewrite Z.mul_0_r, Z.add_0_r, H0, stack_entry_maps by by apply Hdiv.
      f_equal. lia.
    + apply entry_maps_absent, Hs0. lia.
  - replace (va <? 4096) with false by lia. destruct (decide (i = 767)) as [Hi'|Hi'].
    + rewrite (walk_table m dir t1 767 va) by done. fold j.
      destruct (Z.leb_spec (KERNEL_BASE - 4096) va).
      * replace j with 1023 by lia. rewrite H1, stack_entry_maps by by apply Hdiv. done.
      * apply entry_maps_absent, Hs1. lia.
    + replace (KERNEL_BASE - 4096 <=? va) with false by lia.
      pose proof Hdir as (Hd0 & Hd1 & Hd). apply (walk_absent _ _ va (vld32 (view m) (dir + 4 * i))).
      * lia.
      * apply Z.divide_sub_r; [done|by exists 786432].
      * lia.
      * rewrite pread32_view. f_equal. unfold i. lia.
      * apply Hws. lia.
Qed.

Lemma two_pages_ext m m' dir t1 t0 a b :
  (forall q x, q = dir \/ q = t1 \/ q = t0 -> q <= x < q + 4096 -> view m' x = view m x) ->
  two_pages m dir t1 t0 a b -> two_pages m' dir t1 t0 a b.
Proof.
  intros Hv [D D1 D0 Ha Hb Hw Hw0 Hw1 Hs1 H1 Hs0 H0].
  assert (forall q i, q = dir \/ q = t1 \/ q = t0 -> 0 <= i < 1024 ->
    vld32 (view m') (q + 4 * i) = vld32 (view m) (q + 4 * i)) as He.
  { intros q i Hq Hi. apply vld_ext. intros x Hx. apply (Hv q); [done|lia]. }
  pose proof (He dir 0 ltac:(auto) ltac:(lia)) as E0. pose proof (He t0 0 ltac:(auto) ltac:(lia)) as E0'.
  rewrite Z.mul_0_r, Z.add_0_r in E0, E0'.
  split; try done; try (intros i Hi; rewrite He by (auto || lia); auto);
    try (rewrite He by (auto || lia); done); congruence.
Qed.

(** ** The whole of create_process *)

(** The tables that will be allocated are not touched while the directory is made. *)
Lemma space_tables m m7 eip hl l p st dir o4 o5 hl' :
  new_space m m7 eip hl l p st dir -> alloc_all [13; 13] l = Some ([o4; o5], hl') ->
  forall o x, o = o4 \/ o = o5 -> data o <= x < data o + 4096 -> view m7 x = view m x.
Proof.
  intros Hns Hal o x Ho Hx.
  apply alloc_all_cons in Hal as (hl1 & B4 & Hal). apply alloc_all_cons in Hal as (l5 & B5 & Hal).
  injection Hal as ->. destruct (heap_span m7 l) as [Hok Hs]; [apply Hns|].
  destruct (alloc_blocks_sizes 13 l o4 hl1 ltac:(lia) Hok B4) as (Hok1 & Hs1 & _). rewrite Hs in Hs1.
  pose proof (ns_desc Hns) as Lp. pose proof (ns_dir Hns) as Ld.
  destruct (live_allocate 13 l o4 hl1 p 7 ltac:(lia) Hok B4 Lp) as [Lp1 Ap4].
  destruct (live_allocate 13 l o4 hl1 dir 13 ltac:(lia) Hok B4 Ld) as [Ld1 Ad4].
  destruct (live_allocate 13 hl1 o5 hl' p 7 ltac:(lia) Hok1 B5 Lp1) as [_ Ap5].
  destruct (live_allocate 13 hl1 o5 hl' dir 13 ltac:(lia) Hok1 B5 Ld1) as [_ Ad5].
  assert (kernel_window x /\ x ∉ headers (start kernel_heap) l) as [Hw Hnh].
  { destruct Ho as [->| ->].
    - destruct (data_bytes 13 l o4 hl1 x Hok Hs ltac:(lia) B4) as (W & _ & N);
        [unfold payload; change (2 ^ 13) with 8192; lia|].
      split; [done|]. intros Hin. apply N. by apply (alloc_headers 13 l o4).
    - destruct (data_bytes 13 hl1 o5 hl' x Hok1 Hs1 ltac:(lia) B5) as (W & _ & N);
        [unfold payload; change (2 ^ 13) with 8192; lia|].
      split; [done|]. intros Hin. apply N. apply (alloc_headers 13 hl1 o5); [lia|done..|].
      by apply (alloc_headers 13 l o4). }
  change (2 ^ 7) with 128 in *. change (2 ^ 13) with 8192 in *.
  apply (ns_view Hns); [done|done|unfold payload; change (2 ^ 7) with 128|];
    destruct Ho as [->| ->]; lia.
Qed.

(** The directory's own words, below the kernel part. *)
Lemma space_directory m m7 eip hl l p st dir x :
  new_space m m7 eip hl l p st dir -> dir <= x < dir + 3072 -> view m7 x = view m x.
Proof.
  intros Hns Hx. pose proof (ns_heap Hns) as H7. pose proof H7 as [(_ & Hok & _) _].
  pose proof (ns_desc Hns) as Lp. pose proof (ns_dir Hns) as Ld.
  assert (payload dir 13 x) as Hpx by (unfold payload; change (2 ^ 13) with 8192; lia).
  apply (ns_view Hns).
  - by apply (payload_window m7 l dir 13 x).
  - by apply (live_no_header l dir 13 x).
  - destruct (used_apart l p 7 dir 13 Hok Lp Ld) as [Ha|Ha]; [by right|..];
      unfold payload; change (2 ^ 7) with 128 in *; change (2 ^ 13) with 8192 in *; lia.
  - lia.
Qed.

(** Nor are the descriptors that were there. *)
Lemma space_old m m7 eip hl l p st dir q x :
  new_space m m7 eip hl l p st dir -> live hl q 7 -> q <> p -> payload q 7 x -> view m7 x = view m x.
Proof.
  intros Hns Hq Hne Hx. pose proof (ns_heap Hns) as H7.
  pose proof H7 as [(_ & Hok & _) _]. pose proof (ns_old Hns q 7 Hq) as Lq.
  pose proof (ns_desc Hns) as Lp. pose proof (ns_dir Hns) as Ld.
  pose proof (used_apart l q 7 p 7 Hok Lq Lp ltac:(by left)) as Ap.
  pose proof (used_apart l q 7 dir 13 Hok Lq Ld ltac:(by right)) as Ad.
  apply (ns_view Hns); [by apply (payload_window m7 l q 7 x)|by apply (live_no_header l q 7)|..];
    unfold payload in *; change (2 ^ 7) with 128 in *; change (2 ^ 13) with 8192 in *; lia.
Qed.

Lemma ld_fld (m : machine) p off :
  desc_ok p -> 0 <= off -> off + 4 <= sizeof_process_desc -> ld32 m (u32 (p + off)) = Ok (fld m p off).
Proof.
  intros Hd H0 H1. rewrite (desc_addr _ _ 4) by (done || lia). apply (ldn_win 4).
  by apply desc_win.
Qed.

(** A new process [p], with stack [st] and directory [dir], in the machine [m']
    that was [m]. *)
Record created (m m' : machine) (eip : Z) (hl' : list BlockList.block) (ps : list Z)
    (p st dir t1 t0 a b : Z) : Prop := {
  cd_queue : queue m' hl' (ps ++ [p]);
  cd_heap : kernel_heap_at m' hl';
  cd_ends : heap_ends m' 7;
  cd_state : m' = set_phys (phys m') (set_freelist (page_freelist m')
               (set_current (current_process m') m));
  cd_saved : saved m' p = initial_context eip;
  cd_esp0 : fld m' p o_esp0 = st + 4092;
  cd_directory : fld m' p o_page_directory = dir;
  cd_running : pstate m' p = PROCESS_RUNNING;
  cd_space : two_pages m' dir t1 t0 a b;
  cd_part : kernel_part (phys m') (dir - KERNEL_BASE);
  cd_code : forall i, (i < 5)%nat -> phys m' (b + PAGE_OFFSET + Z.of_nat i) = nth i first_code 0;
  cd_others : forall q, q ∈ ps -> content_kept m m' q;
  cd_high : forall pa, PAGE_OFFSET <= pa -> pa < b + PAGE_OFFSET \/ b + PAGE_OFFSET + 5 <= pa ->
    phys m' pa = phys m pa;
  cd_view : forall x, kernel_window x -> x ∉ headers (start kernel_heap) hl' ->
    (forall q, q ∈ ps ++ [p] -> ~ payload q 7 x) ->
    ~ dir <= x < dir + 4096 -> ~ t1 <= x < t1 + 4096 -> ~ t0 <= x < t0 + 4096 ->
    view m' x = view m x }.
#[global] Arguments cd_queue {_ _ _ _ _ _ _ _ _ _ _ _} _.
#[global] Arguments cd_heap {_ _ _ _ _ _ _ _ _ _ _ _} _.
#[global] Arguments cd_ends {_ _ _ _ _ _ _ _ _ _ _ _} _.
#[global] Arguments cd_state {_ _ _ _ _ _ _ _ _ _ _ _} _.
#[global] Arguments cd_saved {_ _ _ _ _ _ _ _ _ _ _ _} _.
#[global] Arguments cd_esp0 {_ _ _ _ _ _ _ _ _ _ _ _} _.
#[global] Arguments cd_directory {_ _ _ _ _ _ _ _ _ _ _ _} _.
#[global] Arguments cd_running {_ _ _ _ _ _ _ _ _ _ _ _} _.
#[global] Arguments cd_space {_ _ _ _ _ _ _ _ _ _ _ _} _.
#[global] Arguments cd_part {_ _ _ _ _ _ _ _ _ _ _ _} _.
#[global] Arguments cd_code {_ _ _ _ _ _ _ _ _ _ _ _} _.
#[global] Arguments cd_others {_ _ _ _ _ _ _ _ _ _ _ _} _.
#[global] Arguments cd_high {_ _ _ _ _ _ _ _ _ _ _ _} _.
#[global] Arguments cd_view {_ _ _ _ _ _ _ _ _ _ _ _} _.

(** Descriptors are not touched by the pages. *)
Lemma pages_desc m m' hl' dir t1 t0 a b :
  kernel_heap_at m' hl' -> live hl' dir 13 -> live hl' t1 13 -> live hl' t0 13 ->
  with_pages m m' hl' dir t1 t0 a b ->
  forall q, live hl' q 7 -> forall x, payload q 7 x -> view m' x = view m x.
Proof.
  intros Hh Hd H1 H0 Hwp q Hq x Hx. pose proof Hh as [(_ & Hok & _) _].
  pose proof (used_apart hl' q 7 dir 13 Hok Hq Hd ltac:(by right)) as Ad.
  pose proof (used_apart hl' q 7 t1 13 Hok Hq H1 ltac:(by right)) as A1.
  pose proof (used_apart hl' q 7 t0 13 Hok Hq H0 ltac:(by right)) as A0.
  pose proof (payload_window m' hl' q 7 x Hh Hq Hx) as [Hw _].
  pose proof (live_no_header hl' q 7 x Hok Hq Hx) as Hnh.
  unfold payload in Hx. change (2 ^ 7) with 128 in *. change (2 ^ 13) with 8192 in *.
  apply (wp_view Hwp); [done|done|lia..].
Qed.

(** Up to the pages. *)
Lemma create_prepared kernel_memory eip m hl o1 o2 o3 o4 o5 hl' a b fl :
  create_ready m hl [o1; o2; o3; o4; o5] hl' -> cr3 m = kernel_memory - KERNEL_BASE ->
  free_frames m (a :: b :: fl) -> absent m (data o3) 768 ->
  vld32 (view m) (data o4 + 4 * 1023) mod 2 = 0 -> vld32 (view m) (data o5) mod 2 = 0 ->
  exists m7 m8 m9 l, create_process kernel_memory eip m =
      (m ← store_bytes 0 first_code (enable_paging (u32 (data o3 - KERNEL_BASE)) m9);
       m ← wr8 (enable_paging (u32 (kernel_memory - KERNEL_BASE)) m) (u32 (data o1 + o_state)) 0;
       enqueue (data o1) m) /\
    new_space m m7 eip hl l (data o1) (data o2) (data o3) /\
    alloc_all [13; 13] l = Some ([o4; o5], hl') /\
    allocate_page (data o3) (KERNEL_BASE - PAGE_SIZE_4K) m7 = Ok m8 /\
    allocate_page (data o3) 0 m8 = Ok m9 /\ in_kernel m9 /\ kernel_heap_at m9 hl' /\
    free_frames m9 fl /\ is_directory (data o4) /\ is_directory (data o5) /\
    live hl' (data o4) 13 /\ live hl' (data o5) 13 /\ data o4 <> data o3 /\ data o5 <> data o3 /\
    data o4 <> data o5 /\ (forall q k, live l q k -> live hl' q k) /\
    (forall x, x ∈ headers (start kernel_heap) l -> x ∈ headers (start kernel_heap) hl') /\
    with_pages m7 m9 hl' (data o3) (data o4) (data o5) a b.
Proof.
  intros Hr Hcr [Hch Hnd] Habs Hs4 Hs5. pose proof Hr as [Hh He Hal Hk Hpart Hbelow].
  destruct (space_built kernel_memory m eip hl o1 o2 o3 o4 o5 hl' Hr Hcr)
    as (m1 & m2 & m3 & m4 & m5 & m6 & m7 & l & E1 & E2 & E3 & E4 & E5 & E6 & E7 & Hal' & Hns).
  pose proof Hns as [[Hi7 St7] H7 He7 _ Hhd Lp Ls Ld Hisd _ _ Pd Pt V7].
  pose proof H7 as [(_ & Hok & _) _].
  assert (cr3 m7 = cr3 m) as C7 by (rewrite St7; done).
  assert (forall x, cr3 m + KERNEL_BASE <= x < cr3 m + KERNEL_BASE + 4096 -> view m7 x = view m x) as Vk.
  { intros x Hx. destruct Hk as (Hk0 & Hk1 & _). pose proof (live_below l _ _ Hok Lp) as B1.
    pose proof (live_below l _ _ Hok Ld) as B2. unfold KERNEL_BASE, PAGE_OFFSET in *.
    apply V7; [unfold kernel_window, KERNEL_BASE; lia| |unfold payload; lia|lia].
    intros Hin. apply headers_range in Hin; [lia|done]. }
  destruct (pages_built m7 l hl' o4 o5 (data o3) a b fl) as (m8 & m9 & E8 & E9 & K9 & H9 & F9 & D4 & D5 &
    L4 & L5 & N4 & N5 & N45 & Lm & Hm & V8 & Hwp);
    [exact H7| |exact Hal'|exact Hisd|exact Ld|..].
  - by apply (ends_more m7 m7 7).
  - by apply (in_kernel_view m).
  - by rewrite C7.
  - split; [|done]. apply (chain_ext (phys m)); [exact Hi7|]. rewrite St7. exact Hch.
  - apply (absent_ext m); [|done]. intros x Hx. by apply (space_directory m m7 eip hl l _ _ _ x Hns).
  - intros i Hi. apply (user_table_big _ _ _ (i - 768)); [lia|]. rewrite <- Pt by lia. do 2 f_equal. lia.
  - etrans; [|exact Hs4]. f_equal. apply vld_ext. intros x Hx.
    apply (space_tables m m7 eip hl l _ _ _ o4 o5 hl' Hns Hal' o4); [by left|lia].
  - etrans; [|exact Hs5]. f_equal. apply vld_ext. intros x Hx.
    apply (space_tables m m7 eip hl l _ _ _ o4 o5 hl' Hns Hal' o5); [by right|lia].
  - exists m7, m8, m9, l. split; [|by repeat (split; [assumption|])].
    pose proof (live_desc m7 l _ H7 Lp) as Hd.
    assert (forall mm : machine, (forall x, payload (data o1) 7 x -> view mm x = view m7 x) ->
      ld32 mm (u32 (data o1 + o_page_directory)) = Ok (data o3)) as Hpd.
    { intros mm Hv. rewrite ld_fld by done. by rewrite (fld_kept m7), Pd. }
    unfold create_process. rewrite (bind_ok _ _ _ E1). cbv beta iota.
    rewrite (bind_ok _ _ _ E2). cbv beta. rewrite (bind_ok _ _ _ E3). cbv beta iota.
    rewrite (bind_ok _ _ _ E4). cbv beta. rewrite (bind_ok _ _ _ E5). cbv beta iota.
    rewrite (bind_ok _ _ _ E6). cbv beta. rewrite (bind_ok _ _ _ E7). cbv beta.
    rewrite (bind_ok _ _ _ (Hpd m7 (fun _ _ => eq_refl))). cbv beta.
    rewrite (bind_ok _ _ _ E8). cbv beta.
    rewrite (bind_ok _ _ _ (Hpd m8 (V8 _ Lp))). cbv beta.
    rewrite (bind_ok _ _ _ E9). cbv beta.
    rewrite (bind_ok _ _ _ (Hpd m9 (pages_desc m7 m9 hl' _ _ _ a b H9 (Lm _ _ Ld) L4 L5 Hwp _ (Lm _ _ Lp)))). cbv beta zeta. reflexivity.
Qed.

(** What is known of memory once the process is in the queue: the machines before
    the pages ([m7]), after them ([m9]) and at the end. *)
Record create_phases (m m7 m9 m' : machine) (eip : Z) (hl l hl' : list BlockList.block) (ps : list Z)
    (p st dir t1 t0 a b : Z) : Prop := {
  ph_space : new_space m m7 eip hl l p st dir;
  ph_pages : with_pages m7 m9 hl' dir t1 t0 a b;
  ph_live : forall q k, live l q k -> live hl' q k;
  ph_headers : forall x, x ∈ headers (start kernel_heap) l -> x ∈ headers (start kernel_heap) hl';
  ph_t1 : live hl' t1 13; ph_t0 : live hl' t0 13;
  ph_heap : kernel_heap_at m9 hl';
  ph_queue : queue m' hl' (ps ++ [p]);
  ph_old : forall q, q ∈ ps -> live hl q 7;
  ph_new : p ∉ ps;
  ph_view : forall x, kernel_window x -> x <> p + o_state ->
    (forall r, r ∈ ps ++ [p] -> x < r + o_prev \/ r + o_state <= x) -> view m' x = view m9 x }.
#[global] Arguments ph_space {_ _ _ _ _ _ _ _ _ _ _ _ _ _ _ _} _.
#[global] Arguments ph_pages {_ _ _ _ _ _ _ _ _ _ _ _ _ _ _ _} _.
#[global] Arguments ph_live {_ _ _ _ _ _ _ _ _ _ _ _ _ _ _ _} _.
#[global] Arguments ph_headers {_ _ _ _ _ _ _ _ _ _ _ _ _ _ _ _} _.
#[global] Arguments ph_t1 {_ _ _ _ _ _ _ _ _ _ _ _ _ _ _ _} _.
#[global] Arguments ph_t0 {_ _ _ _ _ _ _ _ _ _ _ _ _ _ _ _} _.
#[global] Arguments ph_heap {_ _ _ _ _ _ _ _ _ _ _ _ _ _ _ _} _.
#[global] Arguments ph_queue {_ _ _ _ _ _ _ _ _ _ _ _ _ _ _ _} _.
#[global] Arguments ph_old {_ _ _ _ _ _ _ _ _ _ _ _ _ _ _ _} _.
#[global] Arguments ph_new {_ _ _ _ _ _ _ _ _ _ _ _ _ _ _ _} _.
#[global] Arguments ph_view {_ _ _ _ _ _ _ _ _ _ _ _ _ _ _ _} _.

Section Phases.
Context (m m7 m9 m' : machine) (eip : Z) (hl l hl' : list BlockList.block) (ps : list Z)
  (p st dir t1 t0 a b : Z).
Context (Hph : create_phases m m7 m9 m' eip hl l hl' ps p st dir t1 t0 a b).

Lemma phases_sizes : sizes_ok hl'.
Proof. pose proof (ph_heap Hph) as [(_ & H & _) _]. exact H. Qed.

(** Bytes outside of the queue's descriptors. *)
Lemma phases_outside x :
  kernel_window x -> (forall q, q ∈ ps ++ [p] -> ~ payload q 7 x) -> view m' x = view m9 x.
Proof.
  intros Hx Hq. unfold payload in Hq. change (2 ^ 7) with 128 in Hq.
  apply (ph_view Hph); [done|..].
  - specialize (Hq p ltac:(rewrite elem_of_app; right; by left)). unfold o_state. lia.
  - intros r Hr. specialize (Hq r Hr). unfold o_prev, o_state. lia.
Qed.

(** Bytes of a page are not those of descriptors. *)
Lemma phases_page q x : live hl' q 13 -> payload q 13 x -> view m' x = view m9 x.
Proof.
  intros Hq Hx. pose proof phases_sizes as Hok.
  apply phases_outside.
  - by apply (payload_window m9 hl' q 13 x); [apply Hph|..].
  - intros r Hr Hxr. pose proof (proj2 (ph_queue Hph) r Hr) as Lr.
    destruct (used_apart hl' r 7 q 13 Hok Lr Hq) as [Ha|Ha]; [by right|..];
      unfold payload in Hx, Hxr; lia.
Qed.

Lemma phases_view x :
  kernel_window x -> x ∉ headers (start kernel_heap) hl' ->
  (forall q, q ∈ ps ++ [p] -> ~ payload q 7 x) ->
  ~ dir <= x < dir + 4096 -> ~ t1 <= x < t1 + 4096 -> ~ t0 <= x < t0 + 4096 -> view m' x = view m x.
Proof.
  intros Hx Hnh Hq Hd H1 H0. destruct Hph as [Hns Hwp _ Hhd _ _ _ _ _ _ _].
  rewrite phases_outside by done.
  rewrite (wp_view Hwp) by (done || lia).
  apply (ns_view Hns); [done|auto| |lia].
  apply Hq. rewrite elem_of_app. right. by left.
Qed.

(** The descriptors that were there keep their content. *)
Lemma phases_others q : q ∈ ps -> content_kept m m' q.
Proof.
  intros Hq x Hx. destruct Hph as [Hns Hwp Hl Hhd L1 L0 H9 [_ Lq] Hold Hnew Hv].
  pose proof phases_sizes as Hok. pose proof (ns_heap Hns) as H7.
  pose proof H7 as [(_ & Hokl & _) _].
  pose proof (ns_old Hns q 7 (Hold q Hq)) as Lql.
  pose proof (ns_desc Hns) as Lp. pose proof (ns_dir Hns) as Ld.
  assert (forall r, live hl' r 7 -> r <> q -> q + 128 <= r \/ r + 128 <= q) as Hap.
  { intros r Lr Hne. destruct (used_apart hl' q 7 r 7 Hok (Hl _ _ Lql) Lr) as [Ha|Ha];
      [left; congruence|..]; change (2 ^ 7) with 128 in Ha; lia. }
  assert (q <> p) as Hqp by (intros ->; done).
  pose proof (Hap p (Hl _ _ Lp) ltac:(congruence)) as Hap'.
  assert (payload q 7 x) as Hpx
    by (unfold payload, o_prev, o_state in *; change (2 ^ 7) with 128; lia).
  pose proof (payload_window m7 l q 7 x H7 Lql Hpx) as [Hw _].
  assert (view m' x = view m9 x) as ->.
  { unfold o_prev, o_state in *. apply Hv; [done|unfold o_state; lia|]. intros r Hr.
    destruct (decide (r = q)) as [->|Hne]; [unfold o_prev, o_state; lia|].
    specialize (Hap r (Lq r Hr) Hne). unfold o_prev, o_state. lia. }
  rewrite (pages_desc m7 m9 hl' dir t1 t0 a b H9 (Hl _ _ Ld) L1 L0 Hwp q (Hl _ _ Lql) x Hpx).
  apply (space_old m m7 eip hl l p st dir q); [done|by apply Hold|done|done].
Qed.

(** The new descriptor. *)
Lemma phases_desc x : p <= x < p + o_prev -> view m' x = view m7 x.
Proof.
  unfold o_prev. intros Hx. destruct Hph as [Hns Hwp Hl Hhd L1 L0 H9 [_ Lq] Hold Hnew Hv].
  pose proof phases_sizes as Hok. pose proof (ns_heap Hns) as H7.
  pose proof (ns_desc Hns) as Lp. pose proof (ns_dir Hns) as Ld.
  assert (payload p 7 x) as Hpx by (unfold payload; change (2 ^ 7) with 128; lia).
  pose proof (payload_window m7 l p 7 x H7 Lp Hpx) as [Hw _].
  assert (view m' x = view m9 x) as ->.
  { apply Hv; [done|unfold o_state; lia|]. intros r Hr.
    destruct (decide (r = p)) as [->|Hne]; [unfold o_prev; lia|].
    destruct (used_apart hl' p 7 r 7 Hok (Hl _ _ Lp) (Lq r Hr)) as [Ha|Ha]; [left; congruence|..];
      change (2 ^ 7) with 128 in Ha; unfold o_prev, o_state; lia. }
  apply (pages_desc m7 m9 hl' dir t1 t0 a b H9 (Hl _ _ Ld) L1 L0 Hwp p (Hl _ _ Lp) x Hpx).
Qed.

(** Words of the pages. *)
Lemma phases_word q i :
  live hl' q 13 -> 0 <= i < 1024 ->
  (~ (q = dir /\ (i = 0 \/ i = 767)) /\ ~ (q = t1 /\ i = 1023) /\ ~ (q = t0 /\ i = 0)) ->
  vld32 (view m') (q + 4 * i) = vld32 (view m7) (q + 4 * i).
Proof.
  intros Lq Hi (N1 & N2 & N3). pose proof phases_sizes as Hok.
  destruct Hph as [Hns Hwp Hl Hhd L1 L0 H9 _ _ _ _].
  pose proof (Hl _ _ (ns_dir Hns)) as Ld.
  assert (forall r, live hl' r 13 -> q <> r -> q + 8192 <= r \/ r + 8192 <= q) as Hap.
  { intros r Lr Hne. by apply (used_apart hl' q 13 r 13 Hok Lq Lr); left. }
  apply vld_ext. intros x Hx.
  assert (payload q 13 x) as Hpx by (unfold payload; change (2 ^ 13) with 8192; lia).
  rewrite (phases_page q x Lq Hpx).
  pose proof (Hap dir Ld) as Ad. pose proof (Hap t1 L1) as A1. pose proof (Hap t0 L0) as A0.
  apply (wp_view Hwp);
    [by apply (payload_window m9 hl' q 13 x)|by apply (live_no_header hl' q 13)|..];
    intros Hin.
  - destruct (decide (q = dir)) as [->|Hne]; [lia|]. specialize (Ad Hne). lia.
  - destruct (decide (q = dir)) as [->|Hne]; [lia|]. specialize (Ad Hne). lia.
  - destruct (decide (q = t0)) as [->|Hne]; [lia|]. specialize (A0 Hne). lia.
  - destruct (decide (q = t1)) as [->|Hne]; [lia|]. specialize (A1 Hne). lia.
Qed.

Lemma phases_entry q i :
  live hl' q 13 -> 0 <= i < 1024 -> vld32 (view m') (q + 4 * i) = vld32 (view m9) (q + 4 * i).
Proof.
  intros Lq Hi. apply vld_ext. intros x Hx. apply (phases_page q x Lq).
  unfold payload. change (2 ^ 13) with 8192. lia.
Qed.
End Phases.
#[global] Arguments phases_sizes {_ _ _ _ _ _ _ _ _ _ _ _ _ _ _ _} _.
#[global] Arguments phases_outside {_ _ _ _ _ _ _ _ _ _ _ _ _ _ _ _} _.
#[global] Arguments phases_page {_ _ _ _ _ _ _ _ _ _ _ _ _ _ _ _} _.
#[global] Arguments phases_view {_ _ _ _ _ _ _ _ _ _ _ _ _ _ _ _} _.
#[global] Arguments phases_others {_ _ _ _ _ _ _ _ _ _ _ _ _ _ _ _} _.
#[global] Arguments phases_desc {_ _ _ _ _ _ _ _ _ _ _ _ _ _ _ _} _.
#[global] Arguments phases_word {_ _ _ _ _ _ _ _ _ _ _ _ _ _ _ _} _.
#[global] Arguments phases_entry {_ _ _ _ _ _ _ _ _ _ _ _ _ _ _ _} _.

(** What create_process needs to make a process with nothing but its two pages:
    two free frames, and directory and page tables of unused memory without stale
    entries; the queue is made of objects of the heap. *)
Record create_inputs (m : machine) (hl hl' : list BlockList.block) (offs ps fl : list Z) (a b : Z) : Prop := {
  ci_ready : create_ready m hl offs hl';
  ci_frames : free_frames m (a :: b :: fl);
  ci_queue : queue m hl ps;
  ci_clean : absent m (data (nth 2 offs 0)) 768 /\ absent m (data (nth 3 offs 0)) 1024 /\
             absent m (data (nth 4 offs 0)) 1024 }.
#[global] Arguments ci_ready {_ _ _ _ _ _ _ _} _.
#[global] Arguments ci_frames {_ _ _ _ _ _ _ _} _.
#[global] Arguments ci_queue {_ _ _ _ _ _ _ _} _.
#[global] Arguments ci_clean {_ _ _ _ _ _ _ _} _.

(** All phases of create_process. *)
Lemma create_runs kernel_memory eip m hl o1 o2 o3 o4 o5 hl' ps fl a b :
  create_inputs m hl hl' [o1; o2; o3; o4; o5] ps fl a b -> cr3 m = kernel_memory - KERNEL_BASE ->
  exists m7 m9 m' l, create_process kernel_memory eip m = Ok m' /\
    create_phases m m7 m9 m' eip hl l hl' ps (data o1) (data o2) (data o3) (data o4) (data o5) a b /\
    alloc_all [13; 13] l = Some ([o4; o5], hl') /\
    is_directory (data o4) /\ is_directory (data o5) /\
    data o4 <> data o3 /\ data o5 <> data o3 /\ data o4 <> data o5 /\
    free_frames m9 fl /\ pstate m' (data o1) = 0 /\
    m' = set_phys (phys m') (set_freelist (page_freelist m9) (set_current (current_process m') m)) /\
    (forall i, (i < 5)%nat -> phys m' (b + PAGE_OFFSET + Z.of_nat i) = nth i first_code 0) /\
    forall pa, PAGE_OFFSET <= pa -> pa < b + PAGE_OFFSET \/ b + PAGE_OFFSET + 5 <= pa ->
      phys m' pa = phys m pa.
Proof.
  intros [Hr Hf Hq (Hc2 & Hc3 & Hc4)] Hcr. cbn [nth] in Hc2, Hc3, Hc4.
  pose proof Hr as [Hh _ Hal _ _ Hbelow]. pose proof Hh as [(_ & Hok0 & _) _].
  assert (vld32 (view m) (data o5) mod 2 = 0) as Hs5
    by (etrans; [|exact (Hc4 0 ltac:(lia))]; by rewrite Z.mul_0_r, Z.add_0_r).
  destruct (create_prepared kernel_memory eip m hl o1 o2 o3 o4 o5 hl' a b fl Hr Hcr Hf Hc2
    (Hc3 1023 ltac:(lia)) Hs5) as (m7 & m8 & m9 & l & E & Hns & Hal' & E8 & E9 & K9 & H9 & F9 & D4 & D5 &
      L4 & L5 & N4 & N5 & N45 & Lm & Hm & Hwp).
  apply alloc_all_cons in Hal as (l1 & B1 & _).
  destruct Hq as [Hq Lq]. pose proof Hf as [Hch _].
  assert (data o1 ∉ ps) as Hni.
  { intros Hin. destruct (live_allocate 7 hl o1 l1 _ 7 ltac:(lia) Hok0 B1 (Lq _ Hin)) as [_ Ha].
    change (2 ^ 7) with 128 in Ha. lia. }
  destruct (chain_aligned _ _ _ b Hch) as (Hb0 & Hb1 & Hb2); [by right; left|].
  assert (first_page m9 (data o3) (data o5) (b + PAGE_OFFSET)) as Hpg.
  { split; [apply Hns|]. split; [done|]. unfold KERNEL_BASE, PAGE_OFFSET in *. split; [lia|].
    split; [lia|]. split; [apply Z.divide_add_r; [done|by exists 262144]|].
    split; [apply Hwp|apply Hwp]. }
  assert (queue m9 hl' ps) as Q9.
  { apply (queue_ext m m9 hl); [| |intros q x Hqi Hx|by split].
    - rewrite (wp_state Hwp). destruct (ns_outside Hns) as [_ ->]. done.
    - intros q Hqi. by apply Lm, (ns_old Hns), Lq.
    - rewrite (pages_desc m7 m9 hl' _ _ _ a b H9 (Lm _ _ (ns_dir Hns)) L4 L5 Hwp q
        (Lm _ _ (ns_old Hns q 7 (Lq q Hqi))) x Hx).
      apply (space_old m m7 eip hl l _ _ _ q x Hns (Lq q Hqi)); [by intros ->|done]. }
  assert (m9 = set_phys (phys m9) (set_freelist (page_freelist m9) m)) as S9.
  { rewrite (wp_state Hwp) at 1.
    destruct (ns_outside Hns) as [_ ->]. done. }
  destruct (process_started kernel_memory m9 hl' ps (data o1) (data o3) (data o5) b H9 K9)
    as (ma & mb & m' & Ea & Eb & Ec & Q' & P' & S' & I' & H' & V');
    [rewrite S9; exact Hcr|unfold KERNEL_BASE in *; lia|apply Lm, (ns_desc Hns)|done|done|done|].
  exists m7, m9, m', l. split.
  { rewrite E, (bind_ok _ _ _ Ea). cbv beta. rewrite (bind_ok _ _ _ Eb). cbv beta. exact Ec. }
  split; [by split|]. do 8 (split; [assumption|]). split; [rewrite S' at 1; rewrite S9 at 1; done|].
  split; [exact I'|]. intros pa Hpa Hpo. rewrite H' by done.
  rewrite (wp_high Hwp) by done. by apply (ns_outside Hns).
Qed.

(** The pages at the end. *)
Lemma phases_space m m7 m9 m' eip hl l hl' ps p st dir t1 t0 a b :
  create_phases m m7 m9 m' eip hl l hl' ps p st dir t1 t0 a b ->
  is_directory t1 -> is_directory t0 -> t1 <> dir -> t0 <> dir -> t1 <> t0 ->
  absent m7 dir 768 -> absent m7 t1 1024 -> absent m7 t0 1024 ->
  0 <= a /\ a + 4096 <= KERNEL_BASE /\ (4096 | a) ->
  0 <= b /\ b + 4096 <= KERNEL_BASE /\ (4096 | b) ->
  two_pages m' dir t1 t0 a b /\
  forall i, 0 <= i < 256 -> vld32 (view m') (dir + 4 * (i + 768)) = 387 + 2 ^ 22 * i.
Proof.
  intros Hph D1 D0 N1 N0 N10 Ad A1 A0 Ha Hb.
  pose proof Hph as [Hns Hwp Hl _ L1 L0 _ _ _ _ _].
  pose proof (Hl _ _ (ns_dir Hns)) as Ld.
  pose proof (phases_word Hph) as Hw.
  pose proof (phases_entry Hph) as He.
  pose proof (He dir 0 Ld ltac:(lia)) as E0. pose proof (He t0 0 L0 ltac:(lia)) as E0'.
  rewrite Z.mul_0_r, !Z.add_0_r in E0, E0'.
  split; [split; try done; try apply Hns|].
  - intros i Hi. rewrite Hw by (done || lia). apply Ad. lia.
  - rewrite E0. apply Hwp.
  - rewrite He by (done || lia). apply Hwp.
  - intros i Hi. rewrite Hw by (done || lia). apply A1. lia.
  - rewrite He by (done || lia). apply Hwp.
  - intros i Hi. rewrite Hw by (done || lia). apply A0. lia.
  - rewrite E0'. apply Hwp.
  - intros i Hi. rewrite Hw by (done || lia). by apply (ns_part Hns).
Qed.

(** The kernel's own directory lies below the heap and is not touched. *)
Lemma created_kernel (m m' : machine) hl' :
  sizes_ok hl' -> in_kernel m -> kernel_part (phys m) (cr3 m) ->
  cr3 m + KERNEL_BASE + 4096 <= start kernel_heap -> cr3 m' = cr3 m ->
  (forall x, kernel_window x -> x < start kernel_heap -> view m' x = view m x) ->
  in_kernel m' /\ kernel_part (phys m') (cr3 m').
Proof.
  intros Hok Hk Hp Hb Hc Hv.
  assert (forall x, cr3 m + KERNEL_BASE <= x < cr3 m + KERNEL_BASE + 4096 -> view m' x = view m x) as Hv'.
  { intros x Hx. destruct Hk as (H0 & H1 & _). unfold KERNEL_BASE, PAGE_OFFSET in *.
    apply Hv; [unfold kernel_window, KERNEL_BASE|]; lia. }
  split; [by apply (in_kernel_view m)|]. rewrite Hc. destruct Hp as (H0 & Hd & He).
  split; [done|]. split; [done|]. intros i Hi. rewrite <- He by done.
  rewrite !pread32_view. apply vld_ext. intros x Hx. apply Hv'. lia.
Qed.

(** The heap is intact when its headers are. *)
Lemma kernel_heap_frame (m m' : machine) l :
  (forall x, x ∈ headers (start kernel_heap) l -> view m' x = view m x) ->
  kernel_heap_at m l -> kernel_heap_at m' l.
Proof.
  intros Hv [(Ht & Hrest) Ha]. split; [|done]. split; [|done].
  eapply tiles_frame; [|exact Ht]. intros x Hx. symmetry. by apply Hv.
Qed.
