(* ===== verification/CreateProps.v ===== *)
(** * Properties of create_process, and of the deletion of processes

    The process create_process makes, and the kernel it leaves; and what
    switch_process does when the current process has ended. *)

From S2P Require Export Create.

#[local] Open Scope Z_scope.

(** ** What the phases leave alone *)

Section Created.
Context (m m7 m9 m' : machine) (eip : Z) (hl l hl' : list BlockList.block) (ps : list Z)
  (p st dir t1 t0 a b : Z).
Context (Hph : create_phases m m7 m9 m' eip hl l hl' ps p st dir t1 t0 a b).

(** Addresses outside of every object of the heap. *)
Lemma phases_elsewhere x :
  kernel_window x -> (forall q k, live hl' q k -> x < q \/ q - 1 + 2 ^ k <= x) ->
  x ∉ headers (start kernel_heap) hl' -> view m' x = view m x.
Proof.
  intros Hx Hno Hnh. pose proof Hph as [Hns _ Hl _ L1 L0 _ Q' _ _ _].
  pose proof (Hno _ _ (Hl _ _ (ns_dir Hns))). pose proof (Hno _ _ L1). pose proof (Hno _ _ L0).
  change (2 ^ 13) with 8192 in *. apply (phases_view Hph); [done|done| |lia|lia|lia].
  intros q Hqi Hp. specialize (Hno q 7 (proj2 Q' q Hqi)). unfold payload in Hp. lia.
Qed.

Lemma phases_live_bounds q k : live hl' q k -> start kernel_heap < q /\ q - 1 + 2 ^ k <= end_ kernel_heap.
Proof.
  intros Hq. destruct (live_bounds m9 hl' q k (ph_heap Hph) Hq) as [B1 B2].
  change (end_ kernel_heap) with 4026531839. by split.
Qed.

Lemma phases_heap : kernel_heap_at m' hl'.
Proof.
  pose proof (ph_heap Hph) as H9. pose proof (phases_sizes Hph) as Hok.
  apply (kernel_heap_frame m9); [|done]. intros x Hx. pose proof H9 as [(Ht & _) _].
  apply tiles_span in Ht. pose proof (headers_range _ _ _ Hok Hx) as [B1 B2].
  change (end_ kernel_heap) with 4026531839 in Ht. change (start kernel_heap) with 3489660927 in *.
  apply (phases_outside Hph); [unfold kernel_window, KERNEL_BASE; lia|].
  intros q Hq Hp. apply (live_no_header hl' q 7 x Hok); [by apply (ph_queue Hph)|done|].
  by change (start kernel_heap) with 3489660927.
Qed.

Lemma phases_end j : heap_ends m j -> j <= 7 -> heap_ends m' 7.
Proof.
  intros He Hj. apply (ends_more m m' j); [done|done|].
  apply phases_elsewhere; [apply end_in_window| |by apply (end_not_header m'), phases_heap].
  intros q k Hq. destruct (phases_live_bounds q k Hq). by right.
Qed.

(** The kernel's part of memory. *)
Lemma phases_kernel :
  in_kernel m -> kernel_part (phys m) (cr3 m) -> cr3 m + KERNEL_BASE + 4096 <= start kernel_heap -> cr3 m' = cr3 m ->
  in_kernel m' /\ kernel_part (phys m') (cr3 m').
Proof.
  intros Hk Hpart Hb Hc. pose proof (phases_sizes Hph) as Hok. apply (created_kernel m m' hl'); try done.
  intros x Hx Hxs. apply phases_elsewhere; [done| |].
  - intros q k Hq. destruct (phases_live_bounds q k Hq). lia.
  - intros Hin. apply headers_range in Hin; [lia|done].
Qed.

(** The frames that are left. *)
Lemma phases_frames fl :
  free_frames m9 fl -> page_freelist m' = page_freelist m9 -> b ∉ fl -> (0 <= b /\ (4096 | b)) ->
  (forall pa, PAGE_OFFSET <= pa -> pa < b + PAGE_OFFSET \/ b + PAGE_OFFSET + 5 <= pa -> phys m' pa = phys m pa) ->
  free_frames m' fl.
Proof.
  intros [Hch Hnd] Hfl Hbf (Hb0 & [kb Hkb]) H'. pose proof Hph as [Hns Hwp _ _ _ _ _ _ _ _ _].
  split; [|done]. rewrite Hfl. apply (chain_frames_ext (phys m9)); [|exact Hch]. intros c x Hc Hx.
  destruct (chain_aligned _ _ _ c Hch Hc) as (Hc0 & Hc1 & [kc Hkc]).
  assert (c <> b) as Hcb by (intros ->; done).
  rewrite H' by (unfold PAGE_OFFSET in *; lia).
  rewrite (wp_high Hwp) by lia. symmetry. apply (ns_outside Hns). unfold PAGE_OFFSET in *. lia.
Qed.
End Created.

(** The new process is as it should be, and the rest of the machine is as before. *)
Lemma create_creates kernel_memory eip m hl o1 o2 o3 o4 o5 hl' ps fl a b :
  create_inputs m hl hl' [o1; o2; o3; o4; o5] ps fl a b -> cr3 m = kernel_memory - KERNEL_BASE ->
  exists m', create_process kernel_memory eip m = Ok m' /\
    created m m' eip hl' ps (data o1) (data o2) (data o3) (data o4) (data o5) a b /\
    in_kernel m' /\ kernel_part (phys m') (cr3 m') /\ free_frames m' fl.
Proof.
  intros Hin Hcr. pose proof Hin as [Hr [Hch Hnd] Hq (Hc2 & Hc3 & Hc4)]. cbn [nth] in Hc2, Hc3, Hc4.
  destruct (create_runs kernel_memory eip m hl o1 o2 o3 o4 o5 hl' ps fl a b Hin Hcr)
    as (m7 & m9 & m' & l & E & Hph & Hal & D4 & D5 & N4 & N5 & N45 & F9 & P' & S' & I' & H').
  pose proof (ph_space Hph) as Hns. pose proof Hr as [_ He _ Hk Hpart Hbelow].
  pose proof (chain_aligned _ _ _ a Hch ltac:(by left)) as Ha.
  pose proof (chain_aligned _ _ _ b Hch ltac:(by right; left)) as Hb.
  assert (forall o x, o = o4 \/ o = o5 -> data o <= x < data o + 4096 -> view m7 x = view m x) as Vt
    by exact (space_tables m m7 eip hl l _ _ _ o4 o5 hl' Hns Hal).
  destruct (phases_space _ _ _ _ _ _ _ _ _ _ _ _ _ _ _ _ Hph D4 D5 N4 N5 N45) as [Hsp Hpt];
    [apply (absent_ext m); [|done]; intros x Hx; by apply (space_directory m m7 eip hl l _ _ _ x Hns)
    |apply (absent_ext m); [|done]; intros x Hx; apply (Vt o4); [by left|lia]
    |apply (absent_ext m); [|done]; intros x Hx; apply (Vt o5); [by right|lia]|done|done|].
  assert (page_freelist m' = page_freelist m9) as Pf by (by rewrite S').
  destruct (phases_kernel _ _ _ _ _ _ _ _ _ _ _ _ _ _ _ _ Hph Hk Hpart Hbelow) as [Hk' Hpart']; [by rewrite S'|].
  exists m'. split; [exact E|]. split; [|split; [done|split; [done|]]].
  - assert (forall off, 0 <= off -> off + 4 <= o_prev -> fld m' (data o1) off = fld m7 (data o1) off) as Hfld.
    { intros off H0 H1. apply vld_ext. intros x Hx. apply (phases_desc Hph). lia. }
    pose proof (ph_queue Hph) as Q'.
    split; try done.
    + by apply (phases_heap _ _ _ _ _ _ _ _ _ _ _ _ _ _ _ _ Hph).
    + by eapply (phases_end _ _ _ _ _ _ _ _ _ _ _ _ _ _ _ _ Hph).
    + by rewrite S' at 1; rewrite Pf.
    + rewrite (saved_ext m7 m'); [apply Hns|]. intros x Hx. apply (phases_desc Hph).
      unfold o_esp0, o_prev in *. lia.
    + rewrite Hfld by by vm_compute. apply Hns.
    + rewrite Hfld by by vm_compute. apply Hns.
    + pose proof (ns_isdir Hns) as (Hd0 & Hd1 & Hd).
      unfold KERNEL_BASE, PAGE_OFFSET in Hd0, Hd1. split; [unfold KERNEL_BASE; lia|].
      split; [apply Z.divide_sub_r; [done|by exists 786432]|]. intros i Hi.
      rewrite pread32_view, <- Hpt by done. f_equal. unfold KERNEL_BASE. lia.
    + intros q. by apply (phases_others Hph).
    + by apply (phases_view Hph).
  - eapply (phases_frames _ _ _ _ _ _ _ _ _ _ _ _ _ _ _ _ Hph); try done; [|by destruct Hb as (? & _ & ?)].
    apply NoDup_cons in Hnd as [_ Hnd]. by apply NoDup_cons in Hnd as [? _].
Qed.

(** C5. create_process, on a kernel in order with two free frames and clean memory
    for its tables: the new process is the last of the queue, running, with a
    context that starts at [eip] in user mode with interrupts on; its address
    space is the kernel above and exactly two pages below, one at 0 that holds a
    jump to itself and one for its stack.  The kernel's address space, its heap,
    the frame list and the queue are in order again, with the five new objects in
    use and the two frames taken; the processes that were there keep their
    contents, and everything else in memory is as before. *)
Theorem create_process_ok kernel_memory eip m hl o1 o2 o3 o4 o5 hl' ps fl a b :
  create_inputs m hl hl' [o1; o2; o3; o4; o5] ps fl a b -> cr3 m = kernel_memory - KERNEL_BASE ->
  let p := data o1 in let dir := data o3 in
  exists m', create_process kernel_memory eip m = Ok m' /\
    queue m' hl' (ps ++ [p]) /\ saved m' p = initial_context eip /\
    fld m' p o_esp0 = data o2 + 4092 /\ fld m' p o_page_directory = dir /\
    pstate m' p = PROCESS_RUNNING /\ kernel_part (phys m') (dir - KERNEL_BASE) /\
    (forall va, 0 <= va < KERNEL_BASE -> walk (phys m') (dir - KERNEL_BASE) va = user_space a b va) /\
    (forall i, (i < 5)%nat -> phys m' (b + PAGE_OFFSET + Z.of_nat i) = nth i first_code 0) /\
    in_kernel m' /\ kernel_part (phys m') (cr3 m') /\ cr3 m' = cr3 m /\
    kernel_heap_at m' hl' /\ free_frames m' fl /\ (forall q, q ∈ ps -> content_kept m m' q) /\
    (forall pa, PAGE_OFFSET <= pa -> pa < b + PAGE_OFFSET \/ b + PAGE_OFFSET + 5 <= pa ->
       phys m' pa = phys m pa) /\
    forall x, kernel_window x -> x ∉ headers (start kernel_heap) hl' ->
      (forall q, q ∈ ps ++ [p] -> ~ payload q 7 x) ->
      ~ dir <= x < dir + 4096 -> ~ data o4 <= x < data o4 + 4096 ->
      ~ data o5 <= x < data o5 + 4096 -> view m' x = view m x.
Proof.
  intros Hin Hcr p dir.
  destruct (create_creates kernel_memory eip m hl o1 o2 o3 o4 o5 hl' ps fl a b Hin Hcr)
    as (m' & E & [Q Hh He St Sv Es Ed Ps Sp Kp Co Ot Hi Vw] & Hk & Hp & Hf).
  exists m'. split; [exact E|]. repeat (split; [assumption|]). split.
  { intros va Hva. by apply (two_pages_walk m' dir (data o4) (data o5)). }
  repeat (split; [assumption|]). split; [by rewrite St|]. repeat (split; [assumption|]). exact Vw.
Qed.

(** ** Ended processes

    The current process runs in the address space create_process makes, so what the
    kernel writes to user addresses is in the two pages above the kernel's memory. *)

Section Ended.
Context (m : machine) (dir t1 t0 a b : Z).
Context (Hsp : two_pages m dir t1 t0 a b) (Hcr : cr3 m = dir - KERNEL_BASE).

(** Only memory the kernel does not see has changed. *)
Definition high_only (m' : machine) : Prop :=
  (forall x, kernel_window x -> view m' x = view m x) /\ m' = set_phys (phys m') m.

Lemma high_refl : high_only m.
Proof. split; [done|by rewrite set_phys_id]. Qed.

Lemma high_translate (m' : machine) va :
  high_only m' -> 0 <= va < KERNEL_BASE ->
  translate m' va = user_space a b va /\ (forall pa, user_space a b va = Some pa -> PAGE_OFFSET <= pa).
Proof.
  intros [Hv Heq] Hva. split.
  - unfold translate. replace (KERNEL_BASE <=? va) with false by lia.
    assert (cr3 m' = dir - KERNEL_BASE) as -> by (by rewrite Heq).
    apply (two_pages_walk m' dir t1 t0); [|done]. apply (two_pages_ext m); [|done].
    intros q x Hq Hx. apply Hv. unfold kernel_window.
    assert (is_directory q) as (Hq0 & Hq1 & _) by (destruct Hq as [->|[->| ->]]; apply Hsp).
    unfold KERNEL_BASE, PAGE_OFFSET in *. lia.
  - intros pa. pose proof (tp_a Hsp) as (Ha & _). pose proof (tp_b Hsp) as (Hb & _).
    unfold user_space. destruct (va <? 4096); [intros [= <-]; lia|].
    destruct (KERNEL_BASE - 4096 <=? va); [intros [= <-]; lia|done].
Qed.

(** A header at a user address is written, or the access faults. *)
Lemma write_user (m' : machine) va h :
  high_only m' -> 0 <= va < KERNEL_BASE ->
  match wr8 m' va h with
  | Ok m1 => high_only m1 /\ rd8 m1 va = Ok (u8 h) | Undef => True | Diverge => False
  end.
Proof.
  intros Hh Hva. destruct (high_translate m' va Hh Hva) as [Ht Hpa].
  cbn [wr8 machine_store]. rewrite Ht. destruct (user_space a b va) as [pa|] eqn:Eu; [|done].
  specialize (Hpa pa eq_refl). set (m1 := set_phys (pset (phys m') pa h) m').
  assert (high_only m1) as Hh1.
  { destruct Hh as [Hv Heq]. split; [|by unfold m1; rewrite Heq].
    intros x Hx. rewrite <- Hv by done. cbn [view machine_window]. unfold m1, pset. cbn.
    destruct (Z.eqb_spec (x - KERNEL_BASE) pa); [|done].
    unfold kernel_window, KERNEL_BASE, PAGE_OFFSET in *. lia. }
  split; [done|]. cbn [rd8 machine_store]. destruct (high_translate m1 va Hh1 Hva) as [-> _].
  rewrite Eu. unfold m1, pset. cbn. by rewrite Z.eqb_refl.
Qed.

Lemma read_defined (m' : machine) va : rd8 m' va = Undef \/ exists x, rd8 m' va = Ok x /\ 0 <= x < 256.
Proof.
  cbn [rd8 machine_store]. destruct (translate m' va); [|by left].
  right. eexists. split; [done|]. apply u8_range.
Qed.

Lemma get_size_defined (m' : machine) va : get_size m' va = Undef \/ exists k, get_size m' va = Ok k /\ 0 <= k < 128.
Proof.
  unfold get_size. destruct (read_defined m' va) as [->|(x & -> & Hx)]; [by left|]. right. bnd.
  rewrite decode_header_size. eexists. split; [done|]. apply hsize_range.
Qed.

Lemma get_used_defined (m' : machine) va : get_used m' va = Undef \/ exists u, get_used m' va = Ok u.
Proof.
  unfold get_used. destruct (read_defined m' va) as [->|(x & -> & _)]; [by left|]. right. by eexists.
Qed.

Lemma set_size_user (m' : machine) va k :
  high_only m' -> 0 <= va < KERNEL_BASE -> 0 <= k < 128 ->
  match set_size m' va k with
  | Ok m1 => high_only m1 /\ get_size m1 va = Ok k | Undef => True | Diverge => False
  end.
Proof.
  intros Hh Hva Hk. unfold set_size. destruct (read_defined m' va) as [->|(x & -> & Hx)]; [done|]. bnd.
  match goal with |- match wr8 _ _ ?h with _ => _ end =>
    pose proof (write_user m' va h Hh Hva) as Hw; destruct (wr8 m' va h) as [m1| |]; try done end.
  destruct Hw as [Hh1 Hr]. split; [done|]. unfold get_size. rewrite Hr. bnd.
  rewrite decode_header_size, encode_header_eq. unfold hsize, u8. f_equal.
  set (u := h_used _ mod 2). assert (0 <= u < 2) by (unfold u; lia). lia.
Qed.

(** Freeing a user address: coalesce_block reads and writes the user's pages, and
    ends, unless it faults or shifts too far. *)
Lemma coalesce_user (m' : machine) addr offset :
  high_only m' -> 0 <= addr < KERNEL_BASE ->
  coalesce_block m' addr offset = Undef \/
  exists m1, coalesce_block m' addr offset = Ok m1 /\ high_only m1.
Proof.
  intros Hh Ha. unfold coalesce_block.
  apply (loop_defined (coalesce_body offset) (fun '(t, x) => high_only t /\ 0 <= x < KERNEL_BASE)
    (fun '(t, x) => 128 - match get_size t x with Ok k => k | _ => 0 end) high_only); [done| |].
  { rewrite budget_eq. destruct (get_size_defined m' addr) as [->|(k & -> & Hk)]; lia. }
  intros [t x] [Ht Hx]. destruct (get_size_defined t x) as [E|(k & E & Hk)]; rewrite E.
  { split; [lia|]. unfold coalesce_body. by rewrite E. }
  split; [lia|]. unfold coalesce_body. rewrite !E. bnd.
  destruct (shl1 k) as [d| |] eqn:Ed; [|done|unfold shl1 in Ed; by destruct (_ && _)]. bnd.
  set (y := u32 (Z.lxor _ _ + offset)). assert (0 <= y) by apply u32_range.
  destruct (get_used_defined t y) as [->|[u ->]]; [done|]. bnd.
  assert (k + 1 < 128) as Hk1.
  { unfold shl1 in Ed. destruct ((0 <=? k) && (k <? 31)) eqn:Eb; [lia|done]. }
  destruct (get_size_defined t y) as [Ey|(ky & Ey & Hky)]; rewrite Ey; destruct (u =? 0); bnd; try done.
  destruct (Z.eqb_spec ky k) as [->|]; [|done]. rewrite Z.gtb_ltb. destruct (Z.ltb_spec x y).
  - pose proof (set_size_user t x (k + 1) Ht Hx ltac:(lia)) as Hs.
    destruct (set_size t x (k + 1)) as [t'| |]; bnd; try done.
    destruct Hs as [Ht' ->]. split; [done|lia].
  - pose proof (set_size_user t y (k + 1) Ht ltac:(lia) ltac:(lia)) as Hs.
    destruct (set_size t y (k + 1)) as [t'| |]; bnd; try done.
    destruct Hs as [Ht' ->]. split; [split; [done|lia]|lia].
Qed.

Lemma kernel_free_user (m' : machine) addr :
  high_only m' -> 0 < addr < KERNEL_BASE ->
  kernel_free m' addr = Undef \/ exists m1, kernel_free m' addr = Ok m1 /\ high_only m1.
Proof.
  intros Hh Ha. unfold kernel_free, memory_free, set_used, sizeof_heap_header.
  unfold KERNEL_BASE in Ha. rewrite u32_small by lia.
  destruct (read_defined m' (addr - 1)) as [->|(x & -> & _)]; [by left|]. bnd.
  match goal with |- context [wr8 _ _ ?h] =>
    pose proof (write_user m' (addr - 1) h Hh ltac:(unfold KERNEL_BASE; lia)) as Hw;
    destruct (wr8 m' (addr - 1) h) as [m1| |]; bnd; try done; [|by left] end.
  apply coalesce_user; [apply Hw|unfold KERNEL_BASE; lia].
Qed.
End Ended.

(** Freeing an object whose first byte, as a header, has a size out of the range of
    the shift. *)
Lemma kernel_free_shifts (m : machine) p :
  KERNEL_BASE < p < 2 ^ 32 -> 30 < hsize (view m p) -> kernel_free m p = Undef.
Proof.
  intros Hp Hk. unfold KERNEL_BASE in Hp. unfold kernel_free, memory_free, sizeof_heap_header.
  rewrite u32_small by lia.
  destruct (set_used_win m (p - 1) 0) as (m1 & -> & _ & V);
    [unfold kernel_window, KERNEL_BASE; lia|by left|]. bnd.
  assert (kernel_window p) as Hw by (unfold kernel_window, KERNEL_BASE; lia).
  assert (view m1 p = view m p) as Hv by (rewrite V by done; by rewrite vset_other by lia).
  apply (leaves_loop _ 1); [|by rewrite budget_eq]. apply leaves_undef.
  unfold coalesce_body. rewrite get_size_win by done. bnd. unfold shl1. rewrite Hv.
  by replace ((0 <=? hsize (view m p)) && (hsize (view m p) <? 31)) with false by lia.
Qed.

(** The lowest byte of the saved instruction pointer is the first of the descriptor. *)
Lemma fld_low m p : fld m p (o_frame + o_eip) mod 128 = view m p mod 128.
Proof.
  unfold fld. change (o_frame + o_eip) with 0. rewrite Z.add_0_r. cbn [vld].
  pose proof (view_range m p). lia.
Qed.

(** C40. An ended process, in a ring of at least two and in an address space as
    create_process makes it, cannot be deleted when the low seven bits of its saved
    instruction pointer are above 30: the branch gives kernel_free the saved user
    stack pointer first, and whatever the two pages of the process hold, that faults
    or leaves the kernel's memory as it is; then it gives it the descriptor, whose
    first byte, that of the instruction pointer the process was interrupted at, is
    taken for the header of a block, whose size it shifts by: too far, which is
    undefined. *)
Theorem switch_process_ended_undefined m p x ps seg gen frame dir t1 t0 a b :
  ring m (p :: x :: ps) -> current_process m = p -> KERNEL_BASE < p -> pstate m p = 2 ->
  two_pages m dir t1 t0 a b -> cr3 m = dir - KERNEL_BASE ->
  0 < fld m p (o_frame + o_esp) < KERNEL_BASE ->
  30 < fld m p (o_frame + o_eip) mod 128 ->
  switch_process seg gen frame m = Undef.
Proof.
  intros Hr Hc Hkb Hst Hsp Hcr Hesp Heip. rewrite (switch_process_enter m p x ps) by done.
  destruct Hr as (Hd & _). apply Forall_cons in Hd as [Hp _].
  assert (leave_current seg gen frame m = Undef) as ->; [|done].
  unfold leave_current. rewrite Hc, get_state_win by done. bnd. rewrite Hst.
  cbn [Z.eqb Pos.eqb PROCESS_RUNNING].
  rewrite get_current_win by (rewrite ?Hc; done). bnd. rewrite Hc.
  destruct (kernel_free_user m dir t1 t0 a b Hsp Hcr m _ (high_refl m) Hesp) as [->|(m1 & -> & Hv & Heq)]; [done|].
  bnd. assert (current_process m1 = p) as -> by (rewrite Heq; exact Hc).
  destruct Hp as [_ Hp1]. unfold sizeof_process_desc in Hp1.
  rewrite (kernel_free_shifts m1 p); [done|lia|].
  rewrite Hv by (unfold kernel_window; lia). unfold hsize. by rewrite <- fld_low.
Qed.
