(* ===== verification/KernelMain.v ===== *)
(** * kernel_main from start to the first process

    The start-up, both processes and the entry to user mode, composed. *)

From S2P Require Export CreateProps.

#[local] Open Scope Z_scope.

(** The heap when both processes exist. *)
Definition main_offsets1 : list Z := [128; 8192; 16384; 24576; 32768].
Definition main_offsets2 : list Z := [256; 40960; 49152; 57344; 65536].
Definition main_blocks1 : list BlockList.block :=
  from_option snd [] (alloc_all [7; 13; 13; 13; 13] boot_blocks).
Definition main_blocks2 : list BlockList.block :=
  from_option snd [] (alloc_all [7; 13; 13; 13; 13] main_blocks1).

Lemma main_alloc1 : alloc_all [7; 13; 13; 13; 13] boot_blocks = Some (main_offsets1, main_blocks1).
Proof. by vm_compute. Qed.

Lemma main_alloc2 : alloc_all [7; 13; 13; 13; 13] main_blocks1 = Some (main_offsets2, main_blocks2).
Proof. by vm_compute. Qed.

(** The memory the tables of the two processes will occupy holds no entries that
    are present: directories at 2 and 5, tables at 3, 4, 6 and 7 times 8192. *)
Definition main_clean (m : machine) : Prop :=
  absent m (data 16384) 768 /\ absent m (data 24576) 1024 /\ absent m (data 32768) 1024 /\
  absent m (data 49152) 768 /\ absent m (data 57344) 1024 /\ absent m (data 65536) 1024.

(** The pages of the processes are objects of the final heap. *)
Lemma main_live o :
  o ∈ [16384; 24576; 32768; 49152; 57344; 65536] -> live main_blocks2 (data o) 13.
Proof.
  intros Ho. unfold live. repeat (apply elem_of_cons in Ho as [->|Ho]); [..|by apply elem_of_nil in Ho];
    apply (bool_decide_unpack _); by vm_compute.
Qed.

Lemma alloc_all_headers needs l offs l' a x :
  Forall (Z.le 3) needs -> sizes_ok l -> alloc_all needs l = Some (offs, l') ->
  x ∈ headers a l -> x ∈ headers a l'.
Proof.
  intros Hn. revert l offs; induction Hn as [|need needs Hneed Hn IH]; intros l offs Hok H; cbn in H.
  { by injection H as _ <-. }
  destruct (alloc_blocks need l) as [[o l1]|] eqn:E; [|done]. cbn in H.
  destruct (alloc_all needs l1) as [[os l2]|] eqn:E2; [|done]. cbn in H. injection H as _ <-.
  intros Hx. apply (IH l1 os); [by apply (alloc_blocks_sizes need l o l1)|done|].
  by apply (alloc_headers need l o l1).
Qed.

Lemma main_sizes : sizes_ok boot_blocks /\ sizes_ok main_blocks1 /\ sizes_ok main_blocks2.
Proof. split; [|split]; (apply (bool_decide_unpack (Forall _ _)); by vm_compute). Qed.

(** Their bytes are no headers at any time, and lie in the kernel window. *)
Lemma main_page_bytes o x :
  o ∈ [16384; 24576; 32768; 49152; 57344; 65536] -> data o <= x < data o + 4096 ->
  kernel_window x /\ boot_idt + 2048 <= x /\ (x ∉ headers (start kernel_heap) boot_blocks) /\
  (x ∉ headers (start kernel_heap) main_blocks1) /\ (x ∉ headers (start kernel_heap) main_blocks2).
Proof.
  intros Ho Hx. destruct main_sizes as (S0 & S1 & S2).
  pose proof (main_live o Ho) as Hl.
  assert (x ∉ headers (start kernel_heap) main_blocks2) as H2
    by (apply (live_no_header _ (data o) 13); [done|done|change (2 ^ 13) with 8192; lia]).
  assert (x ∉ headers (start kernel_heap) main_blocks1) as H1.
  { intros Hin. apply H2. eapply alloc_all_headers; [|exact S1|exact main_alloc2|exact Hin].
    by repeat constructor. }
  assert (x ∉ headers (start kernel_heap) boot_blocks) as H0.
  { intros Hin. apply H1. eapply alloc_all_headers; [|exact S0|exact main_alloc1|exact Hin].
    by repeat constructor. }
  assert (16384 <= o <= 65536) as Hr
    by (repeat (apply elem_of_cons in Ho as [->|Ho]; [lia|]); by apply elem_of_nil in Ho).
  unfold kernel_window, boot_idt, data, KERNEL_BASE in *.
  split; [lia|]. split; [lia|]. by split.
Qed.

Lemma absent_pages (m m' : machine) o n :
  o ∈ [16384; 24576; 32768; 49152; 57344; 65536] -> n <= 1024 ->
  (forall x, data o <= x < data o + 4096 -> view m' x = view m x) ->
  absent m (data o) n -> absent m' (data o) n.
Proof. intros Ho Hn Hv. apply absent_ext. intros x Hx. apply Hv. lia. Qed.

(** Both creations, from the state the start-up leaves. *)
Lemma main_creates kernel_memory (m0 : machine) fl :
  kernel_heap_at m0 boot_blocks -> heap_ends m0 7 -> in_kernel m0 ->
  kernel_part (phys m0) (cr3 m0) -> cr3 m0 = kernel_memory - KERNEL_BASE ->
  kernel_memory + 4096 <= start kernel_heap ->
  free_frames m0 (0 :: 4096 :: 8192 :: 12288 :: fl) -> current_process m0 = 0 -> main_clean m0 ->
  exists m1 m2, create_process kernel_memory 0 m0 = Ok m1 /\ create_process kernel_memory 0 m1 = Ok m2 /\
    created m0 m1 0 main_blocks1 [] (data 128) (data 8192) (data 16384) (data 24576) (data 32768) 0 4096 /\
    created m1 m2 0 main_blocks2 [data 128] (data 256) (data 40960) (data 49152) (data 57344) (data 65536)
      8192 12288 /\ free_frames m2 fl /\
    forall o x, o ∈ [16384; 24576; 32768] -> data o <= x < data o + 4096 -> view m2 x = view m1 x.
Proof.
  intros Hh He Hk Hp Hcr Hbelow Hf Hc (C1 & C2 & C3 & C4 & C5 & C6).
  destruct (create_creates kernel_memory 0 m0 boot_blocks 128 8192 16384 24576 32768 main_blocks1 []
    (8192 :: 12288 :: fl) 0 4096) as (m1 & E1 & R1 & Hk1 & Hp1 & Hf1); [|done|].
  { split; [|exact Hf| |by split].
    - split; [exact Hh|exact He|exact main_alloc1|exact Hk|exact Hp|]. rewrite Hcr. lia.
    - split; [done|]. intros p Hin. by apply elem_of_nil in Hin. }
  assert (cr3 m1 = cr3 m0) as Hcr1 by (rewrite (cd_state R1); done).
  assert (forall o x, o ∈ [49152; 57344; 65536] -> data o <= x < data o + 4096 -> view m1 x = view m0 x) as V1.
  { intros o x Ho Hx. destruct (main_page_bytes o x) as (W & _ & _ & N1 & _);
      [rewrite !elem_of_cons in *; tauto|done|].
    assert (49152 <= o <= 65536) as Hr
      by (repeat (apply elem_of_cons in Ho as [->|Ho]; [lia|]); by apply elem_of_nil in Ho).
    apply (cd_view R1); [done|done| |unfold data in *; lia..].
    cbn [app]. intros q Hq. apply list_elem_of_singleton in Hq as ->. unfold payload, data in *.
    change (2 ^ 7) with 128. lia. }
  destruct (create_creates kernel_memory 0 m1 main_blocks1 256 40960 49152 57344 65536 main_blocks2
    [data 128] fl 8192 12288) as (m2 & E2 & R2 & _ & _ & Hf2); [|by rewrite Hcr1|].
  { split; [|exact Hf1|apply R1|].
    - split; [apply R1|apply R1|exact main_alloc2|exact Hk1|exact Hp1|].
      rewrite Hcr1, Hcr. lia.
    - cbn [nth].
      assert (forall o n, o ∈ [49152; 57344; 65536] -> n <= 1024 -> absent m0 (data o) n ->
        absent m1 (data o) n) as Ha.
      { intros o n Ho Hn. apply absent_ext. intros x Hx. apply (V1 o); [done|lia]. }
      split; [|split]; (apply Ha; [by rewrite !elem_of_cons; tauto|lia|done]). }
  exists m1, m2. do 5 (split; [assumption|]).
  intros o x Ho Hx. destruct (main_page_bytes o x) as (W & _ & _ & _ & N2);
    [rewrite !elem_of_cons in *; tauto|done|].
  assert (16384 <= o <= 32768) as Hr
    by (repeat (apply elem_of_cons in Ho as [->|Ho]; [lia|]); by apply elem_of_nil in Ho).
  apply (cd_view R2); [done|done| |unfold data in *; lia..].
  cbn [app]. intros q Hq. unfold payload, data in *. change (2 ^ 7) with 128.
  apply elem_of_cons in Hq as [->|Hq]; [lia|]. apply list_elem_of_singleton in Hq as ->. lia.
Qed.

(** The first user frames. *)
Lemma frames_split k n : 0 < n -> frames k n = 4096 * k :: frames (k + 1) (n - 1).
Proof.
  intros Hn. unfold frames. rewrite <- fmap_cons. f_equal.
  replace n with (Z.succ (n - 1)) at 1 by lia. rewrite seqZ_cons by lia.
  f_equal; f_equal; lia.
Qed.

Lemma first_frames : frames 0 786432 = 0 :: 4096 :: 8192 :: 12288 :: frames 4 786428.
Proof. by rewrite (frames_split 0), (frames_split 1), (frames_split 2), (frames_split 3) by lia. Qed.

(** The first process when the second is there. *)
Lemma first_process_kept (m1 m2 : machine) p st dir t1 t0 a b m hl eip :
  created m m1 eip hl [] p st dir t1 t0 a b -> content_kept m1 m2 p ->
  (forall q x, q = dir \/ q = t1 \/ q = t0 -> q <= x < q + 4096 -> view m2 x = view m1 x) ->
  saved m2 p = initial_context eip /\ fld m2 p o_esp0 = st + 4092 /\
  fld m2 p o_page_directory = dir /\ pstate m2 p = PROCESS_RUNNING /\ two_pages m2 dir t1 t0 a b.
Proof.
  intros R Hk Hv.
  assert (forall off, 0 <= off -> off + 4 <= o_prev -> fld m2 p off = fld m1 p off) as Hf.
  { intros off H0 H1. apply vld_ext. intros x Hx. apply Hk. lia. }
  split; [|split; [|split; [|split]]].
  - rewrite (saved_ext m1); [apply R|]. intros x Hx. apply Hk. unfold o_esp0, o_prev in *. lia.
  - rewrite Hf by by vm_compute. apply R.
  - rewrite Hf by by vm_compute. apply R.
  - etrans; [|apply R]. apply Hk. by right.
  - by apply (two_pages_ext m1); [|apply R].
Qed.

(** What the start-up leaves alone. *)
Lemma main_clean_kept (m m0 : machine) :
  (forall x, kernel_window x -> boot_idt + 2048 <= x ->
     x ∉ headers (start kernel_heap) boot_blocks -> view m0 x = view m x) ->
  main_clean m -> main_clean m0.
Proof.
  intros Hv (C1 & C2 & C3 & C4 & C5 & C6).
  assert (forall o n, o ∈ [16384; 24576; 32768; 49152; 57344; 65536] -> n <= 1024 ->
    absent m (data o) n -> absent m0 (data o) n) as Ha.
  { intros o n Ho Hn. apply (absent_pages m); [done|done|]. intros x Hx.
    destruct (main_page_bytes o x Ho Hx) as (W & B & N & _). by apply Hv. }
  unfold main_clean. split_and!; (apply Ha; [by rewrite !elem_of_cons; tauto|lia|assumption]).
Qed.

(** C1. The kernel runs: kernel_main ends in user mode, in the first of two
    processes.  With its page directory linked page aligned below the heap, and
    from any memory whose byte after the heap is no free block and
    whose words in the place of the page tables are not present, the start-up,
    both creations and the entry to user mode succeed; the processor then runs the
    first process from address 0 on, in its own address space of exactly two
    pages, where it finds its first instructions, with its kernel stack in the
    task state segment, the timer switching, and the second process, ready
    to run in its own address space, next in the ring. *)
Theorem kernel_main_ok kernel_memory gdt_addr tss_addr addr_of m :
  KERNEL_BASE <= kernel_memory -> kernel_memory + 4096 <= start kernel_heap ->
  (4096 | kernel_memory) -> (forall h, 0 <= addr_of h < 2 ^ 32) -> heap_ends m 3 -> main_clean m ->
  let p := data 128 in let q := data 256 in
  exists m', kernel_main kernel_memory gdt_addr tss_addr addr_of m
      = Ok (m', context_of (initial_context 0)) /\
    current_process m' = p /\ ring m' [p; q] /\
    saved m' p = initial_context 0 /\ saved m' q = initial_context 0 /\
    pstate m' p = PROCESS_RUNNING /\ pstate m' q = PROCESS_RUNNING /\
    switching_enabled m' = 1 /\ interrupts m' = true /\
    cr3 m' = data 16384 - KERNEL_BASE /\
    fld m' q o_page_directory = data 49152 /\
    (forall va, 0 <= va < KERNEL_BASE -> walk (phys m') (cr3 m') va = user_space 0 4096 va) /\
    (forall va, 0 <= va < KERNEL_BASE ->
       walk (phys m') (data 49152 - KERNEL_BASE) va = user_space 8192 12288 va) /\
    (forall i, (i < 5)%nat -> phys m' (4096 + PAGE_OFFSET + Z.of_nat i) = nth i first_code 0) /\
    tss (gdt_st m') = <[tss_esp0 := data 8192 + 4092]> (tss (init_gdt gdt_addr tss_addr (gdt_st m))) /\
    kernel_heap_at m' main_blocks2 /\ free_frames m' (frames 4 786428).
Proof.
  intros H0 H1 H2 H3 H4 Hclean p q.
  destruct (kernel_init_runs kernel_memory gdt_addr tss_addr addr_of m H0 H1 H2 H3 H4)
    as (mi & E & Hh & _ & _ & _ & _ & Hk & Hkp & Hf & Hgdt & Hc & _ & _ & He & Hcr & Hv).
  rewrite first_frames in Hf.
  set (m0 := enable_interrupts mi).
  pose proof (main_clean_kept m m0 Hv Hclean) as Hcl.
  destruct (main_creates kernel_memory m0 (frames 4 786428)) as (m1 & m2 & E1 & E2 & R1 & R2 & Hf2 & V);
    [exact Hh|by apply (heap_ends_more m0 3)|exact Hk|exact Hkp|exact Hcr|exact H1|exact Hf|exact Hc|done|].
  destruct (first_process_kept m1 m2 _ _ _ _ _ _ _ _ _ _ R1) as (S1 & T1 & D1 & P1 & Sp1).
  { apply (cd_others R2). by left. }
  { intros r x Hr. destruct Hr as [->|[->| ->]]; apply V; rewrite !elem_of_cons; tauto. }
  assert (current_process m2 = p /\ ring m2 [p; q]) as [Hcp Hring]
    by exact (proj1 (cd_queue R2)).
  set (m3 := enable_switching m2).
  assert (desc_ok (current_process m3)) as Hd.
  { change (desc_ok (current_process m2)). rewrite Hcp. by split; vm_compute. }
  pose proof (enter_current_win m3 Hd) as E3.
  change (current_process m3) with (current_process m2) in E3. rewrite Hcp in E3.
  set (m' := entered m3 p) in *.
  assert (phys m' = phys m2) as Ph by done.
  assert (saved m3 p = initial_context 0) as S3 by (rewrite (saved_same m2); done).
  rewrite S3 in E3.
  assert (cr3 m' = data 16384 - KERNEL_BASE) as C'.
  { change (cr3 m') with (u32 (fld m2 p o_page_directory - KERNEL_BASE)). unfold p. rewrite D1. done. }
  exists m'. split.
  { unfold kernel_main. rewrite (bind_ok _ _ _ E). cbv beta zeta. fold m0.
    rewrite (bind_ok _ _ _ E1). cbv beta. rewrite (bind_ok _ _ _ E2). cbv beta zeta. exact E3. }
  split; [exact Hcp|]. split; [by apply (ring_same m2)|].
  split; [by rewrite (saved_same m2)|]. split; [rewrite (saved_same m2) by done; apply R2|].
  split; [exact P1|]. split; [rewrite (pstate_same m2) by done; apply R2|].
  split; [done|]. split; [done|]. split; [exact C'|].
  split; [rewrite (fld_same m2) by done; apply R2|]. rewrite Ph. split.
  { rewrite C'. intros va Hva. by apply (two_pages_walk m2 _ (data 24576) (data 32768)). }
  split.
  { intros va Hva. by apply (two_pages_walk m2 _ (data 57344) (data 65536)); [apply R2|]. }
  split.
  { intros i Hi. rewrite (cd_high R2).
    - by apply (cd_code R1).
    - unfold PAGE_OFFSET. lia.
    - left. unfold PAGE_OFFSET. lia. }
  split.
  { change (gdt_st m') with (set_tss_stack (fld m2 p o_esp0) (gdt_st m2)). unfold p. rewrite T1.
    rewrite (cd_state R2), (cd_state R1).
    change (gdt_st (set_phys _ _)) with (gdt_st mi). rewrite Hgdt. done. }
  split; [|exact Hf2]. apply (kernel_heap_frame m2); [done|]. apply R2.
Qed.
