(* ===== verification/ProcessWitness.v ===== *)
(** * Concrete machines on which the theorems on processes and start-up apply *)

From S2P Require Export KernelMain PagingWitness CString AllocWitness.

#[local] Open Scope Z_scope.

(** Two descriptors, at 3 MiB and 256 bytes above, linked into a ring, with the
    given states; the first has a user stack pointer. *)
Definition desc0 : Z := KERNEL_BASE + 3145728.
Definition desc1 : Z := KERNEL_BASE + 3145984.
Definition ring_word (st0 st1 : Z) (a : Z) : Z :=
  if a =? 3145728 + o_prev then desc1 else if a =? 3145728 + o_next then desc1
  else if a =? 3145984 + o_prev then desc0 else if a =? 3145984 + o_next then desc0
  else if a =? 3145728 + o_state then st0 else if a =? 3145984 + o_state then st1
  else if a =? 3145728 + o_esp then KERNEL_BASE - 4 else 0.
Definition ring_machine (st0 st1 : Z) : machine :=
  set_switching 1 (set_current desc0 (boot_machine (image (ring_word st0 st1)) 1048576)).

Definition zero_seg : seg_register_set := seg_of_words [].
Definition some_gen : gen_register_set := gen_of_words [1; 2; 3; 4; 5; 6; 7; 8].
Definition user_frame : interrupt_frame := frame_of_words [4096; 27; 512; 8188; 35].

Lemma sample_regs : regs_ok zero_seg some_gen user_frame.
Proof. unfold regs_ok, word_ok. repeat split; repeat constructor; by vm_compute. Qed.

Lemma descs_ok : desc_ok desc0 /\ desc_ok desc1.
Proof. split; split; by vm_compute. Qed.

Lemma ring_machine_ring st0 st1 : ring (ring_machine st0 st1) [desc0; desc1].
Proof.
  split; [destruct descs_ok; by repeat constructor|]. split.
  { apply (bool_decide_unpack (NoDup [desc0; desc1])). by vm_compute. }
  split.
  { intros p q Hp Hq Hne. unfold descs_apart.
    assert (sizeof_process_desc = 85 /\ desc1 = desc0 + 256) as [-> E] by done.
    rewrite !elem_of_cons, elem_of_nil in Hp, Hq. lia. }
  by vm_compute.
Qed.

Lemma ring_machine_states st0 st1 :
  0 <= st0 < 256 -> 0 <= st1 < 256 ->
  pstate (ring_machine st0 st1) desc0 = st0 /\ pstate (ring_machine st0 st1) desc1 = st1.
Proof.
  intros H0 H1. split.
  - change (pstate (ring_machine st0 st1) desc0) with (u8 ((st0 / 2 ^ 0) mod 256)).
    rewrite Z.pow_0_r, Z.div_1_r, Z.mod_small by done. by apply u8_small.
  - change (pstate (ring_machine st0 st1) desc1) with (u8 ((st1 / 2 ^ 0) mod 256)).
    rewrite Z.pow_0_r, Z.div_1_r, Z.mod_small by done. by apply u8_small.
Qed.

Lemma switch_process_round_robin_witness :
  exists m' q qs, schedule (pstate (ring_machine 0 0)) [desc0; desc1] = Some (q :: qs) /\
    switch_process zero_seg some_gen user_frame (ring_machine 0 0)
      = Ok (m', Some (context_of (saved m' q))) /\
    current_process m' = q /\ ring m' (q :: qs) /\
    saved m' desc0 = noted (level_of user_frame)
      {| sv_seg := zero_seg; sv_gen := some_gen; sv_frame := user_frame |} /\
    (forall r, r ∈ [desc1] -> saved m' r = saved (ring_machine 0 0) r) /\
    (forall r, r ∈ [desc0; desc1] -> pstate m' r = pstate (ring_machine 0 0) r) /\
    cr3 m' = u32 (fld (ring_machine 0 0) q o_page_directory - KERNEL_BASE) /\
    tss (gdt_st m') = <[tss_esp0 := fld (ring_machine 0 0) q o_esp0]> (tss gdt_boot) /\
    ports m' = [] ++ [(32, 32)].
Proof.
  apply (switch_process_round_robin (ring_machine 0 0) desc0 [desc1]);
    [apply ring_machine_ring|discriminate|reflexivity| |apply sample_regs].
  by apply (ring_machine_states 0 0).
Defined.

(** The first process is current and running, the other one halted or running. *)
Lemma ring_machine_waiting st :
  st = PROCESS_RUNNING \/ st = PROCESS_HALTED -> waiting (ring_machine 0 st) desc0 [desc1].
Proof.
  intros Hst. assert (0 <= st < 256) as Hb by (destruct Hst as [-> | ->]; done).
  destruct (ring_machine_states 0 st) as [H0 H1]; [lia|lia|].
  split; [apply ring_machine_ring|].
  split; [done|]. split; [done|]. unfold alive. rewrite !Forall_cons, H0, H1. split; [by left|done].
Qed.

Lemma round_robin_fair_witness :
  (forall m', switched (S (turns (pstate (ring_machine 0 0)) [])) (ring_machine 0 0) m' ->
     current_process m' = desc1 /\ ring m' (desc1 :: [desc0] ++ [])) /\
  (forall k m' m'' seg gen frame, switched k (ring_machine 0 0) m' -> user_run m' m'' ->
     regs_ok seg gen frame -> exists m1 ctx, switch_process seg gen frame m'' = Ok (m1, Some ctx)).
Proof.
  apply (round_robin_fair (ring_machine 0 0) desc0 [desc1]);
    [apply ring_machine_waiting; by left|done|by apply (ring_machine_states 0 0)].
Defined.

Lemma switch_process_resumes_witness :
  exists m1 ctx1, switch_process zero_seg some_gen user_frame (ring_machine 0 0) = Ok (m1, Some ctx1) /\
    match turns (pstate (ring_machine 0 0)) [desc1] with
    | O => resumed (ring_machine 0 0) m1 desc0 ctx1 zero_seg some_gen user_frame
    | S k => forall m2 m3 seg' gen' frame',
        switched k m1 m2 -> user_run m2 m3 -> regs_ok seg' gen' frame' ->
        exists m4 ctx4, switch_process seg' gen' frame' m3 = Ok (m4, Some ctx4) /\
          resumed (ring_machine 0 0) m4 desc0 ctx4 zero_seg some_gen user_frame
    end.
Proof.
  apply (switch_process_resumes (ring_machine 0 0) desc0 [desc1]);
    [apply ring_machine_waiting; by left|by apply (ring_machine_states 0 0)|apply sample_regs|discriminate].
Defined.

Lemma enqueue_inserts_witness :
  (current_process (set_current 0 (ring_machine 0 0)) = 0 ->
     exists m', enqueue desc0 (set_current 0 (ring_machine 0 0)) = Ok m' /\
       current_process m' = desc0 /\ ring m' [desc0]) /\
  (forall p ps, ring (set_current 0 (ring_machine 0 0)) (p :: ps) ->
     current_process (set_current 0 (ring_machine 0 0)) = p -> fresh_desc (p :: ps) desc0 ->
     exists m', enqueue desc0 (set_current 0 (ring_machine 0 0)) = Ok m' /\ current_process m' = p /\
       ring m' (p :: ps ++ [desc0]) /\
       forall r, r ∈ p :: ps ++ [desc0] -> content_kept (set_current 0 (ring_machine 0 0)) m' r).
Proof. apply (enqueue_inserts (set_current 0 (ring_machine 0 0)) desc0), descs_ok. Defined.

Lemma switch_process_hangs_witness :
  switch_process zero_seg some_gen user_frame (ring_machine 1 1) = Diverge.
Proof.
  apply (switch_process_hangs (ring_machine 1 1) desc0 desc1 []);
    [apply ring_machine_ring|reflexivity|].
  destruct (ring_machine_states 1 1) as [H0 H1]; [lia|lia|]. by repeat constructor.
Defined.

(** The first process has ended, in its own address space of two pages; it was
    interrupted at address 64. *)
Definition ended_word (a : Z) : Z :=
  if a =? 1048576 then 1056768 + 7 else if a =? 1048576 + 4 * 767 then 1052672 + 7
  else if a =? 1052672 + 4 * 1023 then PAGE_OFFSET + 7 else if a =? 1056768 then 4096 + PAGE_OFFSET + 7
  else if a =? 3145728 + o_eip then 64 else ring_word 2 0 a.
Definition ended_machine : machine := set_current desc0 (boot_machine (image ended_word) 1048576).

Lemma ended_absent (base lo n : Z) :
  forallb (fun i => vld32 (view ended_machine) (base + 4 * i) mod 2 =? 0) (seqZ lo n) = true ->
  forall i, lo <= i < lo + n -> vld32 (view ended_machine) (base + 4 * i) mod 2 = 0.
Proof.
  intros H i Hi. rewrite List.forallb_forall in H. apply Z.eqb_eq, H.
  apply list_elem_of_In, elem_of_seqZ. lia.
Qed.

Lemma ended_space :
  two_pages ended_machine (KERNEL_BASE + 1048576) (KERNEL_BASE + 1052672) (KERNEL_BASE + 1056768) 0 4096.
Proof.
  split.
  - split; [by vm_compute|]. split; [by vm_compute|by exists 786688].
  - split; [by vm_compute|]. split; [by vm_compute|by exists 786689].
  - split; [by vm_compute|]. split; [by vm_compute|by exists 786690].
  - split; [by vm_compute|]. split; [by vm_compute|by exists 0].
  - split; [by vm_compute|]. split; [by vm_compute|by exists 1].
  - intros i Hi. apply (ended_absent _ 1 766); [by vm_compute|lia].
  - by vm_compute.
  - by vm_compute.
  - intros i Hi. apply (ended_absent _ 0 1023); [by vm_compute|lia].
  - by vm_compute.
  - intros i Hi. apply (ended_absent _ 1 1023); [by vm_compute|lia].
  - by vm_compute.
Qed.

Lemma ended_ring : ring ended_machine [desc0; desc1].
Proof.
  destruct (ring_machine_ring 2 0) as (H0 & H1 & H2 & _). split; [done|]. split; [done|].
  split; [done|]. by vm_compute.
Qed.

Lemma switch_process_ended_undefined_witness :
  switch_process zero_seg some_gen user_frame ended_machine = Undef.
Proof.
  apply (switch_process_ended_undefined ended_machine desc0 desc1 [] zero_seg some_gen user_frame
    (KERNEL_BASE + 1048576) (KERNEL_BASE + 1052672) (KERNEL_BASE + 1056768) 0 4096);
    [apply ended_ring|done|by vm_compute|by vm_compute|apply ended_space|done|by vm_compute|by vm_compute].
Defined.

Lemma init_timer_programs_witness :
  let m := set_idt boot_idt {| idtr_size := 2047; idtr_offset := boot_idt |} fresh_machine in
  exists m' writes, init_timer (fun _ => 3222274048) m = Ok m' /\ sends m m' writes /\
    switching_enabled m' = 0 /\ gate_at m' IRQ_OFFSET = interrupt_gate 3222274048 /\
    (forall pos, 0 <= pos < 256 -> pos <> IRQ_OFFSET -> gate_at m' pos = gate_at m pos) /\
    forall c, let c' := foldl counter_write c writes in
      c_due c' = 0%nat /\ c_mode c' = 2 /\
      c_reload c' * TIMER_INT_FREQ <= TIMER_FREQ < c_reload c' * (TIMER_INT_FREQ + 1).
Proof.
  apply (init_timer_programs (fun _ => 3222274048)); [lia|by vm_compute|by vm_compute].
Defined.

Lemma timer_handler_acknowledges_witness :
  (switching_enabled fresh_machine = 0 \/ current_process fresh_machine = 0 \/
     (exists p, ring fresh_machine [p] /\ current_process fresh_machine = p) ->
   timer_handler zero_seg some_gen user_frame fresh_machine
     = Ok (outportb PIC_COMMAND1 PIC_EOI fresh_machine, None) /\
   ports (outportb PIC_COMMAND1 PIC_EOI fresh_machine) = [] ++ [(32, 32)]) /\
  (forall p x ps, ring fresh_machine (p :: x :: ps) -> current_process fresh_machine = p ->
     pstate fresh_machine p = PROCESS_RUNNING -> switching_enabled fresh_machine <> 0 ->
     exists m' ctx, timer_handler zero_seg some_gen user_frame fresh_machine = Ok (m', Some ctx) /\
       ports m' = [] ++ [(32, 32)]).
Proof. apply (timer_handler_acknowledges fresh_machine), sample_regs. Defined.

Lemma kernel_init_ok_witness :
  exists m', kernel_init 3222274048 3222278144 3222282240 (fun _ => 3222274048) fresh_machine = Ok m' /\
    kernel_heap_at m' boot_blocks /\ idt m' = boot_idt /\
    gate_at m' IRQ_OFFSET = interrupt_gate 3222274048 /\
    gate_at m' 14 = interrupt_gate 3222274048 /\
    (forall pos, 0 <= pos < 256 -> pos <> 14 -> pos <> IRQ_OFFSET ->
       gate_at m' pos = decode_gate (vld 8 (view fresh_machine) (boot_idt + 8 * pos))) /\
    in_kernel m' /\ kernel_part (phys m') (cr3 m') /\ free_frames m' (frames 0 786432) /\
    gdt_st m' = init_gdt 3222278144 3222282240 gdt_boot /\
    current_process m' = 0 /\ switching_enabled m' = 0 /\ interrupts m' = false.
Proof.
  apply (kernel_init_ok 3222274048 3222278144 3222282240 (fun _ => 3222274048) fresh_machine);
    [by vm_compute|by vm_compute|by exists 786688|lia|by split; vm_compute].
Defined.

(** ** common/string.c *)

Lemma memset_spec_witness :
  exists s', memset (Flat (fun a => a)) 100 7 16 = Ok (s', 100) /\ outside (Flat (fun a => a)) s' /\
    forall x, True ->
      view s' x = if decide (100 <= x < 100 + 16) then u8 7 else view (Flat (fun a => a)) x.
Proof. apply memset_spec; [lia|by apply flat_in_win]. Defined.

Lemma memcpy_spec_witness :
  exists s', memcpy (Flat (fun a => a)) 102 100 6 = Ok (s', 102) /\
    outside (Flat (fun a => a)) s' /\
    forall x, True -> view s' x =
      if decide (102 <= x < 102 + 6) then
        if decide (100 < 102 < 100 + 6) then view (Flat (fun a => a)) (100 + (x - 102) mod (102 - 100))
        else view (Flat (fun a => a)) (100 + (x - 102))
      else view (Flat (fun a => a)) x.
Proof. apply memcpy_spec; [lia|by apply flat_in_win|by apply flat_in_win]. Defined.

Lemma memcmp_spec_witness :
  exists r, memcmp (Flat (fun a => a)) 10 20 4 = Ok r /\
    ((r = 0 /\ forall i, 0 <= i < 4 ->
        view (Flat (fun a => a)) (10 + i) = view (Flat (fun a => a)) (20 + i)) \/
     (exists i, 0 <= i < 4 /\ first_diff (view (Flat (fun a => a))) 10 20 i /\
        r = view (Flat (fun a => a)) (10 + i) - view (Flat (fun a => a)) (20 + i) /\ r <> 0)).
Proof. apply memcmp_spec; [lia|by apply flat_in_win|by apply flat_in_win]. Defined.

(** ** New processes *)

(** A kernel directory at 1 MiB, two free frames, a fresh kernel heap, and zeros. *)
Definition create_word (a : Z) : Z :=
  if a =? PAGE_OFFSET then 4096 else if a =? PAGE_OFFSET + 4096 then KERNEL_BASE
  else sample_word (fun a => if a =? 268435452 then 29 * 2 ^ 24 else 0) a.
Definition create_machine : machine := boot_machine (image create_word) 1048576.

Lemma create_read a : a mod 4 = 0 -> pread32 (phys create_machine) a = create_word a.
Proof.
  intros Ha. apply pread32_image; [done|]. unfold create_word, sample_word, KERNEL_BASE.
  repeat case_match; lia.
Qed.

Lemma create_machine_kernel :
  in_kernel create_machine /\ kernel_part (phys create_machine) (cr3 create_machine).
Proof.
  assert (forall i, 0 <= i < 1024 -> pread32 (phys create_machine) (1048576 + 4 * i) =
    if i <? 768 then 131 + 2 ^ 22 * (i + 256) else 387 + 2 ^ 22 * (i - 768)) as Hd.
  { intros i Hi. rewrite create_read by lia. unfold create_word, sample_word, PAGE_OFFSET. zbool.
    cbn [andb]. by replace ((1048576 + 4 * i - 1048576) / 4) with i by lia. }
  split; (split; [by cbn|]).
  - split; [by cbn|]. split; [by exists 256|]. intros i Hi. cbn [cr3 create_machine boot_machine].
    rewrite Hd by lia. by zbool.
  - split; [by exists 256|]. intros i Hi. cbn [cr3 create_machine boot_machine].
    rewrite Hd by lia. zbool. do 2 f_equal. lia.
Qed.

Lemma create_machine_absent o n :
  0 < o < 65536 -> (4 | o) -> n <= 1024 -> absent create_machine (data o) n.
Proof.
  intros Ho [k Hk] Hn i Hi. rewrite view_pread32, create_read by (unfold data, KERNEL_BASE; lia).
  unfold create_word, sample_word, data, KERNEL_BASE, PAGE_OFFSET. by zbool.
Qed.

Lemma create_machine_inputs :
  create_inputs create_machine [Block 29 false]
    (from_option snd [] (alloc_all [7; 13; 13; 13; 13] [Block 29 false]))
    [0; 8192; 16384; 24576; 32768] [] [] 0 4096.
Proof.
  destruct create_machine_kernel as [Hk Hp]. split.
  - split; [|by split; vm_compute|by vm_compute|done|done|by vm_compute].
    split; [|by cbn; split; [apply Z.divide_0_r|]]. split; [by vm_compute|].
    split; [by repeat constructor; cbn; lia|]. split; [by apply kernel_in_win|by vm_compute].
  - split; [|apply (bool_decide_unpack (NoDup _)); by vm_compute]. cbn [chain]. rewrite !create_read by done.
    unfold KERNEL_BASE. split_and!; try (by vm_compute); try lia; [apply Z.divide_0_r|by exists 1].
  - split; [done|]. intros p Hin. by apply elem_of_nil in Hin.
  - cbn [nth]. split_and!; apply create_machine_absent; try lia; [by exists 4096|by exists 6144|by exists 8192].
Qed.

Lemma create_process_ok_witness :
  let hl' := from_option snd [] (alloc_all [7; 13; 13; 13; 13] [Block 29 false]) in
  let p := data 0 in let dir := data 16384 in
  exists m', create_process 3222274048 64 create_machine = Ok m' /\
    queue m' hl' [p] /\ saved m' p = initial_context 64 /\
    fld m' p o_esp0 = data 8192 + 4092 /\ fld m' p o_page_directory = dir /\
    pstate m' p = PROCESS_RUNNING /\ kernel_part (phys m') (dir - KERNEL_BASE) /\
    (forall va, 0 <= va < KERNEL_BASE -> walk (phys m') (dir - KERNEL_BASE) va = user_space 0 4096 va) /\
    (forall i, (i < 5)%nat -> phys m' (4096 + PAGE_OFFSET + Z.of_nat i) = nth i first_code 0) /\
    in_kernel m' /\ kernel_part (phys m') (cr3 m') /\ cr3 m' = cr3 create_machine /\
    kernel_heap_at m' hl' /\ free_frames m' [] /\
    (forall q, q ∈ [] -> content_kept create_machine m' q) /\
    (forall pa, PAGE_OFFSET <= pa -> pa < 4096 + PAGE_OFFSET \/ 4096 + PAGE_OFFSET + 5 <= pa ->
       phys m' pa = phys create_machine pa) /\
    forall x, kernel_window x -> x ∉ headers (start kernel_heap) hl' ->
      (forall q, q ∈ [p] -> ~ payload q 7 x) ->
      ~ dir <= x < dir + 4096 -> ~ data 24576 <= x < data 24576 + 4096 ->
      ~ data 32768 <= x < data 32768 + 4096 -> view m' x = view create_machine x.
Proof.
  exact (create_process_ok 3222274048 64 create_machine _ _ _ _ _ _ _ _ _ _ _ create_machine_inputs
    eq_refl).
Defined.

Lemma fresh_machine_absent a n : start kernel_heap < a -> absent fresh_machine a n.
Proof.
  intros Ha i Hi. rewrite (vld_ext 4 _ (fun _ => 0)); [done|]. intros x Hx. cbn.
  change (start kernel_heap) with 3489660927 in Ha.
  destruct (Z.eqb_spec (x - KERNEL_BASE) 268435455) as [He|]; [|done].
  unfold KERNEL_BASE in He. lia.
Qed.

Lemma kernel_main_ok_witness :
  let p := data 128 in let q := data 256 in
  exists m', kernel_main 3222274048 3222278144 3222282240 (fun _ => 3222274048) fresh_machine
      = Ok (m', context_of (initial_context 0)) /\
    current_process m' = p /\ ring m' [p; q] /\
    saved m' p = initial_context 0 /\ saved m' q = initial_context 0 /\
    pstate m' p = PROCESS_RUNNING /\ pstate m' q = PROCESS_RUNNING /\
    switching_enabled m' = 1 /\ interrupts m' = true /\
    cr3 m' = data 16384 - KERNEL_BASE /\
    fld m' q o_page_directory = data 49152 /\
    (forall va, 0 <= va < KERNEL_BASE -> walk (phys m') (cr3 m') va = user_space 0 4096 va) /\
    (forall va, 0 <= va < KERNEL_BASE ->
       walk (phys m') (data 49152 - KERNEL_BASE) va = user_space 8192 12288 va) /\
    (forall i, (i < 5)%nat -> phys m' (4096 + PAGE_OFFSET + Z.of_nat i) = nth i first_code 0) /\
    tss (gdt_st m') = <[tss_esp0 := data 8192 + 4092]> (tss (init_gdt 3222278144 3222282240 gdt_boot)) /\
    kernel_heap_at m' main_blocks2 /\ free_frames m' (frames 4 786428).
Proof.
  apply (kernel_main_ok 3222274048 3222278144 3222282240 (fun _ => 3222274048) fresh_machine);
    [by vm_compute|by vm_compute|by exists 786688|lia|by split; vm_compute|].
  unfold main_clean. split_and!; apply fresh_machine_absent; by vm_compute.
Defined.
