(* ===== verification/X86.v ===== *)
(** * The processor as the assembly files see it

    The registers of one 80386, the instructions the kernel's assembly files use
    (core/port.s, core/isr.s, drivers/timer.s, kernel/proc/process.s), and what
    [ret], [iret] and a call of a C function do, on the kernel's machine.  The
    stack is memory: a push is a store through the page directory in force.

    Straight-line code has a second semantics, [vstep], whose stack is a list of
    words.  [vsteps_sim] is the simulation between the two: as long as there is
    room, the processor does in memory what the list machine does.

    Segment registers hold selectors; loading one reads no descriptor.  A pushed
    selector is extended with zeros, as the manual allows. *)

From S2P Require Export SwitchLemmas.

#[local] Open Scope Z_scope.

(** ** Registers *)

Inductive reg := EAX | ECX | EDX | EBX | ESP | EBP | ESI | EDI.
Inductive sreg := DS | ES | FS | GS.

(** [c_flags] is EFLAGS but for the interrupt flag, which is the machine's. *)
Record core := Core {
  c_gen : gen_register_set;
  c_seg : seg_register_set;
  c_ss : Z;
  c_cs : Z;
  c_eip : Z;
  c_flags : Z;
  c_mach : machine }.

Definition with_gen g c := Core g (c_seg c) (c_ss c) (c_cs c) (c_eip c) (c_flags c) (c_mach c).
Definition with_seg s c := Core (c_gen c) s (c_ss c) (c_cs c) (c_eip c) (c_flags c) (c_mach c).
Definition with_ss s c := Core (c_gen c) (c_seg c) s (c_cs c) (c_eip c) (c_flags c) (c_mach c).
Definition with_code cs eip c := Core (c_gen c) (c_seg c) (c_ss c) cs eip (c_flags c) (c_mach c).
Definition with_flags f c := Core (c_gen c) (c_seg c) (c_ss c) (c_cs c) (c_eip c) f (c_mach c).
Definition with_mach m c := Core (c_gen c) (c_seg c) (c_ss c) (c_cs c) (c_eip c) (c_flags c) m.

Definition get_reg (r : reg) (g : gen_register_set) : Z :=
  match r with
  | EAX => g_eax g | ECX => g_ecx g | EDX => g_edx g | EBX => g_ebx g
  | ESP => g_esp g | EBP => g_ebp g | ESI => g_esi g | EDI => g_edi g
  end.

Definition set_reg (r : reg) (v : Z) (g : gen_register_set) : gen_register_set :=
  let pick r' w := match r, r' with
    | EAX, EAX | ECX, ECX | EDX, EDX | EBX, EBX | ESP, ESP | EBP, EBP | ESI, ESI | EDI, EDI => v
    | _, _ => w
    end in
  {| g_edi := pick EDI (g_edi g); g_esi := pick ESI (g_esi g); g_ebp := pick EBP (g_ebp g);
     g_ebx := pick EBX (g_ebx g); g_edx := pick EDX (g_edx g); g_ecx := pick ECX (g_ecx g);
     g_eax := pick EAX (g_eax g); g_esp := pick ESP (g_esp g) |}.

Definition get_sreg (s : sreg) (r : seg_register_set) : Z :=
  match s with DS => s_ds r | ES => s_es r | FS => s_fs r | GS => s_gs r end.

Definition set_sreg (s : sreg) (v : Z) (r : seg_register_set) : seg_register_set :=
  let pick s' w := match s, s' with
    | DS, DS | ES, ES | FS, FS | GS, GS => v
    | _, _ => w
    end in
  {| s_ds := pick DS (s_ds r); s_es := pick ES (s_es r); s_fs := pick FS (s_fs r);
     s_gs := pick GS (s_gs r) |}.

Definition put_reg (r : reg) (v : Z) (c : core) : core := with_gen (set_reg r v (c_gen c)) c.
Definition esp (c : core) : Z := g_esp (c_gen c).

(** The low [k] bits of a register replaced. *)
Definition low_bits (k v w : Z) : Z := w / 2 ^ k * 2 ^ k + v mod 2 ^ k.

(** EFLAGS as it is pushed, and as it is popped. *)
Definition flags_image (c : core) : Z :=
  Z.lor (c_flags c) (if interrupts (c_mach c) then 512 else 0).
Definition load_flags (w : Z) (c : core) : core :=
  with_flags (Z.ldiff w 512) (with_mach (set_interrupts (Z.testbit w 9) (c_mach c)) c).

(** The status flags CF, PF, AF, ZF, SF and OF after an addition of two words... *)
Definition status (cf af off : bool) (r f : Z) : Z :=
  let bit (b : bool) k := if b then 2 ^ k else 0 in
  Z.lor (Z.ldiff f 2261)
    (bit cf 0 + bit (parity r) 2 + bit af 4 + bit (r =? 0) 6 + bit (Z.testbit r 31) 7 + bit off 11).
Definition flags_add (a b f : Z) : Z :=
  let r := u32 (a + b) in
  status (2 ^ 32 <=? a + b) (16 <=? a mod 16 + b mod 16)
    (negb (i32 a + i32 b =? i32 (a + b))) r f.
(** ... and after a comparison with zero. *)
Definition flags_cmp0 (a f : Z) : Z := status false false false a f.
Definition ZF (c : core) : bool := Z.testbit (c_flags c) 6.

(** ** Instructions *)

Inductive instr :=
  | Push (r : reg) | Pop (r : reg) | PushSeg (s : sreg) | PopSeg (s : sreg)
  | MovAX (imm : Z) | MovAL (imm : Z)          (* mov ax, imm; mov al, imm *)
  | MovSeg (s : sreg)                          (* mov s, ax *)
  | MovSS                                      (* mov ss, ax *)
  | JmpFar (sel : Z)                           (* jmp sel:next *)
  | MovReg (dst src : reg)
  | Load (dst : reg) (off : Z)                 (* mov dst, [ebp + off] *)
  | LoadAX (off : Z) | LoadAL (off : Z)        (* mov ax, [ebp + off]; mov al, [ebp + off] *)
  | AddEsp (imm : Z)
  | OutImm (port : Z)                          (* out port, al *)
  | OutAL | OutAX | InAL | InAX                (* out dx, al; out dx, ax; in al, dx; in ax, dx *)
  | MovCr3                                     (* mov cr3, eax *)
  | CmpTop0                                    (* cmp dword [esp], 0 *)
  | Cli | Sti
  | Label (n : nat) | Jne (n : nat) | Jmp (n : nat)
  | Call | Ret | Iret.

(** What lies behind the ports: the byte or word a device gives when it is read,
    and what a word written does. *)
Record bus := {
  bus_inb : Z -> machine -> Z * machine;
  bus_inw : Z -> machine -> Z * machine;
  bus_outw : Z -> Z -> machine -> machine }.

(** What the code relies on: a device neither reads nor writes memory. *)
Record bus_ok (B : bus) : Prop := {
  inb_mem p f m : bus_inb B p (set_phys f m) = ((bus_inb B p m).1, set_phys f (bus_inb B p m).2);
  inw_mem p f m : bus_inw B p (set_phys f m) = ((bus_inw B p m).1, set_phys f (bus_inw B p m).2);
  outw_mem p v f m : bus_outw B p v (set_phys f m) = set_phys f (bus_outw B p v m) }.

(** So a device step on other memory is the same step. *)
Lemma inb_phys B p m : bus_ok B -> phys (bus_inb B p m).2 = phys m.
Proof. intros H. pose proof (inb_mem _ H p (phys m) m) as E. rewrite set_phys_id in E. by rewrite E. Qed.
Lemma inw_phys B p m : bus_ok B -> phys (bus_inw B p m).2 = phys m.
Proof. intros H. pose proof (inw_mem _ H p (phys m) m) as E. rewrite set_phys_id in E. by rewrite E. Qed.
Lemma outw_phys B p v m : bus_ok B -> phys (bus_outw B p v m) = phys m.
Proof. intros H. pose proof (outw_mem _ H p v (phys m) m) as E. rewrite set_phys_id in E. by rewrite E. Qed.

Definition push (v : Z) (c : core) : res core :=
  let a := u32 (esp c - 4) in
  m ← st32 (c_mach c) a v;
  mret (put_reg ESP a (with_mach m c)).

Definition pop (c : core) : res (Z * core) :=
  w ← ld32 (c_mach c) (esp c);
  mret (w, put_reg ESP (u32 (esp c + 4)) c).

(** Interrupt return: within the privilege level, or to an outer one with its
    stack. *)
Definition iret (c : core) : res core :=
  '(eip, c) ← pop c;
  '(cs, c) ← pop c;
  '(fl, c) ← pop c;
  let cpl := Z.land (c_cs c) 3 in
  let rpl := Z.land cs 3 in
  if rpl =? cpl then mret (load_flags fl (with_code (u16 cs) eip c))
  else if cpl <? rpl then
    '(sp, c) ← pop c;
    '(ss, c) ← pop c;
    mret (put_reg ESP sp (with_ss (u16 ss) (load_flags fl (with_code (u16 cs) eip c))))
  else Undef.

(** How a run of assembly ends: [ret] to the caller, [iret] to what was
    interrupted, or a call that never returns because it switched away. *)
Inductive stop :=
  | Back (c : core)
  | Resumed (c : core)
  | Left (m : machine) (ctx : context).

Section Exec.
Context (B : bus).

(** Instructions that only go on to the next one. *)
Definition step (i : instr) (c : core) : res core :=
  let g := c_gen c in let m := c_mach c in
  match i with
  | Push r => push (get_reg r g) c
  | Pop r => '(w, c) ← pop c; mret (put_reg r w c)
  | PushSeg s => push (get_sreg s (c_seg c)) c
  | PopSeg s => '(w, c) ← pop c; mret (with_seg (set_sreg s (u16 w) (c_seg c)) c)
  | MovAX imm => mret (put_reg EAX (low_bits 16 imm (g_eax g)) c)
  | MovAL imm => mret (put_reg EAX (low_bits 8 imm (g_eax g)) c)
  | MovSeg s => mret (with_seg (set_sreg s (u16 (g_eax g)) (c_seg c)) c)
  | MovSS => mret (with_ss (u16 (g_eax g)) c)
  | JmpFar sel => mret (with_code sel (c_eip c) c)
  | MovReg dst src => mret (put_reg dst (get_reg src g) c)
  | Load dst off => w ← ld32 m (u32 (g_ebp g + off)); mret (put_reg dst w c)
  | LoadAX off => w ← ldn 2 m (u32 (g_ebp g + off)); mret (put_reg EAX (low_bits 16 w (g_eax g)) c)
  | LoadAL off => w ← rd8 m (u32 (g_ebp g + off)); mret (put_reg EAX (low_bits 8 w (g_eax g)) c)
  | AddEsp imm =>
      mret (put_reg ESP (u32 (esp c + imm)) (with_flags (flags_add (esp c) imm (c_flags c)) c))
  | OutImm port => mret (with_mach (outportb port (g_eax g) m) c)
  | OutAL => mret (with_mach (outportb (g_edx g) (g_eax g) m) c)
  | OutAX => mret (with_mach (bus_outw B (u16 (g_edx g)) (u16 (g_eax g)) m) c)
  | InAL => let r := bus_inb B (u16 (g_edx g)) m in
            mret (put_reg EAX (low_bits 8 r.1 (g_eax g)) (with_mach r.2 c))
  | InAX => let r := bus_inw B (u16 (g_edx g)) m in
            mret (put_reg EAX (low_bits 16 r.1 (g_eax g)) (with_mach r.2 c))
  | MovCr3 => mret (with_mach (set_cr3 (g_eax g) m) c)
  | CmpTop0 => w ← ld32 m (esp c); mret (with_flags (flags_cmp0 w (c_flags c)) c)
  | Cli => mret (with_mach (set_interrupts false m) c)
  | Sti => mret (with_mach (set_interrupts true m) c)
  | Label _ => mret c
  | Jne _ | Jmp _ | Call | Ret | Iret => Undef
  end.

(** The code behind a label; the jumps of these files are all forward. *)
Fixpoint after (n : nat) (code : list instr) : list instr :=
  match code with
  | [] => []
  | Label k :: code => if Nat.eqb n k then code else after n code
  | _ :: code => after n code
  end.

(** What the code calls. *)
Context (callee : core -> res (core + machine * context)).

Fixpoint exec (fuel : nat) (code : list instr) (c : core) : res stop :=
  match fuel, code with
  | O, _ => Diverge
  | _, [] => Undef
  | Datatypes.S fuel, i :: code =>
      match i with
      | Jne n => exec fuel (if ZF c then code else after n code) c
      | Jmp n => exec fuel (after n code) c
      | Call => r ← callee c;
          match r with
          | inl c => exec fuel code c
          | inr (m, ctx) => mret (Left m ctx)
          end
      | Ret => '(eip, c) ← pop c; mret (Back (with_code (c_cs c) eip c))
      | Iret => c ← iret c; mret (Resumed c)
      | i => c ← step i c; exec fuel code c
      end
  end.

(** Every step shortens the code: its length is fuel enough. *)
Definition run (code : list instr) (c : core) : res stop := exec (length code) code c.
End Exec.

(** ** The stack as a list of words

    [top] is the address the list ends below; the stack pointer of the core is
    not used. *)

Definition vesp (top : Z) (l : list Z) : Z := top - 4 * Z.of_nat (length l).

Definition vreg (top : Z) (l : list Z) (r : reg) (v : core) : Z :=
  match r with ESP => vesp top l | _ => get_reg r (c_gen v) end.

(** The word of the list at an address. *)
Definition vword (top : Z) (l : list Z) (a : Z) : option Z :=
  let d := a - vesp top l in
  if (0 <=? d) && (d mod 4 =? 0) then l !! Z.to_nat (d / 4) else None.

Definition vstep (B : bus) (top : Z) (i : instr) (s : core * list Z) : option (core * list Z) :=
  let (v, l) := s in
  match i, l with
  | Push r, _ => Some (v, u32 (vreg top l r v) :: l)
  | Pop ESP, w :: l => if w =? vesp top l then Some (v, l) else None
  | Pop r, w :: l => Some (put_reg r w v, l)
  | PushSeg s, _ => Some (v, u32 (get_sreg s (c_seg v)) :: l)
  | PopSeg s, w :: l => Some (with_seg (set_sreg s (u16 w) (c_seg v)) v, l)
  | MovAX imm, _ => Some (put_reg EAX (low_bits 16 imm (g_eax (c_gen v))) v, l)
  | MovAL imm, _ => Some (put_reg EAX (low_bits 8 imm (g_eax (c_gen v))) v, l)
  | MovSeg s, _ => Some (with_seg (set_sreg s (u16 (g_eax (c_gen v))) (c_seg v)) v, l)
  | MovSS, _ => Some (with_ss (u16 (g_eax (c_gen v))) v, l)
  | JmpFar sel, _ => Some (with_code sel (c_eip v) v, l)
  | MovReg ESP _, _ => None
  | MovReg dst src, _ => Some (put_reg dst (vreg top l src v) v, l)
  | Load ESP _, _ => None
  | Load dst off, _ =>
      w ← vword top l (u32 (g_ebp (c_gen v) + off)); Some (put_reg dst w v, l)
  | LoadAX off, _ =>
      w ← vword top l (u32 (g_ebp (c_gen v) + off));
      Some (put_reg EAX (low_bits 16 w (g_eax (c_gen v))) v, l)
  | LoadAL off, _ =>
      w ← vword top l (u32 (g_ebp (c_gen v) + off));
      Some (put_reg EAX (low_bits 8 w (g_eax (c_gen v))) v, l)
  | AddEsp imm, w :: l' =>
      if imm =? 4 then Some (with_flags (flags_add (vesp top l) 4 (c_flags v)) v, l') else None
  | OutImm port, _ => Some (with_mach (outportb port (g_eax (c_gen v)) (c_mach v)) v, l)
  | OutAL, _ => Some (with_mach (outportb (g_edx (c_gen v)) (g_eax (c_gen v)) (c_mach v)) v, l)
  | OutAX, _ => let g := c_gen v in
      Some (with_mach (bus_outw B (u16 (g_edx g)) (u16 (g_eax g)) (c_mach v)) v, l)
  | InAL, _ => let r := bus_inb B (u16 (g_edx (c_gen v))) (c_mach v) in
      Some (put_reg EAX (low_bits 8 r.1 (g_eax (c_gen v))) (with_mach r.2 v), l)
  | InAX, _ => let r := bus_inw B (u16 (g_edx (c_gen v))) (c_mach v) in
      Some (put_reg EAX (low_bits 16 r.1 (g_eax (c_gen v))) (with_mach r.2 v), l)
  | MovCr3, _ => Some (with_mach (set_cr3 (g_eax (c_gen v)) (c_mach v)) v, l)
  | CmpTop0, w :: _ => Some (with_flags (flags_cmp0 w (c_flags v)) v, l)
  | Cli, _ => Some (with_mach (set_interrupts false (c_mach v)) v, l)
  | Sti, _ => Some (with_mach (set_interrupts true (c_mach v)) v, l)
  | Label _, _ => Some (v, l)
  | _, _ => None
  end.

Fixpoint vsteps (B : bus) (top : Z) (code : list instr) (s : core * list Z) : option (core * list Z) :=
  match code with
  | [] => Some s
  | i :: code => s ← vstep B top i s; vsteps B top code s
  end.

(** The core [c] is the core [v] whose stack, from [lo] up to [top], has been
    used and holds the list. *)
Record sim (lo top : Z) (c v : core) (l : list Z) : Prop := {
  sim_core : c = put_reg ESP (vesp top l) (with_mach (set_phys (phys (c_mach c)) (c_mach v)) v);
  sim_low : KERNEL_BASE <= lo;
  sim_top : top < 4294967296;
  sim_room : lo <= vesp top l;
  sim_stack : vldws (length l) (view (c_mach c)) (vesp top l) = l;
  sim_view : forall b, kernel_window b -> b < lo \/ top <= b ->
    view (c_mach c) b = view (c_mach v) b;
  sim_phys : forall pa, 1073741824 <= pa -> phys (c_mach c) pa = phys (c_mach v) pa }.
#[global] Arguments sim_core {_ _ _ _ _} _.
#[global] Arguments sim_low {_ _ _ _ _} _.
#[global] Arguments sim_top {_ _ _ _ _} _.
#[global] Arguments sim_room {_ _ _ _ _} _.
#[global] Arguments sim_stack {_ _ _ _ _} _.
#[global] Arguments sim_view {_ _ _ _ _} _.
#[global] Arguments sim_phys {_ _ _ _ _} _.

(** Only the memory of a stack area differs. *)
Definition stack_only (lo top : Z) (m m' : machine) : Prop :=
  same_outside m m' /\
  forall b, kernel_window b -> b < lo \/ top <= b -> view m' b = view m b.

Lemma sim_mach lo top c v l :
  sim lo top c v l -> c_mach c = set_phys (phys (c_mach c)) (c_mach v).
Proof. intros H. by rewrite (sim_core H) at 1. Qed.

Lemma sim_stack_only lo top c v l : sim lo top c v l -> stack_only lo top (c_mach v) (c_mach c).
Proof. intros H. pose proof (sim_mach _ _ _ _ _ H). by destruct H. Qed.

(** The oldest words of the list, in memory. *)
Lemma sim_suffix lo top c v l1 l2 :
  sim lo top c v (l1 ++ l2) -> vldws (length l2) (view (c_mach c)) (vesp top l2) = l2.
Proof.
  intros H. pose proof (sim_stack H) as Hs. rewrite length_app, vldws_app in Hs.
  apply app_inj_1 in Hs as [_ Hs]; [|by rewrite vldws_length]. etrans; [|exact Hs]. f_equal.
  unfold vesp. rewrite length_app. lia.
Qed.

Lemma put_put r w w' c : put_reg r w (put_reg r w' c) = put_reg r w c.
Proof. destruct c as [[]]. by destruct r. Qed.

(** Setting the memory and the stack pointer commutes with the other changes. *)
Lemma esp_put r w a c :
  r <> ESP -> put_reg r w (put_reg ESP a c) = put_reg ESP a (put_reg r w c).
Proof. destruct c as [[]]. by destruct r. Qed.

Lemma vldws_cons_inv n v a w l :
  vldws (Datatypes.S n) v a = w :: l -> vld32 v a = w /\ vldws n v (a + 4) = l.
Proof.
  intros H. split; [exact (f_equal (fun x => nth 0 x 0) H)|exact (f_equal tail H)].
Qed.

(** Equal words are equal bytes. *)
Lemma vld_inj n v v' a :
  (forall b, 0 <= v b < 256) -> (forall b, 0 <= v' b < 256) -> vld n v a = vld n v' a ->
  forall b, a <= b < a + Z.of_nat n -> v b = v' b.
Proof.
  intros Hv Hv'. revert a; induction n as [|n IH]; intros a H b Hb; [lia|]. cbn [vld] in H.
  pose proof (Hv a). pose proof (Hv' a).
  destruct (decide (b = a)) as [->|]; [lia|]. apply (IH (a + 1)); lia.
Qed.

Lemma vldws_inj n v v' a :
  (forall b, 0 <= v b < 256) -> (forall b, 0 <= v' b < 256) -> vldws n v a = vldws n v' a ->
  forall b, a <= b < a + 4 * Z.of_nat n -> v b = v' b.
Proof.
  intros Hv Hv'. revert a; induction n as [|n IH]; intros a H b Hb; [lia|].
  apply vldws_cons_inv in H as [H1 H2].
  destruct (decide (b < a + 4)); [apply (vld_inj 4 v v' a); (done || lia)|]. apply (IH (a + 4)); [done|lia].
Qed.

Lemma sim_cons_range lo top c v w l : sim lo top c v (w :: l) -> 0 <= w < 2 ^ 32.
Proof.
  intros H. destruct (vldws_cons_inv _ _ _ _ _ (sim_stack H)) as [<- _]. apply (vld_range 4), view_range.
Qed.

Section Sim.
Context (lo top : Z).

Lemma sim_esp c v l : sim lo top c v l -> esp c = vesp top l.
Proof. intros H. rewrite (sim_core H). done. Qed.

Lemma sim_bounds c v l : sim lo top c v l -> lo <= vesp top l <= top.
Proof. intros H. split; [apply H|]. unfold vesp. lia. Qed.

Lemma sim_win c v l (k n : nat) :
  sim lo top c v l -> (k + n <= length l)%nat ->
  in_win kernel_window (vesp top l + 4 * Z.of_nat k) (4 * Z.of_nat n).
Proof.
  intros H Hk. pose proof (sim_low H). pose proof (sim_top H).
  pose proof (sim_room H). unfold vesp in *. apply kernel_in_win; lia.
Qed.

(** Where a run starts: the words on the stack, in memory. *)
Lemma sim_start c n :
  top = esp c + 4 * Z.of_nat n -> top < 4294967296 -> KERNEL_BASE <= lo <= esp c ->
  sim lo top c c (vldws n (view (c_mach c)) (esp c)).
Proof.
  intros Ht H1 [H2 H3].
  assert (vesp top (vldws n (view (c_mach c)) (esp c)) = esp c) as Ev
    by (unfold vesp; rewrite vldws_length; lia).
  split; rewrite ?Ev; try done; [|by rewrite vldws_length].
  rewrite set_phys_id. by destruct c as [[]].
Qed.

(** The word on top. *)
Lemma sim_top_word c v w l : sim lo top c v (w :: l) -> ld32 (c_mach c) (esp c) = Ok w.
Proof.
  intros H. rewrite (sim_esp _ _ _ H).
  rewrite (ldn_win 4 (win := kernel_window)).
  - by destruct (vldws_cons_inv _ _ _ _ _ (sim_stack H)) as [-> _].
  - pose proof (sim_win _ _ _ 0 1 H) as Hw. rewrite Z.add_0_r in Hw. apply Hw. cbn. lia.
Qed.

(** Another core over the same memory and stack. *)
Lemma sim_with c v l m' v' c' :
  sim lo top c v l ->
  c' = put_reg ESP (vesp top l) (with_mach (set_phys (phys (c_mach c)) m') v') ->
  c_mach v' = m' -> phys m' = phys (c_mach v) ->
  sim lo top c' v' l.
Proof.
  intros H -> Hm Hp. destruct H as [H0 H1 H2 H3 H4 H5 H6].
  split; [by rewrite <- Hm| | | |exact H4| |]; try done.
  - intros b Hb Hbo. etrans; [by apply H5|]. unfold view. cbn. rewrite Hm. by rewrite Hp.
  - intros pa Hpa. etrans; [by apply H6|]. by rewrite Hm, Hp.
Qed.

Lemma sim_push c v l w :
  sim lo top c v l -> lo + 4 <= vesp top l ->
  exists c', push w c = Ok c' /\ sim lo top c' v (u32 w :: l).
Proof.
  intros H Hr. pose proof (sim_low H) as Hlo. pose proof (sim_top H) as Ht.
  pose proof (sim_bounds _ _ _ H) as Hb. unfold KERNEL_BASE in Hlo.
  assert (vesp top (u32 w :: l) = vesp top l - 4) as Ev by (unfold vesp; cbn [length]; lia).
  unfold push. rewrite (sim_esp _ _ _ H), u32_small by lia.
  destruct (stn_win (win := kernel_window) 4 (c_mach c) (vesp top l - 4) w)
    as (m' & E & O & V).
  { apply kernel_in_win; unfold KERNEL_BASE; lia. }
  rewrite (bind_ok _ _ _ E). cbv beta. eexists. split; [done|].
  destruct O as [O1 O2]. split; rewrite ?Ev; try done; try lia.
  - rewrite (sim_core H). cbn. rewrite O2. rewrite (sim_core H) at 1.
    cbn. by destruct v as [[]].
  - cbn [length vldws c_mach put_reg with_gen with_mach].
    rewrite (vld_ext 4 _ (vst 4 (view (c_mach c)) (vesp top l - 4) w)), vld_vst_same.
    2:{ intros b Hbb. apply V. unfold kernel_window, KERNEL_BASE. lia. }
    f_equal. etrans; [|exact (sim_stack H)].
    replace (vesp top l - 4 + 4) with (vesp top l) by lia.
    apply vldws_ext. intros b Hbb. rewrite V.
    + by rewrite vst_out by lia.
    + unfold kernel_window, KERNEL_BASE, vesp in *. lia.
  - intros b Hbw Hbo. cbn [c_mach put_reg with_gen with_mach]. rewrite V by done.
    rewrite vst_out by lia. by apply H.
  - intros pa Hpa. cbn. rewrite O1 by done. by apply H.
Qed.

Lemma sim_pop c v w l :
  sim lo top c v (w :: l) ->
  pop c = Ok (w, put_reg ESP (vesp top l) c) /\ sim lo top (put_reg ESP (vesp top l) c) v l.
Proof.
  intros H. pose proof (sim_low H) as Hlo. pose proof (sim_top H) as Ht.
  pose proof (sim_bounds _ _ _ H) as Hb. unfold KERNEL_BASE in Hlo.
  assert (vesp top (w :: l) + 4 = vesp top l) as Ev by (unfold vesp; cbn [length]; lia).
  assert (vesp top l <= top) as Hle by (unfold vesp; lia).
  unfold pop. rewrite (bind_ok _ _ _ (sim_top_word _ _ _ _ H)). cbv beta.
  rewrite (sim_esp _ _ _ H), Ev, u32_small by lia. split; [done|].
  destruct H as [H0 H1 H2 H3 H4 H5 H6]. split; try done; [|lia|].
  - cbn. rewrite H0 at 1. apply put_put.
  - apply vldws_cons_inv in H4 as [_ H4]. rewrite Ev in H4. exact H4.
Qed.

Lemma vword_addr l a w :
  vword top l a = Some w ->
  exists k, a = vesp top l + 4 * Z.of_nat k /\ l !! k = Some w /\ (k < length l)%nat.
Proof.
  unfold vword. intros H. set (d := a - vesp top l) in *.
  destruct ((0 <=? d) && (d mod 4 =? 0)) eqn:E; [|done].
  apply andb_prop in E as [E1%Z.leb_le E2%Z.eqb_eq].
  exists (Z.to_nat (d / 4)). split; [unfold d in *; lia|]. split; [done|].
  by eapply lookup_lt_Some.
Qed.

Lemma vword_at l a (k : nat) :
  a = vesp top l + 4 * Z.of_nat k -> vword top l a = l !! k.
Proof.
  intros ->. unfold vword.
  replace (vesp top l + 4 * Z.of_nat k - vesp top l) with (Z.of_nat k * 4) by lia.
  rewrite Z_mod_mult, Z.div_mul, Nat2Z.id by done. by rewrite (proj2 (Z.leb_le _ _)) by lia.
Qed.

(** Words, half words and bytes read through the frame pointer. *)
Lemma sim_word c v l a w :
  sim lo top c v l -> vword top l a = Some w ->
  ld32 (c_mach c) a = Ok w /\
  (exists x, ldn 2 (c_mach c) a = Ok x /\ x mod 2 ^ 16 = w mod 2 ^ 16) /\
  (exists x, rd8 (c_mach c) a = Ok x /\ x mod 2 ^ 8 = w mod 2 ^ 8).
Proof.
  intros H Hw. destruct (vword_addr _ _ _ Hw) as (k & -> & Hk & Hlen).
  assert (k + 1 <= length l)%nat as Hk1 by lia.
  pose proof (sim_win _ _ _ k 1 H Hk1) as Hwin.
  change (4 * Z.of_nat 1) with 4 in Hwin.
  assert (vld32 (view (c_mach c)) (vesp top l + 4 * Z.of_nat k) = w) as <-.
  { rewrite <- (sim_stack H), vldws_lookup in Hk by done. by injection Hk. }
  split; [by apply (ldn_win (win := kernel_window) 4)|]. split.
  - eexists. split; [apply (ldn_win (win := kernel_window) 2); eapply in_win_sub; [exact Hwin|lia|lia]|].
    cbn [vld]. lia.
  - eexists. split; [apply (rd8_win (win := kernel_window)); apply Hwin; lia|]. cbn [vld]. lia.
Qed.

Lemma low_bits_ext k v v' w : v mod 2 ^ k = v' mod 2 ^ k -> low_bits k v w = low_bits k v' w.
Proof. unfold low_bits. by intros ->. Qed.

(** A step that leaves memory and the stack alone. *)
Lemma sim_regs c v l c' v' :
  sim lo top c v l ->
  c' = put_reg ESP (vesp top l) (with_mach (set_phys (phys (c_mach c)) (c_mach v')) v') ->
  phys (c_mach v') = phys (c_mach v) -> sim lo top c' v' l.
Proof. intros H E Hp. by eapply sim_with. Qed.

Lemma get_reg_put r w c : get_reg r (c_gen (put_reg r w c)) = w.
Proof. by destruct c as [[]], r. Qed.

Lemma sim_reg c v l r : sim lo top c v l -> get_reg r (c_gen c) = vreg top l r v.
Proof. intros H. rewrite (sim_core H). by destruct v as [[]], r. Qed.

Lemma sim_seg c v l : sim lo top c v l -> c_seg c = c_seg v.
Proof. intros H. by rewrite (sim_core H). Qed.

(** The state of the memory machine written out. *)
Lemma sim_eta c v l :
  sim lo top c v l ->
  c = Core (set_reg ESP (vesp top l) (c_gen v)) (c_seg v) (c_ss v) (c_cs v) (c_eip v) (c_flags v)
        (set_phys (phys (c_mach c)) (c_mach v)).
Proof. intros H. etrans; [apply (sim_core H)|]. done. Qed.

Ltac same_stack H :=
  eapply sim_regs; [exact H|rewrite (sim_eta _ _ _ H) at 1 2|reflexivity].

(** An instruction that changes registers or the machine but not memory. *)
Ltac register_step H Hs Ra Rd :=
  injection Hs as <- <-; eexists; split; [done|]; rewrite ?Ra, ?Rd, ?(sim_seg _ _ _ H);
  same_stack H; by match goal with v : core |- _ => destruct v as [[]] end.

(** An access to a port: the machine changes, its memory does not. *)
Ltac port_step H Hs Ra Rd keeps_mem keeps_phys :=
  injection Hs as <- <-; eexists; split; [done|]; rewrite Ra, Rd;
  eapply sim_regs; [exact H| |by apply keeps_phys];
  first [rewrite (sim_eta _ _ _ H) at 1 2 3|rewrite (sim_eta _ _ _ H) at 1 2]; cbn [c_mach];
  rewrite keeps_mem by done; by match goal with v : core |- _ => destruct v as [[]] end.

Lemma vstep_sim B i c v l v' l' :
  bus_ok B -> sim lo top c v l -> lo + 4 <= vesp top l -> vstep B top i (v, l) = Some (v', l') ->
  exists c', step B i c = Ok c' /\ sim lo top c' v' l'.
Proof.
  intros HB H Hr Hs. pose proof (sim_reg _ _ _ EAX H) as Ra. pose proof (sim_reg _ _ _ EDX H) as Rd.
  pose proof (sim_reg _ _ _ EBP H) as Rb. cbn [get_reg vreg] in Ra, Rd, Rb.
  destruct i; cbn [vstep] in Hs; try discriminate Hs; try solve [register_step H Hs Ra Rd].
  - injection Hs as <- <-. cbn [step]. rewrite (sim_reg _ _ _ r H). by apply sim_push.
  - destruct l as [|w l]; [by destruct r|]. destruct (sim_pop _ _ _ _ H) as [E H1].
    cbn [step]. rewrite (bind_ok _ _ _ E). eexists. split; [done|].
    destruct r; try (injection Hs as <- <-; same_stack H1; by destruct v as [[]]).
    destruct (Z.eqb_spec w (vesp top l)) as [->|]; [|done]. injection Hs as <- <-.
    same_stack H1. by destruct v as [[]].
  - injection Hs as <- <-. cbn [step]. rewrite (sim_seg _ _ _ H). by apply sim_push.
  - destruct l as [|w l]; [done|]. destruct (sim_pop _ _ _ _ H) as [E H1].
    injection Hs as <- <-. cbn [step]. rewrite (bind_ok _ _ _ E), (sim_seg _ _ _ H1).
    eexists. split; [done|]. same_stack H1. by destruct v as [[]].
  - assert (dst <> ESP /\ v' = put_reg dst (vreg top l src v) v /\ l' = l) as (Hd & -> & ->)
      by (destruct dst; by simplify_eq).
    eexists. split; [done|]. rewrite (sim_reg _ _ _ src H). same_stack H.
    by destruct v as [[]], dst.
  - assert (dst <> ESP /\ exists w, vword top l (u32 (g_ebp (c_gen v) + off)) = Some w /\
      v' = put_reg dst w v /\ l' = l) as (Hd & w & Hw & -> & ->)
      by (destruct dst; simplify_option_eq; eauto).
    destruct (sim_word _ _ _ _ _ H Hw) as (E & _). cbn [step]. rewrite Rb, (bind_ok _ _ _ E).
    eexists. split; [done|]. same_stack H. by destruct v as [[]], dst.
  - destruct (vword _ _ _) as [w|] eqn:Hw; [|done]. injection Hs as <- <-.
    destruct (sim_word _ _ _ _ _ H Hw) as (_ & (x & E & Hx) & _). cbn [step].
    rewrite Rb, Ra, (bind_ok _ _ _ E), (low_bits_ext _ _ _ _ Hx).
    eexists. split; [done|]. same_stack H. by destruct v as [[]].
  - destruct (vword _ _ _) as [w|] eqn:Hw; [|done]. injection Hs as <- <-.
    destruct (sim_word _ _ _ _ _ H Hw) as (_ & _ & x & E & Hx). cbn [step].
    rewrite Rb, Ra, (bind_ok _ _ _ E), (low_bits_ext _ _ _ _ Hx).
    eexists. split; [done|]. same_stack H. by destruct v as [[]].
  - destruct l as [|w l]; [done|]. destruct (Z.eqb_spec imm 4) as [->|]; [|done].
    injection Hs as <- <-. destruct (sim_pop _ _ _ _ H) as [E H1]. unfold pop in E.
    rewrite (bind_ok _ _ _ (sim_top_word _ _ _ _ H)) in E. injection E as E.
    eexists. split; [done|]. rewrite (sim_esp _ _ _ H) in *.
    eapply (sim_with _ v _ (c_mach v)); [exact H1| |done|done].
    rewrite E. rewrite (sim_eta _ _ _ H) at 1 2. by destruct v as [[]].
  - port_step H Hs Ra Rd outw_mem outw_phys.
  - port_step H Hs Ra Rd inb_mem inb_phys.
  - port_step H Hs Ra Rd inw_mem inw_phys.
  - destruct l as [|w l]; [done|]. injection Hs as <- <-. cbn [step].
    rewrite (bind_ok _ _ _ (sim_top_word _ _ _ _ H)). eexists. split; [done|].
    same_stack H. by destruct v as [[]].
Qed.

Lemma vstep_grows B i v l v' l' :
  vstep B top i (v, l) = Some (v', l') -> vesp top l - 4 <= vesp top l'.
Proof.
  unfold vesp. intros H. enough (length l' <= Datatypes.S (length l))%nat by lia.
  destruct i, l as [|w l]; cbn [vstep] in H; repeat case_match; simplify_option_eq;
    cbn [length]; lia.
Qed.

(** The processor runs straight-line code as the list machine does. *)
Lemma vsteps_sim B callee code rest fuel c v l v' l' :
  bus_ok B -> sim lo top c v l -> lo + 4 * Z.of_nat (length code) <= vesp top l ->
  vsteps B top code (v, l) = Some (v', l') ->
  exists c', exec B callee (length code + fuel) (code ++ rest) c = exec B callee fuel rest c' /\
    sim lo top c' v' l'.
Proof.
  intros HB. revert c v l; induction code as [|i code IH]; intros c v l H Hr Hs.
  { injection Hs as <- <-. by exists c. }
  cbn [vsteps] in Hs. destruct (vstep B top i (v, l)) as [[v1 l1]|] eqn:E; [|done].
  cbn [mbind option_bind] in Hs. cbn [length] in Hr.
  destruct (vstep_sim B i c v l v1 l1 HB H) as (c1 & E1 & H1); [lia|done|].
  destruct (IH c1 v1 l1 H1) as (c' & E' & H'); [pose proof (vstep_grows _ _ _ _ _ _ E); lia|done|].
  exists c'. split; [|done]. rewrite <- E'. cbn [length Nat.add app exec].
  destruct i; try discriminate E; cbv beta iota; by rewrite (bind_ok _ _ _ E1).
Qed.

(** Words read from the stack, and from above it. *)
Lemma sim_ldws c v l (k n x : nat) :
  sim lo top c v l -> (k + n <= length l + x)%nat -> top + 4 * Z.of_nat x <= 4294967296 ->
  (0 < n)%nat ->
  ldws n (c_mach c) (u32 (esp c + 4 * Z.of_nat k))
  = Ok (take n (drop k (l ++ vldws x (view (c_mach v)) top))).
Proof.
  intros H Hk Hx Hn. pose proof (sim_low H) as Hlo. pose proof (sim_room H) as Hr.
  rewrite (sim_esp _ _ _ H). unfold KERNEL_BASE in Hlo.
  rewrite u32_small by (unfold vesp in *; lia).
  rewrite (ldws_win (win := kernel_window)) by
    (apply kernel_in_win; unfold KERNEL_BASE, vesp in *; lia). f_equal.
  assert (l ++ vldws x (view (c_mach v)) top = vldws (length l + x) (view (c_mach c)) (vesp top l))
    as ->.
  { rewrite vldws_app. f_equal; [symmetry; by apply H|].
    replace (vesp top l + 4 * Z.of_nat (length l)) with top by (unfold vesp; lia).
    apply vldws_ext. intros b Hb. symmetry. apply H; [|lia].
    unfold kernel_window, KERNEL_BASE, vesp in *. lia. }
  replace (length l + x)%nat with (k + (n + (length l + x - k - n)))%nat by lia.
  rewrite vldws_app, vldws_app, drop_app_length', take_app_length' by (by rewrite vldws_length).
  done.
Qed.

(** ** Interrupt return *)

(** The memory machine, with its own memory, as the list machine. *)
Definition grounded (c v : core) : core := with_mach (set_phys (phys (c_mach c)) (c_mach v)) v.

Lemma sim_grounded c v l : sim lo top c v l -> c = put_reg ESP (vesp top l) (grounded c v).
Proof. intros H. apply (sim_core H). Qed.

(** Within ring 0 ... *)
Lemma iret_same c v eip cs fl l :
  sim lo top c v (eip :: cs :: fl :: l) -> Z.land cs 3 = Z.land (c_cs v) 3 ->
  iret c = Ok (put_reg ESP (vesp top l) (load_flags fl (with_code (u16 cs) eip (grounded c v)))).
Proof.
  intros H Hcs. unfold iret. destruct (sim_pop _ _ _ _ H) as [-> H1]. bnd.
  destruct (sim_pop _ _ _ _ H1) as [-> H2]. bnd. destruct (sim_pop _ _ _ _ H2) as [-> H3]. bnd.
  rewrite Hcs. rewrite (sim_grounded _ _ _ H). destruct v as [[]]. cbn. by rewrite Z.eqb_refl.
Qed.

(** ... and out of it. *)
Lemma iret_outer c v eip cs fl sp ss l :
  sim lo top c v (eip :: cs :: fl :: sp :: ss :: l) -> Z.land (c_cs v) 3 < Z.land cs 3 ->
  iret c = Ok (put_reg ESP sp (with_ss (u16 ss)
    (load_flags fl (with_code (u16 cs) eip (grounded c v))))).
Proof.
  intros H Hcs. unfold iret. destruct (sim_pop _ _ _ _ H) as [-> H1]. bnd.
  destruct (sim_pop _ _ _ _ H1) as [-> H2]. bnd. destruct (sim_pop _ _ _ _ H2) as [-> H3]. bnd.
  assert (forall x y z, c_cs (put_reg ESP x (put_reg ESP y (put_reg ESP z c))) = c_cs v) as ->
    by (intros; by rewrite (sim_grounded _ _ _ H)).
  rewrite (proj2 (Z.eqb_neq _ _)) by lia. rewrite (proj2 (Z.ltb_lt _ _) Hcs).
  destruct (sim_pop _ _ _ _ H3) as [-> H4]. bnd. destruct (sim_pop _ _ _ _ H4) as [-> H5]. bnd.
  rewrite (sim_grounded _ _ _ H). by destruct v as [[]].
Qed.
End Sim.
