(* ===== verification/PortIO.v ===== *)
(** * core/port.s and core/gdt.s: the routines called from C

    The port routines as they are written, and what a C caller finds: the value
    read or sent, and every register as it was; and the routine that loads the
    segment registers. *)

From S2P Require Export X86.

#[local] Open Scope Z_scope.

Definition inportb_code : list instr :=
  [Push EBP; MovReg EBP ESP; Push EDX; Load EDX 8; InAL; Pop EDX; Pop EBP; Ret].
Definition inportw_code : list instr :=
  [Push EBP; MovReg EBP ESP; Push EDX; Load EDX 8; InAX; Pop EDX; Pop EBP; Ret].
Definition outportb_code : list instr :=
  [Push EBP; MovReg EBP ESP; Push EAX; Push EDX; LoadAL 12; Load EDX 8; OutAL;
   Pop EDX; Pop EAX; Pop EBP; Ret].
Definition outportw_code : list instr :=
  [Push EBP; MovReg EBP ESP; Push EAX; Push EDX; LoadAX 12; Load EDX 8; OutAX;
   Pop EDX; Pop EAX; Pop EBP; Ret].

Definition load_gdt_segments_code : list instr :=
  [MovAX 16; MovSeg DS; MovSeg ES; MovSS; MovSeg FS; MovSeg GS; JmpFar 8; Ret].

(** What holds of the registers between two instructions. *)
Record core_ok (c : core) : Prop := {
  ok_gen : Forall word_ok (words_of_gen (c_gen c));
  ok_seg : Forall (fun s => 0 <= s < 65536) (words_of_seg (c_seg c));
  ok_ss : 0 <= c_ss c < 65536;
  ok_cs : 0 <= c_cs c < 65536;
  ok_eip : word_ok (c_eip c);
  ok_flags : word_ok (c_flags c);
  ok_if : Z.testbit (c_flags c) 9 = false }.

Lemma ok_reg c r : core_ok c -> u32 (get_reg r (c_gen c)) = get_reg r (c_gen c).
Proof.
  intros H. apply u32_small. pose proof (ok_gen _ H) as Hg. unfold words_of_gen in Hg.
  repeat (apply Forall_cons in Hg as [? Hg]). by destruct r.
Qed.

(** The routine was called with [args] on the stack, and there is room below. *)
Definition called (args : list Z) (c : core) : Prop :=
  vldws (length args) (view (c_mach c)) (esp c + 4) = args /\
  KERNEL_BASE + 64 <= esp c /\ esp c + 4 * Z.of_nat (Datatypes.S (length args)) < 4294967296.

(** The word [ret] takes. *)
Definition return_address (c : core) : Z := vld32 (view (c_mach c)) (esp c).

(** Back in the caller, with the machine [m] and the register [eax]; memory below
    the stack pointer may have changed. *)
Definition back_with (c : core) (eax : Z) (m : machine) (s : stop) : Prop :=
  exists m', stack_only (esp c - 64) (esp c) m m' /\
    s = Back (put_reg ESP (esp c + 4) (put_reg EAX eax
          (with_code (c_cs c) (return_address c) (with_mach m' c)))).

Section Routines.
Context (B : bus) (callee : core -> res (core + machine * context)).

Lemma called_sim args c :
  called args c ->
  sim (esp c - 64) (esp c + 4 * Z.of_nat (Datatypes.S (length args))) c c (return_address c :: args).
Proof.
  intros (Ha & H0 & H1).
  replace (return_address c :: args) with
    (vldws (Datatypes.S (length args)) (view (c_mach c)) (esp c)) by (cbn [vldws]; by rewrite Ha).
  apply sim_start; lia.
Qed.

(** [ret] with the arguments still on the stack. *)
Lemma back_ok args eax m c c' :
  called args c -> phys m = phys (c_mach c) ->
  sim (esp c - 64) (esp c + 4 * Z.of_nat (Datatypes.S (length args))) c' (put_reg EAX eax (with_mach m c))
    (return_address c :: args) ->
  exists s, exec B callee 1 [Ret] c' = Ok s /\ back_with c eax m s.
Proof.
  intros (Ha & H0 & H1) Hm H. cbn [exec]. destruct (sim_pop _ _ _ _ _ _ H) as [-> _]. bnd.
  eexists. split; [done|]. exists (set_phys (phys (c_mach c')) m). split.
  - pose proof (sim_stack_only _ _ _ _ _ H) as [So Sv]. cbn [c_mach put_reg with_gen with_mach] in *.
    split; [split; [exact (sim_phys H)|done]|]. intros b Hb Hbo. pose proof (sim_stack H) as Hs.
    destruct (decide (esp c + 4 * Z.of_nat (Datatypes.S (length args)) <= b)) as [|];
      [apply Sv; [done|lia]|]. destruct (decide (b < esp c - 64)); [apply Sv; [done|lia]|].
    pose proof (vldws_inj (Datatypes.S (length args)) (view (c_mach c')) (view m) (esp c)) as Hi.
    apply Hi; [apply view_range|apply view_range| |lia].
    replace (esp c) with (vesp (esp c + 4 * Z.of_nat (Datatypes.S (length args)))
      (return_address c :: args)) at 1 by (unfold vesp; cbn [length]; lia).
    etrans; [exact Hs|]. unfold view. cbn. rewrite Hm. symmetry. f_equal. exact Ha.
  - rewrite (sim_grounded _ _ _ _ _ H). unfold vesp. cbn [length].
    replace (esp c + 4 * Z.of_nat (Datatypes.S (length args)) - 4 * Z.of_nat (length args))
      with (esp c + 4) by lia. by destruct c as [[]].
Qed.

Lemma u8_low_bits v w : u8 (low_bits 8 v w) = u8 v.
Proof. unfold u8, low_bits. lia. Qed.
Lemma u16_low_bits v w : u16 (low_bits 16 v w) = u16 v.
Proof. unfold u16, low_bits. lia. Qed.

(** A routine that is straight-line code up to its [ret]. *)
Lemma routine_back code args eax m c :
  bus_ok B -> called args c -> phys m = phys (c_mach c) -> (length code <= 16)%nat ->
  vsteps B (esp c + 4 * Z.of_nat (Datatypes.S (length args))) code (c, return_address c :: args)
    = Some (put_reg EAX eax (with_mach m c), return_address c :: args) ->
  exists s, run B callee (code ++ [Ret]) c = Ok s /\ back_with c eax m s.
Proof.
  intros HB Hc Hm Hl Hs.
  destruct (vsteps_sim _ _ B callee code [Ret] 1 c c _ (put_reg EAX eax (with_mach m c))
    (return_address c :: args) HB (called_sim _ _ Hc)) as (c' & E & H');
    [unfold vesp; cbn [length]; lia|exact Hs|].
  destruct (back_ok _ _ _ _ _ Hc Hm H') as (s & E' & Hb).
  exists s. split; [|done]. unfold run. rewrite length_app. cbn [length]. by rewrite E.
Qed.

(** Reading a word through the frame pointer. *)
Ltac vread k := rewrite (vword_at _ _ _ k) by (rewrite u32_small; unfold vesp; cbn; lia); cbn.

Ltac finish_routine c Hok :=
  rewrite ?(ok_reg c EAX Hok : u32 (g_eax (c_gen c)) = _),
    ?(ok_reg c EBP Hok : u32 (g_ebp (c_gen c)) = _),
    ?(ok_reg c EDX Hok : u32 (g_edx (c_gen c)) = _), ?u8_low_bits, ?u16_low_bits;
  by destruct c as [[]].

(** The four routines of port.s implement the port operations of the C code for a
    caller in the kernel: the output routines send the low byte or word of their
    second argument to the port in the low half of the first, the input routines
    return in the low part of eax what the device gives, and each comes back to
    its caller with the stack pointer behind the return address, every other
    register as it was and nothing changed but memory below the stack. *)
Theorem port_routines c port :
  bus_ok B -> core_ok c ->
  (forall v, called [port; v] c -> exists s, run B callee outportb_code c = Ok s /\
     back_with c (g_eax (c_gen c)) (outportb port v (c_mach c)) s) /\
  (forall v, called [port; v] c -> exists s, run B callee outportw_code c = Ok s /\
     back_with c (g_eax (c_gen c)) (bus_outw B (u16 port) (u16 v) (c_mach c)) s) /\
  (called [port] c -> exists s, run B callee inportb_code c = Ok s /\
     let r := bus_inb B (u16 port) (c_mach c) in
     back_with c (low_bits 8 r.1 (g_eax (c_gen c))) r.2 s) /\
  (called [port] c -> exists s, run B callee inportw_code c = Ok s /\
     let r := bus_inw B (u16 port) (c_mach c) in
     back_with c (low_bits 16 r.1 (g_eax (c_gen c))) r.2 s).
Proof.
  intros HB Hok. split; [|split; [|split]]; [intros v Hc..|intros Hc|intros Hc].
  - apply (routine_back (take 10 outportb_code) [port; v]); try done; [cbn; lia|].
    destruct Hc as (_ & H0 & H1). cbn [length] in *. unfold KERNEL_BASE in H0.
    generalize (return_address c). intros ra. cbn. vread 5%nat. vread 4%nat. unfold outportb.
    finish_routine c Hok.
  - apply (routine_back (take 10 outportw_code) [port; v]); try done;
      [by apply outw_phys|cbn; lia|].
    destruct Hc as (_ & H0 & H1). cbn [length] in *. unfold KERNEL_BASE in H0.
    generalize (return_address c). intros ra. cbn. vread 5%nat. vread 4%nat. finish_routine c Hok.
  - apply (routine_back (take 7 inportb_code) [port]); try done; [by apply inb_phys|cbn; lia|].
    destruct Hc as (_ & H0 & H1). cbn [length] in *. unfold KERNEL_BASE in H0.
    generalize (return_address c). intros ra. cbn. vread 3%nat. finish_routine c Hok.
  - apply (routine_back (take 7 inportw_code) [port]); try done; [by apply inw_phys|cbn; lia|].
    destruct Hc as (_ & H0 & H1). cbn [length] in *. unfold KERNEL_BASE in H0.
    generalize (return_address c). intros ra. cbn. vread 3%nat. finish_routine c Hok.
Qed.

(** load_gdt_segments leaves the kernel's selectors in all segment registers and
    comes back to its caller. *)
Lemma load_gdt_segments_loads c :
  bus_ok B -> called [] c ->
  exists m', stack_only (esp c - 64) (esp c + 4) (c_mach c) m' /\
    run B callee load_gdt_segments_code c
    = Ok (Back (put_reg ESP (esp c + 4) (put_reg EAX (low_bits 16 16 (g_eax (c_gen c)))
        (with_code 8 (return_address c) (with_ss 16 (with_seg
          {| s_ds := 16; s_es := 16; s_fs := 16; s_gs := 16 |} (with_mach m' c))))))).
Proof.
  intros HB Hc. pose proof (called_sim _ _ Hc) as H. destruct Hc as (_ & H0 & H1).
  generalize dependent (return_address c). intros ra H. cbn [length] in *.
  assert (forall w, u16 (low_bits 16 16 w) = 16) as E16 by (intros w; unfold u16, low_bits; lia).
  set (top := esp c + 4 * Z.of_nat 1) in *.
  destruct (vsteps_sim _ _ B callee (take 7 load_gdt_segments_code) [Ret] 1 _ _ _ _ _ HB H
    ltac:(unfold vesp; cbn; lia) eq_refl) as (c' & E & H').
  cbn in H'. rewrite E16 in H'. destruct (sim_pop _ _ _ _ _ _ H') as [Ep _].
  exists (set_phys (phys (c_mach c')) (c_mach c)). split.
  { pose proof (sim_stack_only _ _ _ _ _ H') as Hso. by rewrite (sim_mach _ _ _ _ _ H') in Hso. }
  change (run B callee load_gdt_segments_code c) with
    (exec B callee (length (take 7 load_gdt_segments_code) + 1)
      (take 7 load_gdt_segments_code ++ [Ret]) c).
  rewrite E. cbn [exec]. rewrite Ep. bnd. rewrite (sim_grounded _ _ _ _ _ H').
  replace (vesp top []) with (esp c + 4) by (unfold vesp; cbn [length]; lia).
  by destruct c as [[] ? ? ? ? ? ?].
Qed.
End Routines.
