(* ===== verification/Wrappers.v ===== *)
(** * core/isr.s, drivers/timer.s, kernel/proc/process.s

    Delivery of an interrupt by the processor, the entry points the gates of the
    interrupt table lead to, the calls they make of the C handlers, and the code
    of switch_context.  A C function is called as its ABI says: its arguments are
    the words above the return address, structures included, and it may leave
    anything in eax, ecx, edx and the flags. *)

From S2P Require Export PortIO Timer.

#[local] Open Scope Z_scope.

(** ** The code *)

Definition push_gen : list instr :=
  [Push EAX; Push ECX; Push EDX; Push EBX; Push EBP; Push ESI; Push EDI].
Definition push_seg : list instr := [PushSeg GS; PushSeg FS; PushSeg ES; PushSeg DS].
Definition kernel_segs : list instr := [MovAX 16; MovSeg DS; MovSeg ES; MovSeg FS; MovSeg GS].
Definition pop_seg : list instr := [PopSeg DS; PopSeg ES; PopSeg FS; PopSeg GS].
Definition pop_gen : list instr :=
  [Pop EDI; Pop ESI; Pop EBP; Pop EBX; Pop EDX; Pop ECX; Pop EAX].

(** The macros of isr.s *)
Definition START_ISR : list instr := push_gen ++ push_seg ++ kernel_segs.
Definition END_ISR : list instr := pop_seg ++ pop_gen ++ [Iret].
Definition END_ISR_ECODE : list instr := pop_seg ++ pop_gen ++ [AddEsp 4; Iret].

Definition timer_wrapper_start : list instr := [Cli; Push ESP] ++ push_gen ++ push_seg ++ kernel_segs.
Definition timer_wrapper_end : list instr := pop_seg ++ pop_gen ++ [Pop ESP; Sti; Iret].

(** Whether a wrapper of isr.s ends with [END_ISR_ECODE] ... *)
Definition drops_ecode (h : handler) : bool :=
  match h with
  | invaltss_handler_wrapper | nosegment_handler_wrapper | stackseg_handler_wrapper
  | genprotection_handler_wrapper | pagefault_handler_wrapper => true
  | _ => false
  end.

(** ... and whether its C handler is declared with an error code. *)
Definition takes_ecode (h : handler) : bool :=
  match h with
  | doublefault_handler_wrapper | invaltss_handler_wrapper | nosegment_handler_wrapper
  | stackseg_handler_wrapper | genprotection_handler_wrapper | pagefault_handler_wrapper => true
  | _ => false
  end.

Definition wrapper_code (h : handler) : list instr :=
  match h with
  | timer_handler_wrapper => timer_wrapper_start ++ [Call] ++ timer_wrapper_end
  | _ => START_ISR ++ [Call] ++ (if drops_ecode h then END_ISR_ECODE else END_ISR)
  end.

(** process.s *)
Definition switch_context_code : list instr :=
  [AddEsp 4; MovReg EBP ESP;
   (* Notify of finished interrupt *)
   MovAL 32; OutImm 32;
   (* Change page directory *)
   Load EAX 68; MovCr3] ++
  pop_seg ++ pop_gen ++
  [CmpTop0; Jne 1;
   AddEsp 4; Jmp 2;               (* switch_to_user *)
   Label 1; Pop ESP;              (* switch_to_kernel *)
   Label 2; Sti; Iret].           (* switch_end *)

(** ** Calls of C functions *)

(** A handler: its arguments, the error code 0 for one that is declared without,
    and what it does to the machine; or the context it switched to. *)
Definition c_handler : Type :=
  seg_register_set -> gen_register_set -> Z -> interrupt_frame -> machine ->
  res (machine * option context).

(** What a call leaves in eax, ecx, edx and the flags. *)
Definition clobber (junk : Z * Z * Z * Z) (c : core) : core :=
  let '(a, cx, d, f) := junk in with_flags f (put_reg EAX a (put_reg ECX cx (put_reg EDX d c))).

Section Call.
Context (body : c_handler) (ecode_arg : bool) (ret : Z) (junk : Z * Z * Z * Z).

Definition call_handler (c : core) : res (core + machine * context) :=
  c ← push ret c;
  let m := c_mach c in
  seg ← ldws 4 m (u32 (esp c + 4 * 1));
  gen ← ldws 8 m (u32 (esp c + 4 * 5));
  ecode ← (if ecode_arg then ldws 1 m (u32 (esp c + 4 * 13)) else mret [0]);
  frame ← ldws 5 m (u32 (esp c + 4 * (if ecode_arg then 14 else 13)));
  '(m, o) ← body (seg_of_words seg) (gen_of_words gen) (nth 0 ecode 0) (frame_of_words frame) m;
  match o with
  | Some ctx => mret (inr (m, ctx))
  | None => '(_, c) ← pop (with_mach m c); mret (inl (clobber junk c))
  end.
End Call.

(** The C handler behind a wrapper. *)
Definition handler_body (h : handler) : c_handler := fun seg gen ecode frame m =>
  match h with
  | timer_handler_wrapper => timer_handler seg gen frame m
  | pagefault_handler_wrapper => m ← pagefault_handler seg gen ecode frame m; mret (m, None)
  | _ => m ← exception_handler h seg gen ecode frame m; mret (m, None)
  end.

(** ** Delivery (Intel SDM vol. 3, 6.12): through an interrupt gate to ring 0

    From ring 3 the stack is the one of the task state segment.  The flags TF,
    IF, NT, RF and VM are cleared. *)
Definition switch_stack (c : core) : res core :=
  match tss (gdt_st (c_mach c)) !! tss_esp0, tss (gdt_st (c_mach c)) !! tss_ss0 with
  | Some sp, Some ss =>
      let inner := put_reg ESP sp (with_ss ss c) in
      inner ← push (c_ss c) inner;
      push (esp c) inner
  | _, _ => Undef
  end.

Definition deliver (vector : Z) (ecode : option Z) (c : core) : res core :=
  let g := gate_at (c_mach c) vector in
  if negb (gate_present g) then Undef
  else
    c1 ← (if Z.land (c_cs c) 3 =? 0 then mret c else switch_stack c);
    c1 ← push (flags_image c) c1;
    c1 ← push (c_cs c) c1;
    c1 ← push (c_eip c) c1;
    c1 ← (match ecode with Some e => push e c1 | None => mret c1 end);
    mret (with_code (gate_selector g) (gate_offset g)
      (with_flags (Z.ldiff (c_flags c) 213248) (with_mach (set_interrupts false (c_mach c1)) c1))).

#[export] Instance handler_eq_dec : EqDecision handler.
Proof. solve_decision. Defined.

Definition all_handlers : list handler :=
  [divbyzero_handler_wrapper; debug_handler_wrapper; nonmask_handler_wrapper;
   breakpoint_handler_wrapper; overflow_handler_wrapper; boundrange_handler_wrapper;
   invalop_handler_wrapper; nodevice_handler_wrapper; doublefault_handler_wrapper;
   invaltss_handler_wrapper; nosegment_handler_wrapper; stackseg_handler_wrapper;
   genprotection_handler_wrapper; pagefault_handler_wrapper; timer_handler_wrapper].

Section Interrupt.
Context (B : bus) (addr_of : handler -> Z) (bodies : handler -> c_handler)
        (ret : Z) (junk : Z * Z * Z * Z).

(** The wrapper at an address. *)
Definition handler_at (eip : Z) : option handler :=
  head (filter (fun h => addr_of h = eip) all_handlers).

(** An interrupt from delivery to the return of its wrapper. *)
Definition run_interrupt (vector : Z) (ecode : option Z) (c : core) : res stop :=
  c ← deliver vector ecode c;
  match handler_at (c_eip c) with
  | Some h => run B (call_handler (bodies h) (takes_ecode h) ret junk) (wrapper_code h) c
  | None => Undef
  end.
End Interrupt.

(** ** The call of switch_context

    switch_process and force_enter_userland push their four arguments, the
    structures word by word, last one first, and call. *)
Fixpoint pushes (l : list Z) (c : core) : res core :=
  match l with
  | [] => mret c
  | w :: l => c ← push w c; pushes l c
  end.

Definition switch_arguments (seg : seg_register_set) (gen : gen_register_set)
    (frame : interrupt_frame) (pd : Z) : list Z :=
  words_of_seg seg ++ words_of_gen gen ++ words_of_frame frame ++ [pd].

Definition call_switch_context (B : bus) callee (ret : Z) (seg : seg_register_set) (gen : gen_register_set)
    (frame : interrupt_frame) (pd : Z) (c : core) : res stop :=
  c ← pushes (reverse (ret :: switch_arguments seg gen frame pd)) c;
  run B callee switch_context_code c.

(** What a context means: the registers it holds, and the frame it holds or, in
    ring 0, the one on its stack. *)
Definition resume_context (ctx : context) (c : core) : res core :=
  let seg := ctx_seg ctx in
  let c := with_seg {| s_ds := u16 (s_ds seg); s_es := u16 (s_es seg); s_fs := u16 (s_fs seg);
                       s_gs := u16 (s_gs seg) |} (with_gen (ctx_gen ctx) c) in
  match ctx_resume ctx with
  | FromFrame f => mret (put_reg ESP (f_esp f) (with_ss (u16 (f_ss f))
                     (load_flags (f_eflags f) (with_code (u16 (f_cs f)) (f_eip f) c))))
  | FromStack sp => iret (put_reg ESP sp c)
  end.
