(* ===== verification/WrapperLemmas.v ===== *)
(** * Interrupt entries and exits on the list machine *)

From S2P Require Export Wrappers.

#[local] Open Scope Z_scope.

(** ** Words of a core that is in order *)

Lemma word_lor a b : word_ok a -> word_ok b -> word_ok (Z.lor a b).
Proof.
  unfold word_ok. intros Ha Hb. rewrite <- (Z.mod_small a (2 ^ 32)), <- (Z.mod_small b (2 ^ 32)) by done.
  rewrite <- !Z.land_ones, <- Z.land_lor_distr_l, Z.land_ones by lia. by apply Z.mod_pos_bound.
Qed.

Lemma flags_image_word c : core_ok c -> word_ok (flags_image c).
Proof. intros H. apply word_lor; [apply H|]. unfold word_ok. by destruct (interrupts _). Qed.

(** What is pushed of the flags is what is popped. *)
Lemma load_flags_image c c' :
  core_ok c ->
  load_flags (flags_image c) c'
  = with_flags (c_flags c) (with_mach (set_interrupts (interrupts (c_mach c)) (c_mach c')) c').
Proof.
  intros H. pose proof (ok_if _ H) as H9. unfold load_flags, flags_image. f_equal.
  - apply Z.bits_inj'. intros n Hn. rewrite Z.ldiff_spec, Z.lor_spec.
    destruct (decide (n = 9)) as [->|Hne]; [by rewrite H9, andb_false_r|].
    change 512 with (2 ^ 9). rewrite Z.pow2_bits_false by lia. cbn [negb]. rewrite andb_true_r.
    destruct (interrupts _); [by rewrite Z.pow2_bits_false, orb_false_r by lia|].
    by rewrite Z.bits_0, orb_false_r.
  - f_equal. f_equal. rewrite Z.lor_spec, H9. by destruct (interrupts _).
Qed.

Lemma u16_u32 x : u16 (u32 x) = u16 x.
Proof. unfold u16, u32. lia. Qed.
Lemma u16_small x : 0 <= x < 65536 -> u16 x = x.
Proof. unfold u16. lia. Qed.

Lemma sim_push_word lo top c v l w :
  sim lo top c v l -> lo + 4 <= vesp top l -> word_ok w ->
  exists c', push w c = Ok c' /\ sim lo top c' v (w :: l).
Proof.
  intros H Hr Hw. destruct (sim_push _ _ _ _ _ w H Hr) as (c' & E & H').
  rewrite u32_small in H' by done. by exists c'.
Qed.

(** ** Delivery *)

(** The stack an interrupt uses, and what the processor leaves on it. *)
Definition ring0 (c : core) : bool := Z.land (c_cs c) 3 =? 0.

Definition frame_on_stack (c : core) : list Z :=
  [c_eip c; c_cs c; flags_image c] ++ (if ring0 c then [] else [esp c; c_ss c]).

(** Interrupts of [c] use the memory from [lo] up to [top]. *)
Record stack_for (c : core) (lo top : Z) : Prop := {
  st_top : if ring0 c then top = esp c
           else tss (gdt_st (c_mach c)) !! tss_esp0 = Some top /\
                tss (gdt_st (c_mach c)) !! tss_ss0 = Some 16;
  st_ring : ring0 c = false -> Z.land (c_cs c) 3 = 3;
  st_low : KERNEL_BASE <= lo;
  st_room : lo + 160 <= top;
  st_high : top + 20 < 4294967296 }.

(** The core when the entry point is reached, but for the stack. *)
Definition delivered (c : core) (entry : Z) : core :=
  with_code 8 entry (with_flags (Z.ldiff (c_flags c) 213248)
    (with_mach (set_interrupts false (c_mach c))
      (if ring0 c then c else with_ss 16 c))).

Lemma deliver_sim c lo top vector entry ecode :
  core_ok c -> stack_for c lo top -> gate_at (c_mach c) vector = interrupt_gate entry ->
  exists c1, deliver vector ecode c = Ok c1 /\ c_eip c1 = entry /\
    sim lo top c1 (delivered c entry)
      ((if ecode is Some e then [u32 e] else []) ++ frame_on_stack c).
Proof.
  intros Hok Hst Hg. unfold deliver. rewrite Hg. cbn [interrupt_gate gate_present negb gate_selector gate_offset].
  set (v := if ring0 c then c else with_ss 16 c).
  destruct Hst as [Ht Hr Hl Hm Hh].
  pose proof Hok as [Hgen _ Hss Hcs Heip _ _]. pose proof (flags_image_word _ Hok) as Hf.
  assert (word_ok (esp c) /\ word_ok (c_cs c) /\ word_ok (c_ss c)) as (Hesp & Hcs' & Hss').
  { split; [|unfold word_ok; lia]. pose proof (ok_reg _ ESP Hok) as E. unfold esp, word_ok.
    cbn [get_reg] in E. rewrite <- E. apply u32_range. }
  set (l0 := if ring0 c then [] else [esp c; c_ss c]).
  assert (exists c0, (if Z.land (c_cs c) 3 =? 0 then mret c else switch_stack c) = Ok c0 /\
    sim lo top c0 v l0) as (c0 & -> & H0).
  { unfold ring0 in *. subst v l0. destruct (Z.land (c_cs c) 3 =? 0).
    - exists c. split; [done|]. apply (sim_start lo top c 0); lia.
    - destruct Ht as [Ht Hss0]. unfold switch_stack. rewrite Ht, Hss0.
      assert (sim lo top (put_reg ESP top (with_ss 16 c)) (with_ss 16 c) []) as Hs.
      { split; try done; try (unfold vesp; cbn [length]; lia). unfold vesp. cbn.
        rewrite set_phys_id, Z.sub_0_r. by destruct c as [[]]. }
      destruct (sim_push_word _ _ _ _ _ (c_ss c) Hs) as (c1 & E1 & H1);
        [unfold vesp; cbn; lia|done|].
      destruct (sim_push_word _ _ _ _ _ (esp c) H1) as (c2 & E2 & H2);
        [unfold vesp; cbn; lia|done|].
      exists c2. by rewrite (bind_ok _ _ _ E1). }
  assert (Z.of_nat (length l0) <= 2) as Hlen by (subst l0; by destruct (ring0 c)).
  unfold vesp in *. bnd.
  destruct (sim_push_word _ _ _ _ _ (flags_image c) H0) as (c1 & -> & H1);
    [unfold vesp; lia|done|]. bnd.
  destruct (sim_push_word _ _ _ _ _ (c_cs c) H1) as (c2 & -> & H2);
    [unfold vesp; cbn [length]; lia|done|]. bnd.
  destruct (sim_push_word _ _ _ _ _ (c_eip c) H2) as (c3 & -> & H3);
    [unfold vesp; cbn [length]; lia|done|]. bnd.
  assert (exists c4, (match ecode with Some e => push e c3 | None => mret c3 end) = Ok c4 /\
    sim lo top c4 v ((if ecode is Some e then [u32 e] else []) ++ frame_on_stack c))
    as (c4 & -> & H4).
  { destruct ecode as [e|]; [|by exists c3].
    destruct (sim_push _ _ _ _ _ e H3) as (c4 & E4 & H4); [unfold vesp; cbn [length]; lia|].
    by exists c4. }
  bnd. eexists. split; [done|]. split; [done|].
  eapply sim_with; [exact H4| |done|by subst v; destruct (ring0 c)].
  rewrite (sim_eta _ _ _ _ _ H4) at 1 2. subst v. unfold delivered.
  by destruct (ring0 c), c as [[]].
Qed.

(** ** The call of a handler *)

(** The arguments a handler finds in the words above its return address. *)
Definition handler_args (ecode_arg : bool) (w : list Z)
    : seg_register_set * gen_register_set * Z * interrupt_frame :=
  (seg_of_words (take 4 w), gen_of_words (take 8 (drop 4 w)),
   if ecode_arg then nth 12 w 0 else 0,
   frame_of_words (take 5 (drop (if ecode_arg then 13 else 12) w))).

Definition apply_handler (body : c_handler)
    (a : seg_register_set * gen_register_set * Z * interrupt_frame) (m : machine) :=
  let '(seg, gen, ecode, frame) := a in body seg gen ecode frame m.

(** A handler that returns keeps the stack of its caller. *)
Definition keeps (lo top : Z) (m m' : machine) : Prop :=
  forall b, lo <= b < top -> view m' b = view m b.

Lemma nth_take_drop k (w : list Z) : nth 0 (take 1 (drop k w)) 0 = nth k w 0.
Proof. revert w; induction k as [|k IH]; intros [|x w]; cbn; done || apply IH. Qed.

Lemma call_sim body ecode_arg ret junk c lo top v l :
  sim lo top c v l -> lo + 4 <= vesp top l -> top + 20 < 4294967296 -> (13 <= length l)%nat ->
  let w := l ++ vldws 5 (view (c_mach v)) top in
  let r m := apply_handler body (handler_args ecode_arg w) m in
  exists c1, sim lo top c1 v (u32 ret :: l) /\
    (forall m ctx, r (c_mach c1) = Ok (m, Some ctx) ->
       call_handler body ecode_arg ret junk c = Ok (inr (m, ctx))) /\
    (forall m, r (c_mach c1) = Ok (m, None) -> keeps lo top (c_mach c1) m ->
       exists c2, call_handler body ecode_arg ret junk c = Ok (inl c2) /\
         sim lo top c2 (clobber junk (with_mach m v)) l) /\
    (r (c_mach c1) = Diverge -> call_handler body ecode_arg ret junk c = Diverge).
Proof.
  intros H Hr Ht Hl w r. destruct (sim_push _ _ _ _ _ ret H Hr) as (c1 & E & H1).
  exists c1. split; [exact H1|].
  assert (forall k n, (0 < n)%nat -> (k + n <= length l + 6)%nat ->
    ldws n (c_mach c1) (u32 (esp c1 + 4 * Z.of_nat k)) = Ok (take n (drop k (u32 ret :: w)))) as Hw.
  { intros k n Hn Hk. by rewrite (sim_ldws _ _ _ _ _ k n 5 H1) by (cbn [length]; lia). }
  assert (call_handler body ecode_arg ret junk c =
    '(m, o) ← r (c_mach c1);
    match o with
    | Some ctx => mret (inr (m, ctx))
    | None => '(_, c) ← pop (with_mach m c1); mret (inl (clobber junk c))
    end) as ->.
  { unfold call_handler. rewrite E. bnd.
    change (4 * 1) with (4 * Z.of_nat 1). change (4 * 5) with (4 * Z.of_nat 5).
    change (4 * 13) with (4 * Z.of_nat 13).
    rewrite (Hw 1%nat 4%nat) by lia. bnd. rewrite (Hw 5%nat 8%nat) by lia. bnd.
    change (4 * (if ecode_arg then 14 else 13)) with
      (4 * (if ecode_arg then Z.of_nat 14 else Z.of_nat 13)).
    unfold r, apply_handler, handler_args. destruct ecode_arg.
    - rewrite (Hw 13%nat 1%nat) by lia. bnd. rewrite (Hw 14%nat 5%nat) by lia. bnd.
      rewrite (nth_take_drop 13 (u32 ret :: w)). done.
    - bnd. rewrite (Hw 13%nat 5%nat) by lia. bnd. done. }
  split; [|split].
  - intros m ctx E1. by rewrite (bind_ok _ _ _ E1).
  - intros m E1 Hk. rewrite (bind_ok _ _ _ E1). cbv beta iota.
    assert (sim lo top (with_mach m c1) (with_mach m v) (u32 ret :: l)) as H2.
    { destruct H1 as [H1a H1b H1c H1d H1e H1f H1g]. split; try done.
      - rewrite H1a. cbn. by rewrite set_phys_id.
      - etrans; [|exact H1e]. apply vldws_ext. intros b Hb. apply Hk.
        unfold vesp in *. lia. }
    destruct (sim_pop _ _ _ _ _ _ H2) as [-> H3]. bnd. eexists. split; [done|].
    eapply (sim_with _ _ _ _ _ m); [exact H3| |by destruct junk as [[[? ?] ?] ?]|done].
    destruct junk as [[[? ?] ?] ?]. rewrite (sim_eta _ _ _ _ _ H3) at 1. by destruct v as [[]].
  - intros E1. by rewrite E1.
Qed.

(** ** Wrappers *)

Lemma vsteps_app B top code1 code2 s :
  vsteps B top (code1 ++ code2) s = s ← vsteps B top code1 s; vsteps B top code2 s.
Proof.
  revert s; induction code1 as [|i code1 IH]; intros s; [done|]. cbn [app vsteps].
  destruct (vstep B top i s) as [s1|]; [|done]. cbn [mbind option_bind]. apply IH.
Qed.

(** A wrapper: straight-line code, the call, straight-line code, [iret]. *)
Lemma wrapper_sim B body ecode_arg ret junk start fin c lo top v l v1 l1 :
  bus_ok B -> sim lo top c v l -> lo + 4 * Z.of_nat (length start) <= vesp top l ->
  vsteps B top start (v, l) = Some (v1, l1) ->
  lo + 4 + 4 * Z.of_nat (length fin) <= vesp top l1 -> top + 20 < 4294967296 ->
  (13 <= length l1)%nat ->
  let code := start ++ [Call] ++ fin ++ [Iret] in
  let callee := call_handler body ecode_arg ret junk in
  let r m := apply_handler body
    (handler_args ecode_arg (l1 ++ vldws 5 (view (c_mach v1)) top)) m in
  exists c1, sim lo top c1 v1 (u32 ret :: l1) /\
    (forall m ctx, r (c_mach c1) = Ok (m, Some ctx) -> run B callee code c = Ok (Left m ctx)) /\
    (forall m v2 l2, r (c_mach c1) = Ok (m, None) -> keeps lo top (c_mach c1) m ->
       vsteps B top fin (clobber junk (with_mach m v1), l1) = Some (v2, l2) ->
       exists c2, run B callee code c = (c ← iret c2; mret (Resumed c)) /\ sim lo top c2 v2 l2) /\
    (r (c_mach c1) = Diverge -> run B callee code c = Diverge).
Proof.
  intros HB H Hr Hs Hr1 Ht Hl code callee r.
  destruct (vsteps_sim lo top B callee start ([Call] ++ fin ++ [Iret])
    (Datatypes.S (length fin + 1)) c v l v1 l1 HB H Hr Hs) as (c0 & E & H0).
  assert (run B callee code c =
    exec B callee (Datatypes.S (length fin + 1)) ([Call] ++ fin ++ [Iret]) c0) as ->.
  { unfold run, code. rewrite <- E. f_equal. rewrite !length_app. cbn [length]. lia. }
  destruct (call_sim body ecode_arg ret junk c0 lo top v1 l1 H0) as (c1 & H1 & Hsw & Hret & Hdiv);
    [lia|done|done|].
  exists c1. split; [exact H1|]. cbn [app exec]. split; [|split].
  - intros m ctx E1. unfold callee. rewrite (bind_ok _ _ _ (Hsw _ _ E1)). done.
  - intros m v2 l2 E1 Hk Hf. destruct (Hret _ E1 Hk) as (c2 & E2 & H2).
    unfold callee at 1. rewrite (bind_ok _ _ _ E2). cbv beta iota.
    destruct (vsteps_sim lo top B callee fin [Iret] 1 c2 _ l1 v2 l2 HB H2) as (c3 & E3 & H3);
      [lia|done|].
    exists c3. split; [exact E3|done].
  - intros E1. unfold callee. by rewrite (Hdiv E1).
Qed.

(** The registers a wrapper saves, and the core it calls from. *)
Definition pushed_words (c : core) : list Z :=
  words_of_seg (c_seg c) ++
  (let g := c_gen c in [g_edi g; g_esi g; g_ebp g; g_ebx g; g_edx g; g_ecx g; g_eax g]).

Definition kernel_core (c : core) : core :=
  with_seg {| s_ds := 16; s_es := 16; s_fs := 16; s_gs := 16 |}
    (put_reg EAX (low_bits 16 16 (g_eax (c_gen c))) c).

(** The registers of [c] put back in [v]. *)
Definition restored (c v : core) : core :=
  with_seg (c_seg c)
    (with_gen (let g := c_gen c in
      {| g_edi := g_edi g; g_esi := g_esi g; g_ebp := g_ebp g; g_ebx := g_ebx g;
         g_edx := g_edx g; g_ecx := g_ecx g; g_eax := g_eax g; g_esp := esp v |}) v).

Definition regs_in_order (c : core) : Prop :=
  Forall word_ok (words_of_gen (c_gen c)) /\
  Forall (fun s => 0 <= s < 65536) (words_of_seg (c_seg c)).

Lemma isr_start B top v l :
  regs_in_order v -> vsteps B top START_ISR (v, l) = Some (kernel_core v, pushed_words v ++ l).
Proof.
  intros [Hg Hs]. unfold words_of_gen in Hg. unfold words_of_seg in Hs.
  repeat (apply Forall_cons in Hg as [? Hg]). repeat (apply Forall_cons in Hs as [? Hs]).
  unfold word_ok in *. assert (forall w, u16 (low_bits 16 16 w) = 16) as E16
    by (intros w; unfold u16, low_bits; lia).
  destruct v as [[] []]. cbn in *. rewrite !E16.
  unfold kernel_core, pushed_words, put_reg. cbn. do 2 f_equal.
  by rewrite !u32_small by lia.
Qed.

Lemma isr_end B top c v l :
  regs_in_order c ->
  vsteps B top (pop_seg ++ pop_gen) (v, pushed_words c ++ l) = Some (restored c v, l).
Proof.
  intros [_ Hs]. unfold words_of_seg in Hs. repeat (apply Forall_cons in Hs as [? Hs]).
  destruct c as [[] []], v as [[] []]. cbn in *. unfold put_reg, restored. cbn. do 3 f_equal.
  by rewrite !u16_small.
Qed.
