(* ===== verification/WrapperProps.v ===== *)
(** * What an interrupt does from delivery to [iret]

    An interrupt that does not switch is invisible to what it interrupts; one
    that switches leaves a context in which the interrupted program goes on
    exactly where it was; the code of switch_context does what its model says.
    The wrappers of isr.s restore everything too, but hand their handlers
    arguments shifted by a word. *)

From S2P Require Export WrapperLemmas.

#[local] Open Scope Z_scope.

(** The general registers a handler sees: the interrupted ones, with the stack
    pointer of the wrapper. *)
Definition gen_with_esp (g : gen_register_set) (sp : Z) : gen_register_set :=
  {| g_edi := g_edi g; g_esi := g_esi g; g_ebp := g_ebp g; g_ebx := g_ebx g; g_edx := g_edx g;
     g_ecx := g_ecx g; g_eax := g_eax g; g_esp := sp |}.

Section Facts.
Context (B : bus) (HB : bus_ok B) (addr_of : handler -> Z) `{!Inj (=) (=) addr_of}
        (bodies : handler -> c_handler) (ret : Z) (junk : Z * Z * Z * Z).

Lemma handler_at_addr h : handler_at addr_of (addr_of h) = Some h.
Proof.
  unfold handler_at.
  assert (filter (fun h' => addr_of h' = addr_of h) all_handlers
    = filter (fun h' => h' = h) all_handlers) as ->.
  { apply list_filter_iff. intros h'. split; [by intros ->%(inj addr_of)|by intros ->]. }
  by destruct h.
Qed.

(** Delivery and the run of the wrapper. *)
Lemma interrupt_entry c lo top vector h ecode :
  core_ok c -> stack_for c lo top ->
  gate_at (c_mach c) vector = interrupt_gate (addr_of h) ->
  exists c0, sim lo top c0 (delivered c (addr_of h))
      ((if ecode is Some e then [u32 e] else []) ++ frame_on_stack c) /\
    run_interrupt B addr_of bodies ret junk vector ecode c
    = run B (call_handler (bodies h) (takes_ecode h) ret junk) (wrapper_code h) c0.
Proof.
  intros Hok Hst Hg. destruct (deliver_sim _ _ _ _ _ ecode Hok Hst Hg) as (c0 & E & He & H).
  exists c0. split; [exact H|]. unfold run_interrupt. rewrite (bind_ok _ _ _ E). cbv beta.
  by rewrite He, handler_at_addr.
Qed.

(** The core when a wrapper's code has been run up to [iret], and what [iret] makes of it. *)
Lemma delivered_regs c entry : core_ok c -> regs_in_order (delivered c entry).
Proof.
  intros H. unfold regs_in_order, delivered. destruct (ring0 c); split; apply H.
Qed.

Lemma frame_iret c lo top c2 v2 :
  core_ok c -> stack_for c lo top -> sim lo top c2 v2 (frame_on_stack c) -> c_cs v2 = 8 ->
  c_seg v2 = c_seg c -> gen_with_esp (c_gen v2) 0 = gen_with_esp (c_gen c) 0 ->
  (ring0 c = true -> c_ss v2 = c_ss c) ->
  iret c2 = Ok (with_mach (set_interrupts (interrupts (c_mach c))
    (set_phys (phys (c_mach c2)) (c_mach v2))) c).
Proof.
  intros Hok Hst H Hcs Hseg Hgen Hss. unfold frame_on_stack in H.
  pose proof (load_flags_image c) as Hf. pose proof (ok_cs _ Hok). pose proof (ok_ss _ Hok).
  destruct (ring0 c) eqn:Ek.
  - rewrite (iret_same _ _ _ _ _ _ _ _ H).
    2:{ rewrite Hcs. unfold ring0 in Ek. by apply Z.eqb_eq in Ek. }
    rewrite Hf by done. f_equal. rewrite u16_small by done.
    pose proof (st_top _ _ _ Hst) as Ht. rewrite Ek in Ht. specialize (Hss eq_refl).
    assert (vesp top [] = g_esp (c_gen c)) as ->
      by (unfold vesp; cbn [length]; unfold esp in Ht; lia).
    destruct c as [[] ? ? ? ? ? ?], v2 as [[] ? ? ? ? ? ?].
    unfold gen_with_esp in Hgen. cbn in *. injection Hgen as -> -> -> -> -> -> ->. by subst.
  - cbn [app] in H. rewrite (iret_outer _ _ _ _ _ _ _ _ _ _ H).
    2:{ rewrite Hcs, (st_ring _ _ _ Hst Ek). done. }
    rewrite Hf by done. f_equal. rewrite !u16_small by done.
    destruct c as [[] ? ? ? ? ? ?], v2 as [[] ? ? ? ? ? ?].
    unfold gen_with_esp in Hgen. cbn in *. injection Hgen as -> -> -> -> -> -> ->. by subst.
Qed.

(** The same, on a machine that is [m] but for the interrupt flag. *)
Lemma frame_resumes c lo top c2 v2 m b :
  core_ok c -> stack_for c lo top -> sim lo top c2 v2 (frame_on_stack c) -> c_cs v2 = 8 ->
  c_seg v2 = c_seg c -> gen_with_esp (c_gen v2) 0 = gen_with_esp (c_gen c) 0 ->
  (ring0 c = true -> c_ss v2 = c_ss c) -> c_mach v2 = set_interrupts b m ->
  exists m', stack_only lo top m m' /\
    iret c2 = Ok (with_mach (set_interrupts (interrupts (c_mach c)) m') c).
Proof.
  intros Hok Hst H Hcs Hseg Hgen Hss Hm. exists (set_phys (phys (c_mach c2)) m). split.
  - destruct H as [_ _ _ _ _ Hv Hp]. rewrite Hm in *. split; [split; [exact Hp|done]|exact Hv].
  - rewrite (frame_iret c lo top c2 v2) by done. by rewrite Hm.
Qed.

Lemma frame_length c : (3 <= length (frame_on_stack c) <= 5)%nat.
Proof. unfold frame_on_stack. destruct (ring0 c); cbn; lia. Qed.

Lemma delivered_stack c entry lo top c1 v l :
  c_mach v = c_mach (delivered c entry) -> sim lo top c1 v l ->
  stack_only lo top (set_interrupts false (c_mach c)) (c_mach c1).
Proof.
  intros Hv H. pose proof (sim_stack_only _ _ _ _ _ H) as Hso. rewrite Hv in Hso.
  unfold delivered in Hso. by destruct (ring0 c).
Qed.

(** The frame a handler of timer.s sees: in ring 3 the interrupted one; in ring 0
    its last two words are whatever lies above it. *)
Definition frame_seen (c : core) (top : Z) : interrupt_frame :=
  frame_of_words (take 5 (frame_on_stack c ++ vldws 5 (view (c_mach c)) top)).

Definition frame_pointer (c : core) (top : Z) : Z := vesp top (frame_on_stack c).

Lemma frame_pointer_range c lo top :
  stack_for c lo top -> lo + 140 <= frame_pointer c top <= top /\
  0 <= frame_pointer c top < 4294967296 /\ frame_pointer c top <> 0.
Proof.
  intros [_ _ Hl Hm Hh]. unfold frame_pointer, vesp, frame_on_stack, KERNEL_BASE in *.
  destruct (ring0 c); cbn [app length]; lia.
Qed.

Lemma timer_start c top lo :
  core_ok c -> stack_for c lo top ->
  let v := with_mach (set_interrupts false (c_mach c)) (delivered c (addr_of timer_handler_wrapper)) in
  vsteps B top timer_wrapper_start (delivered c (addr_of timer_handler_wrapper), frame_on_stack c)
  = Some (kernel_core v, pushed_words c ++ frame_pointer c top :: frame_on_stack c).
Proof.
  intros Hok Hst v. unfold timer_wrapper_start. rewrite vsteps_app.
  assert (vsteps B top [Cli; Push ESP]
    (delivered c (addr_of timer_handler_wrapper), frame_on_stack c)
    = Some (v, frame_pointer c top :: frame_on_stack c)) as ->.
  { cbn [vsteps vstep vreg mbind option_bind]. destruct (frame_pointer_range _ _ _ Hst) as (_ & Hr & _).
    fold (frame_pointer c top). rewrite u32_small by done. subst v. unfold delivered.
    by destruct (ring0 c). }
  cbn [mbind option_bind]. change (push_gen ++ push_seg ++ kernel_segs) with START_ISR.
  rewrite isr_start.
  - subst v. unfold pushed_words, delivered. by destruct (ring0 c).
  - exact (delivered_regs c (addr_of timer_handler_wrapper) Hok).
Qed.

Lemma timer_end c top m v :
  core_ok c ->
  vsteps B top (pop_seg ++ pop_gen ++ [Pop ESP; Sti])
    (clobber junk (with_mach m (kernel_core v)), pushed_words c ++ frame_pointer c top :: frame_on_stack c)
  = Some (with_mach (set_interrupts true m) (restored c (clobber junk (with_mach m (kernel_core v)))),
      frame_on_stack c).
Proof.
  intros Hok. rewrite app_assoc, vsteps_app, isr_end by (split; apply Hok).
  cbn [mbind option_bind vsteps vstep]. unfold frame_pointer. rewrite Z.eqb_refl.
  cbn [mbind option_bind]. by destruct junk as [[[? ?] ?] ?].
Qed.

(** The timer's wrapper with any handler. *)
Lemma timer_run c lo top vector :
  core_ok c -> stack_for c lo top ->
  gate_at (c_mach c) vector = interrupt_gate (addr_of timer_handler_wrapper) ->
  let r := bodies timer_handler_wrapper (c_seg c) (gen_with_esp (c_gen c) (frame_pointer c top)) 0
             (frame_seen c top) in
  exists m1, stack_only lo top (set_interrupts false (c_mach c)) m1 /\
    vldws (length (frame_on_stack c)) (view m1) (frame_pointer c top) = frame_on_stack c /\
    (forall m ctx, r m1 = Ok (m, Some ctx) ->
       run_interrupt B addr_of bodies ret junk vector None c = Ok (Left m ctx)) /\
    (forall m, r m1 = Ok (m, None) -> keeps lo top m1 m ->
       exists m', stack_only lo top m m' /\
         run_interrupt B addr_of bodies ret junk vector None c
         = Ok (Resumed (with_mach (set_interrupts (interrupts (c_mach c)) m') c))).
Proof.
  intros Hok Hst Hg r.
  destruct (interrupt_entry c lo top vector _ None Hok Hst Hg) as (c0 & H0 & ->). cbn [app] in H0.
  pose proof (timer_start c top lo Hok Hst) as Hs. cbv zeta in Hs.
  set (v := with_mach _ (delivered _ _)) in Hs.
  set (l1 := pushed_words c ++ frame_pointer c top :: frame_on_stack c) in *.
  pose proof (frame_length c) as Hfr.
  assert (length l1 = (12 + length (frame_on_stack c))%nat) as Hlen by done.
  pose proof Hst as [_ _ Hl Hm Hh].
  destruct (wrapper_sim B (bodies timer_handler_wrapper) false ret junk timer_wrapper_start
    (pop_seg ++ pop_gen ++ [Pop ESP; Sti]) c0 lo top _ _ (kernel_core v) l1 HB H0)
    as (c1 & H1 & Hsw & Hret & _).
  { unfold vesp. cbn [length timer_wrapper_start app push_gen push_seg kernel_segs]. lia. }
  { exact Hs. }
  { unfold vesp. rewrite Hlen. cbn [length app pop_seg pop_gen]. lia. }
  { lia. }
  { lia. }
  assert (forall m, apply_handler (bodies timer_handler_wrapper) (handler_args false
    (l1 ++ vldws 5 (view (c_mach (kernel_core v))) top)) m = r m) as Hr.
  { intros m. unfold l1, r, apply_handler, handler_args, frame_seen, pushed_words.
    by destruct c as [[] [] ? ? ? ? ?]. }
  exists (c_mach c1). split; [|split; [|split]].
  - apply (delivered_stack c (addr_of timer_handler_wrapper) _ _ _ (kernel_core v) (u32 ret :: l1));
      [|exact H1]. subst v. unfold delivered. by destruct (ring0 c).
  - exact (sim_suffix _ _ _ _ (u32 ret :: pushed_words c ++ [frame_pointer c top]) _ H1).
  - intros m ctx E. apply Hsw. by rewrite Hr.
  - intros m E Hk.
    destruct (Hret m _ _ (eq_trans (Hr _) E) Hk (timer_end c top m v Hok)) as (c2 & E2 & H2).
    destruct (frame_resumes c lo top c2 _ m true Hok Hst H2) as (m' & Hso & E3);
      try (subst v; unfold restored, delivered; destruct (ring0 c); by destruct junk as [[[? ?] ?] ?]).
    exists m'. split; [done|]. etrans; [exact E2|]. by rewrite E3.
Qed.

Lemma with_flags_id c : with_flags (c_flags c) c = c.
Proof. by destruct c. Qed.

(** The words an exception leaves for its wrapper. *)
Definition exception_stack (ecode : option Z) (c : core) : list Z :=
  (if ecode is Some e then [u32 e] else []) ++ frame_on_stack c.

(** What a handler of isr.c is handed: the macros push no stack pointer, so
    everything behind the seven registers is taken one word too early. *)
Definition shifted_args (h : handler) (ecode : option Z) (c : core) (top : Z) :=
  let w := exception_stack ecode c ++ vldws 5 (view (c_mach c)) top in
  (c_seg c, gen_with_esp (c_gen c) (nth 0 w 0), (if takes_ecode h then nth 1 w 0 else 0),
   frame_of_words (take 5 (drop (if takes_ecode h then 2 else 1) w))).

Lemma exception_stack_length ecode c : (3 <= length (exception_stack ecode c) <= 6)%nat.
Proof.
  unfold exception_stack. pose proof (frame_length c). rewrite length_app.
  destruct ecode; cbn [length]; lia.
Qed.

(** The end of a wrapper of isr.s but for [iret]. *)
Definition isr_fin (h : handler) : list instr :=
  pop_seg ++ pop_gen ++ (if drops_ecode h then [AddEsp 4] else []).

Lemma wrapper_code_isr h :
  h <> timer_handler_wrapper -> wrapper_code h = START_ISR ++ [Call] ++ isr_fin h ++ [Iret].
Proof. by destruct h. Qed.

Lemma exception_start c h ecode top :
  core_ok c -> let v := delivered c (addr_of h) in
  vsteps B top START_ISR (v, exception_stack ecode c)
  = Some (kernel_core v, pushed_words c ++ exception_stack ecode c).
Proof.
  intros Hok v. rewrite isr_start by exact (delivered_regs c (addr_of h) Hok). subst v.
  unfold pushed_words, delivered. by destruct (ring0 c).
Qed.

Lemma exception_end c h ecode top v :
  core_ok c -> (if ecode is Some _ then drops_ecode h = true else drops_ecode h = false) ->
  exists f, vsteps B top (isr_fin h) (v, pushed_words c ++ exception_stack ecode c)
    = Some (with_flags f (restored c v), frame_on_stack c).
Proof.
  intros Hok He. unfold isr_fin. rewrite app_assoc, vsteps_app, isr_end by (split; apply Hok).
  cbn [mbind option_bind]. unfold exception_stack.
  destruct ecode; rewrite He; [by eexists|]. exists (c_flags (restored c v)). by rewrite with_flags_id.
Qed.

Lemma exception_run c lo top vector h ecode :
  core_ok c -> stack_for c lo top -> h <> timer_handler_wrapper ->
  gate_at (c_mach c) vector = interrupt_gate (addr_of h) ->
  let r := apply_handler (bodies h) (shifted_args h ecode c top) in
  let out := run_interrupt B addr_of bodies ret junk vector ecode c in
  exists m1, stack_only lo top (set_interrupts false (c_mach c)) m1 /\
    (r m1 = Diverge -> out = Diverge) /\
    (forall m, r m1 = Ok (m, None) -> keeps lo top m1 m ->
       (if ecode is Some _ then drops_ecode h = true else drops_ecode h = false) ->
       exists m', stack_only lo top m m' /\
         out = Ok (Resumed (with_mach (set_interrupts (interrupts (c_mach c)) m') c))).
Proof.
  intros Hok Hst Hh Hg r out. unfold out.
  destruct (interrupt_entry c lo top vector h ecode Hok Hst Hg) as (c0 & H0 & ->).
  fold (exception_stack ecode c) in H0. pose proof (exception_start c h ecode top Hok) as Hs.
  cbv zeta in Hs. set (v := delivered c (addr_of h)) in *.
  set (l1 := pushed_words c ++ exception_stack ecode c) in *.
  pose proof (exception_stack_length ecode c) as Hfr.
  assert (length l1 = (11 + length (exception_stack ecode c))%nat) as Hlen by done.
  assert (length (isr_fin h) <= 12)%nat as Hfin by (destruct h; cbn; lia).
  rewrite (wrapper_code_isr h Hh). pose proof Hst as [_ _ Hl Hm Hhi].
  destruct (wrapper_sim B (bodies h) (takes_ecode h) ret junk START_ISR (isr_fin h) c0 lo top _ _
    (kernel_core v) l1 HB H0) as (c1 & H1 & _ & Hret & Hdiv).
  { unfold vesp. cbn [length START_ISR app push_gen push_seg kernel_segs]. lia. }
  { exact Hs. }
  { unfold vesp. rewrite Hlen. lia. }
  { lia. }
  { lia. }
  assert (forall m, apply_handler (bodies h) (handler_args (takes_ecode h)
    (l1 ++ vldws 5 (view (c_mach (kernel_core v))) top)) m = r m) as Hr.
  { intros m. unfold l1, r, shifted_args, handler_args, pushed_words. subst v.
    unfold delivered, exception_stack, frame_on_stack.
    by destruct (takes_ecode h), ecode, (ring0 c), c as [[] [] ? ? ? ? ?]. }
  exists (c_mach c1). split; [|split].
  - by apply (delivered_stack c (addr_of h) _ _ _ (kernel_core v) (u32 ret :: l1)).
  - intros E. apply Hdiv. by rewrite Hr.
  - intros m E Hk He.
    destruct (exception_end c h ecode top (clobber junk (with_mach m (kernel_core v))) Hok He) as [f Hf].
    destruct (Hret m _ _ (eq_trans (Hr _) E) Hk Hf) as (c2 & E2 & H2).
    destruct (frame_resumes c lo top c2 _ m (interrupts m) Hok Hst H2) as (m' & Hso & E3);
      try (subst v; unfold restored, delivered; destruct (ring0 c), m; by destruct junk as [[[? ?] ?] ?]).
    exists m'. split; [done|]. etrans; [exact E2|]. by rewrite E3.
Qed.
End Facts.

(** ** Descriptors and the interrupt stack *)

Definition stack_apart (lo top p : Z) : Prop := p + sizeof_process_desc <= lo \/ top <= p.

Section StackOnly.
Context (lo top : Z) (m m1 : machine) (Hso : stack_only lo top (set_interrupts false m) m1).

Lemma stack_only_desc p b :
  desc_ok p -> stack_apart lo top p -> p <= b < p + sizeof_process_desc -> view m1 b = view m b.
Proof.
  intros [H0 H1] Ha Hb. destruct Hso as [_ Hv].
  apply (Hv b); unfold kernel_window, stack_apart in *; lia.
Qed.

Lemma stack_only_fld p off :
  desc_ok p -> stack_apart lo top p -> 0 <= off -> off + 4 <= sizeof_process_desc ->
  fld m1 p off = fld m p off.
Proof.
  intros Hd Ha H0 H1. apply vld_ext. intros b Hb. apply (stack_only_desc p); [done|done|lia].
Qed.

Lemma stack_only_ring l : Forall (stack_apart lo top) l -> ring m l -> ring m1 l.
Proof.
  intros Ha Hr. apply (ring_ext m); [|done]. destruct Hr as (Hd & _).
  rewrite Forall_forall in Ha, Hd. intros p off Hp Hoff. apply stack_only_fld; auto;
    destruct Hoff as [-> | ->]; done.
Qed.

Lemma stack_only_state p :
  desc_ok p -> stack_apart lo top p -> pstate m1 p = pstate m p.
Proof.
  intros Hd Ha. apply (stack_only_desc p); [done|done|].
  unfold o_state, sizeof_process_desc. lia.
Qed.

Lemma stack_only_saved p :
  desc_ok p -> stack_apart lo top p -> saved m1 p = saved m p.
Proof.
  intros Hd Ha. rewrite !saved_words. f_equal. apply vldws_ext. intros b Hb.
  apply (stack_only_desc p); [done|done|]. unfold sizeof_process_desc. lia.
Qed.

Lemma stack_only_no_switch :
  stack_apart lo top (current_process m) -> no_switch m -> no_switch m1.
Proof.
  intros Ha. pose proof Hso as [[_ E] _].
  assert (switching_enabled m1 = switching_enabled m) as Es by (by rewrite E).
  assert (current_process m1 = current_process m) as Ec by (by rewrite E).
  unfold no_switch. rewrite Es, Ec. intros [?|[?|(p & Hr & Hp)]]; [by left|by right; left|].
  right; right. exists p. split; [|done]. rewrite Hp in Ha.
  apply stack_only_ring; [by apply Forall_singleton|done].
Qed.
End StackOnly.

Section Timer.
Context (B : bus) (HB : bus_ok B) (addr_of : handler -> Z) `{!Inj (=) (=) addr_of}
        (ret : Z) (junk : Z * Z * Z * Z).

(** C14. A timer interrupt that does not switch is invisible: in ring 3 and in ring 0,
    for every state of the registers, the flags and the interrupted stack, it is
    delivered through the gate to the wrapper, acknowledged, and returns to a
    core with every register, segment, flag and the interrupt flag as they were,
    on a machine that differs in one byte sent to the interrupt controller and
    in the 160 bytes below the stack it used. *)
Theorem timer_interrupt_transparent c lo top :
  core_ok c -> stack_for c lo top ->
  gate_at (c_mach c) IRQ_OFFSET = interrupt_gate (addr_of timer_handler_wrapper) ->
  no_switch (c_mach c) -> stack_apart lo top (current_process (c_mach c)) ->
  exists m', run_interrupt B addr_of handler_body ret junk IRQ_OFFSET None c
      = Ok (Resumed (with_mach m' c)) /\
    stack_only lo top (set_ports (ports (c_mach c) ++ [(32, 32)]) (c_mach c)) m'.
Proof.
  intros Hok Hst Hg Hn Ha.
  destruct (timer_run B HB addr_of handler_body ret junk c lo top _ Hok Hst Hg)
    as (m1 & Hso & _ & _ & Hret).
  pose proof (stack_only_no_switch _ _ _ _ Hso Ha Hn) as Hn1.
  destruct (Hret _ (timer_handler_idle m1 _ _ _ Hn1)) as (m' & Hso' & ->); [done|].
  eexists. split; [done|]. destruct Hso as [[Hp E] Hv], Hso' as [[Hp' E'] Hv'].
  split; [split|].
  - intros pa Hpa. etrans; [by apply Hp'|]. by apply Hp.
  - rewrite E', E. by destruct (c_mach c).
  - intros b Hb Hbo. etrans; [by apply Hv'|]. by apply Hv.
Qed.
End Timer.

(** ** Going on with a context *)

Lemma level_of_seen c top :
  level_of (frame_seen c top) = if ring0 c then RING_KERNEL else u8 (Z.land (c_cs c) 3).
Proof.
  unfold frame_seen, frame_on_stack, level_of, ring0.
  destruct (Z.eqb_spec (Z.land (c_cs c) 3) 0) as [E|]; cbn [app take frame_of_words nth f_cs]; [|done].
  by rewrite E.
Qed.

Lemma set_interrupts_phys b m : set_interrupts b (set_phys (phys m) m) = set_interrupts b m.
Proof. by destruct m. Qed.

(** Going on with the context a core was interrupted in is going on with the core. *)
Lemma resume_continues c c2 ctx lo top :
  core_ok c -> stack_for c lo top ->
  continues ctx (c_seg c) (gen_with_esp (c_gen c) (frame_pointer c top)) (frame_seen c top) ->
  (ring0 c = true -> c_ss c2 = c_ss c /\ ring0 c2 = true /\
     vldws 3 (view (c_mach c2)) (frame_pointer c top) = frame_on_stack c) ->
  resume_context ctx c2 = Ok (with_mach (set_interrupts (interrupts (c_mach c)) (c_mach c2)) c).
Proof.
  intros Hok Hst (Hseg & Hgen & Hres) Hk. rewrite level_of_seen in Hres.
  destruct ctx as [seg gen res]. cbn [ctx_seg ctx_gen ctx_resume] in *. subst seg res.
  pose proof (ok_seg _ Hok) as Hs. pose proof (ok_cs _ Hok) as Hcs. pose proof (ok_ss _ Hok) as Hss.
  unfold words_of_seg in Hs. repeat (apply Forall_cons in Hs as [? Hs]).
  unfold resume_context. cbn [ctx_seg ctx_gen ctx_resume].
  set (c3 := with_seg _ (with_gen gen c2)).
  assert (c3 = with_seg (c_seg c) (with_gen gen c2)) as -> by
    (subst c3; rewrite !u16_small by done; by destruct (c_seg c)).
  destruct (ring0 c) eqn:Ek.
  - destruct (Hk eq_refl) as (Hss2 & Hk2 & Hw). cbn [Z.eqb RING_KERNEL gen_with_esp g_esp].
    pose proof (st_top _ _ _ Hst) as Ht. rewrite Ek in Ht.
    assert (frame_pointer c top + 12 = top) as Hfp
      by (unfold frame_pointer, vesp, frame_on_stack; rewrite Ek; cbn [app length]; lia).
    destruct (frame_pointer_range _ _ _ Hst) as (Hr & _ & _).
    pose proof (st_low _ _ _ Hst). pose proof (st_high _ _ _ Hst). pose proof (st_room _ _ _ Hst).
    set (c4 := put_reg ESP (frame_pointer c top) _).
    assert (sim (frame_pointer c top) top c4 c4 (frame_on_stack c)) as Hsim.
    { rewrite <- Hw. change (frame_pointer c top) with (esp c4) at 1 2.
      apply (sim_start (esp c4) top c4 3); change (esp c4) with (frame_pointer c top); lia. }
    unfold frame_on_stack in Hsim. rewrite Ek in Hsim. cbn [app] in Hsim.
    rewrite (iret_same _ _ _ _ _ _ _ _ Hsim).
    2:{ unfold ring0 in *. change (c_cs c4) with (c_cs c2).
        apply Z.eqb_eq in Ek, Hk2. by rewrite Ek, Hk2. }
    rewrite load_flags_image, u16_small by done. f_equal.
    assert (vesp top [] = g_esp (c_gen c)) as ->
      by (unfold vesp; cbn [length]; unfold esp in Ht; lia).
    unfold grounded. cbn [c_mach with_mach put_reg with_gen with_code].
    rewrite set_interrupts_phys. subst c4. destruct gen.
    cbn in Hgen. destruct c as [[] ? ? ? ? ? ?]. cbn in *.
    destruct Hgen as (-> & -> & -> & -> & -> & -> & ->). by rewrite <- Hss2.
  - rewrite (proj2 (Z.eqb_neq _ _)) by (rewrite (st_ring _ _ _ Hst Ek); done).
    unfold frame_seen, frame_on_stack. rewrite Ek.
    cbn [app take frame_of_words nth f_esp f_ss f_cs f_eflags f_eip]. rewrite load_flags_image, !u16_small by done.
    destruct gen, c as [[] ? ? ? ? ? ?]. cbn in *.
    by destruct Hgen as (-> & -> & -> & -> & -> & -> & ->).
Qed.

Lemma regs_seen_ok c lo top :
  core_ok c -> stack_for c lo top ->
  regs_ok (c_seg c) (gen_with_esp (c_gen c) (frame_pointer c top)) (frame_seen c top).
Proof.
  intros Hok Hst. destruct (frame_pointer_range _ _ _ Hst) as (_ & Hfp & _).
  pose proof Hok as [Hg Hs Hss Hcs He _ _]. pose proof (flags_image_word _ Hok) as Hf.
  split; [|split].
  - eapply Forall_impl; [exact Hs|]. unfold word_ok. intros; lia.
  - destruct c as [[] ? ? ? ? ? ?]. unfold words_of_gen in *. cbn in *.
    repeat (apply Forall_cons in Hg as [? Hg]). by repeat (apply Forall_cons; split).
  - assert (Forall word_ok (frame_on_stack c ++ vldws 5 (view (c_mach c)) top)) as Hall.
    { apply Forall_app. split.
      - unfold frame_on_stack. destruct (ring0 c); cbn [app];
          repeat (apply Forall_cons; split); try done; unfold word_ok; try lia.
        destruct c as [[] ? ? ? ? ? ?]. unfold words_of_gen in Hg. cbn in *.
        by repeat (apply Forall_cons in Hg as [? Hg]).
      - cbn [vldws]. repeat (apply Forall_cons; split); try done;
          apply (vld_range 4), view_range. }
    unfold frame_seen, frame_on_stack in *. destruct (ring0 c); cbn [app vldws take] in *;
      repeat (apply Forall_cons in Hall as [? Hall]);
      cbn [frame_of_words words_of_frame nth f_eip f_cs f_eflags f_esp f_ss];
      by repeat (apply Forall_cons; split).
Qed.

Section Preempt.
Context (B : bus) (HB : bus_ok B) (addr_of : handler -> Z) `{!Inj (=) (=) addr_of}
        (ret : Z) (junk : Z * Z * Z * Z).

(** C4. A timer interrupt preempts: with switching enabled and another process in the
    queue, it leaves for the process the round robin gives, in whatever ring
    the running one was interrupted, and the descriptor of the interrupted
    process then holds a context that takes any later core back to exactly the
    interrupted one: registers, segments, flags and interrupt flag.  For a
    process interrupted in the kernel this needs the three words that are still
    on its own kernel stack. *)
Theorem timer_preempts c lo top p ps :
  core_ok c -> stack_for c lo top ->
  gate_at (c_mach c) IRQ_OFFSET = interrupt_gate (addr_of timer_handler_wrapper) ->
  ring (c_mach c) (p :: ps) -> ps <> [] -> Forall (stack_apart lo top) (p :: ps) ->
  current_process (c_mach c) = p -> pstate (c_mach c) p = PROCESS_RUNNING ->
  switching_enabled (c_mach c) <> 0 ->
  exists m' q qs, schedule (pstate (c_mach c)) (p :: ps) = Some (q :: qs) /\
    run_interrupt B addr_of handler_body ret junk IRQ_OFFSET None c
      = Ok (Left m' (context_of (saved m' q))) /\
    current_process m' = q /\ ring m' (q :: qs) /\
    (forall r, r ∈ ps -> saved m' r = saved (c_mach c) r) /\
    (forall r, r ∈ p :: ps -> pstate m' r = pstate (c_mach c) r) /\
    ports m' = ports (c_mach c) ++ [(32, 32)] /\
    forall c2,
      (ring0 c = true -> c_ss c2 = c_ss c /\ ring0 c2 = true /\
         vldws 3 (view (c_mach c2)) (frame_pointer c top) = frame_on_stack c) ->
      resume_context (context_of (saved m' p)) c2
      = Ok (with_mach (set_interrupts (interrupts (c_mach c)) (c_mach c2)) c).
Proof.
  intros Hok Hst Hg Hr Hne Hap Hc Hrun Hsw.
  destruct (timer_run B HB addr_of handler_body ret junk c lo top _ Hok Hst Hg)
    as (m1 & Hso & _ & Hleft & _).
  pose proof (regs_seen_ok _ _ _ Hok Hst) as Hregs.
  assert (forall r, r ∈ p :: ps -> desc_ok r /\ stack_apart lo top r) as Hd.
  { intros r Hin. destruct Hr as (Hd & _). rewrite Forall_forall in Hd, Hap. auto. }
  pose proof Hso as [[_ E] _].
  assert (current_process m1 = p /\ switching_enabled m1 <> 0 /\ ports m1 = ports (c_mach c))
    as (Hc1 & Hsw1 & Hp1) by (by rewrite E).
  assert (forall r, r ∈ p :: ps -> pstate m1 r = pstate (c_mach c) r) as Hst1.
  { intros r Hin. destruct (Hd _ Hin). by apply (stack_only_state lo top). }
  pose proof (stack_only_ring _ _ _ _ Hso _ Hap Hr) as Hr1.
  assert (pstate m1 p = PROCESS_RUNNING) as Hrun1 by (rewrite Hst1 by (by left); done).
  destruct (schedule_running (pstate m1) p ps Hrun1) as (q & qs & Hsch).
  destruct (switch_running m1 p ps q qs _ _ _ Hr1 Hne Hc1 Hrun1 Hregs Hsch)
    as (m' & Esw & Hq & Hr' & Hsv & Hoth & Hf & _ & _ & Hports & _).
  exists m', q, qs. split.
  { rewrite <- Hsch. symmetry. apply rotate_to_ext. intros r Hin. unfold runnable.
    rewrite Hst1; [done|]. rewrite elem_of_app, list_elem_of_singleton in Hin.
    rewrite elem_of_cons. tauto. }
  split.
  { apply Hleft. cbn [handler_body]. unfold timer_handler.
    rewrite (proj2 (Z.eqb_neq _ _) Hsw1). cbn [negb]. by rewrite (bind_ok _ _ _ Esw). }
  split; [done|]. split; [done|]. split; [|split; [|split]].
  - intros r Hin. rewrite Hoth by done. assert (r ∈ p :: ps) as Hin' by (by right).
    destruct (Hd _ Hin'). by apply (stack_only_saved lo top).
  - intros r Hin. destruct (Hf _ Hin) as [-> _]. by apply Hst1.
  - by rewrite Hports, Hp1.
  - intros c2 Hc2. apply (resume_continues _ _ _ lo top Hok Hst); [|done]. rewrite Hsv.
    apply continues_noted. cbn. by destruct (frame_pointer_range _ _ _ Hst) as (_ & _ & ?).
Qed.
End Preempt.

(** ** Exceptions *)

Section Exceptions.
Context (B : bus) (HB : bus_ok B) (addr_of : handler -> Z) `{!Inj (=) (=) addr_of}
        (bodies : handler -> c_handler) (ret : Z) (junk : Z * Z * Z * Z).

Lemma drops_takes h : h <> doublefault_handler_wrapper -> drops_ecode h = takes_ecode h.
Proof. by destruct h. Qed.

(** C28. The wrappers of isr.s, for any C handlers behind them.  One that returns and
    leaves its caller's stack alone is invisible to the interrupted program, with
    and without an error code, in ring 3 and in ring 0, for every wrapper but the one
    of double faults; one that does not return, as kernel_panic, is not returned
    from.  But the wrappers push seven general
    registers where the handlers are declared with eight: in ring 3 a handler
    finds the interrupted eip (or the error code) as esp, the code selector as
    eip, the flags as the code selector, the stack pointer as the flags and the
    stack segment as the stack pointer. *)
Theorem exception_wrappers c lo top vector h ecode :
  core_ok c -> stack_for c lo top -> h <> timer_handler_wrapper ->
  gate_at (c_mach c) vector = interrupt_gate (addr_of h) ->
  exists m1 gen e frame, stack_only lo top (set_interrupts false (c_mach c)) m1 /\
    (ring0 c = false -> (if ecode is Some _ then takes_ecode h = true else takes_ecode h = false) ->
       gen = gen_with_esp (c_gen c) (if ecode is Some e then u32 e else c_eip c) /\
       e = (if ecode is Some _ then c_eip c else 0) /\
       frame = {| f_eip := c_cs c; f_cs := flags_image c; f_eflags := esp c; f_esp := c_ss c;
                  f_ss := vld32 (view (c_mach c)) top |}) /\
    (bodies h (c_seg c) gen e frame m1 = Diverge ->
       run_interrupt B addr_of bodies ret junk vector ecode c = Diverge) /\
    (forall m, bodies h (c_seg c) gen e frame m1 = Ok (m, None) -> keeps lo top m1 m ->
       (if ecode is Some _ then takes_ecode h = true else takes_ecode h = false) ->
       h <> doublefault_handler_wrapper ->
       exists m', stack_only lo top m m' /\
         run_interrupt B addr_of bodies ret junk vector ecode c
         = Ok (Resumed (with_mach (set_interrupts (interrupts (c_mach c)) m') c))).
Proof.
  intros Hok Hst Hh Hg.
  destruct (exception_run B HB addr_of bodies ret junk c lo top vector h ecode Hok Hst Hh Hg)
    as (m1 & Hso & Hdiv & Hret).
  destruct (shifted_args h ecode c top) as [[[seg gen] e] frame] eqn:Ea.
  assert (seg = c_seg c) as -> by (unfold shifted_args in Ea; by injection Ea as <- _ _ _).
  exists m1, gen, e, frame. split; [exact Hso|]. split; [|split; [exact Hdiv|]].
  2:{ intros m E Hk He Hdf. apply (Hret m E Hk). by rewrite !drops_takes. }
  intros Ek Ht. unfold shifted_args, exception_stack, frame_on_stack in Ea. rewrite Ek in Ea.
  destruct ecode; rewrite Ht in Ea; cbn [app nth take drop frame_of_words vldws] in Ea;
    by injection Ea as <- <- <-.
Qed.
End Exceptions.
