(* ===== verification/SwitchAsm.v ===== *)
(** * kernel/proc/process.s: the code of switch_context

    The code refines the function the C files are modelled with: called with its
    arguments on the stack it acknowledges the interrupt, loads the directory
    and goes on with the context. *)

From S2P Require Export WrapperLemmas.

#[local] Open Scope Z_scope.

Lemma pushes_sim lo top w c v l :
  sim lo top c v l -> lo + 4 * Z.of_nat (length w) <= vesp top l -> Forall word_ok w ->
  exists c', pushes w c = Ok c' /\ sim lo top c' v (reverse w ++ l).
Proof.
  revert c l; induction w as [|x w IH]; intros c l H Hr Hw; [by exists c|].
  apply Forall_cons in Hw as [Hx Hw]. cbn [length] in Hr.
  destruct (sim_push_word _ _ _ _ _ x H) as (c1 & E1 & H1); [lia|done|].
  destruct (IH c1 (x :: l) H1) as (c' & E' & H'); [unfold vesp in *; cbn [length]; lia|done|].
  exists c'. cbn [pushes]. rewrite (bind_ok _ _ _ E1). split; [exact E'|].
  by rewrite reverse_cons, <- app_assoc.
Qed.

(** The zero flag after a comparison with zero. *)
Lemma ZF_cmp0 a f c : ZF (with_flags (flags_cmp0 a f) c) = (a =? 0).
Proof.
  unfold ZF, flags_cmp0, status. cbn [c_flags with_flags].
  rewrite Z.lor_spec, Z.ldiff_spec. change (Z.testbit 2261 6) with true.
  rewrite andb_false_r, orb_false_l.
  by destruct (parity a), (a =? 0), (Z.testbit a 31).
Qed.

(** [iret] loads the flags. *)
Lemma pop_flags f c : pop (with_flags f c) = '(w, c) ← pop c; mret (w, with_flags f c).
Proof.
  unfold pop. change (c_mach (with_flags f c)) with (c_mach c).
  change (esp (with_flags f c)) with (esp c). by destruct (ld32 (c_mach c) (esp c)).
Qed.

Lemma iret_flags f c : iret (with_flags f c) = iret c.
Proof.
  unfold iret. rewrite pop_flags. destruct (pop c) as [[w1 c1]| |]; [bnd|done|done].
  rewrite pop_flags. destruct (pop c1) as [[w2 c2]| |]; [bnd|done|done].
  rewrite pop_flags. destruct (pop c2) as [[w3 c3]| |]; [bnd|done|done].
  change (c_cs (with_flags f c3)) with (c_cs c3).
  destruct (_ =? _); [done|]. destruct (_ <? _); [|done].
  rewrite pop_flags. destruct (pop c3) as [[w4 c4]| |]; [bnd|done|done].
  rewrite pop_flags. by destruct (pop c4) as [[w5 c5]| |].
Qed.

Lemma iret_flags_eq f c c' : c = with_flags f c' -> iret c = iret c'.
Proof. intros ->. apply iret_flags. Qed.

Section Jumps.
Context (B : bus) (callee : core -> res (core + machine * context)).

Lemma exec_jne fuel n code c :
  exec B callee (Datatypes.S fuel) (Jne n :: code) c
  = exec B callee fuel (if ZF c then code else after n code) c.
Proof. done. Qed.
Lemma exec_jmp fuel n code c :
  exec B callee (Datatypes.S fuel) (Jmp n :: code) c = exec B callee fuel (after n code) c.
Proof. done. Qed.
Lemma exec_iret fuel c :
  exec B callee (Datatypes.S fuel) [Iret] c = c ← iret c; mret (Resumed c).
Proof. done. Qed.
Lemma exec_pop_esp fuel code c :
  exec B callee (Datatypes.S fuel) (Pop ESP :: code) c
  = c ← ('(w, c) ← pop c; mret (put_reg ESP w c)); exec B callee fuel code c.
Proof. done. Qed.
Lemma exec_sti fuel code c :
  exec B callee (Datatypes.S fuel) (Sti :: code) c
  = exec B callee fuel code (with_mach (set_interrupts true (c_mach c)) c).
Proof. done. Qed.
Lemma exec_label fuel n code c :
  exec B callee (Datatypes.S fuel) (Label n :: code) c = exec B callee fuel code c.
Proof. done. Qed.
End Jumps.

(** Straight-line code up to the test of the saved stack pointer. *)
Definition switch_prefix : list instr :=
  [AddEsp 4; MovReg EBP ESP; MovAL 32; OutImm 32; Load EAX 68; MovCr3] ++
  pop_seg ++ pop_gen ++ [CmpTop0].
Definition switch_suffix : list instr :=
  [Jne 1; AddEsp 4; Jmp 2; Label 1; Pop ESP; Label 2; Sti; Iret].

Definition popped_segs (s : seg_register_set) : seg_register_set :=
  {| s_ds := u16 (s_ds s); s_es := u16 (s_es s); s_fs := u16 (s_fs s); s_gs := u16 (s_gs s) |}.

(** The core before the test. *)
Definition switch_core (seg : seg_register_set) (gen : gen_register_set) (pd : Z) (c : core) : core :=
  with_seg (popped_segs seg) (with_gen gen
    (with_mach (set_cr3 pd (set_ports (ports (c_mach c) ++ [(32, 32)]) (c_mach c))) c)).

Section SwitchCode.
Context (B : bus) (HB : bus_ok B) (lo : Z) (seg : seg_register_set) (gen : gen_register_set)
        (frame : interrupt_frame) (pd ret : Z).

Lemma switch_prefix_runs top c :
  KERNEL_BASE <= vesp top (ret :: switch_arguments seg gen frame pd) -> top < 4294967296 ->
  exists f, vsteps B top switch_prefix (c, ret :: switch_arguments seg gen frame pd)
    = Some (with_flags (flags_cmp0 (g_esp gen) f)
              (put_reg ESP (esp c) (switch_core seg gen pd c)),
            g_esp gen :: words_of_frame frame ++ [pd]).
Proof.
  intros H0 H1. unfold switch_arguments in *.
  unfold vesp, KERNEL_BASE in H0. rewrite ?length_app in H0. cbn [length words_of_seg words_of_gen words_of_frame app] in *.
  exists (flags_add (vesp top (ret :: switch_arguments seg gen frame pd)) 4 (c_flags c)).
  cbn. rewrite (vword_at _ _ _ 17) by (rewrite u32_small; unfold vesp; cbn; lia).
  cbn. unfold switch_core, outportb.
  assert (u8 (low_bits 8 32 (g_eax (c_gen c))) = 32) as -> by (unfold u8, low_bits; lia).
  unfold switch_arguments. by destruct c as [[] [] ? ? ? ? ?], gen.
Qed.

(** The two ways to [iret]: over the frame that was passed ... *)
Lemma exec_to_user callee top c v w l :
  sim lo top c v (w :: l) -> lo + 4 <= vesp top (w :: l) ->
  exists c' f, exec B callee 7 [AddEsp 4; Jmp 2; Label 1; Pop ESP; Label 2; Sti; Iret] c
      = (c ← iret c'; mret (Resumed c)) /\
    sim lo top c' (with_flags f (with_mach (set_interrupts true (c_mach v)) v)) l.
Proof.
  intros H Hr.
  destruct (vsteps_sim lo top B callee [AddEsp 4] [Jmp 2; Label 1; Pop ESP; Label 2; Sti; Iret] 6
    c v (w :: l) _ l HB H Hr eq_refl) as (c1 & E1 & H1).
  assert (lo + 4 <= vesp top l) as Hr1 by (unfold vesp in *; cbn [length] in *; lia).
  destruct (vsteps_sim lo top B callee [Sti] [Iret] 4 c1 _ l _ l HB H1 Hr1 eq_refl)
    as (c2 & E2 & H2).
  exists c2. eexists. split; [|exact H2].
  etrans; [exact E1|]. rewrite exec_jmp. exact E2.
Qed.

(** ... or over the one on the saved stack. *)
Lemma exec_to_kernel callee top c v w l :
  sim lo top c v (w :: l) ->
  exec B callee 7 [Pop ESP; Label 2; Sti; Iret] c
  = (c ← iret (put_reg ESP w (with_mach (set_interrupts true (c_mach c)) c)); mret (Resumed c)).
Proof.
  intros H. rewrite exec_pop_esp. destruct (sim_pop _ _ _ _ _ _ H) as [-> _]. bnd.
  rewrite exec_label, exec_sti, exec_iret. by destruct c as [[]].
Qed.

(** C15. The assembly of switch_context implements its model: called in the kernel with
    its four arguments on the stack, it acknowledges the interrupt, loads the
    page directory and goes on with exactly the context the model gives: through
    the frame it was passed when the saved stack pointer is zero, through the one
    on the saved kernel stack when it is not. *)
Theorem switch_context_refines (callee : core -> res (core + machine * context)) c :
  ring0 c = true -> KERNEL_BASE <= lo -> lo + 256 <= esp c -> esp c < 4294967296 ->
  regs_ok seg gen frame -> word_ok pd -> word_ok ret ->
  (g_esp gen = 0 -> Z.land (f_cs frame) 3 = 3) ->
  let r := switch_context seg gen frame pd (c_mach c) in
  exists m', stack_only lo (esp c) r.1 m' /\
    call_switch_context B callee ret seg gen frame pd c
    = (c' ← resume_context r.2 (with_mach m' c); mret (Resumed c')).
Proof.
  intros Hk Hlo Hr Ht (Hs & Hg & Hf) Hpd Hret Hcs r. unfold call_switch_context.
  set (args := ret :: switch_arguments seg gen frame pd).
  assert (length args = 19%nat) as Hl by done. pose proof Hlo as Hlo'. unfold KERNEL_BASE in Hlo'.
  assert (Forall word_ok (reverse args)) as Hw.
  { apply Forall_reverse. unfold args, switch_arguments. apply Forall_cons. split; [done|].
    rewrite !Forall_app. by rewrite Forall_singleton. }
  assert (sim lo (esp c) c c []) as H by (apply (sim_start lo (esp c) c 0); lia).
  destruct (pushes_sim _ _ (reverse args) c c [] H) as (c1 & -> & H1);
    [rewrite length_reverse, Hl; unfold vesp; cbn; lia|done|]. bnd.
  rewrite reverse_involutive, app_nil_r in H1.
  destruct (switch_prefix_runs (esp c) c) as (f & Hp);
    [unfold vesp; fold args; rewrite Hl; unfold KERNEL_BASE; lia|done|].
  assert (lo + 4 * Z.of_nat (length switch_prefix) <= vesp (esp c) args) as Hroom
    by (unfold vesp; rewrite Hl; cbn; lia).
  destruct (vsteps_sim lo (esp c) B callee switch_prefix switch_suffix 8 _ _ _ _ _ HB H1 Hroom Hp)
    as (c2 & E2 & H2).
  change switch_context_code with (switch_prefix ++ switch_suffix). unfold run.
  rewrite length_app. change (length switch_suffix) with 8%nat. rewrite E2.
  assert (ZF c2 = (g_esp gen =? 0)) as Hz.
  { rewrite (sim_core H2). apply (ZF_cmp0 (g_esp gen) f). }
  unfold switch_suffix. rewrite exec_jne, Hz. clear Hp E2 H1 H Hw.
  assert (u32 pd = pd) as Epd by (by apply u32_small). unfold r, switch_context. rewrite Epd.
  unfold resume_context. cbn [fst snd ctx_seg ctx_gen ctx_resume]. fold (popped_segs seg).
  destruct (Z.eqb_spec (g_esp gen) 0) as [E0|E0]; cbn [after Nat.eqb].
  - destruct (exec_to_user callee _ _ _ _ _ H2) as (c3 & f' & E3 & H3); [unfold vesp; cbn; lia|].
    cbn [words_of_frame app] in H3.
    exists (set_phys (phys (c_mach c3)) (set_interrupts true (c_mach (switch_core seg gen pd c)))).
    split.
    { split; [split; [exact (sim_phys H3)|done]|exact (sim_view H3)]. }
    rewrite E3, (iret_outer _ _ _ _ _ _ _ _ _ _ H3); [by destruct c as [[] ? ? ? ? ? ?]|].
    rewrite (Hcs E0). apply Z.eqb_eq in Hk. change (Z.land (c_cs c) 3 < 3). lia.
  - rewrite (exec_to_kernel callee _ _ _ _ _ H2).
    exists (set_phys (phys (c_mach c2)) (set_interrupts true (c_mach (switch_core seg gen pd c)))).
    split.
    { split; [split; [exact (sim_phys H2)|done]|exact (sim_view H2)]. }
    rewrite (iret_flags_eq (flags_cmp0 (g_esp gen) f) _ (put_reg ESP (g_esp gen)
      (with_seg (popped_segs seg) (with_gen gen (with_mach (set_phys (phys (c_mach c2))
        (set_interrupts true (c_mach (switch_core seg gen pd c)))) c))))); [done|].
    rewrite (sim_eta _ _ _ _ _ H2) at 1 2. by destruct c as [[] ? ? ? ? ? ?].
Qed.
End SwitchCode.
