(* ===== verification/WrapperWitness.v ===== *)
(** * A core in ring 3 on a machine with two processes, interrupted *)

From S2P Require Export ProcessWitness WrapperProps SwitchAsm.

#[local] Open Scope Z_scope.

(** The wrappers, 16 bytes apart. *)
Definition wrapper_index (h : handler) : Z :=
  match h with
  | divbyzero_handler_wrapper => 0 | debug_handler_wrapper => 1 | nonmask_handler_wrapper => 2
  | breakpoint_handler_wrapper => 3 | overflow_handler_wrapper => 4
  | boundrange_handler_wrapper => 5 | invalop_handler_wrapper => 6
  | nodevice_handler_wrapper => 7 | doublefault_handler_wrapper => 8
  | invaltss_handler_wrapper => 9 | nosegment_handler_wrapper => 10
  | stackseg_handler_wrapper => 11 | genprotection_handler_wrapper => 12
  | pagefault_handler_wrapper => 13 | timer_handler_wrapper => 14
  end.
Definition wrapper_addr (h : handler) : Z := 3222274048 + 16 * wrapper_index h.

#[export] Instance wrapper_addr_inj : Inj (=) (=) wrapper_addr.
Proof. intros h h' E. unfold wrapper_addr in E. by destruct h, h'; cbn in E; try lia. Qed.

(** The table at 4 MiB with the gates of the timer and of page faults, and the
    stack of a call of outportb at 5 MiB. *)
Definition gate_low (h : handler) : Z := wrapper_addr h mod 65536 + 65536 * 8.
Definition gate_high (h : handler) : Z := 36352 + 65536 * (wrapper_addr h / 65536).
Definition core_word (a : Z) : Z :=
  if a =? 4194304 + 8 * 32 then gate_low timer_handler_wrapper
  else if a =? 4194304 + 8 * 32 + 4 then gate_high timer_handler_wrapper
  else if a =? 4194304 + 8 * 14 then gate_low pagefault_handler_wrapper
  else if a =? 4194304 + 8 * 14 + 4 then gate_high pagefault_handler_wrapper
  else if a =? 5242884 then 67 else if a =? 5242888 then 52
  else ring_word 0 0 a.

Definition core_machine : machine :=
  set_interrupts true (set_gdt (init_gdt 3222278144 3222282240 gdt_boot)
    (set_idt (KERNEL_BASE + 4194304) {| idtr_size := 2047; idtr_offset := KERNEL_BASE + 4194304 |}
      (set_switching 1 (set_current desc0 (boot_machine (image core_word) 1048576))))).

Definition user_core : core :=
  Core (gen_of_words [1; 2; 3; 4; 5; 6; 7; 8188]) (seg_of_words [35; 35; 35; 35]) 35 27 4096 70
    core_machine.
Definition kernel_core_at (sp : Z) : core :=
  Core (gen_of_words [1; 2; 3; 4; 5; 6; 7; sp]) (seg_of_words [16; 16; 16; 16]) 16 8 3222274100 2
    core_machine.

Definition idle_bus : bus :=
  {| bus_inb _ m := (0, m); bus_inw _ m := (0, m); bus_outw _ _ m := m |}.
Lemma idle_bus_ok : bus_ok idle_bus.
Proof. by split. Qed.

Lemma user_core_ok : core_ok user_core.
Proof. split; repeat (apply Forall_cons; split); try done; by vm_compute. Qed.
Lemma kernel_core_ok sp : word_ok sp -> core_ok (kernel_core_at sp).
Proof. intros H. split; repeat (apply Forall_cons; split); try done; by vm_compute. Qed.

(** The stack the task state segment names. *)
Definition esp0_top : Z := 3489660924.
Lemma user_core_stack : stack_for user_core (esp0_top - 256) esp0_top.
Proof. by split; vm_compute. Qed.

Lemma core_machine_ring : ring core_machine [desc0; desc1].
Proof.
  destruct (ring_machine_ring 0 0) as (Hd & Hn & Ha & _). split; [done|]. split; [done|].
  split; [done|]. by vm_compute.
Qed.

Lemma core_machine_gates :
  gate_at core_machine IRQ_OFFSET = interrupt_gate (wrapper_addr timer_handler_wrapper) /\
  gate_at core_machine 14 = interrupt_gate (wrapper_addr pagefault_handler_wrapper).
Proof. by split; vm_compute. Qed.

Lemma port_routines_witness :
  exists s, run idle_bus (fun _ => Undef) outportb_code (kernel_core_at (KERNEL_BASE + 5242880)) = Ok s /\
    back_with (kernel_core_at (KERNEL_BASE + 5242880)) 7 (outportb 67 52 core_machine) s.
Proof.
  destruct (port_routines idle_bus (fun _ => Undef) (kernel_core_at (KERNEL_BASE + 5242880)) 67
    idle_bus_ok) as [H _]; [by apply kernel_core_ok|].
  apply (H 52). by split; [|split]; vm_compute.
Defined.

(** Switching off, the interrupt is invisible. *)
Definition idle_core : core := with_mach (set_switching 0 core_machine) user_core.

Lemma timer_interrupt_transparent_witness :
  exists m', run_interrupt idle_bus wrapper_addr handler_body 3222274060 (9, 9, 9, 9) IRQ_OFFSET None idle_core
      = Ok (Resumed (with_mach m' idle_core)) /\
    stack_only (esp0_top - 256) esp0_top
      (set_ports (ports (c_mach idle_core) ++ [(32, 32)]) (c_mach idle_core)) m'.
Proof.
  apply (timer_interrupt_transparent idle_bus idle_bus_ok wrapper_addr);
    [by destruct user_core_ok|by split; vm_compute|by vm_compute|by left|by left; vm_compute].
Defined.

(** Switching on, the second process goes on, and the first can be resumed. *)
Lemma timer_preempts_witness :
  exists m' q qs, schedule (pstate core_machine) [desc0; desc1] = Some (q :: qs) /\
    run_interrupt idle_bus wrapper_addr handler_body 3222274060 (9, 9, 9, 9) IRQ_OFFSET None user_core
      = Ok (Left m' (context_of (saved m' q))) /\
    current_process m' = q /\ ring m' (q :: qs) /\
    (forall r, r ∈ [desc1] -> saved m' r = saved core_machine r) /\
    (forall r, r ∈ [desc0; desc1] -> pstate m' r = pstate core_machine r) /\
    ports m' = [] ++ [(32, 32)] /\
    forall c2,
      (ring0 user_core = true -> c_ss c2 = 35 /\ ring0 c2 = true /\
         vldws 3 (view (c_mach c2)) (frame_pointer user_core esp0_top) = frame_on_stack user_core) ->
      resume_context (context_of (saved m' desc0)) c2
      = Ok (with_mach (set_interrupts true (c_mach c2)) user_core).
Proof.
  apply (timer_preempts idle_bus idle_bus_ok wrapper_addr 3222274060 (9, 9, 9, 9) user_core
    (esp0_top - 256) esp0_top desc0 [desc1]);
    [exact user_core_ok|exact user_core_stack|exact (proj1 core_machine_gates)
    |exact core_machine_ring|discriminate| |reflexivity|by vm_compute|discriminate].
  repeat (apply Forall_cons; split); [by left; vm_compute|by left; vm_compute|done].
Defined.

(** A page fault whose handler returns. *)
Definition quiet_bodies (h : handler) : c_handler := fun _ _ _ _ m => Ok (m, None).

Lemma exception_wrappers_witness :
  exists m1 gen e frame, stack_only (esp0_top - 256) esp0_top (set_interrupts false core_machine) m1 /\
    (ring0 user_core = false -> takes_ecode pagefault_handler_wrapper = true ->
       gen = gen_with_esp (c_gen user_core) 4 /\ e = 4096 /\
       frame = {| f_eip := 27; f_cs := flags_image user_core; f_eflags := 8188; f_esp := 35;
                  f_ss := vld32 (view core_machine) esp0_top |}) /\
    (quiet_bodies pagefault_handler_wrapper (c_seg user_core) gen e frame m1 = Diverge ->
       run_interrupt idle_bus wrapper_addr quiet_bodies 3222274060 (9, 9, 9, 9) 14 (Some 4) user_core
       = Diverge) /\
    (forall m, quiet_bodies pagefault_handler_wrapper (c_seg user_core) gen e frame m1 = Ok (m, None) ->
       keeps (esp0_top - 256) esp0_top m1 m -> takes_ecode pagefault_handler_wrapper = true ->
       pagefault_handler_wrapper <> doublefault_handler_wrapper ->
       exists m', stack_only (esp0_top - 256) esp0_top m m' /\
         run_interrupt idle_bus wrapper_addr quiet_bodies 3222274060 (9, 9, 9, 9) 14 (Some 4) user_core
         = Ok (Resumed (with_mach (set_interrupts true m') user_core))).
Proof.
  apply (exception_wrappers idle_bus idle_bus_ok wrapper_addr quiet_bodies 3222274060 (9, 9, 9, 9)
    user_core (esp0_top - 256) esp0_top 14 pagefault_handler_wrapper (Some 4));
    [exact user_core_ok|exact user_core_stack|discriminate|exact (proj2 core_machine_gates)].
Defined.

(** switch_context called on a kernel stack, for a process to resume in ring 3. *)
Lemma switch_context_refines_witness :
  let gen := gen_of_words [1; 2; 3; 4; 5; 6; 7; 0] in
  let r := switch_context zero_seg gen user_frame 1048576 core_machine in
  exists m', stack_only (KERNEL_BASE + 5242880) (KERNEL_BASE + 5246976) r.1 m' /\
    call_switch_context idle_bus (fun _ => Undef) 3222274060 zero_seg gen user_frame 1048576
      (kernel_core_at (KERNEL_BASE + 5246976))
    = (c' ← resume_context r.2 (with_mach m' (kernel_core_at (KERNEL_BASE + 5246976))); mret (Resumed c')).
Proof.
  apply (switch_context_refines idle_bus idle_bus_ok (KERNEL_BASE + 5242880) zero_seg
    (gen_of_words [1; 2; 3; 4; 5; 6; 7; 0]) user_frame 1048576 3222274060 (fun _ => Undef)
    (kernel_core_at (KERNEL_BASE + 5246976))); try done.
  split; [|split]; repeat (apply Forall_cons; split); try done.
Defined.
