(* ===== verification/Print.v ===== *)
(** * boot/x86/print.c: formatted output

    [print] on any memory, with the output function that [outb] points to as a parameter.
    Characters are bytes; the arguments of the call are a list of words, one for
    each [va_arg], and reading past its end is undefined. *)

From S2P Require Export Store.

#[local] Open Scope Z_scope.

Definition va_arg (args : list Z) : res (Z * list Z) :=
  match args with
  | [] => Undef
  | a :: args => Ok (a, args)
  end.

(** Hex code characters *)
Definition hex_chars (i : Z) : Z := if i <? 10 then 48 + i else 55 + i.

Section Print.
Context {S : Type} {HS : Store S} (outb : Z -> S -> res S).

(** The length and the reversal of an integer. *)
Definition reverse_body : Z * Z * Z -> res (Z * Z * Z + Z * Z) :=
  fun '(sign_integer, reversed_int, integer_len) =>
    if sign_integer >? 0 then
      reversed_int ← to_int (reversed_int * 10);
      reversed_int ← to_int (reversed_int + sign_integer mod 10);
      mret (inl (sign_integer / 10, reversed_int, integer_len + 1))
    else mret (inr (reversed_int, integer_len)).

Definition print_decimal (sign_integer : Z) (s : S) : res S :=
  (* Output sign if present *)
  '(s, sign_integer) ←
    (if sign_integer <? 0 then
       s ← outb 45 s; n ← to_int (- sign_integer); mret (s, n)
     else mret (s, sign_integer));
  (* Get length of integer and reverse integer *)
  '(reversed_int, integer_len) ← loop reverse_body (sign_integer, 0, 0);
  let integer_len := if integer_len =? 0 then 1 else integer_len in
  (* Output in decimal *)
  loop (fun '(dec_place, reversed_int, s) =>
    if dec_place >=? 0 then
      s ← outb (hex_chars (reversed_int mod 10)) s;
      mret (inl (dec_place - 1, reversed_int / 10, s))
    else mret (inr s)) (integer_len - 1, reversed_int, s).

(** [for (place = top; place >= 0; place--) outb(...)] *)
Definition print_places (top : Z) (c : Z -> Z) (s : S) : res S :=
  loop (fun '(place, s) =>
    if place >=? 0 then s ← outb (c place) s; mret (inl (place - 1, s))
    else mret (inr s)) (top, s).

Definition print_hex (sub_integer : Z) : S -> res S :=
  print_places 7 (fun hex_place => hex_chars (Z.land (Z.shiftr sub_integer (hex_place * 4)) 15)).

Definition print_binary (sub_integer : Z) : S -> res S :=
  print_places 31 (fun bin_place =>
    if negb (Z.land (Z.shiftr sub_integer bin_place) 1 =? 0) then 49 else 48).

(** Print the string: the test is on the pointer. *)
Definition print_string (nstr : Z) (s : S) : res S :=
  loop (fun '(nstr, s) =>
    if negb (nstr =? 0) then
      c ← rd8 s nstr; s ← outb c s; mret (inl (u32 (nstr + 1), s))
    else mret (inr s)) (nstr, s).

(** Process substitution *)
Definition substitute (cur_char : Z) (args : list Z) (s : S) : res (S * list Z) :=
  if cur_char =? 99 then
    '(a, args) ← va_arg args; s ← outb (u8 a) s; mret (s, args)
  else if cur_char =? 100 then
    '(a, args) ← va_arg args; s ← print_decimal (i32 a) s; mret (s, args)
  else if cur_char =? 115 then
    '(a, args) ← va_arg args; s ← print_string a s; mret (s, args)
  else if cur_char =? 120 then
    '(a, args) ← va_arg args; s ← print_hex a s; mret (s, args)
  else if cur_char =? 98 then
    '(a, args) ← va_arg args; s ← print_binary a s; mret (s, args)
  else if cur_char =? 37 then
    s ← outb 37 s; mret (s, args)
  else mret (s, args).

(** Print all characters: one iteration. *)
Definition print_body (format : Z) : S * list Z * bool * Z * Z -> res (S * list Z * bool * Z * Z + S) :=
  fun '(s, args, substituting, offset, cur_char) =>
    if negb (cur_char =? 0) then
      '(s, args, substituting) ←
        (if substituting : bool then
           '(s, args) ← substitute cur_char args s; mret (s, args, false)
         else if cur_char =? 37 then mret (s, args, true)
         else s ← outb cur_char s; mret (s, args, false));
      let offset := offset + 1 in
      cur_char ← rd8 s (u32 (format + offset));
      mret (inl (s, args, substituting, offset, cur_char))
    else mret (inr s).

Definition print (format : Z) (args : list Z) (s : S) : res S :=
  cur_char ← rd8 s format;
  loop (print_body format) (s, args, false, 0, cur_char).

(** ** Specification: what is output *)

(** Output of a list of characters. *)
Fixpoint outs (l : list Z) (s : S) : res S :=
  match l with
  | [] => Ok s
  | c :: l => s ← outb c s; outs l s
  end.
End Print.

(** [outb]: a null pointer until [set_outb]; a call through it is undefined then. *)
Definition outb_pointer (S : Type) : Type := option (Z -> S -> res S).
Definition set_outb {S} (func : Z -> S -> res S) (outb : outb_pointer S) : outb_pointer S := Some func.
Definition call_outb {S} (outb : outb_pointer S) : Z -> S -> res S :=
  match outb with
  | Some func => func
  | None => fun _ _ => Undef
  end.

(** The [k] lowest decimal digits, lowest first. *)
Fixpoint low_digits (k : nat) (n : Z) : list Z :=
  match k with
  | O => []
  | S k => n mod 10 :: low_digits k (n / 10)
  end.

(** How many digits a number below [10 ^ fuel] has. *)
Fixpoint digit_count (fuel : nat) (n : Z) : nat :=
  match fuel with
  | O => O
  | S fuel => if n >? 0 then S (digit_count fuel (n / 10)) else O
  end.

(** The decimal digits, highest first. *)
Definition decimal_digits (n : Z) : list Z := rev (low_digits (Nat.max 1 (digit_count 10 n)) n).

Definition decimal (n : Z) : list Z :=
  (if n <? 0 then [45] else []) ++ (hex_chars <$> decimal_digits (Z.abs n)).

(** The value of digits in a base. *)
Definition value (base : Z) (l : list Z) : Z := foldl (fun acc d => acc * base + d) 0 l.

(** The digits [k - 1] to 0 of [n] in the base [2 ^ w]. *)
Fixpoint high_digits (w : Z) (k : nat) (n : Z) : list Z :=
  match k with
  | O => []
  | S k => n / 2 ^ (w * Z.of_nat k) mod 2 ^ w :: high_digits w k n
  end.

(** What one directive prints; [%s] is left out. *)
Definition directive (c : Z) (args : list Z) : option (list Z * list Z) :=
  if c =? 115 then None
  else if c =? 99 then match args with a :: args => Some ([u8 a], args) | [] => None end
  else if c =? 100 then
    match args with
    | a :: args => if Z.abs (i32 a) <? 10 ^ 9 then Some (decimal (i32 a), args) else None
    | [] => None
    end
  else if c =? 120 then
    match args with a :: args => Some (hex_chars <$> high_digits 4 8 a, args) | [] => None end
  else if c =? 98 then
    match args with a :: args => Some (hex_chars <$> high_digits 1 32 a, args) | [] => None end
  else if c =? 37 then Some ([37], args)
  else Some ([], args).

Fixpoint render (fmt : list Z) (args : list Z) : option (list Z) :=
  match fmt with
  | [] => Some []
  | c :: fmt =>
      if c =? 37 then
        match fmt with
        | [] => Some []
        | d :: fmt =>
            '(out, args) ← directive d args;
            rest ← render fmt args;
            Some (out ++ rest)
        end
      else rest ← render fmt args; Some (c :: rest)
  end.
