(* ===== verification/PrintProps.v ===== *)
(** * Properties of formatted output

    Numbers are printed as digits with the right value, and print is the
    rendering of its format string, for any output function that leaves the
    format string alone. *)

From S2P Require Export Print.

#[local] Open Scope Z_scope.

(** ** Digits *)

Lemma low_digits_snoc k n : 0 <= n -> low_digits (S k) n = low_digits k n ++ [n / 10 ^ Z.of_nat k mod 10].
Proof.
  revert n; induction k as [|k IH]; intros n Hn.
  - cbn. by rewrite Z.div_1_r.
  - change (low_digits (S (S k)) n) with (n mod 10 :: low_digits (S k) (n / 10)).
    rewrite IH by lia. cbn [low_digits app]. do 3 f_equal.
    rewrite Z.div_div by (try lia; apply Z.pow_pos_nonneg; lia).
    replace (Z.of_nat (S k)) with (Z.of_nat k + 1) by lia.
    rewrite Z.pow_add_r by lia. do 2 f_equal. lia.
Qed.

Lemma low_digits_range k n : Forall (fun d => 0 <= d < 10) (low_digits k n).
Proof.
  revert n; induction k as [|k IH]; intros n; cbn; [done|]. constructor; [|done].
  apply Z.mod_pos_bound. lia.
Qed.

Lemma low_digits_length k n : length (low_digits k n) = k.
Proof. revert n; induction k as [|k IH]; intros n; cbn; [done|]. by rewrite IH. Qed.

Lemma value_snoc base l d : value base (l ++ [d]) = value base l * base + d.
Proof. unfold value. by rewrite foldl_app. Qed.

(** Reading back digits, highest first. *)
Lemma value_low_digits k n : 0 <= n < 10 ^ Z.of_nat k -> value 10 (rev (low_digits k n)) = n.
Proof.
  revert n; induction k as [|k IH]; intros n Hn; [cbn in *; lia|].
  cbn [low_digits rev]. rewrite value_snoc, IH; [lia|].
  replace (Z.of_nat (S k)) with (Z.of_nat k + 1) in Hn by lia.
  rewrite Z.pow_add_r in Hn by lia. lia.
Qed.

Lemma digit_count_spec fuel n :
  0 <= n < 10 ^ Z.of_nat fuel ->
  n < 10 ^ Z.of_nat (digit_count fuel n) /\
  (0 < n -> 10 ^ (Z.of_nat (digit_count fuel n) - 1) <= n) /\ (digit_count fuel n <= fuel)%nat.
Proof.
  revert n; induction fuel as [|fuel IH]; intros n Hn; [cbn in *; lia|].
  cbn [digit_count]. destruct (Z.gtb_spec n 0) as [Hp|]; [|cbn; lia].
  replace (Z.of_nat (S fuel)) with (Z.of_nat fuel + 1) in Hn by lia.
  rewrite Z.pow_add_r in Hn by lia.
  destruct (IH (n / 10)) as (H1 & H2 & H3); [lia|].
  set (c := digit_count fuel (n / 10)) in *.
  replace (Z.of_nat (S c)) with (Z.of_nat c + 1) by lia. rewrite Z.pow_add_r by lia.
  split; [lia|]. split; [|lia]. intros _. replace (Z.of_nat c + 1 - 1) with (Z.of_nat c) by lia.
  destruct (decide (n / 10 = 0)) as [Hz|Hz].
  - assert (c = 0%nat) as ->; [|cbn; lia]. unfold c. rewrite Hz. by destruct fuel.
  - specialize (H2 ltac:(lia)).
    destruct c as [|c']; [cbn in *; lia|].
    replace (Z.of_nat (S c')) with (Z.of_nat (S c') - 1 + 1) by lia.
    rewrite Z.pow_add_r by lia. lia.
Qed.

Lemma value_high_digits w k n :
  0 <= w -> 0 <= n < 2 ^ (w * Z.of_nat k) -> value (2 ^ w) (high_digits w k n) = n.
Proof.
  intros Hw Hn.
  assert (forall j, (j <= k)%nat -> forall acc,
    foldl (fun acc d => acc * 2 ^ w + d) acc (high_digits w j n) =
      acc * 2 ^ (w * Z.of_nat j) + n mod 2 ^ (w * Z.of_nat j)) as H.
  { induction j as [|j IH]; intros Hj acc.
    - cbn [high_digits foldl]. rewrite Z.mul_0_r, Z.pow_0_r, Z.mod_1_r. lia.
    - cbn [high_digits foldl]. rewrite IH by lia.
      replace (w * Z.of_nat (S j)) with (w * Z.of_nat j + w) by lia.
      pose proof (pow2_pos w Hw). pose proof (pow2_pos (w * Z.of_nat j) ltac:(lia)).
      rewrite Z.pow_add_r, Z.rem_mul_r by lia. ring. }
  unfold value. rewrite H by lia. rewrite Z.mod_small by done. lia.
Qed.

Lemma high_digits_range w k n : 0 <= w -> Forall (fun d => 0 <= d < 2 ^ w) (high_digits w k n).
Proof.
  intros Hw. induction k as [|k IH]; cbn; constructor; [|done].
  apply Z.mod_pos_bound, pow2_pos, Hw.
Qed.

Lemma high_digits_length w k n : length (high_digits w k n) = k.
Proof. induction k as [|k IH]; cbn; [done|]. by rewrite IH. Qed.

(** ** The digit loops *)

(** The reversal loop: after it the reversed number holds the digits of [n] in
    the opposite order. *)
Lemma reverse_loop n :
  0 <= n < 10 ^ 9 ->
  exists r, loop reverse_body (n, 0, 0) = Ok (r, Z.of_nat (digit_count 10 n)) /\
    0 <= r < 10 ^ Z.of_nat (digit_count 10 n) /\
    low_digits (digit_count 10 n) r = rev (low_digits (digit_count 10 n) n).
Proof.
  intros Hn. destruct (digit_count_spec 10 n) as (Hc1 & Hc2 & _); [cbn; lia|].
  set (c := digit_count 10 n) in *.
  destruct (loop_total reverse_body (fun '(m, r, len) => exists k, (k <= c)%nat /\
      m = n / 10 ^ Z.of_nat k /\ len = Z.of_nat k /\ 0 <= r < 10 ^ Z.of_nat k /\
      low_digits k r = rev (low_digits k n))
    (fun '(m, r, len) => 100 - len)
    (fun '(r, len) => len = Z.of_nat c /\ 0 <= r < 10 ^ Z.of_nat c /\
       low_digits c r = rev (low_digits c n)) (n, 0, 0)) as ([r len] & E & -> & Hr).
  - exists 0%nat. split; [lia|]. split; [by rewrite Z.div_1_r|]. split; [done|]. split; [cbn; lia|done].
  - rewrite budget_eq. lia.
  - intros [[m r] len] (k & Hk & -> & -> & Hr & Hd).
    assert (0 <= Z.of_nat c <= 9) as Hc9.
    { split; [lia|]. destruct (decide (0 < n)) as [Hp|Hp].
      - specialize (Hc2 Hp). destruct (decide (Z.of_nat c <= 9)) as [|Hgt]; [done|].
        assert (10 ^ 9 <= 10 ^ (Z.of_nat c - 1)) by (apply Z.pow_le_mono_r; lia). lia.
      - assert (n = 0) as Hz by lia. unfold c. rewrite Hz. cbn. lia. }
    split; [lia|]. unfold reverse_body.
    assert (0 < 10 ^ Z.of_nat k) as Hpk by (apply Z.pow_pos_nonneg; lia).
    destruct (Z.gtb_spec (n / 10 ^ Z.of_nat k) 0) as [Hgt|Hle].
    + assert (k < c)%nat as Hkc.
      { destruct (decide (k = c)) as [->|]; [|lia].
        assert (n / 10 ^ Z.of_nat c = 0) by (apply Z.div_small; lia). lia. }
      assert (10 * 10 ^ Z.of_nat k <= 10 ^ 9) as Hb.
      { replace (10 * 10 ^ Z.of_nat k) with (10 ^ (Z.of_nat k + 1))
          by (rewrite Z.pow_add_r by lia; lia).
        apply Z.pow_le_mono_r; lia. }
      set (d := n / 10 ^ Z.of_nat k mod 10).
      assert (0 <= d < 10) as Hdr by (apply Z.mod_pos_bound; lia).
      unfold to_int. replace ((- 2 ^ 31 <=? r * 10) && (r * 10 <? 2 ^ 31)) with true by lia. bnd.
      replace ((- 2 ^ 31 <=? r * 10 + d) && (r * 10 + d <? 2 ^ 31)) with true by lia. bnd.
      eexists; split; [done|]. cbn beta iota. split; [|lia].
      exists (S k). replace (Z.of_nat (S k)) with (Z.of_nat k + 1) by lia.
      rewrite Z.pow_add_r by lia. split; [lia|]. split; [by rewrite Z.div_div by lia|].
      split; [done|]. split; [lia|].
      rewrite (low_digits_snoc k n) by lia. fold d. rewrite rev_app_distr. cbn [rev app low_digits].
      replace ((r * 10 + d) mod 10) with d by lia. replace ((r * 10 + d) / 10) with r by lia.
      by rewrite Hd.
    + eexists; split; [done|]. cbn beta iota.
      assert (k = c) as ->; [|by split].
      destruct (decide (k = c)) as [|Hne]; [done|]. exfalso.
      destruct (decide (0 < n)) as [Hp|Hp].
      * specialize (Hc2 Hp).
        assert (10 ^ Z.of_nat k <= 10 ^ (Z.of_nat c - 1)) by (apply Z.pow_le_mono_r; lia).
        assert (1 <= n / 10 ^ Z.of_nat k) by (apply Z.div_le_lower_bound; lia). lia.
      * assert (n = 0) as Hz by lia. unfold c in *. rewrite Hz in *. cbn in Hk, Hne. lia.
  - exists r. by split.
Qed.

(** ** Output loops *)

(** The values of [c] at the places [k - 1] to 0. *)
Fixpoint places (c : Z -> Z) (k : nat) : list Z :=
  match k with
  | O => []
  | S k => c (Z.of_nat k) :: places c k
  end.

Section Output.
Context {S : Type} {HS : Store S} (outb : Z -> S -> res S).

Lemma outs_app l1 l2 s : outs outb (l1 ++ l2) s = (s ← outs outb l1 s; outs outb l2 s).
Proof.
  revert s; induction l1 as [|c l1 IH]; intros s; cbn [outs app]; [done|].
  destruct (outb c s); cbn; [apply IH|done|done].
Qed.

(** A loop that outputs one character per iteration and counts down. *)
Lemma places_leaves c k s :
  exists n, (n <= Datatypes.S k)%nat /\
    leaves (fun '(place, s) =>
      if place >=? 0 then s ← outb (c place) s; mret (inl (place - 1, s))
      else mret (inr s)) n (Z.of_nat k - 1, s) (outs outb (places c k) s).
Proof.
  revert s; induction k as [|k IH]; intros s.
  - exists 1%nat. split; [lia|]. by apply leaves_ret.
  - replace (Z.of_nat (Datatypes.S k) - 1) with (Z.of_nat k) by lia. cbn [places outs].
    assert ((Z.of_nat k >=? 0) = true) as Hge by (rewrite Z.geb_leb; apply Z.leb_le, Nat2Z.is_nonneg).
    destruct (outb (c (Z.of_nat k)) s) as [s'| |] eqn:E.
    + destruct (IH s') as (n & Hn & Hl). exists (Datatypes.S n). split; [lia|].
      eapply leaves_next; [|exact Hl]. cbn beta iota. rewrite Hge, E. done.
    + exists 1%nat. split; [lia|]. apply leaves_undef. cbn beta iota. by rewrite Hge, E.
    + exists 1%nat. split; [lia|]. apply leaves_diverge. cbn beta iota. by rewrite Hge, E.
Qed.

Lemma print_places_outs top c k s :
  top = Z.of_nat k - 1 -> top < 2 ^ 32 -> print_places outb top c s = outs outb (places c k) s.
Proof.
  intros -> Hk. destruct (places_leaves c k s) as (n & Hn & Hl). unfold print_places.
  eapply leaves_loop; [exact Hl|]. rewrite budget_eq. lia.
Qed.

Lemma places_high_digits f w k n :
  (forall i, 0 <= i -> f i = hex_chars (n / 2 ^ (w * i) mod 2 ^ w)) ->
  places f k = hex_chars <$> high_digits w k n.
Proof.
  intros Hf. induction k as [|k IH]; cbn; [done|]. by rewrite IH, Hf by lia.
Qed.

Lemma print_hex_outs n s :
  print_hex outb n s = outs outb (hex_chars <$> high_digits 4 8 n) s.
Proof.
  unfold print_hex. rewrite (print_places_outs 7 _ 8) by lia. f_equal.
  apply places_high_digits. intros i Hi. change 15 with (Z.ones 4).
  rewrite Z.land_ones, Z.shiftr_div_pow2 by lia. do 4 f_equal. lia.
Qed.

Lemma print_binary_outs n s :
  print_binary outb n s = outs outb (hex_chars <$> high_digits 1 32 n) s.
Proof.
  unfold print_binary. rewrite (print_places_outs 31 _ 32) by lia. f_equal.
  apply places_high_digits. intros i Hi.
  rewrite land_1, Z.shiftr_div_pow2, Z.mul_1_l by lia. change (2 ^ 1) with 2.
  destruct (Z.eqb_spec (n / 2 ^ i mod 2) 0) as [->|]; [done|].
  by replace (n / 2 ^ i mod 2) with 1 by lia.
Qed.

(** The digits of the reversed number, one per iteration. *)
Lemma decimal_leaves k r s :
  exists n, (n <= Datatypes.S k)%nat /\
    leaves (fun '(dec_place, reversed_int, s) =>
      if dec_place >=? 0 then
        s ← outb (hex_chars (reversed_int mod 10)) s;
        mret (inl (dec_place - 1, reversed_int / 10, s))
      else mret (inr s)) n (Z.of_nat k - 1, r, s) (outs outb (hex_chars <$> low_digits k r) s).
Proof.
  revert r s; induction k as [|k IH]; intros r s.
  - exists 1%nat. split; [lia|]. by apply leaves_ret.
  - replace (Z.of_nat (Datatypes.S k) - 1) with (Z.of_nat k) by lia.
    cbn [low_digits fmap list_fmap outs].
    assert ((Z.of_nat k >=? 0) = true) as Hge by (rewrite Z.geb_leb; apply Z.leb_le, Nat2Z.is_nonneg).
    destruct (outb (hex_chars (r mod 10)) s) as [s'| |] eqn:E.
    + destruct (IH (r / 10) s') as (n & Hn & Hl). exists (Datatypes.S n). split; [lia|].
      eapply leaves_next; [|exact Hl]. cbn beta iota. rewrite Hge, E. done.
    + exists 1%nat. split; [lia|]. apply leaves_undef. cbn beta iota. by rewrite Hge, E.
    + exists 1%nat. split; [lia|]. apply leaves_diverge. cbn beta iota. by rewrite Hge, E.
Qed.

Lemma print_decimal_outs n s :
  Z.abs n < 10 ^ 9 -> print_decimal outb n s = outs outb (decimal n) s.
Proof.
  intros Hn. unfold print_decimal, decimal. rewrite outs_app.
  set (sign := if n <? 0 then [45] else []).
  assert ((if n <? 0 then s ← outb 45 s; n ← to_int (- n); mret (s, n) else mret (s, n))
    = (s ← outs outb sign s; mret (s, Z.abs n))) as ->.
  { unfold sign. destruct (Z.ltb_spec n 0) as [Hlt|Hge]; cbn [outs].
    - unfold to_int. replace ((- 2 ^ 31 <=? - n) && (- n <? 2 ^ 31)) with true by lia.
      replace (Z.abs n) with (- n) by lia. by destruct (outb 45 s).
    - bnd. by rewrite Z.abs_eq by done. }
  destruct (outs outb sign s) as [s'| |]; [|by rewrite !bind_undef|by rewrite !bind_diverge].
  destruct (reverse_loop (Z.abs n)) as (r & Er & Hr0 & Hr); [lia|].
  rewrite (bind_ok (Ok s') (fun s => mret (s, Z.abs n)) s' eq_refl). cbv beta.
  rewrite (bind_ok (mret (s', Z.abs n)) _ (s', Z.abs n) eq_refl). cbv beta iota.
  rewrite (bind_ok _ _ _ Er). cbv beta iota zeta.
  rewrite (bind_ok (Ok s') _ s' eq_refl).
  unfold decimal_digits. set (c := digit_count 10 (Z.abs n)) in *.
  assert (low_digits (Nat.max 1 c) r = rev (low_digits (Nat.max 1 c) (Z.abs n)) /\
    (if Z.of_nat c =? 0 then 1 else Z.of_nat c) = Z.of_nat (Nat.max 1 c)) as [Hd ->].
  { destruct (decide (c = 0%nat)) as [Hc|Hc].
    - destruct (digit_count_spec 10 (Z.abs n)) as (H1 & _); [cbn; lia|]. fold c in H1.
      rewrite Hc in *. cbn in H1, Hr0. replace (Z.abs n) with 0 by lia. by replace r with 0 by lia.
    - replace (Nat.max 1 c) with c by lia. split; [done|]. by zbool. }
  destruct (decimal_leaves (Nat.max 1 c) r s') as (m & Hm & Hl).
  destruct (digit_count_spec 10 (Z.abs n)) as (_ & _ & Hc10); [cbn; lia|]. fold c in Hc10.
  rewrite Hd in Hl. eapply leaves_loop; [exact Hl|]. rewrite budget_eq. lia.
Qed.
End Output.

(** ** Scanning the format string *)

Section Format.
Context {S : Type} {HS : Store S} (outb : Z -> S -> res S).
(** The output function keeps an invariant, and leaves the bytes of some area
    alone, as long as it is given characters of some kind. *)
Context (area good : Z -> Prop) (inv : S -> Prop)
  (Hkeep : forall c s s', good c -> inv s -> outb c s = Ok s' ->
    inv s' /\ forall b, area b -> rd8 s' b = rd8 s b).

Lemma outs_keep l s s' :
  Forall good l -> inv s -> outs outb l s = Ok s' ->
  inv s' /\ forall b, area b -> rd8 s' b = rd8 s b.
Proof.
  intros Hl. revert s; induction Hl as [|c l Hc Hl IH]; intros s Hs; cbn [outs];
    [by intros [= <-]|].
  intros H. apply bind_ok_inv in H as (s1 & E & H).
  destruct (Hkeep _ _ _ Hc Hs E) as [Hs1 Hk1]. destruct (IH _ Hs1 H) as [Hs' Hk].
  split; [done|]. intros b Hb. by rewrite Hk, Hk1.
Qed.

(** The rest of a zero-terminated string, from the byte at [a] on. *)
Definition rest_at (s : S) (a : Z) (l : list Z) : Prop :=
  0 <= a /\ a + Z.of_nat (length l) < 2 ^ 32 /\ Forall (fun c => c <> 0) l /\
  forall i : nat, (i <= length l)%nat ->
    area (a + Z.of_nat i) /\ rd8 s (a + Z.of_nat i) = Ok (default 0 (l !! i)).

Lemma rest_at_tail s a c l : rest_at s a (c :: l) -> rest_at s (a + 1) l.
Proof.
  intros (H0 & H1 & Hn & Hr). cbn [length] in H1. apply Forall_cons in Hn as [_ Hn].
  split; [lia|]. split; [lia|]. split; [done|]. intros i Hi.
  specialize (Hr (Datatypes.S i)). cbn [length] in Hr.
  replace (a + 1 + Z.of_nat i) with (a + Z.of_nat (Datatypes.S i)) by lia.
  apply Hr. lia.
Qed.

Lemma rest_at_keep s s' a l :
  (forall b, area b -> rd8 s' b = rd8 s b) -> rest_at s a l -> rest_at s' a l.
Proof.
  intros Hk (H0 & H1 & Hn & Hr). split; [done|]. split; [done|]. split; [done|].
  intros i Hi. destruct (Hr i Hi) as [Ha Hv]. split; [done|]. by rewrite Hk.
Qed.

Lemma rest_at_first s a l : rest_at s a l -> rd8 s a = Ok (default 0 (head l)).
Proof.
  intros (_ & _ & _ & Hr). destruct (Hr 0%nat) as [_ H]; [lia|].
  rewrite Z.add_0_r in H. rewrite H. by destruct l.
Qed.

(** One directive. *)
Lemma substitute_outs c args out args' s :
  directive c args = Some (out, args') ->
  substitute outb c args s = (s ← outs outb out s; mret (s, args')).
Proof.
  unfold directive, substitute. intros H.
  destruct (Z.eqb_spec c 115) as [|Hs]; [done|].
  destruct (Z.eqb_spec c 99).
  { destruct args as [|a args]; [done|]. injection H as <- <-. cbn [va_arg].
    rewrite (bind_ok (Ok (a, args)) _ (a, args) eq_refl). cbv beta iota. cbn [outs].
    by destruct (outb (u8 a) s). }
  destruct (Z.eqb_spec c 100).
  { destruct args as [|a args]; [done|]. destruct (Z.ltb_spec (Z.abs (i32 a)) (10 ^ 9)); [|done].
    injection H as <- <-. cbn [va_arg].
    rewrite (bind_ok (Ok (a, args)) _ (a, args) eq_refl). cbv beta iota.
    by rewrite print_decimal_outs. }
  destruct (Z.eqb_spec c 120).
  { destruct args as [|a args]; [done|]. injection H as <- <-. cbn [va_arg].
    rewrite (bind_ok (Ok (a, args)) _ (a, args) eq_refl). cbv beta iota.
    by rewrite print_hex_outs. }
  destruct (Z.eqb_spec c 98).
  { destruct args as [|a args]; [done|]. injection H as <- <-. cbn [va_arg].
    rewrite (bind_ok (Ok (a, args)) _ (a, args) eq_refl). cbv beta iota.
    by rewrite print_binary_outs. }
  destruct (Z.eqb_spec c 37); injection H as <- <-; [|done].
  cbn [outs]. by destruct (outb 37 s).
Qed.

(** One iteration of the loop, once the step has its result. *)
Definition scan_step (c : Z) (sub : bool) (args : list Z) (s : S) : res (S * list Z * bool) :=
  if sub then '(s, args) ← substitute outb c args s; mret (s, args, false)
  else if c =? 37 then mret (s, args, true)
  else s ← outb c s; mret (s, args, false).

Lemma print_body_step format s args sub off c :
  c <> 0 -> print_body outb format (s, args, sub, off, c) =
    ('(s, args, sub) ← scan_step c sub args s;
     c ← rd8 s (u32 (format + (off + 1))); mret (inl (s, args, sub, off + 1, c))).
Proof. intros Hc. unfold print_body. by destruct (Z.eqb_spec c 0). Qed.

Definition scan_state (format : Z) (s : S) (args : list Z) (sub : bool) (off : Z) (l : list Z) :=
  (s, args, sub, off, default 0 (head l)).

(** A step that outputs [out], from the format position of [c :: l]. *)
Lemma scan_leaves format c l out sub sub' args args' off s n o :
  rest_at s (format + off) (c :: l) ->
  scan_step c sub args s = (s ← outs outb out s; mret (s, args', sub')) ->
  inv s -> Forall good out ->
  (forall s', outs outb out s = Ok s' -> inv s' -> rest_at s' (format + (off + 1)) l ->
     exists k, (k <= n)%nat /\
       leaves (print_body outb format) k (scan_state format s' args' sub' (off + 1) l) (o s')) ->
  exists k, (k <= Datatypes.S n)%nat /\
    leaves (print_body outb format) k (scan_state format s args sub off (c :: l))
      (s' ← outs outb out s; o s').
Proof.
  intros Hr Hs Hi Hg Hn. pose proof Hr as (H0 & H1 & Hnz & _). apply Forall_cons in Hnz as [Hc _].
  unfold scan_state at 1. change (default 0 (head (c :: l))) with c.
  destruct (outs outb out s) as [s'| |] eqn:E.
  - destruct (outs_keep _ _ _ Hg Hi E) as [Hi' Hk'].
    assert (rest_at s' (format + (off + 1)) l) as Hr'.
    { apply rest_at_tail in Hr. rewrite Z.add_assoc. by eapply rest_at_keep. }
    destruct (Hn s' eq_refl Hi' Hr') as (k & Hk & Hl). exists (Datatypes.S k). split; [lia|].
    eapply leaves_next; [|exact Hl]. rewrite print_body_step by done. rewrite Hs.
    pose proof (rest_at_first _ _ _ Hr') as Hf. pose proof Hr' as (H2 & H3 & _).
    rewrite (bind_ok (Ok s') (fun s => mret (s, args', sub')) s' eq_refl). cbv beta.
    rewrite (bind_ok (mret (s', args', sub')) _ (s', args', sub') eq_refl). cbv beta iota.
    rewrite u32_small by lia. by rewrite (bind_ok _ _ _ Hf).
  - exists 1%nat. split; [lia|]. rewrite (bind_undef Undef) by done. apply leaves_undef.
    rewrite print_body_step by done. rewrite Hs. by rewrite (bind_undef Undef) by done.
  - exists 1%nat. split; [lia|]. rewrite (bind_diverge Diverge) by done. apply leaves_diverge.
    rewrite print_body_step by done. rewrite Hs. by rewrite (bind_diverge Diverge) by done.
Qed.

(** The end of the string. *)
Lemma scan_end format s args sub off :
  leaves (print_body outb format) 1 (scan_state format s args sub off []) (Ok s).
Proof. by apply leaves_ret. Qed.

Lemma print_leaves format n fmt s args off out :
  (length fmt <= n)%nat -> rest_at s (format + off) fmt -> render fmt args = Some out ->
  inv s -> Forall good out ->
  exists k, (k <= Datatypes.S (length fmt))%nat /\
    leaves (print_body outb format) k (scan_state format s args false off fmt) (outs outb out s).
Proof.
  revert fmt s args off out; induction n as [|n IH]; intros fmt s args off out Hlen Hr Hrend Hi Hg.
  { destruct fmt; [|cbn in Hlen; lia]. injection Hrend as <-.
    exists 1%nat. split; [lia|]. apply scan_end. }
  destruct fmt as [|c fmt].
  { injection Hrend as <-. exists 1%nat. split; [lia|]. apply scan_end. }
  cbn [render] in Hrend. cbn [length] in *.
  destruct (Z.eqb_spec c 37) as [->|Hc].
  - destruct fmt as [|d fmt].
    + injection Hrend as <-.
      destruct (scan_leaves format 37 [] [] false true args args off s 1 (fun s' => Ok s') Hr)
        as (k & Hk & Hl); [done|done|done|..].
      { intros s' _ _ _. exists 1%nat. split; [lia|]. apply scan_end. }
      exists k. split; [cbn; lia|exact Hl].
    + destruct (directive d args) as [[o args']|] eqn:Hd; [|done].
      cbn [mbind option_bind] in Hrend.
      destruct (render fmt args') as [rest|] eqn:Hrest; [|done].
      injection Hrend as <-. cbn [length] in *. apply Forall_app in Hg as [Hgo Hgr].
      destruct (scan_leaves format 37 (d :: fmt) [] false true args args off s
        (Datatypes.S (Datatypes.S (length fmt)))
        (fun s' => outs outb (o ++ rest) s') Hr) as (k & Hk & Hl);
        [done|done|done| |exists k; by split].
      intros s' [= <-] _ Hr'.
      destruct (scan_leaves format d fmt o true false args args' (off + 1) s
        (Datatypes.S (length fmt)) (fun s' => outs outb rest s') Hr') as (k & Hk & Hl); [|done|done|..].
      * unfold scan_step. rewrite (substitute_outs _ _ _ _ _ Hd). by destruct (outs outb o s).
      * intros s' Ho Hi' Hr''. destruct (IH fmt s' args' (off + 1 + 1) rest) as (k & Hk & Hl);
          [lia|done..|]. exists k. by split.
      * exists k. split; [lia|]. by rewrite outs_app.
  - destruct (render fmt args) as [rest|] eqn:Hrest; [|done]. injection Hrend as <-.
    apply Forall_cons in Hg as [Hgc Hg].
    destruct (scan_leaves format c fmt [c] false false args args off s
      (Datatypes.S (length fmt)) (fun s' => outs outb rest s') Hr) as (k & Hk & Hl); [|done|by constructor|..].
    + unfold scan_step. destruct (Z.eqb_spec c 37); [done|]. cbn [outs].
      by destruct (outb c s).
    + intros s' Ho Hi' Hr'. destruct (IH fmt s' args (off + 1) rest) as (k & Hk & Hl);
        [lia|done..|]. exists k. by split.
    + exists k. split; [done|]. change (c :: rest) with ([c] ++ rest). by rewrite outs_app.
Qed.

Lemma print_outs format fmt args s out :
  rest_at s format fmt -> render fmt args = Some out -> inv s -> Forall good out ->
  print outb format args s = outs outb out s.
Proof.
  intros Hr Hrend Hi Hg. unfold print. rewrite (bind_ok _ _ _ (rest_at_first _ _ _ Hr)). cbv beta.
  destruct (print_leaves format (length fmt) fmt s args 0 out) as (k & Hk & Hl);
    [done|by rewrite Z.add_0_r|done..|].
  destruct Hr as (H0 & H1 & _). eapply leaves_loop; [exact Hl|]. rewrite budget_eq. lia.
Qed.

(** C30. print outputs the rendering of its format string: plain characters as
    they are, [%c], [%d], [%x], [%b] and [%%] as the specification says, an
    unknown directive as nothing; it reads one argument for each directive that
    has one, stops at the end of the string, and fails only when the output
    function does.  The output function is any that leaves the format string
    alone when it is given the characters of the output.  Left out: [%s], and
    [%d] for numbers of more than nine digits. *)
Theorem print_renders format fmt args s out :
  rest_at s format fmt -> render fmt args = Some out -> inv s -> Forall good out ->
  print outb format args s = outs outb out s.
Proof. apply print_outs. Qed.
End Format.

(** Before set_outb there is nothing to print with. *)
Lemma print_unset {S} `{Store S} format args (s : S) c :
  rd8 s format = Ok c -> c <> 0 -> c <> 37 -> print (call_outb None) format args s = Undef.
Proof.
  intros E H0 H37. unfold print. rewrite (bind_ok _ _ _ E). apply (leaves_loop _ 1); [|rewrite budget_eq; lia].
  apply leaves_undef. unfold print_body. destruct (Z.eqb_spec c 0); [done|]. by destruct (Z.eqb_spec c 37).
Qed.

(** Numbers read back. *)
Lemma decimal_digits_spec n :
  Z.abs n < 10 ^ 9 ->
  value 10 (decimal_digits (Z.abs n)) = Z.abs n /\
  Forall (fun d => 0 <= d < 10) (decimal_digits (Z.abs n)) /\
  (head (decimal_digits (Z.abs n)) = Some 0 -> n = 0).
Proof.
  intros Hn. unfold decimal_digits.
  destruct (digit_count_spec 10 (Z.abs n)) as (H1 & H2 & _); [cbn; lia|].
  set (c := digit_count 10 (Z.abs n)) in *. split; [|split].
  - apply value_low_digits. split; [lia|]. eapply Z.lt_le_trans; [exact H1|].
    apply Z.pow_le_mono_r; lia.
  - apply Forall_rev, low_digits_range.
  - intros Hh. destruct (decide (0 < Z.abs n)) as [Hp|]; [|lia]. exfalso. specialize (H2 Hp).
    destruct c as [|c]; [cbn in H1; lia|].
    replace (Nat.max 1 (S c)) with (S c) in Hh by lia.
    rewrite low_digits_snoc, rev_app_distr in Hh by lia. cbn [rev app head] in Hh.
    injection Hh as Hh.
    replace (Z.of_nat (S c)) with (Z.of_nat c + 1) in H1 by lia.
    rewrite Z.pow_add_r in H1 by lia.
    replace (Z.of_nat (S c) - 1) with (Z.of_nat c) in H2 by lia.
    assert (0 < 10 ^ Z.of_nat c) by (apply Z.pow_pos_nonneg; lia).
    assert (1 <= Z.abs n / 10 ^ Z.of_nat c) by (apply Z.div_le_lower_bound; lia).
    assert (Z.abs n / 10 ^ Z.of_nat c < 10) by (apply Z.div_lt_upper_bound; lia). lia.
Qed.

(** C31. What print outputs for numbers reads back as the number: [%x] is eight
    and [%b] thirty-two digits of the right value, for every 32-bit word; and [%d] is,
    for numbers of at most nine digits (beyond, the reversal can overflow), an optional
    minus sign and decimal digits of the right value without a leading zero. *)
Theorem print_numbers_read_back {S} `{Store S} (outb : Z -> S -> res S) (s : S) n :
  (0 <= n < 2 ^ 32 ->
     (exists ds, print_hex outb n s = outs outb (hex_chars <$> ds) s /\
        value 16 ds = n /\ length ds = 8%nat /\ Forall (fun d => 0 <= d < 16) ds) /\
     (exists ds, print_binary outb n s = outs outb (hex_chars <$> ds) s /\
        value 2 ds = n /\ length ds = 32%nat /\ Forall (fun d => 0 <= d < 2) ds)) /\
  (Z.abs n < 10 ^ 9 ->
     exists ds, print_decimal outb n s =
         outs outb ((if n <? 0 then [45] else []) ++ (hex_chars <$> ds)) s /\
       value 10 ds = Z.abs n /\ Forall (fun d => 0 <= d < 10) ds /\ (head ds = Some 0 -> n = 0)).
Proof.
  split.
  - intros Hn. split.
    + exists (high_digits 4 8 n). split; [apply print_hex_outs|].
      split; [by apply (value_high_digits 4 8)|]. split; [apply high_digits_length|].
      by apply (high_digits_range 4).
    + exists (high_digits 1 32 n). split; [apply print_binary_outs|].
      split; [by apply (value_high_digits 1 32)|]. split; [apply high_digits_length|].
      by apply (high_digits_range 1).
  - intros Hn. exists (decimal_digits (Z.abs n)).
    split; [by apply print_decimal_outs|]. by apply decimal_digits_spec.
Qed.

(** The bytes of a string are output up to the end of the address space. *)
Lemma string_leaves {S} `{Store S} (outb : Z -> S -> res S) (v : Z -> Z) k p (s : S) :
  (forall c s s' b, outb c s = Ok s' -> rd8 s' b = rd8 s b) ->
  0 < p -> p + Z.of_nat k = 2 ^ 32 -> (forall b, p <= b < 2 ^ 32 -> rd8 s b = Ok (v b)) ->
  exists n, (n <= Datatypes.S k)%nat /\
    leaves (fun '(nstr, s) =>
      if negb (nstr =? 0) then
        c ← rd8 s nstr; s ← outb c s; mret (inl (u32 (nstr + 1), s))
      else mret (inr s)) n (u32 p, s) (outs outb (v <$> seqZ p (Z.of_nat k)) s).
Proof.
  intros Hkeep. revert p s; induction k as [|k IH]; intros p s Hp Hpk Hv.
  { exists 1%nat. split; [lia|]. replace p with 4294967296 by lia. by apply leaves_ret. }
  rewrite seqZ_cons by lia. cbn [fmap list_fmap outs].
  replace (Z.pred (Z.of_nat (Datatypes.S k))) with (Z.of_nat k) by lia.
  rewrite u32_small by lia.
  assert (forall r, outb (v p) s = r ->
    (if negb (p =? 0) then c ← rd8 s p; s ← outb c s; mret (inl (u32 (p + 1), s))
     else mret (inr s)) = (s ← r; mret (inl (u32 (p + 1), s)) : res (Z * S + S))) as Hbody.
  { intros r <-. destruct (Z.eqb_spec p 0); [lia|]. cbn [negb]. by rewrite Hv by lia. }
  destruct (outb (v p) s) as [s'| |] eqn:E.
  - destruct (IH (p + 1) s') as (n & Hn & Hl); [lia|lia| |].
    { intros b Hb. rewrite (Hkeep _ _ _ b E). apply Hv. lia. }
    exists (Datatypes.S n). split; [lia|]. eapply leaves_next; [|exact Hl].
    exact (Hbody _ eq_refl).
  - exists 1%nat. split; [lia|]. apply leaves_undef. exact (Hbody _ eq_refl).
  - exists 1%nat. split; [lia|]. apply leaves_diverge. exact (Hbody _ eq_refl).
Qed.

(** [%s] does not stop at the end of its string: it outputs every byte from
    the pointer to the end of the 32-bit address space, because its loop tests
    the pointer and not the character. *)
Theorem print_string_runs_on {S} `{Store S} (outb : Z -> S -> res S) (v : Z -> Z) p (s : S) :
  (forall c s s' b, outb c s = Ok s' -> rd8 s' b = rd8 s b) ->
  0 < p < 2 ^ 32 -> (forall b, p <= b < 2 ^ 32 -> rd8 s b = Ok (v b)) ->
  print_string outb p s = outs outb (v <$> seqZ p (2 ^ 32 - p)) s.
Proof.
  intros Hkeep Hp Hv.
  destruct (string_leaves outb v (Z.to_nat (2 ^ 32 - p)) p s Hkeep) as (n & Hn & Hl);
    [lia|lia|done|].
  rewrite Z2Nat.id in Hl by lia. rewrite u32_small in Hl by lia.
  unfold print_string. eapply leaves_loop; [exact Hl|]. rewrite budget_eq. lia.
Qed.
