(* ===== verification/Vga.v ===== *)
(** * boot/x86/vesa/vga.c: text on the VGA screen

    The text buffer is memory; the cursor is in the registers of the CRT
    controller, behind an index port and a data port.  [Ports] is the input and
    output of the processor ([inportb] and [outportb] of boot/x86/port.s, which execute [in] and [out] and nothing
    else), [Crtc] what the code relies on of the controller. *)

From S2P Require Export Print.

#[local] Open Scope Z_scope.

Class Ports (S : Type) := {
  in8 : Z -> S -> res (Z * S);
  out8 : Z -> Z -> S -> res S;
}.

Definition VGA_TEXT_INDEX : Z := 980. (* 0x3d4 *)
Definition VGA_TEXT_DATA : Z := 981. (* 0x3d5 *)

(** The two registers of the cursor position. *)
Definition cursor_reg (r : Z) : Prop := r = 14 \/ r = 15.

(** The data port is a window on the selected register; of the registers only
    the two of the cursor position have to hold what is written to them.  The
    ports do not change memory, and memory accesses do not change registers. *)
Class Crtc (S : Type) (win : Z -> Prop) `{Window S win} `{Ports S} := {
  selected : S -> Z;
  crtc : S -> Z -> Z;
  select : Z -> S -> S;
  assign : Z -> S -> S;
  crtc_range s r : 0 <= crtc s r < 256;
  out_index s v : 0 <= v < 256 -> out8 VGA_TEXT_INDEX v s = Ok (select v s);
  out_data s v : 0 <= v < 256 -> out8 VGA_TEXT_DATA v s = Ok (assign v s);
  in_data s : in8 VGA_TEXT_DATA s = Ok (crtc s (selected s), s);
  selected_select s v : selected (select v s) = v;
  crtc_select s v r : cursor_reg r -> crtc (select v s) r = crtc s r;
  selected_assign s v : selected (assign v s) = selected s;
  crtc_assign s v r : 0 <= v < 256 -> cursor_reg r ->
    crtc (assign v s) r = if decide (selected s = r) then v else crtc s r;
  view_select s v b : win b -> view (select v s) b = view s b;
  view_assign s v b : win b -> view (assign v s) b = view s b;
  crtc_outside s s' r : outside s s' -> cursor_reg r -> crtc s' r = crtc s r;
}.

(** The machine and the variable of vga.c. *)
Record vga (S : Type) := Vga { dev : S; color : Z }.
Arguments Vga {S} _ _.
Arguments dev {S} _.
Arguments color {S} _.

Section Vga.
Context {S : Type} {HS : Store S} {HP : Ports S}.

#[export] Instance vga_store : Store (vga S) := {
  rd8 s a := rd8 (dev s) a;
  wr8 s a v := d ← wr8 (dev s) a v; mret (Vga d (color s));
}.

#[export] Instance vga_ports : Ports (vga S) := {
  in8 p s := '(v, d) ← in8 p (dev s); mret (v, Vga d (color s));
  out8 p v s := d ← out8 p v (dev s); mret (Vga d (color s));
}.

(** The VGA text buffer *)
Definition text_buffer : Z := 753664. (* 0xb8000 *)

(** Set the cursor position with vga ports *)
Definition set_cursor_pos (row col : Z) (s : vga S) : res (vga S) :=
  n ← to_int (row * 80);
  pos ← to_int (n + col);
  let pos := Z.rem pos (25 * 80) in
  s ← out8 VGA_TEXT_INDEX 15 s;
  s ← out8 VGA_TEXT_DATA (u8 (Z.land pos 255)) s;
  s ← out8 VGA_TEXT_INDEX 14 s;
  out8 VGA_TEXT_DATA (u8 (Z.land (Z.shiftr pos 8) 255)) s.

(** Get the cursor position as offset from text buffer *)
Definition get_cursor_pos (s : vga S) : res (Z * vga S) :=
  s ← out8 VGA_TEXT_INDEX 15 s;
  '(lo, s) ← in8 VGA_TEXT_DATA s;
  let pos := u16 lo in
  s ← out8 VGA_TEXT_INDEX 14 s;
  '(hi, s) ← in8 VGA_TEXT_DATA s;
  mret (u16 (Z.lor pos (Z.shiftl (u16 hi) 8)), s).

(** [char] is signed: a character from 128 on is extended with ones. *)
Definition char_to_u16 (c : Z) : Z := if c <? 128 then c else 65280 + c.

(** Display a character on screen *)
Definition display_char (c row col : Z) (s : vga S) : res (vga S) :=
  n ← to_int (80 * row);
  i ← to_int (n + col);
  s ← st16 s (u32 (text_buffer + 2 * i))
        (u16 (Z.lor (Z.shiftl (color s) 8) (char_to_u16 c)));
  col ← to_int (col + 1);
  row ← to_int (row + Z.quot col 80);
  set_cursor_pos row (Z.rem col 80) s.

(** Display a string on screen *)
Definition display_string (str row col : Z) (s : vga S) : res (vga S) :=
  loop (fun '(offset, row, col, s) =>
    c ← rd8 s (u32 (str + offset));
    if negb (c =? 0) then
      s ← display_char c row col s;
      let offset := offset + 1 in
      col ← to_int (col + 1);
      row ← to_int (row + Z.quot col 80);
      mret (inl (offset, row, Z.rem col 80, s))
    else mret (inr s)) (0, row, col, s).

(** Clear the screen and set the vga stuff *)
Definition reset_display (s : vga S) : res (vga S) :=
  s ← for_loop 0 2000 (fun i => display_char 32 (Z.quot i 80) (Z.rem i 80)) s;
  set_cursor_pos 0 0 s.

(** Set the background and foreground color *)
Definition set_color (b f : Z) (s : vga S) : res (vga S) :=
  if b <? 0 then Undef else
  n ← to_int (Z.shiftl b 4);
  mret (Vga (dev s) (u8 (Z.lor n f))).

(** Enable the cursor with vga ports *)
Definition enable_cursor (start last : Z) (s : vga S) : res (vga S) :=
  s ← out8 VGA_TEXT_INDEX 10 s;
  s ← out8 VGA_TEXT_DATA (u8 (Z.lor (Z.shiftl 0 5) start)) s;
  s ← out8 VGA_TEXT_INDEX 11 s;
  out8 VGA_TEXT_DATA (u8 (Z.lor (Z.shiftl 0 5) last)) s.

(** Disable the cursor with vga ports *)
Definition disable_cursor (s : vga S) : res (vga S) :=
  s ← out8 VGA_TEXT_INDEX 10 s;
  out8 VGA_TEXT_DATA 32 s.

(** Output method for prints *)
Definition vga_output_char (c : Z) (s : vga S) : res (vga S) :=
  '(cur_pos, s) ← get_cursor_pos s;
  if c =? 10 then set_cursor_pos (Z.quot cur_pos 80 + 1) (Z.rem cur_pos 80) s
  else if c =? 13 then set_cursor_pos (Z.quot cur_pos 80) 0 s
  else if (c =? 8) || (c =? 127) then
    s ← display_char 32 (Z.quot (cur_pos - 1) 80) (Z.rem (cur_pos - 1) 80) s;
    set_cursor_pos (Z.quot (cur_pos - 1) 80) (Z.rem (cur_pos - 1) 80) s
  else display_char c (Z.quot cur_pos 80) (Z.rem cur_pos 80) s.
End Vga.

(** ** Specification: a screen of 2000 cells and a cursor that wraps around *)

Record screen := Screen { cells : Z -> Z; cursor : Z }.

(** A character in a cell, with its attribute; the sign of the character fills
    the attribute. *)
Definition cell (col c : Z) : Z := c + 256 * (if c <? 128 then col else 255).

Definition set_cell (i w : Z) (sc : screen) : screen :=
  Screen (fun j => if decide (i = j) then w else cells sc j) (cursor sc).

Definition move (p : Z) (sc : screen) : screen := Screen (cells sc) (p mod 2000).

(** Put a character at a place and the cursor behind it. *)
Definition put (col i c : Z) (sc : screen) : screen := move (i + 1) (set_cell i (cell col c) sc).

(** A character that is output: line feed, carriage return, backspace, others. *)
Definition type (col c : Z) (sc : screen) : screen :=
  let p := cursor sc in
  if c =? 10 then move (p + 80) sc
  else if c =? 13 then move (p / 80 * 80) sc
  else if (c =? 8) || (c =? 127) then move (p - 1) (set_cell (p - 1) (cell col 32) sc)
  else put col p c sc.
