(* ===== verification/VgaProps.v ===== *)
(** * Properties of the VGA console

    The functions of vga.c implement a screen of 2000 cells with a cursor, and
    print on it shows the rendering of its format string. *)

From S2P Require Export Vga PrintProps.

#[local] Open Scope Z_scope.

(** ** Words of the text buffer *)

Lemma lor_255 a : 0 <= a < 256 -> Z.lor a 255 = 255.
Proof.
  intros Ha. apply (Z.lor_ones_low a 8); [lia|].
  destruct (decide (a = 0)) as [->|]; [done|]. apply Z.log2_lt_pow2; lia.
Qed.

Lemma cell_word col c :
  0 <= col < 256 -> 0 <= c < 256 ->
  u16 (Z.lor (Z.shiftl col 8) (char_to_u16 c)) = cell col c.
Proof.
  intros Hcol Hc. unfold char_to_u16, cell.
  assert (forall a d, 0 <= a < 256 -> 0 <= d < 256 -> Z.lor (Z.shiftl a 8) d = d + 256 * a) as Hl.
  { intros a d Ha Hd. rewrite Z.lor_comm, (lor_add d _ 8) by lia. lia. }
  destruct (Z.ltb_spec c 128).
  - rewrite Hl by lia. unfold u16. rewrite Z.mod_small by lia. lia.
  - replace (65280 + c) with (Z.lor (Z.shiftl 255 8) c) by (rewrite Hl by lia; lia).
    rewrite Z.lor_assoc, <- Z.shiftl_lor, lor_255, Hl by lia.
    unfold u16. rewrite Z.mod_small by lia. lia.
Qed.

Lemma position_word lo hi :
  0 <= lo < 256 -> 0 <= hi < 256 ->
  u16 (Z.lor (u16 lo) (Z.shiftl (u16 hi) 8)) = lo + 256 * hi.
Proof.
  intros Hlo Hhi. unfold u16. rewrite (Z.mod_small lo), (Z.mod_small hi) by lia.
  rewrite (lor_add lo _ 8) by lia. rewrite Z.mod_small by lia. lia.
Qed.

(** ** The operations *)

Section Operations.
Context {S : Type} {win : Z -> Prop} {HS : Store S} {HW : Window S win} {HP : Ports S} {HC : Crtc S win}.
Context (Hbuf : forall b, text_buffer <= b < text_buffer + 4000 -> win b).
Implicit Types (s : vga S) (sc : screen).

Definition cursor_pos s : Z := crtc (dev s) 15 + 256 * crtc (dev s) 14.
Definition text s (f : Z -> Z) : Prop :=
  forall i, 0 <= i < 2000 -> vld 2 (view (dev s)) (text_buffer + 2 * i) = f i.

(** The machine shows a screen. *)
Definition shows s sc : Prop :=
  text s (cells sc) /\ cursor_pos s = cursor sc /\ 0 <= cursor sc < 2000 /\ 0 <= color s < 256.

(** Memory other than the text buffer. *)
Definition elsewhere (b : Z) : Prop := win b /\ (b < text_buffer \/ text_buffer + 4000 <= b).

(** What an operation leaves alone. *)
Definition kept s s' : Prop :=
  color s' = color s /\ forall b, elsewhere b -> view (dev s') b = view (dev s) b.

#[local] Instance kept_preorder : PreOrder kept.
Proof.
  split; [by intros s; split|]. intros s1 s2 s3 [Hc1 Hv1] [Hc2 Hv2].
  split; [congruence|]. intros b Hb. by rewrite Hv2, Hv1.
Qed.

Lemma text_ext s s' f :
  (forall b, win b -> view (dev s') b = view (dev s) b) -> text s f -> text s' f.
Proof.
  intros Hv Ht i Hi. rewrite <- (Ht i Hi). apply vld_ext. intros b Hb. apply Hv, Hbuf. lia.
Qed.

(** Writing a register through the two ports. *)
Lemma register_write r v s (k : vga S -> res (vga S)) :
  0 <= r < 256 -> 0 <= v < 256 ->
  (s ← out8 VGA_TEXT_INDEX r s; s ← out8 VGA_TEXT_DATA v s; k s) =
    k (Vga (assign v (select r (dev s))) (color s)).
Proof.
  intros Hr Hv.
  cbn [out8 vga_ports]. rewrite (bind_ok _ _ _ (out_index (dev s) r ltac:(done))). bnd. cbn [dev color].
  rewrite (bind_ok _ _ _ (out_data _ v Hv)). by bnd.
Qed.

Lemma register_write_last r v s :
  0 <= r < 256 -> 0 <= v < 256 ->
  (s ← out8 VGA_TEXT_INDEX r s; out8 VGA_TEXT_DATA v s) =
    Ok (Vga (assign v (select r (dev s))) (color s)).
Proof.
  intros Hr Hv. etrans; [|exact (register_write r v s mret Hr Hv)].
  destruct (out8 VGA_TEXT_INDEX r s) as [s'| |]; bnd; [|done..]. by destruct (out8 _ v s').
Qed.

Lemma crtc_write (d : S) r r' v :
  0 <= v < 256 -> cursor_reg r' -> crtc (assign v (select r d)) r' = if decide (r = r') then v else crtc d r'.
Proof. intros Hv Hr. by rewrite crtc_assign, selected_select, crtc_select. Qed.

Lemma view_write (d : S) r v b : win b -> view (assign v (select r d)) b = view d b.
Proof. intros Hb. by rewrite view_assign, view_select. Qed.

Lemma set_cursor_pos_ok row col s :
  0 <= row -> 0 <= col -> row * 80 + col < 2 ^ 31 ->
  exists s', set_cursor_pos row col s = Ok s' /\ color s' = color s /\
    (forall b, win b -> view (dev s') b = view (dev s) b) /\
    cursor_pos s' = (row * 80 + col) mod 2000.
Proof.
  intros Hr Hc Hlt. unfold set_cursor_pos. int_ok.
  rewrite Z.rem_mod_nonneg by lia. set (p := (row * 80 + col) mod (25 * 80)).
  assert (0 <= p < 2000) as Hp by (apply Z.mod_pos_bound; lia).
  assert (Z.land p 255 = p mod 256) as -> by (apply (Z.land_ones p 8); lia).
  assert (Z.land (Z.shiftr p 8) 255 = p / 256) as ->.
  { rewrite Z.shiftr_div_pow2 by lia. change (2 ^ 8) with 256.
    rewrite (Z.land_ones _ 8) by lia. apply Z.mod_small. lia. }
  rewrite !u8_small by lia.
  rewrite register_write, register_write_last by lia. cbn [dev color].
  eexists. split; [done|]. cbn [dev color]. split; [done|]. split.
  - intros b Hb. by rewrite !view_write.
  - unfold cursor_pos. cbn [dev]. rewrite !crtc_write by (unfold cursor_reg; lia).
    repeat case_decide; lia.
Qed.

(** Writing a cell. *)
Lemma stn_dev n s a w : stn n s a w = (d ← stn n (dev s) a w; mret (Vga d (color s))).
Proof.
  revert s a w; induction n as [|n IH]; intros s a w; cbn [stn]; [by destruct s|].
  cbn [wr8 vga_store]. destruct (wr8 (dev s) a (u8 w)); bnd; [apply IH|done..].
Qed.

Lemma write_word_ok a w s :
  in_win win a 2 ->
  exists s', st16 s a w = Ok s' /\ color s' = color s /\ cursor_pos s' = cursor_pos s /\
    forall b, win b -> view (dev s') b = vst 2 (view (dev s)) a w b.
Proof.
  intros Ha. rewrite stn_dev. destruct (stn_win 2 (dev s) a w Ha) as (d & E & Ho & Hv).
  exists (Vga d (color s)). split; [by rewrite (bind_ok _ _ _ E)|]. split; [done|]. split; [|done].
  unfold cursor_pos. cbn [dev]. by rewrite !(crtc_outside _ _ _ Ho) by (unfold cursor_reg; lia).
Qed.

(** What a word reads as after a word was written. *)
Lemma vld_word_written a w s s' b :
  in_win win b 2 -> (forall b, win b -> view (dev s') b = vst 2 (view (dev s)) a w b) ->
  0 <= w < 65536 -> a = b \/ a + 2 <= b \/ b + 2 <= a ->
  vld 2 (view (dev s')) b = if decide (a = b) then w else vld 2 (view (dev s)) b.
Proof.
  intros (_ & _ & Hb) Hv Hw Hab. rewrite (vld_ext 2 _ (vst 2 (view (dev s)) a w)).
  - case_decide as E; [subst; rewrite vld_vst_same; apply Z.mod_small; lia|].
    apply vld_vst_other. lia.
  - intros x Hx. apply Hv, Hb. lia.
Qed.

Lemma buffer_cell i : 0 <= i < 2000 -> in_win win (text_buffer + 2 * i) 2.
Proof.
  intros Hi. assert (text_buffer = 753664) as E by done.
  split; [lia|]. split; [lia|]. intros b Hb. apply Hbuf. lia.
Qed.

Lemma write_cell_ok i w s f :
  0 <= i < 2000 -> 0 <= w < 65536 -> text s f ->
  exists s', st16 s (u32 (text_buffer + 2 * i)) w = Ok s' /\ kept s s' /\
    cursor_pos s' = cursor_pos s /\ text s' (fun j => if decide (i = j) then w else f j).
Proof.
  intros Hi Hw Ht. assert (text_buffer = 753664) as Hb by done. rewrite u32_small by lia.
  destruct (write_word_ok (text_buffer + 2 * i) w s) as (s' & E & Hc & Hp & Hv);
    [by apply buffer_cell|].
  exists s'. split; [done|]. split; [split; [done|]|split; [done|]].
  - intros b [Hwb Hbb]. rewrite Hv by done. by rewrite vst_out by lia.
  - intros j Hj. rewrite (vld_word_written _ _ _ _ _ (buffer_cell j Hj) Hv Hw) by lia.
    rewrite <- (Ht j Hj). repeat case_decide; try done; lia.
Qed.

(** Displaying a character is putting it. *)
Lemma display_char_ok c row col s sc :
  0 <= c < 256 -> 0 <= row -> 0 <= col -> 80 * row + col < 2000 ->
  text s (cells sc) -> 0 <= color s < 256 ->
  exists s', display_char c row col s = Ok s' /\ kept s s' /\
    shows s' (put (color s) (80 * row + col) c sc).
Proof.
  intros Hc Hr Hcol Hi Ht Hclr. unfold display_char. int_ok.
  rewrite cell_word by done.
  destruct (write_cell_ok (80 * row + col) (cell (color s) c) s (cells sc))
    as (s1 & E & Hk & _ & Ht1); [lia| |done|].
  { unfold cell. case_match; lia. }
  rewrite (bind_ok _ _ _ E). int_ok. rewrite Z.quot_div_nonneg, Z.rem_mod_nonneg by lia. int_ok.
  destruct (set_cursor_pos_ok (row + (col + 1) / 80) ((col + 1) mod 80) s1)
    as (s2 & E2 & Hc2 & Hv2 & Hp2); [lia..|].
  exists s2. split; [done|]. destruct Hk as [Hk1 Hk2]. split; [split; [congruence|]|].
  - intros b Hb. rewrite Hv2 by apply Hb. by apply Hk2.
  - split; [by apply (text_ext s1)|]. cbn [cursor put move].
    split; [|split; [lia|congruence]]. rewrite Hp2. f_equal. lia.
Qed.

Lemma move_ok p row col s sc :
  0 <= row -> 0 <= col -> row * 80 + col < 2 ^ 31 -> p = row * 80 + col ->
  text s (cells sc) -> 0 <= color s < 256 ->
  exists s', set_cursor_pos row col s = Ok s' /\ kept s s' /\ shows s' (move p sc).
Proof.
  intros Hr Hc Hlt -> Ht Hclr.
  destruct (set_cursor_pos_ok row col s) as (s' & E & Hc' & Hv & Hp); [done..|].
  exists s'. split; [done|]. split; [split; [done|]; intros b Hb; apply Hv, Hb|].
  split; [by apply (text_ext s)|]. cbn [cursor move]. split; [done|]. split; [lia|congruence].
Qed.

Lemma get_cursor_pos_ok s :
  get_cursor_pos s = Ok (cursor_pos s, Vga (select 14 (select 15 (dev s))) (color s)).
Proof.
  unfold get_cursor_pos. cbn [in8 out8 vga_ports].
  rewrite (bind_ok _ _ _ (out_index (dev s) 15 ltac:(lia))). bnd. cbn [dev color].
  rewrite (bind_ok _ _ _ (in_data _)). bnd. cbn [dev color].
  rewrite (bind_ok _ _ _ (out_index _ 14 ltac:(lia))). bnd. cbn [dev color].
  rewrite (bind_ok _ _ _ (in_data _)). bnd. cbn [dev color].
  rewrite !selected_select, !crtc_select by (unfold cursor_reg; lia).
  by rewrite position_word by apply crtc_range.
Qed.

Lemma selects_shows s sc r r' :
  shows s sc -> let s' := Vga (select r' (select r (dev s))) (color s) in kept s s' /\ shows s' sc.
Proof.
  intros (Ht & Hp & Hcur & Hclr). split; [split; [done|]|].
  - intros b [Hb _]. cbn [dev]. by rewrite !view_select.
  - split; [|split; [|done]].
    + apply (text_ext s); [|done]. intros b Hb. cbn [dev]. by rewrite !view_select.
    + rewrite <- Hp. unfold cursor_pos. cbn [dev].
      by rewrite !crtc_select by (unfold cursor_reg; lia).
Qed.

(** Outputting a character is typing it. *)
Lemma output_char_ok c s sc :
  0 <= c < 256 -> (c = 8 \/ c = 127 -> cursor sc <> 0) -> shows s sc ->
  exists s', vga_output_char c s = Ok s' /\ kept s s' /\ shows s' (type (color s) c sc).
Proof.
  intros Hc Hback Hs. unfold vga_output_char. rewrite get_cursor_pos_ok. bnd.
  destruct (selects_shows s sc 15 14 Hs) as [Hk Hs1]. cbv zeta in Hk, Hs1.
  set (s1 := Vga (select 14 (select 15 (dev s))) (color s)) in *.
  change (color s) with (color s1). destruct Hs as (_ & -> & _).
  pose proof Hs1 as (Ht & _ & Hcur & Hclr). set (p := cursor sc) in *.
  assert (forall r, (exists s', r = Ok s' /\ kept s1 s' /\ shows s' (type (color s1) c sc)) ->
    exists s', r = Ok s' /\ kept s s' /\ shows s' (type (color s1) c sc)) as Hgo.
  { intros r (s' & ? & ? & ?). exists s'. split; [done|]. split; [by etrans|done]. }
  apply Hgo. unfold type. fold p.
  destruct (Z.eqb_spec c 10); [|destruct (Z.eqb_spec c 13); [|destruct (_ || _) eqn:Hb]].
  - rewrite Z.quot_div_nonneg, Z.rem_mod_nonneg by lia. apply move_ok; [lia..|done|done].
  - rewrite Z.quot_div_nonneg by lia. apply move_ok; [lia..|done|done].
  - assert (p <> 0) by (apply Hback; lia).
    rewrite !Z.quot_div_nonneg, !Z.rem_mod_nonneg by lia.
    destruct (display_char_ok 32 ((p - 1) / 80) ((p - 1) mod 80) s1 sc)
      as (s2 & E2 & Hk2 & Hs2); [lia..|done|done|].
    rewrite (bind_ok _ _ _ E2).
    replace (80 * ((p - 1) / 80) + (p - 1) mod 80) with (p - 1) in Hs2 by lia.
    destruct (move_ok (p - 1) ((p - 1) / 80) ((p - 1) mod 80) s2 (set_cell (p - 1) (cell (color s1) 32) sc))
      as (s3 & E3 & Hk3 & Hs3); [lia..|apply Hs2|apply Hs2|].
    exists s3. split; [done|]. split; [by etrans|done].
  - rewrite Z.quot_div_nonneg, Z.rem_mod_nonneg by lia.
    destruct (display_char_ok c (p / 80) (p mod 80) s1 sc) as (s2 & E2 & Hk2 & Hs2);
      [lia..|done|done|].
    replace (80 * (p / 80) + p mod 80) with p in Hs2 by lia. by exists s2.
Qed.

(** ** Strings of characters *)

(** Characters that move forward. *)
Definition plain (c : Z) : Prop := 0 <= c < 256 /\ c <> 8 /\ c <> 127.

Definition type_all (col : Z) (l : list Z) (sc : screen) : screen :=
  foldl (fun sc c => type col c sc) sc l.

Fixpoint put_all (col i : Z) (l : list Z) (sc : screen) : screen :=
  match l with
  | [] => sc
  | c :: l => put_all col (i + 1) l (put col i c sc)
  end.

Lemma outs_type l s sc :
  Forall plain l -> shows s sc ->
  exists s', outs vga_output_char l s = Ok s' /\ kept s s' /\ shows s' (type_all (color s) l sc).
Proof.
  intros Hl. revert s sc; induction Hl as [|c l (Hc & H8 & H127) Hl IH]; intros s sc Hs; cbn [outs].
  - exists s. split; [done|]. split; [reflexivity|done].
  - destruct (output_char_ok c s sc) as (s1 & E & Hk & Hs1); [done|lia|done|].
    destruct (IH s1 _ Hs1) as (s2 & E2 & Hk2 & Hs2).
    rewrite (bind_ok _ _ _ E). exists s2. split; [done|]. split; [by etrans|].
    cbn [type_all foldl]. by replace (color s1) with (color s) in Hs2 by (symmetry; apply Hk).
Qed.

(** Memory outside of the buffer reads as before. *)
Lemma kept_rd8 s s' b : kept s s' -> elsewhere b -> rd8 s' b = rd8 s b.
Proof.
  intros [_ Hk] Hb. cbn [rd8 vga_store]. rewrite !rd8_win by apply Hb. by rewrite Hk.
Qed.

Lemma output_keeps c s s' :
  plain c -> (exists sc, shows s sc) -> vga_output_char c s = Ok s' ->
  (exists sc, shows s' sc) /\ forall b, elsewhere b -> rd8 s' b = rd8 s b.
Proof.
  intros (Hc & H8 & H127) [sc Hs] E.
  destruct (output_char_ok c s sc) as (s1 & E1 & Hk & Hs1); [done|lia|done|].
  rewrite E in E1. injection E1 as <-. split; [by eexists|]. intros b. by apply kept_rd8.
Qed.

Lemma display_string_body_ok str l row col s sc off :
  rest_at elsewhere s (str + off) l -> 0 <= row -> 0 <= col < 80 ->
  80 * row + col + Z.of_nat (length l) <= 2000 -> shows s sc ->
  exists n s', (n <= Datatypes.S (length l))%nat /\
    leaves (fun '(offset, row, col, s) =>
      c ← rd8 s (u32 (str + offset));
      if negb (c =? 0) then
        s ← display_char c row col s;
        let offset := offset + 1 in
        col ← to_int (col + 1);
        row ← to_int (row + Z.quot col 80);
        mret (inl (offset, row, Z.rem col 80, s))
      else mret (inr s)) n (off, row, col, s) (Ok s') /\
    kept s s' /\ shows s' (put_all (color s) (80 * row + col) l sc).
Proof.
  revert row col s sc off; induction l as [|c l IH]; intros row col s sc off Hr Hrow Hcol Hlen Hs.
  - exists 1%nat, s. split; [lia|]. split; [|split; [reflexivity|done]]. apply leaves_ret.
    pose proof Hr as (H0 & H1 & _). cbn [length] in H1. rewrite u32_small by lia.
    by rewrite (bind_ok _ _ _ (rest_at_first _ _ _ _ Hr)).
  - pose proof Hr as (H0 & H1 & Hnz & Hr'). cbn [length] in H1, Hlen.
    apply Forall_cons in Hnz as [Hc _].
    pose proof (rest_at_first _ _ _ _ Hr) as Hf. change (default 0 (head (c :: l))) with c in Hf.
    assert (0 <= c < 256) as Hc'.
    { destruct (Hr' 0%nat) as [[Hw _] _]; [lia|]. rewrite Z.add_0_r in Hw.
      cbn [rd8 vga_store] in Hf. rewrite rd8_win in Hf by done. injection Hf as <-. apply view_range. }
    pose proof Hs as (Ht & _ & _ & Hclr).
    destruct (display_char_ok c row col s sc) as (s1 & E & Hk & Hs1); [lia..|done|done|].
    destruct (IH (row + (col + 1) / 80) ((col + 1) mod 80) s1 (put (color s) (80 * row + col) c sc)
      (off + 1)) as (n & s2 & Hn & Hl & Hk2 & Hs2); [|lia..|done|].
    { rewrite Z.add_assoc. apply rest_at_tail in Hr. eapply rest_at_keep; [|exact Hr].
      intros b. by apply kept_rd8. }
    exists (Datatypes.S n), s2. split; [cbn [length]; lia|]. split; [|split].
    + eapply leaves_next; [|exact Hl]. cbn beta iota. rewrite u32_small by lia.
      rewrite (bind_ok _ _ _ Hf). destruct (Z.eqb_spec c 0); [done|]. cbn [negb].
      rewrite (bind_ok _ _ _ E). int_ok. rewrite Z.quot_div_nonneg, Z.rem_mod_nonneg by lia. by int_ok.
    + by etrans.
    + cbn [put_all]. replace (color s1) with (color s) in Hs2 by (symmetry; apply Hk).
      by replace (80 * row + col + 1) with (80 * (row + (col + 1) / 80) + (col + 1) mod 80) by lia.
Qed.

(** ** Properties *)

(** C20. What is printed appears on the screen: print with the VGA output
    function succeeds, and afterwards the screen shows its rendered text typed
    character by character from the cursor, with line feeds, carriage returns
    and the wrap-around from the last cell to the first; the colour and all
    memory outside the text buffer are as before. *)
Theorem print_on_screen format fmt args s sc out :
  rest_at elsewhere s format fmt -> render fmt args = Some out -> Forall plain out -> shows s sc ->
  exists s', print vga_output_char format args s = Ok s' /\ kept s s' /\
    shows s' (type_all (color s) out sc).
Proof.
  intros Hr Hrend Hp Hs.
  rewrite (print_outs vga_output_char elsewhere plain (fun s => exists sc, shows s sc)
    (fun c s s' Hc Hi E => output_keeps c s s' Hc Hi E) _ fmt _ _ out); [|done|done|by eexists|done].
  by apply outs_type.
Qed.

(** display_string puts the characters of a zero-terminated string into
    consecutive cells from its position on, over the ends of rows, leaves the
    cursor behind the last, and touches nothing else, if the string fits
    between its position and the end of the screen. *)
Theorem display_string_puts str l row col s sc :
  rest_at elsewhere s str l -> 0 <= row -> 0 <= col < 80 ->
  80 * row + col + Z.of_nat (length l) <= 2000 -> shows s sc ->
  exists s', display_string str row col s = Ok s' /\ kept s s' /\
    shows s' (put_all (color s) (80 * row + col) l sc).
Proof.
  intros Hr Hrow Hcol Hlen Hs.
  destruct (display_string_body_ok str l row col s sc 0) as (n & s' & Hn & Hl & Hk & Hs');
    [by rewrite Z.add_0_r|done..|].
  exists s'. split; [|done]. eapply leaves_loop; [exact Hl|]. rewrite budget_eq. lia.
Qed.

(** reset_display fills all 2000 cells with spaces in the current colour and
    moves the cursor to the first one, whatever the screen and the cursor were,
    and touches nothing else. *)
Theorem reset_display_clears s :
  0 <= color s < 256 ->
  exists s', reset_display s = Ok s' /\ kept s s' /\
    shows s' (Screen (fun _ => cell (color s) 32) 0).
Proof.
  intros Hclr. unfold reset_display.
  destruct (for_loop_total (fun i t => kept s t /\
      text t (fun j => if decide (j < i) then cell (color s) 32
        else vld 2 (view (dev s)) (text_buffer + 2 * j)))
    0 2000 (fun i => display_char 32 (Z.quot i 80) (Z.rem i 80)) s) as (s1 & E & Hk & Ht);
    [lia..| | |].
  - split; [reflexivity|]. intros j Hj. by rewrite decide_False by lia.
  - intros i t Hi [Hk Ht]. rewrite Z.quot_div_nonneg, Z.rem_mod_nonneg by lia.
    assert (color t = color s) as Hct by apply Hk.
    destruct (display_char_ok 32 (i / 80) (i mod 80) t (Screen (fun j =>
      if decide (j < i) then cell (color s) 32 else vld 2 (view (dev s)) (text_buffer + 2 * j)) 0))
      as (t' & E & Hk' & Ht' & _); [lia..|done|by rewrite Hct|].
    exists t'. split; [done|]. split; [by etrans|]. intros j Hj. rewrite (Ht' j Hj).
    cbn [cells put move set_cell]. rewrite Hct. repeat case_decide; try done; lia.
  - rewrite (bind_ok _ _ _ E).
    destruct (move_ok 0 0 0 s1 (Screen (fun _ => cell (color s) 32) 0)) as (s2 & E2 & Hk2 & Hs2);
      [lia..| |by replace (color s1) with (color s) by (symmetry; apply Hk)|].
    { intros j Hj. rewrite Ht by done. by rewrite decide_True by lia. }
    exists s2. split; [done|]. split; [by etrans|done].
Qed.

(** A backspace on the first cell leaves the screen: it writes a space in
    front of the text buffer and moves the cursor to 65535, from where the next
    character is written far behind the text buffer. *)
Theorem vga_backspace_escapes s sc :
  in_win win (text_buffer - 2) 2 -> shows s sc -> cursor sc = 0 ->
  exists s', vga_output_char 8 s = Ok s' /\ text s' (cells sc) /\ cursor_pos s' = 65535 /\
    vld 2 (view (dev s')) (text_buffer - 2) = cell (color s) 32.
Proof.
  intros Hw Hs H0. unfold vga_output_char. rewrite get_cursor_pos_ok. bnd.
  destruct (selects_shows s sc 15 14 Hs) as [_ (Ht & _ & _ & Hclr)].
  destruct Hs as (_ & -> & _). rewrite H0.
  set (s1 := Vga (select 14 (select 15 (dev s))) (color s)) in *.
  change (Z.quot (0 - 1) 80) with 0. change (Z.rem (0 - 1) 80) with (-1).
  change ((8 =? 8) || (8 =? 127)) with true. cbn [Z.eqb Pos.eqb].
  unfold display_char. int_ok. change (color s1) with (color s).
  rewrite cell_word by (done || lia).
  assert (text_buffer = 753664) as Hb by done.
  rewrite u32_small by lia. change (text_buffer + 2 * (80 * 0 + -1)) with (text_buffer - 2).
  destruct (write_word_ok (text_buffer - 2) (cell (color s) 32) s1 Hw) as (s2 & E & Hc & _ & Hv).
  assert (0 <= cell (color s) 32 < 65536) as Hcell 
    by (unfold cell; change (color s1) with (color s) in Hclr; case_match; lia).
  rewrite (bind_ok _ _ _ E). change (-1 + 1) with 0. int_ok.
  change (Z.rem 0 80) with 0. change (Z.quot 0 80) with 0.
  destruct (set_cursor_pos_ok 0 0 s2) as (s3 & E3 & _ & Hv3 & _); [lia..|].
  rewrite (bind_ok _ _ _ E3). unfold set_cursor_pos. int_ok.
  change (Z.rem (0 * 80 + -1) (25 * 80)) with (-1).
  change (u8 (Z.land (-1) 255)) with 255. change (u8 (Z.land (Z.shiftr (-1) 8) 255)) with 255.
  rewrite register_write, register_write_last by lia.
  eexists. split; [done|]. split; [|split].
  - intros i Hi. rewrite <- (Ht i Hi).
    etrans; [|etrans; [exact (vld_word_written _ _ s1 s2 _ (buffer_cell i Hi) Hv Hcell ltac:(lia))|]].
    + apply vld_ext. intros b ?. cbn [dev].
      rewrite !view_write by (apply Hbuf; lia). apply Hv3, Hbuf. lia.
    + by rewrite decide_False by lia.
  - unfold cursor_pos. cbn [dev]. rewrite !crtc_write by (unfold cursor_reg; lia).
    repeat case_decide; lia.
  - etrans; [|etrans; [exact (vld_word_written _ _ s1 s2 _ Hw Hv Hcell ltac:(lia))|]].
    + apply vld_ext. intros b ?. cbn [dev]. destruct Hw as (_ & _ & Hw).
      rewrite !view_write by (apply Hw; lia). apply Hv3, Hw. lia.
    + done.
Qed.

End Operations.
