(* ===== verification/Bios.v ===== *)
(** * boot/x86/bios.c and bios.s: services of the BIOS

    The firmware is a parameter ([Firmware]): what a software interrupt makes of
    the registers and of memory, if it comes back.  [_bios_int] is the assembly around the
    interrupt; the mode switches around it change no modelled state, and the
    words it keeps the result in are private to it.

    The compiler chooses where the local variables are whose addresses are passed
    to the BIOS, so these addresses are parameters. *)

From S2P Require Export Store.
From stdpp Require Export strings.

#[local] Open Scope Z_scope.

(** ** Packed structures of the boot loader

    A packed structure is a list of fields with their widths in bits; a field
    that is itself a structure has the width of that structure.  The code reads
    and writes fields at their byte offset ([field]). *)

Definition layout := list (string * Z).

(** Members of the integer types, arrays of bytes, bit-fields. *)
Definition m8 (f : string) : string * Z := (f, 8).
Definition m16 (f : string) : string * Z := (f, 16).
Definition m32 (f : string) : string * Z := (f, 32).
Definition m64 (f : string) : string * Z := (f, 64).
Definition mbytes (f : string) (n : Z) : string * Z := (f, 8 * n).
Definition mbits (f : string) (n : Z) : string * Z := (f, n).

Definition bits (l : layout) : Z := total_width l.*2.
Definition sizeof (l : layout) : Z := bits l / 8.

(** The bit at which a field starts. *)
Fixpoint bit_offset (f : string) (l : layout) : Z :=
  match l with
  | [] => 0
  | (g, w) :: l => if String.eqb f g then 0 else w + bit_offset f l
  end.

(** The address of a field of the structure at [base]. *)
Definition field (base : Z) (l : layout) (f : string) : Z := u32 (base + bit_offset f l / 8).

(** Fields start and end on bytes, and have a name of their own. *)
Definition packed (l : layout) : bool :=
  bool_decide (NoDup l.*1) && forallb (fun f => (bit_offset f.1 l mod 8 =? 0) && (f.2 mod 8 =? 0)) l.

(** ** Services *)

(** Registers *)
Record bios_registers := Regs { eax : Z; ebx : Z; ecx : Z; edx : Z; esi : Z; edi : Z }.

Class Firmware (S : Type) := {
  interrupt : Z -> bios_registers -> S -> res (bios_registers * S);
}.

(** DAP Disk Address Packet *)
Definition bios_dap : layout :=
  [m8 "dap_size"; m8 "unused"; m16 "load_size"; m16 "load_offset"; m16 "load_segment";
   m32 "lba_low"; m32 "lba_high"].

Definition bios_registers_layout : layout :=
  [m32 "eax"; m32 "ebx"; m32 "ecx"; m32 "edx"; m32 "esi"; m32 "edi"].

(** Address range descriptor *)
Definition address_range : layout :=
  [m32 "base_addr_low"; m32 "base_addr_high"; m32 "size_low"; m32 "size_high"; m32 "type";
   m32 "acpi_attributes"].

Section Bios.
Context {S : Type} {HS : Store S} {HF : Firmware S}.

Definition _bios_int (registers : bios_registers) (code result : Z) (s : S) : res S :=
  '(r, s) ← interrupt (u8 code) registers s;
  (* Save results if the input address isn't 0 *)
  if result =? 0 then mret s
  else
    s ← st32 s result (eax r);
    s ← st32 s (u32 (result + 4)) (ebx r);
    s ← st32 s (u32 (result + 8)) (ecx r);
    s ← st32 s (u32 (result + 12)) (edx r);
    s ← st32 s (u32 (result + 16)) (esi r);
    st32 s (u32 (result + 20)) (edi r).

Section ExtRead.
Context (drive_bytes_per_sector drive_number : Z) (temp_buffer temp_dap : Z).

(** Make packet *)
Definition make_dap (lba_offset : Z) (s : S) : res S :=
  s ← wr8 s (field temp_dap bios_dap "dap_size") 16;
  s ← wr8 s (field temp_dap bios_dap "unused") 0;
  s ← st16 s (field temp_dap bios_dap "load_size") 1;
  s ← st16 s (field temp_dap bios_dap "load_offset") (u16 temp_buffer);
  s ← st16 s (field temp_dap bios_dap "load_segment") 0;
  s ← st32 s (field temp_dap bios_dap "lba_low") lba_offset;
  st32 s (field temp_dap bios_dap "lba_high") 0.

(** Copy the buffer to correct place *)
Definition copy_sector (output_address i : Z) (s : S) : res S :=
  for_loop 0 drive_bytes_per_sector (fun j s =>
    x ← rd8 s (u32 (temp_buffer + j));
    k ← to_int (i * drive_bytes_per_sector);
    k ← to_int (j + k);
    wr8 s (u32 (output_address + k)) x) s.

(** [if (++temp_dap.lba_low == 0) temp_dap.lba_high++;] *)
Definition next_lba (s : S) : res S :=
  lba_low ← ld32 s (field temp_dap bios_dap "lba_low");
  let lba_low := u32 (lba_low + 1) in
  s ← st32 s (field temp_dap bios_dap "lba_low") lba_low;
  if lba_low =? 0 then
    lba_high ← ld32 s (field temp_dap bios_dap "lba_high");
    st32 s (field temp_dap bios_dap "lba_high") (u32 (lba_high + 1))
  else mret s.

(** BIOS ext read *)
Definition bios_ext_read (output_address lba_offset length : Z) (s : S) : res S :=
  s ← make_dap lba_offset s;
  (* Make registers *)
  let registers := Regs 16896 0 0 drive_number temp_dap 0 in
  (* Read loop *)
  for_loop 0 length (fun i s =>
    (* Read using bios calls *)
    s ← _bios_int registers 19 0 s;
    s ← copy_sector output_address i s;
    next_lba s) s.
End ExtRead.

(** BIOS memory scan: the loop state is [i], the command registers, and memory,
    which holds the result registers at [result_registers]. *)
Definition mem_scan_body (length result_registers : Z) :
    Z * bios_registers * S -> res (Z * bios_registers * S + S) :=
  fun '(i, registers, s) =>
    n ← ld32 s length;
    if i <? i32 n then
      (* Scan one block *)
      s ← _bios_int registers 21 result_registers s;
      ebx_ ← ld32 s (field result_registers bios_registers_layout "ebx");
      if ebx_ =? 0 then
        (* Set actual length *)
        k ← to_int (i + 1);
        s ← st32 s length (u32 k);
        mret (inr s)
      else
        (* Go to next block *)
        ebx_ ← ld32 s (field result_registers bios_registers_layout "ebx");
        let registers := Regs (eax registers) ebx_ (ecx registers) (edx registers) (esi registers)
          (u32 (edi registers + sizeof bios_registers_layout)) in
        mret (inl (i + 1, registers, s))
    else mret (inr s).

Definition bios_mem_scan (result_registers buffer length : Z) (s : S) : res S :=
  let registers := Regs 59424 0 (sizeof address_range) 1397571920 0 buffer in
  (* Result register buffer *)
  s ← for_loop 0 6 (fun i s => st32 s (u32 (result_registers + 4 * i)) 0) s;
  loop (mem_scan_body length result_registers) (0, registers, s).
End Bios.
