(* ===== verification/BiosProps.v ===== *)
(** * Reading sectors and scanning memory with the BIOS

    [Disk] and [MemoryMap] are what the code relies on of the firmware: the
    extended read of one sector and the enumeration of memory ranges. *)

From S2P Require Export Bios.

#[local] Open Scope Z_scope.

(** Slot [i] of [n] slots of [b]. *)
Lemma slot_range i n b : 0 <= i < n -> 0 <= b -> 0 <= i * b /\ i * b + b <= n * b.
Proof. nia. Qed.

Section Memory.
Context {S : Type} {HS : Store S} {win : Z -> Prop} {HW : Window S win}.
Implicit Types (s : S).

(** A store, with what it does to the view. *)
Lemma stn_at (n : nat) s a x k (Q : S -> Prop) :
  in_win win a (Z.of_nat n) ->
  (forall s', outside s s' -> (forall b, win b -> view s' b = vst n (view s) a x b) ->
     exists t, k s' = Ok t /\ Q t) ->
  exists t, (s' ← stn n s a x; k s') = Ok t /\ Q t.
Proof.
  intros Hw Hk. destruct (stn_win n s a x Hw) as (s' & E & Ho & Hv).
  destruct (Hk s' Ho Hv) as (t & Et & HQ). exists t. split; [|done]. by rewrite (bind_ok _ _ _ E).
Qed.

Lemma wr8_at s a x k (Q : S -> Prop) :
  win a ->
  (forall s', outside s s' -> (forall b, win b -> view s' b = vst 1 (view s) a x b) ->
     exists t, k s' = Ok t /\ Q t) ->
  exists t, (s' ← wr8 s a x; k s') = Ok t /\ Q t.
Proof.
  intros Hw Hk. destruct (Hk (poke s a x)) as (t & Et & HQ).
  - by apply outside_poke.
  - intros b Hb. rewrite view_poke by done. unfold vst. repeat case_decide; try lia.
    subst. by rewrite Z.sub_diag, Z.mul_0_r, Z.pow_0_r, Z.div_1_r.
  - exists t. split; [|done]. by rewrite (bind_ok _ _ _ (wr8_win s a x Hw)).
Qed.

Lemma field_in (base : Z) (l : layout) f n :
  in_win win base n -> 0 <= bit_offset f l -> 0 <= bit_offset f l / 8 < n ->
  field base l f = base + bit_offset f l / 8.
Proof. intros (H0 & H1 & _) Hb Hn. unfold field. apply u32_small. lia. Qed.

(** The low and the high word of eight bytes. *)
Lemma vld_64 v a : vld 8 v a = vld32 v a + 2 ^ 32 * vld32 v (a + 4).
Proof.
  cbn [vld]. replace (a + 4 + 1) with (a + 1 + 1 + 1 + 1 + 1) by lia.
  replace (a + 4) with (a + 1 + 1 + 1 + 1) by lia. lia.
Qed.
End Memory.

Class Disk (S : Type) (win : Z -> Prop) `{HW : Window S win} `{HF : Firmware S}
    (drive bytes_per_sector sectors : Z) (sector : Z -> Z -> Z) := {
  disk_read regs s :
    u16 (eax regs) / 256 = 66 -> u8 (edx regs) = drive ->
    let dap := u16 (esi regs) in
    in_win win dap 16 -> view s dap = 16 -> vld 2 (view s) (dap + 2) = 1 ->
    let buffer := 16 * vld 2 (view s) (dap + 6) + vld 2 (view s) (dap + 4) in
    let lba := vld 8 (view s) (dap + 8) in
    in_win win buffer bytes_per_sector ->
    buffer + bytes_per_sector <= dap \/ dap + 16 <= buffer -> 0 <= lba < sectors ->
    exists regs' s', interrupt 19 regs s = Ok (regs', s') /\ outside s s' /\
      forall a, win a -> view s' a =
        if decide (buffer <= a < buffer + bytes_per_sector) then sector lba (a - buffer)
        else view s a;
}.

Section ExtRead.
Context {S : Type} {HS : Store S} {win : Z -> Prop} {HW : Window S win} {HF : Firmware S}.
Context (bps drive sectors : Z) (sector : Z -> Z -> Z).
Context {HD : Disk S win drive bps sectors sector}.
Context (buf dap : Z).
Implicit Types (s : S).

(** Where the compiler may put the two local variables. *)
Record locals_ok : Prop := {
  lo_bps : 0 < bps < 65536;
  lo_drive : 0 <= drive < 256;
  lo_buf : in_win win buf bps; lo_dap : in_win win dap 16;
  lo_buf16 : buf + bps <= 65536; lo_dap16 : dap + 16 <= 65536;
  lo_apart : buf + bps <= dap \/ dap + 16 <= buf }.
Context (Hl : locals_ok).

(** The two ranges the reads use as scratch memory. *)
Definition scratch (a : Z) : Prop := buf <= a < buf + bps \/ dap <= a < dap + 16.

#[local] Instance scratch_dec a : Decision (scratch a).
Proof. unfold scratch. apply _. Defined.

(** The packet asks for one sector at [lba]. *)
Definition dap_at s (lba : Z) : Prop :=
  view s dap = 16 /\ vld 2 (view s) (dap + 2) = 1 /\ vld 2 (view s) (dap + 4) = buf /\
  vld 2 (view s) (dap + 6) = 0 /\ vld 8 (view s) (dap + 8) = lba.

Lemma dap_at_ext s s' lba :
  (forall a, dap <= a < dap + 16 -> view s' a = view s a) -> dap_at s lba -> dap_at s' lba.
Proof.
  intros Hv (H0 & H1 & H2 & H3 & H4). unfold dap_at. rewrite Hv by lia.
  rewrite !(vld_ext _ (view s') (view s)) by (intros b Hb; apply Hv; lia). done.
Qed.

Ltac dap_field := rewrite (field_in _ _ _ 16 (lo_dap Hl)) by (vm_compute; intuition congruence).

Lemma make_dap_ok s lba :
  0 <= lba < 2 ^ 32 ->
  exists s', make_dap buf dap lba s = Ok s' /\ outside s s' /\ dap_at s' lba /\
    forall a, win a -> a < dap \/ dap + 16 <= a -> view s' a = view s a.
Proof.
  intros Hlba. pose proof Hl as [Hb _ Hbuf Hdap Hb16 Hd16 _]. unfold make_dap.
  destruct Hdap as (Hd0 & Hd1 & Hdw).
  assert (forall f, 0 <= bit_offset f bios_dap / 8 < 16 ->
    field dap bios_dap f = dap + bit_offset f bios_dap / 8) as Hf
    by (intros f H; unfold field; apply u32_small; lia).
  assert (forall o n, 0 <= o -> o + Z.of_nat n <= 16 -> in_win win (dap + o) (Z.of_nat n)) as Hw
    by (intros o n H0 H1; apply (in_win_sub win dap 16); [by split|lia|lia]).
  rewrite !Hf by (vm_compute; intuition congruence).
  change (bit_offset "dap_size" bios_dap / 8) with 0. change (bit_offset "unused" bios_dap / 8) with 1.
  change (bit_offset "load_size" bios_dap / 8) with 2. change (bit_offset "load_offset" bios_dap / 8) with 4.
  change (bit_offset "load_segment" bios_dap / 8) with 6. change (bit_offset "lba_low" bios_dap / 8) with 8.
  change (bit_offset "lba_high" bios_dap / 8) with 12.
  apply wr8_at; [apply Hdw; lia|intros s1 O1 V1].
  apply wr8_at; [apply Hdw; lia|intros s2 O2 V2].
  apply stn_at; [apply Hw; lia|intros s3 O3 V3].
  apply stn_at; [apply Hw; lia|intros s4 O4 V4].
  apply stn_at; [apply Hw; lia|intros s5 O5 V5].
  apply stn_at; [apply Hw; lia|intros s6 O6 V6].
  destruct (stn_win 4 s6 (dap + 12) 0 (Hw 12 4%nat ltac:(lia) ltac:(lia))) as (s7 & E7 & O7 & V7).
  exists s7. split; [exact E7|]. split; [etrans; [exact O1|]; etrans; [exact O2|]; etrans; [exact O3|];
    etrans; [exact O4|]; etrans; [exact O5|]; etrans; [exact O6|exact O7]|].
  set (F := vst 4 (vst 4 (vst 2 (vst 2 (vst 2 (vst 1 (vst 1 (view s) (dap + 0) 16) (dap + 1) 0) (dap + 2) 1)
    (dap + 4) (u16 buf)) (dap + 6) 0) (dap + 8) lba) (dap + 12) 0).
  assert (forall b, win b -> view s7 b = F b) as VF.
  { intros b Hbw. unfold F. rewrite V7 by done. apply vst_ext. rewrite V6 by done. apply vst_ext.
    rewrite V5 by done. apply vst_ext. rewrite V4 by done. apply vst_ext. rewrite V3 by done. apply vst_ext.
    rewrite V2 by done. apply vst_ext. by apply V1. }
  assert (forall n a, in_win win a (Z.of_nat n) -> vld n (view s7) a = vld n F a) as LF.
  { intros n a (_ & _ & Ha). apply vld_ext. intros b Hin. apply VF. by apply Ha. }
  split; [split_and!|].
  - transitivity (vld 1 (view s7) (dap + 0)); [cbn [vld]; by rewrite !Z.add_0_r|].
    rewrite LF by (apply Hw; lia). unfold F. do 6 rewrite (vld_vst_other 1) by lia. apply (vld_vst_same 1).
  - rewrite LF by (apply Hw; lia). unfold F. do 4 rewrite (vld_vst_other 2) by lia. apply (vld_vst_same 2).
  - rewrite LF by (apply Hw; lia). unfold F. do 3 rewrite (vld_vst_other 2) by lia.
    rewrite (vld_vst_same 2). unfold u16. destruct Hbuf as (? & _). rewrite !Z.mod_small; lia.
  - rewrite LF by (apply Hw; lia). unfold F. do 2 rewrite (vld_vst_other 2) by lia. apply (vld_vst_same 2).
  - rewrite LF by (apply Hw; lia). rewrite vld_64. replace (dap + 8 + 4) with (dap + 12) by lia.
    unfold F at 2. rewrite (vld_vst_same 4). unfold F. rewrite (vld_vst_other 4) by lia.
    rewrite (vld_vst_same 4). rewrite Z.mod_small by (change (8 * Z.of_nat 4) with 32; lia). lia.
  - intros a Ha Hao. rewrite VF by done. unfold F, vst. by repeat (rewrite decide_False by lia).
Qed.
(** The BIOS reads one sector into the buffer. *)
Lemma read_sector_ok s lba :
  dap_at s lba -> 0 <= lba < sectors ->
  exists s', _bios_int (Regs 16896 0 0 drive dap 0) 19 0 s = Ok s' /\ outside s s' /\
    forall a, win a -> view s' a =
      if decide (buf <= a < buf + bps) then sector lba (a - buf) else view s a.
Proof.
  intros (D0 & D1 & D2 & D3 & D4) Hlba. pose proof Hl as [Hb Hdr Hbuf Hdap Hb16 Hd16 Hap].
  destruct Hdap as (Hd0 & Hd1 & Hdw).
  assert (u16 dap = dap) as Hu by (apply Z.mod_small; lia).
  destruct (disk_read (Regs 16896 0 0 drive dap 0) s) as (r & s' & E & O & V);
    cbn [eax edx esi] in *; rewrite ?Hu, ?D2, ?D3, ?D4 in *;
    [done|by apply u8_small|by split|done|done|by replace (16 * 0 + buf) with buf by lia|lia|done|].
  replace (16 * 0 + buf) with buf in V by lia.
  exists s'. split; [|by split]. unfold _bios_int. change (u8 19) with 19. by rewrite (bind_ok _ _ _ E).
Qed.

(** The copy to its place. *)
Lemma copy_sector_ok s out i :
  0 <= i -> (i + 1) * bps < 2 ^ 31 -> in_win win (out + i * bps) bps ->
  0 <= out -> (forall x, out + i * bps <= x < out + i * bps + bps -> ~ scratch x) ->
  exists s', copy_sector bps buf out i s = Ok s' /\ outside s s' /\
    forall a, win a -> view s' a =
      if decide (out + i * bps <= a < out + i * bps + bps) then view s (buf + (a - (out + i * bps)))
      else view s a.
Proof.
  intros Hi Hk (Ho0 & Ho1 & How) Hout Hap. pose proof Hl as [Hb _ (Hb0 & Hb1 & Hbw) _ Hb16 _ _].
  set (dst := out + i * bps) in *. unfold copy_sector.
  destruct (for_loop_total (fun j t => outside s t /\ forall a, win a -> view t a =
    if decide (dst <= a < dst + j) then view s (buf + (a - dst)) else view s a) 0 bps
    (fun j s => x ← rd8 s (u32 (buf + j)); k ← to_int (i * bps); k ← to_int (j + k);
       wr8 s (u32 (out + k)) x) s) as (s' & E & O & V); [lia|lia| | |by exists s'].
  - split; [reflexivity|]. intros a Ha. by rewrite decide_False by lia.
  - intros j t Hj [Ot Vt]. assert (0 <= i * bps) as H0 by nia.
    rewrite (u32_small (buf + j)) by lia.
    assert (win (buf + j)) as Hwb by (apply Hbw; lia).
    rewrite (bind_ok _ _ _ (rd8_win t _ Hwb)). cbv beta. int_ok.
    rewrite u32_small by (unfold dst in *; lia).
    assert (win (out + (j + i * bps))) as Hwd by (apply How; unfold dst; lia).
    rewrite wr8_win by done. eexists. split; [done|]. split; [etrans; [done|by apply outside_poke]|].
    intros a Ha. rewrite view_poke by done.
    assert (view t (buf + j) = view s (buf + j)) as Hs.
    { rewrite Vt by done. rewrite decide_False; [done|]. intros Hin. apply (Hap (buf + j)); [lia|].
      left. lia. }
    rewrite Hs, Vt by done. unfold dst in *.
    pose proof (view_range s (buf + j)).
    repeat case_decide; try lia; try done. subst a. rewrite u8_small by done. f_equal. lia.
Qed.

(** A store to one half of the sector number leaves the rest of the packet. *)
Lemma lba_stored s lba o x :
  dap_at s lba -> o = 8 \/ o = 12 ->
  exists s', stn 4 s (dap + o) x = Ok s' /\ outside s s' /\
    dap_at s' (vld 8 (vst 4 (view s) (dap + o) x) (dap + 8)) /\
    forall a, win a -> view s' a = vst 4 (view s) (dap + o) x a.
Proof.
  intros (D0 & D1 & D2 & D3 & _) Ho. pose proof (lo_dap Hl) as Hdap. pose proof Hdap as (_ & _ & Hdw).
  destruct (stn_win 4 s (dap + o) x) as (s' & E & O & V);
    [apply (in_win_sub win dap 16 _ 4 Hdap); lia|].
  exists s'. split; [exact E|]. split; [done|]. split; [|done].
  assert (forall n a, dap <= a -> a + Z.of_nat n <= dap + 16 ->
    vld n (view s') a = vld n (vst 4 (view s) (dap + o) x) a) as L
    by (intros n a H0 H1; apply vld_ext; intros b Hb; apply V, Hdw; lia).
  split_and!; rewrite ?L by lia; rewrite ?vld_vst_other by lia; try done.
  rewrite V by (apply Hdw; lia). by rewrite vst_out by lia.
Qed.

(** The next sector. *)
Lemma next_lba_ok s lba :
  dap_at s lba -> 0 <= lba -> lba + 1 < 2 ^ 64 ->
  exists s', next_lba dap s = Ok s' /\ outside s s' /\ dap_at s' (lba + 1) /\
    forall a, win a -> a < dap \/ dap + 16 <= a -> view s' a = view s a.
Proof.
  intros D H0 H1. pose proof (lo_dap Hl) as Hdap. pose proof Hdap as (Hd0 & Hd1 & Hdw).
  pose proof Hl as [_ _ _ _ _ Hd16 _]. pose proof D as (_ & _ & _ & _ & D4).
  assert (forall o, 0 <= o <= 12 -> in_win win (dap + o) 4) as Hw
    by (intros o Ho; apply (in_win_sub win dap 16 _ 4 Hdap); lia).
  unfold next_lba, field.
  change (bit_offset "lba_low" bios_dap / 8) with 8. change (bit_offset "lba_high" bios_dap / 8) with 12.
  rewrite !u32_small by lia.
  rewrite (bind_ok _ _ _ (ldn_win 4 s _ (Hw 8 ltac:(lia)))). cbv beta zeta.
  rewrite vld_64 in D4. replace (dap + 8 + 4) with (dap + 12) in D4 by lia.
  set (lo := vld32 (view s) (dap + 8)) in *. set (hi := vld32 (view s) (dap + 12)) in *.
  assert (0 <= lo < 2 ^ 32) by apply (vld_range 4), view_range.
  assert (0 <= hi < 2 ^ 32) by apply (vld_range 4), view_range.
  destruct (lba_stored s lba 8 (u32 (lo + 1)) D (or_introl eq_refl)) as (s1 & E1 & O1 & D1 & V1).
  rewrite (bind_ok _ _ _ E1). cbv beta.
  assert (vld 8 (vst 4 (view s) (dap + 8) (u32 (lo + 1))) (dap + 8) = u32 (lo + 1) + 2 ^ 32 * hi) as Lo.
  { rewrite vld_64, (vld_vst_same 4), (vld_vst_other 4) by lia. unfold u32.
    change (8 * Z.of_nat 4) with 32. rewrite Z.mod_mod by lia. unfold hi. do 3 f_equal. lia. }
  rewrite Lo in D1. destruct (Z.eqb_spec (u32 (lo + 1)) 0) as [Hz|Hz].
  - rewrite (bind_ok _ _ _ (ldn_win 4 s1 _ (Hw 12 ltac:(lia)))). cbv beta.
    rewrite Hz in D1. pose proof D1 as (_ & _ & _ & _ & L1). rewrite vld_64 in L1.
    replace (dap + 8 + 4) with (dap + 12) in L1 by lia.
    assert (0 <= vld32 (view s1) (dap + 8) < 2 ^ 32) by apply (vld_range 4), view_range.
    assert (vld32 (view s1) (dap + 12) = hi) as -> by lia.
    assert (vld32 (view s1) (dap + 8) = 0) as Hlow by lia.
    destruct (lba_stored s1 _ 12 (u32 (hi + 1)) D1 (or_intror eq_refl)) as (s2 & E2 & O2 & D2 & V2).
    exists s2. split; [exact E2|]. split; [by etrans|]. split.
    + rewrite vld_64, (vld_vst_other 4), Hlow in D2 by lia.
      replace (dap + 8 + 4) with (dap + 12) in D2 by lia. rewrite (vld_vst_same 4) in D2.
      replace (lba + 1) with (0 + 2 ^ 32 * (u32 (hi + 1) mod 2 ^ (8 * Z.of_nat 4))); [done|].
      unfold u32 in *. change (8 * Z.of_nat 4) with 32. rewrite Z.mod_mod by lia. lia.
    + intros a Ha Hao. rewrite V2, (vst_out 4), V1, (vst_out 4) by (done || lia). done.
  - exists s1. split; [done|]. split; [done|]. split.
    + replace (lba + 1) with (u32 (lo + 1) + 2 ^ 32 * hi); [done|]. unfold u32 in *. lia.
    + intros a Ha Hao. rewrite V1, (vst_out 4) by (done || lia). done.
Qed.
(** One round: the sector at [lba + i] goes to its place. *)
Lemma read_round s out lba i :
  dap_at s (lba + i) -> 0 <= lba + i < sectors -> lba + i + 1 < 2 ^ 64 -> 0 <= i -> 0 <= out ->
  (i + 1) * bps < 2 ^ 31 -> in_win win (out + i * bps) bps ->
  (forall x, out + i * bps <= x < out + i * bps + bps -> ~ scratch x) ->
  exists s', (s1 ← _bios_int (Regs 16896 0 0 drive dap 0) 19 0 s;
              s2 ← copy_sector bps buf out i s1; next_lba dap s2) = Ok s' /\
    outside s s' /\ dap_at s' (lba + (i + 1)) /\
    forall a, win a -> ~ scratch a -> view s' a =
      if decide (out + i * bps <= a < out + i * bps + bps) then sector (lba + i) (a - (out + i * bps))
      else view s a.
Proof.
  intros Hd H0 H1 Hi Hout H31 Hw Hsc. pose proof Hl as [Hb _ (Hb0 & Hb1 & Hbw) (_ & _ & Hdw) Hb16 Hd16 Hap].
  destruct (read_sector_ok s (lba + i) Hd H0) as (s1 & E1 & O1 & V1).
  destruct (copy_sector_ok s1 out i) as (s2 & E2 & O2 & V2); [done..|].
  assert (forall a, win a -> view s2 a =
    if decide (out + i * bps <= a < out + i * bps + bps) then sector (lba + i) (a - (out + i * bps))
    else view s1 a) as V2'.
  { intros a Ha. rewrite V2 by done. case_decide; [|done].
    rewrite V1 by (apply Hbw; lia). rewrite decide_True by lia. f_equal. lia. }
  destruct (next_lba_ok s2 (lba + i)) as (s3 & E3 & O3 & D3 & V3); [|lia|lia|].
  { apply (dap_at_ext s); [|done]. intros a Ha. rewrite V2' by (apply Hdw; lia).
    rewrite decide_False; [rewrite V1 by (apply Hdw; lia); by rewrite decide_False by lia|].
    intros Hin. apply (Hsc a Hin). by right. }
  exists s3. rewrite (bind_ok _ _ _ E1). cbv beta. rewrite (bind_ok _ _ _ E2). cbv beta.
  split; [exact E3|]. split; [etrans; [exact O1|]; by etrans|].
  split; [by replace (lba + (i + 1)) with (lba + i + 1) by lia|].
  intros a Ha Hns. unfold scratch in Hns. rewrite V3 by (done || lia). rewrite V2' by done.
  case_decide; [done|]. rewrite V1 by done. by rewrite decide_False by lia.
Qed.

(** The sectors from [lba] on, as one range of bytes at [out]. *)
Definition sectors_at (out lba : Z) (a : Z) : Z := sector (lba + (a - out) / bps) ((a - out) mod bps).

Lemma ext_read_runs s out lba n :
  0 <= lba < 2 ^ 32 -> 0 <= n -> lba + n <= sectors -> lba + n < 2 ^ 64 -> n * bps < 2 ^ 31 ->
  in_win win out (n * bps) -> (forall x, out <= x < out + n * bps -> ~ scratch x) ->
  exists s', bios_ext_read bps drive buf dap out lba n s = Ok s' /\ outside s s' /\
    forall a, win a -> ~ scratch a ->
      view s' a = if decide (out <= a < out + n * bps) then sectors_at out lba a else view s a.
Proof.
  intros H0 Hn Hs H64 H31 (Ho0 & Ho1 & How) Hsc. pose proof Hl as [Hb _ _ _ _ _ _].
  destruct (make_dap_ok s lba H0) as (s0 & E0 & O0 & D0 & V0). unfold bios_ext_read.
  rewrite (bind_ok _ _ _ E0). cbv beta zeta.
  destruct (for_loop_total (fun i t => outside s t /\ dap_at t (lba + i) /\
    forall a, win a -> ~ scratch a -> view t a =
      if decide (out <= a < out + i * bps) then sectors_at out lba a else view s a) 0 n
    (fun i s => s1 ← _bios_int (Regs 16896 0 0 drive dap 0) 19 0 s;
                s2 ← copy_sector bps buf out i s1; next_lba dap s2) s0)
    as (s' & E & O & _ & V); [done|lia| | |by exists s'].
  - split; [done|]. split; [by rewrite Z.add_0_r|]. intros a Ha Hns. rewrite decide_False by lia.
    unfold scratch in Hns. apply V0; [done|lia].
  - intros i t Hi (Ot & Dt & Vt). destruct (slot_range i n bps ltac:(lia) ltac:(lia)) as [G0 G1].
    destruct (read_round t out lba i Dt) as (t' & E & O & D & V); try lia.
    { split; [lia|]. split; [lia|]. intros b Hin. apply How. lia. }
    { intros x Hx. apply Hsc. lia. }
    exists t'. split; [exact E|]. split; [by etrans|]. split; [done|].
    intros a Ha Hns. rewrite V, Vt by done. replace ((i + 1) * bps) with (i * bps + bps) by lia.
    destruct (decide (out + i * bps <= a < out + i * bps + bps)) as [Hin|Hout].
    + rewrite decide_True by lia. unfold sectors_at.
      assert (a - out = i * bps + (a - (out + i * bps))) as -> by lia.
      rewrite Z.div_add_l, (Z.div_small (a - (out + i * bps))) by lia.
      rewrite (Z.add_comm (i * bps)), Z.mod_add, Z.mod_small by lia. f_equal. lia.
    + repeat case_decide; try done; lia.
Qed.

(** C22. bios_ext_read fills exactly the destination: the bytes of the sectors from
    [lba] on appear there in order, across 2^32 as well, and besides its two local
    variables nothing else changes. *)
Theorem bios_ext_read_sectors s out lba n :
  0 <= lba < 2 ^ 32 -> 0 <= n -> lba + n <= sectors -> lba + n < 2 ^ 64 -> n * bps < 2 ^ 31 ->
  in_win win out (n * bps) -> (forall x, out <= x < out + n * bps -> ~ scratch x) ->
  exists s', bios_ext_read bps drive buf dap out lba n s = Ok s' /\ outside s s' /\
    (forall k j, 0 <= k < n -> 0 <= j < bps -> view s' (out + k * bps + j) = sector (lba + k) j) /\
    forall a, win a -> ~ scratch a -> a < out \/ out + n * bps <= a -> view s' a = view s a.
Proof.
  intros H0 Hn Hs H64 H31 Hw Hsc. destruct (ext_read_runs s out lba n) as (s' & E & O & V); [done..|].
  exists s'. split; [done|]. split; [done|]. pose proof Hl as [Hb _ _ _ _ _ _]. split.
  - intros k j Hk Hj. destruct (slot_range k n bps ltac:(lia) ltac:(lia)) as [G0 G1].
    rewrite V; [|apply Hw; lia|apply Hsc; lia]. rewrite decide_True by lia. unfold sectors_at.
    replace (out + k * bps + j - out) with (k * bps + j) by lia.
    rewrite Z.div_add_l, Z.div_small by lia.
    rewrite (Z.add_comm (k * bps)), Z.mod_add, Z.mod_small by lia.
    f_equal. lia.
  - intros a Ha Hns Hao. rewrite V by done. by rewrite decide_False by lia.
Qed.
End ExtRead.

(** The BIOS's map of memory: [count] ranges, of each [width] bytes are given; the
    continuation value of the first range is 0. *)
Class MemoryMap (S : Type) (win : Z -> Prop) `{HW : Window S win} `{HF : Firmware S}
    (count width : Z) (entry : Z -> Z -> Z) (cont : Z -> Z) := {
  map_count : 0 < count;
  map_width : 20 <= width <= 24;
  cont_first : cont 0 = 0;
  cont_range k : 0 < k < count -> 0 < cont k < 2 ^ 32;
  map_scan regs s k :
    0 <= k < count -> eax regs = 59424 -> edx regs = 1397571920 -> ecx regs = 24 ->
    ebx regs = cont k -> in_win win (u16 (edi regs)) 24 ->
    exists regs' s', interrupt 21 regs s = Ok (regs', s') /\
      ebx regs' = (if k + 1 <? count then cont (k + 1) else 0) /\ outside s s' /\
      forall a, win a -> view s' a =
        if decide (u16 (edi regs) <= a < u16 (edi regs) + width) then entry k (a - u16 (edi regs))
        else view s a;
}.

Section MemScan.
Context {S : Type} {HS : Store S} {win : Z -> Prop} {HW : Window S win} {HF : Firmware S}.
Context (count width : Z) (entry : Z -> Z -> Z) (cont : Z -> Z).
Context {HM : MemoryMap S win count width entry cont}.
Context (result buffer len n : Z).
Implicit Types (s : S).

(** The result registers, the table and its length lie apart, the table where the
    BIOS can address it. *)
Record scan_ok : Prop := {
  so_n : 0 <= n < 2 ^ 31;
  so_result : in_win win result 24; so_nonnull : 0 < result;
  so_buffer : in_win win buffer (24 * n); so_low : buffer + 24 * n <= 65536;
  so_len : in_win win len 4;
  so_rl : result + 24 <= len \/ len + 4 <= result;
  so_rb : result + 24 <= buffer \/ buffer + 24 * n <= result;
  so_lb : len + 4 <= buffer \/ buffer + 24 * n <= len }.
Context (Hs : scan_ok).

(** A call that keeps its result. *)
Lemma bios_int_result regs code s r s1 :
  interrupt (u8 code) regs s = Ok (r, s1) ->
  exists s', _bios_int regs code result s = Ok s' /\ outside s1 s' /\
    vld32 (view s') (result + 4) = u32 (ebx r) /\
    forall a, win a -> a < result \/ result + 24 <= a -> view s' a = view s1 a.
Proof.
  intros E. pose proof Hs as [_ (Hr0 & Hr1 & Hrw) Hnz _ _ _ _ _ _].
  assert (forall o, 0 <= o -> o + 4 <= 24 -> in_win win (result + o) (Z.of_nat 4)) as Hw
    by (intros o H0 H1; apply (in_win_sub win result 24); [by split|lia|lia]).
  assert (forall o : Z, 0 <= o < 24 -> u32 (result + o) = result + o) as Hu
    by (intros o Ho; apply u32_small; lia).
  unfold _bios_int. rewrite (bind_ok _ _ _ E). cbv beta iota. zbool. rewrite !Hu by lia.
  destruct (stn_win 4 s1 result (eax r)) as (t1 & E1 & O1 & V1); [by rewrite <- (Z.add_0_r result); apply Hw|].
  rewrite (bind_ok _ _ _ E1). cbv beta.
  destruct (stn_win 4 t1 (result + 4) (ebx r)) as (t2 & E2 & O2 & V2); [apply Hw; lia|].
  rewrite (bind_ok _ _ _ E2). cbv beta.
  destruct (stn_win 4 t2 (result + 8) (ecx r)) as (t3 & E3 & O3 & V3); [apply Hw; lia|].
  rewrite (bind_ok _ _ _ E3). cbv beta.
  destruct (stn_win 4 t3 (result + 12) (edx r)) as (t4 & E4 & O4 & V4); [apply Hw; lia|].
  rewrite (bind_ok _ _ _ E4). cbv beta.
  destruct (stn_win 4 t4 (result + 16) (esi r)) as (t5 & E5 & O5 & V5); [apply Hw; lia|].
  rewrite (bind_ok _ _ _ E5). cbv beta.
  destruct (stn_win 4 t5 (result + 20) (edi r)) as (t6 & E6 & O6 & V6); [apply Hw; lia|].
  exists t6. split; [exact E6|].
  split; [etrans; [exact O1|]; etrans; [exact O2|]; etrans; [exact O3|]; etrans; [exact O4|];
    by etrans; [exact O5|]|].
  assert (forall a, win a -> a < result + 8 \/ result + 24 <= a -> view t6 a = view t2 a) as V.
  { intros a Ha Hao. rewrite V6 by done. rewrite vst_out by lia.
    rewrite V5 by done. rewrite vst_out by lia.
    rewrite V4 by done. rewrite vst_out by lia.
    rewrite V3 by done. by rewrite vst_out by lia. }
  split.
  - rewrite (vld_ext 4 _ (vst 4 (view t1) (result + 4) (ebx r))); [apply (vld_vst_same 4)|].
    intros b Hb. rewrite V by (apply Hrw || lia; lia). apply V2, Hrw. lia.
  - intros a Ha Hao. rewrite V by (done || lia). rewrite V2 by done. rewrite vst_out by lia. rewrite V1 by done. by rewrite vst_out by lia.
Qed.

(** The table holds the first [i] ranges, the rest is as in [s]. *)
Definition scanned s (i : Z) (t : S) : Prop :=
  (forall k j, 0 <= k < i -> 0 <= j < width -> view t (buffer + 24 * k + j) = entry k j) /\
  forall a, win a -> a < result \/ result + 24 <= a -> a < len \/ len + 4 <= a ->
    a < buffer \/ buffer + 24 * i <= a -> view t a = view s a.

(** One range. *)
Lemma scan_one s i t :
  0 <= i < count -> i < n -> scanned s i t -> vld32 (view t) len = n ->
  exists t' e, _bios_int (Regs 59424 (cont i) 24 1397571920 0 (buffer + 24 * i)) 21 result t = Ok t' /\
    outside t t' /\ ld32 t' (field result bios_registers_layout "ebx") = Ok e /\
    e = (if i + 1 <? count then cont (i + 1) else 0) /\
    scanned s (i + 1) t' /\ vld32 (view t') len = n.
Proof.
  intros Hi Hin [Sk So] Hlen. pose proof map_width as Hwd.
  pose proof Hs as [Hn (Hr0 & Hr1 & Hrw) Hnz (Hb0 & Hb1 & Hbw) Hlow (Hl0 & Hl1 & Hlw) Hrl Hrb Hlb].
  destruct (map_scan (Regs 59424 (cont i) 24 1397571920 0 (buffer + 24 * i)) t i)
    as (r & t1 & E & Hebx & O1 & V1); try done; cbn [edi] in *;
    assert (u16 (buffer + 24 * i) = buffer + 24 * i) as Hu by (apply Z.mod_small; lia); rewrite Hu in *.
  { split; [lia|]. split; [lia|]. intros b Hb. apply Hbw. lia. }
  destruct (bios_int_result (Regs 59424 (cont i) 24 1397571920 0 (buffer + 24 * i)) 21 t r t1 E)
    as (t2 & E2 & O2 & L2 & V2).
  exists t2, (ebx r). split; [exact E2|]. split; [by etrans|]. split; [|split; [done|split; [split|]]].
  - unfold field. change (bit_offset "ebx" bios_registers_layout / 8) with 4. rewrite u32_small by lia.
    rewrite ldn_win.
    + rewrite L2. f_equal. apply u32_small. rewrite Hebx.
      destruct (Z.ltb_spec (i + 1) count); [|lia]. pose proof (cont_range (i + 1)). lia.
    + split; [lia|]. split; [lia|]. intros b Hb. apply Hrw. lia.
  - intros k j Hk Hj. rewrite V2, V1 by (apply Hbw || lia; lia). destruct (decide (k = i)) as [->|Hne].
    + rewrite decide_True by lia. f_equal. lia.
    + rewrite decide_False by lia. apply Sk; lia.
  - intros a Ha Har Hal Hab. rewrite V2, V1 by done. rewrite decide_False by lia. apply So; (done || lia).
  - rewrite <- Hlen. apply vld_ext. intros b Hb. rewrite V2, V1 by (apply Hlw || lia; lia).
    by rewrite decide_False by lia.
Qed.

(** All ranges that fit. *)
Lemma bios_mem_scan_ok s :
  vld32 (view s) len = n ->
  exists s', bios_mem_scan result buffer len s = Ok s' /\ outside s s' /\
    vld32 (view s') len = Z.min n count /\ scanned s (Z.min n count) s'.
Proof.
  intros Hlen. pose proof map_count as Hc.
  pose proof Hs as [Hn Hres Hnz Hbuf Hlow (Hl0 & Hl1 & Hlw) Hrl Hrb Hlb].
  destruct Hres as (Hr0 & Hr1 & Hrw). pose proof Hbuf as (Hb0 & _ & Hbw). unfold bios_mem_scan.
  destruct (fill_words s result 6 (fun i => u32 (result + 4 * i)) (fun _ => 0))
    as (s0 & E0 & O0 & _ & V0); [lia|by split|intros i Hi; apply u32_small; lia|].
  rewrite (bind_ok _ _ _ E0). cbv beta. change (sizeof address_range) with 24.
  apply (loop_total _ (fun '(i, regs, t) =>
    0 <= i < count /\ i <= n /\ regs = Regs 59424 (cont i) 24 1397571920 0 (buffer + 24 * i) /\
    outside s t /\ scanned s i t /\ vld32 (view t) len = n) (fun '(i, _, _) => n - i)).
  - split; [lia|]. split; [lia|]. split; [rewrite cont_first; do 2 f_equal; lia|].
    split; [done|]. split; [split; [lia|]|].
    + intros a Ha Har _ _. apply V0; [done|lia].
    + rewrite <- Hlen. apply vld_ext. intros b Hb. apply V0; [apply Hlw|]; lia.
  - rewrite budget_eq. lia.
  - intros [[i regs] t] (Hi & Hin & -> & Ot & St & Lt). split; [lia|].
    assert (in_win win len (Z.of_nat 4)) as Hwl by (by split).
    unfold mem_scan_body. rewrite (bind_ok _ _ _ (ldn_win 4 t len Hwl)). cbv beta. rewrite Lt.
    rewrite i32_small by lia. destruct (Z.ltb_spec i n) as [Hlt|Hge].
    + destruct (scan_one s i t Hi Hlt St Lt) as (t1 & e & E1 & O1 & Le & He & S1 & L1).
      rewrite (bind_ok _ _ _ E1). cbv beta. rewrite (bind_ok _ _ _ Le). cbv beta.
      destruct (Z.ltb_spec (i + 1) count) as [Hmore|Hlast].
      * pose proof (cont_range (i + 1) ltac:(lia)) as Hcr. rewrite He.
        replace (cont (i + 1) =? 0) with false by lia. rewrite He in Le.
        rewrite (bind_ok _ _ _ Le). cbv beta zeta.
        eexists. split; [reflexivity|]. split; [|lia]. split; [lia|]. split; [lia|].
        cbn [eax ecx edx esi edi]. change (sizeof bios_registers_layout) with 24.
        split; [rewrite u32_small by lia; f_equal; lia|]. split; [by etrans|done].
      * rewrite He. cbn [Z.eqb]. int_ok.
        destruct (stn_win 4 t1 len (u32 (i + 1)) Hwl) as (t2 & E2 & O2 & V2).
        rewrite (bind_ok _ _ _ E2). cbv beta. eexists. split; [reflexivity|].
        destruct S1 as [Sk So]. replace (Z.min n count) with (i + 1) by lia.
        split; [etrans; [done|]; by etrans|]. split; [|split].
        -- rewrite (vld_ext 4 _ (vst 4 (view t1) len (u32 (i + 1)))) by (intros b Hb; apply V2, Hlw; lia).
           rewrite vld_vst_same. rewrite Z.mod_small; [apply u32_small; lia|apply u32_range].
        -- intros k j Hk Hj. pose proof map_width. rewrite V2 by (apply Hbw; lia). rewrite vst_out by lia. apply Sk; lia.
        -- intros a Ha Har Hal Hab. rewrite V2 by done. rewrite vst_out by lia. by apply So.
    + exists (inr t). split; [done|]. replace (Z.min n count) with i by lia.
      split; [done|]. split; [lia|]. exact St.
Qed.

(** C23. bios_mem_scan stores the BIOS's memory map, as many ranges as the table has
    room for, and their number; besides the table, the length and its own result
    registers nothing changes. *)
Theorem bios_mem_scan_ranges s :
  vld32 (view s) len = n ->
  exists s', bios_mem_scan result buffer len s = Ok s' /\ outside s s' /\
    vld32 (view s') len = Z.min n count /\
    (forall k j, 0 <= k < Z.min n count -> 0 <= j < width -> view s' (buffer + 24 * k + j) = entry k j) /\
    forall a, win a -> a < result \/ result + 24 <= a -> a < len \/ len + 4 <= a ->
      a < buffer \/ buffer + 24 * Z.min n count <= a -> view s' a = view s a.
Proof.
  intros Hlen. destruct (bios_mem_scan_ok s Hlen) as (s' & E & O & L & Sk & So). by exists s'.
Qed.
End MemScan.
