(* ===== verification/Exfat.v ===== *)
(** * boot/x86/fs/exfat.c: reading a file from an exFAT volume

    Sectors are read with [bios_ext_read]; the boot record, the up-case table and
    the buffers are memory, at addresses that are parameters, and their fields are
    read when the code reads them.  Local arrays whose address is not passed on
    ([filename], the copies of directory entries) are values. *)

From S2P Require Export BiosProps CString.

#[local] Open Scope Z_scope.

(** ** exfat.h: the entries of a directory *)

(** The generic directory entry form *)
Definition exfat_generic_dir_entry : layout := [m8 "entry_type"; mbytes "custom" 31].

(** Up-case table directory entry *)
Definition exfat_upcase_dir_entry : layout :=
  [m8 "entry_type"; mbytes "reserved" 3; mbytes "checksum" 4; mbytes "reserved2" 12;
   m32 "first_cluster"; m64 "data_length"].

(** Volume label directory entry *)
Definition exfat_volume_label_dir_entry : layout :=
  [m8 "entry_type"; m8 "character_count"; mbytes "volume_label" 22; mbytes "reserved" 8].

(** File attributes *)
Definition exfat_file_attributes : layout :=
  [mbits "readonly" 1; mbits "hidden" 1; mbits "system" 1; mbits "reserved" 1; mbits "directory" 1;
   mbits "archive" 1; mbits "reserved2" 10].

(** Timestamp format *)
Definition exfat_timestamp : layout :=
  [mbits "double_seconds" 5; mbits "minute" 6; mbits "hour" 5; mbits "day" 5; mbits "month" 4;
   mbits "year" 7].

(** File directory entry *)
Definition exfat_file_dir_entry : layout :=
  [m8 "entry_type"; m8 "secondary_count"; mbytes "checksum" 2;
   mbits "attributes" (bits exfat_file_attributes); m16 "reserved";
   mbits "create_time" (bits exfat_timestamp); mbits "last_modified_time" (bits exfat_timestamp);
   mbits "last_accessed_time" (bits exfat_timestamp); m8 "create_time_10ms";
   m8 "last_modified_10ms"; m8 "create_timezone"; m8 "last_modified_timezone";
   m8 "last_accessed_timezone"; mbytes "reserved2" 7].

(** General flags attribute *)
Definition exfat_general_flags : layout :=
  [mbits "allocation_possible" 1; mbits "nofatchain" 1; mbits "custom" 6].

(** File stream extension entry *)
Definition exfat_extension_dir_entry : layout :=
  [m8 "entry_type"; mbits "flags" (bits exfat_general_flags); m8 "reserved"; m8 "name_length";
   mbytes "name_hash" 2; mbytes "reserved2" 2; m64 "valid_data_length"; mbytes "reserved3" 4;
   m32 "first_cluster"; m64 "data_length"].

(** File name directory entry *)
Definition exfat_name_dir_entry : layout :=
  [m8 "entry_type"; mbits "flags" (bits exfat_general_flags); mbytes "name" 30].

(** Bitmap flags attribute *)
Definition exfat_bitmap_flags : layout := [mbits "id" 1; mbits "reserved" 7].

(** Bitmap allocation entry *)
Definition exfat_bitmap_dir_entry : layout :=
  [m8 "entry_type"; mbits "flags" (bits exfat_bitmap_flags); mbytes "reserved" 18;
   m32 "first_cluster"; m64 "data_length"].

(** Volume GUID directory entry *)
Definition exfat_volume_guid_dir_entry : layout :=
  [m8 "entry_type"; m8 "secondary_count"; mbytes "checksum" 2; mbits "flags" (bits exfat_general_flags);
   mbytes "guid" 16; mbytes "reserved" 10].

(** The boot record *)
Definition exfat_boot_record_layout : layout :=
  [mbytes "jumpboot" 3; mbytes "fs_name" 8; mbytes "zero" 53; m64 "partition_offset";
   m64 "volume_length"; m32 "fat_offset"; m32 "fat_length"; m32 "cluster_heap_offset";
   m32 "cluster_count"; m32 "root_first_cluster"; m32 "volume_serial"; m16 "fs_revision";
   m16 "volume_flags"; m8 "bytes_per_sector_shift"; m8 "sectors_per_cluster_shift";
   m8 "number_of_fats"; m8 "drive_select"; m8 "percent_used"; mbytes "reserved" 7;
   mbytes "bootcode" 390; mbytes "boot_signature" 2].

(** A [char] as an [int]. *)
Definition char_int (c : Z) : Z := if c <? 128 then c else c - 256.

Section Exfat.
Context {S : Type} {HS : Store S} {HF : Firmware S}.
Context (drive_bytes_per_sector drive_number : Z) (temp_buffer temp_dap : Z).
Context (exfat_boot_record upcase_table load_buffer fat_buffer : Z).

#[local] Abbreviation bios_read :=
  (bios_ext_read drive_bytes_per_sector drive_number temp_buffer temp_dap).

(** A word of the boot record. *)
Definition record32 (f : string) (s : S) : res Z :=
  ld32 s (field exfat_boot_record exfat_boot_record_layout f).
Definition record8 (f : string) (s : S) : res Z :=
  rd8 s (field exfat_boot_record exfat_boot_record_layout f).

(** Get the heap LBA *)
Definition get_heap_lba (index : Z) (s : S) : res Z :=
  heap ← record32 "cluster_heap_offset" s;
  shift ← record8 "sectors_per_cluster_shift" s;
  n ← shl32 (u32 (index - 2)) shift;
  div32 (u32 (u32 (u32 (256 + heap) + n) * 512)) drive_bytes_per_sector.

(** Get the LBA that the FAT entry resides in *)
Definition get_fat_lba (index : Z) (s : S) : res Z :=
  fat ← record32 "fat_offset" s;
  div32 (u32 (u32 (u32 (256 + fat) + u32 (index * 4) / 512) * 512)) drive_bytes_per_sector.

(** Get cluster size in sectors *)
Definition get_cluster_size (size : Z) (s : S) : res Z :=
  shift ← record8 "sectors_per_cluster_shift" s;
  n ← shl32 size shift;
  div32 (u32 (n * 512)) drive_bytes_per_sector.

(** Search for and load upcase table *)
Definition load_upcase (s : S) : res S :=
  loop (fun '(i, s) =>
    if i <? drive_bytes_per_sector then
      t ← rd8 s (u32 (load_buffer + i));
      if t =? 130 then
        (* Load the upcase cluster *)
        c ← ld32 s (field (u32 (load_buffer + i)) exfat_upcase_dir_entry "first_cluster");
        lba ← get_heap_lba c s;
        s ← bios_read load_buffer lba 1 s;
        '(s, _) ← memcpy s upcase_table load_buffer 128;
        mret (inr s)
      else mret (inl (i + 32, s))
    else mret (inr s)) (0, s).

(** Initialize the exfat filesystem *)
Definition init_exfat (s : S) : res S :=
  (* Load boot record *)
  lba ← div32 (256 * 512) drive_bytes_per_sector;
  s ← bios_read load_buffer lba 1 s;
  '(s, _) ← memcpy s exfat_boot_record load_buffer (sizeof exfat_boot_record_layout);
  (* Fill out upcase default *)
  s ← for_loop 0 128 (fun i s => st16 s (u32 (upcase_table + 2 * i)) i) s;
  (* Load root directory *)
  root ← record32 "root_first_cluster" s;
  lba ← get_heap_lba root s;
  s ← bios_read load_buffer lba 1 s;
  load_upcase s.

(** *** [_read_file_exfat_helper] *)

(** The entry [i] of a directory. *)
Definition dir_entry (dir_buffer i : Z) : Z := u32 (dir_buffer + 32 * i).

(** [filename[k] = v] *)
Definition set_name (k v : Z) (filename : list Z) : res (list Z) :=
  if k <? 255 then Ok (<[Z.to_nat k := v]> filename) else Undef.

(** Get the name of the file *)
Definition copy_name (dir_buffer i name_entry_count : Z) (s : S) (filename : list Z) : res (list Z) :=
  for_loop 0 name_entry_count (fun j filename =>
    let name_entry := dir_entry dir_buffer (i + j + 2) in
    for_loop 0 15 (fun x filename =>
      c ← ld16 s (u32 (field name_entry exfat_name_dir_entry "name" + 2 * x));
      set_name (j * 15 + x) c filename) filename) filename.

(** Apply upcase table to the filename *)
Definition apply_upcase (s : S) (filename : list Z) : res (list Z) :=
  for_loop 0 255 (fun j filename =>
    c ← ld16 s (u32 (upcase_table + 2 * nth (Z.to_nat j) filename 0));
    set_name j c filename) filename.

(** Compare the filename *)
Definition compare_name (name name_len : Z) (s : S) (filename : list Z) : res bool :=
  loop (fun j =>
    if j <? name_len then
      c ← rd8 s (u32 (name + j));
      if negb (nth (Z.to_nat j) filename 0 =? char_int c) then mret (inr false) else mret (inl (j + 1))
    else mret (inr true)) 0.

(** [(int)(data_length + get_cluster_size(1) * bps - 1) / (get_cluster_size(1) * bps)] *)
Definition file_clusters (data_length : Z) (s : S) : res Z :=
  size ← get_cluster_size 1 s;
  let bytes := u32 (size * drive_bytes_per_sector) in
  div32 (u32 (i32 ((data_length + bytes - 1) mod 2 ^ 64))) bytes.

(** Simply loop through unfragmented *)
Definition load_unfragmented (first data_length dest_buffer : Z) (s : S) : res S :=
  loop (fun '(j, s) =>
    n ← file_clusters data_length s;
    if j <? n then
      size ← get_cluster_size 1 s;
      k ← to_int (j * drive_bytes_per_sector);
      c ← to_int (first + j);
      lba ← get_heap_lba (u32 c) s;
      s ← bios_read (u32 (dest_buffer + u32 (k * size))) lba size s;
      mret (inl (j + 1, s))
    else mret (inr s)) (0, s).

(** The entry of a cluster in the part of the FAT that was loaded. *)
Definition fat_entry (cluster id_per_cluster : Z) (s : S) : res Z :=
  if id_per_cluster =? 0 then Undef
  else ld32 s (u32 (fat_buffer + 4 * Z.rem cluster id_per_cluster)).

(** Link through FAT *)
Definition load_fragmented (first id_per_cluster dest_buffer : Z) (s : S) : res S :=
  loop (fun '(clusters_read, current_cluster_id, s) =>
    (* Load the cluster in data *)
    size ← get_cluster_size 1 s;
    let offset := u32 (u32 (drive_bytes_per_sector * size) * clusters_read) in
    clusters_read ← to_int (clusters_read + 1);
    lba ← get_heap_lba (u32 current_cluster_id) s;
    s ← bios_read (u32 (dest_buffer + offset)) lba size s;
    next ← fat_entry current_cluster_id id_per_cluster s;
    if (next =? 4294967295) || (next =? 4294967287) then
      (* End or bad cluster *)
      mret (inr s)
    else
      (* Load FAT sector *)
      lba ← get_fat_lba next s;
      size ← get_cluster_size 1 s;
      s ← bios_read fat_buffer lba size s;
      mret (inl (clusters_read, i32 next, s))) (0, first, s).

(** If names equal, then load file *)
Definition load_file (first_cluster data_length dest_buffer : Z) (s : S) : res (Z * S) :=
  let current_cluster_id := i32 first_cluster in
  (* indexes per cluster *)
  size ← get_cluster_size 1 s;
  let id_per_cluster := i32 (u32 (drive_bytes_per_sector * size) / 4) in
  (* Write first FAT to buffer *)
  lba ← get_fat_lba (u32 current_cluster_id) s;
  s ← bios_read fat_buffer lba size s;
  (* Check whether file is fragmented or not *)
  e ← fat_entry current_cluster_id id_per_cluster s;
  s ← (if e =? 0 then load_unfragmented current_cluster_id data_length dest_buffer s
       else load_fragmented current_cluster_id id_per_cluster dest_buffer s);
  (* Return clusters read *)
  n ← file_clusters data_length s;
  mret (i32 n, s).

(** One directory entry: leave with the result of the load, or go on with the
    next entry. *)
Definition helper_body (name name_len dir_buffer clusters dest_buffer : Z) :
    Z * list Z * S -> res (Z * list Z * S + Z * S) :=
  fun '(i, filename, s) =>
    size ← get_cluster_size (u32 clusters) s;
    if u32 i <? u32 (drive_bytes_per_sector * size) / 32 then
      entry_type ← rd8 s (field (dir_entry dir_buffer i) exfat_generic_dir_entry "entry_type");
      (* Check for file directory entries *)
      if entry_type =? 133 then
        secondary_count ← rd8 s (field (dir_entry dir_buffer i) exfat_file_dir_entry "secondary_count");
        let name_entry_count := secondary_count - 1 in
        (* Get the stream extension entry *)
        let extension_entry := dir_entry dir_buffer (i + 1) in
        name_length ← rd8 s (field extension_entry exfat_extension_dir_entry "name_length");
        first_cluster ← ld32 s (field extension_entry exfat_extension_dir_entry "first_cluster");
        data_length ← ldn 8 s (field extension_entry exfat_extension_dir_entry "data_length");
        filename ← copy_name dir_buffer i name_entry_count s filename;
        filename ← apply_upcase s filename;
        (* Make sure lengths for filename and name are equal *)
        name_equal ← (if name_length =? name_len then compare_name name name_len s filename
                      else mret false);
        if name_equal : bool then
          r ← load_file first_cluster data_length dest_buffer s;
          mret (inr r)
        else
          (* Increment stuff *)
          mret (inl (i + (name_entry_count + 1) + 1, filename, s))
      else mret (inl (i + 1, filename, s))
    else (* File not found, so return 0 *) mret (inr (0, s)).

(** Read a file *)
Definition _read_file_exfat_helper (name name_len dir_buffer clusters dest_buffer : Z) (s : S) : res (Z * S) :=
  loop (helper_body name name_len dir_buffer clusters dest_buffer) (0, replicate 255 0, s).

(** Get the path name length *)
Definition path_name_length (path i : Z) (s : S) : res Z :=
  loop (fun path_length =>
    c ← rd8 s (u32 (path + (i + path_length)));
    if negb (c =? 47) && negb (c =? 0) then mret (inl (path_length + 1)) else mret (inr path_length)) 0.

(** One step through the path string. *)
Definition path_body (path dest : Z) : Z * Z * S -> res (Z * Z * S + Z * Z * S) :=
  fun '(i, dirs_clusters, s) =>
    c ← rd8 s (u32 (path + i));
    if negb (c =? 0) then
      (* Skip separators *)
      if negb (c =? 47) then
        path_length ← path_name_length path i s;
        (* Load the stuff in the destination *)
        '(dirs_clusters, s) ←
          _read_file_exfat_helper (u32 (path + i)) path_length dest dirs_clusters dest s;
        (* No file discovered then exit *)
        if dirs_clusters =? 0 then mret (inr (0, 0, s))
        else (* Go forward *) mret (inl (i + (path_length - 1) + 1, dirs_clusters, s))
      else mret (inl (i + 1, dirs_clusters, s))
    else mret (inr (1, dirs_clusters, s)).

(** Read the exfat path *)
Definition read_file_exfat (path dest : Z) (s : S) : res (Z * S) :=
  (* Load the root block *)
  root ← record32 "root_first_cluster" s;
  lba ← get_heap_lba root s;
  size ← get_cluster_size 1 s;
  s ← bios_read dest lba size s;
  '(found, dirs_clusters, s) ← loop (path_body path dest) (0, 1, s);
  if found =? 0 then mret (0, s)
  else
    size ← get_cluster_size 1 s;
    mret (i32 (u32 (u32 (u32 dirs_clusters * size) * drive_bytes_per_sector)), s).
End Exfat.
