(* ===== verification/ExfatDir.v ===== *)
(** * Looking up a name in an exFAT directory

    A directory in memory is read as the list of its files ([files]); the search
    of [_read_file_exfat_helper] is the search in that list ([helper_looks_up]). *)

From S2P Require Export Exfat.

#[local] Open Scope Z_scope.

(** ** Specification *)

(** What the entries of one file say: the characters of the name entries, the
    length of the name, where the data starts and how long it is. *)
Record file := File { f_chars : list Z; f_namelen : Z; f_cluster : Z; f_size : Z }.

Section Spec.
Context (v : Z -> Z) (dir : Z).

Definition entry_type_at (i : Z) : Z := v (dir + 32 * i).
Definition secondary_count_at (i : Z) : Z := v (dir + 32 * i + 1).

(** Character [k] of the name entries of the file at entry [i], 15 in each. *)
Definition char_at (i k : Z) : Z := vld 2 v (dir + 32 * (i + k / 15 + 2) + 2 + 2 * (k mod 15)).

(** The file whose entries start at [i]. *)
Definition file_at (i : Z) : file :=
  {| f_chars := char_at i <$> seqZ 0 (15 * (secondary_count_at i - 1));
     f_namelen := v (dir + 32 * (i + 1) + 3);
     f_cluster := vld32 v (dir + 32 * (i + 1) + 20);
     f_size := vld 8 v (dir + 32 * (i + 1) + 24) |}.

(** The files of entries [i] to [n], in order. *)
Fixpoint files (fuel : nat) (i n : Z) : list file :=
  match fuel with
  | O => []
  | S fuel =>
      if i <? n then
        if entry_type_at i =? 133 then file_at i :: files fuel (i + secondary_count_at i + 1) n
        else files fuel (i + 1) n
      else []
  end.

(** The entries of a file: one for the stream, one to 17 for the name, within the
    directory and enough for the name; characters are ASCII. *)
Definition file_ok (i n : Z) : bool :=
  let c := secondary_count_at i - 1 in
  (1 <=? c) && (c <=? 17) && (i + c + 1 <? n) && (f_namelen (file_at i) <=? 15 * c) &&
  forallb (fun x => x <? 128) (f_chars (file_at i)).

Fixpoint dir_ok (fuel : nat) (i n : Z) : bool :=
  match fuel with
  | O => true
  | S fuel =>
      if i <? n then
        if entry_type_at i =? 133 then file_ok i n && dir_ok fuel (i + secondary_count_at i + 1) n
        else dir_ok fuel (i + 1) n
      else true
  end.
End Spec.

(** The up-case table at [table] of the view. *)
Definition upcase (v : Z -> Z) (table c : Z) : Z := vld 2 v (table + 2 * c).

(** The name of a file, in upper case, is the one given. *)
Definition matches (up : Z -> Z) (name : list Z) (f : file) : bool :=
  bool_decide (up <$> take (Z.to_nat (f_namelen f)) (f_chars f) = char_int <$> name).

(** The first file with that name. *)
Definition find_file (up : Z -> Z) (name : list Z) (fs : list file) : option file :=
  head (filter (fun f => Is_true (matches up name f)) fs).

(** ... of a directory of [n] entries. *)
Definition lookup_file (v : Z -> Z) (dir n : Z) (up : Z -> Z) (name : list Z) : option file :=
  find_file up name (files v dir (Z.to_nat n) 0 n).

(** ** The search *)

Lemma forallb_seqZ (P : Z -> bool) n k :
  forallb P (seqZ 0 n) = true -> 0 <= k < n -> P k = true.
Proof.
  intros H Hk. rewrite forallb_forall in H. apply H.
  apply list_elem_of_In, elem_of_seqZ. lia.
Qed.

Lemma forallb_ext_in (P Q : Z -> bool) l :
  (forall k, k ∈ l -> P k = Q k) -> forallb P l = forallb Q l.
Proof.
  induction l as [|x l IH]; intros H; [done|]. cbn [forallb]. rewrite (H x) by by left.
  f_equal. apply IH. intros k Hk. apply H. by right.
Qed.

Lemma seqZ_snoc n : 0 <= n -> seqZ 0 (n + 1) = seqZ 0 n ++ [n].
Proof. intros H. rewrite seqZ_app by lia. done. Qed.

(** What [file_ok] says. *)
Lemma file_ok_inv v dir i n :
  file_ok v dir i n = true ->
  let c := secondary_count_at v dir i - 1 in
  1 <= c <= 17 /\ i + c + 1 < n /\ f_namelen (file_at v dir i) <= 15 * c /\
  forall k, 0 <= k < 15 * c ->
    nth (Z.to_nat k) (f_chars (file_at v dir i)) 0 = char_at v dir i k /\ char_at v dir i k < 128.
Proof.
  intros Hf c. unfold file_ok in Hf. cbv zeta in Hf. fold c in Hf.
  repeat (apply andb_prop in Hf as [Hf ?]). apply Z.leb_le in Hf, H0, H2. apply Z.ltb_lt in H1.
  split; [lia|]. split; [done|]. split; [done|]. intros k Hk.
  assert (f_chars (file_at v dir i) !! Z.to_nat k = Some (char_at v dir i k)) as Hl.
  { cbn [f_chars file_at]. fold c. by rewrite list_lookup_fmap, lookup_seqZ_lt, Z2Nat.id by lia. }
  split; [by rewrite nth_lookup, Hl|].
  rewrite forallb_forall in H. apply Z.ltb_lt, H, list_elem_of_In. by eapply list_elem_of_lookup_2.
Qed.

Section Lookup.
Context {S : Type} {HS : Store S} {win : Z -> Prop} {HW : Window S win} {HF : Firmware S}.
Context (bps drive temp_buffer temp_dap record table fat_buffer : Z).
Context (name name_len dir clusters dest : Z).
Implicit Types (s : S).

(** The 255 characters of [filename], all ASCII. *)
Definition name_ok (l : list Z) : Prop :=
  length l = 255%nat /\ forall k, 0 <= k < 255 -> 0 <= nth (Z.to_nat k) l 0 < 128.

Lemma set_name_ok k c l (Hk : 0 <= k < 255) :
  name_ok l -> 0 <= c < 128 ->
  set_name k c l = Ok (<[Z.to_nat k := c]> l) /\ name_ok (<[Z.to_nat k := c]> l) /\
  forall x, 0 <= x < 255 ->
    nth (Z.to_nat x) (<[Z.to_nat k := c]> l) 0 = if decide (x = k) then c else nth (Z.to_nat x) l 0.
Proof.
  intros [Hlen Hr] Hc.
  assert (forall x, 0 <= x < 255 ->
    nth (Z.to_nat x) (<[Z.to_nat k := c]> l) 0 = if decide (x = k) then c else nth (Z.to_nat x) l 0) as Hn.
  { intros x Hx. rewrite !nth_lookup. case_decide as Hd.
    - subst. rewrite list_lookup_insert_eq by lia. done.
    - rewrite list_lookup_insert_ne by lia. done. }
  split; [unfold set_name; by zbool|]. split; [|exact Hn]. split; [by rewrite length_insert|].
  intros x Hx. rewrite Hn by done. case_decide; [done|]. by apply Hr.
Qed.

Section Entry.
Context (s : S) (n : Z).
Context (Hdir : in_win win dir (32 * n)) (Htab : in_win win table 256)
  (Hname : in_win win name name_len) (Hlen : 0 <= name_len).
Context (Hup : forall c, 0 <= c < 128 -> upcase (view s) table c < 128).

Lemma entry_addr i o (l : layout) f :
  0 <= i < n -> bit_offset f l / 8 = o -> 0 <= o < 32 -> field (dir_entry dir i) l f = dir + 32 * i + o.
Proof.
  intros Hi Ho Hlt. destruct Hdir as (H0 & H1 & _). unfold field, dir_entry.
  rewrite (u32_small (dir + 32 * i)) by lia. rewrite Ho. apply u32_small. lia.
Qed.

Lemma entry_win i o k : 0 <= i < n -> 0 <= o -> o + k <= 32 -> in_win win (dir + 32 * i + o) k.
Proof. intros Hi Ho Hk. apply (in_win_sub win dir (32 * n)); [done|lia|lia]. Qed.

(** The characters of the name entries are put in front. *)
Lemma copy_name_ok i l :
  0 <= i -> file_ok (view s) dir i n = true -> name_ok l ->
  exists l', copy_name dir i (secondary_count_at (view s) dir i - 1) s l = Ok l' /\ name_ok l' /\
    forall k, 0 <= k < 15 * (secondary_count_at (view s) dir i - 1) ->
      nth (Z.to_nat k) l' 0 = char_at (view s) dir i k.
Proof.
  intros Hi Hf Hl.
  destruct (file_ok_inv (view s) dir i n Hf) as (Hc & Hn & _ & Hch).
  set (c := secondary_count_at (view s) dir i - 1) in *.
  unfold copy_name.
  destruct (for_loop_total (fun j l => name_ok l /\
    forall k, 0 <= k < 15 * j -> nth (Z.to_nat k) l 0 = char_at (view s) dir i k) 0 c
    (fun j filename =>
       let name_entry := dir_entry dir (i + j + 2) in
       for_loop 0 15 (fun x filename =>
         c ← ld16 s (u32 (field name_entry exfat_name_dir_entry "name" + 2 * x));
         set_name (j * 15 + x) c filename) filename) l) as (l' & E & Hl' & Hk); [lia|lia| | |by exists l'].
  - split; [done|lia].
  - intros j t Hj [Ht Hk]. cbv zeta.
    destruct (for_loop_total (fun x l => name_ok l /\
      forall k, 0 <= k < 15 * j + x -> nth (Z.to_nat k) l 0 = char_at (view s) dir i k) 0 15
      (fun x filename =>
         c ← ld16 s (u32 (field (dir_entry dir (i + j + 2)) exfat_name_dir_entry "name" + 2 * x));
         set_name (j * 15 + x) c filename) t) as (t' & E & Ht' & Hk'); [lia|lia| | |].
    + split; [done|]. intros k Hk0. apply Hk. lia.
    + intros x u Hx [Hu Hku]. destruct Hdir as (Hd0 & Hd1 & _).
      rewrite (entry_addr (i + j + 2) 2) by (done || lia).
      rewrite u32_small by lia.
      assert (in_win win (dir + 32 * (i + j + 2) + 2 + 2 * x) (Z.of_nat 2)) as Hw.
      { replace (dir + 32 * (i + j + 2) + 2 + 2 * x) with (dir + 32 * (i + j + 2) + (2 + 2 * x)) by lia.
        apply entry_win; lia. }
      rewrite (bind_ok _ _ _ (ldn_win 2 s _ Hw)). cbv beta.
      assert (vld 2 (view s) (dir + 32 * (i + j + 2) + 2 + 2 * x) = char_at (view s) dir i (j * 15 + x)) as Hcx.
      { unfold char_at. f_equal. replace ((j * 15 + x) / 15) with j by lia.
        replace ((j * 15 + x) mod 15) with x by lia. lia. }
      rewrite Hcx. destruct (Hch (j * 15 + x) ltac:(lia)) as [_ H128].
      assert (0 <= char_at (view s) dir i (j * 15 + x)) as H0 by (apply (vld_range 2), view_range).
      destruct (set_name_ok (j * 15 + x) (char_at (view s) dir i (j * 15 + x)) u) as (Es & Hs & Hx');
        [lia|done|lia|].
      eexists. split; [exact Es|]. split; [done|]. intros k Hk0. rewrite Hx' by lia. case_decide; [by subst|].
      apply Hku. lia.
    + exists t'. split; [exact E|]. split; [done|]. intros k Hk0. apply Hk'. lia.
Qed.

(** All characters are put in upper case. *)
Lemma apply_upcase_ok l :
  name_ok l ->
  exists l', apply_upcase table s l = Ok l' /\ name_ok l' /\
    forall k, 0 <= k < 255 -> nth (Z.to_nat k) l' 0 = upcase (view s) table (nth (Z.to_nat k) l 0).
Proof.
  intros Hl. pose proof Hl as [_ Hlr]. destruct Htab as (Ht0 & Ht1 & Htw).
  destruct (for_loop_total (fun j t => name_ok t /\
    forall k, 0 <= k < 255 -> nth (Z.to_nat k) t 0 =
      if decide (k < j) then upcase (view s) table (nth (Z.to_nat k) l 0) else nth (Z.to_nat k) l 0) 0 255
    (fun j filename =>
       c ← ld16 s (u32 (table + 2 * nth (Z.to_nat j) filename 0));
       set_name j c filename) l) as (l' & E & Hl' & Hk); [lia|lia| | |].
  - split; [done|]. intros k Hk. by rewrite decide_False by lia.
  - intros j t Hj [Ht Hk]. specialize (Hlr j Hj). rewrite Hk, decide_False by lia.
    rewrite u32_small by lia.
    assert (in_win win (table + 2 * nth (Z.to_nat j) l 0) (Z.of_nat 2)) as Hw
      by (apply (in_win_sub win table 256); [by split|lia|lia]).
    rewrite (bind_ok _ _ _ (ldn_win 2 s _ Hw)). cbv beta.
    fold (upcase (view s) table (nth (Z.to_nat j) l 0)).
    assert (0 <= upcase (view s) table (nth (Z.to_nat j) l 0)) as H0 by apply (vld_range 2), view_range.
    destruct (set_name_ok j (upcase (view s) table (nth (Z.to_nat j) l 0)) t) as (Es & Hs & Hx);
      [lia|done|split; [done|by apply Hup]|].
    eexists. split; [exact Es|]. split; [done|]. intros k Hk0. rewrite Hx by lia.
    destruct (decide (k = j)) as [->|Hne]; [by rewrite decide_True by lia|].
    rewrite Hk by lia. repeat case_decide; try lia; done.
  - exists l'. split; [exact E|]. split; [done|]. intros k Hk0. rewrite Hk by done. by rewrite decide_True by lia.
Qed.

Lemma compare_name_ok l :
  length l = 255%nat -> name_len <= 255 ->
  compare_name name name_len s l =
    Ok (forallb (fun k => nth (Z.to_nat k) l 0 =? char_int (view s (name + k))) (seqZ 0 name_len)).
Proof.
  intros Hll Hn. destruct Hname as (Hn0 & Hn1 & Hnw).
  set (P := fun k => nth (Z.to_nat k) l 0 =? char_int (view s (name + k))).
  unfold compare_name.
  destruct (loop_total (fun j =>
    if j <? name_len then
      c ← rd8 s (u32 (name + j));
      if negb (nth (Z.to_nat j) l 0 =? char_int c) then mret (inr false) else mret (inl (j + 1))
    else mret (inr true))
    (fun j => 0 <= j <= name_len /\ forallb P (seqZ 0 j) = true) (fun j => name_len - j)
    (fun r => r = forallb P (seqZ 0 name_len)) 0) as (r & E & ->); [split; [lia|done]|rewrite budget_eq; lia| |exact E].
  intros j [Hj HP]. split; [lia|]. destruct (Z.ltb_spec j name_len) as [Hlt|Hge].
  - rewrite u32_small by lia. rewrite (bind_ok _ _ _ (rd8_win s (name + j) ltac:(apply Hnw; lia))). cbv beta.
    fold (P j). destruct (P j) eqn:EP; cbn [negb]; eexists; (split; [reflexivity|]).
    + split; [|lia]. split; [lia|]. rewrite seqZ_snoc, forallb_app by lia. cbn [forallb]. by rewrite HP, EP.
    + symmetry. destruct (forallb P (seqZ 0 name_len)) eqn:EA; [|done].
      rewrite (forallb_seqZ P name_len j EA) in EP by lia. done.
  - exists (inr true). split; [done|]. by replace name_len with j by lia.
Qed.

(** The bytes of the name given. *)
Definition name_bytes : list Z := view s <$> seqZ name name_len.

(** The test for one file. *)
Lemma name_test i l :
  0 <= i -> file_ok (view s) dir i n = true -> name_ok l ->
  exists l', (filename ← copy_name dir i (secondary_count_at (view s) dir i - 1) s l;
              apply_upcase table s filename) = Ok l' /\ name_ok l' /\
    (if f_namelen (file_at (view s) dir i) =? name_len then compare_name name name_len s l' else mret false)
      = Ok (matches (upcase (view s) table) name_bytes (file_at (view s) dir i)).
Proof.
  intros Hi Hf Hl. destruct (copy_name_ok i l Hi Hf Hl) as (l1 & E1 & H1 & K1).
  destruct (apply_upcase_ok l1 H1) as (l2 & E2 & H2 & K2).
  exists l2. split; [by rewrite (bind_ok _ _ _ E1)|]. split; [done|].
  destruct (file_ok_inv (view s) dir i n Hf) as (Hc & _ & Hnl & Hch).
  set (c := secondary_count_at (view s) dir i - 1) in *. set (f := file_at (view s) dir i) in *.
  assert (0 <= f_namelen f) as Hn0 by apply view_range.
  assert (length (f_chars f) = Z.to_nat (15 * c)) as Hfl by (cbn [f f_chars file_at]; by rewrite length_fmap, length_seqZ).
  assert (length name_bytes = Z.to_nat name_len) as Hbl by (unfold name_bytes; by rewrite length_fmap, length_seqZ).
  unfold matches. destruct (Z.eqb_spec (f_namelen f) name_len) as [He|Hne].
  - rewrite compare_name_ok by (apply H2 || lia). f_equal. apply eq_true_iff_eq.
    rewrite forallb_forall, bool_decide_eq_true.
    assert (forall k, 0 <= k < name_len ->
      (upcase (view s) table <$> take (Z.to_nat (f_namelen f)) (f_chars f)) !! Z.to_nat k
        = Some (nth (Z.to_nat k) l2 0) /\
      (char_int <$> name_bytes) !! Z.to_nat k = Some (char_int (view s (name + k)))) as Hlk.
    { intros k Hk. split.
      - rewrite list_lookup_fmap, lookup_take_lt by lia. destruct (Hch k ltac:(lia)) as [Hck _].
        rewrite nth_lookup in Hck. rewrite K2, K1 by lia. rewrite <- Hck.
        destruct (lookup_lt_is_Some_2 (f_chars f) (Z.to_nat k) ltac:(lia)) as [y ->]. done.
      - unfold name_bytes. by rewrite !list_lookup_fmap, lookup_seqZ_lt, Z2Nat.id by lia. }
    split.
    + intros Hall. apply list_eq_same_length with (n := Z.to_nat name_len);
        [by rewrite length_fmap|rewrite length_fmap, length_take; lia|].
      intros j x y Hj Hx Hy. destruct (Hlk (Z.of_nat j) ltac:(lia)) as [L1 L2]. rewrite Nat2Z.id in L1, L2.
      rewrite L1 in Hx. rewrite L2 in Hy. injection Hx as <-. injection Hy as <-.
      specialize (Hall (Z.of_nat j)). rewrite Nat2Z.id in Hall. apply Z.eqb_eq, Hall.
      apply list_elem_of_In, elem_of_seqZ. lia.
    + intros Heq k Hk. apply list_elem_of_In, elem_of_seqZ in Hk. destruct (Hlk k ltac:(lia)) as [L1 L2].
      rewrite Heq, L2 in L1. injection L1 as L1. apply Z.eqb_eq. by rewrite L1.
  - unfold mret, res_ret. f_equal. symmetry. apply bool_decide_eq_false. intros Heq.
    apply (f_equal length) in Heq. rewrite !length_fmap, length_take in Heq. lia.
Qed.

#[local] Abbreviation body :=
  (helper_body bps drive temp_buffer temp_dap record table fat_buffer name name_len dir clusters dest).
#[local] Abbreviation load := (load_file bps drive temp_buffer temp_dap record fat_buffer).

(** What the search comes to when the files [fs] are left. *)
Definition found (fs : list file) : res (Z * S) :=
  match find_file (upcase (view s) table) name_bytes fs with
  | Some f => load (f_cluster f) (f_size f) dest s
  | None => Ok (0, s)
  end.

Lemma leaves_load i l (o : res (Z * S)) :
  body (i, l, s) = (r ← o; mret (inr r)) -> leaves body 1 (i, l, s) o.
Proof. intros E. destruct o; by constructor. Qed.

Context (size : Z) (Hsize : get_cluster_size bps record (u32 clusters) s = Ok size)
  (Hn : u32 (bps * size) / 32 = n).

(** An entry that starts a file. *)
Lemma body_file i l :
  0 <= i < n -> name_ok l -> entry_type_at (view s) dir i = 133 -> file_ok (view s) dir i n = true ->
  exists l', name_ok l' /\
    body (i, l, s) =
      if matches (upcase (view s) table) name_bytes (file_at (view s) dir i)
      then r ← load (f_cluster (file_at (view s) dir i)) (f_size (file_at (view s) dir i)) dest s; mret (inr r)
      else Ok (inl (i + secondary_count_at (view s) dir i + 1, l', s)).
Proof.
  intros Hi Hl Ht Hf. destruct (name_test i l ltac:(lia) Hf Hl) as (l' & E & Hl' & Ec).
  apply bind_ok_inv in E as (l1 & E1 & E2).
  assert (i + 1 < n) as Hi1.
  { destruct (file_ok_inv (view s) dir i n Hf) as (? & ? & _). lia. }
  pose proof Hdir as (Hd0 & Hd1 & Hdw). pose proof (u32_range (bps * size)).
  exists l'. split; [done|]. unfold helper_body. rewrite (bind_ok _ _ _ Hsize). cbv beta. rewrite Hn.
  rewrite (u32_small i) by lia. replace (i <? n) with true by lia.
  rewrite (entry_addr i 0 exfat_generic_dir_entry), (entry_addr i 1 exfat_file_dir_entry) by (done || lia).
  rewrite Z.add_0_r.
  rewrite (bind_ok _ _ _ (rd8_win s (dir + 32 * i) ltac:(apply Hdw; lia))). cbv beta.
  fold (entry_type_at (view s) dir i). rewrite Ht. cbn [Z.eqb Pos.eqb].
  rewrite (bind_ok _ _ _ (rd8_win s (dir + 32 * i + 1) ltac:(apply Hdw; lia))). cbv beta zeta.
  fold (secondary_count_at (view s) dir i).
  rewrite (entry_addr (i + 1) 3 _ "name_length"), (entry_addr (i + 1) 20 _ "first_cluster"),
    (entry_addr (i + 1) 24 _ "data_length") by (done || lia).
  rewrite (bind_ok _ _ _ (rd8_win s (dir + 32 * (i + 1) + 3) ltac:(apply Hdw; lia))). cbv beta.
  rewrite (bind_ok _ _ _ (ldn_win 4 s _ (entry_win (i + 1) 20 4 ltac:(lia) ltac:(lia) ltac:(lia)))). cbv beta.
  rewrite (bind_ok _ _ _ (ldn_win 8 s _ (entry_win (i + 1) 24 8 ltac:(lia) ltac:(lia) ltac:(lia)))). cbv beta.
  rewrite (bind_ok _ _ _ E1). cbv beta. rewrite (bind_ok _ _ _ E2). cbv beta.
  cbn [f_namelen file_at] in Ec. rewrite (bind_ok _ _ _ Ec). cbv beta.
  destruct (matches _ _ _); [done|]. unfold mret, res_ret. repeat f_equal. lia.
Qed.

(** Any other entry, and the end. *)
Lemma body_other i l :
  0 <= i < n -> entry_type_at (view s) dir i <> 133 -> body (i, l, s) = Ok (inl (i + 1, l, s)).
Proof.
  intros Hi Ht. pose proof Hdir as (Hd0 & Hd1 & Hdw). pose proof (u32_range (bps * size)).
  unfold helper_body. rewrite (bind_ok _ _ _ Hsize). cbv beta. rewrite Hn.
  rewrite (u32_small i) by lia. replace (i <? n) with true by lia.
  rewrite (entry_addr i 0 exfat_generic_dir_entry) by (done || lia). rewrite Z.add_0_r.
  rewrite (bind_ok _ _ _ (rd8_win s (dir + 32 * i) ltac:(apply Hdw; lia))). cbv beta.
  fold (entry_type_at (view s) dir i). by replace (entry_type_at (view s) dir i =? 133) with false by lia.
Qed.

Lemma body_end l : 0 <= n -> body (n, l, s) = Ok (inr (0, s)).
Proof.
  intros H0. pose proof (u32_range (bps * size)). unfold helper_body.
  rewrite (bind_ok _ _ _ Hsize). cbv beta. rewrite Hn.
  rewrite (u32_small n) by lia. by replace (n <? n) with false by lia.
Qed.

Lemma search_leaves fuel : forall i l,
  0 <= i <= n -> n - i <= Z.of_nat fuel -> name_ok l -> dir_ok (view s) dir fuel i n = true ->
  exists k, (k <= Datatypes.S fuel)%nat /\ leaves body k (i, l, s) (found (files (view s) dir fuel i n)).
Proof.
  induction fuel as [|fuel IH]; intros i l Hi Hfuel Hl Hok; cbn [files dir_ok] in *.
  { exists 1%nat. split; [lia|]. apply leaves_ret. replace i with n by lia. apply body_end. lia. }
  destruct (Z.ltb_spec i n) as [Hlt|Hge].
  - destruct (Z.eqb_spec (entry_type_at (view s) dir i) 133) as [Ht|Ht].
    + apply andb_prop in Hok as [Hf Hok].
      destruct (body_file i l ltac:(lia) Hl Ht Hf) as (l' & Hl' & Eb).
      unfold found, find_file. rewrite filter_cons.
      destruct (matches (upcase (view s) table) name_bytes (file_at (view s) dir i)) eqn:Em.
      * rewrite decide_True by done. cbn [head]. exists 1%nat. split; [lia|]. by apply leaves_load.
      * rewrite decide_False by (intros []).
        assert (0 <= secondary_count_at (view s) dir i < 256) as Hs by apply view_range.
        destruct (file_ok_inv (view s) dir i n Hf) as (? & ? & _).
        destruct (IH (i + secondary_count_at (view s) dir i + 1) l') as (k & Hk & Hlv); [lia|lia|done|done|].
        exists (Datatypes.S k). split; [lia|]. by eapply leaves_next.
    + destruct (IH (i + 1) l) as (k & Hk & Hlv); [lia|lia|done|done|].
      exists (Datatypes.S k). split; [lia|]. eapply leaves_next; [|done]. apply body_other; [lia|done].
  - exists 1%nat. split; [lia|]. apply leaves_ret. replace i with n by lia. apply body_end. lia.
Qed.

Lemma helper_runs :
  dir_ok (view s) dir (Z.to_nat n) 0 n = true ->
  _read_file_exfat_helper bps drive temp_buffer temp_dap record table fat_buffer name name_len dir
    clusters dest s = found (files (view s) dir (Z.to_nat n) 0 n).
Proof.
  intros Hok. pose proof (u32_range (bps * size)).
  destruct (search_leaves (Z.to_nat n) 0 (replicate 255 0)) as (k & Hk & Hlv); [lia|lia| |done|].
  - split; [done|]. intros x Hx. rewrite nth_lookup, lookup_replicate_2 by lia. cbn. lia.
  - apply (leaves_loop _ k); [exact Hlv|]. rewrite budget_eq. lia.
Qed.
End Entry.

(** C18. The search is the search in the list of files: [_read_file_exfat_helper]
    loads the first file of the directory whose name, put in upper case with the
    table, is the one given, and returns 0 with everything unchanged when there is
    none. *)
Theorem helper_looks_up s n size :
  in_win win dir (32 * n) -> in_win win table 256 -> in_win win name name_len -> 0 <= name_len ->
  (forall c, 0 <= c < 128 -> upcase (view s) table c < 128) ->
  get_cluster_size bps record (u32 clusters) s = Ok size -> u32 (bps * size) / 32 = n ->
  dir_ok (view s) dir (Z.to_nat n) 0 n = true ->
  _read_file_exfat_helper bps drive temp_buffer temp_dap record table fat_buffer name name_len dir
      clusters dest s =
    match lookup_file (view s) dir n (upcase (view s) table) (view s <$> seqZ name name_len) with
    | Some f => load_file bps drive temp_buffer temp_dap record fat_buffer (f_cluster f) (f_size f) dest s
    | None => Ok (0, s)
    end.
Proof. intros H1 H2 H3 H4 H5 H6 H7 H8. exact (helper_runs s n H1 H2 H3 H4 H5 size H6 H7 H8). Qed.
End Lookup.
