(* ===== verification/ExfatLoad.v ===== *)
(** * Loading the clusters of an exFAT file

    On a drive with sectors of 512 bytes: where the code looks for a cluster and
    for its entry of the FAT, and what [load_file] leaves in memory. *)

From S2P Require Export ExfatDir.

#[local] Open Scope Z_scope.

Section Load.
Context {S : Type} {HS : Store S} {win : Z -> Prop} {HW : Window S win} {HF : Firmware S}.
Context (drive sectors : Z) (sector : Z -> Z -> Z).
Context {HD : Disk S win drive 512 sectors sector}.
Context (buf dap record fat_buffer : Z).
Context (Hlo : locals_ok (win := win) 512 drive buf dap).
Implicit Types (s : S).

(** ** The volume in the boot record *)

(** Where the heap and the FAT start, in sectors of 512 bytes after the partition,
    and the binary logarithm of the cluster size. *)
Record volume s (H F k : Z) : Prop := {
  vo_record : in_win win record 512;
  vo_heap : vld32 (view s) (record + 88) = H;
  vo_fat : vld32 (view s) (record + 80) = F;
  vo_shift : view s (record + 109) = k;
  vo_range : 0 <= k <= 20 }.

Lemma volume_ext s s' H F k :
  (forall a, record <= a < record + 512 -> view s' a = view s a) -> volume s H F k -> volume s' H F k.
Proof.
  intros Hv [Hr Hh Hf Hk Hkr]. split; [done| | | |done].
  - rewrite <- Hh. apply vld_ext. intros b Hb. apply Hv. lia.
  - rewrite <- Hf. apply vld_ext. intros b Hb. apply Hv. lia.
  - rewrite <- Hk. apply Hv. lia.
Qed.

Section Volume.
Context (H F k : Z).

Lemma record32_ok s f o :
  volume s H F k -> bit_offset f exfat_boot_record_layout / 8 = o -> 0 <= o -> o + 4 <= 512 ->
  record32 record f s = Ok (vld32 (view s) (record + o)).
Proof.
  intros [Hr _ _ _ _] Ho H0 H1. pose proof Hr as (Hr0 & Hr1 & Hrw). unfold record32, field.
  rewrite Ho, u32_small by lia. apply (ldn_win 4). apply (in_win_sub win record 512); [done|lia|lia].
Qed.

Lemma shift_ok s : volume s H F k -> record8 record "sectors_per_cluster_shift" s = Ok k.
Proof.
  intros [(Hr0 & Hr1 & Hrw) _ _ Hk _]. unfold record8, field.
  change (bit_offset "sectors_per_cluster_shift" exfat_boot_record_layout / 8) with 109.
  rewrite u32_small by lia. rewrite rd8_win by (apply Hrw; lia). by rewrite Hk.
Qed.

Lemma vol_range s : volume s H F k -> 0 <= H < 2 ^ 32 /\ 0 <= F < 2 ^ 32 /\ 0 < 2 ^ k <= 2 ^ 20.
Proof.
  intros [_ <- <- _ Hk]. split; [apply (vld_range 4), view_range|]. split; [apply (vld_range 4), view_range|].
  split; [apply pow2_pos; lia|apply pow2_le; lia].
Qed.

Lemma mul_div_512 x : u32 (x * 512) / 512 = x mod 2 ^ 23.
Proof. unfold u32. change (2 ^ 32) with (2 ^ 23 * 512). rewrite Z.mul_mod_distr_r, Z.div_mul by lia. done. Qed.

Lemma u32_mod_23 x : u32 x mod 2 ^ 23 = x mod 2 ^ 23.
Proof. unfold u32. apply Z.mod_mod_divide. by exists 512. Qed.

(** The sector of a cluster and of an entry of the FAT, modulo 2^23: beyond 4 GiB
    the product with 512 overflows. *)
Lemma heap_lba_mod s c :
  volume s H F k ->
  get_heap_lba 512 record c s = Ok ((256 + H + (c - 2) * 2 ^ k) mod 2 ^ 23).
Proof.
  intros Hv. unfold get_heap_lba. rewrite (bind_ok _ _ _ (record32_ok s "cluster_heap_offset"%string 88 Hv eq_refl ltac:(lia) ltac:(lia))).
  cbv beta. rewrite (bind_ok _ _ _ (shift_ok s Hv)). cbv beta. pose proof (vo_range _ _ _ _ Hv).
  rewrite (vo_heap _ _ _ _ Hv). rewrite shl32_ok by lia. bnd.
  rewrite div32_ok by lia. rewrite mul_div_512. f_equal. rewrite u32_mod_23.
  rewrite Z.add_mod, !u32_mod_23 by lia.
  rewrite (Z.mul_mod (u32 (c - 2))), u32_mod_23 by lia.
  rewrite <- (Z.mul_mod (c - 2)), <- Z.add_mod by lia. done.
Qed.

Lemma fat_lba_mod s c :
  volume s H F k -> 0 <= c < 2 ^ 30 ->
  get_fat_lba 512 record c s = Ok ((256 + F + c / 128) mod 2 ^ 23).
Proof.
  intros Hv Hc. unfold get_fat_lba. rewrite (bind_ok _ _ _ (record32_ok s "fat_offset"%string 80 Hv eq_refl ltac:(lia) ltac:(lia))).
  cbv beta. rewrite (vo_fat _ _ _ _ Hv). rewrite div32_ok by lia. rewrite mul_div_512. f_equal.
  rewrite (u32_small (c * 4)) by lia. rewrite u32_mod_23.
  rewrite Z.add_mod, u32_mod_23, <- Z.add_mod by lia. f_equal. lia.
Qed.

Lemma cluster_size_ok s : volume s H F k -> get_cluster_size 512 record 1 s = Ok (2 ^ k).
Proof.
  intros Hv. unfold get_cluster_size. rewrite (bind_ok _ _ _ (shift_ok s Hv)). cbv beta.
  pose proof (vo_range _ _ _ _ Hv). destruct (vol_range s Hv) as (_ & _ & Hk).
  rewrite shl32_ok by lia. bnd. rewrite div32_ok by lia. rewrite mul_div_512. f_equal.
  rewrite Z.mul_1_l, u32_small by lia. apply Z.mod_small. lia.
Qed.

(** ** The disk *)

(** Bytes in a cluster, its first sector, its bytes. *)
Definition cluster_bytes : Z := 512 * 2 ^ k.
Definition cluster_lba (c : Z) : Z := 256 + H + (c - 2) * 2 ^ k.
Definition cluster_byte (c o : Z) : Z := sector (cluster_lba c + o / 512) (o mod 512).

(** The bytes of a list of clusters, one after the other. *)
Definition file_byte (cs : list Z) (o : Z) : Z :=
  cluster_byte (nth (Z.to_nat (o / cluster_bytes)) cs 0) (o mod cluster_bytes).

(** The entry of the FAT for [c]. *)
Definition fat (c : Z) : Z := vld32 (sector (256 + F + c / 128)) (4 * (c mod 128)).

(** The cluster and the part of the FAT that starts with its entry's sector are on
    the disk, below 4 GiB. *)
Definition cluster_ok (c : Z) : Prop :=
  2 <= c < 2 ^ 30 /\ 0 <= cluster_lba c /\ cluster_lba c + 2 ^ k <= Z.min sectors (2 ^ 23) /\
  256 + F + c / 128 + 2 ^ k <= Z.min sectors (2 ^ 23).

(** ** Loads into memory *)

Section Dest.
Context (dest m : Z).

(** The place of [m] clusters, the boot record, the FAT buffer and the scratch
    memory of the reads are apart. *)
Record places : Prop := {
  pl_dest : in_win win dest (m * cluster_bytes);
  pl_count : 0 <= m; pl_bytes : m * cluster_bytes < 2 ^ 31;
  pl_fat : in_win win fat_buffer cluster_bytes;
  pl_rd : record + 512 <= dest \/ dest + m * cluster_bytes <= record;
  pl_rf : record + 512 <= fat_buffer \/ fat_buffer + cluster_bytes <= record;
  pl_df : dest + m * cluster_bytes <= fat_buffer \/ fat_buffer + cluster_bytes <= dest;
  pl_sd : forall x, dest <= x < dest + m * cluster_bytes -> ~ scratch 512 buf dap x;
  pl_sr : forall x, record <= x < record + 512 -> ~ scratch 512 buf dap x;
  pl_sf : forall x, fat_buffer <= x < fat_buffer + cluster_bytes -> ~ scratch 512 buf dap x }.
Context (Hpl : places) (Hk : 0 <= k <= 20).

Lemma cluster_bytes_range : 0 < 2 ^ k <= 2 ^ 20 /\ cluster_bytes = 512 * 2 ^ k.
Proof. split; [|done]. split; [apply pow2_pos; lia|apply pow2_le; lia]. Qed.

#[local] Abbreviation bios_read := (bios_ext_read 512 drive buf dap).

(** One cluster. *)
Lemma read_cluster t j c :
  0 <= j < m -> cluster_ok c ->
  exists t', bios_read (dest + j * cluster_bytes) (cluster_lba c) (2 ^ k) t = Ok t' /\ outside t t' /\
    forall a, win a -> ~ scratch 512 buf dap a -> view t' a =
      if decide (dest + j * cluster_bytes <= a < dest + j * cluster_bytes + cluster_bytes)
      then cluster_byte c (a - (dest + j * cluster_bytes)) else view t a.
Proof.
  intros Hj (Hc & Hl0 & Hl1 & _). destruct cluster_bytes_range as [Hp HB].
  destruct Hpl as [(Hd0 & Hd1 & Hdw) _ Hby _ _ _ _ Hsd _ _].
  destruct (slot_range j m cluster_bytes ltac:(lia) ltac:(lia)) as [G0 G1].
  destruct (ext_read_runs 512 drive sectors sector buf dap Hlo t (dest + j * cluster_bytes) (cluster_lba c)
    (2 ^ k)) as (t' & E & O & V); try lia.
  - split; [lia|]. split; [lia|]. intros b Hb. apply Hdw. lia.
  - intros x Hx. apply Hsd. lia.
  - exists t'. split; [done|]. split; [done|]. intros a Ha Hns. rewrite V by done.
    by replace (2 ^ k * 512) with cluster_bytes by lia.
Qed.

(** The part of the FAT for a cluster. *)
Definition fat_loaded t (c : Z) : Prop :=
  forall a, fat_buffer <= a < fat_buffer + cluster_bytes ->
    view t a = sectors_at 512 sector fat_buffer (256 + F + c / 128) a.

Lemma read_fat t c :
  cluster_ok c -> 0 <= F ->
  exists t', bios_read fat_buffer (256 + F + c / 128) (2 ^ k) t = Ok t' /\ outside t t' /\ fat_loaded t' c /\
    forall a, win a -> ~ scratch 512 buf dap a -> a < fat_buffer \/ fat_buffer + cluster_bytes <= a ->
      view t' a = view t a.
Proof.
  intros (Hc & _ & _ & Hl) Hf0F. destruct cluster_bytes_range as [Hp HB].
  destruct Hpl as [_ _ _ (Hf0 & Hf1 & Hfw) _ _ _ _ _ Hsf].
  destruct (ext_read_runs 512 drive sectors sector buf dap Hlo t fat_buffer (256 + F + c / 128) (2 ^ k))
    as (t' & E & O & V); try lia.
  - split; [lia|]. split; [lia|]. intros b Hb. apply Hfw. lia.
  - intros x Hx. apply Hsf. lia.
  - exists t'. replace (2 ^ k * 512) with cluster_bytes in V by lia.
    split; [done|]. split; [done|]. split.
    + intros a Ha. rewrite V by (apply Hfw || apply Hsf; done). by rewrite decide_True.
    + intros a Ha Hns Hao. rewrite V by done. by rewrite decide_False by lia.
Qed.

(** The entry the code takes from the buffer. *)
Lemma fat_entry_loaded t c :
  cluster_ok c -> fat_loaded t c ->
  fat_entry fat_buffer c (128 * 2 ^ k) t = Ok (fat (128 * (c / 128) + c mod (128 * 2 ^ k))).
Proof.
  intros (Hc & _) Hl. destruct cluster_bytes_range as [Hp HB].
  destruct Hpl as [_ _ _ (Hf0 & Hf1 & Hfw) _ _ _ _ _ _].
  unfold fat_entry. replace (128 * 2 ^ k =? 0) with false by lia. rewrite Z.rem_mod_nonneg by lia.
  pose proof (Z.mod_pos_bound c (128 * 2 ^ k) ltac:(lia)) as Hr. set (r := c mod (128 * 2 ^ k)) in *.
  rewrite u32_small by lia.
  rewrite ldn_win by (split; [lia|]; split; [lia|]; intros b Hb; apply Hfw; lia).
  f_equal. unfold fat.
  replace ((128 * (c / 128) + r) / 128) with (c / 128 + r / 128) by lia.
  replace ((128 * (c / 128) + r) mod 128) with (r mod 128) by lia.
  transitivity (vld32 (fun x => sector (256 + F + (c / 128 + r / 128)) (x - (fat_buffer + 512 * (r / 128))))
    (fat_buffer + 4 * r)).
  - apply vld_ext. intros b Hb. rewrite Hl by lia. unfold sectors_at. f_equal; lia.
  - rewrite vld_offset. f_equal. lia.
Qed.

(** The first [j] clusters are in place; besides them, the FAT buffer and the
    scratch memory nothing has changed. *)
Definition loaded s t (cs : list Z) (j : Z) : Prop :=
  forall a, win a -> ~ scratch 512 buf dap a -> a < fat_buffer \/ fat_buffer + cluster_bytes <= a ->
    view t a = if decide (dest <= a < dest + j * cluster_bytes) then file_byte cs (a - dest) else view s a.

Lemma loaded_volume s t cs j :
  j <= m -> loaded s t cs j -> volume s H F k -> volume t H F k.
Proof.
  intros Hj Hl Hv. destruct cluster_bytes_range as [Hp HB]. pose proof (vo_record _ _ _ _ Hv) as (_ & _ & Hrw).
  destruct Hpl as [_ _ _ _ Hrd Hrf _ _ Hsr _]. assert (j * cluster_bytes <= m * cluster_bytes) by nia.
  apply (volume_ext s); [|done]. intros a Ha. rewrite Hl; [by rewrite decide_False by lia|by apply Hrw|by apply Hsr|lia].
Qed.

(** One more. *)
Lemma loaded_step s t cs j :
  0 <= j < m -> loaded s t cs j -> cluster_ok (nth (Z.to_nat j) cs 0) ->
  exists t', bios_read (dest + j * cluster_bytes) (cluster_lba (nth (Z.to_nat j) cs 0)) (2 ^ k) t = Ok t' /\
    outside t t' /\ loaded s t' cs (j + 1) /\
    forall a, fat_buffer <= a < fat_buffer + cluster_bytes -> view t' a = view t a.
Proof.
  intros Hj Hl Hc. destruct cluster_bytes_range as [Hp HB].
  destruct (read_cluster t j _ Hj Hc) as (t' & E & O & V). exists t'. split; [done|]. split; [done|].
  destruct (slot_range j m cluster_bytes ltac:(lia) ltac:(lia)) as [G0 G1].
  destruct Hpl as [_ _ _ (_ & _ & Hfw) _ _ Hdf _ _ Hsf]. split.
  - intros a Ha Hns Hao. rewrite V by done. replace ((j + 1) * cluster_bytes) with (j * cluster_bytes + cluster_bytes) by lia.
    destruct (decide (dest + j * cluster_bytes <= a < dest + j * cluster_bytes + cluster_bytes)) as [Hin|Hout].
    + rewrite decide_True by lia. unfold file_byte.
      assert (a - dest = j * cluster_bytes + (a - (dest + j * cluster_bytes))) as -> by lia.
      rewrite Z.div_add_l, (Z.div_small (a - _)) by lia. rewrite Z.add_0_r. f_equal.
      rewrite (Z.add_comm (j * cluster_bytes)), Z.mod_add, Z.mod_small by lia. done.
    + rewrite Hl by done. repeat case_decide; try done; lia.
  - intros a Ha. rewrite V by (apply Hfw || apply Hsf; done). by rewrite decide_False by lia.
Qed.

(** ** The loops *)

(** Clusters a file takes. *)
Definition cluster_count (size : Z) : Z := (size + cluster_bytes - 1) / cluster_bytes.

Lemma file_clusters_ok t size :
  volume t H F k -> 0 <= size -> size + cluster_bytes <= 2 ^ 31 ->
  file_clusters 512 record size t = Ok (cluster_count size).
Proof.
  intros Hv H0 H1. destruct cluster_bytes_range as [Hp HB].
  unfold file_clusters. rewrite (bind_ok _ _ _ (cluster_size_ok t Hv)). cbv beta zeta.
  replace (2 ^ k * 512) with cluster_bytes by lia. rewrite (u32_small cluster_bytes) by lia.
  rewrite (Z.mod_small (_ - 1)) by lia. rewrite i32_small, u32_small by lia. apply div32_ok. lia.
Qed.

Lemma heap_lba_ok t c :
  volume t H F k -> cluster_ok c -> get_heap_lba 512 record (u32 c) t = Ok (cluster_lba c).
Proof.
  intros Hv (Hc & H0 & H1 & _). rewrite heap_lba_mod by done. f_equal.
  rewrite u32_small by lia. destruct cluster_bytes_range. apply Z.mod_small. fold (cluster_lba c). lia.
Qed.

Lemma fat_lba_ok t c :
  volume t H F k -> cluster_ok c -> get_fat_lba 512 record c t = Ok (256 + F + c / 128).
Proof.
  intros Hv (Hc & _ & _ & H1). rewrite fat_lba_mod by (done || lia). f_equal.
  destruct (vol_range t Hv) as (_ & HF0 & Hp). apply Z.mod_small. lia.
Qed.

(** Consecutive clusters. *)
Lemma unfragmented_ok s t c size :
  volume s H F k -> cluster_count size = m -> 0 <= size -> size + cluster_bytes <= 2 ^ 31 ->
  (forall j, 0 <= j < m -> cluster_ok (c + j)) -> loaded s t (seqZ c m) 0 ->
  exists t', load_unfragmented 512 drive buf dap record c size dest t = Ok t' /\ outside t t' /\
    loaded s t' (seqZ c m) m.
Proof.
  intros Hv Hm H0 H1 Hc Hl. destruct cluster_bytes_range as [Hp HB].
  pose proof Hpl as [(Hd0 & Hd1 & _) Hm0 Hby _ _ _ _ _ _ _].
  apply (loop_total _ (fun '(j, u) => 0 <= j <= m /\ outside t u /\ loaded s u (seqZ c m) j)
    (fun '(j, _) => m - j)).
  - split; [done|]. by split.
  - rewrite budget_eq. assert (1 <= cluster_bytes) by lia. nia.
  - intros [j u] (Hj & Ou & Lu). split; [lia|].
    pose proof (loaded_volume s u _ j ltac:(lia) Lu Hv) as Hvu.
    rewrite (bind_ok _ _ _ (file_clusters_ok u size Hvu H0 H1)). cbv beta. rewrite Hm.
    destruct (Z.ltb_spec j m) as [Hlt|Hge].
    + assert (nth (Z.to_nat j) (seqZ c m) 0 = c + j) as Hn.
      { rewrite nth_lookup, lookup_seqZ_lt by lia. cbn. lia. }
      pose proof (Hc j ltac:(lia)) as Hcj. pose proof Hcj as (Hcr & _).
      destruct (slot_range j m cluster_bytes ltac:(lia) ltac:(lia)) as [G0 G1].
      assert (0 <= j * 512 <= j * cluster_bytes) by nia.
      rewrite (bind_ok _ _ _ (cluster_size_ok u Hvu)). cbv beta. int_ok.
      rewrite (bind_ok _ _ _ (heap_lba_ok u _ Hvu Hcj)). cbv beta.
      replace (j * 512 * 2 ^ k) with (j * cluster_bytes) by lia.
      rewrite (u32_small (j * _)), u32_small by lia.
      destruct (loaded_step s u (seqZ c m) j ltac:(lia) Lu) as (u' & E & O & L & _); [by rewrite Hn|].
      rewrite Hn in E. rewrite (bind_ok _ _ _ E). cbv beta.
      eexists. split; [reflexivity|]. split; [|lia]. split; [lia|]. split; [by etrans|done].
    + exists (inr u). split; [done|]. split; [done|]. by replace m with j at 2 by lia.
Qed.

(** Clusters linked through the FAT, up to an end mark or a bad cluster. *)
Fixpoint linked_clusters (cs : list Z) : Prop :=
  match cs with
  | [] => False
  | c :: cs' =>
      match cs' with
      | [] => fat c = 4294967295 \/ fat c = 4294967287
      | c' :: _ => fat c = c' /\ linked_clusters cs'
      end
  end.

Lemma linked_next cs j :
  linked_clusters cs -> (j < length cs)%nat ->
  if decide (Datatypes.S j < length cs)%nat then fat (nth j cs 0) = nth (Datatypes.S j) cs 0
  else fat (nth j cs 0) = 4294967295 \/ fat (nth j cs 0) = 4294967287.
Proof.
  revert j; induction cs as [|c cs IH]; intros j; [done|]. destruct cs as [|c' cs].
  - intros Hl Hj. cbn in *. rewrite decide_False by lia. by replace j with O by lia.
  - intros [Hf Hl] Hj. destruct j as [|j]; [rewrite decide_True by (cbn; lia); done|].
    specialize (IH j Hl ltac:(cbn in *; lia)). cbn [length nth] in *.
    repeat case_decide; try lia; done.
Qed.

(** The entry of a cluster is where the code looks for it. *)
Definition entry_in_place (c : Z) : Prop := c mod (128 * 2 ^ k) < 128.

Lemma fragmented_ok s t cs :
  volume s H F k -> linked_clusters cs -> Z.of_nat (length cs) = m ->
  Forall cluster_ok cs -> Forall entry_in_place cs ->
  loaded s t cs 0 -> fat_loaded t (nth 0 cs 0) ->
  exists t', load_fragmented 512 drive buf dap record fat_buffer (nth 0 cs 0) (128 * 2 ^ k) dest t = Ok t' /\
    outside t t' /\ loaded s t' cs m.
Proof.
  intros Hv Hlk Hm Hok Hpl' Hl Hf. destruct cluster_bytes_range as [Hp HB].
  pose proof Hpl as [(Hd0 & Hd1 & _) Hm0 Hby _ _ _ _ _ _ _].
  destruct (vol_range s Hv) as (_ & [HF0 _] & _).
  assert (forall j, 0 <= j < m -> cluster_ok (nth (Z.to_nat j) cs 0) /\ entry_in_place (nth (Z.to_nat j) cs 0)) as Hc.
  { intros j Hj. rewrite !Forall_forall in *.
    assert (nth (Z.to_nat j) cs 0 ∈ cs) as Hin by (apply list_elem_of_In, nth_In; lia). by split; auto. }
  assert (0 < m) as Hm1 by (destruct cs; [done|cbn in Hm; lia]).
  apply (loop_total _ (fun '(j, c, u) => 0 <= j < m /\ c = nth (Z.to_nat j) cs 0 /\ outside t u /\
    loaded s u cs j /\ fat_loaded u c) (fun '(j, _, _) => m - j)).
  - split; [lia|]. by split.
  - rewrite budget_eq. assert (1 <= cluster_bytes) by lia. nia.
  - intros [[j c] u] (Hj & -> & Ou & Lu & Fu). split; [lia|]. destruct (Hc j Hj) as [Hcj Hej].
    set (c := nth (Z.to_nat j) cs 0) in *.
    pose proof (loaded_volume s u _ j ltac:(lia) Lu Hv) as Hvu.
    destruct (slot_range j m cluster_bytes ltac:(lia) ltac:(lia)) as [G0 G1].
    rewrite (bind_ok _ _ _ (cluster_size_ok u Hvu)). cbv beta zeta.
    assert (j < 2 ^ 30) by nia. int_ok.
    rewrite (bind_ok _ _ _ (heap_lba_ok u _ Hvu Hcj)). cbv beta.
    rewrite (u32_small (512 * 2 ^ k)) by lia. fold cluster_bytes.
    rewrite (Z.mul_comm cluster_bytes), (u32_small (j * _)), u32_small by lia.
    destruct (loaded_step s u cs j Hj Lu Hcj) as (u1 & E1 & O1 & L1 & K1). fold c in E1.
    rewrite (bind_ok _ _ _ E1). cbv beta.
    assert (fat_loaded u1 c) as F1 by (intros a Ha; rewrite K1 by done; by apply Fu).
    rewrite (bind_ok _ _ _ (fat_entry_loaded u1 c Hcj F1)). cbv beta.
    pose proof (linked_next cs (Z.to_nat j) Hlk ltac:(lia)) as Hn. fold c in Hn.
    destruct Hcj as (Hcr & _). unfold entry_in_place in Hej.
    replace (128 * (c / 128) + c mod (128 * 2 ^ k)) with c.
    2:{ transitivity (128 * (c / 128) + c mod 128); [lia|]. f_equal.
        rewrite <- (Z.mod_mod_divide c (128 * 2 ^ k) 128) by by exists (2 ^ k); lia.
        apply Z.mod_small. pose proof (Z.mod_pos_bound c (128 * 2 ^ k)). lia. }
    case_decide as Hlast.
    + destruct (Hc (j + 1) ltac:(lia)) as [Hcn _]. replace (Z.to_nat (j + 1)) with (Datatypes.S (Z.to_nat j)) in Hcn by lia.
      rewrite Hn. set (c' := nth (Datatypes.S (Z.to_nat j)) cs 0) in *. pose proof Hcn as (Hcr' & _).
      replace ((c' =? 4294967295) || (c' =? 4294967287)) with false by lia.
      pose proof (loaded_volume s u1 _ (j + 1) ltac:(lia) L1 Hv) as Hv1.
      rewrite (bind_ok _ _ _ (fat_lba_ok u1 c' Hv1 Hcn)). cbv beta.
      rewrite (bind_ok _ _ _ (cluster_size_ok u1 Hv1)). cbv beta.
      destruct (read_fat u1 c' Hcn HF0) as (u2 & E2 & O2 & F2 & V2).
      rewrite (bind_ok _ _ _ E2). cbv beta. rewrite i32_small by lia.
      eexists. split; [reflexivity|]. split; [|lia]. split; [lia|].
      split; [unfold c'; f_equal; lia|]. split; [etrans; [done|]; by etrans|]. split; [|done].
      intros a Ha Hns Hao. rewrite V2 by done. by apply L1.
    + replace ((fat c =? 4294967295) || (fat c =? 4294967287)) with true by (destruct Hn as [-> | ->]; done).
      exists (inr u1). split; [done|]. split; [by etrans|]. by replace m with (j + 1) by lia.
Qed.

(** ** load_file *)

(** The clusters of a file: consecutive when its entry of the FAT is 0, and linked
    otherwise. *)
Definition clusters_of (c size : Z) (cs : list Z) : Prop :=
  (fat c = 0 /\ cs = seqZ c (cluster_count size)) \/ (linked_clusters cs /\ head cs = Some c).

Lemma load_file_runs s c size cs :
  volume s H F k -> clusters_of c size cs -> Z.of_nat (length cs) = m ->
  0 <= size -> size + cluster_bytes <= 2 ^ 31 ->
  Forall cluster_ok (c :: cs) -> Forall entry_in_place (c :: cs) ->
  exists s', load_file 512 drive buf dap record fat_buffer c size dest s = Ok (cluster_count size, s') /\
    outside s s' /\ loaded s s' cs m.
Proof.
  intros Hv Hcs Hm H0 H1 Hok Hin. destruct cluster_bytes_range as [Hp HB].
  destruct (vol_range s Hv) as (_ & [HF0 _] & _).
  apply Forall_cons in Hok as [Hc Hok]. apply Forall_cons in Hin as [Hi Hin]. pose proof Hc as (Hcr & _).
  unfold load_file. rewrite i32_small by lia. rewrite (bind_ok _ _ _ (cluster_size_ok s Hv)). cbv beta zeta.
  rewrite (u32_small c), (u32_small (512 * 2 ^ k)), i32_small by lia.
  replace (512 * 2 ^ k / 4) with (128 * 2 ^ k) by lia.
  rewrite (bind_ok _ _ _ (fat_lba_ok s c Hv Hc)). cbv beta.
  destruct (read_fat s c Hc HF0) as (s1 & E1 & O1 & F1 & V1). rewrite (bind_ok _ _ _ E1). cbv beta.
  rewrite (bind_ok _ _ _ (fat_entry_loaded s1 c Hc F1)). cbv beta. unfold entry_in_place in Hi.
  replace (128 * (c / 128) + c mod (128 * 2 ^ k)) with c.
  2:{ transitivity (128 * (c / 128) + c mod 128); [lia|]. f_equal.
      rewrite <- (Z.mod_mod_divide c (128 * 2 ^ k) 128) by by exists (2 ^ k); lia.
      apply Z.mod_small. pose proof (Z.mod_pos_bound c (128 * 2 ^ k)). lia. }
  assert (loaded s s1 cs 0) as L1.
  { intros a Ha Hns Hao. rewrite decide_False by lia. by apply V1. }
  assert (forall s2, outside s1 s2 -> loaded s s2 cs m ->
    exists s', (n ← file_clusters 512 record size s2; mret (i32 n, s2)) = Ok (cluster_count size, s') /\
      outside s s' /\ loaded s s' cs m) as Hfin.
  { intros s2 O2 L2. exists s2.
    rewrite (bind_ok _ _ _ (file_clusters_ok s2 size (loaded_volume s s2 cs m ltac:(lia) L2 Hv) H0 H1)).
    split; [|split; [by etrans|done]]. unfold cluster_count. unfold mret, res_ret.
    rewrite i32_small; [done|].
    assert (0 <= (size + cluster_bytes - 1) / cluster_bytes) by (apply Z.div_pos; lia).
    assert ((size + cluster_bytes - 1) / cluster_bytes < 2 ^ 31) by (apply Z.div_lt_upper_bound; nia). lia. }
  destruct Hcs as [[Hz ->]|[Hl Hh]].
  - rewrite Hz. cbn [Z.eqb].
    assert (0 <= cluster_count size) as Hcc by (apply Z.div_pos; lia).
    rewrite length_seqZ in Hm. rewrite Z2Nat.id in Hm by done. rewrite Hm in *.
    destruct (unfragmented_ok s s1 c size Hv Hm H0 H1) as (s2 & E2 & O2 & L2); [|done|].
    + intros j Hj. rewrite Forall_forall in Hok. apply Hok. apply elem_of_seqZ. lia.
    + rewrite (bind_ok _ _ _ E2). cbv beta. by apply Hfin.
  - assert (nth 0 cs 0 = c) as Hn by (destruct cs; [done|]; by injection Hh as ->).
    assert (fat c <> 0) as Hnz.
    { pose proof (linked_next cs 0 Hl ltac:(destruct cs; [done|cbn; lia])) as Hx. rewrite Hn in Hx.
      case_decide; [|lia]. rewrite Forall_forall in Hok.
      destruct (Hok (nth 1 cs 0) ltac:(apply list_elem_of_In, nth_In; lia)) as (? & _). lia. }
    replace (fat c =? 0) with false by lia.
    destruct (fragmented_ok s s1 cs Hv Hl Hm Hok Hin L1) as (s2 & E2 & O2 & L2); [by rewrite Hn|].
    rewrite Hn in E2. rewrite (bind_ok _ _ _ E2). cbv beta. by apply Hfin.
Qed.

(** load_file loads a file: with every cluster on the disk below 4 GiB and every
    entry of the FAT where the code looks for it, the clusters of the file, as the
    FAT links them or consecutive when it does not, are at the destination in
    order; nothing else changes but the FAT buffer and the scratch memory, and the
    result is the number of clusters the size says. *)
Theorem load_file_loads s c size cs :
  volume s H F k -> clusters_of c size cs -> Z.of_nat (length cs) = m ->
  0 <= size -> size + cluster_bytes <= 2 ^ 31 ->
  Forall cluster_ok (c :: cs) -> Forall entry_in_place (c :: cs) ->
  exists s', load_file 512 drive buf dap record fat_buffer c size dest s
      = Ok ((size + cluster_bytes - 1) / cluster_bytes, s') /\ outside s s' /\
    (forall j o, 0 <= j < m -> 0 <= o < cluster_bytes ->
       view s' (dest + j * cluster_bytes + o) = cluster_byte (nth (Z.to_nat j) cs 0) o) /\
    forall a, win a -> ~ scratch 512 buf dap a -> a < fat_buffer \/ fat_buffer + cluster_bytes <= a ->
      a < dest \/ dest + m * cluster_bytes <= a -> view s' a = view s a.
Proof.
  intros Hv Hcs Hm H0 H1 Hok Hin. destruct cluster_bytes_range as [Hp HB].
  destruct (load_file_runs s c size cs Hv Hcs Hm H0 H1 Hok Hin) as (s' & E & O & L).
  exists s'. split; [exact E|]. split; [done|]. destruct Hpl as [(_ & _ & Hdw) _ _ _ _ _ Hdf Hsd _ _]. split.
  - intros j o Hj Ho.
    destruct (slot_range j m cluster_bytes ltac:(lia) ltac:(lia)) as [G0 G1].
    rewrite L; [|apply Hdw; lia|apply Hsd; lia|lia]. rewrite decide_True by lia. unfold file_byte.
    replace (dest + j * cluster_bytes + o - dest) with (j * cluster_bytes + o) by lia.
    rewrite Z.div_add_l, Z.div_small by lia. rewrite Z.add_0_r. f_equal.
    rewrite (Z.add_comm (j * cluster_bytes)), Z.mod_add, Z.mod_small by lia. done.
  - intros a Ha Hns Hao Had. rewrite L by done. by rewrite decide_False by lia.
Qed.

(** The entry of the FAT is looked up with the number of the cluster modulo the
    entries in a cluster, in a buffer that starts with the sector of the entry:
    for a cluster whose number modulo the entries in a cluster is 128 or more the
    code takes the entry of another cluster. *)
Theorem fat_entry_displaced s c :
  volume s H F k -> cluster_ok c -> 128 <= c mod (128 * 2 ^ k) ->
  exists s' e, (lba ← get_fat_lba 512 record c s; size ← get_cluster_size 512 record 1 s;
              bios_read fat_buffer lba size s) = Ok s' /\
    fat_entry fat_buffer c (128 * 2 ^ k) s' = Ok (fat e) /\ e <> c.
Proof.
  intros Hv Hc Hm. destruct cluster_bytes_range as [Hp HB]. destruct (vol_range s Hv) as (_ & [HF0 _] & _).
  destruct (read_fat s c Hc HF0) as (s1 & E1 & O1 & F1 & V1).
  exists s1, (128 * (c / 128) + c mod (128 * 2 ^ k)).
  rewrite (bind_ok _ _ _ (fat_lba_ok s c Hv Hc)). cbv beta.
  rewrite (bind_ok _ _ _ (cluster_size_ok s Hv)). cbv beta.
  split; [exact E1|]. split; [by apply fat_entry_loaded|]. lia.
Qed.
End Dest.
End Volume.
End Load.
