(* ===== verification/ExfatPath.v ===== *)
(** * Reading a file by its path

    The directories on the disk, the path from the root through them, and what
    [read_file_exfat] makes of it. *)

From S2P Require Export ExfatLoad.

#[local] Open Scope Z_scope.

(** ** The same directory at two places *)

Section SameDir.
Context (v w : Z -> Z) (dir dir' n : Z)
  (He : forall x, 0 <= x < 32 * n -> w (dir' + x) = v (dir + x)).

Lemma same_vld k x : 0 <= x -> x + Z.of_nat k <= 32 * n -> vld k w (dir' + x) = vld k v (dir + x).
Proof.
  intros H0 H1. rewrite (vld_at k v (fun y => v (dir + y))) by done. apply vld_at. intros y Hy. apply He. lia.
Qed.

Lemma same_counts i :
  0 <= i < n -> entry_type_at w dir' i = entry_type_at v dir i /\
    secondary_count_at w dir' i = secondary_count_at v dir i.
Proof.
  intros Hi. unfold entry_type_at, secondary_count_at.
  rewrite <- !Z.add_assoc, !He by lia. done.
Qed.

Lemma same_file i :
  0 <= i -> i + secondary_count_at v dir i < n -> 2 <= secondary_count_at v dir i ->
  file_at w dir' i = file_at v dir i.
Proof.
  intros Hi Hn Hc. destruct (same_counts i ltac:(lia)) as [_ Hs]. unfold file_at. rewrite Hs. f_equal.
  - apply list_fmap_ext. intros j k Hk. apply list_elem_of_lookup_2, elem_of_seqZ in Hk. unfold char_at.
    rewrite <- !Z.add_assoc. apply same_vld; lia.
  - rewrite <- !Z.add_assoc. apply He. lia.
  - rewrite <- !Z.add_assoc. apply same_vld; lia.
  - rewrite <- !Z.add_assoc. apply same_vld; lia.
Qed.

Lemma same_file_ok i : 0 <= i < n -> file_ok w dir' i n = file_ok v dir i n.
Proof.
  intros Hi. destruct (same_counts i Hi) as [_ Hs]. unfold file_ok. rewrite Hs. cbv zeta.
  destruct (Z.leb_spec 1 (secondary_count_at v dir i - 1)); [|done].
  destruct (Z.ltb_spec (i + (secondary_count_at v dir i - 1) + 1) n); [|by rewrite !andb_false_r].
  by rewrite same_file by lia.
Qed.

Lemma same_dir fuel : forall i,
  0 <= i -> dir_ok v dir fuel i n = true ->
  dir_ok w dir' fuel i n = true /\ files w dir' fuel i n = files v dir fuel i n.
Proof.
  induction fuel as [|fuel IH]; intros i Hi Hok; cbn [dir_ok files] in *; [done|].
  destruct (Z.ltb_spec i n) as [Hlt|]; [|done].
  destruct (same_counts i ltac:(lia)) as [-> ->]. destruct (Z.eqb_spec (entry_type_at v dir i) 133).
  - apply andb_prop in Hok as [Hf Hok]. rewrite same_file_ok, Hf by lia.
    destruct (file_ok_inv v dir i n Hf) as (Hc & Hn & _).
    destruct (IH (i + secondary_count_at v dir i + 1) ltac:(lia) Hok) as [-> ->].
    split; [done|]. f_equal. apply same_file; lia.
  - apply IH; [lia|done].
Qed.
End SameDir.

(** Characters of the files of a directory are ASCII. *)
Lemma dir_chars v dir n (Hv : forall a, 0 <= v a) fuel : forall i,
  dir_ok v dir fuel i n = true ->
  forall f c, f ∈ files v dir fuel i n -> c ∈ f_chars f -> 0 <= c < 128.
Proof.
  induction fuel as [|fuel IH]; intros i Hok f c Hf Hc; cbn [dir_ok files] in *.
  { by apply elem_of_nil in Hf. }
  destruct (i <? n); [|by apply elem_of_nil in Hf].
  destruct (entry_type_at v dir i =? 133); [|by apply (IH (i + 1) Hok f)].
  apply andb_prop in Hok as [Ho Hok]. apply elem_of_cons in Hf as [->|Hf]; [|by apply (IH _ Hok f)].
  destruct (file_ok_inv v dir i n Ho) as (_ & _ & _ & Hch). cbn [f_chars file_at] in *.
  apply list_elem_of_fmap in Hc as (x & -> & Hx). apply elem_of_seqZ in Hx.
  destruct (Hch x ltac:(lia)) as [_ H128]. split; [|done].
  unfold char_at. clear -Hv. generalize (dir + 32 * (i + x / 15 + 2) + 2 + 2 * (x mod 15)). intros a. cbn [vld].
  pose proof (Hv a). pose proof (Hv (a + 1)). lia.
Qed.

(** The up-case table matters for them only. *)
Lemma find_file_ext up up' name fs :
  (forall f c, f ∈ fs -> c ∈ f_chars f -> up' c = up c) -> find_file up' name fs = find_file up name fs.
Proof.
  unfold find_file. induction fs as [|f fs IH]; intros He; [done|]. rewrite !filter_cons.
  assert (matches up' name f = matches up name f) as ->.
  { unfold matches.
    assert (up' <$> take (Z.to_nat (f_namelen f)) (f_chars f) = up <$> take (Z.to_nat (f_namelen f)) (f_chars f)) as ->; [|done].
    apply list_fmap_ext. intros j c Hc.
    apply list_elem_of_lookup_2 in Hc. apply (He f); [by left|].
    rewrite <- (take_drop (Z.to_nat (f_namelen f))). apply elem_of_app. by left. }
  case_decide; [done|]. apply IH. intros g c Hg. apply He. by right.
Qed.

(** ** Paths *)

(** The string at [a]: every name with a slash in front. *)
Fixpoint spells (v : Z -> Z) (a : Z) (names : list (list Z)) : Prop :=
  match names with
  | [] => v a = 0
  | name :: names =>
      v a = 47 /\ name <> [] /\ (v <$> seqZ (a + 1) (Z.of_nat (length name))) = name /\
      Forall (fun c => c <> 47 /\ c <> 0) name /\ spells v (a + 1 + Z.of_nat (length name)) names
  end.

Fixpoint spelled (names : list (list Z)) : Z :=
  match names with
  | [] => 1
  | name :: names => 1 + Z.of_nat (length name) + spelled names
  end.

Lemma spelled_pos names : 1 + Z.of_nat (length names) <= spelled names.
Proof. induction names as [|name names IH]; cbn [spelled length]; lia. Qed.

Lemma spells_ext v w a names :
  (forall x, a <= x < a + spelled names -> w x = v x) -> spells v a names -> spells w a names.
Proof.
  revert a; induction names as [|name names IH]; intros a Hx; cbn [spells spelled] in *.
  - intros <-. apply Hx. lia.
  - pose proof (spelled_pos names). intros (H0 & H1 & H2 & H3 & H4).
    split; [rewrite Hx by lia; done|]. split; [done|]. split.
    + rewrite <- H2 at 2. apply list_fmap_ext. intros j k Hk.
      apply list_elem_of_lookup_2, elem_of_seqZ in Hk. apply Hx. lia.
    + split; [done|]. apply IH; [|done]. intros x Hxx. apply Hx. lia.
Qed.

Section Path.
Context {S : Type} {HS : Store S} {win : Z -> Prop} {HW : Window S win} {HF : Firmware S}.
Context (drive sectors : Z) (sector : Z -> Z -> Z).
Context {HD : Disk S win drive 512 sectors sector}.
Context (buf dap record table fat_buffer : Z).
Context (Hlo : locals_ok (win := win) 512 drive buf dap).
Context (H F k dest m : Z) (Hk : 0 <= k <= 20).
Context (Hpl : places (win := win) buf dap record fat_buffer k dest m).
Implicit Types (s t : S) (cs : list Z).

#[local] Abbreviation content := (file_byte sector H k).
#[local] Abbreviation B := (cluster_bytes k).

(** ** The disk *)

(** Entries of a directory of the clusters [cs]. *)
Definition dir_entries cs : Z := Z.of_nat (length cs) * B / 32.
Definition dir_files cs : list file :=
  files (content cs) 0 (Z.to_nat (dir_entries cs)) 0 (dir_entries cs).
Definition directory_ok cs : Prop :=
  dir_ok (content cs) 0 (Z.to_nat (dir_entries cs)) 0 (dir_entries cs) = true.

(** The clusters [cs] are those of the file [f], and fit. *)
Definition file_clusters_are (f : file) cs : Prop :=
  clusters_of sector F k (f_cluster f) (f_size f) cs /\
  Z.of_nat (length cs) = cluster_count k (f_size f) /\
  0 < f_size f /\ f_size f + B <= 2 ^ 31 /\ Z.of_nat (length cs) <= m /\
  Forall (cluster_ok sectors H F k) (f_cluster f :: cs) /\ Forall (entry_in_place k) (f_cluster f :: cs).

(** The names lead from the directory of the clusters [cs] to a file. *)
Inductive path_on_disk (up : Z -> Z) : list Z -> list (list Z) -> list Z -> Prop :=
  | path_here cs : path_on_disk up cs [] cs
  | path_down cs name names f cs' cs'' :
      directory_ok cs -> find_file up name (dir_files cs) = Some f ->
      file_clusters_are f cs' -> path_on_disk up cs' names cs'' ->
      path_on_disk up cs (name :: names) cs''.

(** ** Memory *)

(** The clusters [cs] are at the destination; the rest is as in [s]. *)
Definition holds s t cs : Prop :=
  outside s t /\ Z.of_nat (length cs) <= m /\
  (forall o, 0 <= o < Z.of_nat (length cs) * B -> view t (dest + o) = content cs o) /\
  forall a, win a -> ~ scratch 512 buf dap a -> a < fat_buffer \/ fat_buffer + B <= a ->
    a < dest \/ dest + m * B <= a -> view t a = view s a.

Lemma places_less j : 0 <= j <= m -> places (win := win) buf dap record fat_buffer k dest j.
Proof.
  intros Hj. destruct Hpl as [(Hd0 & Hd1 & Hdw) Hm Hby Hf Hrd Hrf Hdf Hsd Hsr Hsf].
  destruct (cluster_bytes_range k Hk) as [Hp HB].
  assert (j * B <= m * B) by nia. split; try done; try lia.
  - split; [lia|]. split; [lia|]. intros b Hb. apply Hdw. lia.
  - intros x Hx. apply Hsd. lia.
Qed.

(** Ranges that loading does not touch. *)
Definition untouched (a n : Z) : Prop :=
  in_win win a n /\
  forall x, a <= x < a + n -> ~ scratch 512 buf dap x /\ (x < fat_buffer \/ fat_buffer + B <= x) /\
    (x < dest \/ dest + m * B <= x).

Lemma holds_untouched s t cs a n x :
  holds s t cs -> untouched a n -> a <= x < a + n -> view t x = view s x.
Proof. intros (_ & _ & _ & Hv) [(_ & _ & Hw) Hu] Hx. destruct (Hu x Hx) as (? & ? & ?). apply Hv; auto. Qed.

Lemma record_untouched : in_win win record 512 -> untouched record 512.
Proof.
  intros Hr. split; [done|]. destruct Hpl as [_ _ _ _ Hrd Hrf _ _ Hsr _]. intros x Hx.
  split; [by apply Hsr|]. lia.
Qed.

Lemma holds_volume s t cs : holds s t cs -> volume record s H F k -> volume record t H F k.
Proof.
  intros Hh Hv. apply (volume_ext record s); [|done]. intros a Ha.
  apply (holds_untouched s t cs record 512); [done|apply record_untouched, Hv|done].
Qed.

(** A load keeps this up. *)
Lemma holds_load s t cs f cs' :
  holds s t cs -> volume record s H F k -> file_clusters_are f cs' ->
  exists t', load_file 512 drive buf dap record fat_buffer (f_cluster f) (f_size f) dest t
      = Ok (Z.of_nat (length cs'), t') /\ holds s t' cs'.
Proof.
  intros Hh Hv (Hcl & Hlen & H0 & H1 & Hm & Hok & Hip).
  pose proof (holds_volume s t cs Hh Hv) as Hvt. destruct Hh as (Ho & _ & _ & Hun).
  pose proof (places_less (Z.of_nat (length cs')) ltac:(lia)) as Hp.
  destruct (load_file_runs drive sectors sector buf dap record fat_buffer Hlo H F k dest
    (Z.of_nat (length cs')) Hp Hk t (f_cluster f) (f_size f) cs' Hvt Hcl eq_refl ltac:(lia) H1 Hok Hip)
    as (t' & E & O & L).
  destruct (cluster_bytes_range k Hk) as [Hp2 HB].
  assert (Z.of_nat (length cs') * B <= m * B) by nia.
  exists t'. split; [by rewrite Hlen|]. split; [by etrans|]. split; [done|]. split.
  - intros o Hoo. destruct Hp as [(_ & _ & Hdw) _ _ _ _ _ Hdf Hsd _ _].
    rewrite L; [|apply Hdw; lia|apply Hsd; lia|lia]. rewrite decide_True by lia. f_equal. lia.
  - intros a Ha Hns Hao Had. rewrite L by done. rewrite decide_False by lia. by apply Hun.
Qed.

(** ** The walk along the path *)

Context (path : Z).

Lemma dir_size t cs :
  volume record t H F k -> Z.of_nat (length cs) <= m ->
  get_cluster_size 512 record (u32 (Z.of_nat (length cs))) t = Ok (Z.of_nat (length cs) * 2 ^ k) /\
  u32 (512 * (Z.of_nat (length cs) * 2 ^ k)) / 32 = dir_entries cs /\
  0 <= 32 * dir_entries cs <= Z.of_nat (length cs) * B /\ Z.of_nat (length cs) * B < 2 ^ 31.
Proof.
  intros Hv Hm. destruct (cluster_bytes_range k Hk) as [Hp HB]. pose proof (pl_bytes _ _ _ _ _ _ _ Hpl) as Hby.
  set (l := Z.of_nat (length cs)) in *. assert (0 <= l) by lia.
  assert (l * B <= m * B) by nia. assert (l * B = l * 2 ^ k * 512) as HlB by lia.
  assert (l <= l * 2 ^ k) by nia.
  split; [|split; [|unfold dir_entries; fold l; lia]].
  - unfold get_cluster_size. rewrite (bind_ok _ _ _ (shift_ok record H F k t Hv)). cbv beta.
    rewrite (u32_small l), shl32_ok by lia. bnd. rewrite div32_ok by lia. f_equal.
    rewrite (u32_small (l * 2 ^ k)), u32_small by lia. lia.
  - rewrite u32_small by lia. unfold dir_entries. fold l. f_equal. lia.
Qed.

(** The end of a name. *)
Lemma name_length_ok t a name names :
  spells (view t) a (name :: names) -> in_win win a (spelled (name :: names)) -> 0 <= path <= a ->
  path_name_length path (a + 1 - path) t = Ok (Z.of_nat (length name)).
Proof.
  intros (_ & Hne & Hnm & Hfa & Hrest) (Ha0 & Ha1 & Haw) Hp. cbn [spelled] in *.
  pose proof (spelled_pos names).
  assert (forall j, 0 <= j < Z.of_nat (length name) -> view t (a + 1 + j) <> 47 /\ view t (a + 1 + j) <> 0) as Hin.
  { intros j Hj. rewrite Forall_forall in Hfa. apply Hfa. rewrite <- Hnm.
    apply list_elem_of_fmap. exists (a + 1 + j). split; [done|]. apply elem_of_seqZ. lia. }
  assert (view t (a + 1 + Z.of_nat (length name)) = 47 \/ view t (a + 1 + Z.of_nat (length name)) = 0) as Hend.
  { destruct names; [right; exact Hrest|left; apply Hrest]. }
  unfold path_name_length. edestruct (loop_total (fun path_length =>
      c ← rd8 t (u32 (path + (a + 1 - path + path_length)));
      if negb (c =? 47) && negb (c =? 0) then mret (inl (path_length + 1)) else mret (inr path_length))
    (fun j => 0 <= j <= Z.of_nat (length name)) (fun j => Z.of_nat (length name) - j)
    (fun r => r = Z.of_nat (length name)) 0) as (r & E & ->); [lia|rewrite budget_eq; lia| |exact E].
  intros j Hj. split; [lia|]. replace (path + (a + 1 - path + j)) with (a + 1 + j) by lia.
  rewrite u32_small by lia. rewrite (bind_ok _ _ _ (rd8_win t (a + 1 + j) ltac:(apply Haw; lia))). cbv beta.
  destruct (decide (j = Z.of_nat (length name))) as [->|Hlt].
  - exists (inr (Z.of_nat (length name))). split; [|done].
    destruct Hend as [-> | ->]; done.
  - destruct (Hin j ltac:(lia)) as [H47 H00].
    exists (inl (j + 1)). split; [|lia].
    replace (view t (a + 1 + j) =? 47) with false by lia. by replace (view t (a + 1 + j) =? 0) with false by lia.
Qed.

#[local] Abbreviation body := (path_body 512 drive buf dap record table fat_buffer path dest).

(** One directory: the name is found and its clusters are loaded. *)
Lemma descend s t cs name f cs' a :
  holds s t cs -> volume record s H F k -> directory_ok cs ->
  find_file (upcase (view s) table) name (dir_files cs) = Some f -> file_clusters_are f cs' ->
  untouched table 256 -> (forall c, 0 <= c < 128 -> upcase (view s) table c < 128) ->
  in_win win a (Z.of_nat (length name)) -> view t <$> seqZ a (Z.of_nat (length name)) = name ->
  exists t', _read_file_exfat_helper 512 drive buf dap record table fat_buffer a (Z.of_nat (length name)) dest
      (Z.of_nat (length cs)) dest t = Ok (Z.of_nat (length cs'), t') /\ holds s t' cs'.
Proof.
  intros Hh Hv Hd Hf Hcl Htab Hupc Ha Hnm.
  destruct (holds_load s t cs f cs' Hh Hv Hcl) as (t' & E & Hh'). exists t'. split; [|done].
  pose proof (holds_volume s t cs Hh Hv) as Hvt. pose proof Hh as (_ & Hm & Hcon & _).
  destruct (dir_size t cs Hvt Hm) as (Hsz & Hn & Hnb & Hlt).
  destruct (same_dir (content cs) (view t) 0 dest (dir_entries cs)) with (fuel := Z.to_nat (dir_entries cs)) (i := 0)
    as [Hok Hfs]; [intros x Hx; apply Hcon; lia|lia|exact Hd|].
  assert (forall c, 0 <= c < 128 -> upcase (view t) table c = upcase (view s) table c) as Hue.
  { intros c Hc. apply vld_ext. intros b Hb. apply (holds_untouched s t cs table 256); [done|done|lia]. }
  rewrite helper_runs with (n := dir_entries cs) (size := Z.of_nat (length cs) * 2 ^ k); [|..|done].
  - unfold found, name_bytes. rewrite Hnm, Hfs. fold (dir_files cs).
    rewrite (find_file_ext (upcase (view s) table)), Hf; [exact E|].
    intros g c Hg Hc. apply Hue.
    apply (dir_chars (view t) dest (dir_entries cs) (fun b => proj1 (view_range t b)) (Z.to_nat (dir_entries cs)) 0 Hok g c);
      [rewrite Hfs; exact Hg|done].
  - destruct Hpl as [(Hd0 & Hd1 & Hdw) _ _ _ _ _ _ _ _ _]. destruct (cluster_bytes_range k Hk).
    assert (Z.of_nat (length cs) * B <= m * B) by nia.
    split; [lia|]. split; [lia|]. intros b Hb. apply Hdw. lia.
  - apply Htab.
  - done.
  - lia.
  - intros c Hc. rewrite Hue by done. by apply Hupc.
  - done.
  - done.
Qed.

(** The two iterations for a name: the slash, and the name. *)
Lemma path_step s t cs name names f cs' a :
  holds s t cs -> volume record s H F k -> directory_ok cs ->
  find_file (upcase (view s) table) name (dir_files cs) = Some f -> file_clusters_are f cs' ->
  untouched table 256 -> (forall c, 0 <= c < 128 -> upcase (view s) table c < 128) ->
  in_win win a (spelled (name :: names)) -> spells (view t) a (name :: names) -> 0 <= path <= a ->
  exists t', holds s t' cs' /\
    body (a - path, Z.of_nat (length cs), t) = Ok (inl (a - path + 1, Z.of_nat (length cs), t)) /\
    body (a - path + 1, Z.of_nat (length cs), t)
      = Ok (inl (a + 1 + Z.of_nat (length name) - path, Z.of_nat (length cs'), t')).
Proof.
  intros Hh Hv Hd Hf Hcl Htab Hupc Ha Hsp Hp. pose proof Hsp as (H47 & Hne & Hnm & Hfa & _).
  pose proof (name_length_ok t a name names Hsp Ha Hp) as El. destruct Ha as (Ha0 & Ha1 & Haw).
  cbn [spelled] in *. pose proof (spelled_pos names).
  assert (0 < Z.of_nat (length name)) as Hlen by (destruct name; [done|cbn; lia]).
  destruct (descend s t cs name f cs' (a + 1) Hh Hv Hd Hf Hcl Htab Hupc) as (t' & E & Hh'); [|done|].
  { split; [lia|]. split; [lia|]. intros b Hb. apply Haw. lia. }
  exists t'. split; [done|]. unfold path_body. split.
  - replace (path + (a - path)) with a by lia. rewrite u32_small by lia.
    rewrite (bind_ok _ _ _ (rd8_win t a ltac:(apply Haw; lia))). cbv beta. by rewrite H47.
  - replace (path + (a - path + 1)) with (a + 1) by lia. rewrite u32_small by lia.
    rewrite (bind_ok _ _ _ (rd8_win t (a + 1) ltac:(apply Haw; lia))). cbv beta.
    assert (view t (a + 1) <> 47 /\ view t (a + 1) <> 0) as [N1 N2].
    { rewrite Forall_forall in Hfa. apply Hfa. rewrite <- Hnm. apply list_elem_of_fmap.
      exists (a + 1). split; [done|]. apply elem_of_seqZ. lia. }
    replace (view t (a + 1) =? 0) with false by lia. replace (view t (a + 1) =? 47) with false by lia.
    cbn [negb]. replace (a - path + 1) with (a + 1 - path) by lia.
    rewrite (bind_ok _ _ _ El). cbv beta. rewrite (bind_ok _ _ _ E). cbv beta iota.
    destruct Hcl as (_ & Hcc & Hs0 & _). assert (0 < Z.of_nat (length cs')) as Hpos.
    { rewrite Hcc. destruct (cluster_bytes_range k Hk). apply Z.div_str_pos. lia. }
    replace (Z.of_nat (length cs') =? 0) with false by lia. unfold mret, res_ret. repeat f_equal. lia.
Qed.

Lemma path_leaves s cs names cs' :
  path_on_disk (upcase (view s) table) cs names cs' -> volume record s H F k ->
  untouched table 256 -> (forall c, 0 <= c < 128 -> upcase (view s) table c < 128) ->
  forall a t, holds s t cs -> 0 <= path <= a -> untouched a (spelled names) -> spells (view s) a names ->
  exists j t', (j <= 2 * length names + 1)%nat /\ holds s t' cs' /\
    leaves body j (a - path, Z.of_nat (length cs), t) (Ok (1, Z.of_nat (length cs'), t')).
Proof.
  intros Hpath Hv Htab Hupc. induction Hpath as [cs|cs name names f cs' cs'' Hd Hf Hcl _ IH];
    intros a t Hh Hp Hun Hsp.
  - exists 1%nat, t. split; [lia|]. split; [done|]. apply leaves_ret. unfold path_body.
    replace (path + (a - path)) with a by lia. pose proof Hun as [(Ha0 & Ha1 & Haw) _]. cbn [spelled] in *.
    rewrite u32_small by lia. rewrite (bind_ok _ _ _ (rd8_win t a ltac:(apply Haw; lia))). cbv beta.
    rewrite (holds_untouched s t cs a 1 a Hh Hun) by lia. cbn [spells] in Hsp. by rewrite Hsp.
  - assert (spells (view t) a (name :: names)) as Hst.
    { apply (spells_ext (view s)); [|done]. intros x Hx. by apply (holds_untouched s t cs a (spelled (name :: names))). }
    destruct (path_step s t cs name names f cs' a Hh Hv Hd Hf Hcl Htab Hupc (proj1 Hun) Hst Hp)
      as (t' & Hh' & E1 & E2).
    destruct (IH (a + 1 + Z.of_nat (length name)) t' Hh') as (j & t'' & Hj & Hh'' & Hlv).
    + lia.
    + cbn [spelled] in Hun. destruct Hun as [(Ha0 & Ha1 & Haw) Hu]. pose proof (spelled_pos names).
      split; [split; [lia|]; split; [lia|]; intros b Hb; apply Haw; lia|].
      intros x Hx. apply Hu. lia.
    + apply Hsp.
    + exists (Datatypes.S (Datatypes.S j)), t''. cbn [length]. split; [lia|]. split; [done|].
      eapply leaves_next; [exact E1|]. eapply leaves_next; [exact E2|]. done.
Qed.

(** The file is at the destination. *)
Lemma read_file_runs s root names cs :
  volume record s H F k -> vld32 (view s) (record + 96) = root -> cluster_ok sectors H F k root -> 1 <= m ->
  untouched table 256 -> (forall c, 0 <= c < 128 -> upcase (view s) table c < 128) ->
  untouched path (spelled names) -> spells (view s) path names ->
  path_on_disk (upcase (view s) table) [root] names cs ->
  exists s', read_file_exfat 512 drive buf dap record table fat_buffer path dest s
      = Ok (Z.of_nat (length cs) * B, s') /\ holds s s' cs.
Proof.
  intros Hv Hr Hroot Hm1 Htab Hupc Hun Hsp Hpath.
  destruct (cluster_bytes_range k Hk) as [Hp HB]. pose proof Hpl as [(Hd0 & Hd1 & Hdw) Hm Hby _ _ _ _ Hsd _ _].
  pose proof Hroot as (Hrr & Hl0 & Hl1 & _). unfold read_file_exfat.
  rewrite (bind_ok _ _ _ (record32_ok record H F k s "root_first_cluster"%string 96 Hv eq_refl ltac:(lia) ltac:(lia))).
  cbv beta. rewrite Hr. rewrite (bind_ok _ _ _ (heap_lba_mod record H F k s root Hv)). cbv beta.
  fold (cluster_lba H k root). rewrite (Z.mod_small (cluster_lba H k root)) by lia.
  rewrite (bind_ok _ _ _ (cluster_size_ok record H F k s Hv)). cbv beta.
  destruct (read_cluster drive sectors sector buf dap record fat_buffer Hlo H F k dest m Hpl Hk s 0 root)
    as (s1 & E1 & O1 & V1); [lia|done|].
  rewrite Z.mul_0_l, Z.add_0_r in E1, V1. rewrite (bind_ok _ _ _ E1). cbv beta.
  assert (B <= m * B) by nia.
  assert (holds s s1 [root]) as H1.
  { split; [done|]. split; [cbn; lia|]. cbn [length]. rewrite Z.mul_1_l. split.
    - intros o Ho. rewrite V1; [|apply Hdw; lia|apply Hsd; lia]. rewrite decide_True by lia.
      unfold file_byte. rewrite Z.div_small, Z.mod_small by lia. cbn. f_equal. lia.
    - intros a Ha Hns Hao Had. rewrite V1 by done. by rewrite decide_False by lia. }
  destruct (path_leaves s [root] names cs Hpath Hv Htab Hupc path s1 H1) as (j & s2 & Hj & H2 & Hlv);
    [|done|done|].
  { destruct Hun as [(? & _) _]. lia. }
  rewrite Z.sub_diag in Hlv. change (Z.of_nat (length [root])) with 1 in Hlv.
  assert (Z.of_nat j <= Zpos budget) as Hb.
  { rewrite budget_eq. destruct Hun as [(? & ? & _) _]. pose proof (spelled_pos names). lia. }
  rewrite (bind_ok _ _ _ (leaves_loop _ j _ _ Hlv Hb)). cbv beta iota. cbn [Z.eqb].
  pose proof H2 as (O2 & Hmc & Hcon & Hrest).
  rewrite (bind_ok _ _ _ (cluster_size_ok record H F k s2 (holds_volume s s2 cs H2 Hv))). cbv beta.
  assert (Z.of_nat (length cs) * B <= m * B) by nia.
  assert (0 <= Z.of_nat (length cs) * 2 ^ k < 2 ^ 22) by lia.
  assert (Z.of_nat (length cs) <= Z.of_nat (length cs) * 2 ^ k) by nia.
  exists s2. split; [|exact H2].
  unfold mret, res_ret. rewrite (u32_small (Z.of_nat _)), (u32_small (Z.of_nat _ * _)), u32_small, i32_small by lia.
  do 2 f_equal. lia.
Qed.

(** C7. Reading a file by its path: when the names of the path lead from the root
    directory to a file on the disk, every directory on the way in order, then
    read_file_exfat has the clusters of the file at the destination, in order, and
    returns their size in bytes.  Outside of the destination, the FAT buffer and
    the scratch memory nothing changes. *)
Theorem read_file_exfat_reads s root names cs :
  volume record s H F k -> vld32 (view s) (record + 96) = root -> cluster_ok sectors H F k root -> 1 <= m ->
  untouched table 256 -> (forall c, 0 <= c < 128 -> upcase (view s) table c < 128) ->
  untouched path (spelled names) -> spells (view s) path names ->
  path_on_disk (upcase (view s) table) [root] names cs ->
  exists s', read_file_exfat 512 drive buf dap record table fat_buffer path dest s
      = Ok (Z.of_nat (length cs) * B, s') /\ outside s s' /\
    (forall j o, 0 <= j < Z.of_nat (length cs) -> 0 <= o < B ->
       view s' (dest + j * B + o) = cluster_byte sector H k (nth (Z.to_nat j) cs 0) o) /\
    forall a, win a -> ~ scratch 512 buf dap a -> a < fat_buffer \/ fat_buffer + B <= a ->
      a < dest \/ dest + m * B <= a -> view s' a = view s a.
Proof.
  intros Hv Hr Hroot Hm1 Htab Hupc Hun Hsp Hpath.
  destruct (read_file_runs s root names cs Hv Hr Hroot Hm1 Htab Hupc Hun Hsp Hpath)
    as (s' & E & O & Hm & Hcon & Hrest).
  exists s'. split; [done|]. split; [done|]. split; [|done]. intros i o Hi Ho.
  destruct (cluster_bytes_range k Hk) as [Hp HB].
  destruct (slot_range i (Z.of_nat (length cs)) B ltac:(lia) ltac:(lia)) as [G0 G1].
  rewrite <- Z.add_assoc, Hcon by lia. unfold file_byte.
  rewrite Z.div_add_l, Z.div_small by lia. rewrite Z.add_0_r. f_equal.
  rewrite (Z.add_comm (i * B)), Z.mod_add, Z.mod_small by lia. done.
Qed.
End Path.
