(* ===== verification/ExfatInit.v ===== *)
(** * Mounting the volume

    What init_exfat leaves in memory: the boot record and the up-case table. *)

From S2P Require Export ExfatPath.

#[local] Open Scope Z_scope.

(** The first number of a range with a property. *)
Lemma head_filter_none (P : Z -> Prop) `{!forall i, Decision (P i)} l :
  (forall i, i ∈ l -> ~ P i) -> head (filter P l) = None.
Proof.
  induction l as [|x l IH]; intros Hl; [done|]. rewrite filter_cons_False by (apply Hl; by left).
  apply IH. intros i Hi. apply Hl. by right.
Qed.

Lemma head_filter_first (P : Z -> Prop) `{!forall i, Decision (P i)} n j :
  0 <= j < n -> P j -> (forall i, 0 <= i < j -> ~ P i) -> head (filter P (seqZ 0 n)) = Some j.
Proof.
  intros Hj HP Hn. replace n with (j + (n - j)) by lia. rewrite seqZ_app, filter_app by lia.
  assert (filter P (seqZ 0 j) = []) as ->.
  { destruct (filter P (seqZ 0 j)) as [|x l] eqn:E; [done|].
    assert (x ∈ filter P (seqZ 0 j)) as Hx by (rewrite E; by left).
    apply list_elem_of_filter in Hx as [Hx Hin]. apply elem_of_seqZ in Hin. by destruct (Hn x). }
  rewrite seqZ_cons by lia. rewrite Z.add_0_l, filter_cons_True by done. done.
Qed.

Section Init.
Context {S : Type} {HS : Store S} {win : Z -> Prop} {HW : Window S win} {HF : Firmware S}.
Context (drive sectors : Z) (sector : Z -> Z -> Z).
Context {HD : Disk S win drive 512 sectors sector}.
Context (buf dap record table load_buffer : Z).
Context (Hlo : locals_ok (win := win) 512 drive buf dap).
Implicit Types (s t : S).

(** A range apart from the scratch memory of the reads. *)
Definition clear_of_reads (a n : Z) : Prop :=
  in_win win a n /\ forall x, a <= x < a + n -> ~ scratch 512 buf dap x.

(** The boot record, the table and the buffer are apart. *)
Record init_places : Prop := {
  ip_record : clear_of_reads record 512;
  ip_table : clear_of_reads table 256;
  ip_buffer : clear_of_reads load_buffer 512;
  ip_rt : record + 512 <= table \/ table + 256 <= record;
  ip_rb : record + 512 <= load_buffer \/ load_buffer + 512 <= record;
  ip_tb : table + 256 <= load_buffer \/ load_buffer + 512 <= table }.
Context (Hip : init_places).

(** What the boot record on the disk says. *)
Definition boot_heap : Z := vld32 (sector 256) 88.
Definition boot_fat : Z := vld32 (sector 256) 80.
Definition boot_shift : Z := sector 256 109.
Definition boot_root : Z := vld32 (sector 256) 96.
Definition lba_of (c : Z) : Z := (256 + boot_heap + (c - 2) * 2 ^ boot_shift) mod 2 ^ 23.

(** The first up-case entry of the root directory's first sector. *)
Definition upcase_entry : option Z :=
  head (filter (fun i => sector (lba_of boot_root) (32 * i) = 130) (seqZ 0 16)).
Definition upcase_lba (i : Z) : Z := lba_of (vld32 (sector (lba_of boot_root)) (32 * i + 20)).

(** The table: the first 64 characters as on the disk when there is an entry, every
    other character is its own upper case. *)
Definition mounted_upcase (c : Z) : Z :=
  match upcase_entry with
  | Some i => if c <? 64 then vld 2 (sector (upcase_lba i)) (2 * c) else c
  | None => c
  end.

Definition buffer_holds t (lba : Z) : Prop :=
  forall o, 0 <= o < 512 -> view t (load_buffer + o) = sector lba o.

(** A sector into the buffer. *)
Lemma read_buffer s lba :
  0 <= lba < sectors -> lba < 2 ^ 23 ->
  exists t, bios_ext_read 512 drive buf dap load_buffer lba 1 s = Ok t /\ outside s t /\
    buffer_holds t lba /\
    forall a, win a -> ~ scratch 512 buf dap a -> a < load_buffer \/ load_buffer + 512 <= a ->
      view t a = view s a.
Proof.
  intros H0 H1. destruct (ip_buffer Hip) as [Hw Hc]. pose proof Hw as (_ & _ & Hbw).
  destruct (ext_read_runs 512 drive sectors sector buf dap Hlo s load_buffer lba 1) as (t & E & O & V);
    try done; try lia.
  exists t. split; [done|]. split; [done|]. split.
  - intros o Ho. rewrite V by (apply Hbw || apply Hc; lia). rewrite decide_True by lia. unfold sectors_at.
    replace (load_buffer + o - load_buffer) with o by lia. rewrite Z.div_small, Z.mod_small by lia. f_equal. lia.
  - intros a Ha Hns Hao. rewrite V by done. by rewrite decide_False by lia.
Qed.

(** From the buffer to a place apart from it. *)
Lemma copy_buffer s dst n lba :
  buffer_holds s lba -> 0 <= n <= 512 -> in_win win dst n ->
  dst + n <= load_buffer \/ load_buffer + 512 <= dst ->
  exists t, memcpy s dst load_buffer n = Ok (t, dst) /\ outside s t /\
    forall a, win a -> view t a = if decide (dst <= a < dst + n) then sector lba (a - dst) else view s a.
Proof.
  intros Hb Hn Hw Hap. destruct (ip_buffer Hip) as [(Hb0 & Hb1 & Hbw) _].
  destruct (memcpy_spec s dst load_buffer n) as (t & E & O & V); [lia|done| |].
  { split; [lia|]. split; [lia|]. intros b Hin. apply Hbw. lia. }
  exists t. split; [done|]. split; [done|]. intros a Ha. rewrite V by done.
  destruct (decide (dst <= a < dst + n)); [|done]. rewrite decide_False by lia. apply Hb. lia.
Qed.

(** The table with its default entries. *)
Lemma default_table s :
  exists t, for_loop 0 128 (fun i s => st16 s (u32 (table + 2 * i)) i) s = Ok t /\ outside s t /\
    (forall c, 0 <= c < 128 -> upcase (view t) table c = c) /\
    forall a, win a -> a < table \/ table + 256 <= a -> view t a = view s a.
Proof.
  destruct (ip_table Hip) as [(Ht0 & Ht1 & Htw) _].
  destruct (for_loop_total (fun i t => outside s t /\
    (forall c, 0 <= c < i -> upcase (view t) table c = c) /\
    forall a, win a -> a < table \/ table + 256 <= a -> view t a = view s a) 0 128
    (fun i s => st16 s (u32 (table + 2 * i)) i) s) as (t & E & Ht); [lia|lia| | |by exists t].
  - split; [reflexivity|]. split; [lia|done].
  - intros i t Hi (O & Hc & V). rewrite u32_small by lia.
    destruct (stn_win 2 t (table + 2 * i) i) as (t' & E & O' & V').
    { split; [lia|]. split; [lia|]. intros b Hb. apply Htw. lia. }
    exists t'. split; [done|]. split; [by etrans|]. split.
    + intros c Hcr. unfold upcase.
      rewrite (vld_ext 2 _ (vst 2 (view t) (table + 2 * i) i)) by (intros b Hb; apply V', Htw; lia).
      destruct (decide (c = i)) as [->|Hne].
      * rewrite vld_vst_same. apply Z.mod_small. change (8 * Z.of_nat 2) with 16. lia.
      * rewrite vld_vst_other by lia. apply Hc. lia.
    + intros a Ha Hao. rewrite V' by done. rewrite vst_out by lia. by apply V.
Qed.

(** The search in the root directory. *)
Lemma load_upcase_ok s :
  volume record s boot_heap boot_fat boot_shift -> buffer_holds s (lba_of boot_root) ->
  (forall i, upcase_entry = Some i -> upcase_lba i < sectors) ->
  (forall c, 0 <= c < 128 -> upcase (view s) table c = c) ->
  exists t, load_upcase 512 drive buf dap record table load_buffer s = Ok t /\ outside s t /\
    (forall c, 0 <= c < 128 -> upcase (view t) table c = mounted_upcase c) /\
    forall a, win a -> ~ scratch 512 buf dap a -> a < load_buffer \/ load_buffer + 512 <= a ->
      a < table \/ table + 256 <= a -> view t a = view s a.
Proof.
  intros Hv Hb Hs Hdef. destruct (ip_buffer Hip) as [(Hb0 & Hb1 & Hbw) _].
  destruct (ip_table Hip) as [(Ht0 & Ht1 & Htw) Htc]. pose proof (ip_tb Hip) as Htb.
  set (P := fun i => sector (lba_of boot_root) (32 * i) = 130).
  apply (loop_total _ (fun '(i, t) => t = s /\ exists j, i = 32 * j /\ 0 <= j <= 16 /\
    forall x, 0 <= x < j -> ~ P x) (fun '(i, _) => 512 - i)).
  - split; [done|]. exists 0. split; [done|]. split; [lia|]. lia.
  - rewrite budget_eq. lia.
  - intros [i t] (-> & j & -> & Hj & Hno). split; [lia|]. destruct (Z.ltb_spec (32 * j) 512) as [Hlt|Hge].
    + rewrite u32_small by lia.
      rewrite (bind_ok _ _ _ (rd8_win s (load_buffer + 32 * j) ltac:(apply Hbw; lia))). cbv beta.
      rewrite (Hb (32 * j)) by lia. destruct (Z.eqb_spec (sector (lba_of boot_root) (32 * j)) 130) as [He|Hne].
      * assert (upcase_entry = Some j) as Hu by (apply (head_filter_first P); [lia|done|done]).
        unfold field. change (bit_offset "first_cluster" exfat_upcase_dir_entry / 8) with 20.
        rewrite u32_small by lia.
        rewrite (bind_ok _ _ _ (ldn_win 4 s (load_buffer + 32 * j + 20)
          ltac:(split; [lia|]; split; [lia|]; intros b Hin; apply Hbw; lia))). cbv beta.
        assert (vld32 (view s) (load_buffer + 32 * j + 20) = vld32 (sector (lba_of boot_root)) (32 * j + 20)) as ->
          by (rewrite <- Z.add_assoc; apply vld_at; intros x Hx; apply Hb; lia).
        rewrite (bind_ok _ _ _ (heap_lba_mod record _ _ _ s _ Hv)). cbv beta.
        fold (lba_of (vld32 (sector (lba_of boot_root)) (32 * j + 20))). fold (upcase_lba j).
        assert (0 <= upcase_lba j < 2 ^ 23) as Hr by (apply Z.mod_pos_bound; lia).
        destruct (read_buffer s (upcase_lba j)) as (t & E & O & Bt & Vt); [split; [lia|by apply Hs]|lia|].
        rewrite (bind_ok _ _ _ E). cbv beta.
        destruct (copy_buffer t table 128 (upcase_lba j) Bt) as (t' & E' & O' & V'); [lia| |lia|].
        { split; [lia|]. split; [lia|]. intros b Hin. apply Htw. lia. }
        rewrite (bind_ok _ _ _ E'). cbv beta iota. eexists. split; [reflexivity|].
        split; [by etrans|]. split.
        -- intros c Hc. unfold mounted_upcase. rewrite Hu. unfold upcase.
           destruct (Z.ltb_spec c 64) as [Hlo64|Hhi].
           ++ apply vld_at. intros x Hx. rewrite V', decide_True by (apply Htw || lia; lia). f_equal. lia.
           ++ rewrite <- (Hdef c Hc) at 2. apply vld_ext. intros b Hin. rewrite V' by (apply Htw; lia).
              rewrite decide_False by lia. apply Vt; [apply Htw; lia|apply Htc; lia|lia].
        -- intros a Ha Hns Hao Hat. rewrite V' by done. rewrite decide_False by lia. by apply Vt.
      * eexists. split; [reflexivity|]. split; [|lia]. split; [done|]. exists (j + 1).
        split; [lia|]. split; [lia|]. intros x Hx. destruct (decide (x = j)) as [->|]; [done|]. apply Hno. lia.
    + exists (inr s). split; [done|]. split; [done|]. split; [|done]. intros c Hc. unfold mounted_upcase.
      assert (upcase_entry = None) as ->; [|by apply Hdef]. apply (head_filter_none P).
      intros x Hx. apply elem_of_seqZ in Hx. apply Hno. lia.
Qed.

(** What the parts make together. *)
Lemma init_exfat_ok s :
  256 < sectors -> 0 <= boot_shift <= 20 -> lba_of boot_root < sectors ->
  (forall i, upcase_entry = Some i -> upcase_lba i < sectors) ->
  exists s', init_exfat 512 drive buf dap record table load_buffer s = Ok s' /\ outside s s' /\
    (forall o, 0 <= o < 512 -> view s' (record + o) = sector 256 o) /\
    volume record s' boot_heap boot_fat boot_shift /\ vld32 (view s') (record + 96) = boot_root /\
    (forall c, 0 <= c < 128 -> upcase (view s') table c = mounted_upcase c) /\
    forall a, win a -> ~ scratch 512 buf dap a -> a < load_buffer \/ load_buffer + 512 <= a ->
      a < table \/ table + 256 <= a -> a < record \/ record + 512 <= a -> view s' a = view s a.
Proof.
  intros Hs Hsh Hroot Hup. destruct (ip_record Hip) as [Hrw Hrc]. pose proof Hrw as (Hr0 & Hr1 & Hrww).
  destruct (ip_table Hip) as [(Ht0 & Ht1 & Htw) Htc].
  pose proof (ip_rt Hip) as Hrt. pose proof (ip_rb Hip) as Hrb. pose proof (ip_tb Hip) as Htb.
  unfold init_exfat. change (div32 (256 * 512) 512) with (Ok 256). bnd.
  destruct (read_buffer s 256) as (s1 & E1 & O1 & B1 & V1); [lia|lia|]. rewrite (bind_ok _ _ _ E1). cbv beta.
  change (sizeof exfat_boot_record_layout) with 512.
  destruct (copy_buffer s1 record 512 256 B1) as (s2 & E2 & O2 & V2); [lia|done|lia|].
  rewrite (bind_ok _ _ _ E2). cbv beta iota.
  destruct (default_table s2) as (s3 & E3 & O3 & C3 & V3). rewrite (bind_ok _ _ _ E3). cbv beta.
  assert (forall o, 0 <= o < 512 -> view s3 (record + o) = sector 256 o) as R3.
  { intros o Ho. rewrite V3, V2 by (apply Hrww || lia; lia). rewrite decide_True by lia. f_equal. lia. }
  assert (forall o, 0 <= o -> o + 4 <= 512 -> vld32 (view s3) (record + o) = vld32 (sector 256) o) as W3.
  { intros o H0 H1. apply vld_at. intros x Hx. apply R3. lia. }
  assert (volume record s3 boot_heap boot_fat boot_shift) as Hv3
    by (split; [done|apply W3; lia|apply W3; lia|apply R3; lia|done]).
  rewrite (bind_ok _ _ _ (record32_ok record _ _ _ s3 "root_first_cluster"%string 96 Hv3 eq_refl ltac:(lia) ltac:(lia))).
  cbv beta. rewrite W3 by lia. fold boot_root.
  rewrite (bind_ok _ _ _ (heap_lba_mod record _ _ _ s3 boot_root Hv3)). cbv beta. fold (lba_of boot_root).
  assert (0 <= lba_of boot_root < 2 ^ 23) as Hr by (apply Z.mod_pos_bound; lia).
  destruct (read_buffer s3 (lba_of boot_root)) as (s4 & E4 & O4 & B4 & V4); [lia|lia|].
  rewrite (bind_ok _ _ _ E4). cbv beta.
  assert (forall a, record <= a < record + 512 -> view s4 a = view s3 a) as R4
    by (intros a Ha; apply V4; [by apply Hrww|by apply Hrc|lia]).
  assert (volume record s4 boot_heap boot_fat boot_shift) as Hv4 by (by apply (volume_ext record s3)).
  destruct (load_upcase_ok s4 Hv4 B4 Hup) as (s5 & E5 & O5 & C5 & V5).
  { intros c Hc. rewrite <- (C3 c Hc) at 2. apply vld_ext. intros b Hin.
    apply V4; [apply Htw; lia|apply Htc; lia|lia]. }
  assert (forall a, record <= a < record + 512 -> view s5 a = view s3 a) as R5.
  { intros a Ha. rewrite V5; [by apply R4|by apply Hrww|by apply Hrc|lia|lia]. }
  exists s5. split; [exact E5|]. split; [etrans; [exact O1|]; etrans; [exact O2|]; etrans; [exact O3|]; by etrans|].
  split; [|split; [|split; [|split]]].
  - intros o Ho. rewrite R5 by lia. by apply R3.
  - by apply (volume_ext record s3).
  - rewrite (vld_ext 4 _ (view s3)) by (intros b Hin; apply R5; lia). apply W3; lia.
  - exact C5.
  - intros a Ha Hns Hab Hat Har. rewrite V5, V4, V3, V2 by done. rewrite decide_False by lia. by apply V1.
Qed.

(** C10. init_exfat mounts the volume: memory holds the boot record of the disk, and
    the up-case table maps every ASCII character to itself, but for the first 64 of
    them when the first sector of the root directory has an up-case entry: those
    come from the table on the disk.  The letters are never among them. *)
Theorem init_exfat_mounts s :
  256 < sectors -> 0 <= boot_shift <= 20 -> lba_of boot_root < sectors ->
  (forall i, upcase_entry = Some i -> upcase_lba i < sectors) ->
  exists s', init_exfat 512 drive buf dap record table load_buffer s = Ok s' /\ outside s s' /\
    (forall o, 0 <= o < 512 -> view s' (record + o) = sector 256 o) /\
    volume record s' boot_heap boot_fat boot_shift /\ vld32 (view s') (record + 96) = boot_root /\
    (forall c, 0 <= c < 128 -> upcase (view s') table c = mounted_upcase c) /\
    (forall c, 64 <= c < 128 -> upcase (view s') table c = c) /\
    forall a, win a -> ~ scratch 512 buf dap a -> a < load_buffer \/ load_buffer + 512 <= a ->
      a < table \/ table + 256 <= a -> a < record \/ record + 512 <= a -> view s' a = view s a.
Proof.
  intros Hs Hsh Hroot Hup. destruct (init_exfat_ok s Hs Hsh Hroot Hup) as (s' & E & O & R & V & Rt & C & F).
  exists s'. split_and!; try done. intros c Hc. rewrite C by lia. unfold mounted_upcase.
  case_match; [|done]. by zbool.
Qed.
End Init.
