(* ===== verification/Vbe.v ===== *)
(** * boot/x86/vesa/vbe.c: the video mode

    The controller and mode information blocks are packed structures that the
    BIOS fills.  The addresses of the variable [vbe_cib] and of the local
    variables are parameters.  [Vbe] is what the code relies on of the firmware:
    the three VBE services that it calls. *)

From S2P Require Export BiosProps.

#[local] Open Scope Z_scope.

Definition vbe_cib_layout : layout :=
  [mbytes "vbe_signature" 4; m16 "version"; m32 "oem_string_ptr"; mbytes "capabilities" 4;
   m32 "video_mode_ptr"; m16 "total_memory"; mbytes "reserved" 492].

Definition vbe_mib : layout :=
  [m16 "mode_attributes"; m8 "windowa_attributes"; m8 "windowb_attributes"; m16 "window_granularity";
   m16 "window_size"; m16 "windowa_segment"; m16 "windowb_segment"; m32 "window_function_ptr";
   m16 "bytes_per_line"; m16 "xresolution"; m16 "yresolution"; m8 "xchar_size"; m8 "ychar_size";
   m8 "number_of_planes"; m8 "bits_per_pixel"; m8 "number_of_banks"; m8 "memory_model"; m8 "bank_size";
   m8 "number_of_image_pages"; m8 "reserved"; m8 "red_mask_size"; m8 "red_field_position";
   m8 "green_mask_size"; m8 "green_field_position"; m8 "blue_mask_size"; m8 "blue_field_position";
   m8 "rsvd_mask_size"; m8 "rsvd_field_position"; m8 "direct_color_mode_info"; m32 "phys_base_ptr";
   m32 "reserved2"; m16 "reserved3"; m16 "lin_bytes_per_scan_line"; m8 "bnk_number_of_image_pages";
   m8 "lin_number_of_image_pages"; m8 "lin_red_mask_size"; m8 "lin_red_field_position";
   m8 "lin_green_mask_size"; m8 "lin_green_field_position"; m8 "lin_blue_mask_size";
   m8 "lin_blue_field_position"; m8 "lin_rsvd_mask_size"; m8 "lin_rsvd_field_position";
   m32 "max_pixel_clock"; mbytes "reserved4" 189].

Section InitVbe.
Context {S : Type} {HS : Store S} {HF : Firmware S}.
Context (vbe_cib crtc video_mode_info : Z).

(** [= {0}] of a local variable of [n] bytes. *)
Definition zeros (a n : Z) (s : S) : res S := for_loop 0 n (fun i s => wr8 s (u32 (a + i)) 0) s.

(** [vbe_cib.video_mode_ptr[i]] *)
Definition video_mode (i : Z) (s : S) : res Z :=
  p ← ld32 s (field vbe_cib vbe_cib_layout "video_mode_ptr");
  ld16 s (u32 (p + 2 * i)).

(** Check if video mode info is compatible *)
Definition compatible (s : S) : res bool :=
  (* First check for linear frame buffer *)
  attributes ← ld16 s (field video_mode_info vbe_mib "mode_attributes");
  if Z.land (Z.shiftr attributes 7) 1 =? 0 then mret false
  else
    (* Check for width *)
    x ← ld16 s (field video_mode_info vbe_mib "xresolution");
    if x =? 1280 then
      (* Check for pixel depth *)
      bpp ← rd8 s (field video_mode_info vbe_mib "bits_per_pixel");
      mret (bpp =? 24)
    else mret false.

(** Iterate through the list of modes: one iteration.  The registers that an
    iteration leaves behind are set again by the next one. *)
Definition mode_body : Z * bios_registers * S -> res (Z * bios_registers * S + S) :=
  fun '(i, registers, s) =>
    mode ← video_mode i s;
    if mode =? 65535 then mret (inr s)
    else
      (* Get the video mode info *)
      s ← zeros video_mode_info (sizeof vbe_mib) s;
      mode ← video_mode i s;
      let registers := Regs 20225 (ebx registers) mode (edx registers) (esi registers) video_mode_info in
      s ← _bios_int registers 16 0 s;
      b ← compatible s;
      if (b : bool) then
        (* Switch to the video mode *)
        mode ← video_mode i s;
        let registers := Regs 20226 mode (ecx registers) (edx registers) (esi registers) crtc in
        s ← _bios_int registers 16 0 s;
        mret (inr s)
      else
        i ← to_int (i + 1);
        mret (inl (i, registers, s)).

(** Initialize vbe *)
Definition init_vbe (s : S) : res S :=
  let signature := field vbe_cib vbe_cib_layout "vbe_signature" in
  s ← wr8 s signature 86;
  s ← wr8 s (u32 (signature + 1)) 66;
  s ← wr8 s (u32 (signature + 2)) 69;
  s ← wr8 s (u32 (signature + 3)) 50;
  s ← st16 s (field vbe_cib vbe_cib_layout "version") 768;
  (* Trash buffer to use for CRTC block *)
  s ← zeros crtc 64 s;
  let registers := Regs 20224 0 0 0 0 vbe_cib in
  (* Get the controller information *)
  s ← _bios_int registers 16 0 s;
  loop mode_body (0, registers, s).
End InitVbe.

(** ** The services of the firmware

    The block on the controller has the pointer to the list of modes at byte 14; a
    mode that is not supported leaves its block as it was.  The block on a mode
    has at most 256 bytes. *)
Class Vbe (S : Type) (win : Z -> Prop) `{HW : Window S win} `{HF : Firmware S}
    (controller : Z -> Z) (mode_block : Z -> option (Z -> Z)) := {
  mode_set : S -> option Z;
  mode_set_outside s s' : outside s s' -> mode_set s' = mode_set s;
  controller_byte o : 0 <= controller o < 256;
  mode_byte m b o : mode_block m = Some b -> 0 <= b o < 256;
  vbe_controller regs s :
    u16 (eax regs) = 20224 -> let block := u16 (edi regs) in in_win win block 512 ->
    vld 4 (view s) block = 843399766 (* VBE2 *) ->
    exists regs' s', interrupt 16 regs s = Ok (regs', s') /\ outside s s' /\
      forall a, win a -> view s' a =
        if decide (block <= a < block + 512) then controller (a - block) else view s a;
  vbe_mode regs s :
    u16 (eax regs) = 20225 -> let block := u16 (edi regs) in in_win win block 256 ->
    exists regs' s', interrupt 16 regs s = Ok (regs', s') /\ outside s s' /\
      forall a, win a -> view s' a =
        match mode_block (u16 (ecx regs)) with
        | Some b => if decide (block <= a < block + 256) then b (a - block) else view s a
        | None => view s a
        end;
  vbe_set regs s :
    u16 (eax regs) = 20226 ->
    exists regs' s', interrupt 16 regs s = Ok (regs', s') /\ mode_set s' = Some (u16 (ebx regs)) /\
      forall a, win a -> view s' a = view s a;
}.
