(* ===== verification/VbeProps.v ===== *)
(** * Which video mode [init_vbe] sets *)

From S2P Require Export Vbe.

#[local] Open Scope Z_scope.

Lemma bit_7 v : (Z.land (Z.shiftr v 7) 1 =? 0) = negb (Z.testbit v 7).
Proof.
  rewrite land_1, <- Z.bit0_mod, Z.shiftr_spec by lia. rewrite Z.add_0_l. by destruct (Z.testbit v 7).
Qed.

Lemma filter_none {A} (f : A -> bool) l : Forall (fun x => f x = false) l -> filter f l = [].
Proof.
  induction 1 as [|x l Hx _ IH]; [done|]. by rewrite filter_cons_False by (rewrite Hx; auto).
Qed.

Section InitVbe.
Context {S : Type} {HS : Store S} {win : Z -> Prop} {HW : Window S win} {HF : Firmware S}.
Context (controller : Z -> Z) (mode_block : Z -> option (Z -> Z)).
Context {HV : Vbe S win controller mode_block}.
Context (cib crtc info : Z).
Implicit Types (s : S).

(** Where the variables are. *)
Record vbe_places : Prop := {
  vp_cib : in_win win cib 512; vp_crtc : in_win win crtc 64; vp_info : in_win win info 256;
  vp_cib16 : cib + 512 <= 65536; vp_info16 : info + 256 <= 65536;
  vp_cib_crtc : cib + 512 <= crtc \/ crtc + 64 <= cib;
  vp_cib_info : cib + 512 <= info \/ info + 256 <= cib }.
Context (Hp : vbe_places).

(** The mode that the code looks for: a linear frame buffer, 1280 pixels in a
    line, 24 bits per pixel. *)
Definition suits (m : Z) : bool :=
  match mode_block m with
  | Some b => Z.testbit (vld 2 b 0) 7 && (vld 2 b 18 =? 1280) && (b 25 =? 24)
  | None => false
  end.

(** Memory with the block on the controller, and a list of modes in it. *)
Definition with_controller s (a : Z) : Z :=
  if decide (cib <= a < cib + 512) then controller (a - cib) else view s a.

Record mode_list (v : Z -> Z) (p : Z) (l : list Z) : Prop := {
  ml_modes : Forall (fun m => 0 <= m < 65535) l;
  ml_mode i m : l !! i = Some m -> vld 2 v (p + 2 * Z.of_nat i) = m;
  ml_end : vld 2 v (p + 2 * Z.of_nat (length l)) = 65535;
  ml_win : in_win win p (2 * Z.of_nat (length l) + 2);
  ml_crtc : p + (2 * Z.of_nat (length l) + 2) <= crtc \/ crtc + 64 <= p;
  ml_info : p + (2 * Z.of_nat (length l) + 2) <= info \/ info + 256 <= p }.

Lemma zeros_ok a n s :
  in_win win a n -> 0 <= n ->
  exists s', zeros a n s = Ok s' /\ outside s s' /\
    forall b, win b -> view s' b = if decide (a <= b < a + n) then 0 else view s b.
Proof.
  intros (H0 & H1 & Hw) Hn. unfold zeros.
  destruct (for_loop_total (fun i t => outside s t /\ forall b, win b ->
    view t b = if decide (a <= b < a + i) then 0 else view s b) 0 n
    (fun i s => wr8 s (u32 (a + i)) 0) s) as (s' & E & O & V); [lia|lia| | |by exists s'].
  - split; [reflexivity|]. intros b _. by rewrite decide_False by lia.
  - intros i t Hi [Ot Vt]. rewrite u32_small by lia. assert (win (a + i)) as Hai by (apply Hw; lia).
    exists (poke t (a + i) 0). split; [by apply wr8_win|].
    split; [etrans; [done|by apply outside_poke]|]. intros b Hb. rewrite view_poke, Vt by done.
    repeat case_decide; (lia || done).
Qed.

(** The fields that are read, at their offsets. *)
Lemma compatible_ok t (g : Z -> Z) :
  (forall o, 0 <= o < 255 -> view t (info + o) = g o) ->
  compatible info t = Ok (Z.testbit (vld 2 g 0) 7 && (vld 2 g 18 =? 1280) && (g 25 =? 24)).
Proof.
  intros Hg. destruct (vp_info Hp) as (H0 & H1 & Hw). pose proof (vp_info16 Hp). unfold compatible, field.
  change (bit_offset "mode_attributes" vbe_mib / 8) with 0.
  change (bit_offset "xresolution" vbe_mib / 8) with 18.
  change (bit_offset "bits_per_pixel" vbe_mib / 8) with 25. rewrite !u32_small by lia.
  assert (forall o, 0 <= o <= 253 -> ldn 2 t (info + o) = Ok (vld 2 g o)) as Hl.
  { intros o Ho. rewrite ldn_win; [|apply (in_win_sub win info 256); [by split|lia|lia]]. f_equal.
    apply vld_at. intros x Hx. apply Hg. lia. }
  rewrite (bind_ok _ _ _ (Hl 0 ltac:(lia))). cbv beta. rewrite bit_7.
  destruct (Z.testbit (vld 2 g 0) 7); cbn [negb andb]; [|done].
  rewrite (bind_ok _ _ _ (Hl 18 ltac:(lia))). cbv beta. destruct (vld 2 g 18 =? 1280); cbn [andb]; [|done].
  rewrite (bind_ok _ _ _ (rd8_win t (info + 25) (Hw (info + 25) ltac:(lia)))). by rewrite Hg by lia.
Qed.

(** ** The loop *)

Context (s0 : S) (l : list Z).
Context (Hl : mode_list (with_controller s0) (vld 4 controller 14) l).

#[local] Abbreviation p := (vld 4 controller 14).

(** Memory between two modes. *)
Definition between (t : S) : Prop :=
  mode_set t = mode_set s0 /\
  forall a, win a -> a < info \/ info + 256 <= a -> a < crtc \/ crtc + 64 <= a -> view t a = with_controller s0 a.

Lemma video_mode_ok t i :
  between t -> (i <= length l)%nat ->
  video_mode cib (Z.of_nat i) t = Ok (default 65535 (l !! i)).
Proof.
  intros [_ Hv] Hi. destruct (vp_cib Hp) as (H0 & H1 & Hw).
  pose proof (ml_win _ _ _ Hl) as (Hp0 & Hp1 & Hpw). unfold video_mode, field.
  change (bit_offset "video_mode_ptr" vbe_cib_layout / 8) with 14. rewrite u32_small by lia.
  assert (vld 4 (view t) (cib + 14) = p) as Ep.
  { pose proof (vp_cib_crtc Hp). pose proof (vp_cib_info Hp).
    apply vld_at. intros x Hx. rewrite Hv; [|apply Hw; lia|lia|lia]. unfold with_controller.
    rewrite decide_True by lia. f_equal. lia. }
  assert (in_win win (cib + 14) (Z.of_nat 4)) as Hw4 by (apply (in_win_sub win cib 512); [by split|lia|lia]).
  rewrite (bind_ok _ _ _ (ldn_win 4 t _ Hw4)). cbv beta. rewrite Ep, u32_small by lia.
  rewrite ldn_win by (apply (in_win_sub win p (2 * Z.of_nat (length l) + 2)); [by split|lia|lia]). f_equal.
  transitivity (vld 2 (with_controller s0) (p + 2 * Z.of_nat i)).
  - pose proof (ml_crtc _ _ _ Hl). pose proof (ml_info _ _ _ Hl).
    apply vld_ext. intros b Hb. apply Hv; [apply Hpw; lia|lia|lia].
  - destruct (l !! i) as [m|] eqn:E; cbn [from_option id default].
    + by apply (ml_mode _ _ _ Hl).
    + apply lookup_ge_None in E. replace i with (length l) by lia. exact (ml_end _ _ _ Hl).
Qed.

(** The block on mode [m], read into memory that was cleared. *)
Lemma mode_info_ok t regs m :
  between t -> 0 <= m < 65535 -> u16 (eax regs) = 20225 -> ecx regs = m -> edi regs = info ->
  exists t1 t2, zeros info (sizeof vbe_mib) t = Ok t1 /\ between t1 /\
    _bios_int regs 16 0 t1 = Ok t2 /\ between t2 /\ compatible info t2 = Ok (suits m).
Proof.
  intros [Hm Hv] Hmr Ha Hc Hd. pose proof (vp_info Hp) as (H0 & H1 & Hw). pose proof (vp_info16 Hp).
  destruct (zeros_ok info (sizeof vbe_mib) t) as (t1 & E1 & O1 & V1).
  { split; [lia|]. change (sizeof vbe_mib) with 255. split; [lia|]. intros b Hb. apply Hw. lia. }
  { done. }
  change (sizeof vbe_mib) with 255 in V1.
  assert (between t1) as B1.
  { split; [by rewrite (mode_set_outside _ _ O1)|]. intros a Haw Hai Hac. rewrite V1 by done.
    rewrite decide_False by lia. by apply Hv. }
  assert (u16 info = info) as Hu by (apply Z.mod_small; lia).
  destruct (vbe_mode regs t1 Ha) as (r & t2 & E2 & O2 & V2); [rewrite Hd, Hu; by split|].
  rewrite Hc, Hd, Hu in V2. replace (u16 m) with m in V2 by (symmetry; apply Z.mod_small; lia).
  exists t1, t2. split; [done|]. split; [done|].
  split; [unfold _bios_int; change (u8 16) with 16; by rewrite (bind_ok _ _ _ E2)|]. split.
  - split; [by rewrite (mode_set_outside _ _ O2); apply B1|]. intros a Haw Hai Hac. rewrite V2 by done.
    destruct (mode_block m); [rewrite decide_False by lia|]; by apply B1.
  - unfold suits. destruct (mode_block m) as [b|] eqn:Eb.
    + apply compatible_ok. intros o Ho. rewrite V2 by (apply Hw; lia). rewrite decide_True by lia.
      f_equal. lia.
    + rewrite (compatible_ok t2 (fun _ => 0)); [by vm_compute|]. intros o Ho.
      rewrite V2, V1 by (apply Hw; lia). by rewrite decide_True by lia.
Qed.

(** Setting a mode. *)
Lemma mode_set_ok t regs :
  u16 (eax regs) = 20226 -> exists t', _bios_int regs 16 0 t = Ok t' /\
    mode_set t' = Some (u16 (ebx regs)) /\ forall a, win a -> view t' a = view t a.
Proof.
  intros Ha. destruct (vbe_set regs t Ha) as (r & t' & E & HM & V). exists t'. split; [|done].
  unfold _bios_int. change (u8 16) with 16. by rewrite (bind_ok _ _ _ E).
Qed.

(** What the loop leaves. *)
Definition selected (t : S) : Prop :=
  mode_set t = match head (filter suits l) with Some m => Some m | None => mode_set s0 end /\
  forall a, win a -> a < info \/ info + 256 <= a -> a < crtc \/ crtc + 64 <= a -> view t a = with_controller s0 a.

Lemma modes_run t regs :
  between t -> exists t', loop (mode_body cib crtc info) (0, regs, t) = Ok t' /\ selected t'.
Proof.
  intros Ht. pose proof (ml_win _ _ _ Hl) as (Hp0 & Hp1 & _).
  apply (loop_total _ (fun '(i, _, t) => exists k, i = Z.of_nat k /\ (k <= length l)%nat /\ between t /\
    Forall (fun m => suits m = false) (take k l)) (fun '(i, _, _) => Z.of_nat (length l) - i)).
  - exists O. rewrite take_0. by split_and!; try lia.
  - rewrite budget_eq. lia.
  - intros [[i rg] u] (k & -> & Hk & Hu & Hf). split; [lia|]. unfold mode_body.
    rewrite (bind_ok _ _ _ (video_mode_ok u k Hu Hk)). cbv beta.
    destruct (l !! k) as [m|] eqn:E; cbn [from_option id default].
    + pose proof (Forall_lookup_1 _ _ _ _ (ml_modes _ _ _ Hl) E) as Hm. cbv beta in Hm.
      replace (m =? 65535) with false by lia.
      pose proof (lookup_lt_Some _ _ _ E) as Hlt.
      destruct (mode_info_ok u (Regs 20225 (ebx rg) m (edx rg) (esi rg) info) m Hu Hm eq_refl eq_refl eq_refl)
        as (t1 & t2 & E1 & B1 & E2 & B2 & E3).
      rewrite (bind_ok _ _ _ E1). cbv beta. rewrite (bind_ok _ _ _ (video_mode_ok t1 k B1 Hk)). cbv beta zeta.
      rewrite E. cbn [from_option id default]. rewrite (bind_ok _ _ _ E2). cbv beta.
      rewrite (bind_ok _ _ _ E3). cbv beta. pose proof (take_drop_middle l k m E) as Hsplit.
      assert (filter suits l = filter suits (m :: drop (Datatypes.S k) l)) as Hfl.
      { rewrite <- Hsplit at 1. rewrite filter_app.
        by rewrite filter_none. }
      destruct (suits m) eqn:Es.
      * rewrite (bind_ok _ _ _ (video_mode_ok t2 k B2 Hk)). cbv beta zeta. rewrite E.
        cbn [from_option id default ecx edx esi].
        destruct (mode_set_ok t2 (Regs 20226 m m (edx rg) (esi rg) crtc) eq_refl) as (t3 & E4 & M4 & V4).
        rewrite (bind_ok _ _ _ E4). cbv beta. exists (inr t3). split; [done|]. split.
        -- rewrite Hfl, filter_cons_True by (by rewrite Es). rewrite M4. cbn [ebx head].
           f_equal. apply Z.mod_small. lia.
        -- intros a Ha Hi Hc. rewrite V4 by done. by apply B2.
      * int_ok. eexists. split; [reflexivity|]. cbv beta iota. split; [|lia].
        exists (Datatypes.S k). split; [lia|]. split; [lia|]. split; [done|].
        rewrite (take_S_r _ _ _ E). by apply Forall_app_2; [|constructor].
    + cbn [Z.eqb Pos.eqb]. exists (inr u). split; [done|]. apply lookup_ge_None in E.
      rewrite take_ge in Hf by lia. destruct Hu as [Hum Huv]. split; [|done].
      by rewrite filter_none.
Qed.
End InitVbe.

(** ** init_vbe *)

Section Selection.
Context {S : Type} {HS : Store S} {win : Z -> Prop} {HW : Window S win} {HF : Firmware S}.
Context (controller : Z -> Z) (mode_block : Z -> option (Z -> Z)).
Context {HV : Vbe S win controller mode_block}.
Context (cib crtc info : Z) (Hp : vbe_places (win := win) cib crtc info).
Implicit Types (s : S).

(** The block is marked as one of the second version. *)
Lemma signature_ok s (k : S -> res S) (Q : S -> Prop) :
  (forall s', vld 4 (view s') cib = 843399766 ->
     (forall a, win a -> a < cib \/ cib + 512 <= a -> view s' a = view s a) ->
     mode_set s' = mode_set s -> exists t, k s' = Ok t /\ Q t) ->
  exists t, (s ← wr8 s cib 86; s ← wr8 s (cib + 1) 66; s ← wr8 s (cib + 2) 69; s ← wr8 s (cib + 3) 50;
             s ← st16 s (cib + 4) 768; k s) = Ok t /\ Q t.
Proof.
  intros Hk. destruct (vp_cib _ _ _ Hp) as (H0 & H1 & Hw).
  apply wr8_at; [apply Hw; lia|intros s1 O1 V1]. apply wr8_at; [apply Hw; lia|intros s2 O2 V2].
  apply wr8_at; [apply Hw; lia|intros s3 O3 V3]. apply wr8_at; [apply Hw; lia|intros s4 O4 V4].
  apply stn_at; [apply (in_win_sub win cib 512); [by split|lia|lia]|intros s5 O5 V5].
  assert (forall a, win a -> view s5 a = vst 2 (vst 1 (vst 1 (vst 1 (vst 1 (view s) cib 86) (cib + 1) 66)
    (cib + 2) 69) (cib + 3) 50) (cib + 4) 768 a) as V.
  { intros a Ha. rewrite V5 by done. apply vst_ext. rewrite V4 by done. apply vst_ext.
    rewrite V3 by done. apply vst_ext. rewrite V2 by done. apply vst_ext. by apply V1. }
  apply Hk.
  - assert (forall j x, 0 <= j < 4 -> x = nth (Z.to_nat j) [86; 66; 69; 50] 0 -> view s5 (cib + j) = x) as B.
    { intros j x Hj ->. rewrite V by (apply Hw; lia). assert (j = 0 \/ j = 1 \/ j = 2 \/ j = 3) as Hc by lia.
      unfold vst. destruct Hc as [-> | [-> | [-> | ->]]]; repeat (rewrite decide_False by lia);
        rewrite decide_True by lia;
        match goal with |- context [8 * ?d] => replace d with 0 by lia end; reflexivity. }
    cbn [vld]. rewrite <- !Z.add_assoc. change (1 + (1 + 1)) with 3. change (1 + 1) with 2.
    rewrite (B 1 66), (B 2 69), (B 3 50) by (lia || done). rewrite <- (Z.add_0_r cib).
    by rewrite (B 0 86) by (lia || done).
  - intros a Ha Hac. rewrite V by done. unfold vst. by repeat (rewrite decide_False by lia).
  - rewrite (mode_set_outside _ _ O5), (mode_set_outside _ _ O4), (mode_set_outside _ _ O3),
      (mode_set_outside _ _ O2). by apply mode_set_outside.
Qed.

(** C21. init_vbe sets the first mode of the controller's list that has a linear
    frame buffer, 1280 pixels in a line and 24 bits per pixel, and no mode when the
    list has none; modes that the BIOS does not know are skipped.  Memory outside
    of its three buffers is left alone.  The list is at the address that the far
    pointer of the block, read as one number, names: it is the controller's list
    when the segment of the pointer is 0. *)
Theorem init_vbe_selects s l :
  mode_list (win := win) crtc info (with_controller controller cib s) (vld 4 controller 14) l ->
  exists s', init_vbe cib crtc info s = Ok s' /\
    mode_set s' = (match head (filter (suits mode_block) l) with Some m => Some m | None => mode_set s end) /\
    forall a, win a -> a < info \/ info + 256 <= a -> a < crtc \/ crtc + 64 <= a -> a < cib \/ cib + 512 <= a ->
      view s' a = view s a.
Proof.
  intros Hl. destruct (vp_cib _ _ _ Hp) as (H0 & H1 & Hw). pose proof (vp_cib16 _ _ _ Hp).
  unfold init_vbe, field. change (bit_offset "vbe_signature" vbe_cib_layout / 8) with 0.
  change (bit_offset "version" vbe_cib_layout / 8) with 4. cbv zeta. rewrite Z.add_0_r, (u32_small cib), (u32_small (cib + 1)), (u32_small (cib + 2)), (u32_small (cib + 3)),
    (u32_small (cib + 4)) by lia.
  apply signature_ok. intros s1 L1 V1 M1.
  destruct (zeros_ok crtc 64 s1 (vp_crtc _ _ _ Hp) ltac:(lia)) as (s2 & E2 & O2 & V2).
  rewrite (bind_ok _ _ _ E2). cbv beta.
  assert (u16 cib = cib) as Hu by (apply Z.mod_small; lia).
  destruct (vbe_controller (Regs 20224 0 0 0 0 cib) s2) as (r & s3 & E3 & O3 & V3); [done| | |].
  { cbn [edi]. rewrite Hu. by split. }
  { cbn [edi]. rewrite Hu, <- L1. apply vld_ext. intros b Hb. rewrite V2 by (apply Hw; lia).
    pose proof (vp_cib_crtc _ _ _ Hp). by rewrite decide_False by lia. }
  cbn [edi] in V3. rewrite Hu in V3. unfold _bios_int at 1. change (u8 16) with 16.
  rewrite (bind_ok _ _ _ E3). cbn [Z.eqb]. bnd.
  destruct (modes_run controller mode_block cib crtc info Hp s l Hl s3 (Regs 20224 0 0 0 0 cib))
    as (t & E & Mt & Vt).
  { split.
    - rewrite (mode_set_outside _ _ O3), (mode_set_outside _ _ O2). exact M1.
    - intros a Ha Hi Hc. rewrite V3 by done. unfold with_controller. case_decide; [done|].
      rewrite V2, decide_False by (done || lia). apply V1; [done|lia]. }
  exists t. split; [exact E|]. split; [exact Mt|]. intros a Ha Hi Hc Hb. rewrite Vt by done.
  unfold with_controller. by rewrite decide_False by lia.
Qed.
End Selection.
