(* ===== verification/ScreenWitness.v ===== *)
(** * Concrete devices on which the theorems on text and on video modes apply

    A console that records what is printed, memory with a CRT controller, and a display
    adapter. *)

From S2P Require Export VgaProps VbeProps.

#[local] Open Scope Z_scope.

(** ** A recording console *)

(** Memory and what has been output so far. *)
Record tty := Tty { tty_mem : flat; tty_out : list Z }.

#[export] Instance tty_store : Store tty := {
  rd8 s a := rd8 (tty_mem s) a;
  wr8 s a v := m ← wr8 (tty_mem s) a v; mret (Tty m (tty_out s));
}.

Definition tty_outb (c : Z) (s : tty) : res tty := Ok (Tty (tty_mem s) (tty_out s ++ [c])).

Lemma tty_outb_keep c s s' b : tty_outb c s = Ok s' -> rd8 s' b = rd8 s b.
Proof. by intros [= <-]. Qed.

(** [n=%d %x%%] at address 4096. *)
Definition sample_format : list Z := [110; 61; 37; 100; 32; 37; 120; 37; 37].
Definition sample_tty : tty :=
  Tty (Flat (fun a => default 0 (sample_format !! Z.to_nat (a - 4096)))) [].

Lemma sample_tty_string : rest_at (fun _ => True) sample_tty 4096 sample_format.
Proof.
  split; [done|]. split; [by vm_compute|].
  split; [by apply (bool_decide_unpack (Forall (fun c => c <> 0) sample_format))|].
  intros i Hi. split; [done|].
  assert (rd8 sample_tty (4096 + Z.of_nat i) =
    Ok (u8 (default 0 (sample_format !! Z.to_nat (4096 + Z.of_nat i - 4096))))) as -> by done.
  replace (Z.to_nat (4096 + Z.of_nat i - 4096)) with i by lia.
  do 9 (destruct i as [|i]; [done|]). by destruct i.
Qed.

(** The output is [n=-120 0000BEEF%]. *)
Lemma print_renders_witness :
  print tty_outb 4096 [2 ^ 32 - 120; 48879] sample_tty =
  Ok (Tty (tty_mem sample_tty)
    [110; 61; 45; 49; 50; 48; 32; 48; 48; 48; 48; 66; 69; 69; 70; 37]).
Proof.
  rewrite (print_renders tty_outb (fun _ => True) (fun _ => True) (fun _ => True)
    (fun c s s' _ _ E => conj I (fun b _ => tty_outb_keep c s s' b E)) 4096
    sample_format [2 ^ 32 - 120; 48879] sample_tty
    [110; 61; 45; 49; 50; 48; 32; 48; 48; 48; 48; 66; 69; 69; 70; 37] sample_tty_string eq_refl I
    (proj2 (List.Forall_forall _ _) (fun _ _ => I))).
  reflexivity.
Defined.

Lemma print_numbers_read_back_witness :
  0 <= 48879 < 2 ^ 32 /\ Z.abs 48879 < 10 ^ 9 /\
  (exists ds, print_hex tty_outb 48879 sample_tty = outs tty_outb (hex_chars <$> ds) sample_tty /\
    value 16 ds = 48879 /\ length ds = 8%nat /\ Forall (fun d => 0 <= d < 16) ds) /\
  exists ds, print_decimal tty_outb 48879 sample_tty =
      outs tty_outb ([] ++ (hex_chars <$> ds)) sample_tty /\
    value 10 ds = 48879 /\ Forall (fun d => 0 <= d < 10) ds /\ (head ds = Some 0 -> 48879 = 0).
Proof.
  assert (0 <= 48879 < 2 ^ 32) as H1 by lia. assert (Z.abs 48879 < 10 ^ 9) as H2 by lia.
  destruct (print_numbers_read_back tty_outb sample_tty 48879) as [Hh Hd].
  split; [exact H1|]. split; [exact H2|]. split; [exact (proj1 (Hh H1))|exact (Hd H2)].
Defined.

(** A string of two characters in the last four bytes of memory: what follows
    its end is output as well. *)
Definition tail_tty : tty := Tty (Flat (fun a => if a =? 2 ^ 32 - 4 then 72
  else if a =? 2 ^ 32 - 3 then 105 else if a =? 2 ^ 32 - 2 then 0 else 88)) [].

Lemma print_string_runs_on_witness :
  print_string tty_outb (2 ^ 32 - 4) tail_tty = Ok (Tty (tty_mem tail_tty) [72; 105; 0; 88]).
Proof.
  rewrite (print_string_runs_on tty_outb (flat_byte (tty_mem tail_tty)) (2 ^ 32 - 4) tail_tty
    tty_outb_keep ltac:(lia)).
  - by vm_compute.
  - intros b _. cbn. unfold u8. do 3 (case_match; [done|]). done.
Defined.

(** ** A screen *)

(** Flat memory and the registers behind the two ports. *)
Record crt := Crt { crt_mem : flat; crt_index : Z; crt_regs : Z -> Z }.

#[export] Instance crt_store : Store crt := {
  rd8 d a := rd8 (crt_mem d) a;
  wr8 d a v := m ← wr8 (crt_mem d) a v; mret (Crt m (crt_index d) (crt_regs d));
}.

#[export] Program Instance crt_window : Window crt (fun _ => True) := {
  view d a := view (crt_mem d) a;
  poke d a v := Crt (poke (crt_mem d) a v) (crt_index d) (crt_regs d);
  outside d d' := crt_regs d' = crt_regs d;
}.
Next Obligation. split; [by intros d|]. intros d1 d2 d3 ? ?. congruence. Qed.
Next Obligation. done. Qed.
Next Obligation. intros. apply u8_range. Qed.
Next Obligation. done. Qed.
Next Obligation. intros d a v b Ha Hb. apply (view_poke (crt_mem d) a v b Ha Hb). Qed.
Next Obligation. done. Qed.

Definition crt_select (v : Z) (d : crt) : crt := Crt (crt_mem d) v (crt_regs d).
Definition crt_assign (v : Z) (d : crt) : crt :=
  Crt (crt_mem d) (crt_index d) (fun r => if decide (crt_index d = r) then v else crt_regs d r).

#[export] Instance crt_ports : Ports crt := {
  in8 p d := Ok (if p =? VGA_TEXT_DATA then u8 (crt_regs d (crt_index d)) else 0, d);
  out8 p v d := Ok (if p =? VGA_TEXT_INDEX then crt_select v d
    else if p =? VGA_TEXT_DATA then crt_assign (u8 v) d else d);
}.

#[export] Program Instance crt_crtc : Crtc crt (fun _ => True) := {
  selected d := crt_index d;
  crtc d r := u8 (crt_regs d r);
  select := crt_select;
  assign v d := crt_assign (u8 v) d;
}.
Next Obligation. intros. apply u8_range. Qed.
Next Obligation. done. Qed.
Next Obligation. done. Qed.
Next Obligation. done. Qed.
Next Obligation. done. Qed.
Next Obligation. done. Qed.
Next Obligation. done. Qed.
Next Obligation. intros d v r Hv Hr. cbn. case_decide; [|done]. by rewrite !u8_small by (rewrite ?u8_small; done).
Qed.
Next Obligation. done. Qed.
Next Obligation. done. Qed.
Next Obligation. intros d d' r E Hr. cbn in *. by rewrite E. Qed.

(** The sample format string at 4096 and the cursor at the last cell. *)
Definition sample_crt : crt :=
  Crt (tty_mem sample_tty) 0 (fun r => if r =? 15 then 207 else if r =? 14 then 7 else 0).
Definition sample_vga : vga crt := Vga sample_crt 15.

Lemma sample_buffer : forall b, text_buffer <= b < text_buffer + 4000 -> True.
Proof. done. Qed.

Definition sample_screen (p : Z) : screen := Screen (fun _ => 0) p.

Lemma sample_shows : shows (win := fun _ => True) sample_vga (sample_screen 1999).
Proof.
  split; [|split; [by vm_compute|by split]]. intros i Hi.
  assert (text_buffer = 753664) as Hb by done.
  assert (forall a, 753664 <= a -> view (dev sample_vga) a = 0) as Hz.
  { intros a Ha. cbn. rewrite lookup_ge_None_2; [done|]. cbn. lia. }
  cbn [vld]. rewrite !Hz by lia. done.
Qed.

Lemma sample_vga_string : rest_at (elsewhere (win := fun _ => True)) sample_vga 4096 sample_format.
Proof.
  destruct sample_tty_string as (H1 & H2 & H3 & H4). split; [done|]. split; [done|]. split; [done|].
  intros i Hi. split; [|by apply H4]. split; [done|]. assert (text_buffer = 753664) as Hb by done.
  cbn in Hi. lia.
Qed.

(** The text starts in the last cell and goes on in the first. *)
Lemma print_on_screen_witness :
  exists s', print vga_output_char 4096 [2 ^ 32 - 120; 48879] sample_vga = Ok s' /\
    kept (win := fun _ => True) sample_vga s' /\
    shows (win := fun _ => True) s' (type_all 15
      [110; 61; 45; 49; 50; 48; 32; 48; 48; 48; 48; 66; 69; 69; 70; 37] (sample_screen 1999)).
Proof.
  apply (print_on_screen (win := fun _ => True) sample_buffer 4096 sample_format
    [2 ^ 32 - 120; 48879] sample_vga (sample_screen 1999)
    [110; 61; 45; 49; 50; 48; 32; 48; 48; 48; 48; 66; 69; 69; 70; 37]).
  - exact sample_vga_string.
  - reflexivity.
  - repeat constructor; lia.
  - exact sample_shows.
Defined.

Lemma display_string_puts_witness :
  exists s', display_string 4096 23 75 sample_vga = Ok s' /\
    kept (win := fun _ => True) sample_vga s' /\
    shows (win := fun _ => True) s' (put_all 15 1915 sample_format (sample_screen 1999)).
Proof.
  apply (display_string_puts (win := fun _ => True) sample_buffer 4096 sample_format 23 75
    sample_vga (sample_screen 1999)).
  - exact sample_vga_string.
  - lia.
  - lia.
  - cbn. lia.
  - exact sample_shows.
Defined.

Lemma reset_display_clears_witness :
  exists s', reset_display sample_vga = Ok s' /\ kept (win := fun _ => True) sample_vga s' /\
    shows (win := fun _ => True) s' (Screen (fun _ => 3872) 0).
Proof. apply (reset_display_clears (win := fun _ => True) sample_buffer sample_vga). cbn. lia. Defined.

(** The same machine with the cursor on the first cell. *)
Definition home_vga : vga crt := Vga (Crt (tty_mem sample_tty) 0 (fun _ => 0)) 15.

Lemma vga_backspace_escapes_witness :
  exists s', vga_output_char 8 home_vga = Ok s' /\
    text (win := fun _ => True) s' (fun _ => 0) /\
    cursor_pos (win := fun _ => True) s' = 65535 /\
    vld 2 (view (dev s')) (text_buffer - 2) = 3872.
Proof.
  apply (vga_backspace_escapes (win := fun _ => True) sample_buffer home_vga (sample_screen 0)).
  - by split.
  - destruct sample_shows as (Ht & _). split; [exact Ht|]. split; [by vm_compute|by split].
  - reflexivity.
Defined.

(** ** A display adapter *)

(** Memory and the mode that is set. *)
Record adapter := Adapter { memory : Z -> Z; mode : option Z }.

#[export] Instance adapter_store : Store adapter := {
  rd8 s a := Ok (u8 (memory s a));
  wr8 s a v := Ok (Adapter (fun b => if b =? a then v else memory s b) (mode s));
}.

#[export] Program Instance adapter_window : Window adapter (fun _ => True) := {
  view s a := u8 (memory s a);
  poke s a v := Adapter (fun b => if b =? a then v else memory s b) (mode s);
  outside s s' := mode s' = mode s;
}.
Next Obligation. split; [by intros s|]. intros s t u -> E. by symmetry. Qed.
Next Obligation. done. Qed.
Next Obligation. intros. apply u8_range. Qed.
Next Obligation. done. Qed.
Next Obligation.
  intros s a v b _ _. cbn. destruct (Z.eqb_spec b a) as [->|]; [by rewrite decide_True|].
  by rewrite decide_False by congruence.
Qed.
Next Obligation. done. Qed.

Definition block_at (a n : Z) (f : Z -> Z) (s : adapter) : adapter :=
  Adapter (fun b => if decide (a <= b < a + n) then f (b - a) else memory s b) (mode s).

Lemma block_at_view a n f s b :
  (forall o, 0 <= f o < 256) ->
  view (block_at a n f s) b = if decide (a <= b < a + n) then f (b - a) else view s b.
Proof. intros Hf. cbn. case_decide; [apply u8_small, Hf|done]. Qed.

(** The list of modes is at 8192; of its modes, 257 is not supported, 279 has 16
    bits per pixel, and 283 is what the code looks for. *)
Definition adapter_controller (o : Z) : Z := if o =? 15 then 32 else 0.
Definition mode_bytes (bpp o : Z) : Z :=
  if o =? 0 then 128 else if o =? 19 then 5 else if o =? 25 then u8 bpp else 0.
Definition adapter_mode (m : Z) : option (Z -> Z) :=
  if m =? 279 then Some (mode_bytes 16) else if m =? 283 then Some (mode_bytes 24) else None.

#[export] Instance adapter_firmware : Firmware adapter := {
  interrupt _ regs s := Ok (regs,
    let ax := u16 (eax regs) in
    if ax =? 20224 then block_at (u16 (edi regs)) 512 adapter_controller s
    else if ax =? 20225 then
      match adapter_mode (u16 (ecx regs)) with
      | Some b => block_at (u16 (edi regs)) 256 b s
      | None => s
      end
    else Adapter (memory s) (Some (u16 (ebx regs))));
}.

Lemma mode_bytes_range bpp o : 0 <= mode_bytes bpp o < 256.
Proof. unfold mode_bytes. pose proof (u8_range bpp). repeat case_match; lia. Qed.

#[export] Program Instance adapter_vbe : Vbe adapter (fun _ => True) adapter_controller adapter_mode := {
  mode_set := mode }.
Next Obligation. done. Qed.
Next Obligation. intros o. unfold adapter_controller. case_match; lia. Qed.
Next Obligation.
  intros m b o E. revert E. unfold adapter_mode. repeat case_match; intros [= <-]; apply mode_bytes_range.
Qed.
Next Obligation.
  intros regs s E block _ _. do 2 eexists. cbn [interrupt adapter_firmware]. rewrite E. split; [reflexivity|].
  split; [done|]. intros a _. apply block_at_view. intros o. unfold adapter_controller. case_match; lia.
Qed.
Next Obligation.
  intros regs s E block _. do 2 eexists. cbn [interrupt adapter_firmware]. rewrite E. split; [reflexivity|].
  destruct (adapter_mode (u16 (ecx regs))) as [b|] eqn:Em; [|by split].
  split; [done|]. intros a _. apply block_at_view. intros o. revert Em. unfold adapter_mode.
  repeat case_match; intros [= <-]; apply mode_bytes_range.
Qed.
Next Obligation.
  intros regs s E. do 2 eexists. cbn [interrupt adapter_firmware]. rewrite E. by split.
Qed.

Definition sample_adapter : adapter :=
  Adapter (fun a => if a =? 8192 then 1 else if a =? 8193 then 1 else if a =? 8194 then 23 else if a =? 8195 then 1
    else if a =? 8196 then 27 else if a =? 8197 then 1 else if a =? 8198 then 255 else if a =? 8199 then 255
    else 0) None.

Lemma init_vbe_selects_witness :
  exists s', init_vbe 4096 16384 20480 sample_adapter = Ok s' /\ mode s' = Some 283 /\
    forall a, True -> a < 20480 \/ 20480 + 256 <= a -> a < 16384 \/ 16384 + 64 <= a -> a < 4096 \/ 4096 + 512 <= a ->
      view s' a = view sample_adapter a.
Proof.
  refine (init_vbe_selects (win := fun _ => True) adapter_controller adapter_mode 4096 16384 20480 _
    sample_adapter [257; 279; 283] _).
  - split; try lia; split_and!; (lia || done).
  - split.
    + repeat constructor; lia.
    + intros [|[|[|i]]] m; cbn [lookup list_lookup]; [intros [= <-]; by vm_compute..|done].
    + by vm_compute.
    + split; [by vm_compute|]. split; [by vm_compute|done].
    + by left; vm_compute.
    + by left; vm_compute.
Defined.
