(* ===== verification/Real16.v ===== *)
(** * The processor in real mode

    What the boot sectors (boot/x86/mbr.s, boot/x86/boot.s) use of it: sixteen-bit
    registers and flags, memory through segments with the address line 20 masked or
    not, the stack, string loads, and software interrupts, whose handlers are the
    firmware's.  Straight-line code is a sequence of the functions below, a jump is the
    control flow of the function it is in. *)

From S2P Require Export Store.

#[local] Open Scope Z_scope.

(** ** Registers *)

Record regs16 := Regs16 {
  ax : Z; bx : Z; cx : Z; dx : Z; si : Z; di : Z; bp : Z; sp : Z;
  ds : Z; es : Z; ss : Z; fl : Z }.

Definition set_ax v r := Regs16 v (bx r) (cx r) (dx r) (si r) (di r) (bp r) (sp r) (ds r) (es r) (ss r) (fl r).
Definition set_bx v r := Regs16 (ax r) v (cx r) (dx r) (si r) (di r) (bp r) (sp r) (ds r) (es r) (ss r) (fl r).
Definition set_cx v r := Regs16 (ax r) (bx r) v (dx r) (si r) (di r) (bp r) (sp r) (ds r) (es r) (ss r) (fl r).
Definition set_dx v r := Regs16 (ax r) (bx r) (cx r) v (si r) (di r) (bp r) (sp r) (ds r) (es r) (ss r) (fl r).
Definition set_si v r := Regs16 (ax r) (bx r) (cx r) (dx r) v (di r) (bp r) (sp r) (ds r) (es r) (ss r) (fl r).
Definition set_di v r := Regs16 (ax r) (bx r) (cx r) (dx r) (si r) v (bp r) (sp r) (ds r) (es r) (ss r) (fl r).
Definition set_bp v r := Regs16 (ax r) (bx r) (cx r) (dx r) (si r) (di r) v (sp r) (ds r) (es r) (ss r) (fl r).
Definition set_sp v r := Regs16 (ax r) (bx r) (cx r) (dx r) (si r) (di r) (bp r) v (ds r) (es r) (ss r) (fl r).
Definition set_ds v r := Regs16 (ax r) (bx r) (cx r) (dx r) (si r) (di r) (bp r) (sp r) v (es r) (ss r) (fl r).
Definition set_es v r := Regs16 (ax r) (bx r) (cx r) (dx r) (si r) (di r) (bp r) (sp r) (ds r) v (ss r) (fl r).
Definition set_ss v r := Regs16 (ax r) (bx r) (cx r) (dx r) (si r) (di r) (bp r) (sp r) (ds r) (es r) v (fl r).
Definition set_fl v r := Regs16 (ax r) (bx r) (cx r) (dx r) (si r) (di r) (bp r) (sp r) (ds r) (es r) (ss r) v.

(** The halves of a register. *)
Definition lo8 (w : Z) : Z := w mod 256.
Definition hi8 (w : Z) : Z := w / 256.
Definition with_lo8 (v w : Z) : Z := hi8 w * 256 + v.
Definition with_hi8 (v w : Z) : Z := v * 256 + lo8 w.

(** ** Flags *)

Definition flag (k : Z) (r : regs16) : bool := Z.testbit (fl r) k.
Definition CF : regs16 -> bool := flag 0.
Definition ZF : regs16 -> bool := flag 6.
Definition DF : regs16 -> bool := flag 10.

Definition put_bit (k : Z) (b : bool) (f : Z) : Z := if b then Z.setbit f k else Z.clearbit f k.

Definition signed (w a : Z) : Z := if Z.testbit a (w - 1) then a - 2 ^ w else a.

(** PF, ZF and SF by the result of [w] bits. *)
Definition result_flags (w x f : Z) : Z :=
  put_bit 2 (parity x) (put_bit 6 (x =? 0) (put_bit 7 (Z.testbit x (w - 1)) f)).

(** Comparison, increment, addition, and a shift to the right by one, which leaves AF
    undefined. *)
Definition cmp (w a b : Z) (r : regs16) : regs16 :=
  let x := (a - b) mod 2 ^ w in
  set_fl (result_flags w x (put_bit 0 (a <? b) (put_bit 4 (a mod 16 <? b mod 16)
    (put_bit 11 (negb (signed w a - signed w b =? signed w x)) (fl r))))) r.

Definition inc_ax (r : regs16) : regs16 :=
  let x := u16 (ax r + 1) in
  set_ax x (set_fl (result_flags 16 x (put_bit 4 (ax r mod 16 =? 15) (put_bit 11 (x =? 32768) (fl r)))) r).

Definition add_ax (b : Z) (r : regs16) : regs16 :=
  let x := u16 (ax r + b) in
  set_ax x (set_fl (result_flags 16 x (put_bit 0 (65536 <=? ax r + b)
    (put_bit 4 (16 <=? ax r mod 16 + b mod 16)
    (put_bit 11 (negb (signed 16 (ax r) + signed 16 b =? signed 16 x)) (fl r))))) r).

Definition shr_flags (a : Z) (r : regs16) : regs16 :=
  set_fl (result_flags 16 (a / 2) (put_bit 0 (Z.odd a) (put_bit 11 (Z.testbit a 15) (fl r)))) r.
Definition shr_ax (r : regs16) : regs16 := set_ax (ax r / 2) (shr_flags (ax r) r).
Definition shr_cx (r : regs16) : regs16 := set_cx (cx r / 2) (shr_flags (cx r) r).

(** ** Memory *)

(** Whether address line 20 is enabled, and what the teletype has printed. *)
Class Pc (S : Type) := {
  a20 : S -> bool;
  tty : S -> list Z;
}.

Record real (S : Type) := Real { rg : regs16; mem : S }.
Arguments Real {S} _ _.
Arguments rg {S} _.
Arguments mem {S} _.

Section Real.
Context {S : Type} {HS : Store S} {HP : Pc S}.
Implicit Types (s : real S).

Definition on_regs (f : regs16 -> regs16) s : real S := Real (f (rg s)) (mem s).

(** The address of an offset in a segment. *)
Definition linear (m : S) (seg off : Z) : Z :=
  let a := 16 * seg + off in if a20 m then a else a mod 2 ^ 20.

Definition rb (seg off : Z) s : res Z := rd8 (mem s) (linear (mem s) seg off).
Definition rw (seg off : Z) s : res Z :=
  lo ← rb seg off s; hi ← rb seg (u16 (off + 1)) s; mret (lo + 256 * hi).

Definition wb (seg off v : Z) s : res (real S) :=
  m ← wr8 (mem s) (linear (mem s) seg off) v; mret (Real (rg s) m).
Definition ww (seg off v : Z) s : res (real S) :=
  s ← wb seg off (u8 v) s; wb seg (u16 (off + 1)) (v / 256) s.

Definition push (v : Z) s : res (real S) :=
  let p := u16 (sp (rg s) - 2) in
  s ← ww (ss (rg s)) p v s; mret (on_regs (set_sp p) s).
Definition pop s : res (Z * real S) :=
  v ← rw (ss (rg s)) (sp (rg s)) s; mret (v, on_regs (set_sp (u16 (sp (rg s) + 2))) s).

Fixpoint pushes (l : list Z) s : res (real S) :=
  match l with
  | [] => mret s
  | v :: l => s ← push v s; pushes l s
  end.
Fixpoint pops (n : nat) s : res (list Z * real S) :=
  match n with
  | O => mret ([], s)
  | Datatypes.S n => '(v, s) ← pop s; '(l, s) ← pops n s; mret (v :: l, s)
  end.

Definition pusha s : res (real S) :=
  let r := rg s in pushes [ax r; cx r; dx r; bx r; sp r; bp r; si r; di r] s.
Definition popa s : res (real S) :=
  '(l, s) ← pops 8 s;
  match l with
  | [d; i; b; _; x; y; c; a] =>
      mret (on_regs (fun r => set_di d (set_si i (set_bp b (set_bx x (set_dx y (set_cx c (set_ax a r))))))) s)
  | _ => Undef
  end.
Definition pushf s : res (real S) := push (fl (rg s)) s.
Definition popf s : res (real S) := '(f, s) ← pop s; mret (on_regs (set_fl f) s).

(** Load byte at the address in the SI register to AL register and increment SI *)
Definition lodsb s : res (real S) :=
  v ← rb (ds (rg s)) (si (rg s)) s;
  mret (on_regs (fun r => set_si (u16 (si r + (if DF r then -1 else 1))) (set_ax (with_lo8 v (ax r)) r)) s).

(** A call and its return, to the address [back] behind the call. *)
Definition call (back : Z) (f : real S -> res (real S)) s : res (real S) :=
  s ← push back s; s ← f s; '(ip, s) ← pop s;
  if ip =? back then mret s else Undef.
End Real.
