(* ===== verification/Real16Lemmas.v ===== *)
(** * Memory and the stack in real mode

    Accesses in segment 0, and words pushed to the stack and popped from it again. *)

From S2P Require Export Real16.

#[local] Open Scope Z_scope.

(** ** Flags *)

Lemma put_bit_same k b f : 0 <= k -> Z.testbit (put_bit k b f) k = b.
Proof.
  intros Hk. destruct b; cbn [put_bit].
  - by rewrite Z.setbit_eqb, Z.eqb_refl by done.
  - by rewrite Z.clearbit_eqb, Z.eqb_refl, andb_false_r.
Qed.

Lemma put_bit_other j k b f : 0 <= k -> j <> k -> Z.testbit (put_bit k b f) j = Z.testbit f j.
Proof.
  intros Hk Hj. destruct b; cbn [put_bit].
  - rewrite Z.setbit_eqb by done. by destruct (Z.eqb_spec k j).
  - rewrite Z.clearbit_eqb. destruct (Z.eqb_spec k j); [done|]. by rewrite andb_true_r.
Qed.

(** A flag is not affected by the bits that are put elsewhere. *)
Ltac flags := unfold CF, ZF, DF, flag, result_flags; cbn [fl set_fl];
  repeat first [rewrite put_bit_same by lia|rewrite put_bit_other by lia].

Lemma cmp_ZF w a b r : 0 < w -> 0 <= a < 2 ^ w -> 0 <= b < 2 ^ w -> ZF (cmp w a b r) = (a =? b).
Proof.
  intros Hw Ha Hb. unfold cmp. flags.
  destruct (Z.eqb_spec a b) as [->|Hne].
  - rewrite Z.sub_diag, Z.mod_0_l by (apply Z.pow_nonzero; lia). done.
  - apply Z.eqb_neq. intros Hm. apply Z.mod_divide in Hm as [q Hq]; [|apply Z.pow_nonzero; lia].
    assert (q = 0 \/ q <= -1 \/ 1 <= q) as [-> | Hc] by lia; nia.
Qed.

Lemma cmp_DF w a b r : DF (cmp w a b r) = DF r.
Proof. unfold cmp. flags. done. Qed.

Lemma shr_flags_DF a r : DF (shr_flags a r) = DF r.
Proof. unfold shr_flags. flags. done. Qed.
Lemma inc_ax_DF r : DF (inc_ax r) = DF r.
Proof. unfold inc_ax, set_ax. flags. done. Qed.
Lemma add_ax_DF b r : DF (add_ax b r) = DF r.
Proof. unfold add_ax, set_ax. flags. done. Qed.

(** ** Words *)

Section Memory.
Context {S : Type} {HS : Store S} {HP : Pc S} {win : Z -> Prop} {HW : Window S win}.

(** What a store does not touch. *)
Class PcMemory : Prop := {
  pc_a20 (m m' : S) : outside m m' -> a20 m' = a20 m;
  pc_tty (m m' : S) : outside m m' -> tty m' = tty m;
}.
Context {HPM : PcMemory}.

(** All of the memory that segments reach. *)
Context (Hwin : forall a, 0 <= a < 1114096 -> win a).
Implicit Types (m : S) (r : regs16).

Lemma linear_0 m off : 0 <= off < 65536 -> linear m 0 off = off.
Proof. intros H. unfold linear. destruct (a20 m); [lia|]. rewrite Z.mod_small; lia. Qed.

Lemma low_win a n : 0 <= a -> a + n <= 1114096 -> in_win win a n.
Proof. intros H0 H1. split; [done|]. split; [lia|]. intros b Hb. apply Hwin. lia. Qed.

Lemma rb_0 r m off : 0 <= off < 65536 -> rb 0 off (Real r m) = Ok (view m off).
Proof. intros H. unfold rb. cbn [mem]. rewrite linear_0 by done. apply rd8_win, Hwin. lia. Qed.

(** A word at consecutive addresses. *)
Lemma rw_at seg off a r m :
  linear m seg off = a -> linear m seg (u16 (off + 1)) = a + 1 -> 0 <= a < 1114095 ->
  rw seg off (Real r m) = Ok (vld 2 (view m) a).
Proof.
  intros E0 E1 Ha. unfold rw, rb. cbn [mem]. rewrite E0, E1.
  rewrite (bind_ok _ _ _ (rd8_win m a ltac:(apply Hwin; lia))), (bind_ok _ _ _ (rd8_win m (a + 1) ltac:(apply Hwin; lia))).
  cbn [vld]. do 2 f_equal. lia.
Qed.

Lemma ww_at seg off a v r m :
  linear m seg off = a -> linear m seg (u16 (off + 1)) = a + 1 -> 0 <= a < 1114095 -> 0 <= v < 65536 ->
  exists m', ww seg off v (Real r m) = Ok (Real r m') /\ outside m m' /\
    forall b, win b -> view m' b = vst 2 (view m) a v b.
Proof.
  intros E0 E1 Ha Hv. unfold ww, wb. cbn [mem rg]. rewrite E0, (wr8_win m a) by (apply Hwin; lia). bnd. cbn [mem rg].
  assert (outside m (poke m a (u8 v))) as O1 by (apply outside_poke, Hwin; lia).
  assert (forall off, linear (poke m a (u8 v)) seg off = linear m seg off) as El
    by (intros o; unfold linear; by rewrite (pc_a20 _ _ O1)).
  rewrite El, E1, wr8_win by (apply Hwin; lia). bnd. eexists. split; [reflexivity|]. split.
  - etrans; [done|]. apply outside_poke, Hwin. lia.
  - intros b Hb. rewrite view_poke by (done || (apply Hwin; lia)). rewrite view_poke by (done || (apply Hwin; lia)).
    unfold vst. repeat case_decide; try lia; try subst b.
    + replace (8 * (a + 1 - a)) with 8 by lia. done.
    + rewrite Z.sub_diag. change (2 ^ (8 * 0)) with 1. rewrite Z.div_1_r. apply u8_small, u8_range.
Qed.

Lemma rw_0 r m off : 0 <= off < 65535 -> rw 0 off (Real r m) = Ok (vld 2 (view m) off).
Proof. intros H. apply rw_at; [apply linear_0; lia|unfold u16; rewrite Z.mod_small by lia; apply linear_0; lia|lia]. Qed.

Lemma ww_0 r m off v :
  0 <= off < 65535 -> 0 <= v < 65536 ->
  exists m', ww 0 off v (Real r m) = Ok (Real r m') /\ outside m m' /\
    forall b, win b -> view m' b = vst 2 (view m) off v b.
Proof.
  intros H Hv. apply ww_at; [apply linear_0; lia|unfold u16; rewrite Z.mod_small by lia; apply linear_0; lia|lia|done].
Qed.

(** ** The stack *)

(** Words in memory. *)
Definition words_at (v : Z -> Z) (a : Z) (l : list Z) : Prop :=
  forall i x, l !! i = Some x -> vld 2 v (a + 2 * Z.of_nat i) = x.

Lemma words_at_ext v w a l :
  (forall b, a <= b < a + 2 * Z.of_nat (length l) -> w b = v b) -> words_at v a l -> words_at w a l.
Proof.
  intros He Hw i x Hi. rewrite <- (Hw i x Hi). apply vld_ext. intros b Hb.
  apply lookup_lt_Some in Hi. apply He. lia.
Qed.

Lemma set_sp_sp r p q : set_sp p (set_sp q r) = set_sp p r.
Proof. done. Qed.
Lemma set_sp_same r : set_sp (sp r) r = r.
Proof. by destruct r. Qed.

Lemma push_ok v r m :
  ss r = 0 -> 2 <= sp r < 65536 -> 0 <= v < 65536 ->
  exists m', push v (Real r m) = Ok (Real (set_sp (sp r - 2) r) m') /\ outside m m' /\
    forall b, win b -> view m' b = vst 2 (view m) (sp r - 2) v b.
Proof.
  intros Hss Hsp Hv. unfold push. cbn [rg]. rewrite Hss. unfold u16. rewrite (Z.mod_small (sp r - 2)) by lia.
  destruct (ww_0 r m (sp r - 2) v) as (m' & E & O & V); [lia|done|].
  exists m'. rewrite (bind_ok _ _ _ E). by split.
Qed.

Lemma pop_ok r m :
  ss r = 0 -> 0 <= sp r < 65534 ->
  pop (Real r m) = Ok (vld 2 (view m) (sp r), Real (set_sp (sp r + 2) r) m).
Proof.
  intros Hss Hsp. unfold pop. cbn [rg]. rewrite Hss. rewrite (bind_ok _ _ _ (rw_0 r m (sp r) ltac:(lia))).
  unfold on_regs, u16. cbn [rg mem]. by rewrite Z.mod_small by lia.
Qed.

(** Pushing a list leaves it in memory, the last word first. *)
Lemma pushes_ok l r m :
  ss r = 0 -> 2 * Z.of_nat (length l) <= sp r < 65536 -> Forall (fun v => 0 <= v < 65536) l ->
  exists m', pushes l (Real r m) = Ok (Real (set_sp (sp r - 2 * Z.of_nat (length l)) r) m') /\ outside m m' /\
    words_at (view m') (sp r - 2 * Z.of_nat (length l)) (rev l) /\
    forall b, win b -> b < sp r - 2 * Z.of_nat (length l) \/ sp r <= b -> view m' b = view m b.
Proof.
  intros Hss Hsp Hl. revert r m Hss Hsp; induction Hl as [|v l Hv Hl IH]; intros r m Hss Hsp; cbn [pushes length rev] in *.
  - exists m. rewrite Z.mul_0_r, Z.sub_0_r, set_sp_same. split; [done|]. split; [reflexivity|]. by split.
  - destruct (push_ok v r m Hss ltac:(lia) Hv) as (m1 & E1 & O1 & V1). rewrite (bind_ok _ _ _ E1).
    destruct (IH (set_sp (sp r - 2) r) m1 Hss) as (m2 & E2 & O2 & W2 & V2); [cbn [sp set_sp]; lia|].
    cbn [sp set_sp] in *. rewrite set_sp_sp in E2.
    replace (sp r - 2 - 2 * Z.of_nat (length l)) with (sp r - 2 * Z.of_nat (Datatypes.S (length l))) in * by lia.
    exists m2. split; [done|]. split; [by etrans|]. split.
    + intros i x Hi. destruct (decide (i < length (rev l))%nat) as [Hlt|Hge].
      * rewrite lookup_app_l in Hi by done. by apply W2.
      * rewrite lookup_app_r in Hi by lia. apply list_lookup_singleton_Some in Hi as [Hi ->].
        rewrite length_rev in *. replace i with (length l) by lia.
        replace (sp r - 2 * Z.of_nat (Datatypes.S (length l)) + 2 * Z.of_nat (length l)) with (sp r - 2) by lia.
        rewrite (vld_ext 2 _ (vst 2 (view m) (sp r - 2) x)).
        -- rewrite vld_vst_same. apply Z.mod_small. change (8 * Z.of_nat 2) with 16. lia.
        -- intros b Hb. rewrite V2 by (lia || (apply Hwin; lia)). apply V1, Hwin. lia.
    + intros b Hb Hbo. rewrite V2 by (done || lia). rewrite V1 by done. by rewrite vst_out by lia.
Qed.

Lemma pops_ok l r m :
  ss r = 0 -> 0 <= sp r -> sp r + 2 * Z.of_nat (length l) < 65536 -> words_at (view m) (sp r) l ->
  pops (length l) (Real r m) = Ok (l, Real (set_sp (sp r + 2 * Z.of_nat (length l)) r) m).
Proof.
  revert r; induction l as [|v l IH]; intros r Hss H0 H1 Hw; cbn [pops length] in *.
  - by rewrite Z.mul_0_r, Z.add_0_r, set_sp_same.
  - rewrite (bind_ok _ _ _ (pop_ok r m Hss ltac:(lia))). cbn beta iota.
    pose proof (Hw 0%nat v eq_refl) as Hv. rewrite Z.mul_0_r, Z.add_0_r in Hv. rewrite Hv.
    rewrite (bind_ok _ _ _ (IH (set_sp (sp r + 2) r) Hss ltac:(cbn; lia) ltac:(cbn [sp set_sp]; lia)
      ltac:(intros i x Hi; cbn [sp set_sp]; rewrite <- (Hw (Datatypes.S i) x Hi); f_equal; lia))).
    cbn beta iota. cbn [sp set_sp]. rewrite set_sp_sp. unfold mret, res_ret. do 4 f_equal. lia.
Qed.

(** What is called, and keeps what is above its stack, comes back. *)
Lemma call_ok back f r r' m (Q : S -> Prop) :
  ss r = 0 -> 2 <= sp r < 65536 -> 0 <= back < 65536 -> ss r' = 0 -> sp r' = sp r ->
  (forall m', outside m m' -> (forall b, win b -> b < sp r - 2 \/ sp r <= b -> view m' b = view m b) ->
     exists m'', f (Real (set_sp (sp r - 2) r) m') = Ok (Real (set_sp (sp r - 2) r') m'') /\
       (forall b, win b -> sp r - 2 <= b < sp r -> view m'' b = view m' b) /\ Q m'') ->
  exists m'', call back f (Real r m) = Ok (Real r' m'') /\ Q m''.
Proof.
  intros Hss Hsp Hb Hss' Hsp' Hf. unfold call. destruct (push_ok back r m Hss Hsp Hb) as (m1 & E1 & O1 & V1).
  rewrite (bind_ok _ _ _ E1).
  destruct (Hf m1 O1) as (m2 & E2 & V2 & HQ).
  { intros b Hw Hbo. rewrite V1 by done. by rewrite vst_out by lia. }
  rewrite (bind_ok _ _ _ E2). rewrite (bind_ok _ _ _ (pop_ok (set_sp (sp r - 2) r') m2 Hss' ltac:(cbn [sp set_sp]; lia))).
  cbn beta iota. cbn [sp set_sp]. rewrite set_sp_sp. replace (sp r - 2 + 2) with (sp r) by lia.
  rewrite <- Hsp', set_sp_same, Hsp'. rewrite (vld_ext 2 _ (vst 2 (view m) (sp r - 2) back)).
  - rewrite vld_vst_same, Z.mod_small, Z.eqb_refl by (change (8 * Z.of_nat 2) with 16; lia). by exists m2.
  - intros b Hbb. rewrite V2 by (lia || (apply Hwin; lia)). apply V1, Hwin. lia.
Qed.
End Memory.
