(* ===== verification/BootSector.v ===== *)
(** * boot/x86/mbr.s and boot/x86/boot.s: the boot sectors

    mbr.s starts the system from a disk, boot.s from a CD.  They differ in how much
    they read and from where; printing, the test of address line 20 and the switch to
    protected mode are the same code.  [Label]s are addresses that the assembler
    chooses; the firmware is a parameter. *)

From stdpp Require Import strings.
From S2P Require Export Real16.

#[local] Open Scope Z_scope.

(** The data of the sectors, and the places that calls return to. *)
Record labels := Labels {
  hello : Z; read_info_fail_msg : Z; next_stage_msg : Z; stage2_load_fail_msg : Z; stage2_load_success_msg : Z;
  a20_disable_msg : Z; a20_fail_msg : Z; a20_success_msg : Z; gdt_load_msg : Z;
  l_drive_number : Z; dap_block : Z; drive_parameters : Z; gdtr : Z;
  boot_location : Z; boot_length : Z;
  return_to : Z }.

(** What runs next: the loop at [halt], or 32-bit code, with the descriptor table, CR0
    and the data segments that it has. *)
Record protected (S : Type) := Protected {
  p_mem : S; p_cr0 : Z; p_gdtr : Z; p_cs : Z; p_data : Z; p_sp : Z }.
Arguments Protected {S} _ _ _ _ _ _.
Arguments p_mem {S} _.
Arguments p_cr0 {S} _.
Arguments p_gdtr {S} _.
Arguments p_cs {S} _.
Arguments p_data {S} _.
Arguments p_sp {S} _.

Section BootSector.
Context {S : Type} {HS : Store S} {HP : Pc S}.
Context (L : labels) (bios : Z -> real S -> res (real S)).
Implicit Types (s : real S).

(** [mov reg, imm] and [lea si, [label]] are [on_regs]; [mov dl, [drive_number]]: *)
Definition load_dl (a : Z) s : res (real S) :=
  v ← rb (ds (rg s)) a s; mret (on_regs (fun r => set_dx (with_lo8 v (dx r)) r) s).
Definition load_ax (a : Z) s : res (real S) := v ← rw (ds (rg s)) a s; mret (on_regs (set_ax v) s).
Definition load_cx (a : Z) s : res (real S) := v ← rw (ds (rg s)) a s; mret (on_regs (set_cx v) s).
Definition store_ax (a : Z) s : res (real S) := ww (ds (rg s)) a (ax (rg s)) s.
Definition set_ah (v : Z) : regs16 -> regs16 := fun r => set_ax (with_hi8 v (ax r)) r.
Definition set_bh (v : Z) : regs16 -> regs16 := fun r => set_bx (with_hi8 v (bx r)) r.
Definition set_bl (v : Z) : regs16 -> regs16 := fun r => set_bx (with_lo8 v (bx r)) r.

(** Print string *)
Definition print_chars : real S -> res (real S) := loop (fun s =>
  s ← lodsb s;
  (* Check whether there is a terminating byte *)
  let s := on_regs (fun r => cmp 8 (lo8 (ax r)) 0 r) s in
  if ZF (rg s) then mret (inr s)
  else
    (* Call teletype bios interrupt *)
    s ← bios 16 s; mret (inl s)).

Definition print_string s : res (real S) :=
  (* Push registers to stack *)
  s ← pusha s;
  s ← pushf s;
  (* Set background, foreground, and mode *)
  let s := on_regs (fun r => set_ah 14 (set_bl 0 (set_bh 0 r))) s in
  s ← print_chars s;
  (* Pop previously saved registers from stack and return *)
  s ← popf s;
  popa s.

(** [lea si, [message]; call print_string] *)
Definition say (message : labels -> Z) s : res (real S) :=
  call (return_to L) print_string (on_regs (set_si (message L)) s).

(** [halt: hlt; jmp halt] *)
Definition halt {A} s : res A := loop (fun s => mret (inl s)) s.

(** From the start to the parameters of the drive; [inl] goes to halt. *)
Definition start s : res (real S + real S) :=
  (* Setup segment registers for bootloader *)
  let s := on_regs (fun r => set_es 0 (set_ds 0 (set_ss 0 (set_ax 0 r)))) s in
  (* Setup stack *)
  let s := on_regs (fun r => set_bp 31744 (set_sp 31744 r)) s in
  (* Save the drive number stored at DL *)
  s ← wb (ds (rg s)) (l_drive_number L) (lo8 (dx (rg s))) s;
  (* Send message boot *)
  s ← say hello s;
  (* Get the sector size *)
  let s := on_regs (set_ah 72) s in
  s ← load_dl (l_drive_number L) s;
  let s := on_regs (set_si (drive_parameters L)) s in
  s ← bios 19 s;
  (* Check whether info read succeeded *)
  if negb (CF (rg s)) then mret (inr s)
  else (* If info read failed, then halt *) s ← say read_info_fail_msg s; mret (inl s).

(** [sector_size_loop], which compares with 512 in mbr.s and with 1 in boot.s. *)
Definition sector_size_loop (size : Z) : real S -> res (real S) := loop (fun s =>
  (* Check if size is reduced *)
  let s := on_regs (fun r => cmp 16 (cx r) size r) s in
  if ZF (rg s) then mret (inr s) else mret (inl (on_regs (fun r => shr_cx (shr_ax r)) s))).

(** mbr.s: what to read. *)
Definition mbr_packet s : res (real S) :=
  (* Set number of sectors to read *)
  let s := on_regs (set_ax 63) s in
  (* Set cx to sector size *)
  s ← load_cx (drive_parameters L + 24) s;
  s ← sector_size_loop 512 s;
  let s := on_regs inc_ax s in
  s ← store_ax (dap_block L + 2) s;
  (* Set segment:offset for loading *)
  s ← store_ax (dap_block L + 6) (on_regs (set_ax 0) s);
  s ← store_ax (dap_block L + 4) (on_regs (set_ax 32256) s);
  (* Set the low and high parts of the LBA for the drive *)
  store_ax (dap_block L + 8) (on_regs (set_ax 1) s).

(** boot.s *)
Definition cd_packet s : res (real S) :=
  s ← load_ax (boot_length L) s;
  s ← load_cx (drive_parameters L + 24) s;
  s ← sector_size_loop 1 s;
  s ← store_ax (dap_block L + 2) s;
  s ← store_ax (dap_block L + 6) (on_regs (set_ax 0) s);
  let s := on_regs (set_ax 31744) s in
  size ← rw (ds (rg s)) (drive_parameters L + 24) s;
  s ← store_ax (dap_block L + 4) (on_regs (add_ax size) s);
  s ← load_ax (boot_location L) s;
  store_ax (dap_block L + 8) (on_regs inc_ax s).

(** Load second stage bootloader using extended read *)
Definition load_stage2 (packet : real S -> res (real S)) s : res (real S + real S) :=
  s ← say next_stage_msg s;
  s ← packet s;
  (* Set the drive number *)
  s ← load_dl (l_drive_number L) s;
  (* Do read *)
  let s := on_regs (fun r => set_ah 66 (set_si (dap_block L) r)) s in
  s ← bios 19 s;
  (* Check if read worked *)
  if negb (CF (rg s)) then s ← say stage2_load_success_msg s; mret (inr s)
  else (* If read not worked, then halt *) mret (inl (on_regs (set_si (stage2_load_fail_msg L)) s)).

(** Test if A20 line is enabled: change two words and compare, *)
Definition a20_compare s : res (real S) :=
  (* Change two addresses *)
  s ← ww (es (rg s)) (di (rg s)) 0 s;
  s ← ww (ds (rg s)) (si (rg s)) 20073 s;
  (* Test *)
  v ← rw (es (rg s)) (di (rg s)) s;
  let s := on_regs (cmp 16 v 20073) s in
  (* Cleanup memory *)
  '(v, s) ← pop s;
  s ← ww (ds (rg s)) (si (rg s)) v (on_regs (set_ax v) s);
  '(v, s) ← pop s;
  ww (es (rg s)) (di (rg s)) v (on_regs (set_ax v) s).

(** with the words saved on the stack. *)
Definition a20_probe s : res (real S) :=
  (* Save data at addresses *)
  v ← rw (es (rg s)) (di (rg s)) s;
  s ← push v (on_regs (set_ax v) s);
  v ← rw (ds (rg s)) (si (rg s)) s;
  s ← push v (on_regs (set_ax v) s);
  a20_compare s.

Definition a20_test s : res (real S) :=
  (* Push used registers *)
  let r := rg s in
  s ← pushes [fl r; ds r; es r; di r; si r] s;
  (* Setup addresses *)
  let s := on_regs (fun r => set_di 32254 (set_es 0 (set_ax 0 r))) s in
  let s := on_regs (fun r => set_si 65038 (set_ds 65535 (set_ax 65535 r))) s in
  s ← a20_probe s;
  (* If equal, branch to handler *)
  let s := on_regs (set_ax 0) s in
  let s := if ZF (rg s) then s else on_regs (set_ax 1) s in
  (* Cleanup and return *)
  '(l, s) ← pops 5 s;
  match l with
  | [i; d; e; g; f] => mret (on_regs (fun r => set_fl f (set_ds g (set_es e (set_di d (set_si i r))))) s)
  | _ => Undef
  end.

(** [call a20_test; cmp ax, 0] *)
Definition a20_check s : res (bool * real S) :=
  s ← call (return_to L) a20_test s;
  let s := on_regs (fun r => cmp 16 (ax r) 0 r) s in
  mret (negb (ZF (rg s)), s).

(** If disabled, try to enable: one service of the BIOS. *)
Definition a20_try (service : Z) s : res (bool * real S) :=
  s ← bios 21 (on_regs (set_ax service) s);
  s ← call (return_to L) a20_test s;
  a20_check s.

Definition a20_enable s : res (bool * real S) :=
  '(ok, s) ← a20_check s;
  if ok : bool then mret (true, s) else
  '(ok, s) ← a20_try 9219 s;
  if ok : bool then mret (true, s) else
  '(ok, s) ← a20_try 9218 s;
  if ok : bool then mret (true, s) else
  a20_try 9217 s.

Definition stage2_setup (cr0 : Z) s : res (protected S) :=
  (* A20 disable *)
  s ← say a20_disable_msg s;
  '(ok, s) ← a20_enable s;
  if ok : bool then
    (* The A20 succeeded to enable *)
    s ← say a20_success_msg s;
    (* Load the gdt *)
    s ← say gdt_load_msg s;
    (* Switch to protected mode, and set environment vars *)
    mret (Protected (mem s) (Z.lor cr0 1) (gdtr L) 8 16 (sp (rg s)))
  else
    (* The A20 failed to enable *)
    s ← say a20_fail_msg s;
    halt s.

(** The whole of a boot sector. *)
Definition boot (packet : real S -> res (real S)) (cr0 : Z) s : res (protected S) :=
  r ← start s;
  match r with
  | inl s => halt s
  | inr s =>
      r ← load_stage2 packet s;
      match r with
      | inl s => halt s
      | inr s => stage2_setup cr0 s
      end
  end.

Definition mbr : Z -> real S -> res (protected S) := boot mbr_packet.
Definition cd_boot : Z -> real S -> res (protected S) := boot cd_packet.
End BootSector.

(** ** The data

    The [db], [dw] and [dd] lines, which are the same in both files, as bytes behind two
    addresses that the assembler chooses: of [drive_number], in the first sector, and of
    [a20_disable_msg], behind it. *)

(** A list of bytes in memory. *)
Definition bytes_at (v : Z -> Z) (a : Z) (l : list Z) : Prop :=
  forall i x, l !! i = Some x -> v (a + Z.of_nat i) = x.

(** [db "...", 0x0d, 0x0a, 0] *)
Definition message (s : String.string) : list Z := codes s ++ [13; 10].
Definition asciiz (l : list Z) : list Z := l ++ [0].

Definition hello_text : list Z := message "LoofOS booting..."%string.
Definition read_info_fail_text : list Z := message "Reading drive info failed. Halting."%string.
Definition next_stage_text : list Z := message "Loading next stage boot..."%string.
Definition stage2_load_fail_text : list Z := message "Failed to load stage2 boot. Halting."%string.
Definition stage2_load_success_text : list Z := message "Loaded stage2 boot. Jumping."%string.
Definition a20_disable_text : list Z := message "Disabling A20 line..."%string.
Definition a20_fail_text : list Z := message "A20 line disabling failed."%string.
Definition a20_success_text : list Z := message "A20 line disabled."%string.
Definition gdt_load_text : list Z := message "Loading the GDT..."%string.

(** [dw] and [dd]. *)
Definition dw (x : Z) : list Z := [x mod 256; x / 256].
Definition dd (x : Z) : list Z := dw (x mod 65536) ++ dw (x / 65536).

(** From [drive_number] to the end of [drive_parameters]. *)
Definition dap_data : list Z := [16; 0] ++ dw 0 ++ dw 0 ++ dw 0 ++ dd 0 ++ dw 0 ++ dw 0.
Definition drive_parameters_data : list Z :=
  dw 30 ++ dw 0 ++ dd 0 ++ dd 0 ++ dd 0 ++ dd 0 ++ dd 0 ++ dw 0 ++ dd 0.
Definition sector_data : list Z :=
  [0] ++ asciiz hello_text ++ asciiz read_info_fail_text ++ asciiz next_stage_text ++
  asciiz stage2_load_fail_text ++ asciiz stage2_load_success_text ++ dap_data ++ drive_parameters_data.

(** A descriptor of the table: limit, base, access, flags with the end of the limit. *)
Definition descriptor (access flags : Z) : list Z := dw 65535 ++ dw 0 ++ [0] ++ [access] ++ [flags] ++ [0].
Definition boot_gdt : list Z :=
  dd 0 ++ dd 0 ++                 (* gdt_null *)
  descriptor 154 207 ++           (* gdt_code_kernel *)
  descriptor 146 207 ++           (* gdt_data_kernel *)
  descriptor 154 143 ++           (* gdt_code_real *)
  descriptor 146 143.             (* gdt_data_real *)

(** From [a20_disable_msg], at [e], to [gdt_end]: the messages, the register for the
    table, the table. *)
Definition setup_texts : list Z :=
  asciiz a20_disable_text ++ asciiz a20_fail_text ++ asciiz a20_success_text ++ asciiz gdt_load_text.
Definition setup_data (e : Z) : list Z := setup_texts ++ dw 39 ++ dd (e + 101) ++ boot_gdt.

(** The labels, and the fields of the El Torito block of boot.s. *)
Definition sector_labels (d e ret : Z) : labels :=
  {| hello := d + 1; read_info_fail_msg := d + 21; next_stage_msg := d + 59; stage2_load_fail_msg := d + 88;
     stage2_load_success_msg := d + 127;
     a20_disable_msg := e; a20_fail_msg := e + 24; a20_success_msg := e + 53; gdt_load_msg := e + 74;
     l_drive_number := d; dap_block := d + 158; drive_parameters := d + 174; gdtr := e + 95;
     boot_location := 31756; boot_length := 31760;
     return_to := ret |}.

(** ** Reading the data *)

Lemma bytes_at_ext v w a l :
  (forall b, a <= b < a + Z.of_nat (length l) -> w b = v b) -> bytes_at v a l -> bytes_at w a l.
Proof.
  intros He H i x Hi. rewrite <- (H i x Hi). apply lookup_lt_Some in Hi. apply He. lia.
Qed.

(** A part of the data is where it starts. *)
Lemma bytes_at_part v a l k n :
  bytes_at v a l -> bytes_at v (a + Z.of_nat k) (take n (drop k l)).
Proof.
  intros H i x Hi. apply lookup_take_Some in Hi as [Hi _]. rewrite lookup_drop in Hi.
  rewrite <- (H _ _ Hi). f_equal. lia.
Qed.

Lemma bytes_at_vld v a l : bytes_at v a l -> vld (length l) v a = foldr (fun b r => b + 256 * r) 0 l.
Proof.
  revert a; induction l as [|b l IH]; intros a H; cbn [length vld foldr]; [done|].
  rewrite <- (H 0%nat b eq_refl), Z.add_0_r. do 2 f_equal. apply IH. intros i x Hi.
  rewrite <- (H (S i) x Hi). f_equal. lia.
Qed.
