(* ===== verification/BootSectorProps.v ===== *)
(** * What the boot sectors do

    Printing, the test of address line 20, the count of sectors, and the whole of both
    sectors, with the services of the BIOS as an interface ([Bios16]). *)

From S2P Require Export BootSector Real16Lemmas.

#[local] Open Scope Z_scope.

(** ** Registers *)

(** All registers hold words. *)
Definition reg_ok (r : regs16) : Prop :=
  Forall (fun v => 0 <= v < 65536) [ax r; bx r; cx r; dx r; si r; di r; bp r; sp r; ds r; es r; ss r; fl r].

Abbreviation word v := (0 <= v < 65536) (only parsing).
Lemma reg_ok_iff r : reg_ok r <->
  word (ax r) /\ word (bx r) /\ word (cx r) /\ word (dx r) /\ word (si r) /\ word (di r) /\ word (bp r) /\ word (sp r) /\
  word (ds r) /\ word (es r) /\ word (ss r) /\ word (fl r).
Proof. unfold reg_ok. rewrite !Forall_cons, Forall_nil. tauto. Qed.

Lemma lo8_with c w : 0 <= c < 256 -> lo8 (with_lo8 c w) = c.
Proof. unfold lo8, with_lo8. lia. Qed.
Lemma hi8_with c w : 0 <= c < 256 -> hi8 (with_lo8 c w) = hi8 w.
Proof. unfold hi8, with_lo8, hi8. lia. Qed.
Lemma hi8_with_hi c w : 0 <= c < 256 -> hi8 (with_hi8 c w) = c.
Proof. unfold hi8, with_hi8, lo8. lia. Qed.
Lemma lo8_with_hi c w : lo8 (with_hi8 c w) = lo8 w.
Proof. unfold lo8, with_hi8, lo8. lia. Qed.

(** What code that uses the stack leaves alone. *)
Definition same_segments (r r' : regs16) : Prop :=
  ds r' = ds r /\ es r' = es r /\ ss r' = ss r /\ sp r' = sp r /\ DF r' = DF r.

#[export] Instance same_segments_preorder : PreOrder same_segments.
Proof.
  unfold same_segments. split; [by intros r|]. intros r1 r2 r3 (A & B & C & D & E) (A' & B' & C' & D' & E').
  split_and!; congruence.
Qed.

Section Sector.
Context {S : Type} {HS : Store S} {HP : Pc S} {win : Z -> Prop} {HW : Window S win} {HPM : PcMemory}.
Context (Hwin : forall a, 0 <= a < 1114096 -> win a).
Context (bios : Z -> real S -> res (real S)).
Implicit Types (m : S) (r : regs16).

(** Memory outside of some addresses. *)
Definition frame (P : Z -> Prop) m m' : Prop := forall a, win a -> ~ P a -> view m' a = view m a.

Lemma frame_trans P m1 m2 m3 : frame P m1 m2 -> frame P m2 m3 -> frame P m1 m3.
Proof. intros H1 H2 a Ha Hn. by rewrite H2, H1. Qed.

Lemma frame_weaken (P Q : Z -> Prop) m m' : (forall a, P a -> Q a) -> frame P m m' -> frame Q m m'.
Proof. intros H F a Ha Hn. apply F; auto. Qed.

(** ** The services of the BIOS

    The teletype prints a character; the parameters of the drive, when it has them,
    are put into the buffer; the sectors of a packet are read, when they are on the
    disk.  Registers that are not documented may change. *)
Record Bios16 (drive : Z) (info : option Z) (sectors : Z) (sector : Z -> Z -> Z) : Prop := {
  tele r m : hi8 (ax r) = 14 ->
    exists m', bios 16 (Real r m) = Ok (Real r m') /\ tty m' = tty m ++ [lo8 (ax r)] /\ a20 m' = a20 m /\
      forall a, win a -> view m' a = view m a;
  drive_info r m : reg_ok r -> hi8 (ax r) = 72 -> lo8 (dx r) = drive ->
    let buf := 16 * ds r + si r in in_win win buf 30 -> vld 2 (view m) buf = 30 ->
    exists r' m', bios 19 (Real r m) = Ok (Real r' m') /\ reg_ok r' /\ same_segments r r' /\
      CF r' = bool_decide (info = None) /\ tty m' = tty m /\ a20 m' = a20 m /\
      (forall bps, info = Some bps -> vld 2 (view m') (buf + 24) = bps) /\
      frame (fun a => buf <= a < buf + 30) m m';
  drive_read r m bps : reg_ok r -> hi8 (ax r) = 66 -> lo8 (dx r) = drive -> info = Some bps ->
    let dap := 16 * ds r + si r in in_win win dap 16 -> view m dap = 16 ->
    let n := vld 2 (view m) (dap + 2) in
    let dest := 16 * vld 2 (view m) (dap + 6) + vld 2 (view m) (dap + 4) in
    let lba := vld 8 (view m) (dap + 8) in
    in_win win dest (n * bps) -> dest + n * bps <= dap \/ dap + 16 <= dest ->
    exists r' m', bios 19 (Real r m) = Ok (Real r' m') /\ reg_ok r' /\ same_segments r r' /\
      CF r' = negb (lba + n <=? sectors) /\ tty m' = tty m /\ a20 m' = a20 m /\
      (lba + n <= sectors -> forall a, dest <= a < dest + n * bps ->
         view m' a = sector (lba + (a - dest) / bps) ((a - dest) mod bps)) /\
      frame (fun a => dest <= a < dest + n * bps) m m';
}.
Context (drive : Z) (info : option Z) (sectors : Z) (sector : Z -> Z -> Z).
Context (HB : Bios16 drive info sectors sector).

(** ** Printing *)

(** A string with its end. *)
Definition zstring (v : Z -> Z) (a : Z) (l : list Z) : Prop :=
  Forall (fun c => c <> 0) l /\ (forall i : nat, (i <= length l)%nat -> v (a + Z.of_nat i) = default 0 (l !! i)).

Lemma zstring_ext v w a l :
  (forall b, a <= b <= a + Z.of_nat (length l) -> w b = v b) -> zstring v a l -> zstring w a l.
Proof. intros He [Hn Hv]. split; [done|]. intros i Hi. rewrite He by lia. by apply Hv. Qed.

(** Another state of the loop prints the rest. *)
Definition printing r m l (k : nat) r' m' : Prop :=
  si r' = si r + Z.of_nat k /\ hi8 (ax r') = 14 /\ same_segments r r' /\
  tty m' = tty m ++ take k l /\ a20 m' = a20 m /\ forall a, win a -> view m' a = view m a.

Lemma print_chars_ok r m l :
  ds r = 0 -> DF r = false -> hi8 (ax r) = 14 -> 0 <= si r -> si r + Z.of_nat (length l) < 65535 ->
  zstring (view m) (si r) l ->
  exists r' m', print_chars bios (Real r m) = Ok (Real r' m') /\ same_segments r r' /\
    tty m' = tty m ++ l /\ a20 m' = a20 m /\ forall a, win a -> view m' a = view m a.
Proof.
  intros Hds Hdf Hah H0 H1 [Hnz Hz].
  assert (exists s', print_chars bios (Real r m) = Ok s' /\ same_segments r (rg s') /\ tty (mem s') = tty m ++ l /\
    a20 (mem s') = a20 m /\ forall a, win a -> view (mem s') a = view m a) as ([r' m'] & H); [|by exists r', m'].
  apply (loop_total _ (fun s => exists k, (k <= length l)%nat /\ printing r m l k (rg s) (mem s))
    (fun s => si r + Z.of_nat (length l) - si (rg s))).
  - exists 0%nat. split; [lia|]. cbn [rg mem]. split; [lia|]. split_and!; try done. by rewrite app_nil_r.
  - rewrite budget_eq. cbn [rg]. lia.
  - intros [r' m'] (k & Hk & Hsi & Hah' & Hseg & Ht & Ha & Hv). cbn [rg mem] in *. rewrite Hsi. split; [lia|].
    pose proof Hseg as (Dd & _ & _ & _ & Df). unfold lodsb. cbn [rg mem].
    rewrite Dd, Hds, Hsi, (rb_0 Hwin r' m' (si r + Z.of_nat k)) by lia.
    set (c := view m' (si r + Z.of_nat k)). bnd. unfold on_regs. cbn [rg mem].
    assert (c = default 0 (l !! k)) as Hc by (unfold c; rewrite Hv by (apply Hwin; lia); by apply Hz).
    assert (0 <= c < 256) as Hcr by apply view_range.
    rewrite Df, Hdf. cbn [ax set_si set_ax]. rewrite cmp_ZF by (rewrite ?lo8_with by done; cbn; lia). rewrite lo8_with by done.
    set (r2 := cmp 8 c 0 (set_si (u16 (si r' + 1)) (set_ax (with_lo8 c (ax r')) r'))).
    assert (same_segments r r2) as Hs2.
    { etrans; [exact Hseg|]. unfold r2, same_segments. rewrite cmp_DF. by split_and!. }
    assert (si r2 = si r + Z.of_nat k + 1) as Hsi2.
    { unfold r2. cbn [si cmp set_fl set_si]. rewrite Hsi. apply Z.mod_small. lia. }
    destruct (Z.eqb_spec c 0) as [Hc0|Hc0].
    + eexists. split; [reflexivity|]. cbn [rg mem]. split; [exact Hs2|]. split_and!; try done.
      rewrite Ht. destruct (l !! k) as [d|] eqn:E; cbn in Hc.
      * rewrite Forall_lookup in Hnz. apply Hnz in E. cbn in E. congruence.
      * apply lookup_ge_None in E. by rewrite take_ge by lia.
    + assert (hi8 (ax r2) = 14) as Hah2 by (unfold r2; cbn [ax cmp set_fl set_si set_ax]; by rewrite hi8_with).
      destruct (tele _ _ _ _ HB r2 m' Hah2) as (m2 & E2 & T2 & A2 & V2). rewrite (bind_ok _ _ _ E2).
      eexists. split; [reflexivity|]. cbn [rg mem]. split; [|lia]. exists (Datatypes.S k).
      assert (l !! k = Some c) as Hlk.
      { destruct (l !! k) as [d|] eqn:E; cbn in Hc; congruence. }
      split; [apply lookup_lt_Some in Hlk; lia|]. split; [lia|]. split; [done|]. split; [done|]. split; [|split].
      * rewrite T2, Ht. unfold r2. cbn [ax cmp set_fl set_si set_ax]. rewrite lo8_with by done.
        rewrite (take_S_r _ _ _ Hlk). by rewrite app_assoc.
      * by rewrite A2.
      * intros a Hwa. by rewrite V2, Hv.
Qed.
(** The registers are the eight that are popped, the flags and the segments. *)
Lemma regs_restored r r2 p :
  same_segments (set_sp p r) r2 -> 
  set_di (di r) (set_si (si r) (set_bp (bp r) (set_bx (bx r) (set_dx (dx r) (set_cx (cx r) (set_ax (ax r)
    (set_sp (sp r) (set_fl (fl r) r2)))))))) = r.
Proof.
  intros (Hd & He & Hs & _ & _). destruct r, r2. cbn in *. by subst.
Qed.

Lemma print_string_ok r m l :
  reg_ok r -> ss r = 0 -> ds r = 0 -> DF r = false -> 18 <= sp r < 65534 ->
  si r + Z.of_nat (length l) < 65535 -> si r + Z.of_nat (length l) < sp r - 18 \/ sp r <= si r ->
  zstring (view m) (si r) l ->
  exists m', print_string bios (Real r m) = Ok (Real r m') /\ tty m' = tty m ++ l /\ a20 m' = a20 m /\
    frame (fun a => sp r - 18 <= a < sp r) m m'.
Proof.
  intros Hok Hss Hds Hdf Hsp Hlen Hap Hz. unfold print_string, pusha, pushf. cbn [rg].
  apply reg_ok_iff in Hok as (Ra & Rb & Rc & Rd & Rsi & Rdi & Rbp & Rsp & _ & _ & _ & Rfl).
  set (l8 := [ax r; cx r; dx r; bx r; sp r; bp r; si r; di r]).
  destruct (pushes_ok Hwin l8 r m Hss) as (m1 & E1 & O1 & W1 & V1); [cbn; lia|unfold l8; do 8 (constructor; [done|]); constructor|].
  cbn [length l8] in E1, W1, V1. change (2 * Z.of_nat 8) with 16 in E1, W1, V1. rewrite (bind_ok _ _ _ E1). cbn [rg fl set_sp].
  destruct (push_ok Hwin (fl r) (set_sp (sp r - 16) r) m1 Hss) as (m2 & E2 & O2 & V2); [cbn; lia|done|].
  cbn [sp set_sp] in E2, V2. rewrite set_sp_sp in E2. replace (sp r - 16 - 2) with (sp r - 18) in * by lia.
  rewrite (bind_ok _ _ _ E2). cbv zeta. unfold on_regs at 1. cbn [rg mem].
  set (r1 := set_ah 14 (set_bl 0 (set_bh 0 (set_sp (sp r - 18) r)))).
  assert (forall b, win b -> b < sp r - 18 \/ sp r <= b -> view m2 b = view m b) as F2.
  { intros b Hb Hbo. rewrite V2 by done. rewrite vst_out by lia. apply V1; [done|lia]. }
  destruct (print_chars_ok r1 m2 l) as (r2 & m3 & E3 & S3 & T3 & A3 & V3); [done|done| |exact (proj1 Rsi)|exact Hlen| |].
  { apply hi8_with_hi. lia. }
  { apply (zstring_ext (view m)); [|done]. intros b Hb. change (si r1) with (si r) in Hb. apply F2; [apply Hwin; lia|lia]. }
  rewrite (bind_ok _ _ _ E3). pose proof S3 as (_ & _ & Ss & Sp & _). change (ss r1) with (ss r) in Ss. change (sp r1) with (sp r - 18) in Sp.
  unfold popf. rewrite (bind_ok _ _ _ (pop_ok Hwin r2 m3 ltac:(congruence) ltac:(lia))). cbn beta iota.
  rewrite Sp. replace (sp r - 18 + 2) with (sp r - 16) by lia.
  assert (vld 2 (view m3) (sp r - 18) = fl r) as ->.
  { rewrite (vld_ext 2 _ (vst 2 (view m1) (sp r - 18) (fl r))).
    - rewrite vld_vst_same. apply Z.mod_small. change (8 * Z.of_nat 2) with 16. lia.
    - intros b Hb. rewrite V3 by (apply Hwin; lia). apply V2, Hwin. lia. }
  bnd. unfold on_regs. cbn [rg mem]. unfold popa.
  assert (words_at (view m3) (sp r - 16) (rev l8)) as W3.
  { apply (words_at_ext (view m1)); [|done]. intros b Hb. cbn in Hb. rewrite V3, V2 by (apply Hwin; lia).
    by rewrite vst_out by lia. }
  rewrite (bind_ok _ _ _ (pops_ok Hwin (rev l8) (set_fl (fl r) (set_sp (sp r - 16) r2)) m3 ltac:(cbn; congruence)
    ltac:(cbn; lia) ltac:(cbn; lia) W3)). cbn [rev app l8]. unfold on_regs. cbn [rg mem].
  exists m3. split.
  - unfold mret, res_ret. do 2 f_equal. cbn [sp set_sp set_fl length]. replace (sp r - 16 + 2 * Z.of_nat 8) with (sp r) by lia.
    apply (regs_restored r r2 (sp r - 18)). exact S3.
  - split; [by rewrite T3, (pc_tty _ _ O2), (pc_tty _ _ O1)|].
    split; [by rewrite A3, (pc_a20 _ _ O2), (pc_a20 _ _ O1)|].
    intros a Ha Hn. rewrite V3 by done. apply F2; [done|lia].
Qed.
(** ** Address line 20 *)

(** A word that is put back. *)
Lemma vst_vld v w a b :
  (forall x, 0 <= v x < 256) -> a <= b < a + 2 -> vst 2 w a (vld 2 v a) b = v b.
Proof.
  intros Hv Hb. pose proof (Hv a). pose proof (Hv (a + 1)). unfold vst. rewrite decide_True by lia. cbn [vld].
  rewrite Z.mul_0_r, Z.add_0_r. assert (b = a \/ b = a + 1) as [-> | ->] by lia.
  - rewrite Z.sub_diag. change (2 ^ (8 * 0)) with 1. lia.
  - replace (a + 1 - a) with 1 by lia. change (2 ^ (8 * 1)) with 256. lia.
Qed.

(** Two words that are changed and put back in the other order. *)
Lemma put_back f a h x y b :
  (forall c, 0 <= f c < 256) -> vst 2 (vst 2 (vst 2 (vst 2 f a x) h y) h (vld 2 f h)) a (vld 2 f a) b = f b.
Proof.
  intros Hf. destruct (decide (a <= b < a + 2)); [by apply vst_vld|].
  unfold vst at 1. rewrite decide_False by (cbn; lia). destruct (decide (h <= b < h + 2)); [by apply vst_vld|].
  by rewrite !vst_out by (cbn; lia).
Qed.

(** The second address of the test: 32 KiB above the one that wraps to the first. *)
Definition high_address (enabled : bool) : Z := if enabled then 1113598 else 65022.

Lemma linear_high m : linear m 65535 65038 = high_address (a20 m) /\
  linear m 65535 (u16 (65038 + 1)) = high_address (a20 m) + 1.
Proof. unfold linear. by destruct (a20 m). Qed.

Lemma high_address_cases b : high_address b = 1113598 \/ high_address b = 65022.
Proof. destruct b; auto. Qed.

Lemma word_range m a : 0 <= vld 2 (view m) a < 65536.
Proof. apply (vld_range 2), view_range. Qed.

(** A store to the high word. *)
Lemma ww_high r m y h :
  h = high_address (a20 m) -> 0 <= y < 65536 ->
  exists m', ww 65535 65038 y (Real r m) = Ok (Real r m') /\ outside m m' /\ h = high_address (a20 m') /\
    forall b, win b -> view m' b = vst 2 (view m) h y b.
Proof.
  intros -> Hy. destruct (linear_high m) as [L0 L1]. pose proof (high_address_cases (a20 m)).
  destruct (ww_at Hwin 65535 65038 _ y r m L0 L1) as (m' & E & O & V); [lia|done|].
  exists m'. rewrite (pc_a20 _ _ O). by split_and!.
Qed.

(** Neither write is seen at the other word, whether the line is enabled or not. *)
Lemma a20_compare_ok r m v w :
  ss r = 0 -> 0 <= sp r -> sp r + 4 <= 32254 -> ds r = 65535 -> es r = 0 -> di r = 32254 -> si r = 65038 ->
  words_at (view m) (sp r) [w; v] -> vld 2 (view m) 32254 = v -> vld 2 (view m) (high_address (a20 m)) = w ->
  exists m' f, a20_compare (Real r m) = Ok (Real (set_fl f (set_ax v (set_sp (sp r + 4) r))) m') /\
    Z.testbit f 6 = false /\ outside m m' /\ forall a, win a -> view m' a = view m a.
Proof.
  intros Hss Hsp0 Hsp Hds Hes Hdi Hsi Hst Hv Hw. unfold a20_compare. cbn [rg].
  set (h := high_address (a20 m)) in *. pose proof (high_address_cases (a20 m)) as Hh. fold h in Hh.
  rewrite Hes, Hdi. destruct (ww_0 Hwin r m 32254 0) as (m1 & E1 & O1 & V1); [lia|lia|]. rewrite (bind_ok _ _ _ E1).
  cbn [rg]. rewrite Hds, Hsi.
  destruct (ww_high r m1 20073 h) as (m2 & E2 & O2 & A2 & V2); [by rewrite (pc_a20 _ _ O1)|lia|]. rewrite (bind_ok _ _ _ E2).
  assert (forall b, win b -> view m2 b = vst 2 (vst 2 (view m) 32254 0) h 20073 b) as V
    by (intros b Hb; rewrite V2 by done; by apply vst_ext, V1).
  cbn [rg]. rewrite Hes, Hdi, (bind_ok _ _ _ (rw_0 Hwin r m2 32254 ltac:(lia))).
  assert (vld 2 (view m2) 32254 = 0) as ->.
  { rewrite (vld_ext 2 _ (vst 2 (vst 2 (view m) 32254 0) h 20073)) by (intros b Hb; apply V, Hwin; lia).
    rewrite vld_vst_other by lia. by rewrite vld_vst_same. }
  assert (words_at (view m2) (sp r) [w; v]) as W2.
  { apply (words_at_ext (view m)); [|done]. intros b Hb. cbn in Hb. rewrite V by (apply Hwin; lia).
    by rewrite !vst_out by lia. }
  cbv zeta. unfold on_regs at 1. cbn [rg mem]. set (f := fl (cmp 16 0 20073 r)).
  change (cmp 16 0 20073 r) with (set_fl f r).
  assert (Z.testbit f 6 = false) as Hf by (apply (cmp_ZF 16 0 20073 r); lia).
  pose proof (W2 0%nat w eq_refl) as Ww. pose proof (W2 1%nat v eq_refl) as Wv. rewrite Z.add_0_r in Ww. change (2 * Z.of_nat 1) with 2 in Wv.
  rewrite (bind_ok _ _ _ (pop_ok Hwin (set_fl f r) m2 Hss ltac:(cbn; lia))). cbn beta iota. cbn [sp set_fl]. rewrite Ww.
  unfold on_regs at 1. cbn [rg mem ds si set_ax set_sp set_fl]. rewrite Hds, Hsi.
  destruct (ww_high (set_ax w (set_sp (sp r + 2) (set_fl f r))) m2 w h A2) as (m3 & E3 & O3 & _ & V3); [rewrite <- Hw; apply word_range|].
  rewrite (bind_ok _ _ _ E3).
  rewrite (bind_ok _ _ _ (pop_ok Hwin (set_ax w (set_sp (sp r + 2) (set_fl f r))) m3 Hss ltac:(cbn; lia))). cbn beta iota.
  cbn [sp set_fl set_ax set_sp]. rewrite (vld_ext 2 _ (view m2)), Wv
    by (intros b Hb; rewrite V3 by (apply Hwin; lia); unfold vst; by rewrite decide_False by lia).
  cbn [on_regs rg mem es di set_ax set_sp set_fl]. rewrite Hes, Hdi.
  destruct (ww_0 Hwin (set_ax v (set_sp (sp r + 2 + 2) (set_ax w (set_sp (sp r + 2) (set_fl f r))))) m3 32254 v)
    as (m4 & E4 & O4 & V4); [lia|rewrite <- Hv; apply word_range|].
  exists m4, f. split; [|split; [done|split]].
  - rewrite E4. replace (sp r + 2 + 2) with (sp r + 4) by lia. by destruct r.
  - etrans; [exact O1|]. etrans; [exact O2|]. by etrans.
  - intros b Hb. transitivity (vst 2 (vst 2 (vst 2 (vst 2 (view m) 32254 0) h 20073) h w) 32254 v b).
    + rewrite V4 by done. apply vst_ext. rewrite V3 by done. by apply vst_ext, V.
    + rewrite <- Hv, <- Hw. apply put_back. apply view_range.
Qed.
Lemma a20_probe_ok r m :
  ss r = 0 -> 4 <= sp r <= 32254 -> ds r = 65535 -> es r = 0 -> di r = 32254 -> si r = 65038 ->
  exists m' f v, a20_probe (Real r m) = Ok (Real (set_fl f (set_ax v r)) m') /\
    Z.testbit f 6 = false /\ outside m m' /\ frame (fun a => sp r - 4 <= a < sp r) m m'.
Proof.
  intros Hss Hsp Hds Hes Hdi Hsi. unfold a20_probe. cbn [rg]. rewrite Hes, Hdi.
  rewrite (bind_ok _ _ _ (rw_0 Hwin r m 32254 ltac:(lia))). set (v := vld 2 (view m) 32254). cbn [on_regs rg mem].
  pose proof (high_address_cases (a20 m)) as Hh.
  destruct (push_ok Hwin v (set_ax v r) m Hss ltac:(cbn; lia) (word_range m 32254)) as (m1 & E1 & O1 & V1).
  rewrite (bind_ok _ _ _ E1). cbn [rg ds si set_ax set_sp sp] in *. rewrite Hds, Hsi.
  destruct (linear_high m1) as [L0 L1]. rewrite (pc_a20 _ _ O1) in L0, L1. set (h := high_address (a20 m)) in *.
  rewrite (bind_ok _ _ _ (rw_at Hwin 65535 65038 h _ m1 L0 L1 ltac:(lia))). set (w := vld 2 (view m1) h).
  cbn [on_regs rg mem].
  destruct (push_ok Hwin w (set_ax w (set_sp (sp r - 2) (set_ax v r))) m1 Hss ltac:(cbn; lia) (word_range m1 h)) as (m2 & E2 & O2 & V2).
  rewrite (bind_ok _ _ _ E2). cbn [rg es di ds si set_ax set_sp sp] in *. replace (sp r - 2 - 2) with (sp r - 4) in * by lia.
  assert (forall b, win b -> view m2 b = vst 2 (vst 2 (view m) (sp r - 2) v) (sp r - 4) w b) as V
    by (intros b Hb; rewrite V2 by done; by apply vst_ext, V1).
  set (r2 := set_sp (sp r - 4) (set_ax w (set_sp (sp r - 2) (set_ax v r)))) in *.
  assert (forall a n x, 0 <= a -> a + Z.of_nat n <= 1114096 -> vld n (vst 2 (vst 2 (view m) (sp r - 2) v) (sp r - 4) w) a = x ->
    vld n (view m2) a = x) as Vl by (intros a n x Ha0 Ha1 <-; apply vld_ext; intros b Hb; apply V, Hwin; lia).
  destruct (a20_compare_ok r2 m2 v w) as (m3 & f & E3 & Hf & O3 & V3); try done; cbn [sp r2 set_sp].
  - lia.
  - lia.
  - intros [|[|i]] x Hx; [..|done]; injection Hx as <-; apply Vl; try lia.
    + rewrite Z.add_0_r, vld_vst_same. apply Z.mod_small, (word_range m1).
    + replace (sp r - 4 + 2 * Z.of_nat 1) with (sp r - 2) by lia. rewrite vld_vst_other, vld_vst_same by lia.
      apply Z.mod_small, (word_range m).
  - apply Vl; [lia|lia|]. by rewrite !vld_vst_other by lia.
  - rewrite (pc_a20 _ _ O2), (pc_a20 _ _ O1). apply Vl; [lia|lia|]. rewrite vld_vst_other by lia.
    apply vld_ext. intros b Hb. symmetry. apply V1, Hwin. lia.
  - exists m3, f, v. split; [|split; [done|split]].
    + rewrite E3. cbn [sp r2 set_sp]. replace (sp r - 4 + 4) with (sp r) by lia. by destruct r.
    + etrans; [exact O1|]. by etrans.
    + intros b Hb Hn. rewrite V3, V by done. by rewrite !vst_out by lia.
Qed.

(** The test changes AX and what is below its stack. *)
Lemma a20_test_ok r m :
  reg_ok r -> ss r = 0 -> 14 <= sp r <= 32254 ->
  exists m', a20_test (Real r m) = Ok (Real (set_ax 1 r) m') /\ outside m m' /\
    frame (fun a => sp r - 14 <= a < sp r) m m'.
Proof.
  intros Hok Hss Hsp. unfold a20_test. cbn [rg]. cbv zeta.
  apply reg_ok_iff in Hok as (_ & _ & _ & _ & Rsi & Rdi & _ & _ & Rds & Res & _ & Rfl).
  destruct (pushes_ok Hwin [fl r; ds r; es r; di r; si r] r m Hss) as (m1 & E1 & O1 & W1 & V1);
    [cbn; lia|do 5 (constructor; [done|]); constructor|].
  cbn [length rev app] in E1, W1, V1. change (2 * Z.of_nat 5) with 10 in *. rewrite (bind_ok _ _ _ E1). cbn [on_regs rg mem].
  set (r1 := set_si 65038 (set_ds 65535 (set_ax 65535 (set_di 32254 (set_es 0 (set_ax 0 (set_sp (sp r - 10) r))))))).
  destruct (a20_probe_ok r1 m1) as (m2 & f & v & E2 & Hf & O2 & F2); [done|cbn; lia|done..|].
  rewrite (bind_ok _ _ _ E2). cbn [on_regs rg mem].
  assert (ZF (set_ax 0 (set_fl f (set_ax v r1))) = false) as -> by exact Hf. cbn [on_regs rg mem].
  set (r2 := set_ax 1 (set_ax 0 (set_fl f (set_ax v r1)))).
  assert (words_at (view m2) (sp r2) [si r; di r; es r; ds r; fl r]) as W2.
  { apply (words_at_ext (view m1)); [|done]. intros b Hb. cbn in Hb. apply F2; [apply Hwin; lia|cbn; lia]. }
  rewrite (bind_ok _ _ _ (pops_ok Hwin [si r; di r; es r; ds r; fl r] r2 m2 Hss ltac:(cbn; lia) ltac:(cbn; lia) W2)).
  cbn [on_regs rg mem]. exists m2. split; [|split].
  - unfold mret, res_ret. do 2 f_equal. cbn [sp r2 r1 set_ax set_fl set_si set_ds set_di set_es set_sp length].
    replace (sp r - 10 + 2 * Z.of_nat 5) with (sp r) by lia. by destruct r.
  - by etrans.
  - intros b Hb Hn. rewrite F2 by (done || (cbn; lia)). apply V1; [done|lia].
Qed.
End Sector.
