(* ===== verification/BootStart.v ===== *)
(** * The boot sectors: from the start to the read of the rest

    Setting up, the messages, the parameters of the drive, the count of the sectors and
    the packet for the read, of boot/x86/mbr.s and boot/x86/boot.s. *)

From S2P Require Export BootSector BootSectorProps.

#[local] Open Scope Z_scope.

(** ** Texts *)

Lemma text_at v a data k l :
  bytes_at v a data -> take (S (length l)) (drop k data) = asciiz l -> Forall (fun c => c <> 0) l ->
  zstring v (a + Z.of_nat k) l.
Proof.
  intros H He Hl. split; [done|]. intros i Hi. pose proof (bytes_at_part v a data k (S (length l)) H) as Hp.
  rewrite He in Hp. apply Hp. unfold asciiz. destruct (decide (i < length l)%nat).
  - rewrite lookup_app_l by done. destruct (lookup_lt_is_Some_2 l i) as [x ->]; done.
  - rewrite lookup_app_r, (lookup_ge_None_2 l i) by lia. by replace (i - length l)%nat with 0%nat by lia.
Qed.

(** A message of the first sector, at its offset. *)
Definition is_text (k : nat) (txt : list Z) : Prop :=
  (1 <= k)%nat /\ (k + length txt < 158)%nat /\ take (S (length txt)) (drop k sector_data) = asciiz txt /\
  Forall (fun c => c <> 0) txt.
#[export] Instance is_text_dec k txt : Decision (is_text k txt).
Proof. unfold is_text. apply _. Defined.
Ltac is_text :=
  match goal with |- is_text ?k ?t => apply (bool_decide_unpack (is_text k t)); vm_compute; exact I end.

(** ** Registers *)

(** The registers that all of the code after the setup has. *)
Definition ready (r : regs16) : Prop :=
  reg_ok r /\ ds r = 0 /\ es r = 0 /\ ss r = 0 /\ sp r = 31744 /\ DF r = false.

Lemma ready_same r r' : ready r -> reg_ok r' -> same_segments r r' -> ready r'.
Proof.
  intros (_ & Hd & He & Hs & Hp & Hf) Hok (Hd' & He' & Hs' & Hp' & Hf'). unfold ready. split_and!; congruence.
Qed.

Lemma reg_ok_set_ax v r : reg_ok r -> word v -> reg_ok (set_ax v r).
Proof. rewrite !reg_ok_iff. cbn. tauto. Qed.
Lemma reg_ok_set_cx v r : reg_ok r -> word v -> reg_ok (set_cx v r).
Proof. rewrite !reg_ok_iff. cbn. tauto. Qed.
Lemma reg_ok_set_dx v r : reg_ok r -> word v -> reg_ok (set_dx v r).
Proof. rewrite !reg_ok_iff. cbn. tauto. Qed.
Lemma reg_ok_set_si v r : reg_ok r -> word v -> reg_ok (set_si v r).
Proof. rewrite !reg_ok_iff. cbn. tauto. Qed.
Lemma reg_ok_set_fl v r : reg_ok r -> word v -> reg_ok (set_fl v r).
Proof. rewrite !reg_ok_iff. cbn. tauto. Qed.

Lemma ready_set_ax v r : ready r -> word v -> ready (set_ax v r).
Proof. intros (Hok & H) Hv. split; [by apply reg_ok_set_ax|exact H]. Qed.
Lemma ready_set_cx v r : ready r -> word v -> ready (set_cx v r).
Proof. intros (Hok & H) Hv. split; [by apply reg_ok_set_cx|exact H]. Qed.
Lemma ready_set_dx v r : ready r -> word v -> ready (set_dx v r).
Proof. intros (Hok & H) Hv. split; [by apply reg_ok_set_dx|exact H]. Qed.
Lemma ready_set_si v r : ready r -> word v -> ready (set_si v r).
Proof. intros (Hok & H) Hv. split; [by apply reg_ok_set_si|exact H]. Qed.

(** The field of a register in [reg_ok]. *)
Lemma ready_ax r : ready r -> 0 <= ax r < 65536.
Proof. intros [Hok%reg_ok_iff _]. tauto. Qed.
Lemma ready_cx r : ready r -> 0 <= cx r < 65536.
Proof. intros [Hok%reg_ok_iff _]. tauto. Qed.
Lemma ready_dx r : ready r -> 0 <= dx r < 65536.
Proof. intros [Hok%reg_ok_iff _]. tauto. Qed.
Lemma ready_fl r : ready r -> 0 <= fl r < 65536.
Proof. intros [Hok%reg_ok_iff _]. tauto. Qed.

#[export] Hint Resolve ready_set_ax ready_set_cx ready_set_dx ready_set_si : loof.

(** Flags stay flags. *)
Lemma put_bit_range k b f : 0 <= k < 16 -> 0 <= f < 65536 -> 0 <= put_bit k b f < 65536.
Proof.
  intros Hk Hf. change 65536 with (2 ^ 16) in *. destruct b; cbn [put_bit].
  - rewrite Z.setbit_spec'. split; [apply Z.lor_nonneg; split; [lia|apply Z.pow_nonneg; lia]|].
    apply Z.log2_lt_cancel. rewrite Z.log2_lor by (try apply Z.pow_nonneg; lia). rewrite Z.log2_pow2, Z.log2_pow2 by lia.
    assert (Z.log2 f < 16) by (destruct (decide (f = 0)) as [->|]; [cbn; lia|apply Z.log2_lt_pow2; lia]). lia.
  - rewrite Z.clearbit_spec', Z.ldiff_land. pose proof (Z.land_nonneg f (Z.lnot (2 ^ k))) as [_ H0].
    split; [apply H0; lia|]. rewrite <- Z.ldiff_land. assert (Z.ldiff f (2 ^ k) <= f); [|lia].
    apply Z.ldiff_le; [lia|]. rewrite (Z.ldiff_ldiff_l). apply Z.bits_inj'. intros n Hn.
    rewrite Z.ldiff_spec, Z.lor_spec, Z.bits_0. destruct (Z.testbit f n), (Z.testbit (2 ^ k) n); done.
Qed.

Lemma result_flags_range w x f : 0 <= f < 65536 -> 0 <= result_flags w x f < 65536.
Proof. intros Hf. unfold result_flags. repeat (apply put_bit_range; [lia|]). done. Qed.
Lemma ready_cmp w a b r : ready r -> ready (cmp w a b r).
Proof.
  intros Hr. pose proof (ready_fl r Hr). destruct Hr as (Hok & Hd & He & Hs & Hp & Hf).
  split; [|split_and!; try done; by rewrite cmp_DF]. apply reg_ok_set_fl; [done|].
  apply result_flags_range. repeat (apply put_bit_range; [lia|]). done.
Qed.
Lemma ready_inc_ax r : ready r -> ready (inc_ax r).
Proof.
  intros Hr. pose proof (ready_fl r Hr). destruct Hr as (Hok & Hd & He & Hs & Hp & Hf).
  split; [|split_and!; try done; by rewrite inc_ax_DF].
  apply reg_ok_set_ax; [apply reg_ok_set_fl; [done|]|apply Z.mod_pos_bound; lia].
  apply result_flags_range. repeat (apply put_bit_range; [lia|]). done.
Qed.
Lemma ready_add_ax b r : ready r -> ready (add_ax b r).
Proof.
  intros Hr. pose proof (ready_fl r Hr). destruct Hr as (Hok & Hd & He & Hs & Hp & Hf).
  split; [|split_and!; try done; by rewrite add_ax_DF].
  apply reg_ok_set_ax; [apply reg_ok_set_fl; [done|]|apply Z.mod_pos_bound; lia].
  apply result_flags_range. repeat (apply put_bit_range; [lia|]). done.
Qed.
Lemma ready_shr_flags a r : ready r -> ready (shr_flags a r).
Proof.
  intros Hr. pose proof (ready_fl r Hr). destruct Hr as (Hok & Hd & He & Hs & Hp & Hf).
  split; [|split_and!; try done; by rewrite shr_flags_DF]. apply reg_ok_set_fl; [done|].
  apply result_flags_range. repeat (apply put_bit_range; [lia|]). done.
Qed.
Lemma ready_shr r : ready r -> ready (shr_cx (shr_ax r)).
Proof.
  intros Hr. pose proof (ready_ax r Hr). pose proof (ready_cx r Hr). unfold shr_cx, shr_ax.
  apply ready_set_cx; [|change (0 <= cx r / 2 < 65536); lia]. apply ready_shr_flags, ready_set_ax; [|lia].
  by apply ready_shr_flags.
Qed.
Lemma ready_set_ah v r : ready r -> 0 <= v < 256 -> ready (set_ah v r).
Proof. intros Hr Hv. apply ready_set_ax; [done|]. unfold with_hi8, lo8. lia. Qed.

#[export] Hint Resolve ready_cmp ready_inc_ax ready_add_ax ready_set_ah : loof.

(** ** The count of the sectors *)

(** AX is shifted as often as CX has to be to reach the size of a block; the loop does
    not end when it never does. *)
Lemma sector_size_loop_ok {S} size k r (m : S) :
  0 < size < 65536 -> 0 <= k -> ready r -> cx r / 2 ^ k = size ->
  exists r', sector_size_loop size (Real r m) = Ok (Real r' m) /\ ready r' /\ ax r' = ax r / 2 ^ k.
Proof.
  intros Hs Hk Hr Hc. unfold sector_size_loop.
  destruct (loop_total (R := real S) (fun s : real S =>
      let s := on_regs (fun r => cmp 16 (cx r) size r) s in
      if ZF (rg s) then mret (inr s) else mret (inl (on_regs (fun r => shr_cx (shr_ax r)) s)))
    (fun s => mem s = m /\ ready (rg s) /\ exists j, 0 <= j <= k /\ cx (rg s) / 2 ^ j = size /\ ax (rg s) / 2 ^ j = ax r / 2 ^ k)
    (fun s => cx (rg s)) (fun s => mem s = m /\ ready (rg s) /\ ax (rg s) = ax r / 2 ^ k) (Real r m))
    as ([r' m'] & E & Em & Hr' & Ha).
  - cbn [rg mem]. split; [done|]. split; [done|]. exists k. split; [lia|done].
  - pose proof (ready_cx r Hr). rewrite budget_eq. cbn [rg]. lia.
  - intros [t mt] (Em & Ht & j & Hj & Ej & Ea). cbn [rg mem] in *. subst mt. pose proof (ready_cx t Ht) as Hct. split; [lia|].
    cbn zeta. cbn [on_regs rg mem]. rewrite cmp_ZF by (cbn; lia). destruct (Z.eqb_spec (cx t) size) as [Hq|Hq].
    + eexists. split; [reflexivity|]. cbn [on_regs rg mem]. split; [done|]. split; [by apply ready_cmp|].
      change (ax t = ax r / 2 ^ k). rewrite <- Ea. destruct (decide (j = 0)) as [->|]; [by rewrite Z.pow_0_r, Z.div_1_r|].
      pose proof (pow2_le 1 j ltac:(lia)) as Hp. change (2 ^ 1) with 2 in Hp.
      pose proof (Z.div_lt (cx t) (2 ^ j) ltac:(lia) ltac:(lia)). lia.
    + eexists. split; [reflexivity|]. cbn [on_regs rg mem]. set (c := cmp 16 (cx t) size t).
      change (cx (shr_cx (shr_ax c))) with (cx t / 2). change (ax (shr_cx (shr_ax c))) with (ax t / 2).
      destruct (decide (j = 0)) as [->|]; [rewrite Z.pow_0_r, Z.div_1_r in Ej; lia|].
      assert (forall z, z / 2 / 2 ^ (j - 1) = z / 2 ^ j) as Hdiv.
      { intros z. rewrite Z.div_div by (try apply Z.pow_pos_nonneg; lia). f_equal.
        replace j with ((j - 1) + 1) at 2 by lia. by rewrite pow2_succ by lia. }
      split.
      * split; [done|]. split; [by apply ready_shr, ready_cmp|]. exists (j - 1). rewrite !Hdiv. split; [lia|done].
      * assert (0 < cx t); [|lia]. destruct (decide (cx t = 0)) as [E0|]; [|lia].
        rewrite E0, Z.div_0_l in Ej by (apply Z.pow_nonzero; lia). lia.
  - cbn [rg mem] in *. subst m'. by exists r'.
Qed.

Lemma sector_size_loop_diverges {S} size r (m : S) :
  0 < size < 65536 -> ready r -> (forall k, 0 <= k -> cx r / 2 ^ k <> size) ->
  sector_size_loop size (Real r m) = Diverge.
Proof.
  intros Hs Hr Hne. unfold sector_size_loop.
  apply (loop_diverges (R := real S) _ (fun s => ready (rg s) /\ forall k, 0 <= k -> cx (rg s) / 2 ^ k <> size)); [done|].
  intros [t mt] [Ht Hk]. cbn zeta. cbn [on_regs rg mem] in *. pose proof (ready_cx t Ht). rewrite cmp_ZF by (cbn; lia).
  destruct (Z.eqb_spec (cx t) size) as [Hq|Hq].
  - exfalso. apply (Hk 0); [lia|]. by rewrite Z.pow_0_r, Z.div_1_r.
  - eexists. split; [reflexivity|]. cbn [on_regs rg mem]. split; [by apply ready_shr, ready_cmp|].
    intros k Hk0. change (cx t / 2 / 2 ^ k <> size). rewrite Z.div_div by (try apply Z.pow_pos_nonneg; lia).
    rewrite <- pow2_succ by done. apply Hk. lia.
Qed.

(** ** Steps *)

Section Steps.
Context {S : Type} {HS : Store S} {HP : Pc S} {win : Z -> Prop} {HW : Window S win} {HPM : PcMemory}.
Context (Hwin : forall a, 0 <= a < 1114096 -> win a).
Context (bios : Z -> real S -> res (real S)).
Context (drive : Z) (info : option Z) (sectors : Z) (sector : Z -> Z -> Z).
Context (HB : Bios16 (win := win) bios drive info sectors sector).
Context (d e ret : Z).
#[local] Abbreviation L := (sector_labels d e ret).
Implicit Types (m : S) (r : regs16).

(** Where calls put their data. *)
Definition stack (a : Z) : Prop := 31724 <= a < 31744.

(** What is printed, and which memory may change. *)
Definition does (P : Z -> Prop) (l : list Z) m m' : Prop :=
  tty m' = tty m ++ l /\ a20 m' = a20 m /\ frame (win := win) P m m'.

Lemma does_trans P l1 l2 m1 m2 m3 : does P l1 m1 m2 -> does P l2 m2 m3 -> does P (l1 ++ l2) m1 m3.
Proof.
  intros (T1 & A1 & F1) (T2 & A2 & F2). split; [by rewrite T2, T1, app_assoc|]. split; [congruence|].
  by eapply frame_trans.
Qed.

Lemma does_weaken (P Q : Z -> Prop) l m m' : (forall a, P a -> Q a) -> does P l m m' -> does Q l m m'.
Proof. intros H (T & A & F). split; [done|]. split; [done|]. by eapply frame_weaken. Qed.

Lemma does_view P l m m' a : does P l m m' -> 0 <= a < 1114096 -> ~ P a -> view m' a = view m a.
Proof. intros (_ & _ & F) Ha Hn. apply F; [by apply Hwin|done]. Qed.

Lemma does_vld P l n m m' a : does P l m m' -> 0 <= a -> a + Z.of_nat n <= 1114096 ->
  (forall b, a <= b < a + Z.of_nat n -> ~ P b) -> vld n (view m') a = vld n (view m) a.
Proof. intros HD H0 H1 Hn. apply vld_ext. intros b Hb. eapply does_view; [done|lia|auto]. Qed.

Lemma does_bytes P l m m' a data : does P l m m' -> 0 <= a -> a + Z.of_nat (length data) <= 1114096 ->
  (forall b, a <= b < a + Z.of_nat (length data) -> ~ P b) -> bytes_at (view m) a data -> bytes_at (view m') a data.
Proof. intros HD H0 H1 Hn. apply bytes_at_ext. intros b Hb. eapply does_view; [done|lia|auto]. Qed.

(** [mov [a], ax], [mov ax, [a]], [mov cx, [a]] and [mov dl, [a]] *)
Lemma store_ax_ok a r m :
  ready r -> 0 <= a < 65535 ->
  exists m', store_ax a (Real r m) = Ok (Real r m') /\ outside m m' /\
    forall b, win b -> view m' b = vst 2 (view m) a (ax r) b.
Proof.
  intros Hr Ha. pose proof (ready_ax r Hr). unfold store_ax. cbn [rg]. destruct Hr as (_ & -> & _). by apply ww_0.
Qed.

Lemma load_ax_ok a r m : ready r -> 0 <= a < 65535 ->
  load_ax a (Real r m) = Ok (Real (set_ax (vld 2 (view m) a) r) m).
Proof. intros (_ & Hd & _) Ha. unfold load_ax. cbn [rg]. by rewrite Hd, (bind_ok _ _ _ (rw_0 Hwin r m a Ha)). Qed.
Lemma load_cx_ok a r m : ready r -> 0 <= a < 65535 ->
  load_cx a (Real r m) = Ok (Real (set_cx (vld 2 (view m) a) r) m).
Proof. intros (_ & Hd & _) Ha. unfold load_cx. cbn [rg]. by rewrite Hd, (bind_ok _ _ _ (rw_0 Hwin r m a Ha)). Qed.
Lemma load_dl_ok a r m : ready r -> 0 <= a < 65535 ->
  load_dl a (Real r m) = Ok (Real (set_dx (with_lo8 (view m a) (dx r)) r) m).
Proof.
  intros (_ & Hd & _) Ha. unfold load_dl. cbn [rg]. by rewrite Hd, (bind_ok _ _ _ (rb_0 Hwin r m a ltac:(lia))).
Qed.

Lemma ready_dl r v : ready r -> 0 <= v < 256 -> ready (set_dx (with_lo8 v (dx r)) r).
Proof. intros Hr Hv. pose proof (ready_dx r Hr). apply ready_set_dx; [done|]. unfold with_lo8, hi8. lia. Qed.

Context (Hret : 0 <= ret < 65536).

(** [lea si, [message]; call print_string] *)
Lemma say_ok message r m l :
  ready r -> 31744 <= message L -> message L + Z.of_nat (length l) < 65535 -> zstring (view m) (message L) l ->
  exists m', say L bios message (Real r m) = Ok (Real (set_si (message L) r) m') /\ does stack l m m'.
Proof.
  intros Hr H0 H1 Hz. unfold say. cbn [on_regs rg mem]. pose proof Hr as (_ & Hd & He & Hs & Hp & Hf).
  set (r1 := set_si (message L) r). assert (ready r1) as Hr1 by (apply ready_set_si; [done|lia]).
  apply (call_ok Hwin ret _ r1 r1); try done.
  - change (2 <= sp r < 65536). lia.
  - intros m1 O1 V1. change (sp r1) with (sp r) in *. rewrite Hp in *.
    destruct (print_string_ok Hwin bios drive info sectors sector HB (set_sp (31744 - 2) r1) m1 l)
      as (m2 & E & T & A & F); try done; cbn [sp set_sp]; [|right; change (31744 - 2 <= message L); lia| |].
    + destruct Hr1 as [Hok _]. rewrite !reg_ok_iff in *. cbn in *. intuition lia.
    + change (si (set_sp (31744 - 2) r1)) with (message L). apply (zstring_ext (view m)); [|done].
      intros b Hb. apply V1; [apply Hwin|]; lia.
    + exists m2. rewrite E. split; [done|]. cbn [sp set_sp] in F. split.
      * intros b Hb Hbb. apply F; [done|lia].
      * split; [by rewrite T, (pc_tty _ _ O1)|]. split; [by rewrite A, (pc_a20 _ _ O1)|].
        intros b Hb Hn. unfold stack in Hn. rewrite F by (done || lia). apply V1; [done|lia].
Qed.

(** ** The start *)

Section Start.
Context (Hd0 : 31744 < d) (Hd1 : d + 204 <= 32256).

(** The parameters of the drive, in the data. *)
Definition params (a : Z) : Prop := d + 174 <= a < d + 204.

(** The messages stay. *)
Lemma say_text P message k txt l r m m' :
  ready r -> bytes_at (view m) d sector_data -> does P l m m' -> (forall a, d < a < d + 158 -> ~ P a) ->
  message L = d + Z.of_nat k -> is_text k txt ->
  exists m'', say L bios message (Real r m') = Ok (Real (set_si (message L) r) m'') /\ does stack txt m' m''.
Proof.
  intros Hr Hm HD HP' Hmsg (Hk & Hl & He & Hnz). apply (say_ok message r m' txt Hr); [lia|lia|].
  rewrite Hmsg. apply (zstring_ext (view m)); [|by apply (text_at _ _ sector_data)].
  intros b Hb. eapply does_view; [done|lia|]. apply HP'. lia.
Qed.

Lemma setup_registers r : reg_ok r -> DF r = false ->
  ready (set_bp 31744 (set_sp 31744 (set_es 0 (set_ds 0 (set_ss 0 (set_ax 0 r)))))).
Proof.
  intros Hok%reg_ok_iff Hf. unfold ready. split; [|by split_and!]. apply reg_ok_iff. cbn. intuition lia.
Qed.

(** The drive number is stored. *)
Lemma store_drive r m : ready r ->
  exists m', wb (ds r) d (lo8 (dx r)) (Real r m) = Ok (Real r m') /\ does (fun a => a = d) [] m m' /\ view m' d = lo8 (dx r).
Proof.
  intros (_ & -> & _). unfold wb. cbn [mem rg]. rewrite (linear_0 m d), wr8_win by (lia || (apply Hwin; lia)).
  assert (win d) as Hwd by (apply Hwin; lia). pose proof (outside_poke m d (lo8 (dx r)) Hwd) as O.
  eexists. split; [reflexivity|]. split.
  - split; [by rewrite (pc_tty _ _ O), app_nil_r|]. split; [by apply pc_a20|]. intros a Ha Hn.
    rewrite view_poke by done. by rewrite decide_False by (intros ->; done).
  - rewrite view_poke, decide_True by done. apply u8_small. unfold lo8. lia.
Qed.

(** The parameters of the drive. *)
Lemma read_info_ok r m :
  ready r -> hi8 (ax r) = 72 -> lo8 (dx r) = drive -> si r = d + 174 -> vld 2 (view m) (d + 174) = 30 ->
  exists r' m', bios 19 (Real r m) = Ok (Real r' m') /\ ready r' /\ CF r' = bool_decide (info = None) /\
    does params [] m m' /\ (forall bps, info = Some bps -> vld 2 (view m') (d + 198) = bps).
Proof.
  intros Hr Hah Hdl Hsi Hv. pose proof Hr as (Hok & Hds & _).
  destruct (drive_info _ _ _ _ _ HB r m Hok Hah Hdl) as (r' & m' & E & Hok' & Hs & Hc & Ht & Ha & Hi & Hf);
    rewrite Hds, Hsi in *; replace (16 * 0 + (d + 174)) with (d + 174) in * by lia; [|done|].
  { split; [lia|]. split; [lia|]. intros b Hb. apply Hwin. lia. }
  exists r', m'. split; [done|]. split; [by eapply ready_same|]. split; [done|]. split.
  - split; [by rewrite app_nil_r|]. split; [done|]. eapply frame_weaken; [|exact Hf]. unfold params. lia.
  - intros bps Hb. rewrite <- (Hi bps Hb). f_equal. lia.
Qed.

(** The start leaves the drive number, and the size of its sectors, in memory. *)
Lemma start_ok r m :
  reg_ok r -> DF r = false -> lo8 (dx r) = drive -> bytes_at (view m) d sector_data ->
  exists r' m', ready r' /\ does (fun a => stack a \/ a = d \/ params a) hello_text m m' /\ view m' d = drive /\
    match info with
    | Some bps => start L bios (Real r m) = Ok (inr (Real r' m')) /\ vld 2 (view m') (d + 198) = bps
    | None => exists m'', start L bios (Real r m) = Ok (inl (Real (set_si (read_info_fail_msg L) r') m'')) /\
        tty m'' = tty m' ++ read_info_fail_text
    end.
Proof.
  intros Hok Hf Hdl Hm. unfold start. cbn zeta. cbn [on_regs rg mem]. pose proof (setup_registers r Hok Hf) as Hr0.
  set (r0 := set_bp 31744 _) in *. cbn [l_drive_number sector_labels].
  destruct (store_drive r0 m Hr0) as (m1 & E1 & D1 & V1). change (dx r0) with (dx r) in *. rewrite (bind_ok _ _ _ E1).
  destruct (say_text _ hello 1 hello_text [] r0 m m1 Hr0 Hm D1) as (m2 & E2 & D2); [lia|done|is_text|].
  rewrite (bind_ok _ _ _ E2). cbn [on_regs rg mem]. set (r1 := set_ah 72 (set_si (hello L) r0)).
  assert (ready r1) as Hr1 by (apply ready_set_ah; [apply ready_set_si; [done|cbn; lia]|lia]).
  rewrite (bind_ok _ _ _ (load_dl_ok d r1 m2 Hr1 ltac:(lia))). cbn [on_regs rg mem].
  assert (view m2 d = drive) as V2 by (rewrite <- Hdl, <- V1; eapply does_view; [exact D2|lia|unfold stack; lia]).
  assert (0 <= drive < 256) as Hdr by (rewrite <- V2; apply view_range).
  assert (does (fun a => stack a \/ a = d) hello_text m m2) as D.
  { apply (does_trans _ [] _ m m1 m2); (eapply does_weaken; [|done]); auto. }
  destruct (read_info_ok (set_si (d + 174) (set_dx (with_lo8 (view m2 d) (dx r1)) r1)) m2)
    as (r3 & m3 & E3 & Hr3 & C3 & D3 & I3).
  - apply ready_set_si; [apply ready_dl; [done|apply view_range]|lia].
  - apply hi8_with_hi. lia.
  - rewrite V2. by apply lo8_with.
  - done.
  - rewrite (does_vld _ _ 2 _ _ _ D) by (unfold stack; lia).
    apply (bytes_at_vld _ _ [30; 0]), (bytes_at_part _ _ _ 174 2 Hm).
  - rewrite (bind_ok _ _ _ E3). cbn [rg]. rewrite C3. exists r3, m3. split; [done|].
    assert (does (fun a => stack a \/ a = d \/ params a) hello_text m m3) as D13.
    { rewrite <- (app_nil_r hello_text). eapply does_trans; (eapply does_weaken; [|done]); tauto. }
    split; [done|]. split.
    { rewrite <- V2. eapply does_view; [exact D3|lia|unfold params; lia]. }
    assert (info = None \/ exists bps, info = Some bps) as [Hi|[bps Hi]] by (destruct info; eauto); rewrite Hi;
      [rewrite bool_decide_true by done|rewrite bool_decide_false by done; split; [done|by apply I3]].
    cbn [negb].
    destruct (say_text _ read_info_fail_msg 21 read_info_fail_text hello_text r3 m m3 Hr3 Hm D13) as (m4 & E4 & D4);
      [unfold params, stack; lia|done|is_text|].
    rewrite (bind_ok _ _ _ E4). exists m4. split; [done|apply D4].
Qed.
End Start.
End Steps.
