(* ===== verification/BootLoad.v ===== *)
(** * The boot sectors: the read of the rest

    The packet for the extended read of each sector, and the read. *)

From S2P Require Export BootStart.

#[local] Open Scope Z_scope.

(** Registers that are set stay words. *)
Ltac ready := first [assumption|apply ready_set_ax; [ready|lia]|apply ready_set_si; [ready|lia]].

(** Two words and the bytes behind them. *)
Lemma vld_2_8 v a : vld 6 v (a + 2) = 0 -> vld 8 v a = vld 2 v a.
Proof. cbn [vld]. replace (a + 1 + 1) with (a + 2) by lia. lia. Qed.

Section Load.
Context {S : Type} {HS : Store S} {HP : Pc S} {win : Z -> Prop} {HW : Window S win} {HPM : PcMemory}.
Context (Hwin : forall a, 0 <= a < 1114096 -> win a).
Context (bios : Z -> real S -> res (real S)).
Context (drive : Z) (info : option Z) (sectors : Z) (sector : Z -> Z -> Z).
Context (HB : Bios16 (win := win) bios drive info sectors sector).
Context (d e ret : Z) (Hret : 0 <= ret < 65536).
#[local] Abbreviation L := (sector_labels d e ret).
#[local] Abbreviation does := (does (win := win)).
Context (Hd0 : 31744 < d) (Hd1 : d + 204 <= 32256).
Implicit Types (m : S) (r : regs16).

(** ** Packets *)

(** The fields that are stored, and what they say. *)
Definition packet_area (a : Z) : Prop := d + 160 <= a < d + 168.
Definition packet (n off lba : Z) m : Prop :=
  view m (d + 158) = 16 /\ vld 2 (view m) (d + 160) = n /\ vld 2 (view m) (d + 162) = off /\
  vld 2 (view m) (d + 164) = 0 /\ vld 8 (view m) (d + 166) = lba.

Lemma put_field a r m :
  ready r -> d + 160 <= a <= d + 166 ->
  exists m', store_ax a (Real r m) = Ok (Real r m') /\ does packet_area [] m m' /\
    forall b, win b -> view m' b = vst 2 (view m) a (ax r) b.
Proof.
  intros Hr Ha. destruct (store_ax_ok Hwin a r m Hr ltac:(lia)) as (m' & E & O & V).
  exists m'. split; [done|]. split; [|done]. split; [by rewrite (pc_tty _ _ O), app_nil_r|].
  split; [by apply pc_a20|]. intros b Hb Hn. rewrite V by done. unfold vst, packet_area in *. by rewrite decide_False by lia.
Qed.

(** The four stores make a packet. *)
Lemma packet_stored n off lba m m1 m2 m3 m4 :
  0 <= n < 65536 -> 0 <= off < 65536 -> 0 <= lba < 65536 -> bytes_at (view m) (d + 158) dap_data ->
  (forall b, win b -> view m1 b = vst 2 (view m) (d + 160) n b) ->
  (forall b, win b -> view m2 b = vst 2 (view m1) (d + 164) 0 b) ->
  (forall b, win b -> view m3 b = vst 2 (view m2) (d + 162) off b) ->
  (forall b, win b -> view m4 b = vst 2 (view m3) (d + 166) lba b) ->
  packet n off lba m4.
Proof.
  intros Hn Ho Hl Hm V1 V2 V3 V4.
  assert (forall b, win b -> view m4 b =
    vst 2 (vst 2 (vst 2 (vst 2 (view m) (d + 160) n) (d + 164) 0) (d + 162) off) (d + 166) lba b) as V.
  { intros b Hb. rewrite V4 by done. apply vst_ext. rewrite V3 by done. apply vst_ext.
    rewrite V2 by done. apply vst_ext. by apply V1. }
  assert (forall a k, d + 158 <= a -> a + Z.of_nat k <= d + 174 -> vld k (view m4) a =
    vld k (vst 2 (vst 2 (vst 2 (vst 2 (view m) (d + 160) n) (d + 164) 0) (d + 162) off) (d + 166) lba) a) as Vl.
  { intros a k H0 H1. apply vld_ext. intros b Hb. apply V, Hwin. lia. }
  change 65536 with (2 ^ (8 * Z.of_nat 2)) in *. unfold packet. split_and!.
  - rewrite V by (apply Hwin; lia). rewrite !vst_out by lia. rewrite <- (Z.add_0_r (d + 158)). exact (Hm 0%nat 16 eq_refl).
  - rewrite Vl, !vld_vst_other by lia. rewrite vld_vst_same. by apply Z.mod_small.
  - rewrite Vl, vld_vst_other by lia. rewrite vld_vst_same. by apply Z.mod_small.
  - rewrite Vl, !vld_vst_other by lia. by rewrite vld_vst_same.
  - rewrite vld_2_8.
    + rewrite Vl by lia. rewrite vld_vst_same. by apply Z.mod_small.
    + rewrite Vl, !vld_vst_other by lia. replace (d + 166 + 2) with (d + 158 + Z.of_nat 10) by lia.
      apply (bytes_at_vld _ _ [0; 0; 0; 0; 0; 0]), (bytes_at_part _ _ _ 10 6 Hm).
Qed.

(** From the disk: 64 blocks of 512 bytes behind the first sector. *)
Lemma mbr_packet_ok r m k :
  ready r -> 0 <= k -> vld 2 (view m) (d + 198) / 2 ^ k = 512 -> bytes_at (view m) (d + 158) dap_data ->
  exists r' m', mbr_packet L (Real r m) = Ok (Real r' m') /\ ready r' /\ does packet_area [] m m' /\
    packet (63 / 2 ^ k + 1) 32256 1 m'.
Proof.
  intros Hr Hk Hbps Hm. unfold mbr_packet. cbn [on_regs rg mem sector_labels drive_parameters dap_block]. cbn zeta.
  replace (d + 174 + 24) with (d + 198) by lia. replace (d + 158 + 2) with (d + 160) by lia.
  replace (d + 158 + 6) with (d + 164) by lia. replace (d + 158 + 4) with (d + 162) by lia. replace (d + 158 + 8) with (d + 166) by lia.
  assert (ready (set_ax 63 r)) as Hr1 by (apply ready_set_ax; [done|lia]).
  rewrite (bind_ok _ _ _ (load_cx_ok Hwin (d + 198) _ m Hr1 ltac:(lia))).
  set (r2 := set_cx _ _). assert (ready r2) as Hr2 by (apply ready_set_cx; [done|apply word_range]).
  destruct (sector_size_loop_ok 512 k r2 m) as (r3 & E3 & Hr3 & Ha3); [lia|done|done|done|].
  rewrite (bind_ok _ _ _ E3). cbn [on_regs rg mem]. change (ax r2) with 63 in Ha3.
  assert (0 <= 63 / 2 ^ k <= 63) as Hq.
  { pose proof (pow2_pos k Hk). split; [apply Z.div_pos; lia|apply Z.div_le_upper_bound; nia]. }
  assert (ax (inc_ax r3) = 63 / 2 ^ k + 1) as Hn.
  { change (ax (inc_ax r3)) with (u16 (ax r3 + 1)). rewrite Ha3. unfold u16. apply Z.mod_small. lia. }
  apply ready_inc_ax in Hr3. set (r4 := inc_ax r3) in *.
  destruct (put_field (d + 160) r4 m Hr3) as (m1 & E1 & D1 & V1); [lia|]. rewrite (bind_ok _ _ _ E1). cbn [on_regs rg mem].
  destruct (put_field (d + 164) (set_ax 0 r4) m1) as (m2 & E2 & D2 & V2); [ready|lia|].
  rewrite (bind_ok _ _ _ E2). cbn [on_regs rg mem].
  destruct (put_field (d + 162) (set_ax 32256 (set_ax 0 r4)) m2) as (m3' & E3' & D3 & V3); [ready|lia|].
  rewrite (bind_ok _ _ _ E3'). cbn [on_regs rg mem].
  destruct (put_field (d + 166) (set_ax 1 (set_ax 32256 (set_ax 0 r4))) m3') as (m4 & E4 & D4 & V4); [ready|lia|].
  eexists _, m4. split; [exact E4|]. split; [ready|]. split.
  - do 3 (eapply (does_trans _ [] []); [done|]). done.
  - rewrite Hn in V1. eapply packet_stored; try done. lia.
Qed.

(** From the CD: the blocks of the length in the El Torito block, behind the first. *)
Lemma cd_packet_ok r m k len loc bps :
  ready r -> 0 <= k -> vld 2 (view m) (d + 198) = bps -> bps / 2 ^ k = 1 -> 31744 + bps < 65536 ->
  bytes_at (view m) (d + 158) dap_data -> vld 2 (view m) 31760 = len -> vld 2 (view m) 31756 = loc -> loc < 65535 ->
  exists r' m', cd_packet L (Real r m) = Ok (Real r' m') /\ ready r' /\ does packet_area [] m m' /\
    packet (len / 2 ^ k) (31744 + bps) (loc + 1) m'.
Proof.
  intros Hr Hk Hbps Hone Hb Hm Hlen Hloc Hl. pose proof (word_range m 31760) as Wl. pose proof (word_range m 31756) as Wo.
  rewrite Hlen in Wl. rewrite Hloc in Wo.
  unfold cd_packet. cbn [on_regs rg mem sector_labels drive_parameters dap_block boot_length boot_location]. cbn zeta.
  replace (d + 174 + 24) with (d + 198) by lia. replace (d + 158 + 2) with (d + 160) by lia.
  replace (d + 158 + 6) with (d + 164) by lia. replace (d + 158 + 4) with (d + 162) by lia. replace (d + 158 + 8) with (d + 166) by lia.
  rewrite (bind_ok _ _ _ (load_ax_ok Hwin 31760 r m Hr ltac:(lia))), Hlen.
  assert (ready (set_ax len r)) as Hr1 by (by apply ready_set_ax).
  rewrite (bind_ok _ _ _ (load_cx_ok Hwin (d + 198) _ m Hr1 ltac:(lia))), Hbps.
  set (r2 := set_cx _ _). assert (ready r2) as Hr2 by (apply ready_set_cx; [done|rewrite <- Hbps; apply word_range]).
  destruct (sector_size_loop_ok 1 k r2 m) as (r3 & E3 & Hr3 & Ha3); [lia|done|done|done|].
  rewrite (bind_ok _ _ _ E3). cbn [on_regs rg mem]. change (ax r2) with len in Ha3.
  destruct (put_field (d + 160) r3 m Hr3) as (m1 & E1 & D1 & V1); [lia|]. rewrite Ha3 in V1. rewrite (bind_ok _ _ _ E1). cbn [on_regs rg mem].
  destruct (put_field (d + 164) (set_ax 0 r3) m1) as (m2 & E2 & D2 & V2); [ready|lia|].
  rewrite (bind_ok _ _ _ E2). cbn [on_regs rg mem].
  set (r4 := set_ax 31744 (set_ax 0 r3)). assert (ready r4) as Hr4 by ready.
  pose proof Hr4 as (_ & Hds & _). rewrite Hds.
  assert (vld 2 (view m2) (d + 198) = bps) as B2.
  { rewrite (does_vld Hwin _ _ 2 _ _ _ D2), (does_vld Hwin _ _ 2 _ _ _ D1) by (unfold packet_area; lia). done. }
  rewrite (bind_ok _ _ _ (rw_0 Hwin r4 m2 (d + 198) ltac:(lia))), B2.
  apply (ready_add_ax bps) in Hr4. cbn [on_regs rg mem]. set (r5 := add_ax bps r4) in *.
  assert (0 <= bps) by (rewrite <- Hbps; apply word_range).
  assert (ax r5 = 31744 + bps) as A5 by (change (u16 (31744 + bps) = 31744 + bps); unfold u16; apply Z.mod_small; lia).
  destruct (put_field (d + 162) r5 m2 Hr4) as (m3' & E3' & D3 & V3); [lia|]. rewrite A5 in V3.
  rewrite (bind_ok _ _ _ E3'). rewrite (bind_ok _ _ _ (load_ax_ok Hwin 31756 r5 m3' Hr4 ltac:(lia))).
  assert (vld 2 (view m3') 31756 = loc) as ->.
  { rewrite (does_vld Hwin _ _ 2 _ _ _ D3), (does_vld Hwin _ _ 2 _ _ _ D2), (does_vld Hwin _ _ 2 _ _ _ D1)
      by (unfold packet_area; lia). done. }
  cbn [on_regs rg mem]. assert (ready (inc_ax (set_ax loc r5))) as Hr6 by (apply ready_inc_ax; ready).
  set (r6 := inc_ax _) in *.
  assert (ax r6 = loc + 1) as A6 by (change (u16 (loc + 1) = loc + 1); unfold u16; apply Z.mod_small; lia).
  destruct (put_field (d + 166) r6 m3' Hr6) as (m4 & E4 & D4 & V4); [lia|]. rewrite A6 in V4.
  exists r6, m4. split; [exact E4|]. split; [done|]. split.
  - do 3 (eapply (does_trans _ [] []); [done|]). done.
  - pose proof (pow2_pos k Hk). eapply packet_stored; try done; try lia.
    split; [apply Z.div_pos; lia|]. apply Z.div_lt_upper_bound; nia.
Qed.
(** ** The read *)

(** A read into memory behind the first sector. *)
Lemma read_sectors_ok r m n off lba bps :
  ready r -> hi8 (ax r) = 66 -> lo8 (dx r) = drive -> si r = d + 158 -> info = Some bps -> packet n off lba m ->
  32256 <= off -> 0 <= n -> 0 <= bps -> off + n * bps <= 1114096 ->
  exists r' m', bios 19 (Real r m) = Ok (Real r' m') /\ ready r' /\ CF r' = negb (lba + n <=? sectors) /\
    does (fun a => off <= a < off + n * bps) [] m m' /\
    (lba + n <= sectors -> forall a, off <= a < off + n * bps ->
       view m' a = sector (lba + (a - off) / bps) ((a - off) mod bps)).
Proof.
  intros Hr Hah Hdl Hsi Hi (P0 & P1 & P2 & P3 & P4) Ho Hn Hb Htop. pose proof Hr as (Hok & Hds & _).
  destruct (drive_read _ _ _ _ _ HB r m bps Hok Hah Hdl Hi) as (r' & m' & E & Hok' & Hs & Hc & Ht & Ha & Hv & Hf);
    rewrite Hds, Hsi in *; replace (16 * 0 + (d + 158)) with (d + 158) in * by lia;
    replace (d + 158 + 2) with (d + 160) in * by lia; replace (d + 158 + 4) with (d + 162) in * by lia;
    replace (d + 158 + 6) with (d + 164) in * by lia; replace (d + 158 + 8) with (d + 166) in * by lia;
    rewrite ?P1, ?P2, ?P3, ?P4 in *; replace (16 * 0 + off) with off in * by lia; try done; try lia.
  - split; [lia|]. split; [lia|]. intros b Hbb. apply Hwin. lia.
  - assert (0 <= n * bps) by nia. split; [lia|]. split; [lia|]. intros b Hbb. apply Hwin. lia.
  - exists r', m'. split; [done|]. split; [by eapply ready_same|]. split; [done|]. split; [|done].
    split; [by rewrite app_nil_r|]. by split.
Qed.

(** What the read may change, and what it says: nothing when it fails. *)
Definition reads (n off bps a : Z) : Prop := stack a \/ packet_area a \/ off <= a < off + n * bps.
Definition load_text (ok : bool) : list Z := next_stage_text ++ if ok then stage2_load_success_text else [].

Lemma load_stage2_ok code P l m0 r m n off lba bps :
  ready r -> bytes_at (view m0) d sector_data -> does P l m0 m -> (forall a, d < a < d + 158 -> ~ P a) ->
  view m d = drive -> info = Some bps ->
  (forall r1 m1, ready r1 -> does stack next_stage_text m m1 ->
     exists r2 m2, code (Real r1 m1) = Ok (Real r2 m2) /\ ready r2 /\ does packet_area [] m1 m2 /\ packet n off lba m2) ->
  32256 <= off -> 0 <= n -> 0 <= bps -> off + n * bps <= 1114096 ->
  let ok := lba + n <=? sectors in
  exists r' m', load_stage2 L bios code (Real r m) = Ok (if ok then inr (Real r' m') else inl (Real r' m')) /\
    ready r' /\ does (reads n off bps) (load_text ok) m m' /\
    (ok = true -> forall a, off <= a < off + n * bps -> view m' a = sector (lba + (a - off) / bps) ((a - off) mod bps)).
Proof.
  intros Hr Hm HD HP' Hdr Hi Hcode Ho Hn Hb Htop ok. unfold load_stage2. assert (0 <= n * bps) by nia.
  destruct (say_text Hwin bios drive info sectors sector HB d e ret Hret Hd0 Hd1 P next_stage_msg 59 next_stage_text l r m0 m)
    as (m1 & E1 & D1); [done..|is_text|]. rewrite (bind_ok _ _ _ E1).
  destruct (Hcode (set_si (next_stage_msg L) r) m1) as (r2 & m2 & E2 & Hr2 & D2 & Pk);
    [apply ready_set_si; [done|cbn; lia]|done|]. rewrite (bind_ok _ _ _ E2). cbn [l_drive_number sector_labels dap_block].
  rewrite (bind_ok _ _ _ (load_dl_ok Hwin d r2 m2 Hr2 ltac:(lia))). cbn [on_regs rg mem].
  assert (does (reads n off bps) next_stage_text m m2) as D02.
  { rewrite <- (app_nil_r next_stage_text). eapply does_trans; (eapply does_weaken; [|done]); unfold reads; tauto. }
  assert (view m2 d = drive) as V2.
  { rewrite <- Hdr. eapply does_view; [done|exact D02|lia|unfold reads, stack, packet_area; lia]. }
  assert (0 <= drive < 256) as Hdrr by (rewrite <- V2; apply view_range).
  destruct (read_sectors_ok (set_ah 66 (set_si (d + 158) (set_dx (with_lo8 (view m2 d) (dx r2)) r2))) m2 n off lba bps)
    as (r3 & m3 & E3 & Hr3 & C3 & D3 & V3); try done.
  - apply ready_set_ah; [|lia]. apply ready_set_si; [|lia]. apply ready_dl; [done|apply view_range].
  - apply hi8_with_hi. lia.
  - rewrite V2. by apply lo8_with.
  - rewrite (bind_ok _ _ _ E3). cbn [rg]. rewrite C3, negb_involutive. fold ok.
    assert (does (reads n off bps) next_stage_text m m3) as D03.
    { rewrite <- (app_nil_r next_stage_text). eapply does_trans; [exact D02|]. eapply does_weaken; [|exact D3]. unfold reads; tauto. }
    unfold load_text. destruct ok eqn:Hok.
    + destruct (say_text Hwin bios drive info sectors sector HB d e ret Hret Hd0 Hd1 (fun a => P a \/ reads n off bps a)
        stage2_load_success_msg 127 stage2_load_success_text (l ++ next_stage_text) r3 m0 m3) as (m4 & E4 & D4);
        [done|done| | |done|is_text|].
      * eapply does_trans; (eapply does_weaken; [|done]); tauto.
      * intros a Ha [Hp|Hp]; [by eapply HP'|]. unfold reads, stack, packet_area in Hp. lia.
      * rewrite (bind_ok _ _ _ E4). eexists _, m4. split; [done|]. split; [apply ready_set_si; [done|cbn; lia]|]. split.
        -- eapply does_trans; [exact D03|]. eapply does_weaken; [|exact D4]. unfold reads; tauto.
        -- intros _ a Ha. rewrite (does_view Hwin _ _ _ _ a D4) by (unfold stack; lia). apply V3; [by apply Z.leb_le|done].
    + cbn [on_regs rg mem]. eexists _, m3. split; [done|]. split; [apply ready_set_si; [done|cbn; lia]|].
      rewrite app_nil_r. by split.
Qed.
End Load.
