(* ===== verification/SectorBoot.v ===== *)
(** * The boot sectors as a whole

    Both sectors, started by the BIOS: what is read, what is printed, and the state in
    which the second stage runs; and how they end when they cannot read. *)

From S2P Require Import Gdt.
From S2P Require Export BootLoad.

#[local] Open Scope Z_scope.

(** A message behind the first sector. *)
Definition is_setup_text (k : nat) (txt : list Z) : Prop :=
  (k + length txt < 95)%nat /\ take (S (length txt)) (drop k setup_texts) = asciiz txt /\ Forall (fun c => c <> 0) txt.
#[export] Instance is_setup_text_dec k txt : Decision (is_setup_text k txt).
Proof. unfold is_setup_text. apply _. Defined.
Ltac is_setup_text :=
  match goal with |- is_setup_text ?k ?t => apply (bool_decide_unpack (is_setup_text k t)); vm_compute; exact I end.

(** What the switch says. *)
Definition setup_text : list Z := a20_disable_text ++ a20_success_text ++ gdt_load_text.

Section Setup.
Context {S : Type} {HS : Store S} {HP : Pc S} {win : Z -> Prop} {HW : Window S win} {HPM : PcMemory}.
Context (Hwin : forall a, 0 <= a < 1114096 -> win a).
Context (bios : Z -> real S -> res (real S)).
Context (drive : Z) (info : option Z) (sectors : Z) (sector : Z -> Z -> Z).
Context (HB : Bios16 (win := win) bios drive info sectors sector).
Context (d e ret : Z) (Hret : 0 <= ret < 65536).
#[local] Abbreviation L := (sector_labels d e ret).
#[local] Abbreviation does := (does (win := win)).
Implicit Types (m : S) (r : regs16).

(** ** Address line 20 *)

(** [a20_enable] is done after its first test: it does not ask the BIOS. *)
Lemma a20_enable_ok r m :
  ready r -> exists r' m', a20_enable L bios (Real r m) = Ok (true, Real r' m') /\ ready r' /\ does stack [] m m'.
Proof.
  intros Hr. pose proof Hr as (Hok & _ & _ & Hss & Hsp & _).
  assert (ready (set_ax 1 r)) as Hr1 by ready.
  destruct (call_ok Hwin ret a20_test r (set_ax 1 r) m (does stack [] m)) as (m' & E & D); try done.
  - lia.
  - intros m1 O1 V1. rewrite Hsp in *.
    destruct (a20_test_ok Hwin (set_sp (31744 - 2) r) m1) as (m2 & E2 & O2 & F2).
    + rewrite reg_ok_iff in *. cbn. intuition lia.
    + done.
    + cbn. lia.
    + exists m2. split; [exact E2|]. cbn [sp set_sp] in F2. split; [intros b Hb Hbb; apply F2; [done|lia]|].
      assert (outside m m2) as O by (etrans; [exact O1|exact O2]).
      split; [by rewrite (pc_tty _ _ O), app_nil_r|]. split; [by apply pc_a20|]. intros b Hb Hn. unfold stack in Hn.
      rewrite F2 by (done || lia). apply V1; [done|lia].
  - unfold a20_enable, a20_check. cbn [return_to sector_labels]. rewrite (bind_ok _ _ _ E). cbn [on_regs rg mem].
    rewrite cmp_ZF by (cbn; lia). change (ax (set_ax 1 r) =? 0) with false. cbn [negb]. bnd.
    eexists _, m'. split; [reflexivity|]. split; [by apply ready_cmp|done].
Qed.

(** ** Protected mode *)

Context (He0 : 32256 <= e) (He1 : e + 141 < 65536).

Lemma say_setup message k txt r m l m' :
  ready r -> bytes_at (view m) e (setup_data e) -> does stack l m m' -> message L = e + Z.of_nat k -> is_setup_text k txt ->
  exists m'', say L bios message (Real r m') = Ok (Real (set_si (message L) r) m'') /\ does stack (l ++ txt) m m''.
Proof.
  intros Hr Hm HD Hmsg (Hl & He & Hnz).
  destruct (say_ok Hwin bios drive info sectors sector HB d e ret Hret message r m' txt Hr) as (m2 & E & D2); [lia|lia| |].
  - rewrite Hmsg. apply (zstring_ext (view m)).
    + intros b Hb. eapply does_view; [done|done|lia|]. unfold stack. lia.
    + apply (text_at _ _ setup_texts); [|done|done]. intros i x Hi. apply Hm. by apply lookup_app_l_Some.
  - exists m2. split; [done|]. by eapply does_trans.
Qed.

Lemma stage2_setup_ok cr0 r m :
  ready r -> bytes_at (view m) e (setup_data e) ->
  exists m', stage2_setup L bios cr0 (Real r m) = Ok (Protected m' (Z.lor cr0 1) (e + 95) 8 16 31744) /\
    does stack setup_text m m'.
Proof.
  intros Hr Hm. unfold stage2_setup.
  assert (does stack [] m m) as D0 by (split; [by rewrite app_nil_r|by split]).
  destruct (say_setup a20_disable_msg 0 a20_disable_text r m [] m) as (m1 & E1 & D1); [done|done|done|cbn; lia|is_setup_text|].
  rewrite (bind_ok _ _ _ E1).
  destruct (a20_enable_ok (set_si (a20_disable_msg L) r) m1) as (r2 & m2 & E2 & Hr2 & D2); [apply ready_set_si; [done|cbn; lia]|].
  rewrite (bind_ok _ _ _ E2). cbn beta iota.
  destruct (say_setup a20_success_msg 53 a20_success_text r2 m (a20_disable_text ++ []) m2) as (m3 & E3 & D3);
    [done|done|by eapply does_trans|cbn; lia|is_setup_text|].
  rewrite (bind_ok _ _ _ E3).
  set (r3 := set_si _ _). assert (ready r3) as Hr3 by (apply ready_set_si; [done|cbn; lia]).
  destruct (say_setup gdt_load_msg 74 gdt_load_text r3 m ((a20_disable_text ++ []) ++ a20_success_text) m3) as (m4 & E4 & D4);
    [done|done|done|cbn; lia|is_setup_text|].
  rewrite (bind_ok _ _ _ E4). exists m4. split.
  - unfold mret, res_ret. cbn [mem rg gdtr sector_labels]. pose proof Hr3 as (_ & _ & _ & _ & Hp & _).
    change (sp (set_si (gdt_load_msg L) r3)) with (sp r3). by rewrite Hp.
  - rewrite app_nil_r, <- app_assoc in D4. exact D4.
Qed.
End Setup.

(** ** The descriptor table *)

(** What the register for the table names, and its second and third descriptors: the
    segments of the kernel's own table (gdt.c). *)
Lemma boot_gdt_descriptors v e :
  0 <= e < 4294967296 - 101 -> bytes_at v e (setup_data e) ->
  vld 2 v (e + 95) = 39 /\ vld 4 v (e + 97) = e + 101 /\
  vld 8 v (e + 109) = encode_desc kernel_code /\ vld 8 v (e + 117) = encode_desc kernel_data.
Proof.
  intros He Hm. unfold setup_data in Hm.
  pose proof (bytes_at_part _ _ _ 95 2 Hm) as H0. pose proof (bytes_at_part _ _ _ 97 4 Hm) as H1.
  pose proof (bytes_at_part _ _ _ 109 8 Hm) as H2. pose proof (bytes_at_part _ _ _ 117 8 Hm) as H3.
  apply bytes_at_vld in H0, H1, H2, H3. split_and!; [exact H0| |exact H2|exact H3].
  etrans; [exact H1|]. cbn. lia.
Qed.

(** The segment that a selector of ring 0 names, in the table in memory. *)
Definition segment_at (v : Z -> Z) (gdtr sel : Z) : Z := vld 8 v (vld 4 v (gdtr + 2) + sel).

Lemma boot_segments v e :
  0 <= e < 4294967296 - 101 -> bytes_at v e (setup_data e) ->
  flat_segment (segment_at v (e + 95) 8) 10 0 /\ flat_segment (segment_at v (e + 95) 16) 2 0.
Proof.
  intros He (_ & H1 & H2 & H3)%boot_gdt_descriptors; [|done]. unfold segment_at.
  replace (e + 95 + 2) with (e + 97) by lia. rewrite H1.
  replace (e + 101 + 8) with (e + 109) by lia. replace (e + 101 + 16) with (e + 117) by lia. rewrite H2, H3.
  split; vm_compute; by split_and!.
Qed.

Section Whole.
Context {S : Type} {HS : Store S} {HP : Pc S} {win : Z -> Prop} {HW : Window S win} {HPM : PcMemory}.
Context (Hwin : forall a, 0 <= a < 1114096 -> win a).
Context (bios : Z -> real S -> res (real S)).
Context (drive : Z) (info : option Z) (sectors : Z) (sector : Z -> Z -> Z).
Context (HB : Bios16 (win := win) bios drive info sectors sector).
Context (d e ret : Z) (Hret : 0 <= ret < 65536).
#[local] Abbreviation L := (sector_labels d e ret).
#[local] Abbreviation does := (does (win := win)).
Implicit Types (m : S) (r : regs16).

Lemma halt_diverges {A} (s : real S) : halt (A := A) s = Diverge.
Proof. unfold halt. apply (loop_diverges _ (fun _ => True)); [done|]. intros t _. by exists t. Qed.

(** The state in which the BIOS starts the sector. *)
Definition started (r : regs16) (m : S) : Prop :=
  reg_ok r /\ DF r = false /\ lo8 (dx r) = drive /\ bytes_at (view m) d sector_data.

Context (Hd0 : 31744 < d) (Hd1 : d + 204 <= 32256) (He0 : 32256 <= e) (He1 : e + 141 < 65536).

(** What the start may change, and what the whole may change. *)
Definition start_area (a : Z) : Prop := stack a \/ a = d \/ params d a.
Definition boot_area (n off bps a : Z) : Prop := start_area a \/ reads d n off bps a.

(** Memory behind the first sector when the rest has been read. *)
Definition image (n off lba bps : Z) (v : Z -> Z) (a : Z) : Z :=
  if decide (off <= a < off + n * bps) then sector (lba + (a - off) / bps) ((a - off) mod bps) else v a.

(** The code that fills the packet. *)
Definition fills (code : real S -> res (real S)) (n off lba bps : Z) m : Prop :=
  forall r1 m1 l, ready r1 -> does start_area l m m1 -> vld 2 (view m1) (d + 198) = bps ->
    bytes_at (view m1) (d + 158) dap_data ->
    exists r2 m2, code (Real r1 m1) = Ok (Real r2 m2) /\ ready r2 /\ does (packet_area d) [] m1 m2 /\ packet d n off lba m2.

Section Boot.
Context (code : real S -> res (real S)) (n off lba bps : Z) (r : regs16) (m : S).
Context (Hst : started r m) (Hi : info = Some bps) (Hcode : fills code n off lba bps m).
Context (Ho : 32256 <= off) (Hn : 0 <= n) (Hb : 0 <= bps) (Htop : off + n * bps <= 1114096).

(** The start and the read. *)
Lemma boot_reads :
  let ok := lba + n <=? sectors in
  exists s r' m', start L bios (Real r m) = Ok (inr s) /\
    load_stage2 L bios code s = Ok (if ok then inr (Real r' m') else inl (Real r' m')) /\ ready r' /\
    does (boot_area n off bps) (hello_text ++ load_text ok) m m' /\ view m' d = drive /\ vld 2 (view m') (d + 198) = bps /\
    (ok = true -> forall a, off <= a < off + n * bps -> view m' a = sector (lba + (a - off) / bps) ((a - off) mod bps)).
Proof.
  intros ok. destruct Hst as (Hok & Hdf & Hdl & Hm). assert (0 <= n * bps) by nia.
  destruct (start_ok Hwin bios drive info sectors sector HB d e ret Hret Hd0 Hd1 r m) as (r1 & m1 & Hr1 & D1 & V1 & Hstart); [done..|].
  rewrite Hi in Hstart. destruct Hstart as [E1 B1].
  destruct (load_stage2_ok Hwin bios drive info sectors sector HB d e ret Hret Hd0 Hd1 code start_area hello_text m r1 m1 n off lba bps)
    as (r2 & m2 & E2 & Hr2 & D2 & V2); try done.
  - intros a Ha. unfold start_area, stack, params. lia.
  - intros r2 m2 Hr2 D2. assert (does start_area (hello_text ++ next_stage_text) m m2) as D02.
    { eapply does_trans; [exact D1|]. eapply does_weaken; [|exact D2]. unfold start_area. tauto. }
    eapply Hcode; [done|exact D02| |].
    + rewrite <- B1. eapply does_vld; [done|exact D2|lia|lia|]. unfold stack. lia.
    + eapply does_bytes; [done|exact D02|lia|vm_compute length; lia|unfold start_area, stack, params; vm_compute length; lia|].
      exact (bytes_at_part _ _ _ 158 16 Hm).
  - exists (Real r1 m1), r2, m2. split; [done|]. split; [exact E2|]. split; [done|]. split.
    { eapply does_trans; (eapply does_weaken; [|done]); unfold boot_area, start_area; tauto. }
    split; [|split; [|exact V2]].
    + rewrite <- V1. eapply does_view; [done|exact D2|lia|]. unfold reads, stack, packet_area. lia.
    + rewrite <- B1. eapply does_vld; [done|exact D2|lia|lia|]. unfold reads, stack, packet_area. lia.
Qed.

(** A sector that can read starts the second stage. *)
Lemma boot_ok cr0 :
  lba + n <= sectors -> bytes_at (image n off lba bps (view m)) e (setup_data e) ->
  exists p, boot L bios code cr0 (Real r m) = Ok p /\
    tty (p_mem p) = tty m ++ hello_text ++ load_text true ++ setup_text /\ a20 (p_mem p) = a20 m /\
    p_cr0 p = Z.lor cr0 1 /\ p_sp p = 31744 /\
    flat_segment (segment_at (view (p_mem p)) (p_gdtr p) (p_cs p)) 10 0 /\
    flat_segment (segment_at (view (p_mem p)) (p_gdtr p) (p_data p)) 2 0 /\
    view (p_mem p) d = drive /\ vld 2 (view (p_mem p)) (d + 198) = bps /\
    (forall a, win a -> 32256 <= a -> view (p_mem p) a = image n off lba bps (view m) a) /\
    frame (win := win) (boot_area n off bps) m (p_mem p).
Proof.
  intros Hs Hsetup. assert (0 <= n * bps) by nia. destruct boot_reads as (s & r' & m' & E1 & E2 & Hr' & D & V & B & Hv).
  assert ((lba + n <=? sectors) = true) as Hok by lia. rewrite Hok in *. specialize (Hv eq_refl).
  assert (forall a, win a -> 32256 <= a -> view m' a = image n off lba bps (view m) a) as Him.
  { intros a Ha H0. unfold image. case_decide; [by apply Hv|]. apply D; [done|].
    unfold boot_area, start_area, reads, stack, params, packet_area. lia. }
  assert (bytes_at (view m') e (setup_data e)) as Hse.
  { eapply bytes_at_ext; [|exact Hsetup]. intros a Ha. change (length (setup_data e)) with 141%nat in Ha.
    apply Him; [apply Hwin; lia|lia]. }
  destruct (stage2_setup_ok Hwin bios drive info sectors sector HB d e ret Hret He0 He1 cr0 r' m' Hr' Hse) as (m2 & E3 & D2).
  exists (Protected m2 (Z.lor cr0 1) (e + 95) 8 16 31744).
  unfold boot. rewrite (bind_ok _ _ _ E1), (bind_ok _ _ _ E2), E3. split; [done|]. cbn [p_mem p_cr0 p_sp p_gdtr p_cs p_data].
  destruct D as (T & A & F), D2 as (T2 & A2 & F2).
  split; [by rewrite T2, T, <- !app_assoc|]. split; [congruence|]. split; [done|]. split; [done|].
  destruct (boot_segments (view m2) e) as [G1 G2]; [lia| |].
  { eapply bytes_at_ext; [|exact Hse]. intros a Ha. change (length (setup_data e)) with 141%nat in Ha.
    apply F2; [apply Hwin; lia|unfold stack; lia]. }
  split; [done|]. split; [done|]. split; [rewrite <- V; apply F2; [apply Hwin; lia|unfold stack; lia]|]. split.
  { rewrite <- B. apply vld_ext. intros a Ha. apply F2; [apply Hwin; lia|unfold stack; lia]. }
  split.
  - intros a Ha H0. rewrite F2 by (done || (unfold stack; lia)). by apply Him.
  - eapply frame_trans; [done|]. eapply frame_weaken; [|exact F2]. unfold boot_area, start_area. tauto.
Qed.

(** A sector that cannot read stops, and does not say that it could not. *)
Lemma boot_fails cr0 :
  sectors < lba + n ->
  boot L bios code cr0 (Real r m) = Diverge /\
  exists s s', start L bios (Real r m) = Ok (inr s) /\ load_stage2 L bios code s = Ok (inl s') /\
    tty (mem s') = tty m ++ hello_text ++ next_stage_text.
Proof.
  intros Hs. destruct boot_reads as (s & r' & m' & E1 & E2 & Hr' & D & _).
  assert ((lba + n <=? sectors) = false) as Hok by lia. rewrite Hok in *. split.
  - unfold boot. rewrite (bind_ok _ _ _ E1), (bind_ok _ _ _ E2). apply halt_diverges.
  - exists s, (Real r' m'). split; [done|]. split; [done|]. destruct D as [T _]. cbn [mem]. rewrite T.
    unfold load_text. by rewrite app_nil_r.
Qed.
End Boot.

(** ** From a disk *)

Lemma mbr_fills k m : 0 <= k <= 6 -> fills (mbr_packet L) (64 / 2 ^ k) 32256 1 (512 * 2 ^ k) m.
Proof.
  intros Hk r1 m1 l Hr1 _ B1 M1. pose proof (pow2_pos k ltac:(lia)).
  assert (64 / 2 ^ k = 63 / 2 ^ k + 1) as ->.
  { assert (k = 0 \/ k = 1 \/ k = 2 \/ k = 3 \/ k = 4 \/ k = 5 \/ k = 6) as Hc by lia.
    repeat destruct Hc as [->|Hc]; subst; reflexivity. }
  apply (mbr_packet_ok Hwin d e ret Hret Hd0 Hd1 r1 m1 k Hr1); [lia| |done]. rewrite B1. by rewrite Z.div_mul by lia.
Qed.

(** 64 blocks of 512 bytes, in whole sectors. *)
Lemma blocks_bytes k : 0 <= k <= 6 -> 64 / 2 ^ k * (512 * 2 ^ k) = 32768.
Proof.
  intros Hk. assert (k = 0 \/ k = 1 \/ k = 2 \/ k = 3 \/ k = 4 \/ k = 5 \/ k = 6) as Hc by lia.
  repeat destruct Hc as [->|Hc]; subst; reflexivity.
Qed.

(** C11. A disk with sectors of 512 bytes times a power of two, up to 32768: mbr.s,
    with the data of the loader in what is read, started with the number of the drive
    in DL, prints its six messages, has 32 KiB from sector 1 on at 0x7e00, and enters
    32-bit code, with flat segments of ring 0, paging as it was and the stack
    at 0x7c00, with the drive and the size of its sectors in the first sector; whether
    address line 20 is enabled does not change; other memory does not, apart from the
    packet, the parameters of the drive and the stack. *)
Theorem mbr_boots k cr0 r m :
  started r m -> info = Some (512 * 2 ^ k) -> 0 <= k <= 6 -> 64 / 2 ^ k < sectors ->
  let disk a := sector (1 + (a - 32256) / (512 * 2 ^ k)) ((a - 32256) mod (512 * 2 ^ k)) in
  bytes_at disk e (setup_data e) -> e + 141 <= 65024 ->
  exists p, mbr L bios cr0 (Real r m) = Ok p /\
    tty (p_mem p) = tty m ++ hello_text ++ load_text true ++ setup_text /\ a20 (p_mem p) = a20 m /\
    p_cr0 p = Z.lor cr0 1 /\ p_sp p = 31744 /\
    flat_segment (segment_at (view (p_mem p)) (p_gdtr p) (p_cs p)) 10 0 /\
    flat_segment (segment_at (view (p_mem p)) (p_gdtr p) (p_data p)) 2 0 /\
    view (p_mem p) d = drive /\ vld 2 (view (p_mem p)) (d + 198) = 512 * 2 ^ k /\
    (forall a, 32256 <= a < 65024 -> view (p_mem p) a = disk a) /\
    frame (win := win) (fun a => 31724 <= a < 31744 \/ a = d \/ d + 160 <= a < d + 168 \/ d + 174 <= a < d + 204 \/
      32256 <= a < 65024) m (p_mem p).
Proof.
  intros Hst Hi Hk Hs disk Hsetup He. pose proof (blocks_bytes k Hk) as Hb. pose proof (pow2_pos k ltac:(lia)).
  assert (forall a, 32256 <= a < 65024 -> image (64 / 2 ^ k) 32256 1 (512 * 2 ^ k) (view m) a = disk a) as Him.
  { intros a Ha. unfold image. by rewrite decide_True by lia. }
  destruct (boot_ok (mbr_packet L) (64 / 2 ^ k) 32256 1 (512 * 2 ^ k) r m Hst Hi (mbr_fills k m Hk)) with (cr0 := cr0)
    as (p & E & T & A & C & P & G1 & G2 & V & B & I & F).
  - lia.
  - apply Z.div_pos; lia.
  - lia.
  - lia.
  - lia.
  - eapply bytes_at_ext; [|exact Hsetup]. intros a Ha. change (length (setup_data e)) with 141%nat in Ha. apply Him. lia.
  - exists p. split; [exact E|]. do 8 (split; [done|]). split.
    + intros a Ha. rewrite I by (lia || (apply Hwin; lia)). by apply Him.
    + eapply frame_weaken; [|exact F].
      unfold boot_area, start_area, reads, stack, params, packet_area. intros a Ha. lia.
Qed.

(** ** From a CD *)

Lemma cd_fills k len loc m :
  9 <= k <= 15 -> vld 2 (view m) 31760 = len -> vld 2 (view m) 31756 = loc -> loc < 65535 -> 31764 <= d ->
  fills (cd_packet L) (len / 2 ^ k) (31744 + 2 ^ k) (loc + 1) (2 ^ k) m.
Proof.
  intros Hk Hlen Hloc Hl Hd r1 m1 l Hr1 D1 B1 M1. pose proof (pow2_pos k ltac:(lia)).
  pose proof (pow2_le k 15 ltac:(lia)) as Hp. change (2 ^ 15) with 32768 in Hp.
  assert (forall a, 31744 <= a -> a + 2 <= 31764 -> vld 2 (view m1) a = vld 2 (view m) a) as Hv.
  { intros a H0 H1. eapply does_vld; [done|exact D1|lia|lia|]. unfold start_area, stack, params. lia. }
  apply (cd_packet_ok Hwin d e ret Hret Hd0 Hd1 r1 m1 k len loc (2 ^ k) Hr1); try done; try lia.
  - by apply Z.div_same; lia.
  - by rewrite Hv by lia.
  - by rewrite Hv by lia.
Qed.

(** C12. A CD with sectors of [2 ^ k] bytes: boot.s, with the length and the place of the
    boot file in its El Torito block (their low words, which is what it reads), has the
    blocks of that length behind its own, at 0x7c00 plus one block, and enters 32-bit
    code as mbr.s does; the messages and the table that it uses then are where they
    were, or in what it read. *)
Theorem cd_boots k cr0 r m :
  started r m -> info = Some (2 ^ k) -> 9 <= k <= 15 -> 31764 <= d ->
  let len := vld 2 (view m) 31760 in
  let loc := vld 2 (view m) 31756 in
  let n := len / 2 ^ k in
  let disc a := if decide (31744 + 2 ^ k <= a < 31744 + 2 ^ k + n * 2 ^ k)
    then sector (loc + 1 + (a - (31744 + 2 ^ k)) / 2 ^ k) ((a - (31744 + 2 ^ k)) mod 2 ^ k) else view m a in
  loc + 1 + n <= sectors -> loc < 65535 -> bytes_at disc e (setup_data e) ->
  exists p, cd_boot L bios cr0 (Real r m) = Ok p /\
    tty (p_mem p) = tty m ++ hello_text ++ load_text true ++ setup_text /\ a20 (p_mem p) = a20 m /\
    p_cr0 p = Z.lor cr0 1 /\ p_sp p = 31744 /\
    flat_segment (segment_at (view (p_mem p)) (p_gdtr p) (p_cs p)) 10 0 /\
    flat_segment (segment_at (view (p_mem p)) (p_gdtr p) (p_data p)) 2 0 /\
    view (p_mem p) d = drive /\ vld 2 (view (p_mem p)) (d + 198) = 2 ^ k /\
    (forall a, win a -> 32256 <= a -> view (p_mem p) a = disc a) /\
    frame (win := win) (fun a => 31724 <= a < 31744 \/ a = d \/ d + 160 <= a < d + 168 \/ d + 174 <= a < d + 204 \/
      31744 + 2 ^ k <= a < 31744 + 2 ^ k + n * 2 ^ k) m (p_mem p).
Proof.
  intros Hst Hi Hk Hd len loc n disc Hs Hl Hsetup. pose proof (word_range m 31760) as Wl. pose proof (word_range m 31756) as Wo.
  fold len in Wl. fold loc in Wo. pose proof (pow2_le 9 k ltac:(lia)) as Hp9. pose proof (pow2_le k 15 ltac:(lia)) as Hp.
  change (2 ^ 9) with 512 in Hp9. change (2 ^ 15) with 32768 in Hp.
  assert (0 <= n) as Hn by (apply Z.div_pos; lia). assert (n * 2 ^ k <= len) as Hnl by (unfold n; pose proof (Z.mul_div_le len (2 ^ k)); lia).
  destruct (boot_ok (cd_packet L) n (31744 + 2 ^ k) (loc + 1) (2 ^ k) r m Hst Hi (cd_fills k len loc m Hk eq_refl eq_refl Hl Hd)) with (cr0 := cr0)
    as (p & E & T & A & C & P & G1 & G2 & V & B & I & F); try done; try lia.
  exists p. split; [exact E|]. do 9 (split; [done|]).
  eapply frame_weaken; [|exact F]. unfold boot_area, start_area, reads, stack, params, packet_area. intros a Ha. lia.
Qed.

(** ** When they cannot read *)

(** C36. A drive without parameters, or with fewer sectors than mbr.s wants, stops it for
    good: in the first case it says so; in the second it has printed that it loads and
    nothing else, although there is a message for this. *)
Theorem mbr_fails cr0 r m :
  started r m ->
  (info = None -> mbr L bios cr0 (Real r m) = Diverge /\
     exists s, start L bios (Real r m) = Ok (inl s) /\ tty (mem s) = tty m ++ hello_text ++ read_info_fail_text) /\
  (forall k, info = Some (512 * 2 ^ k) -> 0 <= k <= 6 -> sectors <= 64 / 2 ^ k ->
     mbr L bios cr0 (Real r m) = Diverge /\
     exists s s', start L bios (Real r m) = Ok (inr s) /\ load_stage2 L bios (mbr_packet L) s = Ok (inl s') /\
       tty (mem s') = tty m ++ hello_text ++ next_stage_text).
Proof.
  intros Hst. split.
  - intros Hi. destruct Hst as (Hok & Hdf & Hdl & Hm).
    destruct (start_ok Hwin bios drive info sectors sector HB d e ret Hret Hd0 Hd1 r m) as (r1 & m1 & Hr1 & D1 & V1 & Hstart); [done..|].
    rewrite Hi in Hstart. destruct Hstart as (m2 & E & T). split.
    + unfold mbr, boot. rewrite (bind_ok _ _ _ E). apply halt_diverges.
    + eexists. split; [exact E|]. cbn [mem]. destruct D1 as [T1 _]. by rewrite T, T1, <- app_assoc.
  - intros k Hi Hk Hs. pose proof (blocks_bytes k Hk) as Hb. pose proof (pow2_pos k ltac:(lia)).
    apply (boot_fails (mbr_packet L) (64 / 2 ^ k) 32256 1 (512 * 2 ^ k) r m Hst Hi (mbr_fills k m Hk)); try lia.
Qed.

(** C37. The test of address line 20 says that it is enabled when it is not as well: with
    the line masked its second address is not the first, as it would be at offset
    0x7e0e.  The test changes no memory but its stack. *)
Theorem a20_test_blind r m :
  reg_ok r -> ss r = 0 -> 14 <= sp r <= 32254 ->
  (exists m', a20_test (Real r m) = Ok (Real (set_ax 1 r) m') /\ a20 m' = a20 m /\
     frame (win := win) (fun a => sp r - 14 <= a < sp r) m m') /\
  (a20 m = false -> linear m 65535 65038 = linear m 0 32254 + 32768 /\ linear m 65535 32270 = linear m 0 32254).
Proof.
  intros Hok Hss Hsp. split.
  - destruct (a20_test_ok Hwin r m Hok Hss Hsp) as (m' & E & O & F). exists m'. split; [done|]. split; [by apply pc_a20|done].
  - intros Ha. unfold linear. by rewrite Ha.
Qed.
End Whole.
