(* ===== verification/BootWitness.v ===== *)
(** * A machine from which the boot sectors start

    A board with a disk, on which the theorems on the boot sectors apply. *)

From S2P Require Export SectorBoot.

#[local] Open Scope Z_scope.

(** Memory, address line 20, and what has been printed. *)
Record board := Board { b_mem : Z -> Z; b_line : bool; b_tty : list Z }.

#[export] Instance board_store : Store board := {
  rd8 s a := Ok (u8 (b_mem s a));
  wr8 s a v := Ok (Board (fun b => if b =? a then v else b_mem s b) (b_line s) (b_tty s));
}.
#[export] Instance board_pc : Pc board := { a20 := b_line; tty := b_tty }.

#[export] Program Instance board_window : Window board (fun _ => True) := {
  view s a := u8 (b_mem s a);
  poke s a v := Board (fun b => if b =? a then v else b_mem s b) (b_line s) (b_tty s);
  outside s s' := b_line s' = b_line s /\ b_tty s' = b_tty s;
}.
Next Obligation. split; [by intros s|]. intros s t u [-> ->] [E F]. by split. Qed.
Next Obligation. done. Qed.
Next Obligation. intros. apply u8_range. Qed.
Next Obligation. done. Qed.
Next Obligation.
  intros s a v b _ _. cbn. destruct (Z.eqb_spec b a) as [->|]; [by rewrite decide_True|].
  by rewrite decide_False by congruence.
Qed.
Next Obligation. done. Qed.

#[export] Instance board_memory : PcMemory (S := board) (win := fun _ => True).
Proof. split; intros m m' [E F]; done. Qed.

(** ** Its BIOS *)

Section Firmware.
Context (info : option Z) (sectors : Z) (sector : Z -> Z -> Z) (Hsec : forall i o, 0 <= sector i o < 256).
Context (drive : Z).

Definition set_cf (b : bool) (r : regs16) : regs16 := set_fl (put_bit 0 b (fl r)) r.
Definition fill (a n : Z) (f : Z -> Z) (s : board) : board :=
  Board (fun b => if decide (a <= b < a + n) then f (b - a) else b_mem s b) (b_line s) (b_tty s).

Definition board_bios (i : Z) (s : real board) : res (real board) :=
  let r := rg s in
  let m := mem s in
  let a := 16 * ds r + si r in
  if i =? 16 then Ok (Real r (Board (b_mem m) (b_line m) (b_tty m ++ [lo8 (ax r)])))
  else if hi8 (ax r) =? 72 then
    match info with
    | Some bps => Ok (Real (set_cf false r) (fill (a + 24) 2 (fun o => if o =? 0 then bps mod 256 else bps / 256) m))
    | None => Ok (Real (set_cf true r) m)
    end
  else
    let n := vld 2 (view m) (a + 2) in
    let dest := 16 * vld 2 (view m) (a + 6) + vld 2 (view m) (a + 4) in
    let lba := vld 8 (view m) (a + 8) in
    let bps := default 0 info in
    if lba + n <=? sectors then
      Ok (Real (set_cf false r) (fill dest (n * bps) (fun o => sector (lba + o / bps) (o mod bps)) m))
    else Ok (Real (set_cf true r) m).

Lemma set_cf_ok b r : reg_ok r -> reg_ok (set_cf b r) /\ same_segments r (set_cf b r) /\ CF (set_cf b r) = b.
Proof.
  intros Hr. pose proof Hr as H. apply reg_ok_iff in H as (_ & _ & _ & _ & _ & _ & _ & _ & _ & _ & _ & Hf). split; [|split].
  - apply reg_ok_set_fl; [done|]. by apply put_bit_range.
  - unfold same_segments. split_and!; try done. unfold set_cf. by flags.
  - unfold set_cf. by flags.
Qed.

Lemma view_fill a n f s b :
  (forall o, 0 <= f o < 256) -> view (fill a n f s) b = if decide (a <= b < a + n) then f (b - a) else view s b.
Proof. intros Hf. cbn. case_decide; [apply u8_small, Hf|done]. Qed.

Lemma board_drive_info r m : (forall bps, info = Some bps -> 0 <= bps < 65536) -> reg_ok r -> hi8 (ax r) = 72 ->
  let buf := 16 * ds r + si r in
  exists r' m', board_bios 19 (Real r m) = Ok (Real r' m') /\ reg_ok r' /\ same_segments r r' /\
    CF r' = bool_decide (info = None) /\ tty m' = tty m /\ a20 m' = a20 m /\
    (forall bps, info = Some bps -> vld 2 (view m') (buf + 24) = bps) /\
    frame (win := fun _ => True) (fun a => buf <= a < buf + 30) m m'.
Proof.
  intros Hbps Hr Hah buf. unfold board_bios. cbn [rg mem]. rewrite Hah. fold buf. cbn [Z.eqb Pos.eqb].
  destruct info as [bps|]; [destruct (set_cf_ok false r Hr) as (H1 & H2 & H3)|destruct (set_cf_ok true r Hr) as (H1 & H2 & H3)];
    eexists _, _; (split; [reflexivity|]); split_and!; try done.
  - specialize (Hbps bps eq_refl). intros ? [= <-]. cbn [vld].
    rewrite !view_fill by (intros o; case_match; lia). rewrite !decide_True by lia.
    replace (buf + 24 - (buf + 24)) with 0 by lia. replace (buf + 24 + 1 - (buf + 24)) with 1 by lia. cbn. lia.
  - specialize (Hbps bps eq_refl). intros a _ Ha. rewrite view_fill by (intros o; case_match; lia).
    by rewrite decide_False by lia.
Qed.

Lemma board_read r m bps : reg_ok r -> hi8 (ax r) = 66 -> info = Some bps ->
  let dap := 16 * ds r + si r in
  let n := vld 2 (view m) (dap + 2) in
  let dest := 16 * vld 2 (view m) (dap + 6) + vld 2 (view m) (dap + 4) in
  let lba := vld 8 (view m) (dap + 8) in
  exists r' m', board_bios 19 (Real r m) = Ok (Real r' m') /\ reg_ok r' /\ same_segments r r' /\
    CF r' = negb (lba + n <=? sectors) /\ tty m' = tty m /\ a20 m' = a20 m /\
    (lba + n <= sectors -> forall a, dest <= a < dest + n * bps ->
       view m' a = sector (lba + (a - dest) / bps) ((a - dest) mod bps)) /\
    frame (win := fun _ => True) (fun a => dest <= a < dest + n * bps) m m'.
Proof.
  intros Hr Hah Hi dap n dest lba. unfold board_bios. cbn [rg mem]. rewrite Hah, Hi. fold dap. cbn [Z.eqb Pos.eqb default id].
  fold n dest lba. destruct (Z.leb_spec (lba + n) sectors);
    [destruct (set_cf_ok false r Hr) as (H1 & H2 & H3)|destruct (set_cf_ok true r Hr) as (H1 & H2 & H3)];
    eexists _, _; (split; [reflexivity|]); split_and!; try done; try lia.
  - intros _ a Ha. rewrite view_fill by auto. by rewrite decide_True by lia.
  - intros a _ Ha. rewrite view_fill by auto. by rewrite decide_False by lia.
Qed.

Lemma board_bios_ok :
  (forall bps, info = Some bps -> 0 <= bps < 65536) ->
  Bios16 (win := fun _ => True) board_bios drive info sectors sector.
Proof.
  intros Hbps. split.
  - intros r m _. eexists. split; [reflexivity|]. by split_and!.
  - intros r m Hr Hah _ buf _ _. by apply board_drive_info.
  - intros r m bps Hr Hah _ Hi dap _ _ n dest lba _ _. by apply board_read.
Qed.
End Firmware.

(** ** A disk and a CD *)

(** Data that memory has, evaluated. *)
Definition has_bytes (v : Z -> Z) (a : Z) (l : list Z) : bool :=
  forallb (fun '(i, x) => v (a + Z.of_nat i) =? x) (zip (seq 0 (length l)) l).

Lemma has_bytes_at v a l : has_bytes v a l = true -> bytes_at v a l.
Proof.
  intros H i x Hi. unfold has_bytes in H.
  assert (zip (seq 0 (length l)) l !! i = Some (i, x)) as Hz.
  { apply lookup_zip_Some. split; [|done]. apply lookup_seq. apply lookup_lt_Some in Hi. by split. }
  rewrite List.forallb_forall in H. specialize (H (i, x)). cbn in H. apply Z.eqb_eq, H.
  apply list_elem_of_In, list_elem_of_lookup. by exists i.
Qed.

(** The data of the sectors at 31900 and 40000; sectors of 2 KiB on the CD. *)
Definition w_d : Z := 31900.
Definition w_e : Z := 40000.
Definition w_byte (a : Z) : Z := if (w_e <=? a) && (a <? w_e + 141) then nth (Z.to_nat (a - w_e)) (setup_data w_e) 0 else a mod 256.
Definition w_mbr_sector (i o : Z) : Z := u8 (w_byte (32256 + 512 * (i - 1) + o)).
Definition w_cd_sector (i o : Z) : Z := u8 (w_byte (31744 + 2048 * (i - 30) + o)).

Definition w_low (a : Z) : Z :=
  if (w_d <=? a) && (a <? w_d + 204) then nth (Z.to_nat (a - w_d)) sector_data 0
  else if a =? 31756 then 30 else if a =? 31761 then 64 else 0.
Definition w_board : board := Board w_low false [].
Definition w_regs : regs16 := Regs16 0 0 0 128 0 0 0 4096 0 0 0 2.

Lemma w_started : started (win := fun _ => True) 128 w_d w_regs w_board.
Proof.
  split; [|split; [reflexivity|split; [reflexivity|]]].
  - apply reg_ok_iff. cbn. lia.
  - apply has_bytes_at. by vm_compute.
Qed.

Lemma all_win (a : Z) : 0 <= a < 1114096 -> True.
Proof. done. Qed.

Definition w_mbr_bios := board_bios (Some 512) 1000 w_mbr_sector.
Lemma w_mbr_bios_ok : Bios16 (win := fun _ => True) w_mbr_bios 128 (Some 512) 1000 w_mbr_sector.
Proof. apply board_bios_ok; [intros; apply u8_range|]. intros ? [= <-]. lia. Qed.
Definition w_cd_bios := board_bios (Some 2048) 1000 w_cd_sector.
Lemma w_cd_bios_ok : Bios16 (win := fun _ => True) w_cd_bios 128 (Some 2048) 1000 w_cd_sector.
Proof. apply board_bios_ok; [intros; apply u8_range|]. intros ? [= <-]. lia. Qed.
Definition w_small_bios := board_bios (Some 512) 40 w_mbr_sector.
Lemma w_small_bios_ok : Bios16 (win := fun _ => True) w_small_bios 128 (Some 512) 40 w_mbr_sector.
Proof. apply board_bios_ok; [intros; apply u8_range|]. intros ? [= <-]. lia. Qed.

Lemma w_cd_setup :
  let n := 16384 / 2 ^ 11 in
  bytes_at (fun a => if decide (31744 + 2 ^ 11 <= a < 31744 + 2 ^ 11 + n * 2 ^ 11)
    then w_cd_sector (30 + 1 + (a - (31744 + 2 ^ 11)) / 2 ^ 11) ((a - (31744 + 2 ^ 11)) mod 2 ^ 11)
    else view w_board a) w_e (setup_data w_e).
Proof. apply has_bytes_at. by vm_compute. Qed.

Lemma w_len : vld 2 (view w_board) 31760 = 16384.
Proof. by vm_compute. Qed.
Lemma w_loc : vld 2 (view w_board) 31756 = 30.
Proof. by vm_compute. Qed.

Lemma mbr_boots_witness :
  exists p, mbr (sector_labels w_d w_e 31800) w_mbr_bios 16 (Real w_regs w_board) = Ok p /\
    tty (p_mem p) = hello_text ++ load_text true ++ setup_text /\ a20 (p_mem p) = false /\ p_cr0 p = 17 /\
    forall a, 32256 <= a < 65024 -> view (p_mem p) a = u8 (w_byte a).
Proof.
  destruct (mbr_boots all_win w_mbr_bios 128 (Some 512) 1000 w_mbr_sector w_mbr_bios_ok w_d w_e 31800 ltac:(lia)
    ltac:(done) ltac:(done) ltac:(done) ltac:(done) 0 16 w_regs w_board w_started eq_refl ltac:(lia) ltac:(reflexivity))
    as (p & E & T & A & C & _ & _ & _ & _ & _ & V & _); [apply has_bytes_at; by vm_compute|done|].
  exists p. split; [exact E|]. split; [exact T|]. split; [exact A|]. split; [exact C|].
  intros a Ha. rewrite V by done. unfold w_mbr_sector. do 2 f_equal. change (512 * 2 ^ 0) with 512. lia.
Defined.

Lemma cd_boots_witness :
  exists p, cd_boot (sector_labels w_d w_e 31800) w_cd_bios 16 (Real w_regs w_board) = Ok p /\
    tty (p_mem p) = hello_text ++ load_text true ++ setup_text /\
    forall a, 33792 <= a < 33792 + 16384 -> view (p_mem p) a = u8 (w_byte a).
Proof.
  destruct (cd_boots all_win w_cd_bios 128 (Some 2048) 1000 w_cd_sector w_cd_bios_ok w_d w_e 31800 ltac:(lia)
    ltac:(done) ltac:(done) ltac:(done) ltac:(done) 11 16 w_regs w_board w_started eq_refl ltac:(lia) ltac:(done)
    ltac:(rewrite w_len, w_loc; done) ltac:(rewrite w_loc; done) ltac:(rewrite w_len, w_loc; exact w_cd_setup))
    as (p & E & T & _ & _ & _ & _ & _ & _ & _ & V & _).
  exists p. split; [exact E|]. split; [exact T|].
  intros a Ha. rewrite (V a I ltac:(lia)). change (2 ^ 11) with 2048.
  rewrite w_len, w_loc. change (16384 / 2048) with 8.
  rewrite decide_True by lia. unfold w_cd_sector. do 2 f_equal. lia.
Defined.

Lemma mbr_fails_witness :
  mbr (sector_labels w_d w_e 31800) w_small_bios 16 (Real w_regs w_board) = Diverge.
Proof.
  destruct (mbr_fails all_win w_small_bios 128 (Some 512) 40 w_mbr_sector w_small_bios_ok w_d w_e 31800 ltac:(lia)
    ltac:(done) ltac:(done) 16 w_regs w_board w_started) as [_ H].
  destruct (H 0 eq_refl ltac:(lia) ltac:(vm_compute; discriminate)) as [E _]. exact E.
Defined.

Lemma a20_test_blind_witness :
  exists m', a20_test (Real (set_sp 31742 w_regs) w_board) = Ok (Real (set_ax 1 (set_sp 31742 w_regs)) m') /\ a20 m' = false.
Proof.
  destruct (a20_test_blind all_win (set_sp 31742 w_regs) w_board) as [(m' & E & A & _) _];
    [apply reg_ok_iff; cbn; lia|reflexivity|cbn; lia|].
  exists m'. split; [exact E|exact A].
Defined.
