(* ===== verification/Stage2.v ===== *)
(** * boot/x86/stage2.c: the second stage of the boot loader

    The sequence from the first message to the jump into the kernel, with the
    assembly of boot/x86/paging.s and boot/x86/kernel_jump.s.  The state
    is the processor with its control registers ([cpu]) around the screen of vga.c,
    under which are memory, ports and the firmware of the machine.

    Addresses that the linker or the compiler chooses are parameters: [lit] gives
    the address of each string literal, by its spelling in the source.  Accesses
    after paging is enabled are not translated: the loader's code and data are
    below 3 GiB, where its directory is the identity (Stage2Props.v).

    Behind the model: the messages, what they print ([rendered]), and [Console], a way
    to print that keeps a transcript, which is what the theorems rely on. *)

From S2P Require Export Vga Exfat Vbe PrintProps.

#[local] Open Scope Z_scope.

(** ** The processor *)

Record cpu (S : Type) := Cpu { machine_of : S; cr0 : Z; cr3 : Z; cr4 : Z }.
Arguments Cpu {S} _ _ _ _.
Arguments machine_of {S} _.
Arguments cr0 {S} _.
Arguments cr3 {S} _.
Arguments cr4 {S} _.

Definition on_machine {S} (t : S) (s : cpu S) : cpu S := Cpu t (cr0 s) (cr3 s) (cr4 s).

(** The paging bit of CR0. *)
Definition paging {S} (s : cpu S) : bool := Z.testbit (cr0 s) 31.

#[export] Instance cpu_store {S} `{Store S} : Store (cpu S) := {
  rd8 s a := rd8 (machine_of s) a;
  wr8 s a v := t ← wr8 (machine_of s) a v; mret (on_machine t s);
}.

#[export] Instance cpu_ports {S} `{Ports S} : Ports (cpu S) := {
  in8 p s := '(v, t) ← in8 p (machine_of s); mret (v, on_machine t s);
  out8 p v s := t ← out8 p v (machine_of s); mret (on_machine t s);
}.

(** bios.s enters real mode for an interrupt by clearing bit 0 of CR0: with the
    paging bit set that is a general protection fault, and the interrupt table is
    already the one of real mode. *)
#[export] Instance cpu_firmware {S} `{Firmware S} : Firmware (cpu S) := {
  interrupt code regs s :=
    if paging s then Undef
    else '(r, t) ← interrupt code regs (machine_of s); mret (r, on_machine t s);
}.

#[export] Instance vga_firmware {S} `{Firmware S} : Firmware (vga S) := {
  interrupt code regs s := '(r, t) ← interrupt code regs (dev s); mret (r, Vga t (color s));
}.

(** Page directory entry for 4 MiB *)
Definition pde_4mib : layout :=
  [mbits "present" 1; mbits "rw" 1; mbits "us" 1; mbits "pwt" 1; mbits "pcd" 1; mbits "a" 1; mbits "d" 1;
   mbits "ps" 1; mbits "g" 1; mbits "ignored" 3; mbits "pat" 1; mbits "highaddr" 9; mbits "lowaddr" 10].

(** The entry of both loops. *)
Definition map_4mib (i : Z) : Z := pack (zip pde_4mib.*2 [1; 1; 0; 0; 0; 0; 0; 1; 0; 0; 0; 0; i]).

(** paging.s *)
Definition enable_paging {S} (page_dir : Z) (s : cpu S) : cpu S :=
  (* Enable 4 MiB pages *)
  let cr4 := Z.lor (Z.lor (cr4 s) 16) 144 in
  (* Set address of kernel page directory; set paging bit of cr0 register *)
  Cpu (machine_of s) (Z.lor (cr0 s) 2147483649) page_dir cr4.

(** kernel_jump.s: the stack and the instruction that control goes to. *)
Record entry (S : Type) := Entry { entry_esp : Z; entry_eip : Z; entry_state : S }.
Arguments Entry {S} _ _ _.
Arguments entry_esp {S} _.
Arguments entry_eip {S} _.
Arguments entry_state {S} _.

Definition kernel_jump {S} (s : S) : entry S := Entry 3489660924 3222274048 s.

(** ** The part on any memory, with any way to print *)

Section Load.
Context {T : Type} {HS : Store T} {HF : Firmware T}.
Context (drive_bytes_per_sector drive_number : Z) (temp_buffer temp_dap : Z).
Context (exfat_boot_record upcase_table load_buffer fat_buffer : Z).
Context (kernel_memory mem_blocks mem_blocks_len result_registers : Z).
Context (printf : string -> list Z -> T -> res T) (lit : string -> Z).

#[local] Abbreviation read_file := (read_file_exfat drive_bytes_per_sector drive_number temp_buffer temp_dap
  exfat_boot_record upcase_table fat_buffer).

(** Load the kernel and the system processes; 0 when there is no kernel. *)
Definition load_system (s : T) : res (Z * T) :=
  (* Load kernel and check if kernel exists *)
  s ← printf "Loading kernel...\r\n" [] s;
  '(kernel_size, s) ← read_file (lit "/system/kernel") 1048576 s;
  if kernel_size =? 0 then mret (0, s)
  else
    (* Load system processes *)
    s ← printf "Loading system processes...\r\n" [] s;
    s ← printf "Loading VGA driver\r\n" [] s;
    s ← printf "Kernel Size: %x\r\n" [u32 kernel_size] s;
    vga_addr ← to_int (1048576 + kernel_size);
    '(vga_size, s) ← read_file (lit "/system/vga") (u32 vga_addr) s;
    s ← (if vga_size =? 0 then
           (* No initial process detected *)
           printf "System process does not exist\r\n" [] s
         else
           (* Initial process detected *)
           printf "System process detected at %x. Passing info\r\n" [u32 vga_addr] s);
    mret (kernel_size, s).

(** [mem_blocks[i].f] *)
Definition mem_block (f : string) (i : Z) (s : T) : res Z :=
  ld32 s (field (u32 (mem_blocks + sizeof address_range * i)) address_range f).

(** Display memory map: one line. *)
Definition print_block (i : Z) (s : T) : res T :=
  base_high ← mem_block "base_addr_high" i s;
  base_low ← mem_block "base_addr_low" i s;
  size_high ← mem_block "size_high" i s;
  size_low ← mem_block "size_low" i s;
  type ← mem_block "type" i s;
  printf "%x%x | %x%x | %x\r\n" [base_high; base_low; size_high; size_low; type] s.

Definition print_blocks (s : T) : res T :=
  loop (fun '(i, s) =>
    n ← ld32 s mem_blocks_len;
    if i <? i32 n then s ← print_block i s; mret (inl (i + 1, s)) else mret (inr s)) (0, s).

(** Initialize paging *)
Definition map_memory (s : T) : res T :=
  (* First do a linear map *)
  s ← for_loop 0 768 (fun i s => st32 s (u32 (kernel_memory + 4 * i)) (map_4mib i)) s;
  (* Map high memory *)
  for_loop 0 256 (fun i s => st32 s (u32 (kernel_memory + 4 * (i + 768))) (map_4mib i)) s.

(** What stage2 does between setting the screen up and enabling paging. *)
Definition prepare (s : T) : res T :=
  (* Do a VGA test print *)
  s ← printf "Starting stage2 boot...\r\n" [] s;
  (* Initialize exfat *)
  s ← printf "Initializing the exFAT filesystem...\r\n" [] s;
  s ← init_exfat drive_bytes_per_sector drive_number temp_buffer temp_dap exfat_boot_record upcase_table
        load_buffer s;
  '(kernel_size, s) ← load_system s;
  if kernel_size =? 0 then
    (* No kernel exists so halt *)
    s ← printf "No kernel detected at /system/kernel\r\n" [] s;
    loop (fun s : T => mret (inl s)) s
  else
    (* Do memory scan *)
    s ← st32 s mem_blocks_len 64;
    s ← bios_mem_scan result_registers mem_blocks mem_blocks_len s;
    (* Display memory map *)
    s ← printf "\nMemory Table:\r\n" [] s;
    s ← printf "Base             | Size             | Type\r\n" [] s;
    s ← print_blocks s;
    map_memory s.
End Load.

(** ** The sequence *)

Section Stage2.
Context {S : Type} {HS : Store S} {HP : Ports S} {HF : Firmware S}.
Context (drive_bytes_per_sector drive_number : Z) (temp_buffer temp_dap : Z).
Context (exfat_boot_record upcase_table load_buffer fat_buffer : Z).
Context (kernel_memory mem_blocks mem_blocks_len result_registers : Z).
Context (vbe_cib crtc video_mode_info : Z) (lit : string -> Z).

(** Up to the page directory, on the machine without paging. *)
Definition prepare_screen (s : vga S) : res (vga S) :=
  (* Initializing the VGA display *)
  s ← reset_display s;
  s ← set_cursor_pos 0 0 s;
  (* Set color and print *)
  s ← set_color 0 15 s;
  let outb := set_outb vga_output_char None in
  prepare drive_bytes_per_sector drive_number temp_buffer temp_dap exfat_boot_record upcase_table load_buffer
    fat_buffer kernel_memory mem_blocks mem_blocks_len result_registers (fun fmt => print (call_outb outb) (lit fmt)) lit s.

(** boot.s calls it with paging disabled; otherwise the first service of the BIOS
    would fault. *)
Definition stage2 (s : cpu (vga S)) : res (entry (cpu (vga S))) :=
  if paging s then Undef else
  v ← prepare_screen (machine_of s);
  (* Enable paging *)
  let s := enable_paging kernel_memory (on_machine v s) in
  (* Initialize VBE *)
  s ← init_vbe vbe_cib crtc video_mode_info s;
  (* Jump to kernel *)
  mret (kernel_jump s).
End Stage2.

(** ** String literals *)

(** The escape sequences of C that the messages use: line feed and carriage return. *)
Fixpoint unescape (l : list Z) : list Z :=
  match l with
  | [] => []
  | c :: rest =>
      match rest with
      | d :: l' =>
          if (c =? 92) && (d =? 110) then 10 :: unescape l'
          else if (c =? 92) && (d =? 114) then 13 :: unescape l'
          else c :: unescape rest
      | [] => [c]
      end
  end.

(** The bytes of a literal, as it is spelled in the source. *)
Definition c_string (s : string) : list Z := unescape (codes s).

(** What printing a message outputs. *)
Definition rendered (fmt : string) (args : list Z) : list Z := default [] (render (c_string fmt) args).

(** The messages, with the number of their arguments. *)
Definition messages : list (string * nat) :=
  [("Starting stage2 boot...\r\n", 0%nat); ("Initializing the exFAT filesystem...\r\n", 0%nat);
   ("Loading kernel...\r\n", 0%nat); ("No kernel detected at /system/kernel\r\n", 0%nat);
   ("Loading system processes...\r\n", 0%nat); ("Loading VGA driver\r\n", 0%nat);
   ("Kernel Size: %x\r\n", 1%nat); ("System process does not exist\r\n", 0%nat);
   ("System process detected at %x. Passing info\r\n", 1%nat); ("\nMemory Table:\r\n", 0%nat);
   ("Base             | Size             | Type\r\n", 0%nat); ("%x%x | %x%x | %x\r\n", 5%nat)]%string.

Ltac in_messages := apply (bool_decide_unpack _); by vm_compute.

(** ** Consoles *)

(** [console l s]: the console shows [l] and can go on printing.  It does as long as
    its screen and its text, the literals, are as they were, and the devices are
    not touched; printing writes to the screen only. *)
Class Console (T : Type) (win : Z -> Prop) `{HW : Window T win}
    (printf : string -> list Z -> T -> res T) (screen text : Z -> Prop) := {
  console : list Z -> T -> Prop;
  console_kept l s t :
    console l s -> outside s t -> (forall a, win a -> text a \/ screen a -> view t a = view s a) -> console l t;
  console_print l fmt args s :
    (fmt, length args) ∈ messages -> console l s ->
    exists s', printf fmt args s = Ok s' /\ console (l ++ rendered fmt args) s' /\
      forall a, win a -> ~ screen a -> view s' a = view s a;
}.
