(* ===== verification/Stage2Props.v ===== *)
(** * What the second stage sets up, and where it ends *)

From S2P Require Export Stage2 VbeProps.
From S2P Require Paging.

#[local] Open Scope Z_scope.

(** ** The page directory *)

Lemma map_4mib_word i : 0 <= i < 1024 -> map_4mib i = 131 + 2 ^ 22 * i.
Proof.
  intros Hi. unfold map_4mib.
  change (pde_4mib.*2) with [1; 1; 1; 1; 1; 1; 1; 1; 1; 3; 1; 9; 10]. cbn [zip zip_with].
  rewrite !pack_cons by lia. cbn [pack]. lia.
Qed.

(** The entries of the directory. *)
Definition boot_directory (v : Z -> Z) (dir : Z) : Prop :=
  forall i, 0 <= i < 1024 -> vld32 v (dir + 4 * i) = map_4mib (if i <? 768 then i else i - 768).

(** How they map. *)
Lemma boot_directory_walks v dir va :
  (forall a, 0 <= v a < 256) -> boot_directory v dir -> 0 <= dir < 2 ^ 32 -> dir mod 4096 = 0 ->
  0 <= va < 2 ^ 32 ->
  Machine.walk v dir va = Some (if va <? KERNEL_BASE then va else va - KERNEL_BASE).
Proof.
  intros Hv Hd Hr Ha Hva. unfold KERNEL_BASE. assert (0 <= va / 2 ^ 22 < 1024) as Hi by lia.
  set (j := if va / 2 ^ 22 <? 768 then va / 2 ^ 22 else va / 2 ^ 22 - 768).
  assert (0 <= j < 1024 /\ (va < 3221225472 -> j = va / 2 ^ 22) /\ (3221225472 <= va -> j = va / 2 ^ 22 - 768))
    as (Hj & Hlow & Hhigh) by (unfold j; destruct (Z.ltb_spec (va / 2 ^ 22) 768); lia).
  assert (Machine.pread32 v (dir + 4 * (va / 2 ^ 22)) = 131 + 2 ^ 22 * j) as Hp.
  { unfold Machine.pread32. rewrite (vld_ext 4 _ v) by (intros b _; apply u8_small, Hv).
    rewrite Hd by done. fold j. by apply map_4mib_word. }
  rewrite (Paging.walk_4mib v dir va (131 + 2 ^ 22 * j)); [f_equal|lia|by apply Z.mod_divide|lia|done|..];
    clearbody j; destruct (Z.ltb_spec va 3221225472); lia.
Qed.

Section Directory.
Context {S : Type} {HS : Store S} {win : Z -> Prop} {HW : Window S win}.

(** Both loops. *)
Lemma map_memory_ok kernel_memory (s : S) :
  in_win win kernel_memory 4096 ->
  exists s', map_memory kernel_memory s = Ok s' /\ outside s s' /\ boot_directory (view s') kernel_memory /\
    forall a, win a -> a < kernel_memory \/ kernel_memory + 4096 <= a -> view s' a = view s a.
Proof.
  intros (H0 & H1 & Hw). unfold map_memory.
  destruct (fill_words s kernel_memory 768 (fun i => u32 (kernel_memory + 4 * i)) map_4mib)
    as (s1 & E1 & O1 & V1 & F1); [lia| |intros i Hi; apply u32_small; lia|].
  { split; [lia|]. split; [lia|]. intros b Hb. apply Hw. lia. }
  destruct (fill_words s1 (kernel_memory + 3072) 256 (fun i => u32 (kernel_memory + 4 * (i + 768))) map_4mib)
    as (s2 & E2 & O2 & V2 & F2); [lia| |intros i Hi; rewrite u32_small by lia; lia|].
  { split; [lia|]. split; [lia|]. intros b Hb. apply Hw. lia. }
  exists s2. rewrite (bind_ok _ _ _ E1). cbv beta. split; [exact E2|]. split; [by etrans|].
  split; [|intros a Haw Hao; rewrite F2, F1 by (done || lia); done].
  intros i Hi. destruct (Z.ltb_spec i 768) as [Hlt|Hge].
  - rewrite (vld_ext 4 _ (view s1)) by (intros b Hb; apply F2; [apply Hw|]; lia).
    rewrite V1, map_4mib_word by lia. apply u32_small. lia.
  - replace (kernel_memory + 4 * i) with (kernel_memory + 3072 + 4 * (i - 768)) by lia.
    rewrite V2, map_4mib_word by lia. apply u32_small. lia.
Qed.

(** C24. The page directory of the second stage maps every address below the kernel's
    base to itself and the addresses from there on to the first GiB of physical
    memory: the boot loader goes on running, and the kernel finds itself at the
    addresses that it is linked for.  Nothing but the directory is written. *)
Theorem map_memory_walks kernel_memory (s : S) :
  in_win win kernel_memory 4096 -> kernel_memory mod 4096 = 0 ->
  exists s', map_memory kernel_memory s = Ok s' /\ outside s s' /\
    (forall va, 0 <= va < 2 ^ 32 -> Machine.walk (view s') kernel_memory va
       = Some (if va <? KERNEL_BASE then va else va - KERNEL_BASE)) /\
    forall a, win a -> a < kernel_memory \/ kernel_memory + 4096 <= a -> view s' a = view s a.
Proof.
  intros Hw Ha. destruct (map_memory_ok kernel_memory s Hw) as (s' & E & O & D & F).
  exists s'. split_and!; try done. intros va Hva. apply boot_directory_walks; try done.
  - intros a. apply view_range.
  - destruct Hw as (H0 & H1 & _). lia.
Qed.
End Directory.

(** ** The end *)

(** What holds of every state of a loop holds of its result. *)
Lemma loop_keeps {S R} (body : S -> res (S + R)) (P : S -> Prop) (Q : R -> Prop) s r :
  P s -> (forall t o, P t -> body t = Ok o -> match o with inl t' => P t' | inr q => Q q end) ->
  loop body s = Ok r -> Q r.
Proof.
  intros Hs Hb. unfold loop. rewrite ploop_nloop. generalize (Pos.to_nat budget) as n. intros n.
  revert s Hs; induction n as [|n IH]; intros s Hs; cbn [nloop]; [done|].
  destruct (body s) as [[s'|q]| |] eqn:E; try done.
  - apply IH. exact (Hb _ _ Hs E).
  - intros [= <-]. exact (Hb _ _ Hs E).
Qed.

Section Paged.
Context {T : Type} {HT : Store T} {HFT : Firmware T}.
Implicit Types (s : cpu T).

(** Paging stays enabled across stores, *)
Lemma wr8_paging s a v s' : wr8 s a v = Ok s' -> paging s' = paging s.
Proof. intros E. cbn in E. res_inv. by cbn. Qed.

Lemma zeros_paging a n s s' : zeros a n s = Ok s' -> paging s = true -> paging s' = true.
Proof.
  intros E Hp. unfold zeros, for_loop in E. revert E.
  apply (loop_keeps _ (fun '(_, s) => paging s = true) (fun s => paging s = true)); [done|].
  intros [i t] o Ht E. destruct (i <? n); [|by injection E as <-].
  apply bind_ok_inv in E as (u & W & E). injection E as <-. by rewrite (wr8_paging _ _ _ _ W).
Qed.

(** and no interrupt of the BIOS comes back. *)
Lemma bios_int_paging regs code result s : paging s = true -> _bios_int regs code result s = Undef.
Proof. intros Hp. unfold _bios_int. cbn [interrupt cpu_firmware]. by rewrite Hp. Qed.

Lemma init_vbe_paging cib crtc info s s' : paging s = true -> init_vbe cib crtc info s <> Ok s'.
Proof.
  intros Hp E. unfold init_vbe in E. cbv zeta in E.
  do 4 (apply bind_ok_inv in E as (? & W & E); apply wr8_paging in W; rewrite <- W in Hp; clear W).
  apply bind_ok_inv in E as (? & W' & E). cbn [stn] in W'.
  do 2 (apply bind_ok_inv in W' as (? & W & W'); apply wr8_paging in W; rewrite <- W in Hp; clear W).
  injection W' as ->.
  apply bind_ok_inv in E as (? & Z0 & E). apply zeros_paging in Z0; [|done].
  by rewrite (bios_int_paging _ _ _ _ Z0) in E.
Qed.

(** When its buffers are memory, it gets there. *)
#[export] Program Instance cpu_window {win} `{!Window T win} : Window (cpu T) win := {
  view s := view (machine_of s);
  poke s a v := on_machine (poke (machine_of s) a v) s;
  outside s t := (cr0 t, cr3 t, cr4 t) = (cr0 s, cr3 s, cr4 s) /\ outside (machine_of s) (machine_of t);
}.
Next Obligation.
  intros win W. split; [by intros s|]. intros s t u [C1 O1] [C2 O2]. split; [congruence|by etrans].
Qed.
Next Obligation. intros win W s a Ha. exact (rd8_win (machine_of s) a Ha). Qed.
Next Obligation. intros win W s a. exact (view_range (machine_of s) a). Qed.
Next Obligation. intros win W s a v Ha. cbn [wr8 cpu_store]. by rewrite (wr8_win (machine_of s) a v Ha). Qed.
Next Obligation. intros win W s a v b Ha Hb. exact (view_poke (machine_of s) a v b Ha Hb). Qed.
Next Obligation. intros win W s a v Ha. split; [done|exact (outside_poke (machine_of s) a v Ha)]. Qed.

Lemma outside_paging {win} `{!Window T win} s t : outside s t -> paging t = paging s.
Proof. intros [C _]. unfold paging. by injection C as -> _ _. Qed.

Lemma init_vbe_faults {win} `{!Window T win} cib crtc info s :
  paging s = true -> in_win win cib 512 -> in_win win crtc 64 -> init_vbe cib crtc info s = Undef.
Proof.
  intros Hp (H0 & H1 & Hw) Hc. unfold init_vbe, field. change (bit_offset "vbe_signature" vbe_cib_layout / 8) with 0.
  change (bit_offset "version" vbe_cib_layout / 8) with 4. cbv zeta.
  rewrite Z.add_0_r, (u32_small cib), (u32_small (cib + 1)), (u32_small (cib + 2)), (u32_small (cib + 3)),
    (u32_small (cib + 4)) by lia.
  rewrite (bind_ok _ _ _ (wr8_win _ cib 86 (Hw cib ltac:(lia)))).
  rewrite (bind_ok _ _ _ (wr8_win _ (cib + 1) 66 (Hw (cib + 1) ltac:(lia)))).
  rewrite (bind_ok _ _ _ (wr8_win _ (cib + 2) 69 (Hw (cib + 2) ltac:(lia)))).
  rewrite (bind_ok _ _ _ (wr8_win _ (cib + 3) 50 (Hw (cib + 3) ltac:(lia)))).
  match goal with |- context [stn 2 ?s _ _] => assert (paging s = true) as Hp1 by exact Hp;
    destruct (stn_win 2 s (cib + 4) 768) as (s1 & E1 & O1 & _) end; [apply (in_win_sub win cib 512); [by split|lia|lia]|].
  rewrite (bind_ok _ _ _ E1).
  destruct (zeros_ok crtc 64 s1 Hc ltac:(lia)) as (s2 & E2 & O2 & _). rewrite (bind_ok _ _ _ E2).
  apply bind_undef, bios_int_paging. by rewrite (outside_paging _ _ O2), (outside_paging _ _ O1).
Qed.
End Paged.

(** The second stage never reaches the kernel: whatever the disk, the memory
    and the parameters are, it stops before, runs forever, or faults, since it
    enables paging before init_vbe calls the BIOS, which needs real mode. *)
Theorem stage2_never_jumps {S} `{HS : Store S} `{HP : Ports S} `{HF : Firmware S} bps drive buf dap record table load_buffer fat_buffer dir blocks len result
    cib crtc info lit (s : cpu (vga S)) e :
  stage2 bps drive buf dap record table load_buffer fat_buffer dir blocks len result cib crtc info lit s <> Ok e.
Proof.
  intros E. unfold stage2 in E. destruct (paging s); [done|].
  apply bind_ok_inv in E as (v & _ & E). cbv zeta in E. apply bind_ok_inv in E as (t & V & _).
  revert V. apply init_vbe_paging. unfold enable_paging, paging. cbn [cr0].
  rewrite Z.lor_spec. apply orb_true_r.
Qed.

(** Two gibibytes of flat memory, with the directory at 65536. *)
Lemma map_memory_walks_witness :
  exists s', map_memory 65536 (Flat (fun _ => 170)) = Ok s' /\ outside (Flat (fun _ => 170)) s' /\
    (forall va, 0 <= va < 2 ^ 32 -> Machine.walk (view s') 65536 va
       = Some (if va <? KERNEL_BASE then va else va - KERNEL_BASE)) /\
    forall a, True -> a < 65536 \/ 65536 + 4096 <= a -> view s' a = view (Flat (fun _ => 170)) a.
Proof.
  apply (map_memory_walks (win := fun _ => True) 65536 (Flat (fun _ => 170))); [|by vm_compute].
  split; [by vm_compute|]. split; [by vm_compute|done].
Defined.

(** Two structures are a byte shorter than what they describe, an entry of a directory
    of 32 bytes and a mode information block of 256. *)
Example short_structures : sizeof exfat_volume_guid_dir_entry = 31 /\ sizeof vbe_mib = 255.
Proof. by vm_compute. Qed.
