(* ===== verification/VgaMachine.v ===== *)
(** * The screen of vga.c as the console of the second stage

    A machine with the variable of vga.c is a memory with the firmware of the machine,
    and printing on its screen keeps a transcript: what is shown is the transcript,
    typed onto the screen as it was. *)

From S2P Require Export VgaProps Stage2 BiosProps.

#[local] Open Scope Z_scope.

(** ** Memory and firmware *)

Section Lift.
Context {S : Type} {win : Z -> Prop} {HS : Store S} {HW : Window S win}.

#[export] Program Instance vga_window : Window (vga S) win := {
  view s := view (dev s);
  poke s a v := Vga (poke (dev s) a v) (color s);
  outside s t := color t = color s /\ outside (dev s) (dev t);
}.
Next Obligation.
  split; [by intros s|]. intros s t u [C1 O1] [C2 O2]. split; [congruence|by etrans].
Qed.
Next Obligation. intros s a Ha. exact (rd8_win (dev s) a Ha). Qed.
Next Obligation. intros s a. exact (view_range (dev s) a). Qed.
Next Obligation. intros s a v Ha. cbn [wr8 vga_store]. by rewrite (wr8_win (dev s) a v Ha). Qed.
Next Obligation. intros s a v b Ha Hb. exact (view_poke (dev s) a v b Ha Hb). Qed.
Next Obligation. intros s a v Ha. split; [done|exact (outside_poke (dev s) a v Ha)]. Qed.

Context {HF : Firmware S}.

#[export] Program Instance vga_disk drive bps sectors sector `{!Disk S win drive bps sectors sector} :
  Disk (vga S) win drive bps sectors sector.
Next Obligation.
  intros drive bps sectors sector HD regs s H1 H2 H3 H4 H5 H6 H7 H8 H9 H10 H11.
  destruct (disk_read regs (dev s) H1 H2 H4 H5 H6 H9 H10 H11) as (r & d & E & O & V).
  exists r, (Vga d (color s)). cbn [interrupt vga_firmware]. by rewrite (bind_ok _ _ _ E).
Qed.

#[export] Program Instance vga_memory_map count width entry cont `{!MemoryMap S win count width entry cont} :
  MemoryMap (vga S) win count width entry cont.
Next Obligation. intros count width entry cont HM. exact (map_count (S := S)). Qed.
Next Obligation. intros count width entry cont HM. exact (map_width (S := S)). Qed.
Next Obligation. intros count width entry cont HM. exact (cont_first (S := S)). Qed.
Next Obligation. intros count width entry cont HM. exact (cont_range (S := S)). Qed.
Next Obligation.
  intros count width entry cont HM regs s k Hk H1 H2 H3 H4 Hw.
  destruct (map_scan regs (dev s) k Hk H1 H2 H3 H4 Hw) as (r & d & E & Eb & O & V).
  exists r, (Vga d (color s)). cbn [interrupt vga_firmware]. by rewrite (bind_ok _ _ _ E).
Qed.
End Lift.

(** ** The messages *)

(** A format of plain characters with [n] times [%x]. *)
Fixpoint hex_format (l : list Z) (n : nat) : bool :=
  match l with
  | [] => true
  | c :: rest =>
      if c =? 37 then
        match rest, n with
        | d :: l', Datatypes.S n => (d =? 120) && hex_format l' n
        | _, _ => false
        end
      else (0 <=? c) && (c <? 127) && negb (c =? 8) && hex_format rest n
  end.

Lemma hex_digits_plain a : Forall plain (hex_chars <$> high_digits 4 8 a).
Proof.
  apply Forall_fmap. eapply Forall_impl; [apply (high_digits_range 4); lia|]. intros d Hd. cbn in Hd.
  unfold plain, hex_chars. cbn. case_match; lia.
Qed.

Lemma hex_format_renders l args :
  hex_format l (length args) = true -> exists out, render l args = Some out /\ Forall plain out.
Proof.
  remember (length l) as n eqn:Hn. assert (length l <= n)%nat as Hle by lia. clear Hn.
  revert l args Hle; induction n as [|n IH]; intros [|c l] args Hle Hf; cbn [length] in Hle; try lia; try by exists [].
  cbn [hex_format render] in *. destruct (c =? 37) eqn:Ec.
  - destruct l as [|d l]; [done|]. destruct args as [|a args]; [done|]. cbn [length] in *.
    apply andb_prop in Hf as [Hd Hf]. apply Z.eqb_eq in Hd as ->.
    destruct (IH l args ltac:(lia) Hf) as (out & E & Hp).
    exists ((hex_chars <$> high_digits 4 8 a) ++ out). split.
    { change (directive 120 (a :: args)) with (Some (hex_chars <$> high_digits 4 8 a, args)).
      generalize (hex_chars <$> high_digits 4 8 a). intros ds. cbn. by rewrite E. }
    apply Forall_app. split; [apply hex_digits_plain|done].
  - apply andb_prop in Hf as [Hpl Hf]. destruct (IH l args ltac:(lia) Hf) as (out & E & Hp). rewrite E. cbn.
    eexists. split; [reflexivity|]. constructor; [|done]. unfold plain. lia.
Qed.

Lemma message_renders fmt args :
  (fmt, length args) ∈ messages ->
  render (c_string fmt) args = Some (rendered fmt args) /\ Forall plain (rendered fmt args).
Proof.
  intros Hin. assert (Forall (fun p => hex_format (c_string p.1) p.2 = true) messages) as Hall
    by (apply (bool_decide_unpack _); by vm_compute).
  rewrite Forall_forall in Hall. specialize (Hall _ Hin). cbn [fst snd] in Hall.
  destruct (hex_format_renders _ _ Hall) as (out & E & Hp). unfold rendered. by rewrite E.
Qed.

(** ** The console *)

Section ShownConsole.
Context {S : Type} {win : Z -> Prop} {HS : Store S} {HW : Window S win} {HP : Ports S} {HC : Crtc S win}.
Context (Hbuf : forall b, text_buffer <= b < text_buffer + 4000 -> win b).
Context (lit : string -> Z) (start : screen) (screen text : Z -> Prop).
Implicit Types (s t : vga S).

(** The literals are in memory, outside of the screen. *)
Definition literals_in s : Prop :=
  forall fmt, fmt ∈ messages.*1 -> rest_at (elsewhere (win := win)) s (lit fmt) (c_string fmt).

Context (Hscreen : forall a, text_buffer <= a < text_buffer + 4000 -> screen a).
Context (Htext : forall fmt a, fmt ∈ messages.*1 -> lit fmt <= a < lit fmt + Z.of_nat (length (c_string fmt)) + 1 -> text a).

Definition shown l s : Prop :=
  shows (win := win) s (type_all 15 l start) /\ color s = 15 /\ literals_in s.

Lemma literals_kept s t : kept (win := win) s t -> literals_in s -> literals_in t.
Proof. intros Hk Hl fmt Hf. eapply rest_at_keep; [|by apply Hl]. intros b. by apply kept_rd8. Qed.

(** What does not touch the devices and leaves the text buffer alone. *)
Lemma shows_outside s t sc :
  outside s t -> (forall a, text_buffer <= a < text_buffer + 4000 -> view t a = view s a) ->
  shows (win := win) s sc -> shows (win := win) t sc.
Proof.
  intros [Hc Ho] Hv (Ht & Hp & Hr & Hcol). split; [|split; [|by rewrite Hc]].
  - intros i Hi. rewrite <- (Ht i Hi). apply vld_ext. intros b Hb. apply Hv. lia.
  - rewrite <- Hp. unfold cursor_pos. by rewrite !(crtc_outside _ _ _ Ho) by (unfold cursor_reg; lia).
Qed.

#[export] Program Instance vga_console :
  Console (vga S) win (fun fmt => print vga_output_char (lit fmt)) screen text := { console := shown }.
Next Obligation.
  intros l s t (Hs & Hc & Hl) Ho Hv. split; [|split].
  - apply (shows_outside s); [done| |done]. intros a Ha. apply Hv; [by apply Hbuf|right; by apply Hscreen].
  - destruct Ho as [-> _]. done.
  - intros fmt Hf. destruct (Hl fmt Hf) as (H0 & H1 & Hn & Hr). split; [done|]. split; [done|]. split; [done|].
    intros i Hi. destruct (Hr i Hi) as [He Hx]. split; [done|]. rewrite <- Hx.
    cbn [rd8 vga_store]. rewrite !rd8_win by apply He. f_equal. apply Hv; [apply He|]. left.
    apply (Htext fmt); [done|lia].
Qed.
Next Obligation.
  intros l fmt args s Hin (Hs & Hc & Hl). destruct (message_renders fmt args Hin) as [Hrend Hp].
  assert (fmt ∈ messages.*1) as Hf by (apply list_elem_of_fmap; by exists (fmt, length args)).
  rewrite (print_outs vga_output_char (elsewhere (win := win)) plain (fun s => exists sc, shows s sc)
    (fun c s s' Hpc Hi E => output_keeps Hbuf c s s' Hpc Hi E) _ (c_string fmt) _ _ _ (Hl fmt Hf) Hrend
    (ex_intro _ _ Hs) Hp).
  destruct (outs_type Hbuf _ s _ Hp Hs) as (s' & E & Hk & Hs'). exists s'. split; [done|]. split.
  - split; [|split].
    + unfold type_all in *. by rewrite foldl_app, Hc in *.
    + rewrite <- Hc. apply Hk.
    + by apply (literals_kept s).
  - intros a Ha Hn. apply Hk. split; [done|]. destruct (decide (text_buffer <= a < text_buffer + 4000)); [by destruct Hn; apply Hscreen|lia].
Qed.
End ShownConsole.
