(* ===== verification/Stage2Load.v ===== *)
(** * Loading the kernel and the first system process

    [load_system] of stage2.c on any memory with a volume behind the BIOS, with
    any console. *)

From S2P Require Export Stage2 ExfatPath.

#[local] Open Scope Z_scope.

Definition kernel_names : list (list Z) := codes <$> ["system"; "kernel"]%string.
Definition vga_names : list (list Z) := codes <$> ["system"; "vga"]%string.

Section LoadSystem.
Context {S : Type} {HS : Store S} {win : Z -> Prop} {HW : Window S win} {HF : Firmware S}.
Context (drive sectors : Z) (sector : Z -> Z -> Z).
Context {HD : Disk S win drive 512 sectors sector}.
Context (buf dap record table fat_buffer : Z).
Context (Hlo : locals_ok (win := win) 512 drive buf dap).
Context (H F k m : Z) (Hk : 0 <= k <= 20) (lit : string -> Z).
Context (printf : string -> list Z -> S -> res S) (screen text : Z -> Prop).
Context {HC : Console S win printf screen text}.
Implicit Types (s t : S) (cs : list Z).

#[local] Abbreviation B := (cluster_bytes k).
#[local] Abbreviation content := (file_byte sector H k).

(** Where files are loaded. *)
Definition load_base : Z := 1048576.

(** Addresses that neither loading nor printing writes. *)
Definition quiet_place (a : Z) : Prop :=
  ~ scratch 512 buf dap a /\ (a < fat_buffer \/ fat_buffer + B <= a) /\
  (a < load_base \/ load_base + m * B <= a).

Record load_places : Prop := {
  lp_places : places (win := win) buf dap record fat_buffer k load_base m;
  lp_low : load_base + m * B < 2 ^ 31;
  lp_quiet x : text x \/ screen x -> quiet_place x }.
Context (Hlp : load_places).

Lemma lp_screen x : load_base <= x < load_base + m * B -> ~ screen x.
Proof. intros Hx Hs. destruct (lp_quiet Hlp x) as (_ & _ & Hd); [by right|lia]. Qed.

Definition stable (a n : Z) : Prop :=
  in_win win a n /\ forall x, a <= x < a + n -> quiet_place x /\ ~ screen x.

(** Memory is as in [s] outside of the places that are written. *)
Definition kept s t : Prop :=
  forall a, win a -> quiet_place a -> ~ screen a -> view t a = view s a.

Lemma kept_stable s t a n x : kept s t -> stable a n -> a <= x < a + n -> view t x = view s x.
Proof. intros Hkp [(_ & _ & Hw) Hs] Hx. destruct (Hs x Hx). apply Hkp; auto. Qed.

Lemma kept_trans s t u : kept s t -> kept t u -> kept s u.
Proof. intros H1 H2 a Ha Hq Hsc. by rewrite H2, H1. Qed.

Lemma print_kept l s t fmt args :
  console l t -> kept s t -> (fmt, length args) ∈ messages ->
  exists t', printf fmt args t = Ok t' /\ console (l ++ rendered fmt args) t' /\ kept s t' /\
    forall x, load_base <= x < load_base + m * B -> win x -> view t' x = view t x.
Proof.
  intros Hc Hkp Hin. destruct (console_print l fmt args t Hin Hc) as (t' & E & Hc' & V).
  exists t'. split; [done|]. split; [done|]. split.
  - intros a Ha Hq Hsc. rewrite V by done. by apply Hkp.
  - intros x Hx Hw. apply V; [done|]. by apply lp_screen.
Qed.

(** The part of the region from cluster [j] on. *)
Lemma slots j : 0 <= j <= m -> (m - j) * B + j * B = m * B /\ 0 <= j * B <= m * B.
Proof. intros Hj. destruct (cluster_bytes_range k Hk). split; [lia|nia]. Qed.

Lemma places_from j :
  0 <= j <= m -> places (win := win) buf dap record fat_buffer k (load_base + j * B) (m - j).
Proof.
  intros Hj. destruct (lp_places Hlp) as [(Hd0 & Hd1 & Hdw) Hm Hby Hf Hrd Hrf Hdf Hsd Hsr Hsf].
  destruct (slots j Hj) as [Hmj Hj0]. split; try done; try lia.
  - split; [lia|]. split; [lia|]. intros b Hb. apply Hdw. lia.
  - intros x Hx. apply Hsd. lia.
Qed.

Lemma untouched_from j a n :
  0 <= j <= m -> stable a n -> untouched (win := win) buf dap fat_buffer k (load_base + j * B) (m - j) a n.
Proof.
  intros Hj [Hw Hs]. destruct (slots j Hj) as [Hmj Hj0]. split; [done|]. intros x Hx.
  destruct (Hs x Hx) as [(Hsc & Hf & Hd) _]. split; [done|]. split; [done|]. lia.
Qed.

(** Only ASCII entries of the up-case table matter. *)
Lemma path_on_disk_ext up up' n cs names cs' :
  (forall c, 0 <= c < 128 -> up' c = up c) -> (forall l o, 0 <= sector l o) ->
  path_on_disk sectors sector H F k n up cs names cs' -> path_on_disk sectors sector H F k n up' cs names cs'.
Proof.
  intros He Hsec. induction 1 as [cs|cs name names f cs' cs'' Hd Hf Hcl _ IH]; [constructor|].
  apply (path_down _ _ _ _ _ _ _ _ _ _ f cs'); [done| |done|done].
  rewrite <- Hf. apply find_file_ext. intros g c Hg Hc. apply He.
  apply (dir_chars (content cs) 0 (dir_entries k cs)) with (f := g) (c := c) in Hd; [done| |done|done].
  intros a. apply Hsec.
Qed.

(** A file has room. *)
Lemma path_fits up n cs names cs' :
  path_on_disk sectors sector H F k n up cs names cs' -> names <> [] -> Z.of_nat (length cs') <= n.
Proof.
  induction 1 as [cs|cs name names f cs' cs'' _ _ Hcl Hp IH]; intros Hne; [done|].
  destruct names as [|name' names]; [|by apply IH]. inversion Hp; subst. apply Hcl.
Qed.

(** ** The two files *)

(** A mounted volume, and the paths and tables where nothing is written. *)
Record loader_memory s root : Prop := {
  lm_volume : volume (win := win) record s H F k;
  lm_root : vld32 (view s) (record + 96) = root;
  lm_cluster : cluster_ok sectors H F k root;
  lm_record : stable record 512; lm_table : stable table 256;
  lm_upcase c : 0 <= c < 128 -> upcase (view s) table c < 128;
  lm_kernel : stable (lit "/system/kernel") (spelled kernel_names);
  lm_vga : stable (lit "/system/vga") (spelled vga_names);
  lm_kernel_path : spells (view s) (lit "/system/kernel") kernel_names;
  lm_vga_path : spells (view s) (lit "/system/vga") vga_names }.

Lemma table_kept s t c :
  kept s t -> stable table 256 -> 0 <= c < 128 -> upcase (view t) table c = upcase (view s) table c.
Proof. intros Hkp Hst Hc. apply vld_ext. intros b Hb. apply (kept_stable s t table 256); [done|done|lia]. Qed.

Lemma loader_memory_kept s t root : kept s t -> loader_memory s root -> loader_memory t root.
Proof.
  intros Hkp [Hv Hr Hc Hre Hta Hup Hk1 Hv1 Sk Sv]. split; try done.
  - apply (volume_ext record s); [|done]. intros a Ha. by apply (kept_stable s t record 512).
  - rewrite <- Hr. apply vld_ext. intros b Hb. apply (kept_stable s t record 512); [done|done|lia].
  - intros c Hcr. rewrite (table_kept s t) by done. by apply Hup.
  - apply (spells_ext (view s)); [|done]. intros x Hx. by apply (kept_stable s t (lit "/system/kernel"%string) (spelled kernel_names)).
  - apply (spells_ext (view s)); [|done]. intros x Hx. by apply (kept_stable s t (lit "/system/vga"%string) (spelled vga_names)).
Qed.

(** A file is read behind the first [j] clusters. *)
Lemma read_at t root names path cs j :
  loader_memory t root -> 0 <= j -> j + 1 <= m ->
  stable path (spelled names) -> spells (view t) path names ->
  path_on_disk sectors sector H F k (m - j) (upcase (view t) table) [root] names cs ->
  exists t', read_file_exfat 512 drive buf dap record table fat_buffer path (load_base + j * B) t
      = Ok (Z.of_nat (length cs) * B, t') /\
    holds (win := win) sector buf dap fat_buffer H k (load_base + j * B) (m - j) t t' cs.
Proof.
  intros [Hv Hr Hc Hre Hta Hup _ _ _ _] Hj Hjm Hst Hsp Hpath.
  apply (read_file_runs drive sectors sector buf dap record table fat_buffer Hlo H F k (load_base + j * B) (m - j)
    Hk (places_from j ltac:(lia)) path t root names cs); try done; try lia.
  - apply untouched_from; [lia|done].
  - apply untouched_from; [lia|done].
Qed.

(** Reading a file keeps the rest, and the console. *)
Lemma read_kept t t' cs j :
  holds (win := win) sector buf dap fat_buffer H k (load_base + j * B) (m - j) t t' cs -> 0 <= j <= m ->
  kept t t' /\ (forall l, console l t -> console l t') /\
  forall x, load_base <= x < load_base + j * B -> win x -> view t' x = view t x.
Proof.
  intros (Ho & _ & _ & Hv) Hj. destruct (slots j Hj) as [Hmj Hj0]. split; [|split].
  - intros a Ha (Hsc & Hf & Hd) _. apply Hv; [done|done|done|lia].
  - intros l Hc. apply (console_kept l t); [done|done|]. intros a Ha Ht.
    destruct (lp_quiet Hlp a Ht) as (Hsc & Hf & Hd). apply Hv; [done|done|done|lia].
  - intros x Hx Hw. destruct (lp_places Hlp) as [_ _ _ _ _ _ Hdf Hsd _ _].
    apply Hv; [done|apply Hsd; lia|lia|lia].
Qed.

(** What is printed meanwhile. *)
Definition detected_log (kernel_size vga_size : Z) : list Z :=
  if vga_size =? 0 then rendered "System process does not exist\r\n"%string []
  else rendered "System process detected at %x. Passing info\r\n"%string [load_base + kernel_size].

Definition load_log (kernel_size vga_size : Z) : list Z :=
  rendered "Loading kernel...\r\n"%string [] ++ rendered "Loading system processes...\r\n"%string [] ++
  rendered "Loading VGA driver\r\n"%string [] ++ rendered "Kernel Size: %x\r\n"%string [kernel_size] ++
  detected_log kernel_size vga_size.

(** The last message. *)
Lemma detected_printed l s t n size :
  console l t -> kept s t ->
  exists t', (if size =? 0 then printf "System process does not exist\r\n"%string [] t
      else printf "System process detected at %x. Passing info\r\n"%string [load_base + n] t) = Ok t' /\
    console (l ++ detected_log n size) t' /\ kept s t' /\
    forall x, load_base <= x < load_base + m * B -> win x -> view t' x = view t x.
Proof. intros Hc Hkp. unfold detected_log. destruct (size =? 0); apply print_kept; (done || in_messages). Qed.

(** Loading the system: with /system/kernel and /system/vga on a mounted volume,
    load_system leaves the clusters of the kernel at 1 MiB and those of the driver
    right behind them, returns the size of the kernel, and writes nothing but
    those, the FAT buffer, the scratch memory of the reads, and the screen. *)
Theorem load_system_loads l s root cs1 cs2 :
  (forall l o, 0 <= sector l o) -> loader_memory s root -> console l s ->
  path_on_disk sectors sector H F k m (upcase (view s) table) [root] kernel_names cs1 ->
  path_on_disk sectors sector H F k (m - Z.of_nat (length cs1)) (upcase (view s) table) [root] vga_names cs2 ->
  0 < Z.of_nat (length cs1) < m ->
  exists s', load_system 512 drive buf dap record table fat_buffer printf lit s
      = Ok (Z.of_nat (length cs1) * B, s') /\
    console (l ++ load_log (Z.of_nat (length cs1) * B) (Z.of_nat (length cs2) * B)) s' /\ kept s s' /\
    (forall o, 0 <= o < Z.of_nat (length cs1) * B -> view s' (load_base + o) = content cs1 o) /\
    forall o, 0 <= o < Z.of_nat (length cs2) * B ->
      view s' (load_base + Z.of_nat (length cs1) * B + o) = content cs2 o.
Proof.
  intros Hsec Hm Hc P1 P2 Hn. set (n := Z.of_nat (length cs1)) in *.
  destruct (slots n ltac:(lia)) as [Hmn Hn0]. pose proof (lp_low Hlp) as Hlow. destruct (cluster_bytes_range k Hk) as [Hp2 HB].
  assert (0 < n * B) as Hpos by nia. unfold load_base in Hlow.
  assert (forall x, load_base <= x < load_base + m * B -> win x) as Hwin
    by (intros x Hx; destruct (lp_places Hlp) as [(_ & _ & Hw) _ _ _ _ _ _ _ _ _]; by apply Hw).
  unfold load_system.
  destruct (print_kept l s s "Loading kernel...\r\n"%string []) as (t1 & -> & C1 & K1 & _); [done|done|in_messages|]. bnd.
  pose proof (loader_memory_kept s t1 root K1 Hm) as M1.
  destruct (read_at t1 root kernel_names (lit "/system/kernel"%string) cs1 0 M1) as (t2 & E2 & H2);
    [lia|lia|apply Hm|apply M1| |].
  { rewrite Z.sub_0_r. apply (path_on_disk_ext (upcase (view s) table)); [|done|done].
    intros c Hcr. apply table_kept; [done|apply Hm|done]. }
  destruct (read_kept t1 t2 cs1 0 H2 ltac:(lia)) as (K2 & C2 & _). destruct H2 as (_ & _ & D2 & _).
  rewrite Z.mul_0_l, Z.add_0_r in E2, D2. change 1048576 with load_base. rewrite (bind_ok _ _ _ E2). cbv beta iota.
  fold n. replace (n * B =? 0) with false by lia.
  destruct (print_kept _ s t2 "Loading system processes...\r\n"%string [] (C2 _ C1)) as (t3 & -> & C3 & K3 & V3);
    [by apply (kept_trans s t1)|in_messages|]. bnd.
  destruct (print_kept _ s t3 "Loading VGA driver\r\n"%string [] C3 K3) as (t4 & -> & C4 & K4 & V4); [in_messages|]. bnd.
  rewrite (u32_small (n * B)) by lia.
  destruct (print_kept _ s t4 "Kernel Size: %x\r\n"%string [n * B] C4 K4) as (t5 & -> & C5 & K5 & V5); [in_messages|].
  bnd. unfold load_base at 1. int_ok. fold load_base. rewrite u32_small by (unfold load_base; lia).
  pose proof (loader_memory_kept s t5 root K5 Hm) as M5.
  destruct (read_at t5 root vga_names (lit "/system/vga"%string) cs2 n M5) as (t6 & E6 & H6);
    [lia|lia|apply Hm|apply M5| |].
  { apply (path_on_disk_ext (upcase (view s) table)); [|done|done].
    intros c Hcr. apply table_kept; [done|apply Hm|done]. }
  destruct (read_kept t5 t6 cs2 n H6 ltac:(lia)) as (K6 & C6 & V6). destruct H6 as (_ & Hm2 & D6 & _).
  rewrite (bind_ok _ _ _ E6). cbv beta iota.
  destruct (detected_printed _ s t6 (n * B) (Z.of_nat (length cs2) * B) (C6 _ C5)) as (t7 & -> & C7 & K7 & V7);
    [by apply (kept_trans s t5)|]. bnd.
  assert (Z.of_nat (length cs2) * B <= (m - n) * B) by nia.
  exists t7. split; [done|]. split; [by rewrite <- !app_assoc in C7|]. split; [done|]. split; intros o Ho.
  - rewrite V7, V6, V5, V4, V3 by (lia || (apply Hwin; lia)). by apply D2.
  - rewrite V7 by (lia || (apply Hwin; lia)). by apply D6.
Qed.
End LoadSystem.
