(* ===== verification/BootRegions.v ===== *)
(** * The memory of the boot loader

    The variables, buffers and literals that the second stage uses ([part]), where
    they may be, and what it means to change some of them only. *)

From S2P Require Export Stage2Load ExfatInit Stage2Props.

#[local] Open Scope Z_scope.

(** The literals of the messages and of the two paths are only read. *)
Inductive part :=
  PBuf | PDap | PRecord | PTable | PLoad | PFat | PResult | PBlocks | PLen | PDir | PFiles | PScreen
  | PKernelPath | PVgaPath | PMessage (fmt : string).

#[export] Instance part_eq_dec : EqDecision part.
Proof. solve_decision. Defined.

Definition written (p : part) : bool :=
  match p with PKernelPath | PVgaPath | PMessage _ => false | _ => true end.

Definition present (p : part) : Prop :=
  match p with PMessage fmt => fmt ∈ messages.*1 | _ => True end.

(** All of the memory that is written. *)
Definition boot_parts : list part :=
  [PBuf; PDap; PRecord; PTable; PLoad; PFat; PResult; PBlocks; PLen; PDir; PFiles; PScreen].

Lemma boot_parts_written p : p ∈ boot_parts <-> written p = true.
Proof.
  split; [|by destruct p; intros; (discriminate || (apply (bool_decide_unpack _); by vm_compute))].
  revert p. apply Forall_forall. by repeat constructor.
Qed.

(** A part is not in a list of parts. *)
Ltac not_there := cbn [app]; rewrite !not_elem_of_cons; split_and!; (discriminate || apply not_elem_of_nil).

(** The addresses of the variables and buffers, and of the literals. *)
Record addresses := Addresses {
  a_buf : Z; a_dap : Z; a_record : Z; a_table : Z; a_load : Z; a_fat : Z;
  a_dir : Z; a_blocks : Z; a_len : Z; a_result : Z; a_lit : string -> Z }.

Section Regions.
Context {T : Type} {HS : Store T} {win : Z -> Prop} {HW : Window T win}.
Context (A : addresses) (k m : Z).
Implicit Types (s t u : T) (p q : part).

Definition part_base p : Z :=
  match p with
  | PBuf => a_buf A | PDap => a_dap A | PRecord => a_record A | PTable => a_table A | PLoad => a_load A
  | PFat => a_fat A | PResult => a_result A | PBlocks => a_blocks A | PLen => a_len A | PDir => a_dir A
  | PFiles => load_base | PScreen => text_buffer
  | PKernelPath => a_lit A "/system/kernel" | PVgaPath => a_lit A "/system/vga" | PMessage fmt => a_lit A fmt
  end.

(** With clusters of [2 ^ k] sectors and room for [m] clusters of files. *)
Definition part_size p : Z :=
  match p with
  | PBuf | PRecord | PLoad => 512 | PDap => 16 | PTable => 256 | PFat => cluster_bytes k
  | PResult => 24 | PBlocks => 1536 | PLen => 4 | PDir => 4096
  | PFiles => m * cluster_bytes k | PScreen => 4000
  | PKernelPath => spelled kernel_names | PVgaPath => spelled vga_names
  | PMessage fmt => Z.of_nat (length (c_string fmt)) + 1
  end.

Definition within p a : Prop := part_base p <= a < part_base p + part_size p.
Definition apart p q : Prop := part_base p + part_size p <= part_base q \/ part_base q + part_size q <= part_base p.

(** Where the linker and the compiler may put them: apart, as far as they are
    written; the buffers that the BIOS fills in the first 64 KiB. *)
Record boot_places : Prop := {
  bp_win p : present p -> in_win win (part_base p) (part_size p);
  bp_apart p q : written p = true -> present q -> p <> q -> apart p q;
  bp_buf : a_buf A + 512 <= 65536; bp_dap : a_dap A + 16 <= 65536; bp_blocks : a_blocks A + 1536 <= 65536;
  bp_result : 0 < a_result A; bp_dir : a_dir A mod 4096 = 0;
  bp_count : 0 <= m; bp_files : load_base + m * cluster_bytes k < 2 ^ 31; bp_shift : 0 <= k <= 20 }.

(** ** Changes of some parts *)

Definition same_but (ps : list part) s t : Prop :=
  forall a, win a -> (forall p, p ∈ ps -> ~ within p a) -> view t a = view s a.

Lemma same_but_refl ps s : same_but ps s s.
Proof. by intros a. Qed.

Lemma same_but_trans ps qs s t u : same_but ps s t -> same_but qs t u -> same_but (ps ++ qs) s u.
Proof.
  intros H1 H2 a Ha Hn. rewrite H2, H1; [done|done| |done|]; intros p Hp; apply Hn, elem_of_app; auto.
Qed.

Lemma same_but_weaken ps qs s t : ps ⊆ qs -> same_but ps s t -> same_but qs s t.
Proof. intros Hin H a Ha Hn. apply H; [done|]. intros p Hp. by apply Hn, Hin. Qed.

Context (Hbp : boot_places).

Lemma present_win p a : present p -> within p a -> win a.
Proof. intros Hp Ha. by apply (bp_win Hbp p Hp). Qed.

Lemma within_one p q a : written p = true -> present q -> p <> q -> within q a -> ~ within p a.
Proof. intros Hw Hq Hn Ha Hp. destruct (bp_apart Hbp p q Hw Hq Hn); unfold within in *; lia. Qed.

(** The other parts are as before. *)
Lemma same_but_part ps s t q a :
  same_but ps s t -> forallb written ps = true -> present q -> q ∉ ps -> within q a -> view t a = view s a.
Proof.
  intros H Hw Hq Hn Ha. apply H; [by apply (present_win q)|]. intros p Hp.
  apply (within_one p q); [|done|congruence|done].
  rewrite forallb_forall in Hw. by apply Hw, list_elem_of_In.
Qed.

(** ** What the routines ask for *)

Lemma boot_locals drive : 0 <= drive < 256 -> locals_ok (win := win) 512 drive (a_buf A) (a_dap A).
Proof.
  intros Hd. split; [lia|done|exact (bp_win Hbp PBuf I)|exact (bp_win Hbp PDap I)|apply Hbp|apply Hbp|].
  exact (bp_apart Hbp PBuf PDap eq_refl I ltac:(discriminate)).
Qed.

Lemma not_scratch q a :
  present q -> q <> PBuf -> q <> PDap -> within q a -> ~ scratch 512 (a_buf A) (a_dap A) a.
Proof.
  intros Hq Hb Hd Ha [Hs|Hs].
  - by apply (within_one PBuf q a).
  - by apply (within_one PDap q a).
Qed.

Lemma boot_clear q :
  present q -> q <> PBuf -> q <> PDap -> clear_of_reads (win := win) (a_buf A) (a_dap A) (part_base q) (part_size q).
Proof. intros Hq Hb Hd. split; [by apply Hbp|]. intros x. by apply not_scratch. Qed.

Lemma boot_init_places :
  init_places (win := win) (a_buf A) (a_dap A) (a_record A) (a_table A) (a_load A).
Proof.
  split; [by apply (boot_clear PRecord)|by apply (boot_clear PTable)|by apply (boot_clear PLoad)|..].
  - exact (bp_apart Hbp PRecord PTable eq_refl I ltac:(discriminate)).
  - exact (bp_apart Hbp PRecord PLoad eq_refl I ltac:(discriminate)).
  - exact (bp_apart Hbp PTable PLoad eq_refl I ltac:(discriminate)).
Qed.

Lemma boot_scan_ok : scan_ok (win := win) (a_result A) (a_blocks A) (a_len A) 64.
Proof.
  split; [lia|exact (bp_win Hbp PResult I)|apply Hbp|exact (bp_win Hbp PBlocks I)|apply Hbp|
    exact (bp_win Hbp PLen I)|..].
  - exact (bp_apart Hbp PResult PLen eq_refl I ltac:(discriminate)).
  - exact (bp_apart Hbp PResult PBlocks eq_refl I ltac:(discriminate)).
  - exact (bp_apart Hbp PLen PBlocks eq_refl I ltac:(discriminate)).
Qed.

Definition boot_screen (a : Z) : Prop := within PScreen a.
Definition boot_text (a : Z) : Prop := exists fmt, present (PMessage fmt) /\ within (PMessage fmt) a.

(** Parts that loading leaves alone. *)
Lemma part_quiet q a :
  present q -> q ∉ [PBuf; PDap; PFat; PFiles] -> within q a -> quiet_place (a_buf A) (a_dap A) (a_fat A) k m a.
Proof.
  intros Hq Hn Ha. rewrite !not_elem_of_cons in Hn. destruct Hn as (H1 & H2 & H3 & H4 & _).
  split; [by apply (not_scratch q)|].
  pose proof (within_one PFat q a eq_refl Hq ltac:(congruence) Ha).
  pose proof (within_one PFiles q a eq_refl Hq ltac:(congruence) Ha).
  unfold within in *. cbn [part_base part_size] in *. lia.
Qed.

Lemma part_stable q :
  present q -> q ∉ [PBuf; PDap; PFat; PFiles; PScreen] ->
  stable (win := win) (a_buf A) (a_dap A) (a_fat A) k m boot_screen (part_base q) (part_size q).
Proof.
  intros Hq Hn. split; [by apply Hbp|]. intros x Hx. rewrite !not_elem_of_cons in Hn. split.
  - apply (part_quiet q); [done| |done]. rewrite !not_elem_of_cons. tauto.
  - apply (within_one PScreen q x); [done|done| |done]. intros <-. tauto.
Qed.

Lemma boot_load_places :
  load_places (win := win) (a_buf A) (a_dap A) (a_record A) (a_fat A) k m boot_screen boot_text.
Proof.
  split; [split| |].
  - exact (bp_win Hbp PFiles I).
  - apply Hbp.
  - pose proof (bp_files Hbp). unfold load_base in *. lia.
  - exact (bp_win Hbp PFat I).
  - exact (bp_apart Hbp PRecord PFiles eq_refl I ltac:(discriminate)).
  - exact (bp_apart Hbp PRecord PFat eq_refl I ltac:(discriminate)).
  - exact (bp_apart Hbp PFiles PFat eq_refl I ltac:(discriminate)).
  - intros x Hx. by apply (not_scratch PFiles).
  - intros x Hx. by apply (not_scratch PRecord).
  - intros x Hx. by apply (not_scratch PFat).
  - apply Hbp.
  - intros x [(fmt & Hp & Hx)|Hx]; [apply (part_quiet (PMessage fmt))|apply (part_quiet PScreen)];
      (done || not_there).
Qed.
End Regions.
