(* ===== verification/BootPrepare.v ===== *)
(** * The second stage up to the page directory

    [prepare] of Stage2.v on any memory with a volume and a memory map behind the
    BIOS, with any console: the phases, and what they make together. *)

From S2P Require Export BootRegions.

#[local] Open Scope Z_scope.

Section Prepare.
Context {T : Type} {HS : Store T} {win : Z -> Prop} {HW : Window T win} {HF : Firmware T}.
Context (drive sectors : Z) (sector : Z -> Z -> Z).
Context {HD : Disk T win drive 512 sectors sector}.
Context (count width : Z) (entry : Z -> Z -> Z) (cont : Z -> Z).
Context {HM : MemoryMap T win count width entry cont}.
Context (A : addresses) (m : Z).

#[local] Abbreviation k := (boot_shift sector).
#[local] Abbreviation B := (cluster_bytes k).
#[local] Abbreviation content := (file_byte sector (boot_heap sector) k).
#[local] Abbreviation on_disk := (path_on_disk sectors sector (boot_heap sector) (boot_fat sector) k).

Context (printf : string -> list Z -> T -> res T).
Context {HC : Console T win printf (boot_screen A k m) (boot_text A k m)}.
Context (Hdrive : 0 <= drive < 256) (Hbp : boot_places (win := win) A k m).
Implicit Types (s t u : T) (l : list Z).

#[local] Abbreviation same := (same_but (win := win) A k m).

(** ** Printing *)

Lemma printed l t fmt args :
  console l t -> (fmt, length args) ∈ messages ->
  exists t', printf fmt args t = Ok t' /\ console (l ++ rendered fmt args) t' /\ same [PScreen] t t'.
Proof.
  intros Hc Hin. destruct (console_print l fmt args t Hin Hc) as (t' & E & Hc' & V).
  exists t'. split; [done|]. split; [done|]. intros a Ha Hn. apply V; [done|]. apply Hn. by left.
Qed.

Lemma console_same l ps s t :
  console l s -> outside s t -> same ps s t -> forallb written ps = true -> PScreen ∉ ps -> console l t.
Proof.
  intros Hc Ho Hs Hw Hn. apply (console_kept l s); [done|done|]. intros a Ha [(fmt & Hp & Hx)|Hx].
  - apply (same_but_part A k m Hbp ps s t (PMessage fmt)); try done.
    intros Hin. rewrite forallb_forall in Hw. apply list_elem_of_In, Hw in Hin. done.
  - by apply (same_but_part A k m Hbp ps s t PScreen).
Qed.

(** ** Mounting *)

(** What the disk holds: a volume with an up-case table, and on it the kernel in the
    clusters [cs1] and the driver in [cs2]. *)
Record boot_disk (cs1 cs2 : list Z) : Prop := {
  bd_bytes x o : 0 <= sector x o; bd_sectors : 256 < sectors;
  bd_root : cluster_ok sectors (boot_heap sector) (boot_fat sector) k (boot_root sector);
  bd_upcase i : upcase_entry sector = Some i -> upcase_lba sector i < sectors;
  bd_table c : 0 <= c < 128 -> mounted_upcase sector c < 128;
  bd_kernel : on_disk m (mounted_upcase sector) [boot_root sector] kernel_names cs1;
  bd_vga : on_disk (m - Z.of_nat (length cs1)) (mounted_upcase sector) [boot_root sector] vga_names cs2;
  bd_count : 0 < Z.of_nat (length cs1) < m }.

(** The volume is mounted. *)
Definition mounted_in t : Prop :=
  volume (win := win) (a_record A) t (boot_heap sector) (boot_fat sector) k /\
  vld32 (view t) (a_record A + 96) = boot_root sector /\
  forall c, 0 <= c < 128 -> upcase (view t) (a_table A) c = mounted_upcase sector c.

Lemma boot_mounts cs1 cs2 l t :
  boot_disk cs1 cs2 -> console l t ->
  exists t', init_exfat 512 drive (a_buf A) (a_dap A) (a_record A) (a_table A) (a_load A) t = Ok t' /\
    console l t' /\ same [PBuf; PDap; PRecord; PTable; PLoad] t t' /\ mounted_in t'.
Proof.
  intros Hd Hc. pose proof (bp_shift _ _ _ Hbp) as Hk. destruct (bd_root _ _ Hd) as (Hc2 & Hl0 & Hl1 & _).
  destruct (pow2_pos k ltac:(lia)). unfold cluster_lba in *.
  destruct (init_exfat_ok drive sectors sector (a_buf A) (a_dap A) (a_record A) (a_table A) (a_load A)
    (boot_locals A k m Hbp drive Hdrive) (boot_init_places A k m Hbp) t (bd_sectors _ _ Hd) Hk)
    as (t' & E & O & _ & V & R & U & F).
  { unfold lba_of. rewrite Z.mod_small; lia. }
  { apply Hd. }
  assert (same [PBuf; PDap; PRecord; PTable; PLoad] t t') as Hs.
  { intros a Ha Hn. apply Forall_forall in Hn. rewrite !Forall_cons in Hn. unfold within in Hn.
    cbn [part_base part_size] in Hn. apply F; unfold scratch; (done || lia). }
  exists t'. split; [done|]. split; [|done]. apply (console_same l _ t _ Hc O Hs); [done|not_there].
Qed.
(** ** Loading *)

(** The paths are in memory. *)
Definition paths_in t : Prop :=
  spells (view t) (a_lit A "/system/kernel") kernel_names /\ spells (view t) (a_lit A "/system/vga") vga_names.

Lemma paths_same ps s t :
  same ps s t -> forallb written ps = true -> paths_in s -> paths_in t.
Proof.
  intros Hs Hw [P1 P2].
  assert (forall q x, written q = false -> present q -> within A k m q x -> view t x = view s x) as Hq.
  { intros q x Hf Hp Hx. apply (same_but_part A k m Hbp ps s t q); try done.
    intros Hin. rewrite forallb_forall in Hw. apply list_elem_of_In, Hw in Hin. congruence. }
  split.
  - apply (spells_ext (view s)); [|done]. intros x Hx. by apply (Hq PKernelPath).
  - apply (spells_ext (view s)); [|done]. intros x Hx. by apply (Hq PVgaPath).
Qed.

(** The clusters are where they belong. *)
Definition files_in cs1 cs2 t : Prop :=
  (forall o, 0 <= o < Z.of_nat (length cs1) * B -> view t (load_base + o) = content cs1 o) /\
  forall o, 0 <= o < Z.of_nat (length cs2) * B -> view t (load_base + Z.of_nat (length cs1) * B + o) = content cs2 o.

Lemma files_same cs1 cs2 ps s t :
  boot_disk cs1 cs2 -> same ps s t -> forallb written ps = true -> PFiles ∉ ps ->
  files_in cs1 cs2 s -> files_in cs1 cs2 t.
Proof.
  intros Hd Hs Hw Hn [F1 F2]. pose proof (bd_count _ _ Hd) as Hc.
  pose proof (path_fits _ _ _ _ _ _ _ _ _ _ (bd_vga _ _ Hd) ltac:(done)) as Hl.
  destruct (cluster_bytes_range k (bp_shift _ _ _ Hbp)) as [_ HB]. pose proof (pow2_pos k ltac:(apply Hbp)).
  split; intros o Ho; rewrite <- (F1 o) || rewrite <- (F2 o); try done;
    apply (same_but_part A k m Hbp ps s t PFiles); try done; unfold within; cbn [part_base part_size]; nia.
Qed.

Lemma boot_loads cs1 cs2 l t :
  boot_disk cs1 cs2 -> console l t -> mounted_in t -> paths_in t ->
  exists t', load_system 512 drive (a_buf A) (a_dap A) (a_record A) (a_table A) (a_fat A) printf (a_lit A) t
      = Ok (Z.of_nat (length cs1) * B, t') /\
    console (l ++ load_log (Z.of_nat (length cs1) * B) (Z.of_nat (length cs2) * B)) t' /\
    same [PBuf; PDap; PFat; PFiles; PScreen] t t' /\ files_in cs1 cs2 t'.
Proof.
  intros Hd Hc (Hv & Hr & Hu) [P1 P2].
  destruct (load_system_loads drive sectors sector (a_buf A) (a_dap A) (a_record A) (a_table A) (a_fat A)
    (boot_locals A k m Hbp drive Hdrive) (boot_heap sector) (boot_fat sector) k m (bp_shift _ _ _ Hbp) (a_lit A) printf
    (boot_screen A k m) (boot_text A k m) (boot_load_places A k m Hbp) l t (boot_root sector) cs1 cs2)
    as (t' & E & C & K & D1 & D2).
  - apply Hd.
  - split; [done|done|apply Hd|..].
    + apply (part_stable A k m Hbp PRecord); [done|not_there].
    + apply (part_stable A k m Hbp PTable); [done|not_there].
    + intros c Hcr. rewrite Hu by done. by apply (bd_table _ _ Hd).
    + apply (part_stable A k m Hbp PKernelPath); [done|not_there].
    + apply (part_stable A k m Hbp PVgaPath); [done|not_there].
    + done.
    + done.
  - done.
  - apply (path_on_disk_ext _ _ _ _ _ (mounted_upcase sector)); [done|apply Hd|apply Hd].
  - apply (path_on_disk_ext _ _ _ _ _ (mounted_upcase sector)); [done|apply Hd|apply Hd].
  - apply Hd.
  - exists t'. split; [done|]. split; [done|]. split; [|by split].
    intros a Ha Hn. apply Forall_forall in Hn. rewrite !Forall_cons in Hn.
    destruct Hn as (N1 & N2 & N3 & N4 & N5 & _). apply K; [done| |done].
    unfold quiet_place, scratch, within in *. cbn [part_base part_size] in *. lia.
Qed.

(** ** The memory map *)

(** The length of the table and the ranges in it. *)
Definition ranges : Z := Z.min 64 count.
Definition map_in t : Prop :=
  vld32 (view t) (a_len A) = ranges /\
  forall i j, 0 <= i < ranges -> 0 <= j < width -> view t (a_blocks A + 24 * i + j) = entry i j.

Lemma boot_scans l t :
  console l t ->
  exists t' t'', st32 t (a_len A) 64 = Ok t' /\ bios_mem_scan (a_result A) (a_blocks A) (a_len A) t' = Ok t'' /\
    console l t'' /\ same [PResult; PBlocks; PLen] t t'' /\ map_in t''.
Proof.
  intros Hc. destruct (bp_win _ _ _ Hbp PLen I) as (L0 & L1 & Lw). cbn [part_base part_size] in *.
  destruct (stn_win 4 t (a_len A) 64) as (t1 & E1 & O1 & V1); [by split|].
  destruct (bios_mem_scan_ok count width entry cont (a_result A) (a_blocks A) (a_len A) 64 (boot_scan_ok A k m Hbp) t1)
    as (t2 & E2 & O2 & L2 & S2 & F2).
  { rewrite (vld_ext 4 _ (vst 4 (view t) (a_len A) 64)) by (intros b Hb; apply V1, Lw; lia). apply (vld_vst_same 4). }
  assert (same [PResult; PBlocks; PLen] t t2) as Hs.
  { intros a Ha Hn. apply Forall_forall in Hn. rewrite !Forall_cons in Hn. unfold within in Hn.
    cbn [part_base part_size] in Hn. rewrite F2, V1 by (done || lia). by rewrite vst_out by lia. }
  exists t1, t2. split; [done|]. split; [done|]. split; [|done].
  apply (console_same l _ t _ Hc (transitivity O1 O2) Hs); [done|not_there].
Qed.

(** *** Displaying it *)

Definition range_line (i : Z) : list Z :=
  rendered "%x%x | %x%x | %x\r\n"%string
    [vld32 (entry i) 4; vld32 (entry i) 0; vld32 (entry i) 12; vld32 (entry i) 8; vld32 (entry i) 16].

Definition ranges_log (n : Z) : list Z := concat (range_line <$> seqZ 0 n).

Lemma ranges_log_next n : 0 <= n -> ranges_log (n + 1) = ranges_log n ++ range_line n.
Proof.
  intros Hn. unfold ranges_log. rewrite seqZ_app by lia. rewrite fmap_app, concat_app, Z.add_0_l.
  rewrite (seqZ_cons n 1) by lia. cbn [fmap list_fmap concat]. by rewrite app_nil_r.
Qed.

Lemma ranges_bound : 0 < ranges <= 64.
Proof. pose proof map_count. unfold ranges. lia. Qed.

(** A field of a range. *)
Lemma mem_block_ok t f i :
  map_in t -> 0 <= i < ranges -> 0 <= bit_offset f address_range / 8 <= 16 ->
  mem_block (a_blocks A) f i t = Ok (vld32 (entry i) (bit_offset f address_range / 8)).
Proof.
  intros [_ Hm] Hi Ho. pose proof ranges_bound. pose proof map_width as Hwd.
  destruct (bp_win _ _ _ Hbp PBlocks I) as (B0 & B1 & Bw). cbn [part_base part_size] in *.
  unfold mem_block, field. change (sizeof address_range) with 24.
  rewrite (u32_small (a_blocks A + 24 * i)), u32_small by lia.
  rewrite ldn_win by (split; [lia|]; split; [lia|]; intros b Hb; apply Bw; lia).
  f_equal. apply vld_at. intros x Hx. apply Hm; lia.
Qed.

Lemma map_same ps s t :
  same ps s t -> forallb written ps = true -> PBlocks ∉ ps -> PLen ∉ ps -> map_in s -> map_in t.
Proof.
  intros Hs Hw Hb Hl [Hn He]. pose proof ranges_bound. pose proof map_width as Hwd. split.
  - rewrite <- Hn. apply vld_ext. intros b Hbb. by apply (same_but_part A k m Hbp ps s t PLen).
  - intros i j Hi Hj. rewrite <- He by done. apply (same_but_part A k m Hbp ps s t PBlocks); try done.
    unfold within. cbn [part_base part_size]. lia.
Qed.

Lemma print_block_ok l t i :
  console l t -> map_in t -> 0 <= i < ranges ->
  exists t', print_block (a_blocks A) printf i t = Ok t' /\ console (l ++ range_line i) t' /\ same [PScreen] t t'.
Proof.
  intros Hc Hm Hi. unfold print_block.
  rewrite (bind_ok _ _ _ (mem_block_ok t "base_addr_high" i Hm Hi ltac:(vm_compute; intuition discriminate))). cbv beta.
  rewrite (bind_ok _ _ _ (mem_block_ok t "base_addr_low" i Hm Hi ltac:(vm_compute; intuition discriminate))). cbv beta.
  rewrite (bind_ok _ _ _ (mem_block_ok t "size_high" i Hm Hi ltac:(vm_compute; intuition discriminate))). cbv beta.
  rewrite (bind_ok _ _ _ (mem_block_ok t "size_low" i Hm Hi ltac:(vm_compute; intuition discriminate))). cbv beta.
  rewrite (bind_ok _ _ _ (mem_block_ok t "type" i Hm Hi ltac:(vm_compute; intuition discriminate))). cbv beta.
  apply printed; [done|in_messages].
Qed.

Lemma print_blocks_ok l t :
  console l t -> map_in t ->
  exists t', print_blocks (a_blocks A) (a_len A) printf t = Ok t' /\ console (l ++ ranges_log ranges) t' /\
    same [PScreen] t t'.
Proof.
  intros Hc Hm. pose proof ranges_bound.
  destruct (bp_win _ _ _ Hbp PLen I) as (L0 & L1 & Lw). cbn [part_base part_size] in *.
  apply (loop_total _ (fun '(i, u) => 0 <= i <= ranges /\ console (l ++ ranges_log i) u /\ same [PScreen] t u)
    (fun '(i, _) => ranges - i)).
  - split; [lia|]. split; [by rewrite app_nil_r|apply same_but_refl].
  - rewrite budget_eq. lia.
  - intros [i u] (Hi & Hu & Hs). split; [lia|].
    assert (map_in u) as Hmu by (apply (map_same [PScreen] t); [done|done|not_there|not_there|done]).
    rewrite (bind_ok _ _ _ (ldn_win 4 u (a_len A) ltac:(by split))). cbv beta.
    rewrite (proj1 Hmu), i32_small by lia. destruct (Z.ltb_spec i ranges) as [Hlt|Hge].
    + destruct (print_block_ok _ u i Hu Hmu ltac:(lia)) as (u' & E & Hu' & Hs').
      rewrite (bind_ok _ _ _ E). eexists. split; [reflexivity|]. split; [|lia]. split; [lia|].
      split; [by rewrite ranges_log_next, app_assoc by lia|].
      apply (same_but_weaken A k m ([PScreen] ++ [PScreen])); [by intros p Hp; apply elem_of_app in Hp as [|]|]. by apply (same_but_trans A k m _ _ t u).
    + exists (inr u). split; [done|]. by replace ranges with i by lia.
Qed.
(** ** Everything *)

Definition boot_log (n1 n2 : Z) : list Z :=
  rendered "Starting stage2 boot...\r\n"%string [] ++ rendered "Initializing the exFAT filesystem...\r\n"%string [] ++
  load_log n1 n2 ++ rendered "\nMemory Table:\r\n"%string [] ++
  rendered "Base             | Size             | Type\r\n"%string [] ++ ranges_log ranges.

(** Up to the memory scan, *)
Lemma boot_loaded cs1 cs2 l s (f : Z * T -> res T) :
  boot_disk cs1 cs2 -> console l s -> paths_in s ->
  exists t, (s ← printf "Starting stage2 boot...\r\n"%string [] s;
      s ← printf "Initializing the exFAT filesystem...\r\n"%string [] s;
      s ← init_exfat 512 drive (a_buf A) (a_dap A) (a_record A) (a_table A) (a_load A) s;
      r ← load_system 512 drive (a_buf A) (a_dap A) (a_record A) (a_table A) (a_fat A) printf (a_lit A) s; f r)
      = f (Z.of_nat (length cs1) * B, t) /\
    console (l ++ rendered "Starting stage2 boot...\r\n"%string [] ++
      rendered "Initializing the exFAT filesystem...\r\n"%string [] ++
      load_log (Z.of_nat (length cs1) * B) (Z.of_nat (length cs2) * B)) t /\
    files_in cs1 cs2 t /\ same boot_parts s t.
Proof.
  intros Hd Hc Hp.
  destruct (printed l s "Starting stage2 boot...\r\n"%string [] Hc) as (s1 & E1 & C1 & S1); [in_messages|].
  rewrite (bind_ok _ _ _ E1).
  destruct (printed _ s1 "Initializing the exFAT filesystem...\r\n"%string [] C1) as (s2 & E2 & C2 & S2); [in_messages|].
  rewrite (bind_ok _ _ _ E2).
  destruct (boot_mounts cs1 cs2 _ s2 Hd C2) as (s3 & E3 & C3 & S3 & M3). rewrite (bind_ok _ _ _ E3).
  pose proof (same_but_trans _ _ _ _ _ _ _ _ (same_but_trans _ _ _ _ _ _ _ _ S1 S2) S3) as K3.
  destruct (boot_loads cs1 cs2 _ s3 Hd C3 M3 (paths_same _ _ _ K3 eq_refl Hp)) as (s4 & E4 & C4 & S4 & F4).
  rewrite (bind_ok _ _ _ E4). exists s4. split; [done|]. split; [by rewrite <- !app_assoc in C4|]. split; [done|].
  eapply same_but_weaken; [|exact (same_but_trans _ _ _ _ _ _ _ _ K3 S4)].
  intros p Hin. apply boot_parts_written. revert p Hin. apply Forall_forall. by repeat constructor.
Qed.
(** and from there on. *)
Lemma boot_mapped l t :
  console l t ->
  exists t', (s ← st32 t (a_len A) 64; s ← bios_mem_scan (a_result A) (a_blocks A) (a_len A) s;
      s ← printf "\nMemory Table:\r\n"%string [] s;
      s ← printf "Base             | Size             | Type\r\n"%string [] s;
      s ← print_blocks (a_blocks A) (a_len A) printf s; map_memory (a_dir A) s) = Ok t' /\
    console (l ++ rendered "\nMemory Table:\r\n"%string [] ++
      rendered "Base             | Size             | Type\r\n"%string [] ++ ranges_log ranges) t' /\
    map_in t' /\ boot_directory (view t') (a_dir A) /\ same [PResult; PBlocks; PLen; PScreen; PDir] t t'.
Proof.
  intros Hc. destruct (boot_scans l t Hc) as (t1 & t2 & E1 & E2 & C2 & S2 & M2).
  rewrite (bind_ok _ _ _ E1), (bind_ok _ _ _ E2).
  destruct (printed _ t2 "\nMemory Table:\r\n"%string [] C2) as (t3 & E3 & C3 & S3); [in_messages|].
  rewrite (bind_ok _ _ _ E3).
  destruct (printed _ t3 "Base             | Size             | Type\r\n"%string [] C3) as (t4 & E4 & C4 & S4); [in_messages|].
  rewrite (bind_ok _ _ _ E4). pose proof (same_but_trans _ _ _ _ _ _ _ _ S3 S4) as K4.
  pose proof (map_same _ _ _ K4 eq_refl ltac:(not_there) ltac:(not_there) M2) as M4.
  destruct (print_blocks_ok _ t4 C4 M4) as (t5 & E5 & C5 & S5). rewrite (bind_ok _ _ _ E5).
  destruct (map_memory_ok (a_dir A) t5 (bp_win _ _ _ Hbp PDir I)) as (t6 & E6 & O6 & D6 & F6).
  assert (same [PDir] t5 t6) as S6.
  { intros a Ha Hna. apply F6; [done|]. specialize (Hna PDir ltac:(by left)). unfold within in Hna. cbn [part_base part_size] in Hna. lia. }
  pose proof (same_but_trans _ _ _ _ _ _ _ _ (same_but_trans _ _ _ _ _ _ _ _ K4 S5) S6) as K6.
  exists t6. split; [exact E6|]. split; [|split; [|split]].
  - apply (console_same _ [PDir] t5); [by rewrite <- !app_assoc in C5|done|done|done|not_there].
  - apply (map_same _ _ _ K6 eq_refl ltac:(not_there) ltac:(not_there) M2).
  - done.
  - eapply same_but_weaken; [|exact (same_but_trans _ _ _ _ _ _ _ _ S2 K6)].
    intros p. cbn [app]. rewrite !elem_of_cons. tauto.
Qed.
Lemma prepare_ok cs1 cs2 l s :
  boot_disk cs1 cs2 -> console l s -> paths_in s ->
  exists s', prepare 512 drive (a_buf A) (a_dap A) (a_record A) (a_table A) (a_load A) (a_fat A) (a_dir A)
      (a_blocks A) (a_len A) (a_result A) printf (a_lit A) s = Ok s' /\
    console (l ++ boot_log (Z.of_nat (length cs1) * B) (Z.of_nat (length cs2) * B)) s' /\
    files_in cs1 cs2 s' /\ map_in s' /\ boot_directory (view s') (a_dir A) /\ same boot_parts s s'.
Proof.
  intros Hd Hc Hp. unfold prepare.
  match goal with |- context [load_system _ _ _ _ _ _ _ _ _ _ ≫= ?f] => destruct (boot_loaded cs1 cs2 l s f Hd Hc Hp) as (t & -> & C & F & K) end.
  cbv beta iota. destruct (cluster_bytes_range k (bp_shift _ _ _ Hbp)) as [Hk2 HB].
  pose proof (bd_count _ _ Hd) as Hn. replace (Z.of_nat (length cs1) * B =? 0) with false by nia.
  destruct (boot_mapped _ t C) as (t' & E & C' & M & D & K').
  exists t'. split; [exact E|]. split; [unfold boot_log; by rewrite <- !app_assoc in C'|].
  split; [by apply (files_same _ _ _ _ _ Hd K' eq_refl ltac:(not_there))|]. split; [done|]. split; [done|].
  eapply same_but_weaken; [|exact (same_but_trans _ _ _ _ _ _ _ _ K K')].
  intros p Hin. apply boot_parts_written. revert p Hin. apply Forall_forall. by repeat constructor.
Qed.
End Prepare.
