(* ===== verification/Stage2Boot.v ===== *)
(** * The second stage on a machine with a screen

    The composition of the loader: from any screen to the page directory.  The
    console of BootPrepare.v is the screen of vga.c, the volume and the memory map
    are those of the machine below it. *)

From S2P Require Export BootPrepare VgaMachine.

#[local] Open Scope Z_scope.

Section Boot.
Context {S : Type} {win : Z -> Prop} {HS : Store S} {HW : Window S win} {HP : Ports S} {HC : Crtc S win}.
Context {HF : Firmware S} (drive sectors : Z) (sector : Z -> Z -> Z).
Context {HD : Disk S win drive 512 sectors sector}.
Context (count width : Z) (entry : Z -> Z -> Z) (cont : Z -> Z).
Context {HM : MemoryMap S win count width entry cont}.
Context (A : addresses) (m : Z).
Context (Hdrive : 0 <= drive < 256) (Hbp : boot_places (win := win) A (boot_shift sector) m).
Implicit Types (v : vga S).

#[local] Abbreviation k := (boot_shift sector).
#[local] Abbreviation B := (cluster_bytes k).
#[local] Abbreviation lit := (a_lit A).

Lemma screen_window b : text_buffer <= b < text_buffer + 4000 -> win b.
Proof. intros Hb. by apply (bp_win _ _ _ Hbp PScreen I). Qed.

(** The console of the loader, on a screen that starts as [sc]. *)
Definition boot_console (sc : screen) :
    Console (vga S) win (fun fmt => print vga_output_char (lit fmt)) (boot_screen A k m) (boot_text A k m).
Proof.
  refine (vga_console screen_window lit sc _ _ _ _).
  - intros a Ha. exact Ha.
  - intros fmt a Hf Ha. exists fmt. split; [exact Hf|]. unfold within. cbn [part_base part_size]. lia.
Defined.

(** Clearing the screen. *)
Lemma screen_cleared v (f : vga S -> res (vga S)) :
  0 <= color v < 256 -> literals_in (win := win) lit v ->
  let sc := Screen (fun _ => cell (color v) 32) 0 in
  exists v', (s ← reset_display v; s ← set_cursor_pos 0 0 s; s ← set_color 0 15 s; f s) = f v' /\
    shown (win := win) lit sc [] v' /\ same_but (win := win) A k m [PScreen] v v'.
Proof.
  intros Hc Hl sc. destruct (reset_display_clears screen_window v Hc) as (v1 & E1 & K1 & S1).
  rewrite (bind_ok _ _ _ E1). pose proof S1 as (T1 & _ & _ & C1).
  destruct (move_ok screen_window 0 0 0 v1 sc) as (v2 & E2 & K2 & S2); [done..|].
  rewrite (bind_ok _ _ _ E2). pose proof S2 as (T2 & P2 & R2 & _). eexists. split; [reflexivity|].
  change (u8 (Z.lor (Z.shiftl 0 4) 15)) with 15.
  split; [split; [|split; [done|]]|].
  - split; [exact T2|]. split; [exact P2|]. split; [exact R2|]. cbn [color]. lia.
  - intros fmt Hf. eapply rest_at_keep; [|by apply Hl]. intros b Hb.
    change (rd8 v2 b = rd8 v b). by rewrite (kept_rd8 _ _ _ K2 Hb), (kept_rd8 _ _ _ K1 Hb).
  - intros a Ha Hn. change (view (dev v2) a = view (dev v) a).
    assert (elsewhere (win := win) a) as He.
    { split; [done|]. specialize (Hn PScreen ltac:(by left)). unfold within in Hn. cbn [part_base part_size] in Hn. lia. }
    destruct K1 as [_ V1], K2 as [_ V2]. by rewrite V2, V1.
Qed.

(** Everything up to the page directory. *)
Lemma prepare_screen_ok cs1 cs2 v :
  boot_disk sectors sector m cs1 cs2 -> 0 <= color v < 256 ->
  literals_in (win := win) lit v -> paths_in (win := win) A v ->
  exists v', prepare_screen 512 drive (a_buf A) (a_dap A) (a_record A) (a_table A) (a_load A) (a_fat A) (a_dir A)
      (a_blocks A) (a_len A) (a_result A) lit v = Ok v' /\
    shown (win := win) lit (Screen (fun _ => cell (color v) 32) 0)
      (boot_log count entry (Z.of_nat (length cs1) * B) (Z.of_nat (length cs2) * B)) v' /\
    files_in (win := win) sector cs1 cs2 v' /\ map_in (win := win) count width entry A v' /\
    boot_directory (view v') (a_dir A) /\ same_but (win := win) A k m boot_parts v v'.
Proof.
  intros Hd Hc Hl Hp. unfold prepare_screen.
  match goal with |- context [set_color 0 15 _ ≫= ?f] => destruct (screen_cleared v f Hc Hl) as (v1 & -> & S1 & K1) end.
  set (sc := Screen (fun _ => cell (color v) 32) 0) in *.
  destruct (prepare_ok drive sectors sector count width entry cont A m
    (fun fmt => print vga_output_char (lit fmt)) (HC := boot_console sc) Hdrive Hbp cs1 cs2 [] v1 Hd S1
    (paths_same _ A m Hbp _ _ _ K1 eq_refl Hp)) as (v2 & E2 & S2 & F2 & M2 & D2 & K2).
  exists v2. split; [exact E2|]. split; [exact S2|]. split_and!; try done.
  eapply same_but_weaken; [|exact (same_but_trans _ _ _ _ _ _ _ _ K1 K2)].
  intros p Hin. apply boot_parts_written. revert p Hin. apply Forall_forall. by repeat constructor.
Qed.

(** C6. The second stage boots as far as it can: on a machine with the kernel and the
    driver on an exFAT volume, it clears the screen, mounts the volume, loads the
    clusters of the kernel to 1 MiB and those of the driver behind them, stores the
    memory map of the BIOS with its length, and leaves a page directory that maps low
    memory to itself and the kernel's window to the first GiB.  The screen shows the
    messages of all of this, with the sizes, the address and the memory ranges in
    them, and of memory only the loader's own variables and buffers and those places
    are written.  Then it faults: paging is enabled when init_vbe calls the BIOS. *)
Theorem stage2_boots cs1 cs2 cib crtc info (s : cpu (vga S)) :
  boot_disk sectors sector m cs1 cs2 -> paging s = false -> 0 <= color (machine_of s) < 256 ->
  literals_in (win := win) lit (machine_of s) -> paths_in (win := win) A (machine_of s) ->
  in_win win cib 512 -> in_win win crtc 64 ->
  exists v, prepare_screen 512 drive (a_buf A) (a_dap A) (a_record A) (a_table A) (a_load A) (a_fat A) (a_dir A)
      (a_blocks A) (a_len A) (a_result A) lit (machine_of s) = Ok v /\
    shows (win := win) v (type_all 15
      (boot_log count entry (Z.of_nat (length cs1) * B) (Z.of_nat (length cs2) * B))
      (Screen (fun _ => cell (color (machine_of s)) 32) 0)) /\
    files_in (win := win) sector cs1 cs2 v /\ map_in (win := win) count width entry A v /\
    (forall va, 0 <= va < 2 ^ 32 -> Machine.walk (view v) (a_dir A) va
       = Some (if va <? KERNEL_BASE then va else va - KERNEL_BASE)) /\
    same_but (win := win) A k m boot_parts (machine_of s) v /\
    stage2 512 drive (a_buf A) (a_dap A) (a_record A) (a_table A) (a_load A) (a_fat A) (a_dir A) (a_blocks A)
      (a_len A) (a_result A) cib crtc info lit s = Undef.
Proof.
  intros Hd Hpg Hc Hl Hp Hcib Hcrtc. set (v := machine_of s) in *.
  destruct (prepare_screen_ok cs1 cs2 v Hd Hc Hl Hp) as (v' & E & (Hs & _) & F & M & D & K).
  exists v'. split; [exact E|]. split_and!; try done.
  - intros va Hva. pose proof (bp_win _ _ _ Hbp PDir I) as (D0 & D1 & _). cbn [part_base part_size] in *.
    apply boot_directory_walks; [intros a; apply view_range|done|lia|apply Hbp|done].
  - unfold stage2. rewrite Hpg. fold v. rewrite (bind_ok _ _ _ E). cbv zeta.
    apply bind_undef, (init_vbe_faults (win := win)); [|done|done].
    unfold enable_paging, paging. cbn [cr0]. rewrite Z.lor_spec. apply orb_true_r.
Qed.
End Boot.
