(* ===== verification/ExfatWitness.v ===== *)
(** * A disk and a BIOS on which the theorems on the boot loader's files apply

    A drive with the loader in its first sectors and an exFAT volume that holds
    /system/kernel, a BIOS that reads its sectors and lists two ranges of memory, and
    memory as the loader has it. *)

From S2P Require Import BootSector Stage2.
From S2P Require Export ExfatInit.

#[local] Open Scope Z_scope.

(** ** The BIOS *)

(** The map of memory: two ranges, of 20 bytes each. *)
Definition range_byte (k j : Z) : Z := if j =? 16 then k + 1 else 0.
Definition range_cont (k : Z) : Z := k.

Definition fill (a n : Z) (f : Z -> Z) (s : flat) : flat :=
  Flat (fun b => if decide (a <= b < a + n) then f (b - a) else flat_byte s b).

Lemma fill_view a n f s b :
  (forall o, 0 <= f o < 256) ->
  view (fill a n f s) b = if decide (a <= b < a + n) then f (b - a) else view s b.
Proof. intros Hf. unfold fill. cbn. case_decide; [|done]. apply u8_small, Hf. Qed.

Definition flat_interrupt (sector : Z -> Z -> Z) (code : Z) (regs : bios_registers) (s : flat) :
    res (bios_registers * flat) :=
  if code =? 19 then
    let dap := u16 (esi regs) in
    mret (regs, fill (16 * vld 2 (view s) (dap + 6) + vld 2 (view s) (dap + 4)) 512
             (sector (vld 8 (view s) (dap + 8))) s)
  else if code =? 21 then
    mret (Regs (eax regs) (if ebx regs + 1 <? 2 then ebx regs + 1 else 0) (ecx regs) (edx regs) (esi regs) (edi regs),
     fill (u16 (edi regs)) 20 (range_byte (ebx regs)) s)
  else mret (regs, s).

Definition flat_firmware (sector : Z -> Z -> Z) : Firmware flat := {| interrupt := flat_interrupt sector |}.

#[export] Program Instance flat_disk sector (Hs : forall l o, 0 <= sector l o < 256) drive n :
  Disk flat (fun _ => True) (HF := flat_firmware sector) drive 512 n sector.
Next Obligation.
  intros sector Hs drive n regs s _ _ dap _ _ _ buffer lba _ _ _. do 2 eexists. split; [reflexivity|].
  split; [exact I|]. intros a _. exact (fill_view _ _ _ _ _ (Hs _)).
Qed.

#[export] Program Instance flat_map sector :
  MemoryMap flat (fun _ => True) (HF := flat_firmware sector) 2 20 range_byte range_cont.
Next Obligation. lia. Qed.
Next Obligation. lia. Qed.
Next Obligation. done. Qed.
Next Obligation. unfold range_cont. lia. Qed.
Next Obligation.
  intros sector regs s k Hk _ _ _ Hb _. unfold range_cont in *. do 2 eexists. split; [reflexivity|].
  split; [cbn; by rewrite Hb|]. split; [exact I|]. intros a _. rewrite <- Hb. refine (fill_view _ _ _ _ _ _).
  intros o. unfold range_byte. case_match; lia.
Qed.

(** ** The disk *)

Definition le (n : nat) (x : Z) : list Z := (fun i => x / 2 ^ (8 * i) mod 256) <$> seqZ 0 (Z.of_nat n).
Definition pad (n : nat) (l : list Z) : list Z := take n (l ++ replicate n 0).

(** The boot record: the FAT 4 and the heap 8 sectors after the start, clusters of
    one sector, the root directory in cluster 2. *)
Definition boot_sector : list Z :=
  replicate 80 0 ++ le 4 4 ++ le 4 0 ++ le 4 8 ++ le 4 0 ++ le 4 2 ++ replicate 9 0 ++ [0].

(** The entries of a file. *)
Definition file_entries (name : list Z) (cluster size : Z) : list Z :=
  pad 32 [133; 2] ++
  pad 32 ([192; 0; 0; Z.of_nat (length name)] ++ replicate 16 0 ++ le 4 cluster ++ le 8 size) ++
  pad 32 ([193; 0] ++ concat (le 2 <$> name)).

Definition system_name : list Z := [115; 121; 115; 116; 101; 109].
Definition kernel_name : list Z := [107; 101; 114; 110; 101; 108].
Definition vga_name : list Z := [118; 103; 97].

(** The root directory with an up-case table in cluster 7 and /system, in cluster 3;
    /system with the kernel, in clusters 4 and 6, and a driver in cluster 8. *)
Definition root_sector : list Z :=
  pad 32 (130 :: replicate 19 0 ++ le 4 7) ++ file_entries system_name 3 512.
Definition system_sector : list Z := file_entries kernel_name 4 1000 ++ file_entries vga_name 8 300.
Definition fat_sector : list Z := concat (le 4 <$> [0; 0; 4294967295; 4294967295; 6; 0; 4294967295]).

Definition disk_sector (l : Z) : list Z :=
  if l =? 256 then boot_sector else if l =? 260 then fat_sector
  else if l =? 264 then root_sector else if l =? 265 then system_sector
  else if l =? 266 then [77; 90] else if l =? 268 then [1; 2; 3]
  else if l =? 270 then [7; 7]
  else if l =? 269 then concat (le 2 <$> seqZ 0 256)
  else [].

(** The loader behind the first sector, as it is in memory: the data of [stage2_setup],
    the messages, 128 bytes for each, and the two paths. *)
Definition path_text : list Z := 47 :: system_name ++ 47 :: kernel_name ++ [0].
Definition vga_text : list Z := 47 :: system_name ++ 47 :: vga_name ++ [0].
Definition image_byte (a : Z) : Z :=
  if decide (43000 <= a < 43141) then nth (Z.to_nat (a - 43000)) (setup_data 43000) 0
  else if decide (45056 <= a < 46592)
  then nth (Z.to_nat ((a - 45056) mod 128)) (c_string (nth (Z.to_nat ((a - 45056) / 128)) messages.*1 EmptyString)) 0
  else if decide (47104 <= a < 47119) then nth (Z.to_nat (a - 47104)) path_text 0
  else if decide (47168 <= a < 47180) then nth (Z.to_nat (a - 47168)) vga_text 0
  else 0.

Definition disk (l o : Z) : Z :=
  u8 (if (0 <? l) && (l <? 65) then image_byte (32256 + 512 * (l - 1) + o) else nth (Z.to_nat o) (disk_sector l) 0).

Lemma disk_range l o : 0 <= disk l o < 256.
Proof. apply u8_range. Qed.

#[local] Existing Instance flat_firmware.
#[local] Instance the_disk : Disk flat (fun _ => True) (HF := flat_firmware disk) 128 512 1000 disk :=
  flat_disk disk disk_range 128 1000.

(** ** Memory *)

(** The addresses of the variables and buffers. *)
Definition w_record : Z := 4096.
Definition w_table : Z := 8192.
Definition w_path : Z := 12288.
Definition w_fat : Z := 16384.
Definition w_load : Z := 17408.
Definition w_buf : Z := 20480.
Definition w_dap : Z := 24576.
Definition w_dest : Z := 1048576.

(** Mounted: the boot record, the default table, and two paths. *)
Definition mounted : flat := Flat (fun a =>
  if decide (w_record <= a < w_record + 512) then disk 256 (a - w_record)
  else if decide (w_table <= a < w_table + 256) then (if (a mod 2) =? 0 then (a - w_table) / 2 else 0)
  else if decide (w_path <= a < w_path + 15) then nth (Z.to_nat (a - w_path)) path_text 0
  else if decide (w_path + 64 <= a < w_path + 76) then nth (Z.to_nat (a - w_path - 64)) vga_text 0
  else 0).

Lemma w_locals : locals_ok (win := fun _ => True) 512 128 w_buf w_dap.
Proof. unfold w_buf, w_dap. by split; try lia; split_and!. Qed.

Ltac flat_win := split; [vm_compute; discriminate|]; split; [vm_compute; discriminate|done].

Lemma bios_ext_read_sectors_witness :
  exists s', bios_ext_read (HF := flat_firmware disk) 512 128 w_buf w_dap 32768 264 2 mounted = Ok s' /\
    outside mounted s' /\
    (forall k j, 0 <= k < 2 -> 0 <= j < 512 -> view s' (32768 + k * 512 + j) = disk (264 + k) j) /\
    forall a, True -> ~ scratch 512 w_buf w_dap a -> a < 32768 \/ 32768 + 2 * 512 <= a ->
      view s' a = view mounted a.
Proof.
  apply (bios_ext_read_sectors (HF := flat_firmware disk) 512 128 1000 disk w_buf w_dap w_locals);
    try lia; [flat_win|]. unfold scratch, w_buf, w_dap. lia.
Defined.

Lemma bios_mem_scan_ranges_witness :
  exists s', bios_mem_scan (HF := flat_firmware disk) 4096 8192 12288 (Flat (fun a => if a =? 12288 then 64 else 0)) = Ok s' /\
    outside (Flat (fun a => if a =? 12288 then 64 else 0)) s' /\
    vld32 (view s') 12288 = Z.min 64 2 /\
    (forall k j, 0 <= k < Z.min 64 2 -> 0 <= j < 20 -> view s' (8192 + 24 * k + j) = range_byte k j) /\
    forall a, True -> a < 4096 \/ 4096 + 24 <= a -> a < 12288 \/ 12288 + 4 <= a ->
      a < 8192 \/ 8192 + 24 * Z.min 64 2 <= a ->
      view s' a = view (Flat (fun a => if a =? 12288 then 64 else 0)) a.
Proof.
  apply (bios_mem_scan_ranges (HF := flat_firmware disk) 2 20 range_byte range_cont 4096 8192 12288 64);
    [|by vm_compute]. split; try lia; flat_win.
Defined.

(** *** The file system *)

Lemma mounted_volume : volume (win := fun _ => True) w_record mounted 8 4 0.
Proof. split; [flat_win|by vm_compute|by vm_compute|by vm_compute|lia]. Qed.

Lemma mounted_table c : 0 <= c < 128 -> upcase (view mounted) w_table c = c.
Proof.
  intros Hc. unfold upcase. cbn [vld].
  assert (forall x, 0 <= x < 256 -> view mounted (w_table + x) = u8 (if x mod 2 =? 0 then x / 2 else 0)) as Hx.
  { intros x Hx. cbn [view flat_window mounted flat_byte]. unfold w_record, w_table in *.
    rewrite decide_False, decide_True by lia. replace (8192 + x - 8192) with x by lia.
    by replace ((8192 + x) mod 2) with (x mod 2) by lia. }
  rewrite <- Z.add_assoc, !Hx by lia.
  replace ((2 * c) mod 2) with 0 by lia. replace ((2 * c + 1) mod 2) with 1 by lia.
  cbn [Z.eqb]. change (u8 0) with 0. rewrite u8_small by lia. lia.
Qed.

Lemma mounted_upper c : 0 <= c < 128 -> upcase (view mounted) w_table c < 128.
Proof. intros Hc. rewrite mounted_table by done. lia. Qed.

Lemma one_sector : cluster_bytes 0 = 512.
Proof. done. Qed.

(** The clusters of the directories and the files. *)
Lemma w_place m : 0 <= m <= 1000 -> places (win := fun _ => True) w_buf w_dap w_record w_fat 0 w_dest m.
Proof.
  intros Hm. unfold w_buf, w_dap, w_record, w_fat, w_dest. pose proof one_sector as B.
  split; rewrite ?B; unfold scratch; try lia; (split; [lia|split; [lia|done]]).
Qed.

Lemma w_cluster c : 2 <= c < 500 -> cluster_ok 1000 8 4 0 c.
Proof. intros Hc. unfold cluster_ok, cluster_lba. change (2 ^ 0) with 1. lia. Qed.

Lemma w_in_place c : entry_in_place 0 c.
Proof. unfold entry_in_place. change (128 * 2 ^ 0) with 128. lia. Qed.

(** The kernel, by hand: its entry of the FAT links cluster 4 to cluster 6. *)
Lemma kernel_clusters : clusters_of disk 4 0 4 1000 [4; 6].
Proof. right. split; [|done]. split; [by vm_compute|]. left. by vm_compute. Qed.

Lemma system_clusters : clusters_of disk 4 0 3 512 [3].
Proof. right. split; [|done]. left. by vm_compute. Qed.

Lemma w_clusters cs : Forall (fun c => 2 <= c < 500) cs -> Forall (cluster_ok 1000 8 4 0) cs /\ Forall (entry_in_place 0) cs.
Proof.
  intros Hcs. split; (eapply Forall_impl; [exact Hcs|]); intros c Hc; [by apply w_cluster|by apply w_in_place].
Qed.

Lemma load_file_loads_witness :
  exists s', load_file (HF := flat_firmware disk) 512 128 w_buf w_dap w_record w_fat 4 1000 w_dest mounted
      = Ok ((1000 + 512 - 1) / 512, s') /\ outside mounted s' /\
    (forall j o, 0 <= j < 2 -> 0 <= o < 512 ->
       view s' (w_dest + j * 512 + o) = cluster_byte disk 8 0 (nth (Z.to_nat j) [4; 6] 0) o) /\
    forall a, True -> ~ scratch 512 w_buf w_dap a -> a < w_fat \/ w_fat + 512 <= a ->
      a < w_dest \/ w_dest + 2 * 512 <= a -> view s' a = view mounted a.
Proof.
  apply (load_file_loads (HF := flat_firmware disk) 128 1000 disk w_buf w_dap w_record w_fat w_locals 8 4 0
    w_dest 2 (w_place 2 ltac:(lia)) ltac:(lia) mounted 4 1000 [4; 6]);
    [apply mounted_volume|apply kernel_clusters|done|lia|by vm_compute|..];
    apply (w_clusters [4; 4; 6]); repeat constructor; lia.
Defined.

Lemma found_file up name fs c n :
  (fun f => (f_cluster f, f_size f)) <$> find_file up name fs = Some (c, n) ->
  exists f, find_file up name fs = Some f /\ f_cluster f = c /\ f_size f = n.
Proof. destruct (find_file up name fs) as [f|]; [|done]. intros E. injection E as <- <-. by exists f. Qed.

Lemma kernel_path : path_on_disk 1000 disk 8 4 0 1000 (upcase (view mounted) w_table) [2] [system_name; kernel_name] [4; 6].
Proof.
  destruct (w_clusters [3; 3]) as [K1 P1]; [repeat constructor; lia|].
  destruct (w_clusters [4; 4; 6]) as [K2 P2]; [repeat constructor; lia|].
  destruct (found_file (upcase (view mounted) w_table) system_name (dir_files disk 8 0 [2]) 3 512)
    as (f & E1 & C1 & S1); [by vm_compute|].
  destruct (found_file (upcase (view mounted) w_table) kernel_name (dir_files disk 8 0 [3]) 4 1000)
    as (g & E2 & C2 & S2); [by vm_compute|].
  apply (path_down _ _ _ _ _ _ _ _ _ _ f [3]); [by vm_compute|done| |].
  - unfold file_clusters_are. rewrite C1, S1. split; [apply system_clusters|].
    split_and!; [by vm_compute|lia|by vm_compute|by vm_compute|exact K1|exact P1].
  - apply (path_down _ _ _ _ _ _ _ _ _ _ g [4; 6]); [by vm_compute|done| |apply path_here].
    unfold file_clusters_are. rewrite C2, S2. split; [apply kernel_clusters|].
    split_and!; [by vm_compute|lia|by vm_compute|by vm_compute|exact K2|exact P2].
Qed.

Lemma w_untouched a n :
  0 <= a -> a + n <= w_fat -> 0 <= n ->
  untouched (win := fun _ => True) w_buf w_dap w_fat 0 w_dest 1000 a n.
Proof.
  unfold untouched, scratch, w_fat, w_buf, w_dap, w_dest. rewrite one_sector.
  intros H0 H1 H2. split; [split; [lia|]; split; [lia|done]|]. lia.
Qed.

Lemma read_file_exfat_reads_witness :
  exists s', read_file_exfat (HF := flat_firmware disk) 512 128 w_buf w_dap w_record w_table w_fat w_path w_dest mounted
      = Ok (2 * 512, s') /\ outside mounted s' /\
    (forall j o, 0 <= j < 2 -> 0 <= o < 512 ->
       view s' (w_dest + j * 512 + o) = cluster_byte disk 8 0 (nth (Z.to_nat j) [4; 6] 0) o) /\
    forall a, True -> ~ scratch 512 w_buf w_dap a -> a < w_fat \/ w_fat + 512 <= a ->
      a < w_dest \/ w_dest + 1000 * 512 <= a -> view s' a = view mounted a.
Proof.
  apply (read_file_exfat_reads (HF := flat_firmware disk) 128 1000 disk w_buf w_dap w_record w_table w_fat w_locals
    8 4 0 w_dest 1000 ltac:(lia) (w_place 1000 ltac:(lia)) w_path mounted 2 [system_name; kernel_name] [4; 6]).
  - apply mounted_volume.
  - by vm_compute.
  - apply w_cluster. lia.
  - lia.
  - by apply w_untouched.
  - apply mounted_upper.
  - by apply w_untouched.
  - split; [by vm_compute|]. split; [done|]. split; [by vm_compute|]. split; [repeat constructor; lia|].
    split; [by vm_compute|]. split; [done|]. split; [by vm_compute|]. split; [repeat constructor; lia|by vm_compute].
  - apply kernel_path.
Defined.

(** The root directory in memory. *)
Definition rooted : flat := fill w_dest 512 (disk 264) mounted.

Lemma rooted_table c : 0 <= c < 128 -> upcase (view rooted) w_table c < 128.
Proof.
  intros Hc. assert (upcase (view rooted) w_table c = upcase (view mounted) w_table c) as ->.
  { apply vld_ext. intros b Hb. unfold rooted. rewrite fill_view by apply disk_range.
    unfold w_table, w_dest in *. by rewrite decide_False by lia. }
  by apply mounted_upper.
Qed.

Lemma helper_looks_up_witness :
  _read_file_exfat_helper (HF := flat_firmware disk) 512 128 w_buf w_dap w_record w_table w_fat (w_path + 1) 6
      w_dest 1 w_dest rooted =
    match lookup_file (view rooted) w_dest 16 (upcase (view rooted) w_table) (view rooted <$> seqZ (w_path + 1) 6) with
    | Some f => load_file (HF := flat_firmware disk) 512 128 w_buf w_dap w_record w_fat (f_cluster f) (f_size f) w_dest rooted
    | None => Ok (0, rooted)
    end.
Proof.
  apply (helper_looks_up (HF := flat_firmware disk) (win := fun _ => True) 512 128 w_buf w_dap w_record w_table w_fat
    (w_path + 1) 6 w_dest 1 w_dest rooted 16 1).
  - flat_win.
  - flat_win.
  - flat_win.
  - lia.
  - apply rooted_table.
  - by vm_compute.
  - by vm_compute.
  - by vm_compute.
Defined.

(** A blank disk, and a boot record that asks for clusters of eight sectors. *)
Definition blank (l o : Z) : Z := 0.
Lemma blank_range l o : 0 <= blank l o < 256.
Proof. unfold blank. lia. Qed.
#[local] Instance blank_disk : Disk flat (fun _ => True) (HF := flat_firmware blank) 128 512 4000 blank :=
  flat_disk blank blank_range 128 4000.
Definition wide : flat := Flat (fun a => if a =? w_record + 109 then 3 else 0).

Lemma fat_entry_displaced_witness :
  exists s' e,
    (lba ← get_fat_lba 512 w_record 200 wide; size ← get_cluster_size 512 w_record 1 wide;
     bios_ext_read (HF := flat_firmware blank) 512 128 w_buf w_dap w_fat lba size wide) = Ok s' /\
    fat_entry w_fat 200 (128 * 2 ^ 3) s' = Ok (fat blank 0 e) /\ e <> 200.
Proof.
  refine (fat_entry_displaced (HF := flat_firmware blank) 128 4000 blank w_buf w_dap w_record w_fat w_locals 0 0 3
    w_dest 0 _ _ wide 200 _ _ _).
  - assert (cluster_bytes 3 = 4096) as B by done. unfold w_buf, w_dap, w_record, w_fat, w_dest.
    split; rewrite ?B; unfold scratch; try lia; (split; [lia|split; [lia|done]]).
  - lia.
  - split; [flat_win|by vm_compute|by vm_compute|by vm_compute|lia].
  - unfold cluster_ok, cluster_lba. change (2 ^ 3) with 8. lia.
  - change (128 * 2 ^ 3) with 1024. lia.
Defined.

Lemma w_clear a n :
  0 <= a -> 0 <= n -> a + n <= w_buf -> clear_of_reads (win := fun _ => True) w_buf w_dap a n.
Proof.
  unfold clear_of_reads, scratch, w_buf, w_dap. intros H0 H1 H2.
  split; [split; [lia|]; split; [lia|done]|]. lia.
Qed.

Lemma init_exfat_mounts_witness :
  exists s', init_exfat (HF := flat_firmware disk) 512 128 w_buf w_dap w_record w_table w_load mounted = Ok s' /\
    outside mounted s' /\
    (forall o, 0 <= o < 512 -> view s' (w_record + o) = disk 256 o) /\
    volume (win := fun _ => True) w_record s' (boot_heap disk) (boot_fat disk) (boot_shift disk) /\
    vld32 (view s') (w_record + 96) = boot_root disk /\
    (forall c, 0 <= c < 128 -> upcase (view s') w_table c = mounted_upcase disk c) /\
    (forall c, 64 <= c < 128 -> upcase (view s') w_table c = c) /\
    forall a, True -> ~ scratch 512 w_buf w_dap a -> a < w_load \/ w_load + 512 <= a ->
      a < w_table \/ w_table + 256 <= a -> a < w_record \/ w_record + 512 <= a -> view s' a = view mounted a.
Proof.
  apply (init_exfat_mounts (HF := flat_firmware disk) 128 1000 disk w_buf w_dap w_record w_table w_load w_locals).
  - split; try (by apply w_clear); unfold w_record, w_table, w_load; lia.
  - lia.
  - assert (boot_shift disk = 0) as -> by by vm_compute. lia.
  - by vm_compute.
  - intros i Hi. assert (upcase_entry disk = Some 0) as E by by vm_compute. rewrite E in Hi.
    injection Hi as <-. by vm_compute.
Defined.
