(* ===== verification/SystemBoot.v ===== *)
(** * From the first sector to the page directory

    The boot sector of a disk (mbr.s) and the second stage (stage2.c) one after the
    other: what the sector leaves in memory is what the second stage starts from. *)

From S2P Require Export Stage2Boot.
From S2P Require Import SectorBoot.

#[local] Open Scope Z_scope.

Section System.
Context {S : Type} {win : Z -> Prop} {HS : Store S} {HW : Window S win} {HPC : Pc S} {HPM : PcMemory (win := win)}.
Context {HP : Ports S} {HC : Crtc S win} {HF : Firmware S}.
Context (drive sectors : Z) (sector : Z -> Z -> Z).
Context {HD : Disk S win drive 512 sectors sector}.
Context (count width : Z) (entry : Z -> Z -> Z) (cont : Z -> Z).
Context {HM : MemoryMap S win count width entry cont}.
Context (bios : Z -> real S -> res (real S)) (HB : Bios16 (win := win) bios drive (Some 512) sectors sector).
Context (A : addresses) (room d e ret cib crtc info : Z).
Implicit Types (v : vga S).

#[local] Abbreviation k := (boot_shift sector).
#[local] Abbreviation B := (cluster_bytes k).
#[local] Abbreviation lit := (a_lit A).
#[local] Abbreviation L := (sector_labels d e ret).

(** The sector leaves the size of the sectors and the drive in its data, where bios.c
    and exfat.c read them; the colour of vga.c starts as white on black. *)
Definition system (cr0 cr4 : Z) (s : real S) : res (Stage2.entry (cpu (vga S))) :=
  p ← mbr L bios cr0 s;
  bytes ← ld16 (p_mem p) (drive_parameters L + 24);
  number ← rd8 (p_mem p) (l_drive_number L);
  stage2 bytes number (a_buf A) (a_dap A) (a_record A) (a_table A) (a_load A) (a_fat A) (a_dir A) (a_blocks A)
    (a_len A) (a_result A) cib crtc info lit (Cpu (Vga (p_mem p) 15) (p_cr0 p) 0 cr4).

(** The part of the loader behind the first sector, as the sector reads it. *)
Definition loader_byte (a : Z) : Z := sector (1 + (a - 32256) / 512) ((a - 32256) mod 512).

(** The literals are in it. *)
Definition literals_loaded : Prop :=
  forall fmt, fmt ∈ messages.*1 -> 32256 <= lit fmt /\ lit fmt + Z.of_nat (length (c_string fmt)) < 65024 /\
    zstring loader_byte (lit fmt) (c_string fmt).
Definition path_loaded (path : string) (names : list (list Z)) : Prop :=
  32256 <= lit path /\ lit path + spelled names <= 65024 /\ spells loader_byte (lit path) names.

Context (Hwin : forall a, 0 <= a < 1114096 -> win a) (Hret : 0 <= ret < 65536).
Context (Hd0 : 31744 < d) (Hd1 : d + 204 <= 32256) (He0 : 32256 <= e) (He1 : e + 141 <= 65024).
Context (Hdrive : 0 <= drive < 256) (Hbp : boot_places (win := win) A k room).

(** ** What the sector leaves *)

(** The literals are where the second stage looks for them. *)
Lemma literals_read v :
  literals_loaded -> (forall a, 32256 <= a < 65024 -> view v a = loader_byte a) -> literals_in (win := win) lit v.
Proof.
  intros Hl Hv fmt Hf. destruct (Hl fmt Hf) as (H0 & H1 & Hnz & Hz). split; [lia|]. split; [lia|]. split; [done|].
  intros i Hi. assert (win (lit fmt + Z.of_nat i)) as Hw by (apply Hwin; lia). split.
  - split; [done|]. left. change text_buffer with 753664. lia.
  - rewrite <- (Hz i Hi), <- Hv by lia. by apply rd8_win.
Qed.

Lemma paths_read v :
  path_loaded "/system/kernel" kernel_names -> path_loaded "/system/vga" vga_names ->
  (forall a, 32256 <= a < 65024 -> view v a = loader_byte a) -> paths_in (win := win) A v.
Proof.
  intros (K0 & K1 & Hk) (V0 & V1 & Hvp) Hv. split.
  - apply (spells_ext loader_byte); [|done]. intros x Hx. apply Hv. lia.
  - apply (spells_ext loader_byte); [|done]. intros x Hx. apply Hv. lia.
Qed.

(** The data of the first sector is not among the second stage's. *)
Definition sector_kept : Prop :=
  forall p, written p = true -> part_base A p + part_size k room p <= 31744 \/ 32256 <= part_base A p.

Lemma data_kept (s t : vga S) a :
  sector_kept -> same_but (win := win) A k room boot_parts s t -> 31744 <= a < 32256 -> view t a = view s a.
Proof.
  intros Hk Hs Ha. apply Hs; [apply Hwin; lia|]. intros p Hp%boot_parts_written Hw. unfold within in Hw.
  destruct (Hk p Hp); lia.
Qed.

(** ** The whole *)

(** C2. A disk with the loader in its first 64 sectors and an exFAT volume with the kernel
    and the driver: mbr.s, started by the BIOS, reads the second stage, and that, started
    as it is left, shows its messages, has the kernel and the driver at 1 MiB, the memory
    map, and a page directory for the kernel's window; the number of the drive and
    the size of its sectors, which mbr.s stored for it, are still in place.  What was
    printed in text mode are the messages of mbr.s.  The system ends in a fault when
    the second stage calls the BIOS with paging enabled. *)
Theorem disk_boots cs1 cs2 cr0 cr4 r (m : S) :
  started (win := win) drive d r m -> Z.testbit cr0 31 = false ->
  bytes_at loader_byte e (setup_data e) -> literals_loaded ->
  path_loaded "/system/kernel" kernel_names -> path_loaded "/system/vga" vga_names ->
  boot_disk sectors sector room cs1 cs2 -> sector_kept -> in_win win cib 512 -> in_win win crtc 64 ->
  exists p v, mbr L bios cr0 (Real r m) = Ok p /\ tty (p_mem p) = tty m ++ hello_text ++ load_text true ++ setup_text /\
    prepare_screen 512 drive (a_buf A) (a_dap A) (a_record A) (a_table A) (a_load A) (a_fat A) (a_dir A)
      (a_blocks A) (a_len A) (a_result A) lit (Vga (p_mem p) 15) = Ok v /\
    shows (win := win) v (type_all 15
      (boot_log count entry (Z.of_nat (length cs1) * B) (Z.of_nat (length cs2) * B))
      (Screen (fun _ => cell 15 32) 0)) /\
    files_in (win := win) sector cs1 cs2 v /\ map_in (win := win) count width entry A v /\
    (forall va, 0 <= va < 2 ^ 32 -> Machine.walk (view v) (a_dir A) va
       = Some (if va <? KERNEL_BASE then va else va - KERNEL_BASE)) /\
    view v d = drive /\ vld 2 (view v) (d + 198) = 512 /\
    (forall a, win a -> ~ (31724 <= a < 65024) -> (forall q, q ∈ boot_parts -> ~ within A k room q a) -> view v a = view m a) /\
    system cr0 cr4 (Real r m) = Undef.
Proof.
  intros Hst Hpg Hsetup Hlit Hp1 Hp2 Hdisk Hkept Hcib Hcrtc. pose proof (bd_sectors _ _ _ _ _ Hdisk) as Hsec.
  destruct (mbr_boots Hwin bios drive (Some 512) sectors sector HB d e ret Hret Hd0 Hd1 He0 ltac:(lia) 0 cr0 r m Hst eq_refl
    ltac:(lia) ltac:(change (64 / 2 ^ 0) with 64; lia) Hsetup He1)
    as (p & E & T & A2 & C & _ & _ & _ & V & Bps & V1 & F). change (512 * 2 ^ 0) with 512 in *.
  set (v0 := Vga (p_mem p) 15).
  assert (forall a, 32256 <= a < 65024 -> view v0 a = loader_byte a) as Hv0 by exact V1.
  set (s0 := Cpu v0 (p_cr0 p) 0 cr4).
  assert (paging s0 = false) as Hpag.
  { unfold paging. cbn [s0 Stage2.cr0]. rewrite C, Z.lor_spec, Hpg. done. }
  destruct (stage2_boots drive sectors sector count width entry cont A room Hdrive Hbp cs1 cs2 cib crtc info s0 Hdisk Hpag)
    as (v & E2 & Sh & Fi & Mp & Wk & K & U); [cbn; lia|by apply literals_read|by apply paths_read|done|done|].
  exists p, v. split; [done|]. split; [done|]. split; [exact E2|]. split; [exact Sh|]. do 3 (split; [done|]).
  cbn [machine_of s0] in K. split; [|split; [|split]].
  - rewrite <- V. apply (data_kept v0); [done|done|lia].
  - rewrite <- Bps. apply vld_ext. intros a Ha. apply (data_kept v0); [done|done|lia].
  - intros a Hwa Ha Hq. rewrite K by done. apply F; [done|lia].
  - unfold system. rewrite (bind_ok _ _ _ E). cbn [drive_parameters l_drive_number sector_labels].
    replace (d + 174 + 24) with (d + 198) by lia.
    rewrite (bind_ok _ _ _ (ldn_win 2 (p_mem p) (d + 198) ltac:(split; [lia|split; [lia|intros b Hb; apply Hwin; lia]]))), Bps.
    rewrite (bind_ok _ _ _ (rd8_win (p_mem p) d ltac:(apply Hwin; lia))), V. exact U.
Qed.

End System.
