(* ===== verification/Stage2Witness.v ===== *)
(** * Machines on which the theorems on the second stage apply

    A console of one cell for loading alone, and a machine with a screen, a disk and
    a memory map for all of it. *)

From S2P Require Export Stage2Boot ExfatWitness ScreenWitness.

#[local] Open Scope Z_scope.

#[local] Existing Instance flat_firmware.
#[local] Instance the_disk : Disk flat (fun _ => True) (HF := flat_firmware disk) 128 512 1000 disk :=
  flat_disk disk disk_range 128 1000.

(** A console that shows the number of arguments in one cell. *)
Definition one_cell (fmt : string) (args : list Z) (s : flat) : res flat :=
  wr8 s 753664 (48 + Z.of_nat (length args)).

#[local] Program Instance one_cell_console :
  Console flat (fun _ => True) one_cell (fun a => a = 753664) (fun _ => False) := { console _ _ := True }.
Next Obligation. done. Qed.
Next Obligation.
  intros l fmt args s _ _. unfold one_cell. rewrite (wr8_win (win := fun _ => True)) by done.
  eexists. split; [reflexivity|]. split; [done|]. intros a _ Ha.
  rewrite (view_poke (win := fun _ => True)) by done. by rewrite decide_False by congruence.
Qed.

Definition w_lit (s : string) : Z := if String.eqb s "/system/kernel" then w_path else w_path + 64.

Lemma w_load_places : load_places (win := fun _ => True) w_buf w_dap w_record w_fat 0 1000 (fun a => a = 753664) (fun _ => False).
Proof.
  split; [apply w_place; lia|by vm_compute|]. intros x [[]| ->]. unfold quiet_place, scratch, w_buf, w_dap, w_fat, load_base.
  rewrite one_sector. lia.
Qed.

Lemma w_stable a n :
  0 <= a -> a + n <= w_fat -> 0 <= n ->
  stable (win := fun _ => True) w_buf w_dap w_fat 0 1000 (fun a => a = 753664) a n.
Proof.
  unfold stable, quiet_place, scratch, w_fat, w_buf, w_dap, load_base. rewrite one_sector.
  intros H0 H1 H2. split; [split; [lia|]; split; [lia|done]|]. lia.
Qed.

Ltac spelled_out :=
  repeat (split; [by vm_compute|]; split; [done|]; split; [by vm_compute|]; split; [repeat constructor; vm_compute; intuition discriminate|]);
  by vm_compute.

Lemma w_loader_memory :
  loader_memory (win := fun _ => True) 1000 w_buf w_dap w_record w_table w_fat 8 4 0 1000 w_lit (fun a => a = 753664) mounted 2.
Proof.
  split; [apply mounted_volume|by vm_compute|apply w_cluster; lia|by apply w_stable|by apply w_stable|
    apply mounted_upper|by apply w_stable|by apply w_stable|spelled_out|spelled_out].
Qed.

(** The driver, in one cluster whose entry of the FAT is 0. *)
Lemma vga_path : path_on_disk 1000 disk 8 4 0 998 (upcase (view mounted) w_table) [2] vga_names [8].
Proof.
  destruct (w_clusters [3; 3]) as [K1 P1]; [repeat constructor; lia|].
  destruct (w_clusters [8; 8]) as [K2 P2]; [repeat constructor; lia|].
  destruct (found_file (upcase (view mounted) w_table) system_name (dir_files disk 8 0 [2]) 3 512)
    as (f & E1 & C1 & S1); [by vm_compute|].
  destruct (found_file (upcase (view mounted) w_table) vga_name (dir_files disk 8 0 [3]) 8 300)
    as (g & E2 & C2 & S2); [by vm_compute|].
  apply (path_down _ _ _ _ _ _ _ _ _ _ f [3]); [by vm_compute|done| |].
  - unfold file_clusters_are. rewrite C1, S1. split; [apply system_clusters|].
    split_and!; [by vm_compute|lia|by vm_compute|by vm_compute|exact K1|exact P1].
  - apply (path_down _ _ _ _ _ _ _ _ _ _ g [8]); [by vm_compute|done| |apply path_here].
    unfold file_clusters_are. rewrite C2, S2. split; [left; split; by vm_compute|].
    split_and!; [by vm_compute|lia|by vm_compute|by vm_compute|exact K2|exact P2].
Qed.

Lemma load_system_loads_witness :
  exists s', load_system (HF := flat_firmware disk) 512 128 w_buf w_dap w_record w_table w_fat one_cell w_lit mounted
      = Ok (2 * 512, s') /\
    console (load_log (2 * 512) (1 * 512)) s' /\ Stage2Load.kept (win := fun _ => True) w_buf w_dap w_fat 0 1000 (fun a => a = 753664) mounted s' /\
    (forall o, 0 <= o < 2 * 512 -> view s' (1048576 + o) = file_byte disk 8 0 [4; 6] o) /\
    forall o, 0 <= o < 1 * 512 -> view s' (1048576 + 2 * 512 + o) = file_byte disk 8 0 [8] o.
Proof.
  apply (load_system_loads (HF := flat_firmware disk) 128 1000 disk w_buf w_dap w_record w_table w_fat w_locals 8 4 0 1000
    ltac:(lia) w_lit one_cell (fun a => a = 753664) (fun _ => False) w_load_places [] mounted 2 [4; 6] [8]).
  - apply disk_range.
  - apply w_loader_memory.
  - done.
  - exact kernel_path.
  - exact vga_path.
  - done.
Defined.

(** ** A machine with a screen, a disk and a memory map *)

#[export] Instance crt_firmware : Firmware crt := {
  interrupt code regs d :=
    '(r, t) ← flat_interrupt disk code regs (crt_mem d); mret (r, Crt t (crt_index d) (crt_regs d));
}.

#[export] Program Instance crt_disk : Disk crt (fun _ => True) 128 512 1000 disk.
Next Obligation.
  intros regs d H1 H2 dap H3 H4 H5 buffer lba H6 H7 H8.
  destruct (disk_read (HF := flat_firmware disk) (Disk := the_disk) regs (crt_mem d) H1 H2 H3 H4 H5 H6 H7 H8)
    as (r & t & E & _ & V).
  exists r, (Crt t (crt_index d) (crt_regs d)). split; [|by split].
  cbn [interrupt crt_firmware]. by rewrite (bind_ok _ _ _ E).
Qed.

#[export] Program Instance crt_map : MemoryMap crt (fun _ => True) 2 20 range_byte range_cont.
Next Obligation. lia. Qed.
Next Obligation. lia. Qed.
Next Obligation. done. Qed.
Next Obligation. unfold range_cont. lia. Qed.
Next Obligation.
  intros regs d k Hk H1 H2 H3 H4 Hw.
  destruct (map_scan (HF := flat_firmware disk) (MemoryMap := ExfatWitness.flat_map disk) regs (crt_mem d) k Hk H1 H2 H3 H4 Hw)
    as (r & t & E & Eb & _ & V).
  exists r, (Crt t (crt_index d) (crt_regs d)). split; [|by split].
  cbn [interrupt crt_firmware]. by rewrite (bind_ok _ _ _ E).
Qed.

(** The messages are behind each other from 45056 on, 128 bytes each. *)
Definition w_message (fmt : string) : Z :=
  45056 + 128 * Z.of_nat (match list_find (fun s => s = fmt) messages.*1 with Some (i, _) => i | None => 0 end).

Definition w_literal (s : string) : Z :=
  if String.eqb s "/system/kernel" then 47104 else if String.eqb s "/system/vga" then 47168 else w_message s.

Definition w_addresses : addresses :=
  Addresses w_buf w_dap w_record w_table w_load w_fat 36864 28672 32768 33280 w_literal.

(** Nothing in memory but the loader, as the boot sector reads it. *)
Definition off : flat := Flat (fun a => if decide (32256 <= a < 65024) then image_byte a else 0).

Definition started : cpu (vga crt) := Cpu (Vga (Crt off 0 (fun _ => 0)) 7) 1 0 0.

Lemma w_messages fmt :
  fmt ∈ messages.*1 -> 45056 <= w_literal fmt /\ w_literal fmt + Z.of_nat (length (c_string fmt)) + 1 <= 46592.
Proof.
  intros Hf. assert (Forall (fun fmt => (45056 <=? w_literal fmt) &&
    (w_literal fmt + Z.of_nat (length (c_string fmt)) + 1 <=? 46592) = true) messages.*1) as Hall
    by (apply (bool_decide_unpack _); by vm_compute).
  rewrite Forall_forall in Hall. specialize (Hall _ Hf). lia.
Qed.

Lemma w_literals : literals_in (win := fun _ => True) w_literal (machine_of started).
Proof.
  intros fmt Hf. destruct (w_messages fmt Hf) as [H0 H1].
  assert (Forall (fun fmt => Forall (fun c => c <> 0) (c_string fmt) /\
    Forall (fun i => rd8 off (w_literal fmt + Z.of_nat i) = Ok (default 0 (c_string fmt !! i)))
      (seq 0 (Datatypes.S (length (c_string fmt))))) messages.*1) as Hall
    by (apply (bool_decide_unpack _); by vm_compute).
  rewrite Forall_forall in Hall. destruct (Hall _ Hf) as [Hn Hr]. rewrite Forall_forall in Hr.
  split; [lia|]. split; [lia|]. split; [done|]. intros i Hi. split.
  - split; [done|]. assert (text_buffer = 753664) as E by done. lia.
  - apply Hr, elem_of_seq. lia.
Qed.

Lemma w_paths : paths_in (win := fun _ => True) w_addresses (machine_of started).
Proof. split; spelled_out. Qed.

Lemma w_boot_places : boot_places (win := fun _ => True) w_addresses (boot_shift disk) 1000.
Proof.
  assert (boot_shift disk = 0) as -> by by vm_compute.
  assert (text_buffer = 753664) as Eb by done.
  assert (forall p, present p -> 0 <= part_base w_addresses p /\
    part_base w_addresses p + part_size 0 1000 p <= 4294967296) as Hr.
  { intros p Hp. destruct p as [| | | | | | | | | | | | | |fmt]; [by vm_compute..|]. destruct (w_messages fmt Hp).
    cbn [part_base part_size w_addresses a_lit]. lia. }
  split.
  - intros p Hp. destruct (Hr p Hp) as [H0 H1]. split; [done|]. by split.
  - intros p q Hp Hq Hn. destruct q as [| | | | | | | | | | | | | |fmt];
      [destruct p; try done; first [left; by vm_compute|right; by vm_compute]..|].
    destruct (w_messages fmt Hq) as [M0 M1]. unfold apart.
    destruct p; try done; cbn [part_base part_size w_addresses a_lit a_buf a_dap a_record a_table
        a_load a_fat a_dir a_blocks a_len a_result]; unfold w_buf, w_dap, w_record, w_table, w_load, w_fat, load_base;
        rewrite ?one_sector; lia.
  - by vm_compute.
  - by vm_compute.
  - by vm_compute.
  - by vm_compute.
  - by vm_compute.
  - lia.
  - by vm_compute.
  - lia.
Qed.

(** The up-case table on the disk has every character as its own upper case. *)
Lemma w_mounted_upcase c : 0 <= c < 128 -> mounted_upcase disk c = c.
Proof.
  intros Hc. assert (Forall (fun c => mounted_upcase disk c = c) (seqZ 0 128)) as Hall
    by (apply (bool_decide_unpack _); by vm_compute).
  rewrite Forall_forall in Hall. apply Hall, elem_of_seqZ. lia.
Qed.

Lemma w_upcase_same c : 0 <= c < 128 -> mounted_upcase disk c = upcase (view mounted) w_table c.
Proof. intros Hc. by rewrite w_mounted_upcase, mounted_table. Qed.

Lemma w_boot_disk : boot_disk 1000 disk 1000 [4; 6] [8].
Proof.
  assert (boot_shift disk = 0) as Ek by by vm_compute. assert (boot_heap disk = 8) as Eh by by vm_compute.
  assert (boot_fat disk = 4) as Ef by by vm_compute. assert (boot_root disk = 2) as Er by by vm_compute.
  split; rewrite ?Ek, ?Eh, ?Ef, ?Er.
  - apply disk_range.
  - lia.
  - by apply w_cluster.
  - intros i Hi. assert (upcase_entry disk = Some 0) as E by by vm_compute. rewrite E in Hi.
    injection Hi as <-. by vm_compute.
  - intros c Hc. rewrite w_mounted_upcase by done. lia.
  - apply (path_on_disk_ext _ _ _ _ _ (upcase (view mounted) w_table)); [apply w_upcase_same|apply disk_range|].
    exact kernel_path.
  - apply (path_on_disk_ext _ _ _ _ _ (upcase (view mounted) w_table)); [apply w_upcase_same|apply disk_range|].
    exact vga_path.
  - done.
Qed.

Lemma stage2_boots_witness :
  exists v, prepare_screen 512 128 w_buf w_dap w_record w_table w_load w_fat 36864 28672 32768 33280 w_literal
      (machine_of started) = Ok v /\
    shows (win := fun _ => True) v (type_all 15
      (boot_log 2 range_byte (2 * cluster_bytes (boot_shift disk)) (1 * cluster_bytes (boot_shift disk)))
      (Screen (fun _ => cell 7 32) 0)) /\
    files_in (win := fun _ => True) disk [4; 6] [8] v /\ map_in (win := fun _ => True) 2 20 range_byte w_addresses v /\
    (forall va, 0 <= va < 2 ^ 32 -> Machine.walk (view v) 36864 va
       = Some (if va <? KERNEL_BASE then va else va - KERNEL_BASE)) /\
    same_but (win := fun _ => True) w_addresses (boot_shift disk) 1000 boot_parts (machine_of started) v /\
    stage2 512 128 w_buf w_dap w_record w_table w_load w_fat 36864 28672 32768 33280 49152 49664 49728 w_literal
      started = Undef.
Proof.
  apply (stage2_boots 128 1000 disk 2 20 range_byte range_cont w_addresses 1000 ltac:(lia) w_boot_places
    [4; 6] [8] 49152 49664 49728 started).
  - exact w_boot_disk.
  - reflexivity.
  - cbn. lia.
  - exact w_literals.
  - exact w_paths.
  - flat_win.
  - flat_win.
Defined.

(** What it prints. *)
Definition w_log : string :=
  "Starting stage2 boot...\r\nInitializing the exFAT filesystem...\r\nLoading kernel...\r\nLoading system processes...\r\nLoading VGA driver\r\nKernel Size: 00000400\r\nSystem process detected at 00100400. Passing info\r\n\nMemory Table:\r\nBase             | Size             | Type\r\n0000000000000000 | 0000000000000000 | 00000001\r\n0000000000000000 | 0000000000000000 | 00000002\r\n"%string.

Example w_boot_log : boot_log 2 range_byte (2 * 512) (1 * 512) = c_string w_log.
Proof. vm_compute. reflexivity. Qed.
