(* ===== verification/SystemWitness.v ===== *)
(** * A machine that starts from its disk

    The board, the screen and the disk of the other witnesses in one machine, with two
    views of one BIOS: of real mode, and of the second stage. *)

From S2P Require Export SystemBoot Stage2Witness.
From S2P Require Import BootWitness.

#[local] Open Scope Z_scope.

Record whole := Whole { w_crt : crt; w_line : bool; w_tty : list Z }.

#[export] Instance whole_store : Store whole := {
  rd8 s a := rd8 (w_crt s) a;
  wr8 s a v := d ← wr8 (w_crt s) a v; mret (Whole d (w_line s) (w_tty s));
}.
#[export] Instance whole_pc : Pc whole := { a20 := w_line; tty := w_tty }.

#[export] Program Instance whole_window : Window whole (fun _ => True) := {
  view s a := view (w_crt s) a;
  poke s a v := Whole (poke (win := fun _ => True) (w_crt s) a v) (w_line s) (w_tty s);
  outside s s' := outside (win := fun _ => True) (w_crt s) (w_crt s') /\ w_line s' = w_line s /\ w_tty s' = w_tty s;
}.
Next Obligation.
  split; [by intros s|]. intros s t u (O1 & L1 & T1) (O2 & L2 & T2). split; [by etrans|]. split; congruence.
Qed.
Next Obligation. done. Qed.
Next Obligation. intros. apply u8_range. Qed.
Next Obligation. done. Qed.
Next Obligation. intros s a v b Ha Hb. exact (view_poke (w_crt s) a v b Ha Hb). Qed.
Next Obligation. done. Qed.

#[export] Instance whole_memory : PcMemory (S := whole) (win := fun _ => True).
Proof. split; intros m m' (_ & E & F); done. Qed.

#[export] Instance whole_ports : Ports whole := {
  in8 p s := '(v, d) ← in8 p (w_crt s); mret (v, Whole d (w_line s) (w_tty s));
  out8 p v s := d ← out8 p v (w_crt s); mret (Whole d (w_line s) (w_tty s));
}.

#[export] Program Instance whole_crtc : Crtc whole (fun _ => True) := {
  Vga.selected s := Vga.selected (w_crt s);
  crtc s r := crtc (w_crt s) r;
  select v s := Whole (select v (w_crt s)) (w_line s) (w_tty s);
  assign v s := Whole (assign v (w_crt s)) (w_line s) (w_tty s);
}.
Next Obligation. intros. apply crtc_range. Qed.
Next Obligation. done. Qed.
Next Obligation. done. Qed.
Next Obligation. by intros []. Qed.
Next Obligation. done. Qed.
Next Obligation. done. Qed.
Next Obligation. done. Qed.
Next Obligation. intros s v r Hv Hr. exact (crtc_assign (w_crt s) v r Hv Hr). Qed.
Next Obligation. done. Qed.
Next Obligation. done. Qed.
Next Obligation. intros s s' r (O & _) Hr. exact (crtc_outside (w_crt s) (w_crt s') r O Hr). Qed.

(** ** The BIOS for the second stage *)

#[export] Instance whole_firmware : Firmware whole := {
  interrupt code regs s :=
    '(r, d) ← interrupt (Firmware := crt_firmware) code regs (w_crt s); mret (r, Whole d (w_line s) (w_tty s));
}.

#[export] Program Instance whole_disk : Disk whole (fun _ => True) 128 512 1000 disk.
Next Obligation.
  intros regs s H1 H2 dap H3 H4 H5 buffer lba H6 H7 H8.
  destruct (disk_read (HF := crt_firmware) (Disk := crt_disk) regs (w_crt s) H1 H2 H3 H4 H5 H6 H7 H8)
    as (r & t & E & O & V).
  exists r, (Whole t (w_line s) (w_tty s)). split; [|by split].
  cbn [interrupt whole_firmware]. by rewrite (bind_ok _ _ _ E).
Qed.

#[export] Program Instance whole_map : MemoryMap whole (fun _ => True) 2 20 range_byte range_cont.
Next Obligation. lia. Qed.
Next Obligation. lia. Qed.
Next Obligation. done. Qed.
Next Obligation. unfold range_cont. lia. Qed.
Next Obligation.
  intros regs s k Hk H1 H2 H3 H4 Hw.
  destruct (map_scan (HF := crt_firmware) (MemoryMap := crt_map) regs (w_crt s) k Hk H1 H2 H3 H4 Hw)
    as (r & t & E & Eb & O & V).
  exists r, (Whole t (w_line s) (w_tty s)). split; [|by split].
  cbn [interrupt whole_firmware]. by rewrite (bind_ok _ _ _ E).
Qed.

(** ** The same BIOS in real mode *)

Definition to_board (s : whole) : board := Board (flat_byte (crt_mem (w_crt s))) (w_line s) (w_tty s).
Definition of_board (b : board) (s : whole) : whole :=
  Whole (Crt (Flat (b_mem b)) (crt_index (w_crt s)) (crt_regs (w_crt s))) (b_line b) (b_tty b).

Definition whole_bios (i : Z) (s : real whole) : res (real whole) :=
  r ← board_bios (Some 512) 1000 disk i (Real (rg s) (to_board (mem s)));
  mret (Real (rg r) (of_board (mem r) (mem s))).

Lemma whole_bios_ok : Bios16 (win := fun _ => True) whole_bios 128 (Some 512) 1000 disk.
Proof.
  assert (Bios16 (win := fun _ => True) (board_bios (Some 512) 1000 disk) 128 (Some 512) 1000 disk) as HB.
  { apply board_bios_ok; [apply disk_range|]. intros ? [= <-]. lia. }
  split.
  - intros r m Hah. destruct (tele _ _ _ _ _ HB r (to_board m) Hah) as (b & E & T & A & V).
    exists (of_board b m). unfold whole_bios. cbn [rg mem]. rewrite (bind_ok _ _ _ E). by split_and!.
  - intros r m Hr Hah Hdl buf Hw H30.
    destruct (drive_info _ _ _ _ _ HB r (to_board m) Hr Hah Hdl Hw H30) as (r' & b & E & H1 & H2 & H3 & H4 & H5 & H6 & H7).
    exists r', (of_board b m). unfold whole_bios. cbn [rg mem]. rewrite (bind_ok _ _ _ E). by split_and!.
  - intros r m bps Hr Hah Hdl Hi dap Hw H16 n dest lba Hw' Hap.
    destruct (drive_read _ _ _ _ _ HB r (to_board m) bps Hr Hah Hdl Hi Hw H16 Hw' Hap)
      as (r' & b & E & H1 & H2 & H3 & H4 & H5 & H6 & H7).
    exists r', (of_board b m). unfold whole_bios. cbn [rg mem]. rewrite (bind_ok _ _ _ E). by split_and!.
Qed.

(** ** Switched on *)

Definition switched_on : whole := Whole (Crt (Flat w_low) 0 (fun _ => 0)) false [].

Lemma w_switched_on : SectorBoot.started (win := fun _ => True) 128 w_d w_regs switched_on.
Proof. destruct w_started as (H1 & H2 & H3 & H4). by split_and!. Qed.

Lemma w_loaded : bytes_at (loader_byte disk) 43000 (setup_data 43000).
Proof. apply has_bytes_at. by vm_compute. Qed.

Lemma w_literals_loaded : literals_loaded disk w_addresses.
Proof.
  intros fmt Hf. destruct (w_messages fmt Hf) as [H0 H1]. cbn [a_lit w_addresses].
  assert (Forall (fun fmt => Forall (fun c => c <> 0) (c_string fmt) /\
    Forall (fun i => loader_byte disk (w_literal fmt + Z.of_nat i) = default 0 (c_string fmt !! i))
      (seq 0 (Datatypes.S (length (c_string fmt))))) messages.*1) as Hall
    by (apply (bool_decide_unpack _); by vm_compute).
  rewrite Forall_forall in Hall. destruct (Hall _ Hf) as [Hn Hr]. rewrite Forall_forall in Hr.
  split; [lia|]. split; [lia|]. split; [done|]. intros i Hi. apply Hr, elem_of_seq. lia.
Qed.

Lemma w_kernel_loaded : path_loaded disk w_addresses "/system/kernel" kernel_names.
Proof. split; [by vm_compute|]. split; [by vm_compute|]. spelled_out. Qed.
Lemma w_vga_loaded : path_loaded disk w_addresses "/system/vga" vga_names.
Proof. split; [by vm_compute|]. split; [by vm_compute|]. spelled_out. Qed.

Lemma w_sector_kept : sector_kept disk w_addresses 1000.
Proof. intros p Hp. destruct p; try discriminate Hp; first [left; by vm_compute|right; by vm_compute]. Qed.

Lemma disk_boots_witness :
  exists p v, mbr (sector_labels w_d 43000 31800) whole_bios 16 (Real w_regs switched_on) = Ok p /\
    tty (p_mem p) = hello_text ++ load_text true ++ setup_text /\
    shows (win := fun _ => True) v (type_all 15
      (boot_log 2 range_byte (2 * cluster_bytes (boot_shift disk)) (1 * cluster_bytes (boot_shift disk)))
      (Screen (fun _ => cell 15 32) 0)) /\
    files_in (win := fun _ => True) disk [4; 6] [8] v /\
    system whole_bios w_addresses w_d 43000 31800 49152 49664 49728 16 0 (Real w_regs switched_on) = Undef.
Proof.
  destruct (disk_boots 128 1000 disk 2 20 range_byte range_cont whole_bios whole_bios_ok w_addresses 1000 w_d 43000 31800
    49152 49664 49728 all_win ltac:(lia) ltac:(done) ltac:(done) ltac:(lia) ltac:(lia) ltac:(lia) w_boot_places
    [4; 6] [8] 16 0 w_regs switched_on w_switched_on eq_refl w_loaded w_literals_loaded w_kernel_loaded w_vga_loaded
    w_boot_disk w_sector_kept ltac:(flat_win) ltac:(flat_win)) as (p & v & E & T & _ & Sh & Fi & _ & _ & _ & _ & _ & U).
  exists p, v. split; [exact E|]. split; [exact T|]. split; [exact Sh|]. split; [exact Fi|exact U].
Defined.
