(* ===== verification/ArmDrivers.v ===== *)
(** * arch/arm/drivers, arch/arm/mm and util.s: devices of the ARM port

    Device registers are read and written through [get32] and [put32] (util.s); what
    a device does then is a parameter ([Device]).  [print] comes from outside of the
    source tree here and is a parameter as well. *)

From S2P Require Export Store CString.

#[local] Open Scope Z_scope.

(** * The addresses of the device registers

    One definition for each constant of arch/arm/peripherals. *)

(** ** base.h *)

Definition P_BASE : Z := 1056964608. (* 0x3F000000 *)

(** ** gpio.h *)

Definition GPIO_BASE : Z := P_BASE + 2097152. (* (P_BASE + 0x200000) *)
Definition GPFSEL0 : Z := GPIO_BASE.
Definition GPFSEL1 : Z := GPIO_BASE + 4. (* (GPIO_BASE + 0x4) *)
Definition GPFSEL2 : Z := GPIO_BASE + 8. (* (GPIO_BASE + 0x8) *)
Definition GPFSEL3 : Z := GPIO_BASE + 12. (* (GPIO_BASE + 0xc) *)
Definition GPFSEL4 : Z := GPIO_BASE + 16. (* (GPIO_BASE + 0x10) *)
Definition GPFSEL5 : Z := GPIO_BASE + 20. (* (GPIO_BASE + 0x14) *)
Definition GPSET0 : Z := GPIO_BASE + 28. (* (GPIO_BASE + 0x1c) *)
Definition GPSET1 : Z := GPIO_BASE + 32. (* (GPIO_BASE + 0x20) *)
Definition GPCLR0 : Z := GPIO_BASE + 40. (* (GPIO_BASE + 0x28) *)
Definition GPCLR1 : Z := GPIO_BASE + 44. (* (GPIO_BASE + 0x2c) *)
Definition GPLEV0 : Z := GPIO_BASE + 52. (* (GPIO_BASE + 0x34) *)
Definition GPLEV1 : Z := GPIO_BASE + 56. (* (GPIO_BASE + 0x38) *)
Definition GPEDS0 : Z := GPIO_BASE + 64. (* (GPIO_BASE + 0x40) *)
Definition GPEDS1 : Z := GPIO_BASE + 68. (* (GPIO_BASE + 0x44) *)
Definition GPREN0 : Z := GPIO_BASE + 76. (* (GPIO_BASE + 0x4c) *)
Definition GPREN1 : Z := GPIO_BASE + 80. (* (GPIO_BASE + 0x50) *)
Definition GPFEN0 : Z := GPIO_BASE + 88. (* (GPIO_BASE + 0x58) *)
Definition GPFEN1 : Z := GPIO_BASE + 92. (* (GPIO_BASE + 0x5c) *)
Definition GPHEN0 : Z := GPIO_BASE + 100. (* (GPIO_BASE + 0x64) *)
Definition GPHEN1 : Z := GPIO_BASE + 104. (* (GPIO_BASE + 0x68) *)
Definition GPLEN0 : Z := GPIO_BASE + 112. (* (GPIO_BASE + 0x70) *)
Definition GPLEN1 : Z := GPIO_BASE + 116. (* (GPIO_BASE + 0x74) *)
Definition GPAREN0 : Z := GPIO_BASE + 124. (* (GPIO_BASE + 0x7c) *)
Definition GPAREN1 : Z := GPIO_BASE + 128. (* (GPIO_BASE + 0x80) *)
Definition GPAFEN0 : Z := GPIO_BASE + 136. (* (GPIO_BASE + 0x88) *)
Definition GPAFEN1 : Z := GPIO_BASE + 140. (* (GPIO_BASE + 0x8c) *)
Definition GPPUD : Z := GPIO_BASE + 148. (* (GPIO_BASE + 0x94) *)
Definition GPPUDCLK0 : Z := GPIO_BASE + 152. (* (GPIO_BASE + 0x98) *)
Definition GPPUDCLK1 : Z := GPIO_BASE + 156. (* (GPIO_BASE + 0x9c) *)

(** ** aux.h *)

Definition AUX_BASE : Z := 2116112384. (* 0x7e215000 *)
Definition AUX_IRQ : Z := AUX_BASE.
Definition AUX_ENABLES : Z := AUX_BASE + 4. (* (AUX_BASE + 0x4) *)
Definition AUX_MU_IO_REG : Z := AUX_BASE + 64. (* (AUX_BASE + 0x40) *)
Definition AUX_MU_IER_REG : Z := AUX_BASE + 68. (* (AUX_BASE + 0x44) *)
Definition AUX_MU_IIR_REG : Z := AUX_BASE + 72. (* (AUX_BASE + 0x48) *)
Definition AUX_MU_LCR_REG : Z := AUX_BASE + 76. (* (AUX_BASE + 0x4c) *)
Definition AUX_MU_MCR_REG : Z := AUX_BASE + 80. (* (AUX_BASE + 0x50) *)
Definition AUX_MU_LSR_REG : Z := AUX_BASE + 84. (* (AUX_BASE + 0x54) *)
Definition AUX_MU_MSR_REG : Z := AUX_BASE + 88. (* (AUX_BASE + 0x58) *)
Definition AUX_MU_SCRATCH : Z := AUX_BASE + 92. (* (AUX_BASE + 0x5c) *)
Definition AUX_MU_CNTL_REG : Z := AUX_BASE + 96. (* (AUX_BASE + 0x60) *)
Definition AUX_MU_STAT_REG : Z := AUX_BASE + 100. (* (AUX_BASE + 0x64) *)
Definition AUX_MU_BAUD_REG : Z := AUX_BASE + 104. (* (AUX_BASE + 0x68) *)
Definition AUX_SPI1_CTNL0_REG : Z := AUX_BASE + 128. (* (AUX_BASE + 0x80) *)
Definition AUX_SPI1_CNTL1_REG : Z := AUX_BASE + 132. (* (AUX_BASE + 0x84) *)
Definition AUX_SPI1_STAT_REG : Z := AUX_BASE + 136. (* (AUX_BASE + 0x88) *)
Definition AUX_SPI1_IO_REG : Z := AUX_BASE + 144. (* (AUX_BASE + 0x90) *)
Definition AUX_SPI1_PEEK_REG : Z := AUX_BASE + 148. (* (AUX_BASE + 0x94) *)
Definition AUX_SPI2_CNTL0_REG : Z := AUX_BASE + 192. (* (AUX_BASE + 0xc0) *)
Definition AUX_SPI2_CNTL1_REG : Z := AUX_BASE + 196. (* (AUX_BASE + 0xc4) *)
Definition AUX_SPI2_STAT_REG : Z := AUX_BASE + 200. (* (AUX_BASE + 0xc8) *)
Definition AUX_SPI2_IO_REG : Z := AUX_BASE + 208. (* (AUX_BASE + 0xd0) *)
Definition AUX_SPI2_PEEK_REG : Z := AUX_BASE + 212. (* (AUX_BASE + 0xd4) *)

(** ** irq.h *)

Definition IRQ_BASE : Z := 2113974272. (* 0x7e00b000 *)
Definition IRQ_BASIC_PENDING : Z := IRQ_BASE + 512. (* (IRQ_BASE + 0x200) *)
Definition IRQ_PENDING1 : Z := IRQ_BASE + 516. (* (IRQ_BASE + 0x204) *)
Definition IRQ_PENDING2 : Z := IRQ_BASE + 520. (* (IRQ_BASE + 0x208) *)
Definition FIQ_CONTROL : Z := IRQ_BASE + 524. (* (IRQ_BASE + 0x20c) *)
Definition IRQ_ENABLE1 : Z := IRQ_BASE + 528. (* (IRQ_BASE + 0x210) *)
Definition IRQ_ENABLE2 : Z := IRQ_BASE + 532. (* (IRQ_BASE + 0x214) *)
Definition IRQ_BASIC_ENABLE : Z := IRQ_BASE + 536. (* (IRQ_BASE + 0x218) *)
Definition IRQ_DISABLE1 : Z := IRQ_BASE + 540. (* (IRQ_BASE + 0x21c) *)
Definition IRQ_DISABLE2 : Z := IRQ_BASE + 544. (* (IRQ_BASE + 0x220) *)
Definition IRQ_BASIC_DISABLE : Z := IRQ_BASE + 548. (* (IRQ_BASE + 0x224) *)
Definition IRQ_TIMER1 : Z := Z.shiftl 1 1.
Definition IRQ_TIMER2 : Z := Z.shiftl 1 3.

(** ** timer.h *)

Definition TIMER_BASE : Z := 2113941504. (* 0x7e003000 *)
Definition TIMER_CS : Z := TIMER_BASE.
Definition TIMER_CLO : Z := TIMER_BASE + 4. (* (TIMER_BASE + 0x4) *)
Definition TIMER_CHI : Z := TIMER_BASE + 8. (* (TIMER_BASE + 0x8) *)
Definition TIMER_C0 : Z := TIMER_BASE + 12. (* (TIMER_BASE + 0xc) *)
Definition TIMER_C1 : Z := TIMER_BASE + 16. (* (TIMER_BASE + 0x10) *)
Definition TIMER_C2 : Z := TIMER_BASE + 20. (* (TIMER_BASE + 0x14) *)
Definition TIMER_C3 : Z := TIMER_BASE + 24. (* (TIMER_BASE + 0x18) *)

(** ** uart.h *)

Definition UART_BASE : Z := P_BASE + 2101248. (* (P_BASE + 0x201000) *)
Definition UART_DR : Z := UART_BASE.
Definition UART_RSRECR : Z := UART_BASE + 4. (* (UART_BASE + 0x4) *)
Definition UART_FR : Z := UART_BASE + 24. (* (UART_BASE + 0x18) *)
Definition UART_ILPR : Z := UART_BASE + 32. (* (UART_BASE + 0x20) *)
Definition UART_IBRD : Z := UART_BASE + 36. (* (UART_BASE + 0x24) *)
Definition UART_FBRD : Z := UART_BASE + 40. (* (UART_BASE + 0x28) *)
Definition UART_LCRH : Z := UART_BASE + 44. (* (UART_BASE + 0x2c) *)
Definition UART_CR : Z := UART_BASE + 48. (* (UART_BASE + 0x30) *)
Definition UART_IFLS : Z := UART_BASE + 52. (* (UART_BASE + 0x34) *)
Definition UART_IMSC : Z := UART_BASE + 56. (* (UART_BASE + 0x38) *)
Definition UART_RIS : Z := UART_BASE + 60. (* (UART_BASE + 0x3c) *)
Definition UART_MIS : Z := UART_BASE + 64. (* (UART_BASE + 0x40) *)
Definition UART_ICR : Z := UART_BASE + 68. (* (UART_BASE + 0x44) *)
Definition UART_DMACR : Z := UART_BASE + 72. (* (UART_BASE + 0x48) *)
Definition UART_ITCR : Z := UART_BASE + 128. (* (UART_BASE + 0x80) *)
Definition UART_ITIP : Z := UART_BASE + 132. (* (UART_BASE + 0x84) *)
Definition UART_ITOP : Z := UART_BASE + 136. (* (UART_BASE + 0x88) *)
Definition UART_TDR : Z := UART_BASE + 140. (* (UART_BASE + 0x8c) *)

(** The registers, without the base addresses and the interrupt numbers. *)
Definition registers : list Z :=
  [GPFSEL0; GPFSEL1; GPFSEL2; GPFSEL3; GPFSEL4; GPFSEL5; GPSET0; GPSET1; GPCLR0; GPCLR1; GPLEV0;
   GPLEV1; GPEDS0; GPEDS1; GPREN0; GPREN1; GPFEN0; GPFEN1; GPHEN0; GPHEN1; GPLEN0; GPLEN1;
   GPAREN0; GPAREN1; GPAFEN0; GPAFEN1; GPPUD; GPPUDCLK0; GPPUDCLK1; AUX_IRQ; AUX_ENABLES;
   AUX_MU_IO_REG; AUX_MU_IER_REG; AUX_MU_IIR_REG; AUX_MU_LCR_REG; AUX_MU_MCR_REG; AUX_MU_LSR_REG;
   AUX_MU_MSR_REG; AUX_MU_SCRATCH; AUX_MU_CNTL_REG; AUX_MU_STAT_REG; AUX_MU_BAUD_REG;
   AUX_SPI1_CTNL0_REG; AUX_SPI1_CNTL1_REG; AUX_SPI1_STAT_REG; AUX_SPI1_IO_REG; AUX_SPI1_PEEK_REG;
   AUX_SPI2_CNTL0_REG; AUX_SPI2_CNTL1_REG; AUX_SPI2_STAT_REG; AUX_SPI2_IO_REG; AUX_SPI2_PEEK_REG;
   IRQ_BASIC_PENDING; IRQ_PENDING1; IRQ_PENDING2; FIQ_CONTROL; IRQ_ENABLE1; IRQ_ENABLE2;
   IRQ_BASIC_ENABLE; IRQ_DISABLE1; IRQ_DISABLE2; IRQ_BASIC_DISABLE; TIMER_CS; TIMER_CLO;
   TIMER_CHI; TIMER_C0; TIMER_C1; TIMER_C2; TIMER_C3; UART_DR; UART_RSRECR; UART_FR; UART_ILPR;
   UART_IBRD; UART_FBRD; UART_LCRH; UART_CR; UART_IFLS; UART_IMSC; UART_RIS; UART_MIS; UART_ICR;
   UART_DMACR; UART_ITCR; UART_ITIP; UART_ITOP; UART_TDR].

(** * The drivers *)

Class Device (S : Type) := {
  read_reg : Z -> S -> Z * S;
  write_reg : Z -> Z -> S -> S;
}.

(** The machine and the global variable of timer.c. *)
Record arm (S : Type) := Arm { hw : S; cmpval : Z }.
Arguments Arm {S} _ _.
Arguments hw {S} _.
Arguments cmpval {S} _.

Section Drivers.
Context {S : Type} {HS : Store S} {HD : Device S}.

#[export] Instance arm_store : Store (arm S) := {
  rd8 s a := rd8 (hw s) a;
  wr8 s a v := d ← wr8 (hw s) a v; mret (Arm d (cmpval s));
}.

#[export] Instance arm_device : Device (arm S) := {
  read_reg a s := let '(v, d) := read_reg a (hw s) in (v, Arm d (cmpval s));
  write_reg a v s := Arm (write_reg a v (hw s)) (cmpval s);
}.

(** ** util.s *)

(** Get 32bit info from address parameter *)
Definition get32 {T} `{Device T} (a : Z) (s : T) : Z * T := read_reg (u32 a) s.

(** Set 32bit info at address *)
Definition put32 {T} `{Device T} (a v : Z) (s : T) : T := write_reg (u32 a) (u32 v) s.

(** Delay for amount of clock ticks *)
Definition delay (n : Z) : res unit :=
  loop (fun r0 => let r0 := u32 (r0 - 1) in if r0 =? 0 then mret (inr tt) else mret (inl r0)) (u32 n).

(** [while (get32(reg) & mask) {}] *)
Definition wait_clear (reg mask : Z) (s : arm S) : res (arm S) :=
  loop (fun s =>
    let '(v, s) := get32 reg s in
    if negb (Z.land v mask =? 0) then mret (inl s) else mret (inr s)) s.

(** Send all chars in string: the first one before the test. *)
Definition send_body (sendc : Z -> arm S -> res (arm S)) : Z * arm S -> res (Z * arm S + arm S) :=
  fun '(strptr, s) =>
    c ← rd8 s strptr;
    s ← sendc c s;
    let strptr := u32 (strptr + 1) in
    c ← rd8 s strptr;
    if negb (c =? 0) then mret (inl (strptr, s)) else mret (inr s).

Definition send_chars (sendc : Z -> arm S -> res (arm S)) (str : Z) (s : arm S) : res (arm S) :=
  loop (send_body sendc) (str, s).

(** ** mini_uart.c *)

Definition mini_uart_init (s : arm S) : res (arm S) :=
  let '(selector, s) := get32 GPFSEL1 s in
  (* Clear function select for FSEL14 and FSEL15 *)
  let selector := Z.land selector (u32 (Z.lnot (Z.shiftl 7 12))) in
  let selector := Z.land selector (u32 (Z.lnot (Z.shiftl 7 15))) in
  (* Set function select to alt5 *)
  let selector := Z.lor selector (Z.shiftl 2 12) in
  let selector := Z.lor selector (Z.shiftl 2 15) in
  (* Update select register *)
  let s := put32 GPFSEL1 selector s in
  (* Disable GPIO PUD for GPIO Pins 14 and 15 *)
  let s := put32 GPPUD 0 s in
  _ ← delay 150;
  let s := put32 GPPUDCLK0 (Z.lor (Z.shiftl 1 14) (Z.shiftl 1 15)) s in
  _ ← delay 150;
  let s := put32 GPPUDCLK0 0 s in
  (* Initialize mini Uart *)
  let s := put32 AUX_ENABLES 1 s in
  let s := put32 AUX_MU_CNTL_REG 0 s in
  let s := put32 AUX_MU_IER_REG 0 s in
  let s := put32 AUX_MU_LCR_REG 3 s in
  let s := put32 AUX_MU_MCR_REG 0 s in
  let s := put32 AUX_MU_BAUD_REG 270 s in
  (* Enable transmitter and receiver *)
  mret (put32 AUX_MU_CNTL_REG 3 s).

Definition mini_uart_sendc (c : Z) (s : arm S) : res (arm S) :=
  (* Wait until transmitter is empty *)
  s ← wait_clear AUX_MU_LSR_REG 32 s;
  (* Write to transmitter *)
  mret (put32 AUX_MU_IO_REG c s).

Definition mini_uart_sendstr (str : Z) (s : arm S) : res (arm S) := send_chars mini_uart_sendc str s.

Definition mini_uart_recv (s : arm S) : res (Z * arm S) :=
  s ← wait_clear AUX_MU_LSR_REG 1 s;
  let '(v, s) := get32 AUX_MU_IO_REG s in
  mret (u8 v, s).

(** ** uart.c *)

Definition uart_init (s : arm S) : res (arm S) :=
  let '(selector, s) := get32 GPFSEL3 s in
  (* Set function select to alt3 *)
  let selector := Z.lor selector (Z.shiftl 7 6) in
  let selector := Z.lor selector (Z.shiftl 7 9) in
  (* Update select register *)
  let s := put32 GPFSEL3 selector s in
  (* Disable GPIO PUD for GPIO pins 32 and 33 *)
  let s := put32 GPPUD 0 s in
  _ ← delay 150;
  let s := put32 GPPUDCLK1 3 s in
  _ ← delay 150;
  let s := put32 GPPUDCLK1 0 s in
  (* Initialize UART (PL011) *)
  let s := put32 AUX_ENABLES 0 s in
  let s := put32 UART_ICR 255 s in
  let s := put32 UART_CR 0 s in
  let s := put32 UART_IBRD 510 s in
  let s := put32 UART_LCRH (Z.shiftl 3 5) s in
  (* UART enable and transmission/receive enable *)
  mret (put32 UART_CR (Z.lor (Z.lor 1 (Z.shiftl 1 8)) (Z.shiftl 1 9)) s).

Definition uart_sendc (c : Z) (s : arm S) : res (arm S) :=
  (* Wait until transmitter is empty *)
  s ← wait_clear UART_FR 64 s;
  (* Write to transmitter *)
  mret (put32 UART_DR c s).

Definition uart_sendstr (str : Z) (s : arm S) : res (arm S) := send_chars uart_sendc str s.

Definition uart_recv (s : arm S) : res (Z * arm S) :=
  s ← wait_clear UART_FR 32 s;
  let '(v, s) := get32 UART_DR s in
  mret (u8 v, s).

(** ** timer.c *)

(** Timer interrupt interval *)
Definition interval : Z := 10.

(** Clear timer statuses *)
Definition clear_timer (tid : Z) (s : arm S) : res (arm S) :=
  n ← shl1 tid; mret (put32 TIMER_CS n s).

(** Initialize timer *)
Definition init_timer (s : arm S) : arm S :=
  let '(v, s) := get32 TIMER_CLO s in
  let s := Arm (hw s) (u32 (v + interval)) in
  put32 TIMER_C1 (cmpval s) s.

(** Get system timer counter *)
Definition count_timer (s : arm S) : Z * arm S :=
  let '(hi, s) := get32 TIMER_CHI s in
  let '(lo, s) := get32 TIMER_CLO s in
  (Z.lor (Z.shiftl hi 32) lo, s).

Section Print.
Context (print : (Z -> arm S -> res (arm S)) -> Z -> arm S -> res (arm S)).
(** The strings "Timer interrupt handled.", "Some IRQ." and "Unknown IRQ.". *)
Context (timer_handled some_irq unknown_irq : Z).

(** Handle timer interrupt *)
Definition irq_timer_handler (s : arm S) : res (arm S) :=
  let s := Arm (hw s) (u32 (cmpval s + interval)) in
  let s := put32 TIMER_C1 (cmpval s) s in
  s ← clear_timer 1 s;
  print uart_sendstr timer_handled s.

(** ** irq.c *)

(** IRQ initializer *)
Definition irq_init (s : arm S) : arm S :=
  let irq1 := Z.lor 0 IRQ_TIMER1 in
  let irq2 := 0 in
  let s := put32 IRQ_ENABLE1 irq1 s in
  put32 IRQ_ENABLE2 irq2 s.

(** IRQ handler *)
Definition _irq_handler (s : arm S) : res (arm S) :=
  s ← print uart_sendstr some_irq s;
  (* Get pending IRQs *)
  let '(pending2, s) := get32 IRQ_PENDING2 s in
  let '(pending1, s) := get32 IRQ_PENDING1 s in
  let irqs := Z.lor (Z.shiftl pending2 32) pending1 in
  s ← print uart_sendstr some_irq s;
  (* Handle IRQs *)
  if irqs =? IRQ_TIMER1 then irq_timer_handler s
  else print uart_sendstr unknown_irq s.
End Print.

(** ** handlers.c *)

Definition _undefined_handler (s : arm S) : arm S := s.
Definition _supervisor_call (s : arm S) : arm S := s.
Definition _prefetch_abort_handler (s : arm S) : arm S := s.
Definition _data_abort_handler (s : arm S) : arm S := s.

(** ** mm.c *)

Definition memzero {T} `{Store T} (saddr eaddr : Z) (s : T) : res T :=
  loop (fun '(ptr, s) =>
    if ptr <? eaddr then s ← wr8 s ptr 0; mret (inl (u32 (ptr + 1), s))
    else mret (inr s)) (saddr, s).
End Drivers.
