(* ===== verification/ArmProps.v ===== *)
(** * Properties of the ARM drivers

    The equivalence of memzero and memset, what the initialisers write, and the
    flags the two serial ports wait for. *)

From S2P Require Export ArmDrivers.

#[local] Open Scope Z_scope.

(** ** Two loops in step *)

Section Simulation.
Context {S T A B : Type} (f : S -> res (S + A)) (g : T -> res (T + B)) (R : S -> T -> Prop) (h : A -> B).

(** Outcomes of one iteration of each. *)
Definition in_step (o : res (S + A)) (p : res (T + B)) : Prop :=
  match o, p with
  | Ok (inl s), Ok (inl t) => R s t
  | Ok (inr a), Ok (inr b) => b = h a
  | Undef, Undef => True
  | Diverge, Diverge => True
  | _, _ => False
  end.

Lemma nloop_sim n s t :
  (forall s t, R s t -> in_step (f s) (g t)) -> R s t -> in_step (nloop f n s) (nloop g n t).
Proof.
  intros Hstep. revert s t; induction n as [|n IH]; intros s t HR; [exact HR|].
  specialize (Hstep s t HR). cbn [nloop].
  destruct (f s) as [[s'|a]| |], (g t) as [[t'|b]| |]; try done. by apply IH.
Qed.

Lemma loop_sim s t :
  (forall s t, R s t -> in_step (f s) (g t)) -> R s t -> loop g t = (a ← loop f s; mret (h a)).
Proof.
  intros Hstep HR. pose proof (nloop_sim (Pos.to_nat budget) s t Hstep HR) as Hn.
  unfold loop. rewrite !ploop_nloop. unfold in_step in Hn.
  destruct (nloop f _ s) as [[s'|a]| |], (nloop g _ t) as [[t'|b]| |]; try done. by subst.
Qed.
End Simulation.

(** C32. memzero up to an address that is not below its first is memset with 0 of the
    bytes between: on any memory, both write the same bytes in the same order, and
    fail at the same place when an access fails.  From an address above its second
    memzero writes nothing (where the length given to memset would wrap around). *)
Theorem memzero_is_memset {T} `{Store T} (s : T) saddr eaddr :
  0 <= saddr < 2 ^ 32 -> 0 <= eaddr < 2 ^ 32 ->
  memzero saddr eaddr s =
    if saddr <=? eaddr then ('(s, _) ← memset s saddr 0 (eaddr - saddr); mret s) else Ok s.
Proof.
  intros Hs He. destruct (Z.leb_spec saddr eaddr) as [Hle|Hgt]; last first.
  { unfold memzero. apply (leaves_loop _ 1); [|by rewrite budget_eq]. apply leaves_ret.
    by replace (saddr <? eaddr) with false by lia. }
  unfold memset, for_loop, memzero. rewrite (u32_small (eaddr - saddr)) by lia.
  rewrite (loop_sim (fun '(i, s) => if i <? eaddr - saddr
      then s' ← wr8 s (u32 (saddr + i)) 0; mret (inl (i + 1, s')) else mret (inr s))
    (fun '(ptr, s) => if ptr <? eaddr then s ← wr8 s ptr 0; mret (inl (u32 (ptr + 1), s)) else mret (inr s))
    (fun '(i, s) '(ptr, t) => ptr = saddr + i /\ 0 <= ptr < 2 ^ 32 /\ t = s) id (0, s) (saddr, s)).
  - set (l := loop _ _). by destruct l.
  - intros [i u] [ptr t] (-> & Hp & ->).
    replace (saddr + i <? eaddr) with (i <? eaddr - saddr) by (apply eq_true_iff_eq; rewrite !Z.ltb_lt; lia).
    destruct (Z.ltb_spec i (eaddr - saddr)) as [Hlt|Hge]; [|done].
    rewrite (u32_small (saddr + i)) by lia. destruct (wr8 u (saddr + i) 0) as [u'| |]; [|done..].
    unfold in_step. cbn. rewrite u32_small by lia. split; [lia|]. split; [lia|done].
  - split; [lia|]. by split.
Qed.

(** ** What the initialisers write *)

(** A list of writes to registers. *)
Definition writes {S} `{Device S} (l : list (Z * Z)) (s : S) : S :=
  fold_left (fun s '(a, v) => put32 a v s) l s.

(** The function of the pin at place [i] of a function select register. *)
Definition fsel (v i : Z) : Z := v / 2 ^ (3 * i) mod 8.

Lemma delay_ok n : 0 < n < 2 ^ 32 -> delay n = Ok tt.
Proof.
  intros Hn. unfold delay. rewrite u32_small by lia.
  destruct (loop_total (fun r0 => let r0 := u32 (r0 - 1) in if r0 =? 0 then mret (inr tt) else mret (inl r0))
    (fun r => 0 < r < 2 ^ 32) (fun r => r) (fun _ => True) n) as ([] & E & _); [lia|rewrite budget_eq; lia| |done].
  intros r Hr. split; [lia|]. cbv zeta. rewrite u32_small by lia.
  destruct (Z.eqb_spec (r - 1) 0); eexists; (split; [reflexivity|]); [done|split; lia].
Qed.

Lemma fsel_testbit v w i :
  0 <= i -> (forall n, 3 * i <= n < 3 * i + 3 -> Z.testbit v n = Z.testbit w n) -> fsel v i = fsel w i.
Proof.
  intros Hi Hb. unfold fsel. apply Z.bits_inj'. intros n Hn. change 8 with (2 ^ 3).
  destruct (decide (n < 3)).
  - rewrite !Z.mod_pow2_bits_low, <- !Z.shiftr_div_pow2, !Z.shiftr_spec by lia. apply Hb. lia.
  - by rewrite !Z.mod_pow2_bits_high by lia.
Qed.

(** Bits [n] of the words that are written, one bit at a time. *)
Ltac bit_at :=
  rewrite ?Z.lor_spec, ?Z.land_spec;
  repeat match goal with |- context [Z.testbit ?c ?n] =>
    is_ground c; let b := eval vm_compute in (Z.testbit c n) in change (Z.testbit c n) with b end;
  rewrite ?andb_true_r, ?andb_false_r, ?orb_false_r, ?orb_true_r; try reflexivity.

Ltac bits_of_field Hi := match type of Hi with ?a <= ?n < ?b =>
  assert (n = a \/ n = a + 1 \/ n = a + 2) as [-> | [-> | ->]] by lia; bit_at end.

(** The function select register mini_uart_init writes. *)
Definition mini_select (v : Z) : Z :=
  Z.lor (Z.lor (Z.land (Z.land v (u32 (Z.lnot (Z.shiftl 7 12)))) (u32 (Z.lnot (Z.shiftl 7 15))))
    (Z.shiftl 2 12)) (Z.shiftl 2 15).

Lemma mini_select_fields v i :
  0 <= i < 10 -> fsel (mini_select v) i = if decide (i = 4 \/ i = 5) then 2 else fsel v i.
Proof.
  intros Hi. unfold mini_select. case_decide as Hd.
  - transitivity (fsel (Z.lor (Z.shiftl 2 12) (Z.shiftl 2 15)) i); [|by destruct Hd as [-> | ->]].
    apply fsel_testbit; [lia|]. intros n Hn. destruct Hd as [-> | ->]; bits_of_field Hn.
  - apply fsel_testbit; [lia|]. intros n Hn.
    assert (i = 0 \/ i = 1 \/ i = 2 \/ i = 3 \/ i = 6 \/ i = 7 \/ i = 8 \/ i = 9) as Hc by lia.
    repeat destruct Hc as [-> | Hc]; try subst i; bits_of_field Hn.
Qed.

Definition uart_select (v : Z) : Z := Z.lor (Z.lor v (Z.shiftl 7 6)) (Z.shiftl 7 9).

Lemma uart_select_fields v i :
  0 <= i < 10 -> fsel (uart_select v) i = if decide (i = 2 \/ i = 3) then 7 else fsel v i.
Proof.
  intros Hi. unfold uart_select. case_decide as Hd.
  - transitivity (fsel (Z.lor (Z.shiftl 7 6) (Z.shiftl 7 9)) i); [|by destruct Hd as [-> | ->]].
    apply fsel_testbit; [lia|]. intros n Hn. destruct Hd as [-> | ->]; bits_of_field Hn.
  - apply fsel_testbit; [lia|]. intros n Hn.
    assert (i = 0 \/ i = 1 \/ i = 4 \/ i = 5 \/ i = 6 \/ i = 7 \/ i = 8 \/ i = 9) as Hc by lia.
    repeat destruct Hc as [-> | Hc]; try subst i; bits_of_field Hn.
Qed.

Section Uarts.
Context {S : Type} {HS : Store S} {HD : Device S}.
Implicit Types (s : arm S).

(** mini_uart_init gives pins 14 and 15 their alternate function 5 and leaves
    the function of every other pin of the register alone, whatever it held; it
    then writes the registers of pull-up control and of the mini UART in this
    order: baud rate and mode while the transmitter and the receiver are off. *)
Theorem mini_uart_init_programs s v d :
  get32 GPFSEL1 (hw s) = (v, d) ->
  exists sel, mini_uart_init s = Ok (writes
      [(GPFSEL1, sel); (GPPUD, 0); (GPPUDCLK0, 49152); (GPPUDCLK0, 0); (AUX_ENABLES, 1);
       (AUX_MU_CNTL_REG, 0); (AUX_MU_IER_REG, 0); (AUX_MU_LCR_REG, 3); (AUX_MU_MCR_REG, 0);
       (AUX_MU_BAUD_REG, 270); (AUX_MU_CNTL_REG, 3)] (Arm d (cmpval s))) /\
    forall i, 0 <= i < 10 -> fsel sel i = if decide (i = 4 \/ i = 5) then 2 else fsel v i.
Proof.
  intros Hr. exists (mini_select v). split; [|by apply mini_select_fields].
  unfold mini_uart_init, get32 in *. cbn [read_reg arm_device]. rewrite Hr.
  rewrite !(bind_ok _ _ _ (delay_ok 150 ltac:(lia))). reflexivity.
Qed.

(** uart_init does the same for pins 32 and 33, their alternate function 3 and
    the PL011, which it sets to 8 bits and enables last, with the mini UART off. *)
Theorem uart_init_programs s v d :
  get32 GPFSEL3 (hw s) = (v, d) ->
  exists sel, uart_init s = Ok (writes
      [(GPFSEL3, sel); (GPPUD, 0); (GPPUDCLK1, 3); (GPPUDCLK1, 0); (AUX_ENABLES, 0); (UART_ICR, 255);
       (UART_CR, 0); (UART_IBRD, 510); (UART_LCRH, 96); (UART_CR, 769)] (Arm d (cmpval s))) /\
    forall i, 0 <= i < 10 -> fsel sel i = if decide (i = 2 \/ i = 3) then 7 else fsel v i.
Proof.
  intros Hr. exists (uart_select v). split; [|by apply uart_select_fields].
  unfold uart_init, get32 in *. cbn [read_reg arm_device]. rewrite Hr.
  rewrite !(bind_ok _ _ _ (delay_ok 150 ltac:(lia))). reflexivity.
Qed.

(** ** The flags waited for *)

(** A wait that ends, and one that does not. *)
Lemma wait_clear_now reg mask s v d :
  get32 reg (hw s) = (v, d) -> Z.land v mask = 0 -> wait_clear reg mask s = Ok (Arm d (cmpval s)).
Proof.
  intros Hr Hm. unfold wait_clear. apply (leaves_loop _ 1); [|by rewrite budget_eq].
  apply leaves_ret. unfold get32 in *. cbn [read_reg arm_device]. rewrite Hr. by rewrite Hm.
Qed.

Lemma wait_clear_forever reg mask (I : S -> Prop) s :
  I (hw s) -> (forall d, I d -> exists v d', get32 reg d = (v, d') /\ Z.land v mask <> 0 /\ I d') ->
  wait_clear reg mask s = Diverge.
Proof.
  intros Hs Hr. unfold wait_clear. apply (loop_diverges _ (fun s => I (hw s))); [done|].
  intros t Ht. destruct (Hr (hw t) Ht) as (v & d' & E & Hm & Hd). exists (Arm d' (cmpval t)).
  unfold get32 in *. cbn [read_reg arm_device]. rewrite E. split; [|done].
  by replace (Z.land v mask =? 0) with false by lia.
Qed.

(** mini_uart_sendc waits for the transmitter the wrong way round: bit 5 of the
    line status says that it can take a character, and as long as it says so, which
    an idle transmitter does, the function does not come back. *)
Theorem mini_uart_sendc_hangs (idle : S -> Prop) c s :
  (forall d, idle d -> exists v d', get32 AUX_MU_LSR_REG d = (v, d') /\ Z.testbit v 5 = true /\ idle d') ->
  idle (hw s) -> mini_uart_sendc c s = Diverge.
Proof.
  intros Hidle Hs. unfold mini_uart_sendc. apply bind_diverge, (wait_clear_forever _ _ idle); [done|].
  intros d Hd. destruct (Hidle d Hd) as (v & d' & E & Hb & Hd'). exists v, d'. split; [done|]. split; [|done].
  intros Hz. apply (f_equal (fun z => Z.testbit z 5)) in Hz. rewrite Z.land_spec, Hb in Hz. done.
Qed.
End Uarts.

(** *** The PL011

    What its data sheet says of the flag and the data register: bit 5 is set when
    the transmitter is full, bit 6 when the receiver is; a character written to a
    full transmitter is lost.  The transmitter empties on its own, as time passes;
    the receiver is emptied only by reading it, and fills on its own.  Registers are
    not memory.  [sent] is what the transmitter has taken. *)
Class Pl011 (S : Type) `{Store S} `{Device S} := {
  sent : S -> list Z;
  tx_full : S -> bool;
  rx_full : S -> bool;
  read_flags d : exists v d', get32 UART_FR d = (v, d') /\
    Z.testbit v 5 = tx_full d /\ Z.testbit v 6 = rx_full d /\
    sent d' = sent d /\ (tx_full d = false -> tx_full d' = false) /\
    (rx_full d = true -> rx_full d' = true) /\ forall a, rd8 d' a = rd8 d a;
  write_data d c : 0 <= c < 256 ->
    sent (put32 UART_DR c d) = (if tx_full d then sent d else sent d ++ [c]) /\
    forall a, rd8 (put32 UART_DR c d) a = rd8 d a;
}.

Section Pl011.
Context {S : Type} {HS : Store S} {HD : Device S} {HP : Pl011 S}.
Implicit Types (s : arm S).

Lemma land_64 v : Z.land v 64 = 0 <-> Z.testbit v 6 = false.
Proof.
  change 64 with (2 ^ 6). split.
  - intros Hz. apply (f_equal (fun z => Z.testbit z 6)) in Hz. by rewrite Z.land_spec, andb_true_r in Hz.
  - intros Hb. apply Z.bits_inj'. intros n Hn. rewrite Z.land_spec, Z.bits_0.
    destruct (decide (n = 6)) as [->|]; [by rewrite Hb|]. by rewrite Z.pow2_bits_false, andb_false_r by lia.
Qed.

(** The device after a character, which uart_sendc writes once it has read the flags;
    what the transmitter takes of it; and the same of a string.  [room]: whenever the
    flags are read, the receiver is not full. *)
Definition after_send (c : Z) (d : S) : S := put32 UART_DR c (get32 UART_FR d).2.
Definition takes (c : Z) (d : S) : list Z := if tx_full (get32 UART_FR d).2 then [] else [c].

Fixpoint after_sends (l : list Z) (d : S) : S :=
  match l with [] => d | c :: l => after_sends l (after_send c d) end.
Fixpoint taken (l : list Z) (d : S) : list Z :=
  match l with [] => [] | c :: l => takes c d ++ taken l (after_send c d) end.
Fixpoint room (l : list Z) (d : S) : bool :=
  match l with [] => true | c :: l => negb (rx_full d) && room l (after_send c d) end.

Lemma after_send_ok c (d : S) :
  0 <= c < 256 -> sent (after_send c d) = sent d ++ takes c d /\ forall a, rd8 (after_send c d) a = rd8 d a.
Proof.
  intros Hc. destruct (read_flags d) as (v & d' & E & _ & _ & Hs & _ & _ & Hm).
  unfold after_send, takes. rewrite E. cbn [snd]. destruct (write_data d' c Hc) as [Hs' Hm'].
  rewrite Hs', Hs. split; [by destruct (tx_full d'); rewrite ?app_nil_r|].
  intros a. by rewrite Hm', Hm.
Qed.

Lemma uart_sendc_eq c s :
  uart_sendc c s = if rx_full (hw s) then Diverge else Ok (Arm (after_send c (hw s)) (cmpval s)).
Proof.
  destruct (rx_full (hw s)) eqn:Hrx.
  - apply bind_diverge, (wait_clear_forever _ _ (fun d => rx_full d = true)); [done|].
    intros d Hd. destruct (read_flags d) as (v & d' & E & _ & H6 & _ & _ & Hr & _).
    exists v, d'. split; [done|]. split; [|by apply Hr]. intros Hz. apply land_64 in Hz. congruence.
  - destruct (read_flags (hw s)) as (v & d & E & _ & H6 & _).
    unfold uart_sendc. rewrite (bind_ok _ _ _ (wait_clear_now UART_FR 64 s v d E ltac:(apply land_64; congruence))).
    unfold after_send. by rewrite E.
Qed.

(** uart_sendc waits for the wrong flag: a character given to a transmitter that
    is full is lost, although the flag that says so can be read; and with a full
    receiver, which sending does not empty, the function does not come back. *)
Theorem uart_sendc_wrong_flag c s :
  0 <= c < 256 ->
  if rx_full (hw s) then uart_sendc c s = Diverge
  else exists s', uart_sendc c s = Ok s' /\ sent (hw s') = sent (hw s) ++ takes c (hw s).
Proof.
  intros Hc. pose proof (uart_sendc_eq c s) as E. destruct (rx_full (hw s)); [done|].
  eexists. split; [exact E|]. by apply after_send_ok.
Qed.

(** The string at an address. *)
Definition string_at (s : arm S) (a : Z) (l : list Z) : Prop :=
  0 <= a /\ a + Z.of_nat (length l) < 2 ^ 32 /\
  (forall i, (i < length l)%nat -> rd8 s (a + Z.of_nat i) = Ok (nth i l 0)) /\
  Forall (fun c => 0 < c < 256) l /\ rd8 s (a + Z.of_nat (length l)) = Ok 0.

Lemma string_at_tail s a c l : string_at s a (c :: l) -> string_at s (a + 1) l.
Proof.
  intros (H0 & H1 & Hr & Hf & Hz). cbn [length] in *. apply Forall_cons in Hf as [_ Hf].
  split; [lia|]. split; [lia|]. split; [|split; [done|]].
  - intros i Hi. specialize (Hr (Datatypes.S i) ltac:(lia)). cbn in Hr. rewrite <- Hr. f_equal. lia.
  - rewrite <- Hz. f_equal. lia.
Qed.

Lemma string_at_first s a l : string_at s a l -> rd8 s a = Ok (default 0 (head l)).
Proof.
  intros (_ & _ & Hr & _ & Hz). destruct l as [|c l]; cbn in *; [by rewrite Z.add_0_r in Hz|].
  specialize (Hr O ltac:(lia)). by rewrite Z.add_0_r in Hr.
Qed.

(** One round of the loop. *)
Lemma send_round str c c' s :
  0 <= str -> str + 1 < 2 ^ 32 -> 0 <= c < 256 -> rd8 s str = Ok c -> rd8 s (str + 1) = Ok c' ->
  let s1 := Arm (after_send c (hw s)) (cmpval s) in
  send_body uart_sendc (str, s) =
    if rx_full (hw s) then Diverge
    else if negb (c' =? 0) then Ok (inl (str + 1, s1)) else Ok (inr s1).
Proof.
  intros H0 H1 Hc R R' s1. unfold send_body. rewrite (bind_ok _ _ _ R). cbv beta.
  rewrite uart_sendc_eq. destruct (rx_full (hw s)); [done|]. fold s1.
  change (Ok s1 ≫= ?f) with (f s1). cbv beta zeta. rewrite u32_small by lia.
  assert (rd8 s1 (str + 1) = Ok c') as R1 by (rewrite <- R'; by apply (proj2 (after_send_ok c (hw s) Hc))).
  by rewrite (bind_ok _ _ _ R1).
Qed.

Lemma send_leaves l : forall str c s,
  string_at s str (c :: l) ->
  exists n, (n <= Datatypes.S (length l))%nat /\
    leaves (send_body uart_sendc) n (str, s)
      (if room (c :: l) (hw s) then Ok (Arm (after_sends (c :: l) (hw s)) (cmpval s)) else Diverge).
Proof.
  induction l as [|c' l IH]; intros str c s Hs;
    pose proof (string_at_first _ _ _ Hs) as Hf; pose proof (string_at_tail _ _ _ _ Hs) as Ht;
    pose proof (string_at_first _ _ _ Ht) as Hn; pose proof Hs as (H0 & H1 & _ & Hfa & _);
    apply Forall_cons in Hfa as [Hc Hfa]; cbn [length head from_option id] in *;
    pose proof (send_round str c _ s H0 ltac:(lia) ltac:(lia) Hf Hn) as Er; cbn zeta in Er;
    cbn [room after_sends]; destruct (rx_full (hw s)); cbn [negb andb].
  - exists 1%nat. split; [lia|]. by apply leaves_diverge.
  - exists 1%nat. split; [lia|]. by apply leaves_ret.
  - exists 1%nat. split; [lia|]. by apply leaves_diverge.
  - apply Forall_cons in Hfa as [Hc1 _]. replace (c' =? 0) with false in Er by lia.
    destruct (IH (str + 1) c' (Arm (after_send c (hw s)) (cmpval s))) as (n & Hle & Hl).
    { destruct (after_send_ok c (hw s) ltac:(lia)) as [_ M]. destruct Ht as (A0 & A1 & A2 & A3 & A4).
      split; [exact A0|]. split; [exact A1|]. split; [intros i Hi; rewrite <- A2 by done; apply M|].
      split; [exact A3|]. rewrite <- A4. apply M. }
    exists (Datatypes.S n). split; [lia|]. eapply leaves_next; [exact Er|exact Hl].
Qed.

Lemma taken_sent l d : Forall (fun c => 0 < c < 256) l -> sent (after_sends l d) = sent d ++ taken l d.
Proof.
  intros Hl. revert d; induction Hl as [|c l Hc Hl IH]; intros d; cbn [after_sends taken]; [by rewrite app_nil_r|].
  destruct (after_send_ok c d ltac:(lia)) as [Hs _]. by rewrite IH, Hs, app_assoc.
Qed.

(** C35. uart_sendstr, given a string that is not empty: each of its characters, in
    order and without the end, is written once, after one look at the flags; the
    transmitter gets those it has room for when they are written, and the others are
    lost, for the flag that says that it is full is not the one looked at.  If the
    receiver, whose flag that is, is ever found full, the function does not return. *)
Theorem uart_sendstr_sends str c l s :
  string_at s str (c :: l) ->
  if room (c :: l) (hw s) then
    exists s', uart_sendstr str s = Ok s' /\ hw s' = after_sends (c :: l) (hw s) /\
      sent (hw s') = sent (hw s) ++ taken (c :: l) (hw s) /\ cmpval s' = cmpval s
  else uart_sendstr str s = Diverge.
Proof.
  intros Hs. destruct (send_leaves l str c s Hs) as (n & Hn & Hl).
  pose proof Hs as (? & Hb & _ & Hf & _). cbn [length] in Hb.
  apply leaves_loop in Hl; [|rewrite budget_eq; lia]. unfold uart_sendstr, send_chars.
  destruct (room (c :: l) (hw s)); [|exact Hl].
  eexists. split; [exact Hl|]. split; [done|]. split; [by apply taken_sent|done].
Qed.
End Pl011.

(** ** The timer interrupt *)

Section Timer.
Context {S : Type} {HS : Store S} {HD : Device S}.
Context (print : (Z -> arm S -> res (arm S)) -> Z -> arm S -> res (arm S)).
Context (timer_handled some_irq unknown_irq : Z).
Implicit Types (s : arm S).

(** A timer interrupt that is pending together with another one is not handled:
    the handler compares the pending word with the bit, prints that the interrupt
    is unknown and neither clears the timer nor sets the next compare value. *)
Theorem irq_handler_drops_timer s s1 v1 d1 v2 d2 :
  print uart_sendstr some_irq s = Ok s1 ->
  get32 IRQ_PENDING2 (hw s1) = (v2, d2) -> get32 IRQ_PENDING1 d2 = (v1, d1) ->
  0 <= v1 < 2 ^ 32 -> 0 <= v2 -> Z.testbit v1 1 = true -> v1 <> 2 \/ v2 <> 0 ->
  _irq_handler print timer_handled some_irq unknown_irq s =
    (s2 ← print uart_sendstr some_irq (Arm d1 (cmpval s1)); print uart_sendstr unknown_irq s2).
Proof.
  intros Hp E2 E1 H1 H2 _ Hne. unfold _irq_handler. rewrite (bind_ok _ _ _ Hp). cbv beta.
  unfold get32 in *. cbn [read_reg arm_device]. rewrite E2. cbn [hw cmpval]. rewrite E1.
  assert (Z.lor (Z.shiftl v2 32) v1 <> 2) as Hn.
  { rewrite Z.lor_comm, lor_add by lia. lia. }
  replace (Z.lor (Z.shiftl v2 32) v1 =? IRQ_TIMER1) with false; [done|].
  change IRQ_TIMER1 with 2. lia.
Qed.

(** [n] timer interrupts. *)
Fixpoint handled (n : nat) (s : arm S) : res (arm S) :=
  match n with
  | O => mret s
  | Datatypes.S n => s ← irq_timer_handler print timer_handled s; handled n s
  end.

(** The compare values are equally spaced: with a print that returns and leaves
    the variable alone, after [n] timer interrupts the compare value is [10 * n]
    ticks after the first one, modulo 2^32, however late the interrupts were. *)
Theorem compare_values_spaced n s :
  (forall str t, exists t', print uart_sendstr str t = Ok t' /\ cmpval t' = cmpval t) ->
  0 <= cmpval s < 2 ^ 32 ->
  exists s', handled n s = Ok s' /\ cmpval s' = u32 (cmpval s + interval * Z.of_nat n).
Proof.
  intros Hp. revert s; induction n as [|n IH]; intros s Hs.
  { exists s. split; [done|]. rewrite Z.mul_0_r, Z.add_0_r. by rewrite u32_small. }
  cbn [handled]. unfold irq_timer_handler, clear_timer. rewrite shl1_ok by lia. bnd.
  match goal with |- context [print uart_sendstr timer_handled ?t] =>
    destruct (Hp timer_handled t) as (t' & E & Hc) end.
  rewrite (bind_ok _ _ _ E). cbv beta. cbn [cmpval put32 write_reg arm_device] in Hc.
  destruct (IH t') as (s' & E' & Hc').
  { rewrite Hc. apply u32_range. }
  exists s'. split; [done|]. rewrite Hc', Hc. unfold u32. rewrite Zplus_mod_idemp_l. f_equal.
  unfold interval. lia.
Qed.
End Timer.

(** ** The register map *)

(** No two names of registers denote the same register, and all of them are
    aligned words. *)
Lemma registers_distinct : NoDup registers /\ Forall (fun a => a mod 4 = 0 /\ 0 <= a < 2 ^ 32) registers.
Proof. split; apply (bool_decide_unpack _); by vm_compute. Qed.
