(* ===== verification/ArmBoot.v ===== *)
(** * boot/arm/boot.s, util.s and drivers/irq.s: the start of the ARM port

    The processor state that these files move: the number of the core, the status
    register and the stack pointer.  [kernel_main] of the ARM port is not in the
    repository and is a parameter, as are the addresses the linker script defines. *)

From S2P Require Export ArmProps.
From stdpp Require Import strings.

#[local] Open Scope Z_scope.

Record arm_cpu (S : Type) := ArmCpu { mpidr : Z; cpsr : Z; arm_sp : Z; memory : S }.
Arguments ArmCpu {S} _ _ _ _.
Arguments mpidr {S} _.
Arguments cpsr {S} _.
Arguments arm_sp {S} _.
Arguments memory {S} _.

(** The current mode: the five low bits of CPSR. *)
Definition get_mode {S} (s : arm_cpu S) : Z := Z.land (cpsr s) 31.

(** cpsie i, cpsid i: bit 7 masks interrupts. *)
Definition irq_enable {S} (s : arm_cpu S) : arm_cpu S :=
  ArmCpu (mpidr s) (Z.ldiff (cpsr s) 128) (arm_sp s) (memory s).
Definition irq_disable {S} (s : arm_cpu S) : arm_cpu S :=
  ArmCpu (mpidr s) (Z.lor (cpsr s) 128) (arm_sp s) (memory s).

(** The vectors, one word each. *)
Inductive vector := Branch (handler : string) | Nop.
Definition vectors : list vector :=
  [Branch "_reset"; Branch "_undefined_handler"; Branch "_supervisor_call"; Branch "_prefetch_abort_handler";
   Branch "_data_abort_handler"; Nop; Branch "_irq_handler"]%string.

(** Where execution from a vector gets to. *)
Fixpoint dispatch (l : list vector) : option string :=
  match l with
  | Branch h :: _ => Some h
  | Nop :: l => dispatch l
  | [] => None
  end.

Section Reset.
Context {S : Type} {HS : Store S}.
Context (stack_top sbss ebss : Z) (kernel_main : arm_cpu S -> res (arm_cpu S)).

(** [halt: b halt] *)
Definition arm_halt (s : arm_cpu S) : res (arm_cpu S) := loop (fun s => mret (inl s)) s.

Definition _reset (s : arm_cpu S) : res (arm_cpu S) :=
  (* Shutoff extra cores *)
  if negb (Z.land (mpidr s) 3 =? 0) then arm_halt s
  else
    (* BSS clear *)
    m ← memzero sbss ebss (memory s);
    (* Call kernel *)
    s ← kernel_main (ArmCpu (mpidr s) (cpsr s) stack_top m);
    arm_halt s.
End Reset.

(** ** Properties *)

Lemma irq_masked {S} (s : arm_cpu S) :
  Z.testbit (cpsr (irq_enable s)) 7 = false /\ Z.testbit (cpsr (irq_disable s)) 7 = true /\
  get_mode (irq_enable s) = get_mode s /\ get_mode (irq_disable s) = get_mode s.
Proof.
  unfold irq_enable, irq_disable, get_mode. cbn [cpsr]. split_and!.
  - rewrite Z.ldiff_spec. apply andb_false_r.
  - rewrite Z.lor_spec. apply orb_true_r.
  - apply Z.bits_inj. intros i. rewrite !Z.land_spec, Z.ldiff_spec. change 31 with (Z.ones 5). change 128 with (2 ^ 7).
    destruct (decide (0 <= i < 5)).
    + rewrite Z.pow2_bits_false by lia. by rewrite andb_true_r.
    + destruct (decide (i < 0)); [by rewrite !Z.testbit_neg_r by lia|]. by rewrite Z.ones_spec_high, !andb_false_r by lia.
  - rewrite Z.land_lor_distr_l. change (Z.land 128 31) with 0. apply Z.lor_0_r.
Qed.

Section ResetProps.
Context {S : Type} {HS : Store S} {win : Z -> Prop} {HW : Window S win}.

Lemma memzero_ok (s : S) saddr eaddr :
  0 <= saddr <= eaddr -> eaddr < 2 ^ 32 -> in_win win saddr (eaddr - saddr) ->
  exists s', memzero saddr eaddr s = Ok s' /\ outside s s' /\
    forall a, win a -> view s' a = if decide (saddr <= a < eaddr) then 0 else view s a.
Proof.
  intros H0 H1 (_ & _ & Hw).
  apply (loop_total _ (fun '(p, t) => saddr <= p <= eaddr /\ outside s t /\
    forall a, win a -> view t a = if decide (saddr <= a < p) then 0 else view s a) (fun '(p, _) => eaddr - p)).
  - split; [lia|]. split; [reflexivity|]. intros a _. by rewrite decide_False by lia.
  - rewrite budget_eq. lia.
  - intros [p t] (Hp & Ot & Vt). split; [lia|]. destruct (Z.ltb_spec p eaddr) as [Hlt|Hge].
    + assert (win p) as Hwp by (apply Hw; lia). rewrite (bind_ok _ _ _ (wr8_win t p 0 Hwp)), u32_small by lia.
      eexists. split; [reflexivity|]. split; [|lia]. split; [lia|]. split; [etrans; [done|by apply outside_poke]|].
      intros a Ha. rewrite view_poke, Vt by done. repeat case_decide; (done || lia).
    + exists (inr t). split; [done|]. split; [done|]. by replace eaddr with p by lia.
Qed.

Context (stack_top sbss ebss : Z) (kernel_main : arm_cpu S -> res (arm_cpu S)).

(** Only core 0 starts the kernel: with its stack and with the variables that C takes
    for zero cleared, and nothing else written.  The other cores stop at once, and so
    does core 0 when the kernel comes back. *)
Theorem reset_enters_kernel (s : arm_cpu S) :
  0 <= sbss <= ebss -> ebss < 2 ^ 32 -> in_win win sbss (ebss - sbss) ->
  (Z.land (mpidr s) 3 <> 0 -> _reset stack_top sbss ebss kernel_main s = Diverge) /\
  (Z.land (mpidr s) 3 = 0 -> exists m,
     _reset stack_top sbss ebss kernel_main s
       = (s' ← kernel_main (ArmCpu (mpidr s) (cpsr s) stack_top m); Diverge) /\ outside (memory s) m /\
     forall a, win a -> view m a = if decide (sbss <= a < ebss) then 0 else view (memory s) a).
Proof.
  intros H0 H1 Hw. assert (forall t : arm_cpu S, arm_halt t = Diverge) as Hh
    by (intros t; unfold arm_halt; apply (loop_diverges _ (fun _ => True)); [done|]; intros u _; by exists u).
  unfold _reset. split; intros Hc.
  - destruct (Z.eqb_spec (Z.land (mpidr s) 3) 0); [done|]. apply Hh.
  - rewrite Hc. cbn [Z.eqb negb].
    destruct (memzero_ok (memory s) sbss ebss) as (m & E & O & V); [done..|].
    exists m. split; [|by split]. rewrite (bind_ok _ _ _ E).
    destruct (kernel_main _) as [s'| |]; bnd; [apply Hh|done..].
Qed.
End ResetProps.
