(* ===== verification/ArmWitness.v ===== *)
(** * A board on which the theorems on the ARM drivers apply *)

From S2P Require Export ArmProps.

#[local] Open Scope Z_scope.

(** Memory, registers, and the characters the PL011 has taken: a slow one without a
    FIFO, full from the first on; the mini UART is idle, the timer and another
    interrupt are pending. *)
Record board := Board { b_mem : Z -> Z; b_regs : Z -> Z; b_sent : list Z }.

#[export] Instance board_store : Store board := {
  rd8 b a := Ok (u8 (b_mem b a));
  wr8 b a v := Ok (Board (fun x => if x =? a then v else b_mem b x) (b_regs b) (b_sent b));
}.

Definition b_full (b : board) : bool := match b_sent b with [] => false | _ => true end.

#[export] Instance board_device : Device board := {
  read_reg a b :=
    (if a =? UART_FR then (if b_full b then 32 else 0) else if a =? AUX_MU_LSR_REG then 96 else if a =? IRQ_PENDING1 then 10
     else if a =? IRQ_PENDING2 then 0 else b_regs b a, b);
  write_reg a v b :=
    if a =? UART_DR then (if b_full b then b else Board (b_mem b) (b_regs b) (b_sent b ++ [u8 v]))
    else Board (b_mem b) (fun x => if x =? a then v else b_regs b x) (b_sent b);
}.

#[export] Program Instance board_pl011 : Pl011 board := {
  sent := b_sent; tx_full := b_full; rx_full _ := false }.
Next Obligation.
  intros d. exists (if b_full d then 32 else 0), d. split; [done|].
  split; [by destruct (b_full d)|]. by destruct (b_full d).
Qed.
Next Obligation.
  intros d c Hc.
  change (put32 UART_DR c d) with
    (if b_full d then d else Board (b_mem d) (b_regs d) (b_sent d ++ [u8 (u32 c)])).
  destruct (b_full d); [done|]. by rewrite (u32_small c), u8_small by lia.
Qed.

Definition sample_board : arm board :=
  Arm (Board (fun a => if a =? 100 then 72 else if a =? 101 then 105 else 0) (fun _ => 305419896) []) 0.

Lemma memzero_is_memset_witness :
  memzero 100 101 (hw sample_board) =
    if 100 <=? 101 then ('(s, _) ← memset (hw sample_board) 100 0 (101 - 100); mret s) else Ok (hw sample_board).
Proof. apply memzero_is_memset; lia. Defined.

Lemma mini_uart_init_programs_witness :
  exists sel, mini_uart_init sample_board = Ok (writes
      [(GPFSEL1, sel); (GPPUD, 0); (GPPUDCLK0, 49152); (GPPUDCLK0, 0); (AUX_ENABLES, 1);
       (AUX_MU_CNTL_REG, 0); (AUX_MU_IER_REG, 0); (AUX_MU_LCR_REG, 3); (AUX_MU_MCR_REG, 0);
       (AUX_MU_BAUD_REG, 270); (AUX_MU_CNTL_REG, 3)] (Arm (hw sample_board) 0)) /\
    forall i, 0 <= i < 10 -> fsel sel i = if decide (i = 4 \/ i = 5) then 2 else fsel 305419896 i.
Proof. by apply mini_uart_init_programs. Defined.

Lemma uart_init_programs_witness :
  exists sel, uart_init sample_board = Ok (writes
      [(GPFSEL3, sel); (GPPUD, 0); (GPPUDCLK1, 3); (GPPUDCLK1, 0); (AUX_ENABLES, 0); (UART_ICR, 255);
       (UART_CR, 0); (UART_IBRD, 510); (UART_LCRH, 96); (UART_CR, 769)] (Arm (hw sample_board) 0)) /\
    forall i, 0 <= i < 10 -> fsel sel i = if decide (i = 2 \/ i = 3) then 7 else fsel 305419896 i.
Proof. by apply uart_init_programs. Defined.

Lemma mini_uart_sendc_hangs_witness : mini_uart_sendc 65 sample_board = Diverge.
Proof.
  apply (mini_uart_sendc_hangs (fun _ => True)); [|done]. intros d _. by exists 96, d.
Defined.

Lemma uart_sendc_wrong_flag_witness :
  if rx_full (hw sample_board) then uart_sendc 65 sample_board = Diverge
  else exists s', uart_sendc 65 sample_board = Ok s' /\
    sent (hw s') = sent (hw sample_board) ++ takes 65 (hw sample_board).
Proof. apply (uart_sendc_wrong_flag 65 sample_board). lia. Defined.

(** Of the two characters the first is taken. *)
Lemma uart_sendstr_sends_witness :
  exists s', uart_sendstr 100 sample_board = Ok s' /\ hw s' = after_sends [72; 105] (hw sample_board) /\
    sent (hw s') = [] ++ [72] /\ cmpval s' = cmpval sample_board.
Proof.
  assert (string_at sample_board 100 [72; 105]) as Hs; [|exact (uart_sendstr_sends 100 72 [105] sample_board Hs)].
  split; [lia|]. split; [cbn; lia|]. split; [|split; [repeat constructor; lia|by vm_compute]].
  intros [|[|i]] Hi; [by vm_compute..|cbn in Hi; lia].
Defined.

(** A print that does nothing. *)
Definition quiet (outb : Z -> arm board -> res (arm board)) (str : Z) (s : arm board) : res (arm board) := mret s.

Lemma irq_handler_drops_timer_witness :
  _irq_handler quiet 0 0 0 sample_board =
    (s2 ← quiet uart_sendstr 0 (Arm (hw sample_board) 0); quiet uart_sendstr 0 s2).
Proof.
  apply (irq_handler_drops_timer quiet 0 0 0 sample_board sample_board 10 (hw sample_board) 0 (hw sample_board));
    try done; lia.
Defined.

Lemma compare_values_spaced_witness :
  exists s', handled quiet 0 3 sample_board = Ok s' /\
    cmpval s' = u32 (cmpval sample_board + interval * Z.of_nat 3).
Proof. apply compare_values_spaced; [|cbn; lia]. intros str t. by exists t. Defined.
